(* ===== verification/_CoqProject ===== *)
-Q . S2P
Prelude.v
Bytes.v
CString.v
Bitmap.v
Interrupt.v
LinkedList.v
Paging.v
PageTable.v
PageMap.v
Words.v
Ports.v
Print.v
Stdio.v
Descriptors.v
LibraryTheorems.v
OutputTheorems.v
Kernel.v
ReadyQueues.v
Sched.v
Machine.v
Sync.v
Mutex.v
Console.v
Idt.v
Memory.v
Heap.v
HeapMachine.v
MemInit.v
Ioqueue.v
Keyboard.v
Timer.v
Thread.v
ThreadSpec.v
ThreadRun.v
SchedInit.v
Process.v
PageDir.v
AddressSpace.v
ProcessRun.v
NewTable.v
UserPage.v
ProcessEntry.v
FreshProcess.v
Init.v
Boot.v
Main.v
UserMode.v
Entry.v
EntrySpec.v
Switching.v
Typing.v
KernelTyping.v
MainTurns.v
SchedTheorems.v
EntryTheorems.v
SyncTheorems.v
MemoryTheorems.v
DeviceTheorems.v
ThreadTheorems.v
BootTheorems.v
InitTheorems.v
ProcessTheorems.v
UserTheorems.v
SystemTheorems.v
