(* ===== verification/Prelude.v ===== *)
(** * The os_i386 kernel, verified

    os_i386 is a small kernel for the i386: threads with priorities and time
    slices, semaphores and mutexes, paged memory, a text console, a keyboard,
    user processes with one system call.  This library models its C code and
    proves what makes it correct.  The files under [src/] are the source.

    ** How the model relates to the code

    A C function is a definition of the same name, in a monad over a state type
    ([M], in this file): [Ok] with a value and the new state, [Panic] for an
    assertion that fails or an empty endless loop, [Fault] for an access to memory
    or to an object that is not there, and [Switched] when the calling thread
    gave the processor away.  A function runs on the part of the
    state it touches; [zoom] lifts it to the kernel.

    - Integers are [Z]; the wrap-around of the C types is written out ([u8],
      [u16], [u32], [i8], [i32]).
    - Memory that the code uses as bytes (strings, bitmaps, the screen, page
      tables, pages of the heap, stacks of new threads) is a paged memory:
      physical bytes, translated for each access by the two-level walk of the
      processor from CR3 ([Paging.translate]).
    - Structures are typed objects at their addresses ([Kernel.kernel]): list
      nodes, control blocks, semaphores, mutexes, pools, ring buffers.  The
      addresses of the global ones are those of [build/kernel.map].
    - The processor's state the code depends on is state: EFLAGS, CR3, IDT, GDT,
      TSS, their registers, the cursor of the screen, the log of port writes.
    - A loop is a recursion on its bound, or has fuel where the C loop has none
      (listed below).

    ** The files

    - [Prelude] integers, results and the monad, its reasoning rules ([wp]).
      [Bytes] the interface [ByteMem] of a byte memory, and a flat one that has
      it; [CString] [lib/string.c]; [Bitmap] [lib/kernel/bitmap.c]; [LinkedList]
      [lib/kernel/list.c]; [Stdio] [lib/stdio.c]; [Ports] [lib/kernel/io.h];
      [Print] [lib/kernel/print.c].
    - [Paging] the processor's translation, with the instance of [ByteMem] it
      gives; [PageTable] the page-table arithmetic of [kernel/memory.c];
      [PageMap] what the writing of one entry changes; [Words] words and frames
      of words in memory.
    - [Descriptors] gates, segments and [tss], and what the processor decodes
      from their bytes; [Interrupt] the interrupt flag; [Idt] the rest of
      [kernel/interrupt.c], with [user/tss.c] and [user/syscall_init.c].
    - [Kernel] the state; [ReadyQueues] the abstract scheduler, a list of 32
      queues; [Sched] [thread/thread.c] and [process_activate]; [Sync]
      [thread/sync.c]; [Mutex] threads that share a mutex, as a transition
      system whose steps run the statements of [Sync] and the clock interrupt; [Timer]
      [device/timer.c] and stretches of clock interrupts.
    - [Memory] [kernel/memory.c]; [Heap] its specification for the kernel's
      pools, by the invariant [heap_rep]; [MemInit] [mem_init].
    - [Console] messages, [device/console.c], [kernel/debug.c]; [Ioqueue]
      [device/ioqueue.c]; [Keyboard] [device/keyboard.c].
    - [Thread] the creation of threads in [thread/thread.c] with the loading of
      a context of [thread/switch.s]; [ThreadSpec], [ThreadRun] its
      specification, by the invariant [kernel_ok] of the whole kernel;
      [SchedInit] the start of the scheduler.
    - [Process] [user/process.c]; [PageDir] the specification of
      [page_dir_create]; [AddressSpace] a new directory is one more the kernel may
      load; [ProcessRun] the specification of [process_run].
    - [NewTable] [v2p_mapping] of a page without a table; [UserPage]
      [target_vaddr_malloc], with the invariant [user_frames_ok] of the frames
      for users; [ProcessEntry] [process_entry]; [FreshProcess] a process
      from [process_run] to its first instruction, across whatever else the
      kernel does in between.
    - [Init] [kernel/init.c] and [kernel/main.c]; [Boot], [Main] their
      specification from the state the loader leaves; [UserMode] the processes
      of [main] in user mode.
    - [Entry] the assembly of [kernel/kernel.s] and [thread/switch.s]: the entry
      of every interrupt and of a system call, [task_trap], and the ways back;
      [EntrySpec] contexts as words on a stack; [Switching] threads that give
      each other the processor, with their contexts, as a transition system
      whose steps run the clock interrupt, [thread_block] and [thread_unblock].
    - [Typing] the C types of the state, as predicates, with the rules by which a
      function keeps them; [KernelTyping] each function [main] runs does;
      [MainTurns] with their help: the state after [main] is one [Switching]
      goes on from.
    - [Machine], [HeapMachine] concrete memories and kernels, on which the
      theorems are instantiated.

    ** The theorems

    They are in the files whose names end in [Theorems], each followed by an
    instance at a concrete state.

    - [LibraryTheorems], [OutputTheorems]: strings, bitmaps (first run of free
      bits, read after write), lists as queues, critical sections that nest; the
      screen against an abstract screen, numbers printed and read back.
    - [SchedTheorems]: the scheduler refines [ReadyQueues] - the end of a slice,
      blocking, waking - and every ready thread runs within a bounded number of
      clock interrupts; [addr_v2p] is the processor's walk.
    - [EntryTheorems]: whatever the threads do in between, each continues with
      the context with which it gave the processor away; an interrupted thread
      gets the processor back within a bounded number of clock interrupts; a
      system call changes [eax] and nothing else.
    - [SyncTheorems]: the exact effect of the semaphore operations; in every
      reachable state of [Mutex] at most one thread is in the critical section,
      no wake-up is lost, and releasing never fails.
    - [MemoryTheorems]: mapping a page and allocating pages, with and without
      enough room, and what both leave unchanged.
    - [DeviceTheorems]: the ring buffer is a queue; text typed on a US keyboard
      arrives in it; no byte the keyboard can send does any harm while there is
      room, and what happens when there is none.
    - [ThreadTheorems]: starting a thread keeps the kernel's invariant, and the
      thread starts at its function.
    - [BootTheorems], [InitTheorems]: what the processor finds in its tables; the
      division of the memory; from any state the loader can leave, [init_all]
      returns with the invariant.
    - [ProcessTheorems]: a new page directory shares the kernel's half; starting
      a process keeps the kernel's invariant for one more address space, and the
      process starts in a space of its own; [main] as a whole: it starts the
      threads and processes and comes to its loop.
    - [UserTheorems]: a page for a process, with and without a frame left; a
      process enters its program with a stack of its own; the two processes of
      [main] do, and neither reaches the other's stack.
    - [SystemTheorems]: from the loop of [main] on every switch keeps the
      contexts, and while the threads only compute and the clock ticks, each
      thread [main] started gets the processor within a stated number of clock
      interrupts.

    ** Fuel and bounds

    A loop with a counter recurs on the counter.  The others have fuel, and end
    in [Fuel] without it:
    - the string functions and [put_str] take it as an argument; their theorems
      hold for any fuel greater than the length of the string, so they show that
      the loops end;
    - [bitmap_scan] has one step more than the bitmap has bits, a walk along a
      list one step for each node there is; the theorems show that it is enough;
    - [wait_while] of [ioqueue.c] has two rounds: the first one gives up the
      processor, so there is no second one in the same run.
    The endless loops of [main.c] are [print_forever n], any number [n] of
    iterations; [while (1);] is the result [Panic].  [mem_init] and what
    builds on it assume that the bitmaps end below the page of the stack of the
    first thread, which holds up to about 340 MB of memory.

    ** What is not modelled

    - The boot loader, 16- and 32-bit assembly that runs before the kernel; the
      page tables and segments it leaves are an assumption ([Boot.boot_state]).
      The theorems about processes assume more of the memory it leaves: the free
      frames of the kernel's pool hold no present directory entry
      ([ProcessRun.spawnable]), as [page_dir_create] does not clear a new
      directory, and the users' frames are in no address space
      ([Main.users_spare]).
    - Of the stacks, the frames of the C functions: the model has the words the
      assembly pushes and pops, and that a running thread writes nothing but its
      own page and memory that belongs to no thread ([Switching.Work]).
    - The run of user code in its own address space; a process is followed up to
      the point where the processor enters user mode.
    - Interrupts in the loop of [main]: [main] is run up to its loop and [n]
      iterations further in one go.  [SystemTheorems] is about what comes from
      the loop's first moment on, with interrupts, as long as no thread waits for
      a semaphore: [Switching] has no step for that, [Mutex] has.
    - Interrupts between the statements of [process_entry]: kernel_thread_entry
      has let them in, and one that came before [stack_top] is read would change
      it.  The theorems are about runs without one; those about several processes
      let the scheduler's [dispatch_to] follow directly.
    - Privileges: the translation does not look at the U/S and R/W bits, and the
      ports work for [process1] and [process2] too, where the processor stops
      the [outb] of [put_int].
    - Caches of the processor (the kernel only makes absent entries present and
      reloads CR3), and devices beyond the ports the code writes and reads.
    - The padding and layout of structures that no code looks at as bytes.
    - [outsw] and [insw]: used nowhere.  [user_pages_malloc] is a definition
      without theorems; nothing calls it.
*)

From stdpp Require Export base numbers list list_numbers gmap strings.
From Stdlib Require Export ZArith Lia.

#[global] Open Scope Z_scope.
#[global] Set Default Goal Selector "!".

(** ** Machine integers

    A C integer is a [Z]; the conversions below are the wrap-around of the
    unsigned types of [lib/stdint.h] and the two's complement reading of the
    signed ones. *)
Module Word.

Definition u8 (z : Z) : Z := z mod 2 ^ 8.
Definition u16 (z : Z) : Z := z mod 2 ^ 16.
Definition u32 (z : Z) : Z := z mod 2 ^ 32.
Definition u64 (z : Z) : Z := z mod 2 ^ 64.
Definition i8 (z : Z) : Z := (z + 2 ^ 7) mod 2 ^ 8 - 2 ^ 7.
Definition i32 (z : Z) : Z := (z + 2 ^ 31) mod 2 ^ 32 - 2 ^ 31.

(** A C condition: any value but 0 is true; a C truth value is 1 or 0. *)
Definition truth (z : Z) : bool := negb (z =? 0).
Definition of_bool (b : bool) : Z := if b then 1 else 0.

End Word.
Export Word.

(** [bits_of n z]: [z] fits in an unsigned integer of [n] bits. *)
Abbreviation is_u8 z := (0 <= z < 256).
Abbreviation is_u16 z := (0 <= z < 65536).
Abbreviation is_u32 z := (0 <= z < 4294967296).

Create HintDb word.
Create Rewrite HintDb word.

(** Arithmetic with [/] and [mod] by constants. *)
Ltac zdiv_lia := Z.div_mod_to_equations; lia.
(** Unfold the conversions and decide. *)
Ltac word_lia := unfold u8, u16, u32, u64, i8, i32 in *; zdiv_lia.

Lemma u8_small z : is_u8 z -> u8 z = z.
Proof. intros. apply Z.mod_small. lia. Qed.
Lemma u16_small z : is_u16 z -> u16 z = z.
Proof. intros. apply Z.mod_small. lia. Qed.
Lemma u32_small z : is_u32 z -> u32 z = z.
Proof. intros. apply Z.mod_small. lia. Qed.
Lemma u8_range z : is_u8 (u8 z).
Proof. apply (Z.mod_pos_bound z 256). lia. Qed.
Lemma u16_range z : is_u16 (u16 z).
Proof. apply (Z.mod_pos_bound z 65536). lia. Qed.
Lemma u32_range z : is_u32 (u32 z).
Proof. apply (Z.mod_pos_bound z 4294967296). lia. Qed.
Lemma i8_small z : -128 <= z < 128 -> i8 z = z.
Proof. intros. word_lia. Qed.
Lemma i32_small z : -2147483648 <= z < 2147483648 -> i32 z = z.
Proof. intros. word_lia. Qed.
Lemma i32_range z : -2147483648 <= i32 z < 2147483648.
Proof. word_lia. Qed.

#[export] Hint Resolve u8_range u16_range u32_range i32_range : word.
#[export] Hint Rewrite u8_small u16_small u32_small i8_small i32_small
  using solve [lia | auto with word] : word.

(** [wsimp]: drop the conversions that are the identity here. *)
Ltac wsimp := autorewrite with word.
Tactic Notation "wsimp" "in" hyp(H) := autorewrite with word in H.

Lemma truth_of_bool b : truth (of_bool b) = b.
Proof. by destruct b. Qed.
#[export] Hint Rewrite truth_of_bool : word.

(** ** Bits *)

Lemma testbit_u8_high z i : is_u8 z -> 8 <= i -> Z.testbit z i = false.
Proof.
  intros Hz Hi. rewrite <- (Z.mod_small z (2 ^ 8)) by lia.
  by apply Z.mod_pow2_bits_high.
Qed.

(** A bounded number is determined by its low bits. *)
Lemma bits_inj_below n a b :
  0 <= n -> 0 <= a < 2 ^ n -> 0 <= b < 2 ^ n ->
  (forall i, 0 <= i < n -> Z.testbit a i = Z.testbit b i) -> a = b.
Proof.
  intros Hn Ha Hb H. apply Z.bits_inj'. intros i Hi.
  destruct (Z.lt_ge_cases i n) as [|Hge]; [by apply H; lia|].
  rewrite <- (Z.mod_small a (2 ^ n)), <- (Z.mod_small b (2 ^ n)) by lia.
  by rewrite !Z.mod_pow2_bits_high by lia.
Qed.

Lemma testbit_shiftl_1 k i : 0 <= k -> Z.testbit (Z.shiftl 1 k) i = bool_decide (i = k).
Proof.
  intros Hk. rewrite Z.shiftl_1_l.
  destruct (bool_decide_reflect (i = k)) as [->|Hne].
  - by apply Z.pow2_bits_true.
  - by apply Z.pow2_bits_false.
Qed.

Lemma lor_range n a b :
  0 <= n -> 0 <= a < 2 ^ n -> 0 <= b < 2 ^ n -> 0 <= Z.lor a b < 2 ^ n.
Proof.
  intros Hn Ha Hb. split; [by apply Z.lor_nonneg; lia|].
  destruct (decide (Z.lor a b = 0)) as [->|]; [by apply Z.pow_pos_nonneg; lia|].
  assert (0 <= Z.lor a b) by (apply Z.lor_nonneg; lia).
  apply Z.log2_lt_pow2; [lia|]. rewrite Z.log2_lor by lia.
  destruct (decide (a = 0)) as [->|], (decide (b = 0)) as [->|];
    rewrite ?Z.lor_0_l, ?Z.lor_0_r in *; try lia.
  - assert (Z.log2 b < n) by (apply Z.log2_lt_pow2; lia). simpl (Z.log2 0).
    pose proof (Z.log2_nonneg b). lia.
  - assert (Z.log2 a < n) by (apply Z.log2_lt_pow2; lia). simpl (Z.log2 0).
    pose proof (Z.log2_nonneg a). lia.
  - apply Z.max_lub_lt; apply Z.log2_lt_pow2; lia.
Qed.

Lemma land_range_l n a b : 0 <= n -> 0 <= a < 2 ^ n -> 0 <= Z.land a b < 2 ^ n.
Proof.
  intros Hn Ha.
  assert (Hb : Z.land a b = Z.land a b mod 2 ^ n).
  { apply Z.bits_inj'. intros i Hi. destruct (Z.lt_ge_cases i n).
    - by rewrite Z.mod_pow2_bits_low.
    - rewrite Z.mod_pow2_bits_high, Z.land_spec by lia.
      rewrite <- (Z.mod_small a (2 ^ n)) by lia.
      by rewrite Z.mod_pow2_bits_high by lia. }
  rewrite Hb. apply Z.mod_pos_bound. apply Z.pow_pos_nonneg; lia.
Qed.

(** Disjoint bit fields: [or] is addition. *)
Lemma lor_disjoint_add a b n :
  0 <= n -> 0 <= b < 2 ^ n -> Z.lor (Z.shiftl a n) b = Z.shiftl a n + b.
Proof.
  intros Hn Hb. rewrite <- (Z.add_lor_land (a ≪ n) b).
  enough (Z.land (a ≪ n) b = 0) as -> by lia. apply Z.bits_inj'. intros i Hi.
  rewrite Z.land_spec, Z.shiftl_spec, Z.bits_0 by lia.
  destruct (Z.lt_ge_cases i n).
  - by rewrite Z.testbit_neg_r by lia.
  - rewrite <- (Z.mod_small b (2 ^ n)), Z.mod_pow2_bits_high by lia.
    by rewrite andb_false_r.
Qed.

(** ** C functions as state transformers

    A C function is a function from the state it runs in to a [result]:
    - [Ok a s]: it returns [a] and leaves the state [s];
    - [Switched s]: inside it the thread gave the processor away
      ([thread_block]); [s] is the state in which the next thread resumes, and
      the rest of the function runs when the thread is scheduled again;
    - [Panic c]: an [ASSERT] or [PANIC] failed ([panic_spin] never returns);
    - [Fault]: it touched memory that is no object of the model, or divided by
      zero (undefined behaviour in C);
    - [Fuel]: a loop did not finish within the iterations it was given. *)
Inductive result (S A : Type) : Type :=
| Ok (a : A) (s : S)
| Switched (s : S)
| Panic (cond : string)
| Fault
| Fuel.
Arguments Ok {S A} a s.
Arguments Switched {S A} s.
Arguments Panic {S A} cond.
Arguments Fault {S A}.
Arguments Fuel {S A}.

Definition M (S A : Type) : Type := S -> result S A.

#[export] Instance M_ret {S} : MRet (M S) := fun A a s => Ok a s.
#[export] Instance M_bind {S} : MBind (M S) := fun A B k m s =>
  match m s with
  | Ok a s' => k a s'
  | Switched s' => Switched s'
  | Panic c => Panic c
  | Fault => Fault
  | Fuel => Fuel
  end.

Section Monad.
Context {S : Type}.

Definition panic {A} (cond : string) : M S A := fun _ => Panic cond.
Definition fault {A} : M S A := fun _ => Fault.
Definition out_of_fuel {A} : M S A := fun _ => Fuel.
Definition switch_away {A} : M S A := fun s => Switched s.
Definition gets {A} (f : S -> A) : M S A := fun s => Ok (f s) s.
Definition modify (f : S -> S) : M S unit := fun s => Ok tt (f s).

(** [ASSERT(cond)] of [kernel/debug.h]. *)
Definition ASSERT (cond : bool) (text : string) : M S unit :=
  if cond then mret tt else panic text.

(** An access through a pointer: it faults where there is no object. *)
Definition deref {A} (f : S -> option A) : M S A :=
  fun s => match f s with Some a => Ok a s | None => Fault end.
Definition update (f : S -> option S) : M S unit :=
  fun s => match f s with Some s' => Ok tt s' | None => Fault end.

(** [for (i = from; i < from + n; i++) body(i)]. *)
Fixpoint for_upto (from : Z) (n : nat) (body : Z -> M S unit) : M S unit :=
  match n with
  | O => mret tt
  | Datatypes.S n' => body from;; for_upto (from + 1) n' body
  end.

(** ** Total correctness

    [wp m s Q]: from [s], [m] returns (it neither faults, nor panics, nor
    switches, nor runs out of fuel), and its value and final state satisfy
    [Q]. *)
Definition wp {A} (m : M S A) (s : S) (Q : A -> S -> Prop) : Prop :=
  match m s with Ok a s' => Q a s' | _ => False end.

Lemma wp_ret {A} (a : A) s (Q : A -> S -> Prop) : Q a s -> wp (mret a) s Q.
Proof. done. Qed.

Lemma wp_bind {A B} (m : M S A) (k : A -> M S B) s Q :
  wp m s (fun a s' => wp (k a) s' Q) -> wp (m ≫= k) s Q.
Proof. unfold wp, mbind, M_bind. by destruct (m s). Qed.

Lemma wp_mono {A} (m : M S A) s (Q R : A -> S -> Prop) :
  wp m s Q -> (forall a s', Q a s' -> R a s') -> wp m s R.
Proof. unfold wp. destruct (m s); eauto. Qed.

Lemma wp_ok {A} (m : M S A) s a s' (Q : A -> S -> Prop) :
  m s = Ok a s' -> Q a s' -> wp m s Q.
Proof. unfold wp. by intros ->. Qed.

Lemma wp_inv {A} (m : M S A) s (Q : A -> S -> Prop) :
  wp m s Q -> exists a s', m s = Ok a s' /\ Q a s'.
Proof. unfold wp. destruct (m s); naive_solver. Qed.

Lemma wp_gets {A} (f : S -> A) s (Q : A -> S -> Prop) : Q (f s) s -> wp (gets f) s Q.
Proof. done. Qed.

Lemma wp_modify (f : S -> S) s (Q : unit -> S -> Prop) : Q tt (f s) -> wp (modify f) s Q.
Proof. done. Qed.

Lemma wp_deref {A} (f : S -> option A) s a (Q : A -> S -> Prop) :
  f s = Some a -> Q a s -> wp (deref f) s Q.
Proof. unfold wp, deref. by intros ->. Qed.

Lemma wp_update (f : S -> option S) s s' (Q : unit -> S -> Prop) :
  f s = Some s' -> Q tt s' -> wp (update f) s Q.
Proof. unfold wp, update. by intros ->. Qed.

Lemma wp_assert (c : bool) t s (Q : unit -> S -> Prop) :
  c = true -> Q tt s -> wp (ASSERT c t) s Q.
Proof. by intros ->. Qed.

Lemma bind_ok {A B} (m : M S A) (k : A -> M S B) s a s' :
  m s = Ok a s' -> (m ≫= k) s = k a s'.
Proof. unfold mbind, M_bind. by intros ->. Qed.

Lemma bind_fault {A B} (m : M S A) (k : A -> M S B) s :
  m s = Fault -> (m ≫= k) s = Fault.
Proof. unfold mbind, M_bind. by intros ->. Qed.

Lemma bind_switched {A B} (m : M S A) (k : A -> M S B) s s' :
  m s = Switched s' -> (m ≫= k) s = Switched s'.
Proof. unfold mbind, M_bind. by intros ->. Qed.

Lemma bind_panic {A B} (m : M S A) (k : A -> M S B) s c :
  m s = Panic c -> (m ≫= k) s = Panic c.
Proof. unfold mbind, M_bind. by intros ->. Qed.

(** A counted loop, by an invariant indexed by the iteration. *)
Lemma wp_for_upto (Inv : Z -> S -> Prop) n body from s (Q : unit -> S -> Prop) :
  Inv from s ->
  (forall i s', from <= i < from + Z.of_nat n -> Inv i s' ->
     wp (body i) s' (fun _ s'' => Inv (i + 1) s'')) ->
  (forall s', Inv (from + Z.of_nat n) s' -> Q tt s') ->
  wp (for_upto from n body) s Q.
Proof.
  revert from s. induction n as [|n IH]; intros from s HI Hbody HQ; simpl.
  - apply wp_ret, HQ. by rewrite Z.add_0_r.
  - apply wp_bind. eapply wp_mono; [apply Hbody; [lia|done]|].
    intros [] s' HI'. apply IH; [done| |].
    + intros i s'' Hi. apply Hbody. lia.
    + intros s'' HI''. apply HQ. by replace (from + Z.of_nat (Datatypes.S n))
        with (from + 1 + Z.of_nat n) by lia.
Qed.

End Monad.

(** [wp_step]: run the first statement of a function, when it is one whose
    effect is immediate; [wp_call H]: run it by its specification [H]. *)
Ltac wp_step :=
  lazymatch goal with
  | |- wp (mret _) _ _ => apply wp_ret
  | |- wp (_ ≫= _) _ _ => apply wp_bind
  | |- wp (gets _) _ _ => apply wp_gets
  | |- wp (modify _) _ _ => apply wp_modify
  end.
Ltac wp_steps := repeat wp_step.
Tactic Notation "wp_call" uconstr(H) := eapply wp_mono; [eapply H|cbv beta].
(** [wp_use tac]: the same, where the tactic [tac] proves the call. *)
Tactic Notation "wp_use" tactic3(tac) := eapply wp_mono; [solve [tac]|cbv beta].
(** A condition [p != NULL]. *)
Ltac not_null :=
  rewrite ?andb_true_iff; split_and?; apply negb_true_iff, Z.eqb_neq; assumption.

(** ** Running a component inside a larger state

    [zoom L m] runs [m] on the part of the state the lens [L] selects. *)
Record lens (S T : Type) := Lens {
  view : S -> T;
  put_view : T -> S -> S;
  view_put : forall t s, view (put_view t s) = t;
  put_put : forall t t' s, put_view t (put_view t' s) = put_view t s;
  put_id : forall s, put_view (view s) s = s
}.
Arguments Lens {S T} view put_view view_put put_put put_id.
Arguments view {S T} l s.
Arguments put_view {S T} l t s.

Definition zoom {S T A} (L : lens S T) (m : M T A) : M S A := fun s =>
  match m (view L s) with
  | Ok a t => Ok a (put_view L t s)
  | Switched t => Switched (put_view L t s)
  | Panic c => Panic c
  | Fault => Fault
  | Fuel => Fuel
  end.

Lemma zoom_ok {S T A} (L : lens S T) (m : M T A) s a t :
  m (view L s) = Ok a t -> zoom L m s = Ok a (put_view L t s).
Proof. unfold zoom. by intros ->. Qed.

Lemma wp_zoom {S T A} (L : lens S T) (m : M T A) s (Q : A -> S -> Prop) :
  wp m (view L s) (fun a t => Q a (put_view L t s)) -> wp (zoom L m) s Q.
Proof. unfold wp, zoom. by destruct (m (view L s)). Qed.

(** ** Loops

    [while fuel cond body x]: [while (cond(x)) x = body(x);], where [x] are
    the local variables of the loop and [fuel] bounds the number of times the
    condition is evaluated. *)
Fixpoint while {S A} (fuel : nat) (cond : A -> M S bool) (body : A -> M S A)
    (x : A) : M S A :=
  match fuel with
  | O => out_of_fuel
  | Datatypes.S fuel' =>
      b ← cond x;
      if (b : bool) then x' ← body x; while fuel' cond body x' else mret x
  end.

(** One iteration, and the end of the loop. *)
Lemma while_step {S A} fuel (cond : A -> M S bool) body x x' s s1 s2 :
  cond x s = Ok true s1 -> body x s1 = Ok x' s2 ->
  while (Datatypes.S fuel) cond body x s = while fuel cond body x' s2.
Proof.
  intros E1 E2. simpl. erewrite bind_ok by exact E1. simpl. by erewrite bind_ok by exact E2.
Qed.

Lemma while_stop {S A} fuel (cond : A -> M S bool) body x s s1 :
  cond x s = Ok false s1 -> while (Datatypes.S fuel) cond body x s = Ok x s1.
Proof. intros E. simpl. by erewrite bind_ok by exact E. Qed.

Lemma while_switched {S A} fuel (cond : A -> M S bool) body x s s1 s2 :
  cond x s = Ok true s1 -> body x s1 = Switched s2 ->
  while (Datatypes.S fuel) cond body x s = Switched s2.
Proof. intros E1 E2. simpl. erewrite bind_ok by exact E1. by apply bind_switched. Qed.

(** The loop rule: [I n x s] holds before an evaluation of the condition after
    which at most [n] iterations remain. *)
Lemma wp_while {S A} (I : nat -> A -> S -> Prop) fuel n cond body (x : A) (s : S) Q :
  (n < fuel)%nat -> I n x s ->
  (forall n x s, I n x s ->
     wp (cond x) s (fun b s1 =>
       if (b : bool)
       then exists m, n = Datatypes.S m /\ wp (body x) s1 (fun x' s2 => I m x' s2)
       else Q x s1)) ->
  wp (while fuel cond body x) s Q.
Proof.
  intros Hn HI Hstep. revert n x s Hn HI.
  induction fuel as [|fuel IH]; intros n x s Hn HI; [lia|]. simpl.
  apply wp_bind. eapply wp_mono; [by apply (Hstep n)|].
  intros [|] s1; [|by apply wp_ret]. intros (m & -> & Hbody).
  apply wp_bind. eapply wp_mono; [exact Hbody|].
  intros x' s2 HI'. apply (IH m); [lia|done].
Qed.

(** Masking off the low bits of a word. *)
Lemma land_high_mask a n :
  0 <= n <= 32 -> is_u32 a -> Z.land a (2 ^ 32 - 2 ^ n) = a - a mod 2 ^ n.
Proof.
  intros Hn Ha.
  replace (2 ^ 32 - 2 ^ n) with (Z.shiftl (Z.ones (32 - n)) n).
  2: { rewrite Z.shiftl_mul_pow2, Z.ones_equiv by lia.
       replace 32 with ((32 - n) + n) at 2 by lia. rewrite Z.pow_add_r by lia. lia. }
  replace (a - a mod 2 ^ n) with (Z.shiftl (Z.shiftr a n) n).
  2: { rewrite Z.shiftl_mul_pow2, Z.shiftr_div_pow2 by lia.
       pose proof (Z.div_mod a (2 ^ n) ltac:(lia)). lia. }
  apply Z.bits_inj'. intros k Hk. rewrite Z.land_spec, !Z.shiftl_spec by lia.
  destruct (Z.lt_ge_cases k n).
  { rewrite (Z.testbit_neg_r _ (k - n)), (Z.testbit_neg_r (Z.shiftr a n)) by lia.
    by rewrite andb_false_r. }
  rewrite Z.shiftr_spec by lia. replace (k - n + n) with k by lia.
  destruct (Z.lt_ge_cases k 32).
  - rewrite Z.ones_spec_low by lia. by rewrite andb_true_r.
  - rewrite Z.ones_spec_high by lia. rewrite andb_false_r.
    rewrite <- (Z.mod_small a (2 ^ 32)) by lia. by rewrite Z.mod_pow2_bits_high by lia.
Qed.

(** Masking out the high bits. *)
Lemma land_low_mask a n : 0 <= n -> Z.land a (2 ^ n - 1) = a mod 2 ^ n.
Proof.
  intros. replace (2 ^ n - 1) with (Z.ones n) by (rewrite Z.ones_equiv; lia).
  by apply Z.land_ones.
Qed.
