(* ===== verification/Bytes.v ===== *)
(** Byte-addressed memory: what the library routines ask of the memory they
    run in, and the simplest memory that provides it.

    [ByteOps] is what the C code uses of memory: loads and stores of bytes
    ([lib/string.c], [lib/kernel/bitmap.c] and [lib/kernel/print.c] are
    written against it).  [ByteMem] is what a memory promises about them.
    [valid s a] says that [a] is the address of a byte of ordinary data in
    [s]: reading it gives a byte, and writing it changes that byte, no other
    valid one, and nothing of what [keeps] protects.  [FlatMem] is a finite map
    from addresses to bytes; the paged memory of the machine provides the
    interface in its own file. *)

From S2P Require Import Prelude.

Class ByteOps (S : Type) := {
  load8 : S -> Z -> option Z;
  store8 : S -> Z -> Z -> option S
}.

Class ByteMem (S : Type) `{!ByteOps S} := {
  valid : S -> Z -> Prop;
  keeps : S -> S -> Prop;
  keeps_preorder :: PreOrder keeps;
  valid_range s a : valid s a -> is_u32 a;
  load8_valid s a : valid s a -> exists v, load8 s a = Some v /\ is_u8 v;
  store8_valid s a v : valid s a -> is_u8 v ->
    exists s', store8 s a v = Some s' /\ load8 s' a = Some v /\ keeps s s'
      /\ (forall b, valid s' b <-> valid s b)
      /\ (forall b, valid s b -> b <> a -> load8 s' b = load8 s b)
}.

(** Pointer arithmetic wraps at 32 bits. *)
Notation "a +! i" := (u32 (a + i)) (at level 50, left associativity) : Z_scope.

Definition rd8 {S} `{!ByteOps S} (a : Z) : M S Z := deref (fun s => load8 s a).
Definition wr8 {S} `{!ByteOps S} (a v : Z) : M S unit :=
  update (fun s => store8 s a (u8 v)).

Section Access.
Context {S : Type} `{!ByteOps S} `{!ByteMem S}.

(** [modifies P s s']: from [s] to [s'] only bytes at addresses in [P] may
    have changed. *)
Definition modifies (P : Z -> Prop) (s s' : S) : Prop :=
  keeps s s' /\ (forall b, valid s' b <-> valid s b)
  /\ (forall b, valid s b -> ~ P b -> load8 s' b = load8 s b).

#[export] Instance modifies_refl P : Reflexive (modifies P).
Proof. intros s. by split_and!. Qed.

#[export] Instance modifies_trans P : Transitive (modifies P).
Proof.
  intros s1 s2 s3 (K1 & V1 & L1) (K2 & V2 & L2). split_and!.
  - by etransitivity.
  - intros b. by rewrite V2.
  - intros b Hb HP. rewrite L2, L1; [done..| |done]. by apply V1.
Qed.

Lemma modifies_weaken P Q s s' :
  modifies P s s' -> (forall b, P b -> Q b) -> modifies Q s s'.
Proof. intros (K & V & L) HPQ. split_and!; [done..|]. intros b Hb HQ. apply L; eauto. Qed.

(** One after the other. *)
Lemma modifies_then P Q s1 s2 s3 :
  modifies P s1 s2 -> modifies Q s2 s3 -> modifies (fun a => P a \/ Q a) s1 s3.
Proof. intros M1 M2. etransitivity; (eapply modifies_weaken; [eassumption|tauto]). Qed.

Lemma modifies_keeps P s s' : modifies P s s' -> keeps s s'.
Proof. by intros []. Qed.

Lemma modifies_valid P s s' a : modifies P s s' -> valid s a -> valid s' a.
Proof. intros (_ & V & _). apply V. Qed.

Lemma modifies_load P s s' a :
  modifies P s s' -> valid s a -> ~ P a -> load8 s' a = load8 s a.
Proof. intros (_ & _ & L). apply L. Qed.

Lemma wp_rd8 s a v (Q : Z -> S -> Prop) : load8 s a = Some v -> Q v s -> wp (rd8 a) s Q.
Proof. apply (wp_deref (fun s => load8 s a)). Qed.

Lemma wp_wr8 s a v :
  valid s a ->
  wp (wr8 a v) s (fun _ s' => modifies (eq a) s s' /\ load8 s' a = Some (u8 v)).
Proof.
  intros Ha. destruct (store8_valid s a (u8 v) Ha (u8_range v)) as (s' & E & L & K & V & F).
  eapply wp_update; [exact E|]. split; [|done]. split_and!; [done..|].
  intros b Hb Hne. apply F; congruence.
Qed.

(** [bytes_at s a l]: the bytes [l] stand at [a], in valid memory. *)
Definition bytes_at (s : S) (a : Z) (l : list Z) : Prop :=
  forall i x, l !! i = Some x ->
    valid s (a + Z.of_nat i) /\ load8 s (a + Z.of_nat i) = Some x /\ is_u8 x.

(** [valid_block s a n]: [n] valid bytes from [a]. *)
Definition valid_block (s : S) (a n : Z) : Prop :=
  forall i, 0 <= i < n -> valid s (a + i).

Lemma valid_block_range s a n : valid_block s a n -> 0 < n -> 0 <= a /\ a + n <= 2 ^ 32.
Proof.
  intros H Hn.
  assert (valid s (a + 0)) as V by (apply H; lia). rewrite Z.add_0_r in V.
  assert (valid s (a + (n - 1))) as V' by (apply H; lia).
  apply valid_range in V, V'. lia.
Qed.

Lemma valid_block_addr s a n i : valid_block s a n -> 0 <= i < n -> a +! i = a + i.
Proof. intros H Hi. apply u32_small. pose proof (valid_block_range s a n H). lia. Qed.

Lemma valid_block_modifies P s s' a n :
  modifies P s s' -> valid_block s a n -> valid_block s' a n.
Proof. intros Hm H i Hi. eapply modifies_valid; eauto. Qed.

Lemma bytes_at_block s a l : bytes_at s a l -> valid_block s a (Z.of_nat (length l)).
Proof.
  intros H i Hi. destruct (lookup_lt_is_Some_2 l (Z.to_nat i)) as [x Hx]; [lia|].
  destruct (H _ _ Hx) as [V _]. by rewrite Z2Nat.id in V by lia.
Qed.

Lemma bytes_at_modifies P s s' a l :
  modifies P s s' -> bytes_at s a l ->
  (forall i, 0 <= i < Z.of_nat (length l) -> ~ P (a + i)) -> bytes_at s' a l.
Proof.
  intros Hm H HP i x Hx. destruct (H _ _ Hx) as (V & L & R).
  split_and!; [by eapply modifies_valid| |lia..].
  rewrite <- L. eapply modifies_load; [done..|]. apply HP.
  apply lookup_lt_Some in Hx. lia.
Qed.

Lemma bytes_at_cons s a x l :
  bytes_at s a (x :: l) <->
  (valid s a /\ load8 s a = Some x /\ is_u8 x) /\ bytes_at s (a + 1) l.
Proof.
  split.
  - intros H. split.
    + specialize (H O x eq_refl). by rewrite Z.add_0_r in H.
    + intros i y Hy. specialize (H (Datatypes.S i) y Hy).
      by replace (a + Z.of_nat (Datatypes.S i)) with (a + 1 + Z.of_nat i) in H by lia.
  - intros [Hx Hl] [|i] y Hy; simpl in Hy; simplify_eq.
    + by rewrite Z.add_0_r.
    + specialize (Hl i y Hy).
      by replace (a + 1 + Z.of_nat i) with (a + Z.of_nat (Datatypes.S i)) in Hl by lia.
Qed.

Lemma bytes_at_app s a l1 l2 :
  bytes_at s a (l1 ++ l2) <-> bytes_at s a l1 /\ bytes_at s (a + Z.of_nat (length l1)) l2.
Proof.
  revert a. induction l1 as [|x l1 IH]; intros a; simpl.
  - rewrite Z.add_0_r. split; [|tauto]. intros H. split; [|done]. intros i y Hy.
    by rewrite lookup_nil in Hy.
  - rewrite !bytes_at_cons, IH.
    replace (a + 1 + Z.of_nat (length l1)) with (a + Z.of_nat (Datatypes.S (length l1))) by lia.
    tauto.
Qed.

(** A valid block holds some bytes. *)
Lemma valid_block_bytes s a n :
  valid_block s a (Z.of_nat n) -> exists l, length l = n /\ bytes_at s a l.
Proof.
  revert a. induction n as [|n IH]; intros a H.
  - exists []. split; [done|]. intros i x Hx. by rewrite lookup_nil in Hx.
  - destruct (IH (a + 1)) as (l & Hl & B).
    { intros i Hi. replace (a + 1 + i) with (a + (i + 1)) by lia. apply H. lia. }
    assert (valid s a) as V by (rewrite <- (Z.add_0_r a); apply H; lia).
    destruct (load8_valid s a V) as (x & Hx & Rx).
    exists (x :: l). split; [by simpl; f_equal|]. by apply bytes_at_cons.
Qed.

(** Reading and writing one byte of an array. *)
Lemma wp_array_read s a l i x :
  bytes_at s a l -> l !! i = Some x ->
  wp (rd8 (a +! Z.of_nat i)) s (fun r s' => s' = s /\ r = x).
Proof.
  intros B Hx. rewrite (valid_block_addr s a _ _ (bytes_at_block _ _ _ B)).
  - destruct (B _ _ Hx) as (_ & L & _). by eapply wp_rd8.
  - apply lookup_lt_Some in Hx. lia.
Qed.

Lemma wp_array_write s a l i v :
  bytes_at s a l -> (i < length l)%nat -> is_u8 v ->
  wp (wr8 (a +! Z.of_nat i) v) s (fun _ s' =>
    bytes_at s' a (<[i := v]> l) /\ modifies (eq (a + Z.of_nat i)) s s').
Proof.
  intros B Hi Hv. pose proof (bytes_at_block _ _ _ B) as Vb.
  rewrite (valid_block_addr s a _ _ Vb) by lia.
  eapply wp_mono; [apply wp_wr8, Vb; lia|]. intros _ s' [Hm L]. split; [|done].
  rewrite u8_small in L by done. intros j x Hj. destruct (decide (i = j)) as [<-|N].
  - rewrite list_lookup_insert_eq in Hj by done. injection Hj as <-.
    split; [|split; [done|lia]]. eapply modifies_valid; [exact Hm|]. apply Vb. lia.
  - rewrite list_lookup_insert_ne in Hj by done. destruct (B _ _ Hj) as (V & L' & R).
    split; [by eapply modifies_valid|]. split; [|lia]. rewrite <- L'.
    eapply modifies_load; [exact Hm|done|lia].
Qed.

End Access.

(** Two successive writes, seen as one. *)
Ltac modifies_chain H1 H2 :=
  etransitivity;
  [ eapply modifies_weaken; [exact H1|intros ? ?; simpl in *; lia]
  | eapply modifies_weaken; [exact H2|intros ? ?; simpl in *; lia] ].

Section Loops.
Context {S : Type} `{!ByteOps S} `{!ByteMem S}.

(** The loop both [memcpy]s of the kernel run: it copies forwards, so the
    source may overlap the destination from above. *)
Lemma wp_copy_forwards s dst src l :
  bytes_at s src l -> valid_block s dst (Z.of_nat (length l)) ->
  dst <= src \/ src + Z.of_nat (length l) <= dst ->
  wp (for_upto 0 (length l) (fun i => x ← rd8 (src +! i); wr8 (dst +! i) x)) s
     (fun _ s' => bytes_at s' dst l
        /\ modifies (fun b => dst <= b < dst + Z.of_nat (length l)) s s').
Proof.
  intros Hsrc Hdst Hov.
  eapply wp_for_upto with (Inv := fun i s' =>
    modifies (fun b => dst <= b < dst + i) s s' /\
    bytes_at s' dst (take (Z.to_nat i) l)).
  - split; [done|]. by intros i x Hx.
  - intros i s' Hi [Hm Hb].
    destruct (lookup_lt_is_Some_2 l (Z.to_nat i)) as [x Hx]; [lia|].
    pose proof (bytes_at_block _ _ _ Hsrc) as Bsrc.
    destruct (Hsrc _ _ Hx) as (V & L & R). rewrite Z2Nat.id in V, L by lia.
    rewrite (valid_block_addr s src _ i Bsrc), (valid_block_addr s dst _ i Hdst) by lia.
    apply wp_bind. eapply wp_rd8.
    { rewrite <- L. eapply modifies_load; [exact Hm|done|]. simpl. lia. }
    eapply wp_mono; [apply wp_wr8; eapply modifies_valid; [exact Hm|]; apply Hdst; lia|].
    intros _ s'' [Hm' L']. rewrite u8_small in L' by done. split.
    + modifies_chain Hm Hm'.
    + replace (Z.to_nat (i + 1)) with (Datatypes.S (Z.to_nat i)) by lia.
      rewrite (take_S_r _ _ x) by done. apply bytes_at_app. split.
      * eapply bytes_at_modifies; [exact Hm'|done|]. rewrite length_take. lia.
      * apply bytes_at_cons. rewrite length_take, Nat.min_l, Z2Nat.id by lia.
        split; [|by intros ??; rewrite lookup_nil].
        split_and!; [|done|lia..]. eapply modifies_valid; [exact Hm'|].
        eapply modifies_valid; [exact Hm|]. apply Hdst. lia.
  - intros s' [Hm Hb]. rewrite Z.add_0_l in *. split; [|done].
    by rewrite Nat2Z.id, take_ge in Hb by lia.
Qed.

(** Filling a block with one byte. *)
Lemma wp_fill s dst v n :
  valid_block s dst (Z.of_nat n) -> is_u8 v ->
  wp (for_upto 0 n (fun i => wr8 (dst +! i) v)) s
     (fun _ s' => bytes_at s' dst (replicate n v)
        /\ modifies (fun b => dst <= b < dst + Z.of_nat n) s s').
Proof.
  intros Hdst Hv.
  eapply wp_for_upto with (Inv := fun i s' =>
    modifies (fun b => dst <= b < dst + i) s s' /\
    bytes_at s' dst (replicate (Z.to_nat i) v)).
  - split; [done|]. by intros i x Hx.
  - intros i s' Hi [Hm Hb]. rewrite (valid_block_addr s dst _ i Hdst) by lia.
    eapply wp_mono; [apply wp_wr8; eapply modifies_valid; [exact Hm|]; apply Hdst; lia|].
    intros _ s'' [Hm' L']. rewrite u8_small in L' by done. split.
    + modifies_chain Hm Hm'.
    + replace (Z.to_nat (i + 1)) with (Z.to_nat i + 1)%nat by lia.
      rewrite replicate_add. apply bytes_at_app. split.
      * eapply bytes_at_modifies; [exact Hm'|done|]. rewrite length_replicate. lia.
      * apply bytes_at_cons. rewrite length_replicate, Z2Nat.id by lia.
        split; [|by intros ??; rewrite lookup_nil].
        split_and!; [|done|lia..]. eapply modifies_valid; [exact Hm'|].
        eapply modifies_valid; [exact Hm|]. apply Hdst. lia.
  - intros s' [Hm Hb]. rewrite Z.add_0_l in *. split; [|done]. by rewrite Nat2Z.id in Hb.
Qed.

End Loops.

(** ** A flat memory *)
Module FlatMem.

Definition flat_load (s : gmap Z Z) (a : Z) : option Z := s !! a.
Definition flat_store (s : gmap Z Z) (a v : Z) : option (gmap Z Z) :=
  match s !! a with Some _ => Some (<[a := v]> s) | None => None end.
Definition flat_valid (s : gmap Z Z) (a : Z) : Prop :=
  is_u32 a /\ exists v, s !! a = Some v /\ is_u8 v.

#[local] Obligation Tactic := idtac.

#[export] Instance flat_ops : ByteOps (gmap Z Z) :=
  {| load8 := flat_load; store8 := flat_store |}.

#[export] Program Instance flat_mem : ByteMem (gmap Z Z) := {|
  valid := flat_valid;
  keeps := fun _ _ => True
|}.
Next Obligation. split; [by intros ?|by intros ?]. Qed.
Next Obligation. by intros s a []. Qed.
Next Obligation. by intros s a [_ H]. Qed.
Next Obligation.
  intros s a v [Ra (w & Hw & Rw)] Rv. exists (<[a := v]> s).
  simpl. unfold flat_load, flat_store. rewrite Hw. split_and!; [done|apply lookup_insert_eq|done|..].
  - intros b. unfold flat_valid. destruct (decide (a = b)) as [<-|Hne].
    + rewrite lookup_insert_eq. split; intros [? _]; split; eauto.
    + by rewrite lookup_insert_ne.
  - intros b _ Hne. by rewrite lookup_insert_ne.
Qed.

(** The memory that holds [l] from address [a] on. *)
Definition of_list (a : Z) (l : list Z) : gmap Z Z := map_seqZ a l.

Lemma of_list_bytes a l :
  0 <= a -> a + Z.of_nat (length l) <= 2 ^ 32 -> Forall (fun x => is_u8 x) l ->
  bytes_at (of_list a l) a l.
Proof.
  intros Ha Hl Hr i x Hx.
  assert (E : of_list a l !! (a + Z.of_nat i) = Some x).
  { unfold of_list. rewrite lookup_map_seqZ. rewrite option_guard_True by lia.
    by replace (Z.to_nat (a + Z.of_nat i - a)) with i by lia. }
  rewrite Forall_lookup in Hr. specialize (Hr _ _ Hx). split_and!; [|done|lia..].
  apply lookup_lt_Some in Hx. split; [lia|]. eauto.
Qed.

(** The bytes at an address, and a valid block, checked. *)
Fixpoint bytes_check (m : gmap Z Z) (a : Z) (l : list Z) : bool :=
  match l with
  | [] => true
  | x :: l' => bool_decide (is_u32 a /\ is_u8 x /\ m !! a = Some x) && bytes_check m (a + 1) l'
  end.

Lemma bytes_check_at m a l : bytes_check m a l = true -> bytes_at m a l.
Proof.
  revert a. induction l as [|x l IH]; intros a; simpl; [by intros _ ? ? ?|].
  intros [(Ha & Hx & E)%bool_decide_eq_true H]%andb_true_iff. apply bytes_at_cons.
  split; [|by apply IH]. split; [|done]. split; [done|]. by exists x.
Qed.

Fixpoint block_check (m : gmap Z Z) (a : Z) (n : nat) : bool :=
  match n with
  | O => true
  | Datatypes.S n' =>
      bool_decide (is_u32 a) && match m !! a with Some x => bool_decide (is_u8 x) | None => false end
      && block_check m (a + 1) n'
  end.

Lemma block_check_valid m a n : block_check m a n = true -> valid_block m a (Z.of_nat n).
Proof.
  revert a. induction n as [|n IH]; intros a; simpl; [by intros _ i Hi; lia|].
  intros [[Ha%bool_decide_eq_true E]%andb_true_iff H]%andb_true_iff i Hi.
  destruct (decide (i = 0)) as [->|N].
  - rewrite Z.add_0_r. split; [done|]. destruct (m !! a) as [x|]; [|done].
    exists x. by apply bool_decide_eq_true in E.
  - specialize (IH (a + 1) H (i - 1) ltac:(lia)). by replace (a + 1 + (i - 1)) with (a + i) in IH by lia.
Qed.

End FlatMem.
Export FlatMem.
