(* ===== verification/CString.v ===== *)
(** [lib/string.c]: memory blocks and zero-terminated strings.

    Every function runs in any memory that provides [ByteMem].  A [char] is
    signed on the i386, so the comparisons of [memcmp], [strcmp], [strchr],
    [strrchr] and [strchrs] read a byte through [i8].  The loops that end at
    the terminator take fuel; each theorem asks for more fuel than the length
    of the string, and then the function returns. *)

From S2P Require Import Prelude Bytes.

Module CString.
Section Functions.
Context {S : Type} `{!ByteOps S}.

Definition memset (dst value size : Z) : M S unit :=
  ASSERT (negb (dst =? 0)) "dst != NULL";;
  for_upto 0 (Z.to_nat size) (fun i => wr8 (dst +! i) value).

Definition memcpy (dst src size : Z) : M S unit :=
  ASSERT (negb (src =? 0) && negb (dst =? 0)) "src != NULL && dst != NULL";;
  for_upto 0 (Z.to_nat size) (fun i => x ← rd8 (src +! i); wr8 (dst +! i) x).

Fixpoint memcmp_loop (s1 s2 i : Z) (n : nat) : M S Z :=
  match n with
  | O => mret 0
  | Datatypes.S n' =>
      c1 ← rd8 (s1 +! i);
      c2 ← rd8 (s2 +! i);
      if negb (i8 c1 =? i8 c2)
      then mret (if i8 c2 <? i8 c1 then 1 else -1)
      else memcmp_loop s1 s2 (i + 1) n'
  end.

Definition memcmp (s1 s2 size : Z) : M S Z :=
  ASSERT (negb (s1 =? 0) && negb (s2 =? 0)) "s1 != NULL && s2 != NULL";;
  memcmp_loop s1 s2 0 (Z.to_nat size).

(** The C function copies up to the terminator, does not copy it, and falls
    off its end without a [return]: no caller may use its value. *)
Definition strcpy (fuel : nat) (dst src : Z) : M S unit :=
  ASSERT (negb (dst =? 0) && negb (src =? 0)) "dst != NULL && src != NULL";;
  while fuel
    (fun p : Z * Z => c ← rd8 p.2; mret (negb (c =? 0)))
    (fun p => c ← rd8 p.2; wr8 p.1 c;; mret (p.1 +! 1, p.2 +! 1))
    (dst, src);;
  mret tt.

Definition strlen (fuel : nat) (str : Z) : M S Z :=
  ASSERT (negb (str =? 0)) "str != NULL";;
  p ← while fuel (fun p => c ← rd8 p; mret (negb (c =? 0)))
        (fun p => mret (p +! 1)) str;
  (* the condition's p++ also runs when the terminator is read *)
  mret (u32 (p + 1 - str - 1)).

Definition strcmp (fuel : nat) (s1 s2 : Z) : M S Z :=
  ASSERT (negb (s1 =? 0) && negb (s2 =? 0)) "s1 != NULL && s2 != NULL";;
  '(p1, p2) ← while fuel
    (fun p : Z * Z =>
       c1 ← rd8 p.1;
       if c1 =? 0 then mret false else c2 ← rd8 p.2; mret (c2 =? c1))
    (fun p => mret (p.1 +! 1, p.2 +! 1))
    (s1, s2);
  c1 ← rd8 p1;
  c2 ← rd8 p2;
  mret (if i8 c1 <? i8 c2 then -1 else of_bool (i8 c2 <? i8 c1)).

(** [inr p]: the loop ran to the terminator; [inl r]: it returned [r]. *)
Fixpoint strchr_loop (fuel : nat) (str ch : Z) : M S Z :=
  match fuel with
  | O => out_of_fuel
  | Datatypes.S fuel' =>
      c ← rd8 str;
      if c =? 0 then mret 0
      else if i8 c =? ch then mret str
      else strchr_loop fuel' (str +! 1) ch
  end.

Definition strchr (fuel : nat) (str ch : Z) : M S Z :=
  ASSERT (negb (str =? 0)) "str != NULL";; strchr_loop fuel str ch.

Definition strrchr (fuel : nat) (str ch : Z) : M S Z :=
  ASSERT (negb (str =? 0)) "str != NULL";;
  '(_, last_char) ← while fuel
    (fun p : Z * Z => c ← rd8 p.1; mret (negb (c =? 0)))
    (fun p => c ← rd8 p.1;
       mret (p.1 +! 1, if i8 c =? ch then p.1 else p.2))
    (str, 0);
  mret last_char.

Definition strcat (fuel : nat) (dst src : Z) : M S Z :=
  ASSERT (negb (dst =? 0) && negb (src =? 0)) "dst != NULL && src != NULL";;
  str ← while fuel (fun p => c ← rd8 p; mret (negb (c =? 0)))
          (fun p => mret (p +! 1)) dst;
  (* while ( *str++ = *src++): the terminator is copied too *)
  while fuel
    (fun p : Z * Z => c ← rd8 p.2; wr8 p.1 c;; mret (negb (c =? 0)))
    (fun p => mret (p.1 +! 1, p.2 +! 1))
    (str, src);;
  mret dst.

Definition strchrs (fuel : nat) (str ch : Z) : M S Z :=
  ASSERT (negb (str =? 0)) "str != NULL";;
  '(_, ch_cnt) ← while fuel
    (fun p : Z * Z => c ← rd8 p.1; mret (negb (c =? 0)))
    (fun p => c ← rd8 p.1;
       mret (p.1 +! 1, if i8 c =? ch then u32 (p.2 + 1) else p.2))
    (str, 0);
  mret ch_cnt.

End Functions.

Section Specs.
Context {S : Type} `{!ByteOps S} `{!ByteMem S}.

(** ** Blocks *)

Lemma memset_block s dst v n :
  valid_block s dst n -> dst <> 0 -> 0 <= n -> is_u8 v ->
  wp (memset dst v n) s (fun _ s' =>
    bytes_at s' dst (replicate (Z.to_nat n) v)
    /\ modifies (fun b => dst <= b < dst + n) s s').
Proof.
  intros Hb Hd Hn Hv. apply wp_bind, wp_assert; [not_null|].
  wp_use (apply wp_fill; [by rewrite Z2Nat.id|done]).
  intros _ s'. by rewrite Z2Nat.id.
Qed.

Lemma memcpy_block s dst src l :
  bytes_at s src l -> valid_block s dst (Z.of_nat (length l)) ->
  src <> 0 -> dst <> 0 ->
  dst <= src \/ src + Z.of_nat (length l) <= dst ->
  wp (memcpy dst src (Z.of_nat (length l))) s (fun _ s' =>
    bytes_at s' dst l
    /\ modifies (fun b => dst <= b < dst + Z.of_nat (length l)) s s').
Proof.
  intros Hs Hd Ns Nd Hov. unfold memcpy. rewrite Nat2Z.id.
  apply wp_bind, wp_assert.
  { not_null. }
  by apply wp_copy_forwards.
Qed.

(** ** Strings *)

(** The zero-terminated string [l] stands at [p]. *)
Definition cstr (s : S) (p : Z) (l : list Z) : Prop :=
  bytes_at s p (l ++ [0]) /\ Forall (fun x => x <> 0) l.

Lemma cstr_nil s p : cstr s p [] -> load8 s p = Some 0.
Proof. intros [H _]. by apply bytes_at_cons in H as [(_ & L & _) _]. Qed.

Lemma cstr_cons s p x l :
  cstr s p (x :: l) -> load8 s p = Some x /\ x <> 0 /\ is_u8 x /\ p +! 1 = p + 1
    /\ cstr s (p + 1) l.
Proof.
  intros [H Hf]. apply Forall_cons in Hf as [Hx Hf].
  pose proof (bytes_at_block _ _ _ H) as Hb.
  rewrite <- app_comm_cons in H. apply bytes_at_cons in H as [(V & L & R) H].
  split; [done|]. split; [done|]. split; [lia|]. split; [|by split].
  rewrite (valid_block_addr s p _ 1 Hb); [done|].
  rewrite length_app. simpl. lia.
Qed.

Lemma cstr_length s p l : cstr s p l -> Z.of_nat (length l) < 2 ^ 32.
Proof.
  intros [H _]. apply bytes_at_block, valid_block_range in H;
  rewrite length_app in *; simpl in *; lia.
Qed.

(** The loop to the terminator of a string. *)
Lemma wp_skip_string s l fuel p :
  cstr s p l -> (length l < fuel)%nat ->
  wp (while fuel (fun p => c ← rd8 p; mret (negb (c =? 0)))
        (fun p => mret (p +! 1)) p) s
     (fun q s' => s' = s /\ q = p + Z.of_nat (length l)).
Proof.
  revert fuel p. induction l as [|x l IH]; intros fuel p H Hf;
    (destruct fuel as [|fuel]; [simpl in Hf; lia|]); simpl while.
  - apply wp_bind. apply cstr_nil in H. eapply wp_bind, wp_rd8; [exact H|].
    apply wp_ret. simpl. apply wp_ret. split; [done|]. simpl. lia.
  - apply cstr_cons in H as (L & Hx & R & E & H). apply wp_bind.
    eapply wp_bind, wp_rd8; [exact L|]. apply wp_ret.
    rewrite (proj2 (Z.eqb_neq x 0)) by done. simpl.
    apply wp_bind, wp_ret. rewrite E. wp_use (apply IH; [done|simpl in Hf; lia]).
    intros q s' [-> ->]. split; [done|]. simpl. lia.
Qed.

Lemma strlen_length s p l fuel :
  cstr s p l -> p <> 0 -> (length l < fuel)%nat ->
  wp (strlen fuel p) s (fun r s' => s' = s /\ r = Z.of_nat (length l)).
Proof.
  intros H Hp Hf. apply wp_bind, wp_assert; [not_null|].
  apply wp_bind. wp_use (by apply wp_skip_string).
  intros q s' [-> ->]. apply wp_ret. split; [done|].
  apply cstr_length in H. rewrite u32_small; lia.
Qed.

(** The first place where two byte strings differ decides their comparison,
    on the signed reading of the two bytes; [nth] past the end reads the
    terminator. *)
Definition compared (l1 l2 : list Z) (r : Z) : Prop :=
  (r = 0 /\ l1 = l2) \/
  (exists k, take k l1 = take k l2 /\ nth k l1 0 <> nth k l2 0
     /\ r = if i8 (nth k l1 0) <? i8 (nth k l2 0) then -1 else 1).

Lemma compared_cons x l1 l2 r : compared l1 l2 r -> compared (x :: l1) (x :: l2) r.
Proof.
  intros [[-> ->]|(k & E & N & ->)]; [by left|]. right. exists (Datatypes.S k).
  simpl. by rewrite E.
Qed.

Lemma i8_inj x y : is_u8 x -> is_u8 y -> i8 x = i8 y -> x = y.
Proof. intros. word_lia. Qed.

(** Two different bytes, compared the way [memcmp] and [strcmp] do it. *)
Lemma compared_head l1 l2 :
  nth 0 l1 0 <> nth 0 l2 0 -> is_u8 (nth 0 l1 0) -> is_u8 (nth 0 l2 0) ->
  compared l1 l2 (if i8 (nth 0 l1 0) <? i8 (nth 0 l2 0) then -1
                  else of_bool (i8 (nth 0 l2 0) <? i8 (nth 0 l1 0))).
Proof.
  intros N R1 R2. right. exists O. split; [by rewrite !take_0|]. split; [done|].
  destruct (Z.ltb_spec (i8 (nth 0 l1 0)) (i8 (nth 0 l2 0))); [done|].
  rewrite (proj2 (Z.ltb_lt _ _)); [done|].
  enough (i8 (nth 0 l1 0) <> i8 (nth 0 l2 0)) by lia.
  intros E. by apply i8_inj in E.
Qed.

Lemma memcmp_loop_compared s p1 p2 l1 l2 i :
  0 <= i -> valid_block s p1 (i + Z.of_nat (length l1)) ->
  valid_block s p2 (i + Z.of_nat (length l2)) ->
  bytes_at s (p1 + i) l1 -> bytes_at s (p2 + i) l2 -> length l1 = length l2 ->
  wp (memcmp_loop p1 p2 i (length l1)) s (fun r s' => s' = s /\ compared l1 l2 r).
Proof.
  revert l2 i. induction l1 as [|x l1 IH]; intros [|y l2] i Hi V1 V2 B1 B2 E;
    simplify_eq/=; [apply wp_ret; split; [done|by left]|].
  apply bytes_at_cons in B1 as [(_ & L1 & R1) B1].
  apply bytes_at_cons in B2 as [(_ & L2 & R2) B2].
  rewrite (valid_block_addr s p1 _ i V1), (valid_block_addr s p2 _ i V2) by lia.
  apply wp_bind. eapply wp_rd8; [exact L1|]. apply wp_bind. eapply wp_rd8; [exact L2|].
  destruct (Z.eqb_spec (i8 x) (i8 y)) as [Exy|Nxy]; simpl.
  - apply i8_inj in Exy as <-; [|done..].
    wp_use (apply (IH l2 (i + 1)); [lia|..|done];
      first [eassumption|by rewrite Z.add_assoc in *|
             by replace (i + 1 + _) with (i + Z.of_nat (Datatypes.S (length l1))) by lia|
             by replace (i + 1 + _) with (i + Z.of_nat (Datatypes.S (length l2))) by lia]).
    intros r s' [-> C]. split; [done|]. by apply compared_cons.
  - apply wp_ret. split; [done|]. right. exists O. simpl. split; [done|].
    split; [by intros ->|]. destruct (Z.ltb_spec (i8 y) (i8 x)),
      (Z.ltb_spec (i8 x) (i8 y)); lia.
Qed.

Lemma memcmp_compared s p1 p2 l1 l2 :
  bytes_at s p1 l1 -> bytes_at s p2 l2 -> length l1 = length l2 -> p1 <> 0 -> p2 <> 0 ->
  wp (memcmp p1 p2 (Z.of_nat (length l1))) s (fun r s' => s' = s /\ compared l1 l2 r).
Proof.
  intros B1 B2 E N1 N2. apply wp_bind, wp_assert; [not_null|].
  rewrite Nat2Z.id. apply memcmp_loop_compared; rewrite ?Z.add_0_l, ?Z.add_0_r;
    by auto using bytes_at_block.
Qed.

(** A read of the source string is not disturbed by the writes so far. *)
Lemma cstr_read_later P s s' p l k :
  cstr s p l -> modifies P s s' ->
  (forall i, 0 <= i <= Z.of_nat (length l) -> ~ P (p + i)) -> (k <= length l)%nat ->
  load8 s' (p + Z.of_nat k) = Some (nth k l 0) /\ is_u8 (nth k l 0)
    /\ ((k < length l)%nat -> nth k l 0 <> 0).
Proof.
  intros [B F] Hm HP Hk.
  assert (Hx : (l ++ [0]) !! k = Some (nth k l 0)).
  { destruct (nth_lookup_or_length l k 0) as [E|Hge]; [by apply lookup_app_l_Some|].
    rewrite lookup_app_r by lia. replace (k - length l)%nat with O by lia.
    simpl. by rewrite nth_overflow by lia. }
  destruct (B _ _ Hx) as (V & L & R). split; [|split; [done|]].
  - rewrite <- L. eapply modifies_load; [done..|]. apply HP. lia.
  - intros Hlt. rewrite lookup_app_l in Hx by done. rewrite Forall_lookup in F. eauto.
Qed.

Lemma cstr_range s p l :
  cstr s p l -> 0 <= p /\ p + Z.of_nat (length l) < 2 ^ 32.
Proof.
  intros [B _]. apply bytes_at_block, valid_block_range in B;
    rewrite length_app in *; simpl in *; lia.
Qed.

Lemma strcpy_loop s dst src l n k s' fuel :
  cstr s src l -> valid_block s dst (Z.of_nat (length l) + 1) ->
  dst + Z.of_nat (length l) <= src \/ src + Z.of_nat (length l) < dst ->
  (n + k = length l)%nat -> (n < fuel)%nat ->
  modifies (fun b => dst <= b < dst + Z.of_nat k) s s' -> bytes_at s' dst (take k l) ->
  wp (while fuel (fun p : Z * Z => c ← rd8 p.2; mret (negb (c =? 0)))
       (fun p => c ← rd8 p.2; wr8 p.1 c;; mret (p.1 +! 1, p.2 +! 1))
       (dst + Z.of_nat k, src + Z.of_nat k)) s' (fun _ s'' => bytes_at s'' dst l /\
     modifies (fun b => dst <= b < dst + Z.of_nat (length l)) s s'').
Proof.
  intros H V Hov. revert k s' fuel.
  induction n as [|n IH]; intros k s' [|fuel] Hk Hf Hm Hb; try lia; simpl while;
    destruct (cstr_read_later _ s s' src l k H Hm) as (L & R & Nx); try (intros; lia);
    apply wp_bind; eapply wp_bind, wp_rd8; try exact L; apply wp_ret.
  - rewrite nth_overflow by lia. apply wp_ret.
    rewrite take_ge in Hb by lia. by replace k with (length l) in Hm by lia.
  - rewrite (proj2 (Z.eqb_neq _ _)) by (apply Nx; lia). simpl.
    apply wp_bind. eapply wp_bind, wp_rd8; [exact L|]. apply wp_bind.
    wp_use (apply wp_wr8; eapply modifies_valid; [exact Hm|apply V; lia]).
    intros _ s'' [Hm' L']. apply wp_ret. rewrite u8_small in L' by done.
    pose proof (valid_block_range _ _ _ V ltac:(lia)). pose proof (cstr_range _ _ _ H).
    rewrite !u32_small by lia.
    replace (dst + Z.of_nat k + 1) with (dst + Z.of_nat (Datatypes.S k)) by lia.
    replace (src + Z.of_nat k + 1) with (src + Z.of_nat (Datatypes.S k)) by lia.
    apply IH; [lia|lia|modifies_chain Hm Hm'|].
    rewrite (take_S_r _ _ (nth k l 0)).
    2: { destruct (nth_lookup_or_length l k 0); [done|lia]. }
    apply bytes_at_app. split.
    { eapply bytes_at_modifies; [exact Hm'|done|]. simpl. rewrite length_take. lia. }
    apply bytes_at_cons. rewrite length_take, Nat.min_l by lia.
    split; [|by intros ??; rewrite lookup_nil]. split; [|done].
    eapply modifies_valid; [exact Hm'|]. eapply modifies_valid; [exact Hm|]. apply V. lia.
Qed.

Lemma strcpy_bytes s dst src l fuel :
  cstr s src l -> valid_block s dst (Z.of_nat (length l) + 1) -> dst <> 0 -> src <> 0 ->
  dst + Z.of_nat (length l) <= src \/ src + Z.of_nat (length l) < dst ->
  (length l < fuel)%nat ->
  wp (strcpy fuel dst src) s (fun _ s' =>
    bytes_at s' dst l /\ modifies (fun b => dst <= b < dst + Z.of_nat (length l)) s s').
Proof.
  intros H V Nd Ns Hov Hf. apply wp_bind, wp_assert; [not_null|]. apply wp_bind.
  pose proof (strcpy_loop s dst src l (length l) O s fuel H V Hov) as E.
  rewrite !Z.add_0_r in E. wp_use (apply E; [lia|lia|done|by intros ???]).
  intros ? s' HQ. by apply wp_ret.
Qed.

(** The first character that matches is found; a [ch] of 128 or more matches
    no character, since the character is sign-extended and [ch] is not. *)
Lemma strchr_first s p l ch fuel :
  cstr s p l -> p <> 0 -> (length l < fuel)%nat ->
  wp (strchr fuel p ch) s (fun r s' => s' = s /\
    r = match list_find (fun x => i8 x = ch) l with
        | Some (i, _) => p + Z.of_nat i
        | None => 0
        end).
Proof.
  intros H Hp Hf. apply wp_bind, wp_assert; [not_null|]. clear Hp.
  revert p fuel H Hf. induction l as [|x l IH]; intros p [|fuel] H Hf;
    try (simpl in Hf; lia); simpl strchr_loop.
  - apply cstr_nil in H. by eapply wp_bind, wp_rd8.
  - apply cstr_cons in H as (L & Nx & R & E & H). eapply wp_bind, wp_rd8; [exact L|].
    rewrite (proj2 (Z.eqb_neq _ _)) by done. simpl.
    destruct (Z.eqb_spec (i8 x) ch) as [Ex|Ex].
    + rewrite decide_True by done. apply wp_ret. split; [done|lia].
    + rewrite decide_False, E by done. wp_use (apply IH; [done|simpl in Hf; lia]).
      intros r s' [-> ->]. split; [done|].
      destruct (list_find _ l) as [[i y]|]; simpl; lia.
Qed.

Lemma strrchr_loop s l ch p last fuel :
  cstr s p l -> (length l < fuel)%nat ->
  wp (while fuel (fun p : Z * Z => c ← rd8 p.1; mret (negb (c =? 0)))
       (fun p => c ← rd8 p.1; mret (p.1 +! 1, if i8 c =? ch then p.1 else p.2))
       (p, last)) s (fun q s' => s' = s /\
    ((q.2 = last /\ Forall (fun x => i8 x <> ch) l) \/
     (exists i x, q.2 = p + Z.of_nat i /\ l !! i = Some x /\ i8 x = ch
        /\ Forall (fun x => i8 x <> ch) (drop (Datatypes.S i) l)))).
Proof.
  revert p last fuel. induction l as [|x l IH]; intros p last [|fuel] H Hf;
    try (simpl in Hf; lia); simpl while; apply wp_bind; simpl.
  - apply cstr_nil in H. eapply wp_bind, wp_rd8; [done|].
    apply wp_ret, wp_ret. by split; [|left].
  - apply cstr_cons in H as (L & Nx & R & E & H). eapply wp_bind, wp_rd8; [exact L|].
    apply wp_ret. rewrite (proj2 (Z.eqb_neq _ _)) by done. simpl.
    apply wp_bind. eapply wp_bind, wp_rd8; [exact L|]. apply wp_ret. rewrite E.
    wp_use (apply IH; [done|simpl in Hf; lia]).
    intros [q r] s' [-> [[Hr Hl]|(i & y & Hr & Hy & Ey & Hl)]]; split; try done; simpl in *.
    + destruct (Z.eqb_spec (i8 x) ch) as [Ex|Ex].
      * right. exists O, x. by rewrite Z.add_0_r, drop_0.
      * left. split; [done|]. by constructor.
    + right. exists (Datatypes.S i), y. split; [lia|done].
Qed.

(** The last character that matches. *)
Lemma strrchr_last s p l ch fuel :
  cstr s p l -> p <> 0 -> (length l < fuel)%nat ->
  wp (strrchr fuel p ch) s (fun r s' => s' = s /\
    ((r = 0 /\ Forall (fun x => i8 x <> ch) l) \/
     (exists i x, r = p + Z.of_nat i /\ l !! i = Some x /\ i8 x = ch
        /\ Forall (fun x => i8 x <> ch) (drop (Datatypes.S i) l)))).
Proof.
  intros H Hp Hf. apply wp_bind, wp_assert; [not_null|]. apply wp_bind.
  wp_use (by apply strrchr_loop). by intros [q r] s'.
Qed.

Lemma strchrs_loop s l ch p n fuel :
  cstr s p l -> (length l < fuel)%nat ->
  0 <= n -> n + Z.of_nat (length l) < 2 ^ 32 ->
  wp (while fuel (fun p : Z * Z => c ← rd8 p.1; mret (negb (c =? 0)))
       (fun p => c ← rd8 p.1;
          mret (p.1 +! 1, if i8 c =? ch then u32 (p.2 + 1) else p.2))
       (p, n)) s (fun q s' => s' = s /\
    q.2 = n + Z.of_nat (length (filter (fun x => i8 x = ch) l))).
Proof.
  revert p n fuel. induction l as [|x l IH]; intros p n [|fuel] H Hf Hn Hl;
    try (simpl in Hf; lia); simpl while; apply wp_bind; simpl.
  - apply cstr_nil in H. eapply wp_bind, wp_rd8; [done|].
    apply wp_ret, wp_ret. split; [done|]. simpl. lia.
  - apply cstr_cons in H as (L & Nx & R & E & H). eapply wp_bind, wp_rd8; [exact L|].
    apply wp_ret. rewrite (proj2 (Z.eqb_neq _ _)) by done. simpl.
    apply wp_bind. eapply wp_bind, wp_rd8; [exact L|]. apply wp_ret. rewrite E.
    rewrite filter_cons. simpl in Hl, Hf.
    destruct (Z.eqb_spec (i8 x) ch) as [Ex|Ex].
    + rewrite decide_True by done. rewrite u32_small by lia.
      wp_use (apply IH; [done|lia..]). intros [q r] s' [-> Hr]. split; [done|].
      simpl in *. lia.
    + rewrite decide_False by done. wp_use (apply IH; [done|lia..]). done.
Qed.

Lemma strchrs_count s p l ch fuel :
  cstr s p l -> p <> 0 -> (length l < fuel)%nat ->
  wp (strchrs fuel p ch) s (fun r s' => s' = s /\
    r = Z.of_nat (length (filter (fun x => i8 x = ch) l))).
Proof.
  intros H Hp Hf. apply wp_bind, wp_assert; [not_null|]. apply wp_bind.
  pose proof (cstr_length _ _ _ H). wp_use (apply strchrs_loop; [done|done|lia|lia]).
  by intros [q r] s'.
Qed.

Lemma strcmp_loop s l1 l2 p1 p2 fuel :
  cstr s p1 l1 -> cstr s p2 l2 -> (length l1 < fuel)%nat ->
  wp (while fuel
       (fun p : Z * Z => c1 ← rd8 p.1;
          if c1 =? 0 then mret false else c2 ← rd8 p.2; mret (c2 =? c1))
       (fun p => mret (p.1 +! 1, p.2 +! 1)) (p1, p2)) s
     (fun q s' => s' = s /\ exists l l1' l2', l1 = l ++ l1' /\ l2 = l ++ l2'
        /\ cstr s q.1 l1' /\ cstr s q.2 l2' /\ (l1' = [] \/ nth 0 l1' 0 <> nth 0 l2' 0)).
Proof.
  revert l2 p1 p2 fuel. induction l1 as [|x l1 IH]; intros l2 p1 p2 [|fuel] H1 H2 Hf;
    try (simpl in Hf; lia); simpl while; apply wp_bind; simpl.
  - pose proof (cstr_nil _ _ H1) as L. eapply wp_bind, wp_rd8; [exact L|].
    apply wp_ret. simpl. apply wp_ret. split; [done|].
    exists [], [], l2. split_and!; auto.
  - pose proof (cstr_cons _ _ _ _ H1) as (L1 & N1 & R1 & E1 & H1').
    eapply wp_bind, wp_rd8; [exact L1|]. rewrite (proj2 (Z.eqb_neq x 0)) by done.
    assert (exists y, load8 s p2 = Some y /\ y = nth 0 l2 0) as (y & L2 & Ey).
    { destruct l2 as [|y l2]; [apply cstr_nil in H2; eauto|].
      apply cstr_cons in H2 as (L & _). eauto. }
    eapply wp_bind, wp_rd8; [exact L2|]. apply wp_ret.
    destruct (Z.eqb_spec y x) as [->|Nyx].
    + destruct l2 as [|z l2]; simpl in Ey; [done|]. subst z.
      pose proof (cstr_cons _ _ _ _ H2) as (_ & _ & _ & E2 & H2').
      apply wp_bind, wp_ret. rewrite E1, E2.
      wp_use (apply (IH l2); [done..|simpl in Hf; lia]).
      intros q s' [-> (l & l1' & l2' & -> & -> & ?)]. split; [done|].
      exists (x :: l), l1', l2'. done.
    + apply wp_ret. split; [done|]. exists [], (x :: l1), l2. split_and!; [done..|].
      right. simpl. congruence.
Qed.

Lemma compared_app l l1 l2 r : compared l1 l2 r -> compared (l ++ l1) (l ++ l2) r.
Proof. induction l; simpl; auto using compared_cons. Qed.

Lemma cstr_head s p l : cstr s p l -> load8 s p = Some (nth 0 l 0) /\ is_u8 (nth 0 l 0).
Proof.
  destruct l as [|x l]; [intros H%cstr_nil; simpl; split; [done|lia]|].
  by intros (L & _ & R & _)%cstr_cons.
Qed.

Lemma strcmp_compared s p1 p2 l1 l2 fuel :
  cstr s p1 l1 -> cstr s p2 l2 -> p1 <> 0 -> p2 <> 0 -> (length l1 < fuel)%nat ->
  wp (strcmp fuel p1 p2) s (fun r s' => s' = s /\ compared l1 l2 r).
Proof.
  intros H1 H2 N1 N2 Hf. apply wp_bind, wp_assert; [not_null|]. apply wp_bind.
  wp_use (by apply strcmp_loop).
  intros [q1 q2] s' [-> (l & l1' & l2' & -> & -> & C1 & C2 & Hend)]. simpl in *.
  pose proof (cstr_head _ _ _ C1) as [L1 R1]. pose proof (cstr_head _ _ _ C2) as [L2 R2].
  eapply wp_bind, wp_rd8; [exact L1|]. eapply wp_bind, wp_rd8; [exact L2|].
  apply wp_ret. split; [done|]. apply compared_app.
  destruct (decide (nth 0 l1' 0 = nth 0 l2' 0)) as [E|N]; [|by apply compared_head].
  destruct Hend as [->|]; [|done]. destruct l2' as [|y l2']; [by left|].
  apply cstr_cons in C2 as (_ & Ny & _). simpl in E. congruence.
Qed.

Lemma strcat_loop s q src l n k s' fuel :
  cstr s src l -> valid_block s q (Z.of_nat (length l) + 1) ->
  q + Z.of_nat (length l) < src \/ src + Z.of_nat (length l) < q ->
  (n + k = length l)%nat -> (n < fuel)%nat ->
  modifies (fun b => q <= b < q + Z.of_nat k) s s' -> bytes_at s' q (take k l) ->
  wp (while fuel
       (fun p : Z * Z => c ← rd8 p.2; wr8 p.1 c;; mret (negb (c =? 0)))
       (fun p => mret (p.1 +! 1, p.2 +! 1))
       (q + Z.of_nat k, src + Z.of_nat k)) s' (fun _ s'' => bytes_at s'' q (l ++ [0]) /\
     modifies (fun b => q <= b <= q + Z.of_nat (length l)) s s'').
Proof.
  intros H V Hov. revert k s' fuel.
  induction n as [|n IH]; intros k s' [|fuel] Hk Hf Hm Hb; try lia; simpl while;
    destruct (cstr_read_later _ s s' src l k H Hm) as (L & R & Nx); try (intros; lia);
    apply wp_bind; (eapply wp_bind, wp_rd8; [exact L|]); apply wp_bind;
    (wp_use (apply wp_wr8; eapply modifies_valid; [exact Hm|apply V; lia]));
    intros _ s'' [Hm' L']; rewrite u8_small in L' by done; apply wp_ret;
    assert (B : bytes_at s'' q (take k l ++ [nth k l 0])).
  1,3: apply bytes_at_app; split;
    [eapply bytes_at_modifies; [exact Hm'|done|]; simpl; rewrite length_take; lia|];
    apply bytes_at_cons; rewrite length_take, Nat.min_l by lia;
    split; [|by intros ??; rewrite lookup_nil]; split; [|done];
    eapply modifies_valid; [exact Hm'|]; eapply modifies_valid; [exact Hm|]; apply V; lia.
  - rewrite nth_overflow in * by lia. rewrite take_ge in B by lia. apply wp_ret.
    split; [done|]. modifies_chain Hm Hm'.
  - rewrite (proj2 (Z.eqb_neq _ _)) by (apply Nx; lia). simpl. apply wp_bind, wp_ret.
    pose proof (valid_block_range _ _ _ V ltac:(lia)). pose proof (cstr_range _ _ _ H).
    rewrite !u32_small by lia.
    replace (q + Z.of_nat k + 1) with (q + Z.of_nat (Datatypes.S k)) by lia.
    replace (src + Z.of_nat k + 1) with (src + Z.of_nat (Datatypes.S k)) by lia.
    apply IH; [lia|lia|modifies_chain Hm Hm'|].
    rewrite (take_S_r _ _ (nth k l 0)); [done|].
    destruct (nth_lookup_or_length l k 0); [done|lia].
Qed.

Lemma strcat_appends s dst src l1 l2 fuel :
  cstr s dst l1 -> cstr s src l2 ->
  valid_block s dst (Z.of_nat (length l1) + Z.of_nat (length l2) + 1) ->
  dst + Z.of_nat (length l1) + Z.of_nat (length l2) < src
    \/ src + Z.of_nat (length l2) < dst ->
  dst <> 0 -> src <> 0 -> (length l1 < fuel)%nat -> (length l2 < fuel)%nat ->
  wp (strcat fuel dst src) s (fun r s' => r = dst /\ cstr s' dst (l1 ++ l2)
    /\ modifies (fun b => dst + Z.of_nat (length l1) <= b
         <= dst + Z.of_nat (length l1) + Z.of_nat (length l2)) s s').
Proof.
  intros H1 H2 V Hov N1 N2 F1 F2. apply wp_bind, wp_assert; [not_null|]. apply wp_bind.
  wp_use (by apply wp_skip_string). intros q s' [-> ->]. apply wp_bind.
  assert (V' : valid_block s (dst + Z.of_nat (length l1)) (Z.of_nat (length l2) + 1)).
  { intros i Hi. replace (_ + i) with (dst + (Z.of_nat (length l1) + i)) by lia.
    apply V. lia. }
  pose proof (strcat_loop s (dst + Z.of_nat (length l1)) src l2 (length l2) O s fuel H2 V')
    as E. rewrite !Z.add_0_r in E.
  wp_use (apply E; [lia|lia|lia|done|by intros ???]).
  intros _ s' [B Hm]. apply wp_ret. split; [done|]. split; [|done].
  destruct H1 as [B1 Z1], H2 as [_ Z2]. split; [|by apply Forall_app].
  rewrite <- app_assoc. apply bytes_at_app. split; [|done].
  apply bytes_at_app in B1 as [B1 _].
  eapply bytes_at_modifies; [exact Hm|done|]. simpl. lia.
Qed.

End Specs.
End CString.
