(* ===== verification/Bitmap.v ===== *)
(** [lib/kernel/bitmap.c], [lib/kernel/bitmap.h]: arrays of bits in memory.

    The memory pools and the scheduler's ready mask are bitmaps.  The bytes
    live in the memory of the interface [ByteMem]; the [struct bitmap] is a
    record.  [bitmap_rep s b bits] says that the memory [s] holds the bits
    [bits] under the bitmap [b]; each operation is specified by what it does
    to that list. *)

From S2P Require Import Prelude Bytes CString.

Module Bitmap.

Record bitmap := mkBitmap {
  base_addr : Z;
  bit_num : Z;
  byte_len : Z
}.

Definition BITMAP_MASK : Z := 1.

Definition bit_num_2_byte_len (bit_num : Z) : Z :=
  if truth (bit_num mod 8) then bit_num / 8 + 1 else bit_num / 8.

Section Functions.
Context {S : Type} `{!ByteOps S}.

(** Returns the contents of [*btmp] after the call. *)
Definition bitmap_init (base bit_num : Z) : M S bitmap :=
  let btmp := mkBitmap base bit_num (bit_num_2_byte_len bit_num) in
  CString.memset (base_addr btmp) 0 (byte_len btmp);;
  mret btmp.

Definition bitmap_get (btmp : bitmap) (bit_idx : Z) : M S Z :=
  let byte_off := bit_idx / 8 in
  let bit_off := bit_idx mod 8 in
  c ← rd8 (base_addr btmp +! byte_off);
  mret (of_bool (truth (Z.land c (Z.shiftl BITMAP_MASK bit_off)))).

(** The [while] loop of [bitmap_scan]. *)
Fixpoint bitmap_scan_loop (fuel : nat) (btmp : bitmap) (val cnt left right : Z)
    : M S Z :=
  match fuel with
  | O => out_of_fuel
  | Datatypes.S fuel' =>
      if right <? bit_num btmp then
        b ← bitmap_get btmp right;
        let left := if negb (b =? val) then u32 (right + 1) else left in
        if u32 (right - left + 1) =? cnt then mret (i32 left)
        else bitmap_scan_loop fuel' btmp val cnt left (u32 (right + 1))
      else mret (-1)
  end.

Definition bitmap_scan (btmp : bitmap) (val cnt : Z) : M S Z :=
  bitmap_scan_loop (Datatypes.S (Z.to_nat (bit_num btmp))) btmp val cnt 0 0.

Definition bitmap_set (btmp : bitmap) (idx : Z) : M S unit :=
  let byte_off := idx / 8 in
  let bit_off := idx mod 8 in
  c ← rd8 (base_addr btmp +! byte_off);
  wr8 (base_addr btmp +! byte_off) (Z.lor c (Z.shiftl 1 bit_off)).

Definition bitmap_clear (btmp : bitmap) (idx : Z) : M S unit :=
  let byte_off := idx / 8 in
  let bit_off := idx mod 8 in
  c ← rd8 (base_addr btmp +! byte_off);
  wr8 (base_addr btmp +! byte_off) (Z.land c (Z.lnot (Z.shiftl 1 bit_off))).

End Functions.

Section Specs.
Context {S : Type} `{!ByteOps S} `{!ByteMem S}.

(** ** Representation *)

Definition bitmap_rep (s : S) (b : bitmap) (bits : list bool) : Prop :=
  length bits = Z.to_nat (bit_num b) /\ is_u32 (bit_num b)
  /\ byte_len b = bit_num_2_byte_len (bit_num b)
  /\ valid_block s (base_addr b) (byte_len b)
  /\ (forall i v, bits !! i = Some v ->
        exists c, load8 s (base_addr b + Z.of_nat i / 8) = Some c
          /\ Z.testbit c (Z.of_nat i mod 8) = v).

Lemma bit_in_byte_len n i : 0 <= i < n -> 0 <= i / 8 < bit_num_2_byte_len n.
Proof.
  intros Hi. unfold bit_num_2_byte_len, truth.
  destruct (Z.eqb_spec (n mod 8) 0); simpl; zdiv_lia.
Qed.

(** The byte of a bit. *)
Lemma rep_byte s b bits i :
  bitmap_rep s b bits -> 0 <= i < bit_num b ->
  let a := base_addr b + i / 8 in
  base_addr b +! (i / 8) = a /\ valid s a /\
  exists c, load8 s a = Some c /\ is_u8 c
    /\ bits !! Z.to_nat i = Some (Z.testbit c (i mod 8)).
Proof.
  intros (Hl & Hn & Hb & V & H) Hi.
  pose proof (bit_in_byte_len (bit_num b) i Hi) as Hk. rewrite <- Hb in Hk.
  split; [by eapply valid_block_addr|]. split; [by apply V|].
  destruct (load8_valid s _ (V _ Hk)) as (c & Hc & Rc). exists c. split_and!; [done|lia..|].
  destruct (lookup_lt_is_Some_2 bits (Z.to_nat i)) as [v Hv]; [lia|].
  destruct (H _ _ Hv) as (c' & Hc' & Hbit). rewrite Z2Nat.id in Hc', Hbit by lia.
  congruence.
Qed.

(** A change elsewhere in memory leaves the bits alone. *)
Lemma bitmap_rep_modifies P s s' b bits :
  modifies P s s' -> (forall i, 0 <= i < byte_len b -> ~ P (base_addr b + i)) ->
  bitmap_rep s b bits -> bitmap_rep s' b bits.
Proof.
  intros Hm HP (Hl & Hn & Hb & V & H). do 3 (split; [done|]).
  split; [by eapply valid_block_modifies|]. intros i v Hv.
  destruct (H i v Hv) as (c & Hc & Hbit). exists c. split; [|done]. rewrite <- Hc.
  assert (0 <= Z.of_nat i / 8 < byte_len b).
  { rewrite Hb. apply bit_in_byte_len. apply lookup_lt_Some in Hv. lia. }
  eapply modifies_load; [done|by apply V|by apply HP].
Qed.

(** The bits depend on the loads of the bitmap's bytes only. *)
Lemma bitmap_rep_kept s s' b bits :
  (forall a, base_addr b <= a < base_addr b + byte_len b -> valid s a ->
     valid s' a /\ load8 s' a = load8 s a) ->
  bitmap_rep s b bits -> bitmap_rep s' b bits.
Proof.
  intros Hext (Hl & Hn & Hb & V & H). do 3 (split; [done|]). split.
  - intros i Hi. apply Hext; [lia|by apply V].
  - intros i v Hv. destruct (H i v Hv) as (c & Hc & Hbit). exists c. split; [|done].
    assert (0 <= Z.of_nat i / 8 < byte_len b).
    { rewrite Hb. apply bit_in_byte_len. apply lookup_lt_Some in Hv. lia. }
    rewrite <- Hc. apply Hext; [lia|by apply V].
Qed.

Lemma bitmap_rep_ext s s' b bits :
  (forall a, valid s a -> valid s' a /\ load8 s' a = load8 s a) ->
  bitmap_rep s b bits -> bitmap_rep s' b bits.
Proof. intros Hext. apply bitmap_rep_kept. auto. Qed.

(** Rewriting one byte of a bitmap so that it differs in one bit. *)
Lemma rep_write_bit s s' b bits idx c c' v :
  bitmap_rep s b bits -> 0 <= idx < bit_num b ->
  let a := base_addr b + idx / 8 in
  load8 s a = Some c -> modifies (eq a) s s' -> load8 s' a = Some c' ->
  (forall k, 0 <= k < 8 ->
     Z.testbit c' k = if bool_decide (k = idx mod 8) then v else Z.testbit c k) ->
  bitmap_rep s' b (<[Z.to_nat idx := v]> bits).
Proof.
  intros (Hl & Hn & Hb & V & H) Hi a Lc Hm Lc' Hbits.
  do 3 (split; [by rewrite ?length_insert|]).
  split; [by eapply valid_block_modifies|]. intros i w Hw.
  assert (Hlt : (i < Z.to_nat (bit_num b))%nat).
  { apply lookup_lt_Some in Hw. by rewrite length_insert in Hw; lia. }
  destruct (lookup_lt_is_Some_2 bits i) as [w0 Hw0]; [lia|].
  destruct (H _ _ Hw0) as (c0 & Hc0 & Hbit0).
  assert (Hm8 : 0 <= Z.of_nat i mod 8 < 8) by (apply Z.mod_pos_bound; lia).
  destruct (decide (Z.of_nat i / 8 = idx / 8)) as [E|N].
  - exists c'. split; [by rewrite E|]. rewrite Hbits by done.
    assert (c0 = c) as -> by (rewrite E in Hc0; fold a in Hc0; congruence).
    destruct (bool_decide_reflect (Z.of_nat i mod 8 = idx mod 8)) as [Em|Nm].
    + assert (i = Z.to_nat idx) as -> by zdiv_lia.
      rewrite list_lookup_insert_eq in Hw by lia. congruence.
    + rewrite list_lookup_insert_ne in Hw by (intros <-; apply Nm; zdiv_lia). congruence.
  - exists c0. split.
    + rewrite <- Hc0. eapply modifies_load; [exact Hm| |unfold a; lia].
      apply V. rewrite Hb. apply bit_in_byte_len. lia.
    + rewrite list_lookup_insert_ne in Hw by (intros <-; apply N; by rewrite Z2Nat.id by lia).
      congruence.
Qed.

(** ** The operations *)

Lemma bitmap_init_zero s base n :
  is_u32 n -> valid_block s base (bit_num_2_byte_len n) -> base <> 0 ->
  wp (bitmap_init base n) s (fun b s' =>
    b = mkBitmap base n (bit_num_2_byte_len n)
    /\ bitmap_rep s' b (replicate (Z.to_nat n) false)
    /\ modifies (fun a => base <= a < base + bit_num_2_byte_len n) s s').
Proof.
  intros Hn V Hb. apply wp_bind. simpl.
  assert (0 <= bit_num_2_byte_len n).
  { unfold bit_num_2_byte_len. destruct (truth _); zdiv_lia. }
  wp_use (apply CString.memset_block; [done|done|done|lia]).
  intros _ s' [B Hm]. apply wp_ret. split; [done|]. split; [|done].
  split; [by rewrite length_replicate|]. do 2 (split; [done|]).
  split; [by eapply valid_block_modifies|]. intros i v [-> Hi]%lookup_replicate.
  exists 0. split; [|by rewrite Z.bits_0]. simpl in *.
  destruct (bit_in_byte_len n (Z.of_nat i)); [lia|].
  assert (Hk : replicate (Z.to_nat (bit_num_2_byte_len n)) 0 !! Z.to_nat (Z.of_nat i / 8)
            = Some 0) by (apply lookup_replicate; split; [done|lia]).
  destruct (B _ _ Hk) as (_ & L & _). by rewrite Z2Nat.id in L by lia.
Qed.

Lemma bitmap_get_bit s b bits idx :
  bitmap_rep s b bits -> 0 <= idx < bit_num b ->
  wp (bitmap_get b idx) s (fun r s' => s' = s /\
    exists v, bits !! Z.to_nat idx = Some v /\ r = of_bool v).
Proof.
  intros R Hi. destruct (rep_byte s b bits idx R Hi) as (E & V & c & L & Rc & Hv).
  unfold bitmap_get. rewrite E. apply wp_bind. eapply wp_rd8; [exact L|].
  apply wp_ret. split; [done|]. eexists. split; [exact Hv|]. f_equal.
  assert (0 <= idx mod 8 < 8) by (apply Z.mod_pos_bound; lia).
  unfold truth, BITMAP_MASK.
  destruct (Z.testbit c (idx mod 8)) eqn:Hb; destruct (Z.eqb_spec
    (Z.land c (Z.shiftl 1 (idx mod 8))) 0) as [Ez|Nz]; [|done..|].
  - exfalso. apply (f_equal (fun z => Z.testbit z (idx mod 8))) in Ez.
    rewrite Z.land_spec, Hb, testbit_shiftl_1, bool_decide_true, Z.bits_0 in Ez by lia.
    done.
  - exfalso. apply Nz. apply Z.bits_inj'. intros k Hk.
    rewrite Z.land_spec, testbit_shiftl_1, Z.bits_0 by lia.
    case_bool_decide as Ek; [by rewrite Ek, Hb|by rewrite andb_false_r].
Qed.

Lemma bitmap_set_bit s b bits idx :
  bitmap_rep s b bits -> 0 <= idx < bit_num b ->
  wp (bitmap_set b idx) s (fun _ s' =>
    bitmap_rep s' b (<[Z.to_nat idx := true]> bits)
    /\ modifies (eq (base_addr b + idx / 8)) s s').
Proof.
  intros R Hi. destruct (rep_byte s b bits idx R Hi) as (E & V & c & L & Rc & Hv).
  unfold bitmap_set. rewrite E. apply wp_bind. eapply wp_rd8; [exact L|].
  assert (0 <= idx mod 8 < 8) by (apply Z.mod_pos_bound; lia).
  wp_use (by apply wp_wr8). intros _ s' [Hm L']. split; [|done].
  eapply rep_write_bit; [done..|]. intros k Hk. unfold u8.
  rewrite Z.mod_pow2_bits_low, Z.lor_spec, testbit_shiftl_1 by lia.
  case_bool_decide; [apply orb_true_r|apply orb_false_r].
Qed.

Lemma bitmap_clear_bit s b bits idx :
  bitmap_rep s b bits -> 0 <= idx < bit_num b ->
  wp (bitmap_clear b idx) s (fun _ s' =>
    bitmap_rep s' b (<[Z.to_nat idx := false]> bits)
    /\ modifies (eq (base_addr b + idx / 8)) s s').
Proof.
  intros R Hi. destruct (rep_byte s b bits idx R Hi) as (E & V & c & L & Rc & Hv).
  unfold bitmap_clear. rewrite E. apply wp_bind. eapply wp_rd8; [exact L|].
  assert (0 <= idx mod 8 < 8) by (apply Z.mod_pos_bound; lia).
  wp_use (by apply wp_wr8). intros _ s' [Hm L']. split; [|done].
  eapply rep_write_bit; [done..|]. intros k Hk. unfold u8.
  rewrite Z.mod_pow2_bits_low, Z.land_spec, Z.lnot_spec, testbit_shiftl_1 by lia.
  case_bool_decide; simpl; [apply andb_false_r|apply andb_true_r].
Qed.

(** [run bits v n i]: the [n] bits from [i] on exist and are all [v]. *)
Definition run (bits : list bool) (v : bool) (n i : nat) : Prop :=
  forall j, (j < n)%nat -> bits !! (i + j)%nat = Some v.

(** [r] is the start of the first run, or -1 when there is none. *)
Definition first_run (bits : list bool) (v : bool) (n : nat) (r : Z) : Prop :=
  (r = -1 /\ forall i, ~ run bits v n i) \/
  (exists i, r = Z.of_nat i /\ run bits v n i /\ forall j, (j < i)%nat -> ~ run bits v n j).

Lemma bitmap_scan_loop_first s b bits v cnt fuel (left right : nat) :
  bitmap_rep s b bits -> bit_num b < 2 ^ 31 -> (0 < cnt)%nat -> Z.of_nat cnt < 2 ^ 32 ->
  (Z.to_nat (bit_num b) - right < fuel)%nat ->
  (left <= right)%nat -> (right - left < cnt)%nat -> (right <= Z.to_nat (bit_num b))%nat ->
  (forall j, (left <= j < right)%nat -> bits !! j = Some v) ->
  (forall j, (j < left)%nat -> ~ run bits v cnt j) ->
  wp (bitmap_scan_loop fuel b (of_bool v) (Z.of_nat cnt) (Z.of_nat left) (Z.of_nat right)) s
     (fun r s' => s' = s /\ first_run bits v cnt r).
Proof.
  intros R Hn Hc Hc' Hf Hlr Hw Hr Hrun Hno. pose proof R as (Hlen & _).
  revert left right Hf Hlr Hw Hr Hrun Hno.
  induction fuel as [|fuel IH]; intros left right Hf Hlr Hw Hr Hrun Hno; [lia|].
  simpl bitmap_scan_loop. destruct (Z.ltb_spec (Z.of_nat right) (bit_num b)) as [Hlt|Hge].
  - apply wp_bind. wp_use (apply bitmap_get_bit; [exact R|lia]).
    intros x s' [-> (w & Hx & ->)]. rewrite Nat2Z.id in Hx.
    rewrite (u32_small (Z.of_nat right + 1)) by lia.
    replace (of_bool w =? of_bool v) with (bool_decide (w = v)) by (by destruct w, v).
    replace (Z.of_nat right + 1) with (Z.of_nat (Datatypes.S right)) by lia.
    destruct (bool_decide_reflect (w = v)) as [->|Nw]; simpl negb; cbv iota zeta.
    + rewrite u32_small by lia. destruct (Z.eqb_spec (Z.of_nat right - Z.of_nat left + 1)
        (Z.of_nat cnt)) as [E|N].
      * apply wp_ret. split; [done|]. rewrite i32_small by lia. right. exists left.
        split_and!; [done| |done]. intros j Hj.
        destruct (decide (left + j = right)%nat) as [->|]; [done|apply Hrun; lia].
      * apply IH; try lia; [|done]. intros j Hj.
        destruct (decide (j = right)) as [->|]; [done|apply Hrun; lia].
    + replace (Z.of_nat right - Z.of_nat (Datatypes.S right) + 1) with 0 by lia.
      rewrite (u32_small 0), (proj2 (Z.eqb_neq 0 (Z.of_nat cnt))) by lia.
      apply IH; try lia. intros j Hj Hj'.
      destruct (decide (j < left)%nat); [by eapply Hno|].
      specialize (Hj' (right - j)%nat ltac:(lia)).
      replace (j + (right - j))%nat with right in Hj' by lia. congruence.
  - apply wp_ret. split; [done|]. left. split; [done|]. intros i Hi.
    destruct (decide (i < left)%nat); [by eapply Hno|].
    specialize (Hi (cnt - 1)%nat ltac:(lia)). apply lookup_lt_Some in Hi. lia.
Qed.

Lemma bitmap_scan_first s b bits v cnt :
  bitmap_rep s b bits -> bit_num b < 2 ^ 31 -> 0 < cnt < 2 ^ 32 ->
  wp (bitmap_scan b (of_bool v) cnt) s (fun r s' => s' = s
    /\ first_run bits v (Z.to_nat cnt) r).
Proof.
  intros R Hn Hc. rewrite <- (Z2Nat.id cnt) at 1 by lia.
  apply (bitmap_scan_loop_first s b bits v _ _ O O); try done; lia.
Qed.

End Specs.
End Bitmap.
