(* ===== verification/Interrupt.v ===== *)
(** [kernel/interrupt.c], the interrupt flag: [intr_get_status],
    [intr_disable], [intr_enable], [intr_set_status].

    The state is the EFLAGS register; [cli] and [sti] clear and set its bit 9.
    The descriptor table of the same file is in [Descriptors.v]. *)

From S2P Require Import Prelude.

Module Interrupt.

(** The constructors carry the values 0 and 1 of the C enumeration. *)
Inductive intr_status : Set := INTR_OFF | INTR_ON.

#[export] Instance intr_status_eq_dec : EqDecision intr_status.
Proof. solve_decision. Defined.

Definition EFLAGS_IF : Z := 0x200.

Definition cli : M Z unit := modify (fun eflags => Z.land eflags (Z.lnot EFLAGS_IF)).
Definition sti : M Z unit := modify (fun eflags => Z.lor eflags EFLAGS_IF).

Definition intr_get_status : M Z intr_status :=
  eflags ← gets id;
  mret (if truth (Z.land EFLAGS_IF eflags) then INTR_ON else INTR_OFF).

Definition intr_disable : M Z intr_status :=
  st ← intr_get_status;
  if bool_decide (INTR_ON = st) then cli;; mret INTR_ON else mret INTR_OFF.

Definition intr_enable : M Z intr_status :=
  st ← intr_get_status;
  if bool_decide (INTR_OFF = st) then sti;; mret INTR_OFF else mret INTR_ON.

Definition intr_set_status (status : intr_status) : M Z intr_status :=
  if bool_decide (status = INTR_ON) then intr_enable else intr_disable.

(** ** What they do to the flag *)

Definition if_flag (eflags : Z) : bool := Z.testbit eflags 9.
Definition status_of (b : bool) : intr_status := if b then INTR_ON else INTR_OFF.
Definition with_if (b : bool) (eflags : Z) : Z :=
  if b then Z.lor eflags EFLAGS_IF else Z.land eflags (Z.lnot EFLAGS_IF).

#[global] Arguments if_flag : simpl never.
#[global] Arguments with_if : simpl never.

Lemma land_if_flag eflags : truth (Z.land EFLAGS_IF eflags) = if_flag eflags.
Proof.
  unfold if_flag, truth. change EFLAGS_IF with (Z.shiftl 1 9).
  destruct (Z.testbit eflags 9) eqn:E; destruct (Z.eqb_spec
    (Z.land (Z.shiftl 1 9) eflags) 0) as [Ez|Nz]; try done; exfalso.
  - apply (f_equal (fun z => Z.testbit z 9)) in Ez.
    by rewrite Z.land_spec, E, testbit_shiftl_1, Z.bits_0 in Ez by lia.
  - apply Nz, Z.bits_inj'. intros k Hk.
    rewrite Z.land_spec, testbit_shiftl_1, Z.bits_0 by lia.
    case_bool_decide as Ek; [by rewrite Ek, E|done].
Qed.

Lemma with_if_flag b eflags : if_flag (with_if b eflags) = b.
Proof.
  unfold if_flag, with_if. destruct b.
  - rewrite Z.lor_spec. apply orb_true_r.
  - rewrite Z.land_spec. apply andb_false_r.
Qed.

(** Setting the flag to what it is changes nothing. *)
Lemma with_if_same eflags : with_if (if_flag eflags) eflags = eflags.
Proof.
  apply Z.bits_inj'. intros k Hk. unfold with_if, if_flag.
  change EFLAGS_IF with (Z.shiftl 1 9). destruct (Z.testbit eflags 9) eqn:E.
  - rewrite Z.lor_spec, testbit_shiftl_1 by lia.
    case_bool_decide as Ek; [by rewrite Ek, E|apply orb_false_r].
  - rewrite Z.land_spec, Z.lnot_spec, testbit_shiftl_1 by lia.
    case_bool_decide as Ek; [by rewrite Ek, E|apply andb_true_r].
Qed.

Lemma with_if_with_if b c eflags : with_if b (with_if c eflags) = with_if b eflags.
Proof.
  apply Z.bits_inj'. intros k Hk. unfold with_if.
  destruct b, c; rewrite ?Z.lor_spec, ?Z.land_spec, ?Z.lor_spec, ?Z.land_spec, ?Z.lnot_spec
    by lia; destruct (Z.testbit eflags k), (Z.testbit EFLAGS_IF k); done.
Qed.

Lemma intr_get_status_ok e : intr_get_status e = Ok (status_of (if_flag e)) e.
Proof.
  unfold intr_get_status, mbind, M_bind, gets, mret, M_ret, id.
  rewrite land_if_flag. by destruct (if_flag e).
Qed.

Lemma intr_disable_ok e :
  intr_disable e = Ok (status_of (if_flag e)) (with_if false e).
Proof.
  unfold intr_disable. erewrite bind_ok by apply intr_get_status_ok.
  destruct (if_flag e) eqn:E; [done|]. pose proof (with_if_same e) as H.
  rewrite E in H. by rewrite H.
Qed.

Lemma intr_enable_ok e :
  intr_enable e = Ok (status_of (if_flag e)) (with_if true e).
Proof.
  unfold intr_enable. erewrite bind_ok by apply intr_get_status_ok.
  destruct (if_flag e) eqn:E; [|done]. pose proof (with_if_same e) as H.
  rewrite E in H. by rewrite H.
Qed.

Lemma intr_set_status_ok b e :
  intr_set_status (status_of b) e = Ok (status_of (if_flag e)) (with_if b e).
Proof. destruct b; [apply intr_enable_ok|apply intr_disable_ok]. Qed.

End Interrupt.
