(* ===== verification/LinkedList.v ===== *)
(** [lib/kernel/list.c], [lib/kernel/list.h]: intrusive doubly linked lists
    with a head and a tail sentinel.

    The heap of list nodes is a finite map from the address of a
    [struct list_elem] to its two pointers; a [struct list] at [l] is its head
    sentinel at [l] and its tail sentinel at [l + 8].  [dll h l xs] says that
    the list at [l] holds the nodes [xs] in order; [lists_rep h L] that a whole
    family of lists is laid out in the heap, no node shared.  Every operation
    also saves, clears and restores the interrupt flag. *)

From S2P Require Import Prelude Interrupt.

Module LinkedList.
Import Interrupt.

Record list_elem := mkElem { prev : Z; next : Z }.

Record lstate := mkL { l_eflags : Z; l_links : gmap Z list_elem }.

Program Definition eflags_lens : lens lstate Z :=
  Lens l_eflags (fun e s => mkL e (l_links s)) _ _ _.
Next Obligation. done. Qed.
Next Obligation. done. Qed.
Next Obligation. by intros []. Qed.

Definition NULL : Z := 0.

(** Layout of [struct list]: [head] at offset 0, [tail] at offset 8. *)
Definition list_head (l : Z) : Z := l.
Definition list_tail (l : Z) : Z := l + 8.

(** [ELEM2ENTRY(type, member, elem)], for a member at offset [off]. *)
Definition ELEM2ENTRY (off elem_ptr : Z) : Z := u32 (elem_ptr - off).

Definition rd_prev (a : Z) : M lstate Z := deref (fun s => prev <$> l_links s !! a).
Definition rd_next (a : Z) : M lstate Z := deref (fun s => next <$> l_links s !! a).
Definition wr_prev (a v : Z) : M lstate unit := update (fun s =>
  n ← l_links s !! a; Some (mkL (l_eflags s) (<[a := mkElem v (next n)]> (l_links s)))).
Definition wr_next (a v : Z) : M lstate unit := update (fun s =>
  n ← l_links s !! a; Some (mkL (l_eflags s) (<[a := mkElem (prev n) v]> (l_links s)))).

Definition list_init (list : Z) : M lstate unit :=
  wr_prev (list_head list) NULL;;
  wr_next (list_head list) (list_tail list);;
  wr_prev (list_tail list) (list_head list);;
  wr_next (list_tail list) NULL.

Definition list_insert_before (e1 e2 : Z) : M lstate unit :=
  old_status ← zoom eflags_lens intr_disable;
  p ← rd_prev e1;
  wr_next p e2;;
  p ← rd_prev e1;
  wr_prev e2 p;;
  wr_next e2 e1;;
  wr_prev e1 e2;;
  zoom eflags_lens (intr_set_status old_status);;
  mret tt.

Definition list_push_front (list e : Z) : M lstate unit :=
  n ← rd_next (list_head list);
  list_insert_before n e.

Definition list_push_back (list e : Z) : M lstate unit :=
  list_insert_before (list_tail list) e.

Definition list_remove (e : Z) : M lstate unit :=
  old_status ← zoom eflags_lens intr_disable;
  p ← rd_prev e;
  n ← rd_next e;
  wr_next p n;;
  n ← rd_next e;
  p ← rd_prev e;
  wr_prev n p;;
  zoom eflags_lens (intr_set_status old_status);;
  mret tt.

Definition list_pop_front (list : Z) : M lstate Z :=
  ret ← rd_next (list_head list);
  list_remove ret;;
  mret ret.

Fixpoint list_elem_find_loop (fuel : nat) (list e tmp : Z) : M lstate bool :=
  match fuel with
  | O => out_of_fuel
  | S fuel' =>
      if tmp =? list_tail list then mret false
      else if tmp =? e then mret true
      else tmp ← rd_next tmp; list_elem_find_loop fuel' list e tmp
  end.

(** A list that does not run in circles has fewer elements than the heap has
    nodes: that bounds the walks. *)
Definition walk_fuel (s : lstate) : nat := S (size (l_links s)).

Definition list_elem_find (list e : Z) : M lstate bool :=
  fuel ← gets walk_fuel;
  tmp ← rd_next (list_head list);
  list_elem_find_loop fuel list e tmp.

Definition list_first_elem (list : Z) : M lstate Z := rd_next (list_head list).

Fixpoint list_len_loop (fuel : nat) (list tmp cnt : Z) : M lstate Z :=
  match fuel with
  | O => out_of_fuel
  | S fuel' =>
      if tmp =? list_tail list then mret cnt
      else tmp ← rd_next tmp; list_len_loop fuel' list tmp (u32 (cnt + 1))
  end.

Definition list_len (list : Z) : M lstate Z :=
  fuel ← gets walk_fuel;
  tmp ← rd_next (list_head list);
  list_len_loop fuel list tmp 0.

Definition list_empty (list : Z) : M lstate bool :=
  n ← rd_next (list_head list);
  mret (n =? list_tail list).

(** ** Chains of nodes *)

Section Chains.
Implicit Types (h : gmap Z list_elem) (xs ys : list Z).

(** [a] is followed by [b]. *)
Definition linked h (a b : Z) : Prop :=
  next <$> h !! a = Some b /\ prev <$> h !! b = Some a.

(** Every node of the sequence is linked to the one after it. *)
Fixpoint path h (l : list Z) : Prop :=
  match l with
  | a :: ((b :: _) as l') => linked h a b /\ path h l'
  | _ => True
  end.

Lemma path_app h xs p ys :
  path h (xs ++ p :: ys) <-> path h (xs ++ [p]) /\ path h (p :: ys).
Proof.
  induction xs as [|x xs IH]; [simpl; tauto|].
  destruct xs as [|x' xs]; [simpl in *; tauto|].
  change (linked h x x' /\ path h ((x' :: xs) ++ p :: ys)
    <-> (linked h x x' /\ path h ((x' :: xs) ++ [p])) /\ path h (p :: ys)).
  rewrite IH. tauto.
Qed.

(** A path reads [next] of all its nodes but the last and [prev] of all but
    the first. *)
Lemma path_frame h h' l :
  (forall a, a ∈ removelast l -> next <$> h' !! a = next <$> h !! a) ->
  (forall a, a ∈ tl l -> prev <$> h' !! a = prev <$> h !! a) ->
  path h l -> path h' l.
Proof.
  induction l as [|a [|b l] IH]; intros Hn Hp; [done..|]. intros [[Ha Hb] Hpath].
  split.
  - split; [rewrite Hn|rewrite Hp]; [done|simpl; left|done|simpl; left].
  - apply IH; [|intros c Hc; apply Hp; simpl; by right|done].
    intros c Hc. apply Hn. simpl. by right.
Qed.

Lemma removelast_subset (l : list Z) a : a ∈ removelast l -> a ∈ l.
Proof.
  induction l as [|x [|y l] IH]; [done|by intros ?%not_elem_of_nil|].
  intros H. apply elem_of_cons in H as [->|H]; [left|right]. by apply IH.
Qed.

(** The nodes of the list at [l] with elements [xs], sentinels included. *)
Definition nodes (l : Z) xs : list Z := list_head l :: xs ++ [list_tail l].

(** The list at [l] holds [xs]. *)
Definition dll h (l : Z) xs : Prop :=
  prev <$> h !! list_head l = Some NULL /\ next <$> h !! list_tail l = Some NULL
  /\ path h (nodes l xs) /\ NoDup (nodes l xs).

Lemma dll_frame h h' l xs :
  (forall a, a ∈ nodes l xs -> h' !! a = h !! a) -> dll h l xs -> dll h' l xs.
Proof.
  intros Hf (H1 & H2 & H3 & H4).
  split; [rewrite Hf; [done|left]|].
  split; [rewrite Hf; [done|right; apply elem_of_app; right; by left]|].
  split; [|done]. eapply path_frame; [..|done]; intros a Ha; rewrite Hf; try done.
  - by apply removelast_subset.
  - by right.
Qed.

(** Linking a new node between [p] and [n]. *)
Definition link_between h p e n np nn : gmap Z list_elem :=
  <[n := mkElem e (next nn)]> (<[e := mkElem p n]> (<[p := mkElem (prev np) e]> h)).

Lemma path_insert h xs ys p e n np nn ne :
  path h (xs ++ p :: n :: ys) -> NoDup (xs ++ p :: n :: ys) ->
  e ∉ xs ++ p :: n :: ys ->
  h !! p = Some np -> h !! n = Some nn -> h !! e = Some ne ->
  path (link_between h p e n np nn) (xs ++ p :: e :: n :: ys).
Proof.
  intros Hp Hnd He Lp Ln Le.
  apply NoDup_app in Hnd as (_ & Hxs & Hnd).
  apply NoDup_cons in Hnd as [Hpn Hnd]. apply NoDup_cons in Hnd as [Hny _].
  assert (p <> n) by (intros ->; apply Hpn; left).
  assert (e <> p) by set_solver. assert (e <> n) by set_solver.
  assert (n ∉ xs) by (intros Hn; apply (Hxs n Hn); right; left).
  assert (p ∉ xs) by (intros Hn; apply (Hxs p Hn); left).
  apply path_app in Hp as [Hp1 Hp2]. destruct Hp2 as [Hpn' Hp2].
  unfold link_between. apply path_app. split.
  - eapply path_frame; [..|exact Hp1]; intros a Ha.
    + rewrite removelast_last in Ha. by rewrite !lookup_insert_ne by set_solver.
    + assert (a ∈ xs ++ [p]) as Ha' by (destruct (xs ++ [p]); [done|by right]).
      destruct (decide (a = p)) as [->|].
      * by rewrite !lookup_insert_ne, lookup_insert_eq, Lp by done.
      * by rewrite !lookup_insert_ne by set_solver.
  - split; [|split].
    + split; [by rewrite !lookup_insert_ne, lookup_insert_eq by done|].
      by rewrite lookup_insert_ne, lookup_insert_eq by done.
    + split; [by rewrite lookup_insert_ne, lookup_insert_eq by done|].
      by rewrite lookup_insert_eq.
    + eapply path_frame; [..|exact Hp2]; intros a Ha.
      * apply removelast_subset in Ha. destruct (decide (a = n)) as [->|].
        { by rewrite lookup_insert_eq, Ln. }
        by rewrite !lookup_insert_ne by set_solver.
      * simpl in Ha. by rewrite !lookup_insert_ne by set_solver.
Qed.

(** Unlinking the node between [p] and [n]. *)
Definition unlink_between h p n np nn : gmap Z list_elem :=
  <[n := mkElem p (next nn)]> (<[p := mkElem (prev np) n]> h).

Lemma path_remove h xs ys p e n np nn :
  path h (xs ++ p :: e :: n :: ys) -> NoDup (xs ++ p :: e :: n :: ys) ->
  h !! p = Some np -> h !! n = Some nn ->
  path (unlink_between h p n np nn) (xs ++ p :: n :: ys).
Proof.
  intros Hp Hnd Lp Ln.
  apply NoDup_app in Hnd as (_ & Hxs & Hnd).
  apply NoDup_cons in Hnd as [Hpn Hnd]. apply NoDup_cons in Hnd as [Hen Hnd].
  apply NoDup_cons in Hnd as [Hny _].
  assert (p <> n) by (intros ->; apply Hpn; right; left).
  assert (n ∉ xs) by (intros Hn; apply (Hxs n Hn); right; right; left).
  assert (p ∉ xs) by (intros Hn; apply (Hxs p Hn); left).
  apply path_app in Hp as [Hp1 Hp2]. destruct Hp2 as [_ [_ Hp2]].
  unfold unlink_between. apply path_app. split.
  - eapply path_frame; [..|exact Hp1]; intros a Ha.
    + rewrite removelast_last in Ha. by rewrite !lookup_insert_ne by set_solver.
    + assert (a ∈ xs ++ [p]) as Ha' by (destruct (xs ++ [p]); [done|by right]).
      destruct (decide (a = p)) as [->|].
      * by rewrite lookup_insert_ne, lookup_insert_eq, Lp by done.
      * by rewrite !lookup_insert_ne by set_solver.
  - split.
    + split; [by rewrite lookup_insert_ne, lookup_insert_eq by done|].
      by rewrite lookup_insert_eq.
    + eapply path_frame; [..|exact Hp2]; intros a Ha.
      * apply removelast_subset in Ha. destruct (decide (a = n)) as [->|].
        { by rewrite lookup_insert_eq, Ln. }
        by rewrite !lookup_insert_ne by set_solver.
      * simpl in Ha. by rewrite !lookup_insert_ne by set_solver.
Qed.

End Chains.

(** ** The primitive accesses *)

Lemma rd_prev_ok s a n : l_links s !! a = Some n -> rd_prev a s = Ok (prev n) s.
Proof. intros H. unfold rd_prev, deref. by rewrite H. Qed.
Lemma rd_next_ok s a n : l_links s !! a = Some n -> rd_next a s = Ok (next n) s.
Proof. intros H. unfold rd_next, deref. by rewrite H. Qed.
Lemma wr_prev_ok s a v n :
  l_links s !! a = Some n ->
  wr_prev a v s = Ok tt (mkL (l_eflags s) (<[a := mkElem v (next n)]> (l_links s))).
Proof. intros H. unfold wr_prev, update. by rewrite H. Qed.
Lemma wr_next_ok s a v n :
  l_links s !! a = Some n ->
  wr_next a v s = Ok tt (mkL (l_eflags s) (<[a := mkElem (prev n) v]> (l_links s))).
Proof. intros H. unfold wr_next, update. by rewrite H. Qed.

Lemma zoom_disable_ok s :
  zoom eflags_lens intr_disable s =
  Ok (status_of (if_flag (l_eflags s))) (mkL (with_if false (l_eflags s)) (l_links s)).
Proof. erewrite zoom_ok by apply intr_disable_ok. done. Qed.

Lemma zoom_restore_ok b s :
  zoom eflags_lens (intr_set_status (status_of b)) s =
  Ok (status_of (if_flag (l_eflags s))) (mkL (with_if b (l_eflags s)) (l_links s)).
Proof. erewrite zoom_ok by apply intr_set_status_ok. done. Qed.

(** Run the accesses at the head of the goal; [lookups] proves where the nodes
    are. *)
Ltac node_lookup :=
  simpl l_links;
  repeat first
    [ rewrite lookup_insert_eq
    | rewrite lookup_insert_ne by congruence ];
  first [reflexivity | eassumption].
Ltac run_links :=
  repeat (erewrite bind_ok by (first
    [ apply zoom_disable_ok | apply zoom_restore_ok
    | eapply rd_prev_ok; node_lookup | eapply rd_next_ok; node_lookup
    | eapply wr_prev_ok; node_lookup | eapply wr_next_ok; node_lookup ]));
  simpl prev; simpl next; simpl l_eflags; simpl l_links.

Lemma list_insert_before_ok s p n e np nn ne :
  l_links s !! p = Some np -> l_links s !! n = Some nn -> l_links s !! e = Some ne ->
  prev nn = p -> p <> n -> e <> p -> e <> n ->
  list_insert_before n e s =
  Ok tt (mkL (l_eflags s) (link_between (l_links s) p e n np nn)).
Proof.
  intros Lp Ln Le <- Npn Nep Nen. unfold list_insert_before. run_links.
  unfold mret, M_ret, link_between.
  rewrite with_if_with_if, with_if_same. by rewrite insert_insert_eq.
Qed.

Lemma list_remove_ok s p e n np nn ne :
  l_links s !! p = Some np -> l_links s !! n = Some nn -> l_links s !! e = Some ne ->
  prev ne = p -> next ne = n -> p <> n -> e <> p -> e <> n ->
  list_remove e s = Ok tt (mkL (l_eflags s) (unlink_between (l_links s) p n np nn)).
Proof.
  intros Lp Ln Le <- <- Npn Nep Nen. unfold list_remove. run_links.
  unfold mret, M_ret, unlink_between. by rewrite with_if_with_if, with_if_same.
Qed.

(** ** Families of lists *)

Section Families.
Implicit Types (h : gmap Z list_elem) (L : gmap Z (list Z)) (xs ys : list Z).

Definition owned L (a : Z) : Prop := exists l xs, L !! l = Some xs /\ a ∈ nodes l xs.

(** The lists of [L] are laid out in [h]: each holds its elements, and no node
    belongs to two of them. *)
Definition lists_rep h L : Prop :=
  (forall l xs, L !! l = Some xs -> dll h l xs) /\
  (forall l1 l2 xs1 xs2 a, L !! l1 = Some xs1 -> L !! l2 = Some xs2 ->
     a ∈ nodes l1 xs1 -> a ∈ nodes l2 xs2 -> l1 = l2).

(** Replacing the contents of one list, when the heap changed in its old and
    new nodes only. *)
Lemma lists_rep_update h h' L l xs ys :
  lists_rep h L -> L !! l = Some xs -> dll h' l ys ->
  (forall a, a ∈ nodes l ys -> a ∈ nodes l xs \/ ~ owned L a) ->
  (forall a, a ∉ nodes l xs -> a ∉ nodes l ys -> h' !! a = h !! a) ->
  lists_rep h' (<[l := ys]> L).
Proof.
  intros [Hd Hdis] Hl Hys Hnew Hframe.
  assert (Hother : forall l2 xs2 a, l2 <> l -> L !! l2 = Some xs2 ->
    a ∈ nodes l2 xs2 -> a ∉ nodes l xs /\ a ∉ nodes l ys).
  { intros l2 xs2 a Hne H2 Ha. assert (a ∉ nodes l xs) as Hn.
    { intros Ha'. by apply Hne, (Hdis l2 l xs2 xs a). }
    split; [done|]. intros Ha'. destruct (Hnew a Ha') as [|Ho]; [done|].
    apply Ho. by exists l2, xs2. }
  split.
  - intros l2 xs2 H2. destruct (decide (l = l2)) as [<-|Hne].
    + rewrite lookup_insert_eq in H2. by simplify_eq.
    + rewrite lookup_insert_ne in H2 by done. eapply dll_frame; [|by apply Hd].
      intros a Ha. destruct (Hother l2 xs2 a); auto.
  - intros l1 l2 xs1 xs2 a H1 H2 Ha1 Ha2.
    rewrite lookup_insert in H1, H2. repeat case_decide; simplify_eq; try done.
    + destruct (Hother l1 xs1 a) as [_ []]; [congruence|done..].
    + destruct (Hother l2 xs2 a) as [_ []]; [congruence|done..].
    + by eapply (Hdis l1 l2).
Qed.

Lemma nodes_app l xs ys : nodes l (xs ++ ys) = (list_head l :: xs) ++ (ys ++ [list_tail l]).
Proof. unfold nodes. by rewrite <- app_assoc. Qed.

(** The two nodes around a position of a list. *)
Lemma nodes_split l xs ys :
  exists A p n B, list_head l :: xs = A ++ [p] /\ ys ++ [list_tail l] = n :: B
    /\ nodes l (xs ++ ys) = A ++ p :: n :: B.
Proof.
  destruct (exists_last (l := list_head l :: xs)) as (A & p & HA); [done|].
  destruct (ys ++ [list_tail l]) as [|n B] eqn:HB; [by destruct ys|].
  exists A, p, n, B. split_and!; [done..|]. by rewrite nodes_app, HA, HB, <- app_assoc.
Qed.

Lemma linked_nodes h p n : linked h p n ->
  exists np nn, h !! p = Some np /\ h !! n = Some nn /\ next np = n /\ prev nn = p.
Proof.
  intros [(np & Ep & Lp)%fmap_Some (nn & En & Ln)%fmap_Some]. exists np, nn. auto.
Qed.

Lemma insert_dom h a n m : h !! a = Some n -> dom (<[a := m]> h) = dom h.
Proof. intros H. rewrite dom_insert_L. apply elem_of_dom_2 in H. set_solver. Qed.

Lemma link_between_dom h p e n np nn ne :
  h !! p = Some np -> h !! n = Some nn -> h !! e = Some ne ->
  dom (link_between h p e n np nn) = dom h.
Proof.
  intros Lp Ln Le. unfold link_between. rewrite !dom_insert_L.
  apply elem_of_dom_2 in Lp, Ln, Le. set_solver.
Qed.

Lemma unlink_between_dom h p n np nn :
  h !! p = Some np -> h !! n = Some nn -> dom (unlink_between h p n np nn) = dom h.
Proof.
  intros Lp Ln. unfold unlink_between. rewrite !dom_insert_L.
  apply elem_of_dom_2 in Lp, Ln. set_solver.
Qed.

(** The outcome of an operation on the family [L]: it returns [r], the heap
    holds the family [L'], the nodes are the same and so is EFLAGS. *)
Definition lists_become (r : result lstate unit) (s : lstate) L : Prop :=
  exists h, r = Ok tt (mkL (l_eflags s) h) /\ lists_rep h L /\ dom h = dom (l_links s).

(** The neighbours [p] and [n] of the place after the elements [xs] of the
    list at [l]. *)
Record place h l xs ys (A : list Z) (p n : Z) (B : list Z) (np nn : list_elem) : Prop := {
  pl_nodes : nodes l (xs ++ ys) = A ++ p :: n :: B;
  pl_left : list_head l :: xs = A ++ [p];
  pl_right : ys ++ [list_tail l] = n :: B;
  pl_p : h !! p = Some np;
  pl_n : h !! n = Some nn;
  pl_next : next np = n;
  pl_prev : prev nn = p;
  pl_path : path h (A ++ p :: n :: B);
  pl_nodup : NoDup (A ++ p :: n :: B);
  pl_head : prev <$> h !! list_head l = Some NULL;
  pl_tail : next <$> h !! list_tail l = Some NULL;
  pl_ne : p <> n;
  pl_head_n : list_head l <> n;
  pl_tail_p : list_tail l <> p
}.

Lemma dll_place h l xs ys :
  dll h l (xs ++ ys) -> exists A p n B np nn, place h l xs ys A p n B np nn.
Proof.
  intros (D1 & D2 & D3 & D4).
  destruct (nodes_split l xs ys) as (A & p & n & B & HA & HB & HN).
  rewrite HN in D3, D4. pose proof (proj2 (proj1 (path_app _ A p _) D3)) as [Hlink _].
  destruct (linked_nodes _ _ _ Hlink) as (np & nn & Lp & Ln & Enp & Enn).
  exists A, p, n, B, np, nn.
  assert (Hx : forall a b, a ∈ A ++ [p] -> b ∈ n :: B -> a <> b).
  { intros a b Ha Hb ->. replace (A ++ p :: n :: B) with ((A ++ [p]) ++ n :: B) in D4
      by (by rewrite <- app_assoc). apply NoDup_app in D4 as (_ & D4 & _). by apply (D4 b). }
  split; try done.
  - apply Hx; [apply elem_of_app; right; left|left].
  - apply Hx; [rewrite <- HA; left|left].
  - intros E. symmetry in E. revert E. apply Hx; [apply elem_of_app; right; left|].
    rewrite <- HB. apply elem_of_app. right. left.
Qed.

Lemma nodes_mid l xs ys zs :
  nodes l (xs ++ zs ++ ys) = (list_head l :: xs) ++ zs ++ (ys ++ [list_tail l]).
Proof. unfold nodes. by rewrite <- !app_assoc. Qed.

Lemma dll_insert h l xs ys A p n B np nn e ne :
  place h l xs ys A p n B np nn -> e ∉ nodes l (xs ++ ys) -> h !! e = Some ne ->
  dll (link_between h p e n np nn) l (xs ++ e :: ys)
  /\ nodes l (xs ++ e :: ys) = A ++ p :: e :: n :: B.
Proof.
  intros [] He Le.
  assert (HN : nodes l (xs ++ [e] ++ ys) = A ++ p :: e :: n :: B).
  { by rewrite nodes_mid, pl_left0, pl_right0, <- app_assoc. }
  simpl in HN. split; [|done]. rewrite pl_nodes0 in He.
  assert (list_head l <> e /\ list_tail l <> e) as [Nh Nt].
  { rewrite <- pl_nodes0 in He. unfold nodes in He. set_solver. }
  unfold dll. rewrite HN. unfold link_between. split_and!.
  - rewrite lookup_insert_ne, lookup_insert_ne by congruence.
    destruct (decide (p = list_head l)) as [->|];
      [rewrite lookup_insert_eq|by rewrite lookup_insert_ne].
    by rewrite pl_p0 in pl_head0.
  - destruct (decide (n = list_tail l)) as [->|].
    + rewrite lookup_insert_eq. by rewrite pl_n0 in pl_tail0.
    + by rewrite !lookup_insert_ne by congruence.
  - by eapply path_insert.
  - apply NoDup_app in pl_nodup0 as (N1 & N2 & N3). apply NoDup_app.
    apply NoDup_cons in N3 as [N3 N4]. split; [done|]. split; [set_solver|].
    apply NoDup_cons. split; [set_solver|]. apply NoDup_cons. split; [set_solver|done].
Qed.

(** Inserting [e] after the first elements [xs] of the list at [l]. *)
Lemma list_insert_at s L l xs ys e n B0 :
  lists_rep (l_links s) L -> L !! l = Some (xs ++ ys) ->
  ~ owned L e -> is_Some (l_links s !! e) -> ys ++ [list_tail l] = n :: B0 ->
  lists_become (list_insert_before n e s) s (<[l := xs ++ e :: ys]> L).
Proof.
  intros HL Hl He [ne Le] HB. pose proof (proj1 HL _ _ Hl) as D.
  destruct (dll_place _ _ _ _ D) as (A & p & n' & B & np & nn & P).
  assert (n' = n) as -> by (rewrite (pl_right _ _ _ _ _ _ _ _ _ _ P) in HB; congruence).
  assert (He' : e ∉ nodes l (xs ++ ys)) by (intros Hin; apply He; by exists l, (xs ++ ys)).
  destruct (dll_insert _ _ _ _ _ _ _ _ _ _ _ _ P He' Le) as [D' HN].
  pose proof (pl_nodes _ _ _ _ _ _ _ _ _ _ P) as HN0. rewrite HN0 in He'.
  destruct P. eexists. 
  split; [apply (list_insert_before_ok s p n e np nn ne); auto; set_solver|].
  split; [|by eapply link_between_dom].
  eapply (lists_rep_update (l_links s) _ _ _ (xs ++ ys)); [done|done|done|..].
  - intros a. rewrite HN, HN0. intros Ha.
    destruct (decide (a = e)) as [->|]; [by right|left; set_solver].
  - intros a. rewrite HN, HN0. intros Ha Ha'. simpl. unfold link_between.
    by rewrite !lookup_insert_ne by set_solver.
Qed.

(** The neighbours of an element. *)
Lemma dll_neighbours h l xs e ys :
  dll h l (xs ++ e :: ys) -> exists A p n B np nn ne,
    list_head l :: xs = A ++ [p] /\ ys ++ [list_tail l] = n :: B
    /\ nodes l (xs ++ e :: ys) = A ++ p :: e :: n :: B
    /\ h !! p = Some np /\ h !! n = Some nn /\ h !! e = Some ne
    /\ prev ne = p /\ next ne = n /\ p <> n /\ e <> p /\ e <> n
    /\ list_head l <> n /\ list_tail l <> p.
Proof.
  intros (D1 & D2 & D3 & D4).
  destruct (nodes_split l xs (e :: ys)) as (A & p & e' & B' & HA & HB & HN).
  injection HB as <- HB. destruct (ys ++ [list_tail l]) as [|n B] eqn:E; [by destruct ys|].
  subst B'. rewrite HN in D3, D4. apply path_app in D3 as [_ [H1 [H2 _]]].
  destruct (linked_nodes _ _ _ H1) as (np & ne & Lp & Le & Enp & Ene).
  destruct (linked_nodes _ _ _ H2) as (ne' & nn & Le' & Ln & Ene' & Enn).
  rewrite Le in Le'. injection Le' as <-.
  assert (Hx : forall a b, a ∈ A ++ [p] -> b ∈ e :: n :: B -> a <> b).
  { intros a b Ha Hb ->. replace (A ++ p :: e :: n :: B) with ((A ++ [p]) ++ e :: n :: B)
      in D4 by (by rewrite <- app_assoc).
    apply NoDup_app in D4 as (_ & D4 & _). by apply (D4 b). }
  assert (p ∈ A ++ [p]) by (apply elem_of_app; right; left).
  assert (list_head l ∈ A ++ [p]) by (rewrite <- HA; left).
  assert (list_tail l ∈ n :: B) by (rewrite <- E; apply elem_of_app; right; left).
  exists A, p, n, B, np, nn, ne. split_and!; try done.
  - apply Hx; [done|right; left].
  - intros Hep. symmetry in Hep. revert Hep. apply Hx; [done|left].
  - apply NoDup_app in D4 as (_ & _ & D4). apply NoDup_cons in D4 as [_ D4].
    apply NoDup_cons in D4 as [D4 _]. intros ->. apply D4. left.
  - apply Hx; [done|right; left].
  - intros Ht. symmetry in Ht. revert Ht. apply Hx; [done|by right].
Qed.

Lemma dll_remove h l xs e ys A p n B np nn :
  dll h l (xs ++ e :: ys) -> list_head l :: xs = A ++ [p] -> ys ++ [list_tail l] = n :: B ->
  nodes l (xs ++ e :: ys) = A ++ p :: e :: n :: B ->
  h !! p = Some np -> h !! n = Some nn -> p <> n -> list_head l <> n -> list_tail l <> p ->
  dll (unlink_between h p n np nn) l (xs ++ ys)
  /\ nodes l (xs ++ ys) = A ++ p :: n :: B.
Proof.
  intros (D1 & D2 & D3 & D4) HA HB HN Lp Ln Npn Nh Nt.
  assert (HN' : nodes l (xs ++ ys) = A ++ p :: n :: B).
  { by rewrite nodes_app, HA, HB, <- app_assoc. }
  split; [|done]. unfold dll. rewrite HN'. rewrite HN in D3, D4.
  unfold unlink_between. split_and!.
  - rewrite lookup_insert_ne by congruence.
    destruct (decide (p = list_head l)) as [->|];
      [rewrite lookup_insert_eq|by rewrite lookup_insert_ne].
    by rewrite Lp in D1.
  - destruct (decide (n = list_tail l)) as [->|].
    + rewrite lookup_insert_eq. by rewrite Ln in D2.
    + by rewrite !lookup_insert_ne by congruence.
  - by eapply path_remove.
  - apply NoDup_app in D4 as (N1 & N2 & N3). apply NoDup_app.
    apply NoDup_cons in N3 as [N3 N4]. apply NoDup_cons in N4 as [_ N4].
    split; [done|]. split; [set_solver|]. apply NoDup_cons. split; [set_solver|done].
Qed.

(** Removing an element of the list at [l]. *)
Lemma list_remove_at s L l xs e ys :
  lists_rep (l_links s) L -> L !! l = Some (xs ++ e :: ys) ->
  lists_become (list_remove e s) s (<[l := xs ++ ys]> L).
Proof.
  intros HL Hl. pose proof (proj1 HL _ _ Hl) as D.
  destruct (dll_neighbours _ _ _ _ _ D) as (A & p & n & B & np & nn & ne & HA & HB & HN
    & Lp & Ln & Le & Ep & En & Npn & Nep & Nen & Nh & Nt).
  destruct (dll_remove _ _ _ _ _ _ _ _ _ _ _ D HA HB HN Lp Ln Npn Nh Nt) as [D' HN'].
  eexists. split; [by apply (list_remove_ok s p e n np nn ne)|].
  split; [|by eapply unlink_between_dom].
  eapply (lists_rep_update (l_links s) _ _ _ (xs ++ e :: ys)); [done|done|done|..].
  - intros a. rewrite HN, HN'. intros Ha. left. set_solver.
  - intros a. rewrite HN, HN'. intros Ha Ha'. simpl. unfold unlink_between.
    by rewrite !lookup_insert_ne by set_solver.
Qed.

(** An element taken out of its list belongs to no list. *)
Lemma removed_not_owned h L l xs e ys :
  lists_rep h L -> L !! l = Some (xs ++ e :: ys) -> ~ owned (<[l := xs ++ ys]> L) e.
Proof.
  intros HL Hl (l' & xs' & Hl' & He).
  destruct (proj1 HL _ _ Hl) as (_ & _ & _ & N).
  assert (Hin : e ∈ nodes l (xs ++ e :: ys)).
  { unfold nodes. right. apply elem_of_app. left. apply elem_of_app. right. left. }
  rewrite lookup_insert in Hl'. case_decide as E.
  - injection Hl' as <-. subst l'. unfold nodes in N, He.
    rewrite <- app_assoc in N, He. simpl in N, He.
    apply NoDup_cons in N as [N1 N2]. apply NoDup_app in N2 as (_ & N2 & N3).
    apply NoDup_cons in N3 as [N3 _].
    apply elem_of_cons in He as [->|He].
    + apply N1. apply elem_of_app. right. left.
    + apply elem_of_app in He as [He|He]; [|done]. by apply (N2 e He); left.
  - apply E. by apply (proj2 HL l l' _ _ e Hl Hl').
Qed.

(** Nodes that are in no list do not matter. *)
Lemma lists_rep_frame h h' L : (forall a, owned L a -> h' !! a = h !! a) ->
  lists_rep h L -> lists_rep h' L.
Proof.
  intros Hf [Hd Hdis]. split; [|done]. intros l xs Hl.
  apply (dll_frame h); [|by apply Hd]. intros a Ha. apply Hf. by exists l, xs.
Qed.

(** ** The operations of [list.h] *)

Lemma list_push_back_spec s L l xs e :
  lists_rep (l_links s) L -> L !! l = Some xs -> ~ owned L e -> is_Some (l_links s !! e) ->
  lists_become (list_push_back l e s) s (<[l := xs ++ [e]]> L).
Proof. intros HL Hl He Ha. eapply (list_insert_at _ _ _ xs []); rewrite ?app_nil_r; eauto. Qed.

(** What the head of a well-formed list points to. *)
Lemma dll_first h l xs :
  dll h l xs -> exists nh, h !! list_head l = Some nh
    /\ next nh = match xs with [] => list_tail l | x :: _ => x end.
Proof.
  intros (_ & _ & D & _). unfold nodes in D.
  destruct xs as [|x xs]; destruct D as [[(n & E & H)%fmap_Some _] _]; eauto.
Qed.

Lemma list_push_front_spec s L l xs e :
  lists_rep (l_links s) L -> L !! l = Some xs -> ~ owned L e -> is_Some (l_links s !! e) ->
  lists_become (list_push_front l e s) s (<[l := e :: xs]> L).
Proof.
  intros HL Hl He Ha. destruct (dll_first _ _ _ (proj1 HL _ _ Hl)) as (nh & Hh & Hn).
  unfold list_push_front. unfold lists_become.
  erewrite bind_ok by (by apply rd_next_ok). rewrite Hn.
  by destruct xs; eapply (list_insert_at _ _ _ [] _); eauto.
Qed.

Lemma list_first_elem_spec s L l xs :
  lists_rep (l_links s) L -> L !! l = Some xs ->
  list_first_elem l s = Ok (match xs with [] => list_tail l | x :: _ => x end) s.
Proof.
  intros HL Hl. destruct (dll_first _ _ _ (proj1 HL _ _ Hl)) as (nh & Hh & Hn).
  unfold list_first_elem. erewrite rd_next_ok by done. by rewrite Hn.
Qed.

Lemma list_empty_spec s L l xs :
  lists_rep (l_links s) L -> L !! l = Some xs ->
  list_empty l s = Ok (bool_decide (xs = [])) s.
Proof.
  intros HL Hl. pose proof (proj1 HL _ _ Hl) as D.
  destruct (dll_first _ _ _ D) as (nh & Hh & Hn). destruct D as (_ & _ & _ & D).
  unfold list_empty. erewrite bind_ok by (by apply rd_next_ok). rewrite Hn.
  destruct xs as [|x xs]; unfold mret, M_ret; f_equal; [by rewrite Z.eqb_refl|].
  rewrite bool_decide_false by done. apply Z.eqb_neq. intros ->.
  unfold nodes in D. apply NoDup_cons in D as [_ D]. simpl in D.
  apply NoDup_cons in D as [D _]. set_solver.
Qed.

Lemma list_pop_front_spec s L l x xs :
  lists_rep (l_links s) L -> L !! l = Some (x :: xs) ->
  exists h, list_pop_front l s = Ok x (mkL (l_eflags s) h)
    /\ lists_rep h (<[l := xs]> L) /\ dom h = dom (l_links s).
Proof.
  intros HL Hl. destruct (dll_first _ _ _ (proj1 HL _ _ Hl)) as (nh & Hh & Hn).
  destruct (list_remove_at s L l [] x xs HL Hl) as (h & E & Hh' & Hd).
  exists h. split; [|done]. unfold list_pop_front.
  erewrite bind_ok by (by apply rd_next_ok). rewrite Hn.
  by erewrite bind_ok by exact E.
Qed.

(** A well-formed list is shorter than the heap is large: [walk_fuel] is
    enough. *)
Lemma dll_short s l xs : dll (l_links s) l xs -> (length xs < walk_fuel s)%nat.
Proof.
  intros (_ & _ & D & N). unfold walk_fuel.
  assert (Hsub : (list_to_set (nodes l xs) : gset Z) ⊆ dom (l_links s)).
  { assert (Hin : forall ns : list Z, (length ns >= 2)%nat -> path (l_links s) ns ->
      forall a, a ∈ ns -> a ∈ dom (l_links s)).
    { intros ns. induction ns as [|b [|c ns] IH]; simpl; intros Hlen Hp a Ha; [lia..|].
      destruct Hp as [Hl Hp].
      destruct (linked_nodes _ _ _ Hl) as (nb & nc & Lb & Lc & _).
      destruct ns as [|d ns].
      - apply elem_of_cons in Ha as [->|Ha]; [by eapply elem_of_dom_2|].
        apply list_elem_of_singleton in Ha as ->. by eapply elem_of_dom_2.
      - apply elem_of_cons in Ha as [->|Ha]; [by eapply elem_of_dom_2|].
        apply IH; [simpl; lia|done|done]. }
    intros a Ha%elem_of_list_to_set. apply (Hin (nodes l xs)); [|done|done].
    unfold nodes. simpl. rewrite length_app. simpl. lia. }
  apply subseteq_size in Hsub. rewrite size_list_to_set in Hsub by done.
  rewrite size_dom in Hsub. unfold nodes in Hsub. simpl in Hsub.
  rewrite length_app in Hsub. lia.
Qed.

Lemma list_len_loop_spec s l xs cnt fuel :
  path (l_links s) (xs ++ [list_tail l]) -> list_tail l ∉ xs -> (length xs < fuel)%nat ->
  0 <= cnt -> cnt + Z.of_nat (length xs) < 2 ^ 32 ->
  list_len_loop fuel l (hd (list_tail l) xs) cnt s = Ok (cnt + Z.of_nat (length xs)) s.
Proof.
  revert cnt fuel. induction xs as [|x xs IH]; intros cnt [|fuel] D N Hf Hc Hc';
    simpl in *; try lia.
  - rewrite Z.eqb_refl, Z.add_0_r. done.
  - rewrite (proj2 (Z.eqb_neq _ _)) by set_solver.
    assert (exists nx, l_links s !! x = Some nx /\ next nx = hd (list_tail l) xs)
      as (nx & Lx & Ex).
    { destruct xs as [|y xs]; simpl in D; destruct D as [Hl _];
        destruct (linked_nodes _ _ _ Hl) as (? & ? & ? & _ & ? & _); eauto. }
    erewrite bind_ok by (by apply rd_next_ok). rewrite Ex, u32_small by lia.
    rewrite IH; [f_equal; lia| |set_solver|lia..].
    destruct xs as [|y xs]; [done|]. by destruct D.
Qed.

Lemma path_tail h a ns : path h (a :: ns) -> path h ns.
Proof. destruct ns; [done|]. by intros []. Qed.

Lemma list_len_spec s L l xs :
  lists_rep (l_links s) L -> L !! l = Some xs -> Z.of_nat (length xs) < 2 ^ 32 ->
  list_len l s = Ok (Z.of_nat (length xs)) s.
Proof.
  intros HL Hl Hx. pose proof (proj1 HL _ _ Hl) as D.
  destruct (dll_first _ _ _ D) as (nh & Hh & Hn). pose proof (dll_short _ _ _ D) as Hf.
  destruct D as (_ & _ & D & N). unfold list_len.
  erewrite bind_ok by done. erewrite bind_ok by (by apply rd_next_ok).
  replace (next nh) with (hd (list_tail l) xs) by (rewrite Hn; by destruct xs).
  rewrite list_len_loop_spec; [done|by eapply path_tail| |done|lia|lia].
  unfold nodes in N. apply NoDup_cons in N as [_ N].
  apply NoDup_app in N as (_ & N & _). intros Hin. by apply (N _ Hin); left.
Qed.

Lemma list_elem_find_loop_spec s l e xs fuel :
  path (l_links s) (xs ++ [list_tail l]) -> list_tail l ∉ xs -> (length xs < fuel)%nat ->
  list_elem_find_loop fuel l e (hd (list_tail l) xs) s = Ok (bool_decide (e ∈ xs)) s.
Proof.
  revert fuel. induction xs as [|x xs IH]; intros [|fuel] D N Hf; simpl in *; try lia.
  - by rewrite Z.eqb_refl.
  - rewrite (proj2 (Z.eqb_neq _ _)) by set_solver.
    destruct (Z.eqb_spec x e) as [->|Nxe].
    { rewrite bool_decide_true by left. done. }
    assert (exists nx, l_links s !! x = Some nx /\ next nx = hd (list_tail l) xs)
      as (nx & Lx & Ex).
    { destruct xs as [|y xs]; simpl in D; destruct D as [Hl _];
        destruct (linked_nodes _ _ _ Hl) as (? & ? & ? & _ & ? & _); eauto. }
    erewrite bind_ok by (by apply rd_next_ok). rewrite Ex.
    rewrite IH; [|by eapply path_tail|set_solver|lia].
    f_equal. apply bool_decide_ext. set_solver.
Qed.

Lemma list_elem_find_spec s L l xs e :
  lists_rep (l_links s) L -> L !! l = Some xs ->
  list_elem_find l e s = Ok (bool_decide (e ∈ xs)) s.
Proof.
  intros HL Hl. pose proof (proj1 HL _ _ Hl) as D.
  destruct (dll_first _ _ _ D) as (nh & Hh & Hn). pose proof (dll_short _ _ _ D) as Hf.
  destruct D as (_ & _ & D & N). unfold list_elem_find.
  erewrite bind_ok by done. erewrite bind_ok by (by apply rd_next_ok).
  replace (next nh) with (hd (list_tail l) xs) by (rewrite Hn; by destruct xs).
  apply list_elem_find_loop_spec; [by eapply path_tail| |done].
  unfold nodes in N. apply NoDup_cons in N as [_ N].
  apply NoDup_app in N as (_ & N & _). intros Hin. by apply (N _ Hin); left.
Qed.

(** A new, empty list. *)
Lemma list_init_spec s L l :
  lists_rep (l_links s) L -> L !! l = None ->
  is_Some (l_links s !! list_head l) -> is_Some (l_links s !! list_tail l) ->
  ~ owned L (list_head l) -> ~ owned L (list_tail l) ->
  lists_become (list_init l s) s (<[l := []]> L).
Proof.
  intros HL Hl [nh Lh] [nt Lt] Oh Ot.
  assert (list_head l <> list_tail l) as Nht by (unfold list_head, list_tail; lia).
  eexists. split.
  { unfold list_init. repeat (erewrite bind_ok by (first
      [eapply wr_prev_ok; node_lookup|eapply wr_next_ok; node_lookup])).
    erewrite wr_next_ok by node_lookup. simpl. done. }
  split.
  - split.
    + intros l2 xs2 H2. destruct (decide (l = l2)) as [<-|Hne].
      * rewrite lookup_insert_eq in H2. injection H2 as <-.
        unfold dll, nodes, linked. simpl app. simpl path.
        rewrite !(lookup_insert_ne _ (list_tail l) (list_head l)), !lookup_insert_eq by done.
        unfold linked. rewrite !(lookup_insert_ne _ (list_tail l) (list_head l)),
          !lookup_insert_eq by done.
        split; [done|]. split; [done|]. split; [done|].
        apply NoDup_cons. split; [set_solver|apply NoDup_singleton].
      * rewrite lookup_insert_ne in H2 by done.
        eapply dll_frame; [|by apply HL]. intros a Ha.
        assert (a <> list_head l /\ a <> list_tail l) as [].
        { split; intros ->; [apply Oh|apply Ot]; by exists l2, xs2. }
        by rewrite !lookup_insert_ne by done.
    + intros l1 l2 xs1 xs2 a H1 H2 Ha1 Ha2. rewrite lookup_insert in H1, H2.
      repeat case_decide; simplify_eq; try done.
      * exfalso. unfold nodes in Ha2. simpl in Ha2. apply elem_of_cons in Ha2 as [->|Ha2].
        { apply Oh. by exists l1, xs1. }
        apply list_elem_of_singleton in Ha2 as ->. apply Ot. by exists l1, xs1.
      * exfalso. unfold nodes in Ha1. simpl in Ha1. apply elem_of_cons in Ha1 as [->|Ha1].
        { apply Oh. by exists l2, xs2. }
        apply list_elem_of_singleton in Ha1 as ->. apply Ot. by exists l2, xs2.
      * by eapply (proj2 HL l1 l2).
  - rewrite !dom_insert_L. apply elem_of_dom_2 in Lh, Lt. set_solver.
Qed.

(** [list_pop_front] does not test for emptiness: on an empty list it unlinks
    the tail sentinel and writes through its null [next] pointer. *)
Lemma list_pop_front_empty s L l :
  lists_rep (l_links s) L -> L !! l = Some [] -> l_links s !! NULL = None ->
  list_pop_front l s = Fault.
Proof.
  intros HL Hl HN. destruct (proj1 HL _ _ Hl) as (D1 & D2 & [Hlink _] & D4).
  destruct (linked_nodes _ _ _ Hlink) as (nh & nt & Lh & Lt & Enh & Ent).
  assert (list_head l <> list_tail l) by (unfold list_head, list_tail; lia).
  rewrite Lt in D2. injection D2 as D2.
  unfold list_pop_front. erewrite bind_ok by (by apply rd_next_ok). rewrite Enh.
  apply bind_fault. unfold list_remove. erewrite bind_ok by apply zoom_disable_ok.
  erewrite bind_ok by (eapply rd_prev_ok; node_lookup).
  erewrite bind_ok by (eapply rd_next_ok; node_lookup). rewrite Ent, D2.
  erewrite bind_ok by (eapply wr_next_ok; node_lookup). simpl l_links.
  erewrite bind_ok by (eapply rd_next_ok; node_lookup).
  erewrite bind_ok by (eapply rd_prev_ok; node_lookup). rewrite D2.
  apply bind_fault. unfold wr_prev, update. simpl.
  rewrite lookup_insert_ne; [by rewrite HN|]. intros E. rewrite E in Lh. congruence.
Qed.

End Families.
End LinkedList.
