(* ===== verification/Paging.v ===== *)
(** The machine's memory: physical bytes seen through the i386's two-level
    page tables.

    The kernel runs with paging on (the loader sets CR0.PG), so every C access
    goes through the translation the processor makes from CR3: bits 31-22 of
    the address select a page-directory entry, bits 21-12 a page-table entry,
    bits 11-0 the byte in the page; an entry whose bit 0 is clear is a page
    fault.  This is the 32-bit, 4 KB-page translation of the processor's
    manual, for supervisor accesses (the write and user bits do not stop the
    kernel, and every entry the kernel writes sets both).  The translation
    look-aside buffer is not modelled: the kernel only ever turns entries from
    not present to present, which the processor does not cache, and reloads
    CR3 when it changes directory.

    [vm] implements [ByteMem] relative to a list [D] of page directories, the
    ones the kernel may load into CR3: its valid bytes are the kernel-half
    addresses that every directory maps to the same byte, of a frame that holds
    no paging structure and that no directory maps at another kernel address.
    So loading CR3 with a directory of [D] changes no valid byte. *)

From S2P Require Import Prelude Bytes.

Module Paging.

Record vm := mkVm { phys : gmap Z Z; cr3 : Z }.

Definition PAGE : Z := 4096.
(** The frame (or page) an address lies in. *)
Definition frame (z : Z) : Z := z - z mod PAGE.

(** A little-endian word. *)
Definition word_of (b0 b1 b2 b3 : Z) : Z :=
  b0 + b1 * 2 ^ 8 + b2 * 2 ^ 16 + b3 * 2 ^ 24.

Definition ld32p (m : gmap Z Z) (p : Z) : option Z :=
  b0 ← m !! p; b1 ← m !! (p + 1); b2 ← m !! (p + 2); b3 ← m !! (p + 3);
  Some (word_of b0 b1 b2 b3).

Definition present (entry : Z) : bool := Z.testbit entry 0.

Definition pd_index (va : Z) : Z := va / 2 ^ 22.
Definition pt_index (va : Z) : Z := (va / PAGE) mod 1024.

(** The page-directory entry the processor reads for [va], and the
    page-table entry. *)
Definition pde_of (s : vm) (i : Z) : option Z := ld32p (phys s) (frame (cr3 s) + 4 * i).
Definition pte_of (s : vm) (pde i : Z) : option Z := ld32p (phys s) (frame pde + 4 * i).

Definition translate (s : vm) (va : Z) : option Z :=
  pde ← pde_of s (pd_index va);
  if present pde then
    pte ← pte_of s pde (pt_index va);
    if present pte then Some (frame pte + va mod PAGE) else None
  else None.

Definition vm_load (s : vm) (a : Z) : option Z := p ← translate s a; phys s !! p.

Definition vm_store (s : vm) (a v : Z) : option vm :=
  p ← translate s a;
  match phys s !! p with
  | Some _ => Some (mkVm (<[p := v]> (phys s)) (cr3 s))
  | None => None
  end.

(** The frames that hold the page directory and the page tables in use. *)
Definition struct_frame (s : vm) (f : Z) : Prop :=
  f = frame (cr3 s) \/
  exists i pde, 0 <= i < 1024 /\ pde_of s i = Some pde /\ present pde = true
    /\ f = frame pde.

(** Addresses of the kernel's gigabyte, below the window on the page tables. *)
Definition kernel_addr (a : Z) : Prop := 0xc0000000 <= a < 0xffc00000.

(** The same memory under another directory. *)
Definition under (s : vm) (d : Z) : vm := mkVm (phys s) d.

(** Address [a] is data byte [p] under the directory in CR3. *)
Definition data_byte (s : vm) (a p : Z) : Prop :=
  translate s a = Some p /\ ~ struct_frame s (frame p)
  /\ forall b, kernel_addr b -> translate s b = Some p -> b = a.

Definition vm_valid (D : list Z) (s : vm) (a : Z) : Prop :=
  kernel_addr a /\ exists p v, phys s !! p = Some v /\ is_u8 v
    /\ forall d, d ∈ cr3 s :: D -> data_byte (under s d) a p.

(** No kernel address leads to the frame [f]. *)
Definition unseen (s : vm) (f : Z) : Prop :=
  forall a p, kernel_addr a -> translate s a = Some p -> frame p <> f.

(** Nothing changes in the paging structures of the directory in CR3, nor in a
    frame no kernel address leads to. *)
Definition tables_kept (s s' : vm) : Prop :=
  cr3 s' = cr3 s /\ dom (phys s') = dom (phys s) /\
  forall p, struct_frame s (frame p) \/ unseen s (frame p) -> phys s' !! p = phys s !! p.

(** Physical memory holds bytes. *)
Definition all_u8 (s : vm) : Prop := forall p v, phys s !! p = Some v -> is_u8 v.

Definition vm_keeps (D : list Z) (s s' : vm) : Prop :=
  cr3 s' = cr3 s /\ (forall d, d ∈ cr3 s :: D -> tables_kept (under s d) (under s' d))
  /\ (all_u8 s -> all_u8 s').

Lemma all_u8_insert m c p v : is_u8 v -> all_u8 (mkVm m c) -> all_u8 (mkVm (<[p := v]> m) c).
Proof.
  intros Hv H q w. simpl. destruct (decide (p = q)) as [<-|].
  - rewrite lookup_insert_eq. by intros [= <-].
  - rewrite lookup_insert_ne by done. apply H.
Qed.

Lemma translate_inv s va p : translate s va = Some p ->
  exists pde pte, pde_of s (pd_index va) = Some pde /\ present pde = true
    /\ pte_of s pde (pt_index va) = Some pte /\ present pte = true
    /\ p = frame pte + va mod PAGE.
Proof.
  unfold translate. destruct (pde_of s (pd_index va)) as [pde|]; [|done]. simpl.
  destruct (present pde) eqn:P1; [|done].
  destruct (pte_of s pde (pt_index va)) as [pte|] eqn:E; [|done]. simpl.
  destruct (present pte) eqn:P2; [|done]. intros [= <-]. by exists pde, pte.
Qed.

Lemma frame_le z : 0 <= z - frame z < PAGE.
Proof. unfold frame, PAGE. zdiv_lia. Qed.

Lemma frame_mod z : frame z mod PAGE = 0.
Proof. unfold frame, PAGE. zdiv_lia. Qed.

Lemma frame_idem z : frame (frame z) = frame z.
Proof. unfold frame, PAGE. zdiv_lia. Qed.

Lemma frame_nonneg z : 0 <= z -> 0 <= frame z.
Proof. unfold frame, PAGE. zdiv_lia. Qed.

(** A byte of a frame is in that frame. *)
Lemma frame_add z k : 0 <= k < PAGE -> frame (frame z + k) = frame z.
Proof. unfold frame, PAGE. intros. zdiv_lia. Qed.

Lemma frame_aligned z k : z mod PAGE = 0 -> 0 <= k < PAGE -> frame (z + k) = z.
Proof. unfold frame, PAGE. intros. zdiv_lia. Qed.

Lemma index_range va : is_u32 va -> 0 <= pd_index va < 1024 /\ 0 <= pt_index va < 1024.
Proof. unfold pd_index, pt_index, PAGE. intros. zdiv_lia. Qed.

(** An address is its two indices and its offset. *)
Lemma address_split va : is_u32 va ->
  va = pd_index va * 2 ^ 22 + pt_index va * PAGE + va mod PAGE.
Proof. unfold pd_index, pt_index, PAGE. intros. zdiv_lia. Qed.

Lemma ld32p_ext m m' p :
  (forall k, 0 <= k < 4 -> m' !! (p + k) = m !! (p + k)) -> ld32p m' p = ld32p m p.
Proof.
  intros H. unfold ld32p. pose proof (H 0 ltac:(lia)) as H0. rewrite Z.add_0_r in H0.
  by rewrite H0, !H by lia.
Qed.

Section Keeps.
Context (s s' : vm) (K : tables_kept s s').

Lemma keeps_pde i : 0 <= i < 1024 -> pde_of s' i = pde_of s i.
Proof.
  destruct K as (C & _ & F). intros Hi. unfold pde_of. rewrite C.
  apply ld32p_ext. intros k Hk. apply F. left. rewrite <- Z.add_assoc, frame_add by (unfold PAGE; lia).
  by left.
Qed.

Lemma keeps_struct f : struct_frame s' f <-> struct_frame s f.
Proof.
  pose proof (proj1 K) as C. unfold struct_frame. rewrite C.
  split; (intros [->|(i & pde & Hi & Hp & Hpr & ->)]; [by left|right]);
    exists i, pde; rewrite keeps_pde in * by done; split_and!; (done || lia).
Qed.

Lemma keeps_pte i j pde :
  0 <= i < 1024 -> 0 <= j < 1024 -> pde_of s i = Some pde -> present pde = true ->
  pte_of s' pde j = pte_of s pde j.
Proof.
  destruct K as (_ & _ & F). intros Hi Hj Hp Hpr. apply ld32p_ext. intros k Hk. apply F. left.
  rewrite <- Z.add_assoc, frame_add by (unfold PAGE; lia). right. by exists i, pde.
Qed.

Lemma keeps_translate va : is_u32 va -> translate s' va = translate s va.
Proof.
  intros Hva. destruct (index_range va Hva) as [H1 H2].
  unfold translate. rewrite keeps_pde by done.
  destruct (pde_of s (pd_index va)) as [pde|] eqn:E; [|done]. simpl.
  destruct (present pde) eqn:P; [|done]. by rewrite (keeps_pte (pd_index va)) by done.
Qed.

End Keeps.

Lemma kernel_addr_u32 a : kernel_addr a -> is_u32 a.
Proof. unfold kernel_addr. lia. Qed.

Lemma keeps_unseen s s' f : tables_kept s s' -> unseen s f -> unseen s' f.
Proof.
  intros K U a p Ka. rewrite (keeps_translate _ _ K) by by apply kernel_addr_u32. by apply U.
Qed.

Lemma tables_kept_trans s1 s2 s3 :
  tables_kept s1 s2 -> tables_kept s2 s3 -> tables_kept s1 s3.
Proof.
  intros K1 K2. pose proof K1 as (C1 & D1 & F1). pose proof K2 as (C2 & D2 & F2).
  split; [congruence|]. split; [congruence|]. intros p Hp.
  rewrite F2, F1; [done|done|]. destruct Hp as [Hp|Hp]; [left; by apply (keeps_struct _ _ K1)|right].
  by eapply keeps_unseen.
Qed.

(** A write outside the paging structures moves no data byte. *)
Lemma data_byte_kept s s' a p :
  tables_kept s s' -> kernel_addr a -> data_byte s' a p <-> data_byte s a p.
Proof.
  intros K Ka. unfold data_byte.
  assert (T : forall b, kernel_addr b -> translate s' b = translate s b)
    by (intros b Hb; by apply keeps_translate, kernel_addr_u32).
  rewrite T, (keeps_struct _ _ K) by done.
  split; intros (? & ? & Inj); (split; [done|split; [done|]]); intros b Kb.
  - rewrite <- T by done. by apply Inj.
  - rewrite T by done. by apply Inj.
Qed.

Section Directories.
Context (D : list Z).

#[export] Instance vm_keeps_preorder : PreOrder (vm_keeps D).
Proof.
  split.
  - intros s. split; [done|]. split; [|done]. by intros d Hd.
  - intros s1 s2 s3 (C1 & K1 & U1) (C2 & K2 & U2). split; [congruence|]. split; [|auto].
    intros d Hd. eapply tables_kept_trans; [by apply K1|]. apply K2. by rewrite C1.
Qed.

Lemma vm_load_valid s a :
  vm_valid D s a -> exists p v, translate s a = Some p /\ phys s !! p = Some v /\ is_u8 v
    /\ vm_load s a = Some v.
Proof.
  intros (_ & p & v & L & R & H). destruct (H (cr3 s)) as [T _]; [left|].
  destruct s as [m c]. exists p, v. split_and!; try done; try lia.
  unfold vm_load. unfold under in T. simpl in *. by rewrite T.
Qed.

(** Writing a valid byte. *)
Lemma vm_store_valid s a v : vm_valid D s a -> is_u8 v ->
  exists s', vm_store s a v = Some s' /\ vm_load s' a = Some v /\ vm_keeps D s s'
    /\ (forall b, vm_valid D s' b <-> vm_valid D s b)
    /\ (forall b, vm_valid D s b -> b <> a -> vm_load s' b = vm_load s b).
Proof.
  intros Va Rv. pose proof Va as (Ka & p & w & Lp & Rw & Dp).
  destruct s as [m c]. simpl in *. set (s' := mkVm (<[p := v]> m) c).
  assert (Tp : translate (mkVm m c) a = Some p) by (apply (Dp c); left).
  assert (K : vm_keeps D (mkVm m c) s').
  { split; [done|]. split; [|by apply all_u8_insert].
    intros d Hd. split; [done|]. simpl in *. split.
    - rewrite dom_insert_L. apply elem_of_dom_2 in Lp. set_solver.
    - intros q Hq. rewrite lookup_insert_ne; [done|]. intros <-. destruct (Dp d Hd) as (Td & Sd & _).
      destruct Hq as [Hq|Hq]; [done|]. by apply (Hq a p Ka Td). }
  assert (DB : forall d b q, d ∈ c :: D -> kernel_addr b ->
    data_byte (under s' d) b q <-> data_byte (under (mkVm m c) d) b q).
  { intros d b q Hd Kb. apply data_byte_kept; [by apply K|done]. }
  exists s'. split_and!; [unfold vm_store; rewrite Tp; simpl; by rewrite Lp| |done|..].
  - destruct (DB c a p) as [_ [T _]]; [left|done|apply Dp; left|].
    unfold vm_load. change s' with (under s' c). rewrite T. apply lookup_insert_eq.
  - intros b. split; intros (Kb & q & u & Lq & Ru & Dq); (split; [done|]); simpl in *.
    + exists q. destruct (decide (p = q)) as [<-|Ne].
      * exists w. split_and!; [done|lia..|]. intros d Hd. apply DB; auto.
      * rewrite lookup_insert_ne in Lq by done. exists u.
        split_and!; [done|lia..|]. intros d Hd. apply DB; auto.
    + exists q, (if decide (p = q) then v else u). split_and!.
      * rewrite lookup_insert. by case_decide.
      * case_decide; lia.
      * case_decide; lia.
      * intros d Hd. apply DB; auto.
  - intros b Vb Hne. destruct (vm_load_valid _ _ Vb) as (q & u & Tq & Lq & Ru & Eq).
    assert (kernel_addr b) as Kb by apply Vb.
    unfold vm_load. replace (translate s' b) with (translate (mkVm m c) b).
    2: { symmetry. apply (keeps_translate (mkVm m c) s'); [apply (proj1 (proj2 K) c); left|].
         by apply kernel_addr_u32. }
    rewrite Tq. simpl. rewrite lookup_insert_ne; [done|]. intros <-. apply Hne.
    destruct (Dp c) as (_ & _ & Inj); [left|]. by apply Inj.
Qed.

End Directories.

#[export] Instance vm_ops : ByteOps vm := {| load8 := vm_load; store8 := vm_store |}.

#[local] Obligation Tactic := idtac.

#[export] Program Instance vm_mem (D : list Z) : ByteMem vm := {|
  valid := vm_valid D;
  keeps := vm_keeps D
|}.
Next Obligation. intros D s a [H _]. by apply kernel_addr_u32. Qed.
Next Obligation.
  intros D s a V. destruct (vm_load_valid D s a V) as (p & v & _ & _ & R & L). by exists v.
Qed.
Next Obligation. exact vm_store_valid. Qed.

(** Loading CR3 with another directory of [D]: every valid byte stays where it
    is. *)
Lemma vm_switch_valid D s d a :
  d ∈ D -> vm_valid D s a -> vm_valid D (under s d) a /\ vm_load (under s d) a = vm_load s a.
Proof.
  intros Hd V. pose proof V as (Ka & p & v & L & R & H). split.
  - split; [done|]. exists p, v. split; [done|]. split; [done|].
    intros d' Hd'. apply H. right. apply elem_of_cons in Hd' as [->|]; done.
  - destruct (vm_load_valid D s a V) as (p' & v' & T & L' & _ & E). rewrite E.
    destruct (H (cr3 s)) as [T' _]; [left|]. destruct (H d) as [Td _]; [by right|].
    destruct s as [m c]. unfold under in *. simpl in *.
    unfold vm_load. rewrite Td. simpl. congruence.
Qed.

End Paging.
