(* ===== verification/PageTable.v ===== *)
(** [kernel/memory.c], the page tables: [PDE_IDX], [PTE_IDX],
    [pte_vaddr_get], [pde_vaddr_get], [addr_v2p].

    The loader points the last entry of the page directory at the directory
    itself.  [self_mapped] states that, and the lemmas show what it buys: the
    address the C code computes for the page-table entry of an address is
    translated, by the processor, to exactly the entry the processor reads for
    that address. *)

From S2P Require Import Prelude Bytes Paging.

Module PageTable.
Import Paging.

Definition PDE_IDX (addr : Z) : Z := Z.shiftr (Z.land addr 0xffc00000) 22.
Definition PTE_IDX (addr : Z) : Z := Z.shiftr (Z.land addr 0x003ff000) 12.

Definition pte_vaddr_get (vaddr : Z) : Z :=
  u32 (0xffc00000 + Z.shiftr (Z.land vaddr 0xffc00000) 10 + PTE_IDX vaddr * 4).

Definition pde_vaddr_get (vaddr : Z) : Z := u32 (0xfffff000 + PDE_IDX vaddr * 4).

(** A 32-bit access through a pointer. *)
Section Words.
Context {S : Type} `{!ByteOps S}.

Definition rd32 (a : Z) : M S Z :=
  b0 ← rd8 a; b1 ← rd8 (a +! 1); b2 ← rd8 (a +! 2); b3 ← rd8 (a +! 3);
  mret (word_of b0 b1 b2 b3).

Definition wr32 (a v : Z) : M S unit :=
  wr8 a v;;
  wr8 (a +! 1) (Z.shiftr v 8);;
  wr8 (a +! 2) (Z.shiftr v 16);;
  wr8 (a +! 3) (Z.shiftr v 24).
End Words.

Definition addr_v2p (vaddr : Z) : M vm Z :=
  pte ← rd32 (pte_vaddr_get vaddr);
  mret (u32 (Z.land pte 0xfffff000 + Z.land vaddr 0xfff)).

(** ** The indices are the processor's *)

Lemma PDE_IDX_index va : is_u32 va -> PDE_IDX va = pd_index va.
Proof.
  intros H. unfold PDE_IDX, pd_index. change 0xffc00000 with (2 ^ 32 - 2 ^ 22).
  rewrite land_high_mask, Z.shiftr_div_pow2 by lia. zdiv_lia.
Qed.

Lemma land_mid va : is_u32 va -> Z.land va 0x003ff000 = va mod 2 ^ 22 - va mod 2 ^ 12.
Proof.
  intros H. replace 0x003ff000 with (Z.land (2 ^ 22 - 1) (2 ^ 32 - 2 ^ 12)) by done.
  rewrite Z.land_assoc, land_low_mask, land_high_mask by (try lia; zdiv_lia). zdiv_lia.
Qed.

Lemma PTE_IDX_index va : is_u32 va -> PTE_IDX va = pt_index va.
Proof.
  intros H. unfold PTE_IDX, pt_index, PAGE.
  rewrite land_mid, Z.shiftr_div_pow2 by lia. zdiv_lia.
Qed.

Lemma pte_vaddr_eq va : is_u32 va ->
  pte_vaddr_get va = 0xffc00000 + pd_index va * PAGE + 4 * pt_index va.
Proof.
  intros H. unfold pte_vaddr_get. rewrite PTE_IDX_index by done.
  change 0xffc00000 with (2 ^ 32 - 2 ^ 22) at 2. rewrite land_high_mask by lia.
  rewrite Z.shiftr_div_pow2 by lia.
  destruct (index_range va H). unfold pd_index, pt_index, PAGE in *.
  rewrite u32_small; zdiv_lia.
Qed.

Lemma pde_vaddr_eq va : is_u32 va -> pde_vaddr_get va = 0xfffff000 + 4 * pd_index va.
Proof.
  intros H. unfold pde_vaddr_get. rewrite PDE_IDX_index by done.
  destruct (index_range va H). rewrite u32_small; lia.
Qed.

(** ** The window on the page tables *)

(** The last entry of the directory maps the directory. *)
Definition self_mapped (s : vm) : Prop :=
  exists e, pde_of s 1023 = Some e /\ present e = true /\ frame e = frame (cr3 s).

Lemma window_indices i j k : 0 <= i < 1024 -> 0 <= j < 1024 -> 0 <= k < 4 ->
  let a := 0xffc00000 + i * PAGE + 4 * j + k in
  pd_index a = 1023 /\ pt_index a = i /\ a mod PAGE = 4 * j + k.
Proof. unfold pd_index, pt_index, PAGE. simpl. intros. zdiv_lia. Qed.

Lemma translate_some s va pde pte :
  pde_of s (pd_index va) = Some pde -> present pde = true ->
  pte_of s pde (pt_index va) = Some pte -> present pte = true ->
  translate s va = Some (frame pte + va mod PAGE).
Proof.
  intros E1 P1 E2 P2. unfold translate. rewrite E1. simpl. rewrite P1, E2. simpl.
  by rewrite P2.
Qed.

(** Entry [j] of the table of directory entry [i], at its window address. *)
Lemma translate_window s i j k pde :
  self_mapped s -> 0 <= i < 1024 -> 0 <= j < 1024 -> 0 <= k < 4 ->
  pde_of s i = Some pde -> present pde = true ->
  translate s (0xffc00000 + i * PAGE + 4 * j + k) = Some (frame pde + (4 * j + k)).
Proof.
  intros (e & He & Pe & Fe) Hi Hj Hk Hp Ppe.
  destruct (window_indices i j k Hi Hj Hk) as (E1 & E2 & E3).
  rewrite <- E3. apply (translate_some _ _ e); [by rewrite E1|done| |done].
  rewrite E2. unfold pte_of. rewrite Fe. exact Hp.
Qed.

(** The processor translates the address [pte_vaddr_get] computes to the place
    of the page-table entry it uses for [va]. *)
Lemma translate_pte s va pde k :
  self_mapped s -> is_u32 va -> 0 <= k < 4 ->
  pde_of s (pd_index va) = Some pde -> present pde = true ->
  translate s (pte_vaddr_get va + k) = Some (frame pde + 4 * pt_index va + k).
Proof.
  intros Hs Hva Hk Hp Pp. destruct (index_range va Hva).
  rewrite pte_vaddr_eq by done. rewrite (translate_window s _ _ _ pde) by done.
  f_equal. lia.
Qed.

Lemma translate_pde s va k :
  self_mapped s -> is_u32 va -> 0 <= k < 4 ->
  translate s (pde_vaddr_get va + k) = Some (frame (cr3 s) + 4 * pd_index va + k).
Proof.
  intros Hs Hva Hk. destruct (index_range va Hva). rewrite pde_vaddr_eq by done.
  pose proof Hs as (e & He & Pe & Fe).
  replace (0xfffff000 + 4 * pd_index va + k)
    with (0xffc00000 + 1023 * PAGE + 4 * pd_index va + k) by (unfold PAGE; lia).
  rewrite (translate_window s _ _ _ e) by (done || lia). rewrite Fe. f_equal. lia.
Qed.

(** Four mapped bytes in a row are a word. *)
Lemma rd32_phys s a p w :
  0 <= a -> a + 3 < 2 ^ 32 ->
  (forall k, 0 <= k < 4 -> translate s (a + k) = Some (p + k)) ->
  ld32p (phys s) p = Some w -> rd32 a s = Ok w s.
Proof.
  intros Ha Ha' T L. unfold rd32. rewrite !u32_small by lia.
  pose proof (T 0 ltac:(lia)) as T0. rewrite !Z.add_0_r in T0.
  unfold ld32p in L.
  destruct (phys s !! p) as [b0|] eqn:E0; [|done]. simpl in L.
  destruct (phys s !! (p + 1)) as [b1|] eqn:E1; [|done]. simpl in L.
  destruct (phys s !! (p + 2)) as [b2|] eqn:E2; [|done]. simpl in L.
  destruct (phys s !! (p + 3)) as [b3|] eqn:E3; [|done]. simpl in L. injection L as <-.
  assert (R : forall x q b, translate s x = Some q -> phys s !! q = Some b ->
    rd8 x s = Ok b s).
  { intros x q b Tx Lq. unfold rd8, deref. simpl. unfold vm_load. rewrite Tx. simpl.
    by rewrite Lq. }
  erewrite bind_ok by (eapply R; [exact T0|done]).
  do 3 (erewrite bind_ok by (eapply R; [apply T; lia|done])). done.
Qed.

(** [addr_v2p] computes the processor's translation. *)
Lemma addr_v2p_ok s va p :
  self_mapped s -> is_u32 va -> translate s va = Some p -> 0 <= p ->
  (forall pde pte, pde_of s (pd_index va) = Some pde -> present pde = true ->
     pte_of s pde (pt_index va) = Some pte -> is_u32 pte) ->
  addr_v2p va s = Ok p s.
Proof.
  intros Hs Hva T Hp Hw. unfold translate in T.
  destruct (pde_of s (pd_index va)) as [pde|] eqn:E1; [|done]. simpl in T.
  destruct (present pde) eqn:P1; [|done].
  destruct (pte_of s pde (pt_index va)) as [pte|] eqn:E2; [|done]. simpl in T.
  destruct (present pte) eqn:P2; [|done]. injection T as <-.
  specialize (Hw _ _ eq_refl P1 E2). destruct (index_range va Hva).
  unfold addr_v2p. erewrite bind_ok.
  2: { apply (rd32_phys _ _ (frame pde + 4 * pt_index va) pte).
       - rewrite pte_vaddr_eq by done. unfold PAGE. lia.
       - rewrite pte_vaddr_eq by done. unfold PAGE. lia.
       - intros k Hk. by apply translate_pte.
       - exact E2. }
  unfold mret, M_ret. f_equal.
  change 0xfffff000 with (2 ^ 32 - 2 ^ 12). rewrite land_high_mask by lia.
  change 0xfff with (2 ^ 12 - 1). rewrite land_low_mask by lia.
  unfold frame, PAGE. rewrite u32_small; zdiv_lia.
Qed.

End PageTable.
