(* ===== verification/PageMap.v ===== *)
(** Changing a page-table entry, as the processor sees it.

    [entry_written s s' p w]: the word at physical address [p] became [w] and
    no other byte changed.  [window_write] is how the C code does it, through
    the window on the page tables.  [enters s s' va pa]: the entry of the page
    of [va] was not present and now maps it to the frame [pa]; the lemmas say
    what that does to every translation, and that every byte that was valid
    data still is, with its value. *)

From S2P Require Import Prelude Bytes CString Paging PageTable.

Module PageMap.
Import Paging PageTable.

Lemma word_of_bytes w : is_u32 w ->
  word_of (u8 w) (u8 (Z.shiftr w 8)) (u8 (Z.shiftr w 16)) (u8 (Z.shiftr w 24)) = w.
Proof. intros H. rewrite !Z.shiftr_div_pow2 by lia. unfold word_of, u8. zdiv_lia. Qed.

(** Bytes outside [p, p + n) are as before. *)
Definition only_at (m m' : gmap Z Z) (p n : Z) : Prop :=
  forall q, ~ p <= q < p + n -> m' !! q = m !! q.

Lemma only_at_ld32p m m' p n q :
  only_at m m' p n -> q + 4 <= p \/ p + n <= q -> ld32p m' q = ld32p m q.
Proof. intros H Hq. apply ld32p_ext. intros k Hk. apply H. lia. Qed.

Definition entry_written (s s' : vm) (p w : Z) : Prop :=
  cr3 s' = cr3 s /\ ld32p (phys s') p = Some w /\ only_at (phys s) (phys s') p 4.

(** The bytes at [a] are those at [p], and writing the latter does not move
    them. *)
Definition steady (s : vm) (a p n : Z) : Prop :=
  forall m' k, only_at (phys s) m' p n -> 0 <= k < n ->
    translate (mkVm m' (cr3 s)) (a + k) = Some (p + k).

Lemma only_at_insert m m' p n q v :
  only_at m m' p n -> p <= q < p + n -> only_at m (<[q := v]> m') p n.
Proof. intros H Hq x Hx. rewrite lookup_insert_ne by lia. by apply H. Qed.

(** Overwriting a byte creates none. *)
Lemma present_insert (m : gmap Z Z) p v q :
  is_Some (m !! p) -> is_Some (<[p := v]> m !! q) <-> is_Some (m !! q).
Proof.
  intros Hp. rewrite lookup_insert_is_Some. destruct (decide (p = q)) as [<-|]; naive_solver.
Qed.

Lemma wr8_steady s m' a p n k v :
  steady s a p n -> only_at (phys s) m' p n -> 0 <= k < n -> is_Some (m' !! (p + k)) ->
  wr8 (a + k) v (mkVm m' (cr3 s)) = Ok tt (mkVm (<[p + k := u8 v]> m') (cr3 s)).
Proof.
  intros St Ho Hk [b Hb]. unfold wr8, update. simpl. unfold vm_store.
  rewrite (St m' k Ho Hk). simpl. by rewrite Hb.
Qed.

Lemma wr32_steady s a p w :
  0 <= a -> a + 3 < 2 ^ 32 -> is_u32 w -> steady s a p 4 -> is_Some (ld32p (phys s) p) ->
  exists s', wr32 a w s = Ok tt s' /\ entry_written s s' p w
    /\ (forall q, is_Some (phys s' !! q) <-> is_Some (phys s !! q)) /\ (all_u8 s -> all_u8 s').
Proof.
  intros Ha Ha' Hw St [old L]. unfold ld32p in L.
  destruct (phys s !! p) as [b0|] eqn:E0; [|done]. simpl in L.
  destruct (phys s !! (p + 1)) as [b1|] eqn:E1; [|done]. simpl in L.
  destruct (phys s !! (p + 2)) as [b2|] eqn:E2; [|done]. simpl in L.
  destruct (phys s !! (p + 3)) as [b3|] eqn:E3; [|done]. clear L.
  destruct s as [m c]. simpl in *.
  assert (O0 : only_at m m p 4) by done.
  rewrite <- (Z.add_0_r p) in E0.
  set (m0 := <[p + 0 := u8 w]> m). set (m1 := <[p + 1 := u8 (Z.shiftr w 8)]> m0).
  set (m2 := <[p + 2 := u8 (Z.shiftr w 16)]> m1).
  set (m3 := <[p + 3 := u8 (Z.shiftr w 24)]> m2).
  assert (O1 : only_at m m0 p 4) by (apply only_at_insert; [done|lia]).
  assert (O2 : only_at m m1 p 4) by (apply only_at_insert; [done|lia]).
  assert (O3 : only_at m m2 p 4) by (apply only_at_insert; [done|lia]).
  assert (O4 : only_at m m3 p 4) by (apply only_at_insert; [done|lia]).
  exists (mkVm m3 c). split; [|split; [split; [done|split; [|done]]|split]].
  - unfold wr32. rewrite !u32_small by lia.
    replace (wr8 a w) with (wr8 (S := vm) (a + 0) w) by by rewrite Z.add_0_r.
    erewrite bind_ok by (eapply (wr8_steady (mkVm m c) m); [done|done|lia|by eexists]).
    erewrite bind_ok.
    2: { eapply (wr8_steady (mkVm m c)); [done|done|lia|].
         unfold m0. rewrite lookup_insert_ne by lia. by eexists. }
    erewrite bind_ok.
    2: { eapply (wr8_steady (mkVm m c)); [done|done|lia|].
         unfold m1, m0. rewrite !lookup_insert_ne by lia. by eexists. }
    eapply (wr8_steady (mkVm m c)); [done|done|lia|].
    unfold m2, m1, m0. rewrite !lookup_insert_ne by lia. by eexists.
  - simpl. unfold ld32p, m3, m2, m1, m0. rewrite Z.add_0_r.
    repeat (rewrite lookup_insert_eq || (rewrite lookup_insert_ne by lia); simpl).
    f_equal. by apply word_of_bytes.
  - intros q. simpl. unfold m3, m2, m1, m0.
    rewrite !present_insert; [done|..]; rewrite ?lookup_insert_ne by lia; by eexists.
  - intros Hu. repeat (apply all_u8_insert; [apply u8_range|]). exact Hu.
Qed.

(** ** The windows are steady *)

Lemma frames_apart x y : frame x <> frame y -> frame x + PAGE <= frame y \/ frame y + PAGE <= frame x.
Proof. unfold frame, PAGE. intros. zdiv_lia. Qed.

(** Changing a frame other than the directory's leaves the directory. *)
Lemma only_at_pde s m' p n f i :
  only_at (phys s) m' p n -> frame f <= p -> p + n <= frame f + PAGE ->
  frame f <> frame (cr3 s) -> 0 <= i < 1024 -> pde_of (mkVm m' (cr3 s)) i = pde_of s i.
Proof.
  intros Ho H1 H2 Hf Hi. unfold pde_of. simpl. eapply only_at_ld32p; [exact Ho|].
  destruct (frames_apart _ _ Hf); unfold PAGE in *; lia.
Qed.

Lemma self_mapped_ext s m' :
  pde_of (mkVm m' (cr3 s)) 1023 = pde_of s 1023 -> self_mapped s -> self_mapped (mkVm m' (cr3 s)).
Proof. intros E (e & He & H). exists e. by rewrite E. Qed.

Lemma steady_table s va pde :
  self_mapped s -> is_u32 va -> pde_of s (pd_index va) = Some pde -> present pde = true ->
  frame pde <> frame (cr3 s) ->
  steady s (0xffc00000 + pd_index va * PAGE) (frame pde) PAGE.
Proof.
  intros Hs Hva Hp Pp Hf m' k Ho Hk. destruct (index_range va Hva).
  assert (E : forall i, 0 <= i < 1024 -> pde_of (mkVm m' (cr3 s)) i = pde_of s i).
  { intros i Hi. apply (only_at_pde _ _ _ _ pde _ Ho); (done || lia). }
  replace (0xffc00000 + pd_index va * PAGE + k)
    with (0xffc00000 + pd_index va * PAGE + 4 * (k / 4) + k mod 4) by zdiv_lia.
  rewrite (translate_window _ _ _ _ pde).
  - f_equal. zdiv_lia.
  - apply self_mapped_ext; [apply E; lia|done].
  - done.
  - unfold PAGE in Hk. zdiv_lia.
  - zdiv_lia.
  - by rewrite E.
  - done.
Qed.

(** A part of a steady block. *)
Lemma steady_part s a p n j m :
  steady s a p n -> 0 <= j -> j + m <= n -> steady s (a + j) (p + j) m.
Proof.
  intros St Hj Hm m' k Ho Hk. rewrite <- !Z.add_assoc. apply St; [|lia].
  intros q Hq. apply Ho. lia.
Qed.

Lemma steady_pte s va pde :
  self_mapped s -> is_u32 va -> pde_of s (pd_index va) = Some pde -> present pde = true ->
  frame pde <> frame (cr3 s) ->
  steady s (pte_vaddr_get va) (frame pde + 4 * pt_index va) 4.
Proof.
  intros Hs Hva Hp Pp Hf. destruct (index_range va Hva). rewrite pte_vaddr_eq by done.
  apply (steady_part _ _ _ PAGE); [by apply steady_table|lia|unfold PAGE; lia].
Qed.

Lemma steady_pde s va :
  self_mapped s -> is_u32 va -> pd_index va <> 1023 ->
  steady s (pde_vaddr_get va) (frame (cr3 s) + 4 * pd_index va) 4.
Proof.
  intros Hs Hva Hi m' k Ho Hk. destruct (index_range va Hva).
  apply (translate_pde (mkVm m' (cr3 s))); [|done|done].
  apply self_mapped_ext; [|done]. unfold pde_of. simpl.
  eapply only_at_ld32p; [exact Ho|]. lia.
Qed.

(** Clearing a page through the window. *)
Lemma memset_steady s a p v n :
  steady s a p n -> 0 < a -> a + n <= 2 ^ 32 -> 0 <= n ->
  (forall k, 0 <= k < n -> is_Some (phys s !! (p + k))) ->
  wp (CString.memset a v n) s (fun _ s' => cr3 s' = cr3 s /\ only_at (phys s) (phys s') p n
    /\ (forall k, 0 <= k < n -> phys s' !! (p + k) = Some (u8 v))
    /\ (forall q, is_Some (phys s' !! q) <-> is_Some (phys s !! q))
    /\ (all_u8 s -> all_u8 s')).
Proof.
  intros St Ha Ha' Hn Hp. unfold CString.memset. apply wp_bind, wp_assert.
  { by apply negb_true_iff, Z.eqb_neq; lia. }
  eapply wp_for_upto with (Inv := fun i s' => cr3 s' = cr3 s
    /\ only_at (phys s) (phys s') p n
    /\ (forall k, 0 <= k < i -> phys s' !! (p + k) = Some (u8 v))
    /\ (forall q, is_Some (phys s' !! q) <-> is_Some (phys s !! q))
    /\ (all_u8 s -> all_u8 s')).
  - split_and!; done || lia.
  - intros i [m' c] Hi (C & Ho & F & Pr & U). simpl in *. subst c. rewrite u32_small by lia.
    eapply wp_ok; [eapply (wr8_steady s m'); [exact St|done|lia|apply Pr, Hp; lia]|].
    simpl. split; [done|]. split; [apply only_at_insert; [done|lia]|]. split.
    + intros k Hk. destruct (decide (k = i)) as [->|]; [apply lookup_insert_eq|].
      rewrite lookup_insert_ne by lia. apply F. lia.
    + split; [|intros Hu; apply all_u8_insert; [apply u8_range|by apply U]].
      intros q. rewrite <- Pr. apply present_insert, Pr, Hp. lia.
  - rewrite Z.add_0_l, Z2Nat.id by lia. done.
Qed.

(** ** Translations after an entry changed *)

(** Where the processor finds the page-table entry of [va]. *)
Definition pte_addr (s : vm) (va : Z) : option Z :=
  pde ← pde_of s (pd_index va);
  if present pde then Some (frame pde + 4 * pt_index va) else None.

Lemma translate_pte_addr s va :
  translate s va = p ← pte_addr s va; pte ← ld32p (phys s) p;
    if present pte then Some (frame pte + va mod PAGE) else None.
Proof.
  unfold translate, pte_addr. destruct (pde_of s (pd_index va)); [|done]. simpl.
  by destruct (present _).
Qed.

Lemma pte_addr_some s va pde :
  pde_of s (pd_index va) = Some pde -> present pde = true ->
  pte_addr s va = Some (frame pde + 4 * pt_index va).
Proof. intros E P. unfold pte_addr. rewrite E. simpl. by rewrite P. Qed.

Lemma frame_multiple z : exists j, frame z = 4 * j.
Proof. exists (1024 * (z / PAGE)). unfold frame, PAGE. zdiv_lia. Qed.

(** Entry addresses are aligned, so two of them are equal or four bytes apart. *)
Lemma pte_addr_aligned s va p : is_u32 va -> pte_addr s va = Some p ->
  exists pde j, pde_of s (pd_index va) = Some pde /\ present pde = true /\ p = 4 * j
    /\ frame p = frame pde.
Proof.
  intros Hva. destruct (index_range va Hva). unfold pte_addr.
  destruct (pde_of s (pd_index va)) as [pde|]; [|done]. simpl.
  destruct (present pde) eqn:P; [|done]. intros [= <-].
  destruct (frame_multiple pde) as [j Hj]. exists pde, (j + pt_index va).
  split_and!; [done|done|lia|]. apply frame_add. unfold PAGE. lia.
Qed.

Lemma data_byte_address s va p : 0 <= va -> translate s va = Some p -> frame p + va mod PAGE = p.
Proof.
  intros Hva T. apply translate_inv in T as (pde & pte & _ & _ & _ & _ & ->).
  pose proof (Z.mod_pos_bound va PAGE ltac:(done)). by rewrite frame_add.
Qed.

(** The page of no kernel address is mapped to the frame [f]. *)
Definition unmapped (D : list Z) (s : vm) (f : Z) : Prop :=
  forall d a p, d ∈ cr3 s :: D -> kernel_addr a -> translate (under s d) a = Some p ->
    frame p <> f.

Lemma unmapped_unseen D s d f : d ∈ cr3 s :: D -> unmapped D s f -> unseen (under s d) f.
Proof. intros Hd U a p. by apply U. Qed.

(** [w] is written over the entry at [P], which was not present and lies in a
    page table shared by the directories, not in a directory. *)
Record entered (D : list Z) (s s' : vm) (P w : Z) : Prop := {
  en_written : entry_written s s' P w;
  en_absent e : ld32p (phys s) P = Some e -> present e = false;
  en_aligned : exists j, P = 4 * j;
  en_dir d : d ∈ cr3 s :: D -> frame P <> frame d;
  en_table d : d ∈ cr3 s :: D -> struct_frame (under s d) (frame P)
}.

Section Entered.
Context (D : list Z) (s s' : vm) (P w : Z) (En : entered D s s' P w).

#[local] Lemma Hw : entry_written s s' P w.
Proof. apply En. Qed.
#[local] Lemma Hal : exists j, P = 4 * j.
Proof. apply En. Qed.
#[local] Lemma Hdir d : d ∈ cr3 s :: D -> frame P <> frame d.
Proof. apply En. Qed.
#[local] Lemma Htab d : d ∈ cr3 s :: D -> struct_frame (under s d) (frame P).
Proof. apply En. Qed.

#[local] Lemma entered_cr3 : cr3 s' = cr3 s.
Proof. apply Hw. Qed.

Lemma entered_word q : (exists j, q = 4 * j) -> q <> P ->
  ld32p (phys s') q = ld32p (phys s) q.
Proof.
  intros [j ->] Hq. destruct Hal as [i Hi]. destruct Hw as (_ & _ & Ho).
  eapply only_at_ld32p; [exact Ho|]. lia.
Qed.

Lemma entered_pde d i : d ∈ cr3 s :: D -> 0 <= i < 1024 ->
  pde_of (under s' d) i = pde_of (under s d) i.
Proof.
  intros Hd Hi. unfold pde_of. simpl. destruct (frame_multiple d) as [j Hj].
  apply entered_word; [exists (j + i); lia|]. intros Eq. apply (Hdir d Hd).
  rewrite <- Eq. rewrite frame_add; [done|unfold PAGE; lia].
Qed.

Lemma entered_struct d f : d ∈ cr3 s :: D ->
  struct_frame (under s' d) f <-> struct_frame (under s d) f.
Proof.
  intros Hd. unfold struct_frame. simpl.
  split; (intros [->|(i & pde & Hi & Hp & H)]; [by left|right]); exists i, pde;
    rewrite entered_pde in * by done; done.
Qed.

Lemma entered_pte_addr d va : d ∈ cr3 s :: D -> is_u32 va ->
  pte_addr (under s' d) va = pte_addr (under s d) va.
Proof.
  intros Hd Hva. destruct (index_range va Hva). unfold pte_addr. by rewrite entered_pde.
Qed.

(** The page that uses the entry. *)
Lemma entered_here d va : d ∈ cr3 s :: D -> is_u32 va -> pte_addr (under s d) va = Some P ->
  translate (under s' d) va = if present w then Some (frame w + va mod PAGE) else None.
Proof.
  intros Hd Hva Ep. rewrite translate_pte_addr, entered_pte_addr, Ep by done. simpl.
  destruct Hw as (_ & -> & _). done.
Qed.

(** Every other. *)
Lemma entered_other d va : d ∈ cr3 s :: D -> is_u32 va -> pte_addr (under s d) va <> Some P ->
  translate (under s' d) va = translate (under s d) va.
Proof.
  intros Hd Hva Ne. rewrite !translate_pte_addr, entered_pte_addr by done.
  destruct (pte_addr (under s d) va) as [p|] eqn:Ep; [|done]. simpl.
  destruct (pte_addr_aligned _ _ _ Hva Ep) as (pde & j & _ & _ & Hj & _).
  rewrite entered_word; [done|by exists j|congruence].
Qed.

(** A mapped page stays mapped where it was. *)
Lemma entered_keeps d va p : d ∈ cr3 s :: D -> is_u32 va ->
  translate (under s d) va = Some p ->
  translate (under s' d) va = Some p /\ pte_addr (under s d) va <> Some P.
Proof.
  intros Hd Hva T. assert (N : pte_addr (under s d) va <> Some P).
  { intros Ep. rewrite translate_pte_addr, Ep in T. simpl in T.
    destruct (ld32p (phys s) P) as [e|] eqn:Ee; [|done]. simpl in T.
    by rewrite (en_absent _ _ _ _ _ En e Ee) in T. }
  split; [|done]. by rewrite entered_other.
Qed.

(** Whatever is translated now was before, or leads to the new frame. *)
Lemma entered_reach d a p : d ∈ cr3 s :: D -> is_u32 a -> translate (under s' d) a = Some p ->
  translate (under s d) a = Some p \/ frame p = frame w.
Proof.
  intros Hd Ra T. destruct (decide (pte_addr (under s d) a = Some P)) as [Ea|Ea].
  - right. rewrite entered_here in T by done. destruct (present w); [|done]. injection T as <-.
    rewrite frame_add; [done|by apply Z.mod_pos_bound].
  - left. by rewrite entered_other in T.
Qed.

Lemma entered_unmapped f : unmapped D s f -> frame w <> f -> unmapped D s' f.
Proof.
  intros U Hf d a p Hd Ka T. rewrite entered_cr3 in Hd.
  assert (is_u32 a) by by apply kernel_addr_u32.
  destruct (decide (pte_addr (under s d) a = Some P)) as [Ea|Ea].
  - rewrite entered_here in T by done. destruct (present w); [|done]. injection T as <-.
    rewrite frame_add; [done|]. by apply Z.mod_pos_bound.
  - rewrite entered_other in T by done. by eapply U.
Qed.

Lemma entered_data_byte d a p : d ∈ cr3 s :: D -> kernel_addr a -> unmapped D s (frame w) ->
  data_byte (under s d) a p -> data_byte (under s' d) a p.
Proof.
  intros Hd Ka U (T & Nf & Inj). assert (is_u32 a) by by apply kernel_addr_u32.
  split; [by apply entered_keeps|]. rewrite entered_struct by done. split; [done|].
  intros b Kb Tb. assert (is_u32 b) by by apply kernel_addr_u32.
  destruct (decide (pte_addr (under s d) b = Some P)) as [Eb|Eb].
  - rewrite entered_here in Tb by done. destruct (present w); [|done]. injection Tb as Tb.
    destruct (U d a p Hd Ka T). rewrite <- Tb. apply frame_add. by apply Z.mod_pos_bound.
  - rewrite entered_other in Tb by done. by apply Inj.
Qed.

(** What was valid data is, at the same address and with the same value. *)
Lemma entered_valid a : unmapped D s (frame w) -> vm_valid D s a ->
  vm_valid D s' a /\ vm_load s' a = vm_load s a.
Proof.
  intros U V. pose proof V as (Ka & p & v & L & R & H).
  assert (L' : phys s' !! p = Some v).
  { destruct Hw as (_ & _ & Ho). rewrite Ho; [done|]. intros Hp.
    destruct (H (cr3 s)) as (_ & Nf & _); [left|]. apply Nf.
    destruct Hal as [j Hj]. replace (frame p) with (frame P); [by apply Htab; left|].
    unfold frame, PAGE. zdiv_lia. }
  assert (V' : vm_valid D s' a).
  { split; [done|]. exists p, v. split; [done|]. split; [done|]. rewrite entered_cr3.
    intros d Hd. apply entered_data_byte; auto. }
  split; [done|].
  destruct (H (cr3 s)) as (T & _); [left|].
  destruct (entered_keeps (cr3 s) a p ltac:(left) (kernel_addr_u32 a Ka) T) as [T' _].
  unfold vm_load. rewrite <- entered_cr3 in T' at 1.
  replace (translate s' a) with (Some p) by (by destruct s').
  replace (translate s a) with (Some p) by (by destruct s). simpl. congruence.
Qed.

(** The bytes of the new page. *)
Lemma entered_new a v :
  kernel_addr a -> (forall d, d ∈ cr3 s :: D -> pte_addr (under s d) a = Some P) ->
  present w = true -> unmapped D s (frame w) ->
  (forall d, d ∈ cr3 s :: D -> ~ struct_frame (under s d) (frame w)) ->
  (forall d b, d ∈ cr3 s :: D -> kernel_addr b -> pte_addr (under s d) b = Some P ->
     b / PAGE = a / PAGE) ->
  phys s' !! (frame w + a mod PAGE) = Some v -> is_u8 v -> vm_valid D s' a.
Proof.
  intros Ka Ea Pw U Nf One L R. assert (is_u32 a) by by apply kernel_addr_u32.
  pose proof (Z.mod_pos_bound a PAGE ltac:(done)).
  split; [done|]. exists (frame w + a mod PAGE), v. split; [done|]. split; [done|].
  rewrite entered_cr3. intros d Hd. split; [|split].
  - rewrite entered_here by auto. by rewrite Pw.
  - rewrite entered_struct, frame_add by done. by apply Nf.
  - intros b Kb Tb. assert (is_u32 b) by by apply kernel_addr_u32.
    destruct (decide (pte_addr (under s d) b = Some P)) as [Eb|Eb].
    + rewrite entered_here, Pw in Tb by done. injection Tb as Tb.
      specialize (One d b Hd Kb Eb). unfold PAGE in *. zdiv_lia.
    + rewrite entered_other in Tb by done. destruct (U d b _ Hd Kb Tb). by apply frame_add.
Qed.

End Entered.
End PageMap.
