(* ===== verification/Words.v ===== *)
(** 32-bit words in ordinary memory, and frames of words: structures on a
    stack whose members are written one by one.

    [framed s0 base n m s]: since [s0] only the [n] bytes from [base] changed,
    and [m] says which words stand at which offsets. *)

From S2P Require Import Prelude Bytes Paging PageTable PageMap.

Module Words.
Import PageTable PageMap.

Section Words.
Context {S : Type} `{!ByteOps S} `{!ByteMem S}.
Implicit Types (s : S).

Definition in_block (base n a : Z) : Prop := base <= a < base + n.

Lemma rd32_bytes s a b0 b1 b2 b3 : valid_block s a 4 ->
  load8 s a = Some b0 -> load8 s (a + 1) = Some b1 -> load8 s (a + 2) = Some b2 ->
  load8 s (a + 3) = Some b3 -> rd32 a s = Ok (Paging.word_of b0 b1 b2 b3) s.
Proof.
  intros V H0 H1 H2 H3. unfold rd32, rd8, deref, mbind, M_bind, mret, M_ret.
  rewrite !(valid_block_addr s a 4), H0, H1, H2, H3 by (done || lia). done.
Qed.

(** A word that was read stays what it is while its bytes do. *)
Lemma rd32_modifies P s s' a w : modifies P s s' -> valid_block s a 4 ->
  (forall i, 0 <= i < 4 -> ~ P (a + i)) -> rd32 a s = Ok w s -> rd32 a s' = Ok w s'.
Proof.
  intros M V HP E.
  assert (L : forall i, 0 <= i < 4 -> exists b, load8 s (a + i) = Some b /\ load8 s' (a + i) = Some b).
  { intros i Hi. destruct (load8_valid s (a + i)) as (b & Hb & _); [by apply V|].
    exists b. split; [done|]. rewrite <- Hb. eapply modifies_load; [exact M|by apply V|by apply HP]. }
  destruct (L 0 ltac:(lia)) as (b0 & A0 & B0), (L 1 ltac:(lia)) as (b1 & A1 & B1),
    (L 2 ltac:(lia)) as (b2 & A2 & B2), (L 3 ltac:(lia)) as (b3 & A3 & B3).
  rewrite Z.add_0_r in A0, B0.
  rewrite (rd32_bytes s a b0 b1 b2 b3) in E by done. injection E as <-.
  apply rd32_bytes; try done. by eapply valid_block_modifies.
Qed.

Lemma wr32_ok s a w : valid_block s a 4 -> is_u32 w ->
  wp (wr32 a w) s (fun _ s' => modifies (in_block a 4) s s' /\ rd32 a s' = Ok w s').
Proof.
  intros V Hw. unfold wr32. rewrite !(valid_block_addr s a 4) by (done || lia).
  assert (V' : forall s' P i, modifies P s s' -> 0 <= i < 4 -> valid s' (a + i))
    by (intros; eapply modifies_valid; [done|by apply V]).
  apply wp_bind. rewrite <- (Z.add_0_r a) at 1. wp_use (apply wp_wr8, V; lia).
  intros _ s1 [M1 L1]. apply wp_bind. wp_use (apply wp_wr8; eapply V'; [exact M1|lia]).
  intros _ s2 [M2 L2]. assert (M12 : modifies (in_block a 4) s s2).
  { etransitivity; (eapply modifies_weaken; [eassumption|]); unfold in_block; intros b <-; lia. }
  apply wp_bind. wp_use (apply wp_wr8; eapply V'; [exact M12|lia]).
  intros _ s3 [M3 L3]. assert (M13 : modifies (in_block a 4) s s3).
  { etransitivity; [exact M12|]. eapply modifies_weaken; [exact M3|]. unfold in_block. intros b <-. lia. }
  wp_use (apply wp_wr8; eapply V'; [exact M13|lia]).
  intros _ s4 [M4 L4]. assert (M14 : modifies (in_block a 4) s s4).
  { etransitivity; [exact M13|]. eapply modifies_weaken; [exact M4|]. unfold in_block. intros b <-. lia. }
  split; [done|]. rewrite <- (word_of_bytes w) by done.
  assert (K3 : load8 s4 (a + 2) = load8 s3 (a + 2)).
  { eapply modifies_load; [exact M4|eapply V'; [exact M13|lia]|lia]. }
  assert (K2 : load8 s4 (a + 1) = load8 s2 (a + 1)).
  { rewrite (modifies_load _ _ _ (a + 1) M4) by (first [eapply V'; [exact M13|lia]|lia]).
    eapply modifies_load; [exact M3|eapply V'; [exact M12|lia]|lia]. }
  assert (K1 : load8 s4 (a + 0) = load8 s1 (a + 0)).
  { rewrite (modifies_load _ _ _ (a + 0) M4) by (first [eapply V'; [exact M13|lia]|lia]).
    rewrite (modifies_load _ _ _ (a + 0) M3) by (first [eapply V'; [exact M12|lia]|lia]).
    eapply modifies_load; [exact M2|eapply V'; [exact M1|lia]|lia]. }
  apply rd32_bytes; [by eapply valid_block_modifies|..]; [|congruence..].
  rewrite <- L1, <- K1. f_equal. lia.
Qed.

(** ** Frames *)

Definition framed (s0 : S) (base n : Z) (m : gmap Z Z) (s : S) : Prop :=
  valid_block s0 base n /\ modifies (in_block base n) s0 s
  /\ forall o w, m !! o = Some w -> o mod 4 = 0 /\ 0 <= o /\ o + 4 <= n /\ rd32 (base + o) s = Ok w s.

Lemma frame_start s base n : valid_block s base n -> framed s base n ∅ s.
Proof. intros V. split; [done|]. by split. Qed.

Lemma block_word s base n o : valid_block s base n -> 0 <= o -> o + 4 <= n ->
  valid_block s (base + o) 4.
Proof. intros V H1 H2 i Hi. rewrite <- Z.add_assoc. apply V. lia. Qed.

Lemma frame_store s0 base n m s o w : framed s0 base n m s ->
  o mod 4 = 0 -> 0 <= o -> o + 4 <= n -> is_u32 w ->
  wp (wr32 (base +! o) w) s (fun _ s' => framed s0 base n (<[o := w]> m) s').
Proof.
  intros (V & M & H) H1 H2 H3 Hw. rewrite (valid_block_addr s0 base n) by (done || lia).
  assert (V' : valid_block s base n) by by eapply valid_block_modifies.
  wp_use (apply wr32_ok; [by eapply block_word|done]). intros _ s' [M' E].
  split; [done|]. split.
  - etransitivity; [exact M|]. eapply modifies_weaken; [exact M'|]. unfold in_block. intros b. lia.
  - intros o' w'. rewrite lookup_insert. case_decide as Eo; [subst o'; by intros [= <-]|].
    intros (A1 & A2 & A3 & A4)%H. do 3 (split; [done|]).
    eapply rd32_modifies; [exact M'|by eapply block_word| |exact A4].
    unfold in_block. intros i Hi. zdiv_lia.
Qed.

Lemma frame_load s0 base n m s o w : framed s0 base n m s -> m !! o = Some w ->
  rd32 (base +! o) s = Ok w s.
Proof.
  intros (V & _ & H) (H1 & H2 & H3 & E)%H. by rewrite (valid_block_addr s0 base n) by (done || lia).
Qed.

(** The words stay when something else is written. *)
Lemma framed_kept s0 base n m s P s' : framed s0 base n m s -> modifies P s s' ->
  (forall a, in_block base n a -> ~ P a) -> framed s' base n m s'.
Proof.
  intros (V & M & H) M' HP.
  assert (V' : valid_block s base n) by by eapply valid_block_modifies.
  split; [by eapply valid_block_modifies|]. split; [done|].
  intros o w (H1 & H2 & H3 & E)%H. do 3 (split; [done|]).
  eapply rd32_modifies; [exact M'|by eapply block_word| |exact E].
  intros i Hi. apply HP. unfold in_block. lia.
Qed.

Lemma framed_now s0 base n m s : framed s0 base n m s -> framed s base n m s.
Proof.
  intros F. eapply (framed_kept _ _ _ _ _ (fun _ => False)); [exact F|reflexivity|by intros a _ []].
Qed.

End Words.
End Words.
