(* ===== verification/Ports.v ===== *)
(** [lib/kernel/io.h]: port input and output.

    The devices behind the ports are the machine's: the model keeps what the
    kernel can observe of them.  The CRT controller (ports 0x3d4/0x3d5) has an
    index register and data registers that read back what was last written;
    the keyboard controller presents one byte at port 0x60; every write is
    logged in order. *)

From S2P Require Import Prelude.

Module Ports.

Record io := mkIo {
  crt_index : Z;
  crt_regs : gmap Z Z;
  kbd_data : Z;
  written : list (Z * Z)   (* (port, byte), the latest first *)
}.

Definition CRT_ADDR : Z := 0x3d4.
Definition CRT_DATA : Z := 0x3d5.
Definition KBD_DATA : Z := 0x60.

Definition outb (port data : Z) : M io unit := modify (fun s =>
  let log := (port, u8 data) :: written s in
  if port =? CRT_ADDR then mkIo (u8 data) (crt_regs s) (kbd_data s) log
  else if port =? CRT_DATA
  then mkIo (crt_index s) (<[crt_index s := u8 data]> (crt_regs s)) (kbd_data s) log
  else mkIo (crt_index s) (crt_regs s) (kbd_data s) log).

(** Reading a port no modelled device answers at gives all ones. *)
Definition inb (port : Z) : M io Z := gets (fun s =>
  if port =? CRT_DATA then default 0 (crt_regs s !! crt_index s)
  else if port =? KBD_DATA then u8 (kbd_data s)
  else 0xff).

(** A CRT register that was selected and written reads back. *)
Lemma crt_select s i : outb CRT_ADDR i s =
  Ok tt (mkIo (u8 i) (crt_regs s) (kbd_data s) ((CRT_ADDR, u8 i) :: written s)).
Proof. done. Qed.
Lemma crt_write s v : outb CRT_DATA v s =
  Ok tt (mkIo (crt_index s) (<[crt_index s := u8 v]> (crt_regs s)) (kbd_data s)
           ((CRT_DATA, u8 v) :: written s)).
Proof. done. Qed.
Lemma crt_read s : inb CRT_DATA s = Ok (default 0 (crt_regs s !! crt_index s)) s.
Proof. done. Qed.

(** The writes that are not the CRT controller's, and what leaves them and the
    keyboard alone. *)
Definition crt_port (w : Z * Z) : bool := (w.1 =? CRT_ADDR) || (w.1 =? CRT_DATA).
Definition other_writes (s : io) : list (Z * Z) := List.filter (fun w => negb (crt_port w)) (written s).

Definition crt_only (s s' : io) : Prop :=
  kbd_data s' = kbd_data s /\ other_writes s' = other_writes s.

#[export] Instance crt_only_preorder : PreOrder crt_only.
Proof. split; [done|]. intros s1 s2 s3 [E1 F1] [E2 F2]. split; congruence. Qed.

Lemma outb_other port data s : crt_port (port, u8 data) = false ->
  outb port data s = Ok tt (mkIo (crt_index s) (crt_regs s) (kbd_data s) ((port, u8 data) :: written s)).
Proof.
  unfold crt_port. simpl. intros [H1 H2]%orb_false_iff. unfold outb, modify. by rewrite H1, H2.
Qed.

End Ports.
