(* ===== verification/Print.v ===== *)
(** [lib/kernel/print.c]: the text screen.

    The screen is 25 lines of 80 cells of two bytes, character and attribute,
    at 0xc00b8000; the cursor is a pair of registers of the CRT controller.
    [screen_rep] relates memory and registers to a list of cells and a cursor
    position; [putc] is what a character means to do to them. *)

From S2P Require Import Prelude Bytes CString Ports.

Module Print.
Import Ports.

(** The memory and the ports. *)
Record display (Mem : Type) := mkDisplay { d_mem : Mem; d_io : io }.
Arguments mkDisplay {Mem} d_mem d_io.
Arguments d_mem {Mem} d.
Arguments d_io {Mem} d.

Definition CUR_POS_HIGH_INDEX : Z := 0x0e.
Definition CUR_POS_LOW_INDEX : Z := 0x0f.
Definition BLK_BACK_WHT_WORD : Z := 0x07.
Definition SCREEN_COL_MAX : Z := 80.
Definition SCREEN_MAX : Z := 25 * 80.
Definition video_base_addr : Z := 0xc00b8000.
Definition roll_video_src_addr : Z := 0xc00b80a0.
Definition roll_video_dst_addr : Z := 0xc00b8000.

(** ** The cursor *)

Definition set_cursor (target : Z) : M io unit :=
  let high := u8 (Z.land (Z.shiftr target 8) 0xff) in
  let low := u8 (Z.land target 0xff) in
  outb CRT_ADDR CUR_POS_HIGH_INDEX;;
  outb CRT_DATA high;;
  outb CRT_ADDR CUR_POS_LOW_INDEX;;
  outb CRT_DATA low.

Definition get_cursor : M io Z :=
  outb CRT_ADDR CUR_POS_HIGH_INDEX;;
  cur_pos_high ← inb CRT_DATA;
  outb CRT_ADDR CUR_POS_LOW_INDEX;;
  cur_pos_low ← inb CRT_DATA;
  mret (u16 (Z.lor (Z.land (Z.shiftl cur_pos_high 8) 0xff00) (Z.land cur_pos_low 0x00ff))).

Section Functions.
Context {Mem : Type} `{!ByteOps Mem}.

#[local] Obligation Tactic := intros; by repeat match goal with d : display _ |- _ => destruct d end.
Program Definition mem_part : lens (display Mem) Mem :=
  Lens d_mem (fun m d => mkDisplay m (d_io d)) _ _ _.
Program Definition io_part : lens (display Mem) io :=
  Lens d_io (fun i d => mkDisplay (d_mem d) i) _ _ _.

(** The file's own [memcpy]. *)
Definition memcpy (dst src size : Z) : M Mem unit :=
  for_upto 0 (Z.to_nat size) (fun i => x ← rd8 (src +! i); wr8 (dst +! i) x).

Definition ROLL_SCREEN : M Mem unit := memcpy roll_video_dst_addr roll_video_src_addr (960 * 4).

(** [video_base_addr[offset] = c; video_base_addr[offset + 1] = BLK_BACK_WHT_WORD;] *)
Definition cell_write (offset c : Z) : M Mem unit :=
  wr8 (video_base_addr +! offset) c;;
  wr8 (video_base_addr +! u32 (offset + 1)) BLK_BACK_WHT_WORD.

Definition clean_last_line : M Mem unit :=
  for_upto 0 80 (fun i => cell_write (3840 + 2 * i) 32).

Definition CHECK_OUT_OF_SCREEN (next_cur_pos : Z) : M Mem Z :=
  if SCREEN_MAX <=? next_cur_pos then
    ROLL_SCREEN;;
    clean_last_line;;
    mret (SCREEN_MAX - SCREEN_COL_MAX)
  else mret next_cur_pos.

Definition put_char (c : Z) : M (display Mem) unit :=
  cur_pos ← zoom io_part get_cursor;
  next_cur_pos ←
    (if (c =? 13) || (c =? 10) then
       zoom mem_part (CHECK_OUT_OF_SCREEN (u16 (cur_pos - cur_pos mod 80 + 80)))
     else if c =? 8 then
       let offset := u32 ((cur_pos - 1) * 2) in
       zoom mem_part (cell_write offset 32);;
       mret (u16 (cur_pos - 1))
     else
       let offset := u32 (cur_pos * 2) in
       zoom mem_part (cell_write offset c);;
       zoom mem_part (CHECK_OUT_OF_SCREEN (u16 (cur_pos + 1))));
  zoom io_part (set_cursor next_cur_pos).

(** [put_str] on a string in memory; [fuel] bounds its length. *)
Fixpoint put_str (fuel : nat) (message : Z) : M (display Mem) unit :=
  match fuel with
  | O => out_of_fuel
  | Datatypes.S fuel' =>
      c ← zoom mem_part (rd8 message);
      if c =? 0 then mret tt else put_char (u8 c);; put_str fuel' (message +! 1)
  end.

(** [put_str] on a string constant or a local array, given by its value. *)
Fixpoint put_text (l : list Z) : M (display Mem) unit :=
  match l with
  | [] => mret tt
  | c :: l' => if c =? 0 then mret tt else put_char c;; put_text l'
  end.

Definition text_of (s : string) : list Z :=
  (fun a => Z.of_nat (Ascii.nat_of_ascii a)) <$> String.list_ascii_of_string s.

(** A line end, the end of most messages. *)
Definition nl : string := String (Ascii.ascii_of_nat 10) EmptyString.

(** [put_str] of a string literal. *)
Definition put_literal (s : string) : M (display Mem) unit := put_text (text_of s).

End Functions.

(** ** [put_int] *)

(** A store to the local array [for_print]. *)
Definition array_set {S} (buf : list Z) (off v : Z) : M S (list Z) :=
  if (0 <=? off) && (off <? Z.of_nat (length buf)) then mret (<[Z.to_nat off := v]> buf)
  else fault.

Definition hex_char (low : Z) : Z :=
  if (0 <=? low) && (low <=? 9) then u8 (low + 48) else u8 (low - 10 + 65).

(** The loop of [put_int], on its local variables. *)
Definition digits_left {S} (x : list Z * Z * Z) : M S bool :=
  let '(_, _, num_tmp) := x in mret (negb (num_tmp =? 0)).

Definition put_digit {S} (x : list Z * Z * Z) : M S (list Z * Z * Z) :=
  let '(for_print, off, num_tmp) := x in
  let low := u8 (Z.land num_tmp 0xf) in
  for_print ← array_set for_print off (hex_char low);
  mret (for_print, u8 (off - 1), Z.shiftr num_tmp 4).

Definition put_int_digits {S} (num : Z) : M S (list Z * Z) :=
  let for_print := replicate 9 0 in
  x ← (if num =? 0 then buf ← array_set for_print 7 48; mret (buf, 6, num)
       else mret (for_print, 7, num));
  x ← while 9 digits_left put_digit x;
  let '(for_print, off, _) := x : list Z * Z * Z in
  mret (for_print, u8 (off + 1)).

Definition put_int {Mem} `{!ByteOps Mem} (num : Z) : M (display Mem) unit :=
  '(for_print, off) ← put_int_digits (u32 num);
  put_text (drop (Z.to_nat off) for_print).

(** ** The cursor registers *)

Definition cursor_at (i : io) (pos : Z) : Prop :=
  is_u16 pos /\ crt_regs i !! CUR_POS_HIGH_INDEX = Some (pos / 256)
  /\ crt_regs i !! CUR_POS_LOW_INDEX = Some (pos mod 256).

Lemma set_cursor_ok i pos : is_u16 pos ->
  exists i', set_cursor pos i = Ok tt i' /\ cursor_at i' pos /\ crt_only i i'.
Proof.
  intros Hp. eexists. split; [reflexivity|]. split; [|done]. split; [done|].
  change 0xff with (2 ^ 8 - 1). rewrite !land_low_mask, Z.shiftr_div_pow2 by lia.
  simpl. rewrite lookup_insert_ne, !lookup_insert_eq by done.
  unfold u8. split; f_equal; zdiv_lia.
Qed.

Lemma get_cursor_ok i pos : cursor_at i pos ->
  exists i', get_cursor i = Ok pos i' /\ cursor_at i' pos /\ crt_only i i'.
Proof.
  intros (Hp & H1 & H2). exists (mkIo CUR_POS_LOW_INDEX (crt_regs i) (kbd_data i)
    ((CRT_ADDR, CUR_POS_LOW_INDEX) :: (CRT_ADDR, CUR_POS_HIGH_INDEX) :: written i)).
  split; [|by split_and!].
  unfold get_cursor, mbind, M_bind, mret, M_ret. simpl. change (u8 CUR_POS_HIGH_INDEX)
    with CUR_POS_HIGH_INDEX. change (u8 CUR_POS_LOW_INDEX) with CUR_POS_LOW_INDEX.
  rewrite H1, H2. simpl. f_equal.
  change 0xff00 with (Z.shiftl 0xff 8). rewrite <- Z.shiftl_land.
  change 0xff with (2 ^ 8 - 1). rewrite !land_low_mask, Z.mod_mod by lia.
  rewrite lor_disjoint_add, Z.shiftl_mul_pow2 by (try apply Z.mod_pos_bound; lia).
  unfold u16. zdiv_lia.
Qed.

(** ** The screen *)

Abbreviation cell := (Z * Z)%type.
Definition blank : cell := (32, BLK_BACK_WHT_WORD).

(** What a character means to do to the cells and the cursor. *)
Definition scroll (cells : list cell) : list cell := drop 80 cells ++ replicate 80 blank.

Definition settle (sc : list cell * Z) : list cell * Z :=
  if SCREEN_MAX <=? sc.2 then (scroll sc.1, SCREEN_MAX - SCREEN_COL_MAX) else sc.

Definition putc (c : Z) (sc : list cell * Z) : list cell * Z :=
  let '(cells, cur) := sc in
  if (c =? 13) || (c =? 10) then settle (cells, (cur / 80 + 1) * 80)
  else if c =? 8 then (<[Z.to_nat (cur - 1) := blank]> cells, cur - 1)
  else settle (<[Z.to_nat cur := (c, BLK_BACK_WHT_WORD)]> cells, cur + 1).

#[global] Arguments putc : simpl never.
#[global] Arguments settle : simpl never.

Section Screen.
Context {Mem : Type} `{!ByteOps Mem} `{!ByteMem Mem}.

Definition video_byte (a : Z) : Prop := video_base_addr <= a < video_base_addr + 4000.

Definition screen_cells (m : Mem) (cells : list cell) : Prop :=
  length cells = 2000%nat /\ valid_block m video_base_addr 4000 /\
  forall i c a, cells !! i = Some (c, a) ->
    load8 m (video_base_addr + 2 * Z.of_nat i) = Some c
    /\ load8 m (video_base_addr + 2 * Z.of_nat i + 1) = Some a.

Lemma cell_write_ok m cells k c :
  screen_cells m cells -> 0 <= k < SCREEN_MAX -> is_u8 c ->
  wp (cell_write (2 * k) c) m (fun _ m' =>
    screen_cells m' (<[Z.to_nat k := (c, BLK_BACK_WHT_WORD)]> cells)
    /\ modifies video_byte m m').
Proof.
  unfold SCREEN_MAX. intros (Hl & V & H) Hk Hc. unfold cell_write.
  rewrite (u32_small (2 * k + 1)), !(valid_block_addr m video_base_addr 4000) by (done || lia).
  apply wp_bind. wp_use (apply wp_wr8, V; lia). intros _ m1 [M1 L1].
  wp_use (apply wp_wr8; eapply modifies_valid; [exact M1|]; apply V; lia). intros _ m2 [M2 L2].
  assert (Hm : modifies video_byte m m2).
  { unfold video_byte. modifies_chain M1 M2. }
  split; [|done]. split; [by rewrite length_insert|].
  split; [by eapply valid_block_modifies|]. intros i x a Hi.
  assert (Hlt : (i < 2000)%nat) by (apply lookup_lt_Some in Hi; rewrite length_insert in Hi; lia).
  assert (Hother : forall b, video_byte b -> b <> video_base_addr + 2 * k ->
    b <> video_base_addr + (2 * k + 1) -> load8 m2 b = load8 m b).
  { intros b Hb N1 N2. assert (valid m b) as Vb.
    { unfold video_byte in Hb. replace b with (video_base_addr + (b - video_base_addr)) by lia.
      apply V. lia. }
    rewrite (modifies_load _ _ _ _ M2), (modifies_load _ _ _ _ M1); [done|done|lia| |lia].
    by eapply modifies_valid. }
  destruct (decide (i = Z.to_nat k)) as [->|N].
  - rewrite list_lookup_insert_eq in Hi by lia. injection Hi as <- <-. rewrite Z2Nat.id by lia.
    split.
    + rewrite (modifies_load _ _ _ _ M2); [by rewrite L1, u8_small| |lia].
      eapply modifies_valid; [exact M1|]. apply V. lia.
    + by rewrite <- Z.add_assoc, L2.
  - rewrite list_lookup_insert_ne in Hi by done. destruct (H _ _ _ Hi) as [H1 H2].
    by rewrite !Hother by (unfold video_byte; lia).
Qed.

Lemma modifies_both P (m1 m2 m3 : Mem) :
  modifies P m1 m2 -> modifies P m2 m3 -> modifies P m1 m3.
Proof. intros. by etransitivity. Qed.

(** The two steps of a scroll. *)
Lemma roll_screen_ok m cells :
  screen_cells m cells ->
  wp ROLL_SCREEN m (fun _ m' => screen_cells m' (drop 80 cells ++ drop 1920 cells)
    /\ modifies video_byte m m').
Proof.
  intros (Hl & V & H).
  destruct (valid_block_bytes m roll_video_src_addr 3840) as (l & Ll & B).
  { intros i Hi. replace (roll_video_src_addr + i) with (video_base_addr + (160 + i))
      by (unfold roll_video_src_addr, video_base_addr; lia). apply V. lia. }
  unfold ROLL_SCREEN, memcpy. change (Z.to_nat (960 * 4)) with 3840%nat. rewrite <- Ll.
  wp_use (apply wp_copy_forwards; [exact B| |left; unfold roll_video_src_addr, roll_video_dst_addr; lia];
    intros i Hi; apply V; lia).
  rewrite Ll. intros _ m' [B' Hm].
  assert (Hm' : modifies video_byte m m').
  { eapply modifies_weaken; [exact Hm|]. unfold video_byte, roll_video_dst_addr, video_base_addr. lia. }
  split; [|done]. split; [rewrite length_app, !length_drop; lia|].
  split; [by eapply valid_block_modifies|].
  assert (Hcopy : forall j, 0 <= j < 3840 ->
    load8 m' (video_base_addr + j) = load8 m (video_base_addr + 160 + j)).
  { intros j Hj. destruct (lookup_lt_is_Some_2 l (Z.to_nat j)) as [x Hx]; [lia|].
    destruct (B _ _ Hx) as (_ & L1 & _), (B' _ _ Hx) as (_ & L2 & _).
    rewrite Z2Nat.id in L1, L2 by lia. unfold roll_video_dst_addr, roll_video_src_addr in *.
    unfold video_base_addr. rewrite L2. by rewrite <- L1. }
  intros i c a Hi. destruct (decide (i < 1920)%nat) as [Hlt|Hge].
  - rewrite lookup_app_l, lookup_drop in Hi by (rewrite length_drop; lia).
    destruct (H _ _ _ Hi) as [H1 H2]. rewrite <- Z.add_assoc, !Hcopy by lia.
    rewrite <- H1, <- H2. split; f_equal; lia.
  - pose proof (lookup_lt_Some _ _ _ Hi) as Hlt. rewrite length_app, !length_drop in Hlt.
    rewrite lookup_app_r, length_drop, lookup_drop in Hi by (rewrite length_drop; lia).
    replace (1920 + (i - (length cells - 80)))%nat with i in Hi by lia.
    destruct (H _ _ _ Hi) as [H1 H2]. rewrite <- H1, <- H2, <- Z.add_assoc.
    split; (eapply modifies_load; [exact Hm|apply V; lia|]);
      unfold roll_video_dst_addr, video_base_addr; lia.
Qed.

Lemma clean_last_line_ok m cells :
  screen_cells m cells ->
  wp clean_last_line m (fun _ m' => screen_cells m' (take 1920 cells ++ replicate 80 blank)
    /\ modifies video_byte m m').
Proof.
  intros Hs. pose proof (proj1 Hs) as Hl. unfold clean_last_line.
  eapply (wp_for_upto (fun i m' => exists cells', screen_cells m' cells' /\ modifies video_byte m m'
    /\ forall j, cells' !! j = if decide (1920 <= j < 1920 + Z.to_nat i)%nat then Some blank
                              else cells !! j)).
  - exists cells. split; [done|]. split; [done|]. intros j. by rewrite decide_False by lia.
  - intros i m' Hi (cells' & Hs' & Hm & Hc).
    replace (3840 + 2 * i) with (2 * (1920 + i)) by lia.
    wp_use (apply cell_write_ok; [exact Hs'|unfold SCREEN_MAX; lia|lia]).
    intros _ m'' [Hs'' Hm']. eexists. split; [exact Hs''|].
    split; [by eapply modifies_both|]. intros j. destruct (decide (j = Z.to_nat (1920 + i))) as [->|N].
    + rewrite list_lookup_insert_eq by (rewrite (proj1 Hs'); lia). by rewrite decide_True by lia.
    + rewrite list_lookup_insert_ne, Hc by done. repeat case_decide; (done || lia).
  - intros m' (cells' & Hs' & Hm & Hc). split; [|done].
    replace (take 1920 cells ++ replicate 80 blank) with cells'; [done|].
    apply list_eq. intros j. rewrite Hc. destruct (decide (j < 1920)%nat).
    + rewrite decide_False, lookup_app_l, lookup_take_lt; [done..|rewrite length_take; lia|lia].
    + rewrite lookup_app_r by (rewrite length_take; lia). rewrite length_take, Nat.min_l by lia.
      case_decide as Hj.
      * symmetry. apply lookup_replicate. split; [done|lia].
      * rewrite !lookup_ge_None_2; [done|rewrite length_replicate; lia|lia].
Qed.

Definition screen_rep (d : display Mem) (cells : list cell) (cur : Z) : Prop :=
  screen_cells (d_mem d) cells /\ cursor_at (d_io d) cur.

(** What the output functions change: the screen's memory and the cursor's
    registers. *)
Definition shows (d d' : display Mem) : Prop :=
  modifies video_byte (d_mem d) (d_mem d') /\ crt_only (d_io d) (d_io d').

#[export] Instance shows_preorder : PreOrder shows.
Proof.
  split; [by intros d|]. intros d1 d2 d3 [M1 K1] [M2 K2]. split; [|by etransitivity].
  by eapply modifies_both.
Qed.

Lemma check_out_of_screen_ok m cells next :
  screen_cells m cells ->
  wp (CHECK_OUT_OF_SCREEN next) m (fun r m' =>
    screen_cells m' (settle (cells, next)).1 /\ r = (settle (cells, next)).2
    /\ modifies video_byte m m').
Proof.
  intros Hs. unfold CHECK_OUT_OF_SCREEN, settle. simpl.
  destruct (SCREEN_MAX <=? next); [|by apply wp_ret].
  apply wp_bind. wp_use (by apply roll_screen_ok). intros _ m1 [Hs1 M1].
  apply wp_bind. wp_use (by apply clean_last_line_ok). intros _ m2 [Hs2 M2].
  apply wp_ret. split; [|split; [done|by eapply modifies_both]].
  pose proof (proj1 Hs) as Hl. rewrite take_app_length' in Hs2 by (rewrite length_drop; lia).
  exact Hs2.
Qed.

Lemma settle_range cells next :
  0 <= next <= SCREEN_MAX -> length cells = 2000%nat ->
  0 <= (settle (cells, next)).2 < SCREEN_MAX.
Proof.
  unfold settle, SCREEN_MAX, SCREEN_COL_MAX. simpl. intros H Hl.
  destruct (Z.leb_spec (25 * 80) next); simpl; lia.
Qed.

Lemma putc_range c cells cur :
  0 <= cur < SCREEN_MAX -> (c = 8 -> 0 < cur) -> length cells = 2000%nat ->
  0 <= (putc c (cells, cur)).2 < SCREEN_MAX.
Proof.
  intros H H8 Hl. unfold putc. destruct ((c =? 13) || (c =? 10)).
  - apply settle_range; [|done]. unfold SCREEN_MAX in *. zdiv_lia.
  - destruct (Z.eqb_spec c 8) as [->|]; [simpl; lia|].
    apply settle_range; [lia|by rewrite length_insert].
Qed.

Lemma put_char_ok d cells cur c :
  screen_rep d cells cur -> 0 <= cur < SCREEN_MAX -> is_u8 c -> (c = 8 -> 0 < cur) ->
  wp (put_char c) d (fun _ d' =>
    screen_rep d' (putc c (cells, cur)).1 (putc c (cells, cur)).2 /\ shows d d').
Proof.
  intros [Hs Hc] Hcur Hu H8.
  destruct (get_cursor_ok _ _ Hc) as (i1 & E1 & C1 & K1).
  pose proof (putc_range c cells cur Hcur H8 (proj1 Hs)) as Hr.
  unfold put_char. apply wp_bind, wp_zoom. eapply wp_ok; [exact E1|]. simpl.
  apply wp_bind. eapply (wp_mono _ _ (fun next d1 =>
    screen_cells (d_mem d1) (putc c (cells, cur)).1 /\ next = (putc c (cells, cur)).2
    /\ modifies video_byte (d_mem d) (d_mem d1) /\ d_io d1 = i1)).
  { unfold putc, SCREEN_MAX in *. destruct ((c =? 13) || (c =? 10)).
    - apply wp_zoom. simpl. replace (u16 (cur - cur mod 80 + 80)) with ((cur / 80 + 1) * 80)
        by (unfold u16; zdiv_lia).
      wp_use (by apply check_out_of_screen_ok). intros r m' (? & -> & ?). done.
    - destruct (Z.eqb_spec c 8) as [->|N].
      + specialize (H8 eq_refl). apply wp_bind, wp_zoom. simpl. rewrite (u32_small ((cur - 1) * 2)) by lia.
        rewrite (Z.mul_comm _ 2).
        wp_use (apply cell_write_ok; [done|unfold SCREEN_MAX; lia|done]). intros _ m' [? ?].
        apply wp_ret. simpl. by rewrite u16_small by lia.
      + apply wp_bind, wp_zoom. simpl. rewrite (u32_small (cur * 2)), (Z.mul_comm _ 2) by lia.
        wp_use (apply cell_write_ok; [done|unfold SCREEN_MAX; lia|done]). intros _ m' [Hs' Hm'].
        apply wp_zoom. simpl. rewrite u16_small by lia.
        wp_use (by apply check_out_of_screen_ok). intros r m'' (? & -> & ?).
        split_and!; try done. by eapply modifies_both. }
  intros next d1 (Hs1 & -> & M1 & I1). apply wp_zoom.
  destruct (set_cursor_ok (d_io d1) (putc c (cells, cur)).2) as (i2 & E2 & C2 & K2).
  { unfold SCREEN_MAX in Hr. lia. }
  eapply wp_ok; [exact E2|]. split; [done|]. split; [done|]. simpl. etransitivity; [exact K1|by rewrite <- I1].
Qed.

(** ** Strings *)

Definition puts (l : list Z) (sc : list cell * Z) : list cell * Z :=
  fold_left (fun sc c => putc c sc) l sc.

(** A text the screen shows: bytes, no terminator and no backspace. *)
Definition printable (l : list Z) : Prop := Forall (fun c => is_u8 c /\ c <> 0 /\ c <> 8) l.

Lemma put_text_ok d cells cur l :
  screen_rep d cells cur -> 0 <= cur < SCREEN_MAX -> printable l ->
  wp (put_text l) d (fun _ d' =>
    screen_rep d' (puts l (cells, cur)).1 (puts l (cells, cur)).2 /\ shows d d'
    /\ 0 <= (puts l (cells, cur)).2 < SCREEN_MAX).
Proof.
  intros Hs Hcur Hl. revert d cells cur Hs Hcur.
  induction Hl as [|c l (Hu & H0 & H8) Hl IH]; intros d cells cur Hs Hcur; simpl; [by apply wp_ret|].
  rewrite (proj2 (Z.eqb_neq c 0)) by done.
  apply wp_bind. wp_use (by apply put_char_ok). intros _ d1 [Hs1 S1].
  pose proof (putc_range c cells cur Hcur ltac:(done) (proj1 (proj1 Hs))) as Hr.
  destruct (putc c (cells, cur)) as [cells1 cur1] eqn:E. unfold puts in *. simpl in *.
  wp_use (by apply (IH d1 cells1 cur1)). intros _ d2 (Hs2 & S2 & R2).
  split; [done|]. split; [by etransitivity|done].
Qed.

(** [put_str] shows the string its argument points to. *)
Lemma put_str_ok d cells cur p l fuel :
  screen_rep d cells cur -> 0 <= cur < SCREEN_MAX -> printable l ->
  CString.cstr (d_mem d) p l -> (forall i, 0 <= i <= Z.of_nat (length l) -> ~ video_byte (p + i)) ->
  (length l < fuel)%nat ->
  wp (put_str fuel p) d (fun _ d' =>
    screen_rep d' (puts l (cells, cur)).1 (puts l (cells, cur)).2 /\ shows d d').
Proof.
  intros Hs Hcur Hl. revert d cells cur p fuel Hs Hcur.
  induction Hl as [|c l (Hu & H0 & H8) Hl IH]; intros d cells cur p [|fuel] Hs Hcur Hstr Hv Hf;
    simpl in Hf; try lia; simpl put_str.
  - apply CString.cstr_nil in Hstr. apply wp_bind, wp_zoom. eapply wp_rd8; [done|]. simpl.
    by apply wp_ret; destruct d.
  - destruct (CString.cstr_cons _ _ _ _ Hstr) as (L & _ & _ & E & Htl).
    apply wp_bind, wp_zoom. eapply wp_rd8; [done|]. rewrite (proj2 (Z.eqb_neq c 0)) by done.
    replace (put_view mem_part (view mem_part d) d) with d by by destruct d.
    rewrite u8_small by done.
    apply wp_bind. wp_use (by apply put_char_ok). intros _ d1 [Hs1 S1].
    pose proof (putc_range c cells cur Hcur ltac:(done) (proj1 (proj1 Hs))) as Hr.
    destruct (putc c (cells, cur)) as [cells1 cur1] eqn:Ep. unfold puts in *. simpl in *.
    rewrite E. eapply wp_mono; [apply (IH d1 cells1 cur1); [done|done| | |lia]|].
    + split; [|apply Htl]. eapply bytes_at_modifies; [apply S1|apply Htl|].
      intros i Hi. rewrite length_app in Hi. simpl in Hi. rewrite <- Z.add_assoc. apply Hv. lia.
    + intros i Hi. rewrite <- Z.add_assoc. apply Hv. lia.
    + intros _ d2 [Hs2 S2]. rewrite Ep. split; [done|]. by etransitivity.
Qed.

End Screen.

(** ** Hexadecimal numbers *)

(** The digits of a number, the most significant first, without leading
    zeros. *)
Fixpoint hex_go (fuel : nat) (n : Z) (acc : list Z) : list Z :=
  match fuel with
  | O => acc
  | S fuel' => if n =? 0 then acc else hex_go fuel' (n / 16) (hex_char (n mod 16) :: acc)
  end.

Definition hex (n : Z) : list Z := if n =? 0 then [48] else hex_go 8 n [].

Definition digit_value (c : Z) : Z := if c <=? 57 then c - 48 else c - 55.
Definition hex_value (l : list Z) : Z := fold_left (fun v c => 16 * v + digit_value c) l 0.

Lemma hex_char_value d : 0 <= d < 16 ->
  digit_value (hex_char d) = d /\ 48 <= hex_char d <= 70 /\ (hex_char d = 48 -> d = 0).
Proof.
  intros H. unfold digit_value, hex_char.
  destruct (Z.leb_spec 0 d), (Z.leb_spec d 9); simpl; rewrite ?u8_small by lia; try lia.
  - destruct (Z.leb_spec (d + 48) 57); lia.
  - destruct (Z.leb_spec (d - 10 + 65) 57); lia.
Qed.

Lemma hex_go_app fuel n acc : hex_go fuel n acc = hex_go fuel n [] ++ acc.
Proof.
  revert n acc. induction fuel as [|fuel IH]; intros n acc; [done|]. simpl.
  destruct (n =? 0); [done|]. rewrite IH, (IH _ [hex_char _]), <- app_assoc. done.
Qed.

Lemma hex_go_value fuel n : 0 <= n < 16 ^ Z.of_nat fuel -> hex_value (hex_go fuel n []) = n.
Proof.
  revert n. induction fuel as [|fuel IH]; intros n Hn; [simpl in *; unfold hex_value; simpl; lia|].
  simpl. destruct (Z.eqb_spec n 0) as [->|N]; [done|].
  rewrite hex_go_app. unfold hex_value in *. rewrite fold_left_app, IH.
  - simpl. destruct (hex_char_value (n mod 16)) as [-> _]; [apply Z.mod_pos_bound; lia|]. zdiv_lia.
  - rewrite Nat2Z.inj_succ, Z.pow_succ_r in Hn by lia. zdiv_lia.
Qed.

Lemma hex_go_digits fuel n acc :
  0 <= n -> Forall (fun c => 48 <= c <= 70) acc -> Forall (fun c => 48 <= c <= 70) (hex_go fuel n acc).
Proof.
  revert n acc. induction fuel as [|fuel IH]; intros n acc Hn Ha; [done|]. simpl.
  destruct (n =? 0); [done|]. apply IH; [zdiv_lia|]. constructor; [|done].
  apply hex_char_value, Z.mod_pos_bound. lia.
Qed.

Lemma hex_printable n : 0 <= n -> printable (hex n).
Proof.
  intros Hn. unfold hex, printable. destruct (n =? 0).
  - repeat constructor; lia.
  - eapply Forall_impl; [by apply hex_go_digits|]. simpl. lia.
Qed.

Lemma hex_value_hex n : is_u32 n -> hex_value (hex n) = n.
Proof.
  intros Hn. unfold hex. destruct (Z.eqb_spec n 0) as [->|]; [done|].
  apply (hex_go_value 8). simpl. lia.
Qed.

Lemma hex_go_length fuel n : (length (hex_go fuel n []) <= fuel)%nat.
Proof.
  revert n. induction fuel as [|fuel IH]; intros n; simpl; [done|].
  destruct (n =? 0); simpl; [lia|]. rewrite hex_go_app, length_app. simpl. specialize (IH (n / 16)). lia.
Qed.

Lemma hex_length n : (length (hex n) <= 8)%nat.
Proof. unfold hex. destruct (n =? 0); simpl; [lia|]. apply (hex_go_length 8). Qed.

Lemma hex_go_head fuel n : 0 < n < 16 ^ Z.of_nat fuel -> hd 0 (hex_go fuel n []) <> 48
  /\ hex_go fuel n [] <> [].
Proof.
  revert n. induction fuel as [|fuel IH]; intros n Hn; [simpl in Hn; lia|]. simpl.
  rewrite (proj2 (Z.eqb_neq n 0)), hex_go_app by lia.
  rewrite Nat2Z.inj_succ, Z.pow_succ_r in Hn by lia.
  destruct (decide (n / 16 = 0)) as [E|N].
  - rewrite E. assert (hex_go fuel 0 [] = []) as -> by by destruct fuel. simpl. split; [|done].
    intros Hc. destruct (hex_char_value (n mod 16)) as (_ & _ & H); [apply Z.mod_pos_bound; lia|].
    specialize (H Hc). zdiv_lia.
  - destruct (IH (n / 16)) as [H1 H2]; [zdiv_lia|].
    by destruct (hex_go fuel (n / 16) []).
Qed.

Lemma hex_canonical n : is_u32 n -> hd 0 (hex n) = 48 -> hex n = [48].
Proof.
  intros Hn. unfold hex. destruct (Z.eqb_spec n 0) as [->|]; [done|].
  intros H. by destruct (hex_go_head 8 n ltac:(simpl; lia)).
Qed.

(** [put_int]'s loop fills the array from the right. *)
Lemma put_digit_ok {S} (s : S) j num acc :
  0 <= num -> (j < 8)%nat ->
  put_digit (replicate (Datatypes.S j) 0 ++ acc, u8 (Z.of_nat (Datatypes.S j) - 1), num) s
  = Ok (replicate j 0 ++ hex_char (num mod 16) :: acc, u8 (Z.of_nat j - 1), num / 16) s.
Proof.
  intros Hn Hj. unfold put_digit, array_set.
  assert (u8 (Z.land num 0xf) = num mod 16) as ->.
  { change 0xf with (2 ^ 4 - 1). rewrite land_low_mask by lia.
    apply u8_small. change (2 ^ 4) with 16. pose proof (Z.mod_pos_bound num 16). lia. }
  rewrite (u8_small (Z.of_nat (Datatypes.S j) - 1)) by lia.
  replace (Z.of_nat (Datatypes.S j) - 1) with (Z.of_nat j) by lia.
  rewrite (proj2 (Z.leb_le 0 _)), (proj2 (Z.ltb_lt (Z.of_nat j) _))
    by (rewrite ?length_app, ?length_replicate; simpl; lia).
  simpl andb. cbv iota. unfold mbind, M_bind, mret, M_ret.
  rewrite Nat2Z.id, Z.shiftr_div_pow2 by lia.
  rewrite <- (Nat.add_1_r j), replicate_add, <- app_assoc.
  rewrite insert_app_r_alt by (rewrite length_replicate; lia).
  by rewrite length_replicate, Nat.sub_diag.
Qed.

Lemma put_int_loop {S} (s : S) j num acc :
  0 <= num < 16 ^ Z.of_nat j -> (length acc = 9 - j)%nat -> (j <= 8)%nat ->
  exists k, (k <= 8)%nat /\ length (hex_go j num acc) = (9 - k)%nat /\
  while (Datatypes.S j) digits_left put_digit (replicate j 0 ++ acc, u8 (Z.of_nat j - 1), num) s
  = Ok (replicate k 0 ++ hex_go j num acc, u8 (Z.of_nat k - 1), 0) s.
Proof.
  revert num acc. induction j as [|j IH]; intros num acc Hn Ha Hj.
  - simpl in Hn. assert (num = 0) as -> by lia. exists O. split; [lia|].
    split; [simpl; lia|]. by apply while_stop.
  - simpl hex_go. destruct (Z.eqb_spec num 0) as [->|N].
    + exists (Datatypes.S j). split; [done|]. split; [lia|]. by apply while_stop.
    + destruct (IH (num / 16) (hex_char (num mod 16) :: acc)) as (k & Hk & Hlen & E).
      { rewrite Nat2Z.inj_succ, Z.pow_succ_r in Hn by lia. zdiv_lia. }
      { simpl. lia. } { lia. }
      exists k. split; [done|]. split; [done|]. rewrite <- E. apply while_step with s; [|by apply put_digit_ok; lia].
      unfold digits_left, mret, M_ret. by rewrite (proj2 (Z.eqb_neq num 0)).
Qed.

(** The array ends with the digits and a terminator, and [off] is the index of
    the first digit. *)
Lemma put_int_digits_ok {S} (s : S) num :
  is_u32 num -> exists buf off, put_int_digits num s = Ok (buf, off) s
    /\ 0 <= off < 8 /\ length buf = 9%nat /\ drop (Z.to_nat off) buf = hex num ++ [0].
Proof.
  intros Hn. unfold put_int_digits, hex. destruct (Z.eqb_spec num 0) as [->|N].
  { eexists _, _. split; [reflexivity|]. done. }
  destruct (put_int_loop s 8 num [0]) as (k & Hk & Hlen & E); [simpl; lia|done|done|].
  assert (Hk7 : (k < 8)%nat).
  { change (hex_go 8 num [0]) with (if num =? 0 then [0]
      else hex_go 7 (num / 16) [hex_char (num mod 16); 0]) in Hlen.
    rewrite (proj2 (Z.eqb_neq num 0)), hex_go_app, length_app in Hlen by done.
    simpl length in Hlen. lia. }
  eexists _, _. split.
  { unfold mbind at 1, M_bind at 1, mret at 1, M_ret at 1.
    erewrite bind_ok by exact E. reflexivity. }
  assert (u8 (u8 (Z.of_nat k - 1) + 1) = Z.of_nat k) as -> by (unfold u8; zdiv_lia).
  split; [lia|]. rewrite Nat2Z.id, length_app, length_replicate, Hlen. split; [lia|].
  rewrite drop_app_length' by (by rewrite length_replicate). apply hex_go_app.
Qed.

Lemma put_text_terminated {Mem} `{!ByteOps Mem} l (d : display Mem) :
  put_text (l ++ [0]) d = put_text l d.
Proof.
  revert d. induction l as [|c l IH]; intros d; simpl; [done|]. destruct (c =? 0); [done|].
  unfold mbind, M_bind. destruct (put_char c d); try done.
Qed.

Lemma put_int_text {Mem} `{!ByteOps Mem} num (d : display Mem) :
  put_int num d = put_text (hex (u32 num)) d.
Proof.
  destruct (put_int_digits_ok d (u32 num) (u32_range num)) as (buf & off & E & _ & _ & H).
  unfold put_int. erewrite bind_ok by exact E. simpl. by rewrite H, put_text_terminated.
Qed.

End Print.
