(* ===== verification/Stdio.v ===== *)
(** [lib/stdio.c]: [itoa].

    The function writes the digits from the least significant one on, then the
    sign and the terminator, and reverses the string in place.  Its [num] is an
    [int]: [%] and [/] truncate towards zero, and negating [INT_MIN] wraps. *)

From S2P Require Import Prelude Bytes CString.

Module Stdio.

Section Functions.
Context {S : Type} `{!ByteOps S}.

Definition digit_char (rem : Z) : Z := u8 (if 9 <? rem then rem - 10 + 97 else rem + 48).

(** [while (num != 0) { ... }] on [(i, num)]; 33 evaluations of the condition
    are enough for every base but 0 and 1. *)
Definition itoa_digit (str base : Z) (x : Z * Z) : M S (Z * Z) :=
  let '(i, num) := x in
  if base =? 0 then fault
  else
    let rem := Z.rem num base in
    wr8 (str +! i) (digit_char rem);;
    mret (i + 1, Z.quot num base).

(** [while (j < i / 2) { swap; j++; }] *)
Definition itoa_swap (str i j : Z) : M S Z :=
  tmp ← rd8 (str +! j);
  x ← rd8 (str +! (i - j - 1));
  wr8 (str +! j) x;;
  wr8 (str +! (i - j - 1)) tmp;;
  mret (j + 1).

Definition itoa (num str base : Z) : M S unit :=
  if num =? 0 then
    wr8 (str +! 0) 48;;
    wr8 (str +! 1) 0
  else
    let is_neg := (num <? 0) && (base =? 10) in
    let num := if is_neg then i32 (- num) else num in
    x ← while 33 (fun x : Z * Z => mret (negb (x.2 =? 0))) (itoa_digit str base) (0, num);
    let i := x.1 in
    i ← (if is_neg then wr8 (str +! i) 45;; mret (i + 1) else mret i);
    wr8 (str +! i) 0;;
    while 18 (fun j => mret (j <? i / 2)) (itoa_swap str i) 0;;
    mret tt.

End Functions.

(** ** Numerals *)

(** The digits of [n], the least significant first. *)
Fixpoint digits (fuel : nat) (base n : Z) : list Z :=
  match fuel with
  | O => []
  | S fuel' => if n =? 0 then [] else digit_char (n mod base) :: digits fuel' base (n / base)
  end.

Definition digit_value (c : Z) : Z := if c <=? 57 then c - 48 else c - 87.

(** The value of a numeral, the most significant digit first. *)
Definition value_of (base : Z) (l : list Z) : Z :=
  fold_left (fun v c => base * v + digit_value c) l 0.

(** The value of a text with an optional sign. *)
Definition parse (base : Z) (l : list Z) : Z :=
  match l with
  | 45 :: l' => - value_of base l'
  | _ => value_of base l
  end.

Lemma digit_char_value d : 0 <= d < 36 ->
  digit_value (digit_char d) = d /\ 48 <= digit_char d <= 122 /\ digit_char d <> 45.
Proof.
  intros H. unfold digit_value, digit_char. destruct (Z.ltb_spec 9 d); rewrite u8_small by lia.
  - destruct (Z.leb_spec (d - 10 + 97) 57); lia.
  - destruct (Z.leb_spec (d + 48) 57); lia.
Qed.

Lemma value_of_snoc base l c : value_of base (l ++ [c]) = base * value_of base l + digit_value c.
Proof. unfold value_of. by rewrite fold_left_app. Qed.

Section Numerals.
Context (base : Z) (Hbase : 2 <= base <= 36).

Lemma digits_value fuel n : 0 <= n < 2 ^ Z.of_nat fuel ->
  value_of base (reverse (digits fuel base n)) = n.
Proof.
  revert n. induction fuel as [|fuel IH]; intros n Hn; [simpl in *; unfold value_of; simpl; lia|].
  simpl. destruct (Z.eqb_spec n 0) as [->|N]; [done|].
  rewrite reverse_cons, value_of_snoc, IH.
  - destruct (digit_char_value (n mod base)) as [-> _]; [pose proof (Z.mod_pos_bound n base); lia|].
    pose proof (Z.div_mod n base). lia.
  - rewrite Nat2Z.inj_succ, Z.pow_succ_r in Hn by lia. split; [apply Z.div_pos; lia|].
    apply Z.div_lt_upper_bound; [lia|]. nia.
Qed.

Lemma digits_chars fuel n : 0 <= n -> Forall (fun c => 48 <= c <= 122) (digits fuel base n).
Proof.
  revert n. induction fuel as [|fuel IH]; intros n Hn; simpl; [done|].
  destruct (n =? 0); [done|]. constructor.
  - apply digit_char_value. pose proof (Z.mod_pos_bound n base). lia.
  - apply IH, Z.div_pos; lia.
Qed.

Lemma digits_length fuel n : (length (digits fuel base n) <= fuel)%nat.
Proof.
  revert n. induction fuel as [|fuel IH]; intros n; simpl; [done|].
  destruct (n =? 0); simpl; [lia|]. specialize (IH (n / base)). lia.
Qed.

Lemma digits_nonempty fuel n : 0 < n < 2 ^ Z.of_nat fuel -> digits fuel base n <> [].
Proof.
  destruct fuel; simpl; [lia|]. intros H. by rewrite (proj2 (Z.eqb_neq n 0)) by lia.
Qed.
End Numerals.

(** ** The function *)

Section Specs.
Context {S : Type} `{!ByteOps S} `{!ByteMem S}.

Lemma itoa_digit_ok s str base l (i : nat) n :
  2 <= base <= 36 -> bytes_at s str l -> 0 <= n -> (i < length l)%nat ->
  wp (itoa_digit str base (Z.of_nat i, n)) s (fun x s' =>
    x = (Z.of_nat (Datatypes.S i), n / base)
    /\ bytes_at s' str (<[i := digit_char (n mod base)]> l)
    /\ modifies (eq (str + Z.of_nat i)) s s').
Proof.
  intros Hb B Hn Hl. assert (Hm : 0 <= n mod base < base) by (apply Z.mod_pos_bound; lia).
  destruct (digit_char_value (n mod base)) as (_ & Hc & _); [lia|].
  unfold itoa_digit. rewrite (proj2 (Z.eqb_neq base 0)) by lia.
  rewrite Z.rem_mod_nonneg, Z.quot_div_nonneg by lia.
  apply wp_bind. wp_use (apply (wp_array_write s str l i); [done|lia|lia]).
  intros _ s1 [B1 M1]. apply wp_ret. split; [f_equal; lia|done].
Qed.

(** The digit loop writes [digits] from index [i] on. *)
Lemma itoa_digits_ok s str base fuel l (i : nat) n :
  2 <= base <= 36 -> bytes_at s str l -> 0 <= n < 2 ^ Z.of_nat fuel ->
  (i + fuel <= length l)%nat ->
  wp (while (Datatypes.S fuel) (fun x : Z * Z => mret (negb (x.2 =? 0))) (itoa_digit str base)
        (Z.of_nat i, n)) s
    (fun x s' => let ds := digits fuel base n in
       x = (Z.of_nat (i + length ds), 0)
       /\ bytes_at s' str (take i l ++ ds ++ drop (i + length ds) l)
       /\ modifies (fun b => str <= b < str + Z.of_nat (length l)) s s').
Proof.
  intros Hb. revert s l i n. induction fuel as [|fuel IH]; intros s l i n B Hn Hl.
  - simpl in Hn. assert (n = 0) as -> by lia. simpl. apply wp_bind, wp_ret, wp_ret. simpl.
    rewrite Nat.add_0_r, take_drop. done.
  - simpl digits. destruct (Z.eqb_spec n 0) as [->|N].
    + eapply wp_ok; [by apply while_stop|]. simpl. by rewrite Nat.add_0_r, take_drop.
    + remember (Datatypes.S fuel) as f. simpl while. subst f.
      apply wp_bind, wp_ret. simpl snd. rewrite (proj2 (Z.eqb_neq n 0)) by done. simpl negb. cbv iota.
      apply wp_bind. wp_use (by apply (itoa_digit_ok s str base l i n); [..|lia|lia]).
      intros x s1 (-> & B1 & M1).
      eapply wp_mono; [eapply (IH s1 _ (Datatypes.S i)); [exact B1| |rewrite length_insert; lia]|].
      { rewrite Nat2Z.inj_succ, Z.pow_succ_r in Hn by lia. split; [apply Z.div_pos; lia|].
        apply Z.div_lt_upper_bound; [lia|]. nia. }
      rewrite length_insert. intros x s2 (-> & B2 & M2).
      split; [f_equal; simpl; lia|]. split.
      * revert B2. rewrite (take_S_r _ _ (digit_char (n mod base)))
          by (apply list_lookup_insert_eq; lia).
        rewrite take_insert_ge, drop_insert_lt, <- app_assoc by lia. simpl.
        by rewrite Nat.add_succ_r.
      * etransitivity; [|exact M2]. eapply modifies_weaken; [exact M1|]. intros b <-. lia.
Qed.

(** The second loop reverses the first [n] bytes. *)
Lemma itoa_reverse_ok s str ds rest :
  bytes_at s str (ds ++ rest) -> (length ds < 35)%nat ->
  let n := Z.of_nat (length ds) in
  wp (while 18 (fun j => mret (j <? n / 2)) (itoa_swap str n) 0) s
    (fun _ s' => bytes_at s' str (reverse ds ++ rest)
       /\ modifies (fun b => str <= b < str + Z.of_nat (length (ds ++ rest))) s s').
Proof.
  intros B Hlen n.
  apply (wp_while (fun m j s' => exists ds' (k : nat), j = Z.of_nat k /\ (m + k = length ds / 2)%nat
    /\ bytes_at s' str (ds' ++ rest) /\ length ds' = length ds
    /\ (forall x, (x < length ds)%nat -> ds' !! x =
          if decide (x < k \/ length ds - k <= x)%nat then reverse ds !! x else ds !! x)
    /\ modifies (fun b => str <= b < str + Z.of_nat (length (ds ++ rest))) s s') 18 (length ds / 2)).
  - pose proof (Nat.div_le_upper_bound (length ds) 2 17 ltac:(lia) ltac:(lia)). lia.
  - exists ds, O. split; [done|]. split; [lia|]. split; [done|]. split; [done|]. split; [|done].
    intros x Hx. rewrite decide_False; [done|lia].
  - intros m j s' (ds' & k & -> & Hm & B' & Hl' & Hk & M').
    assert (Hn2 : n / 2 = Z.of_nat (length ds / 2)) by (unfold n; rewrite Nat2Z.inj_div; done).
    apply wp_ret. destruct (Z.ltb_spec (Z.of_nat k) (n / 2)) as [Hlt|Hge].
    + destruct m as [|m]; [lia|]. exists m. split; [done|].
      assert (Hd : (2 * (length ds / 2) <= length ds)%nat) by (apply Nat.Div0.mul_div_le).
      set (k2 := (length ds - k - 1)%nat).
      destruct (lookup_lt_is_Some_2 ds' k) as [x Hx]; [lia|].
      destruct (lookup_lt_is_Some_2 ds' k2) as [y Hy]; [lia|].
      unfold itoa_swap. replace (n - Z.of_nat k - 1) with (Z.of_nat k2) by lia.
      apply wp_bind. wp_use (eapply (wp_array_read s' str (ds' ++ rest));
        [exact B'|by apply lookup_app_l_Some]). intros ? ? [-> ->].
      apply wp_bind. wp_use (eapply (wp_array_read s' str (ds' ++ rest));
        [exact B'|by apply lookup_app_l_Some]). intros ? ? [-> ->].
      assert (is_u8 x /\ is_u8 y) as [Rx Ry].
      { destruct (B' k x) as (_ & _ & Rx); [by apply lookup_app_l_Some|].
        by destruct (B' k2 y) as (_ & _ & Ry); [apply lookup_app_l_Some|]. }
      apply wp_bind. wp_use (apply (wp_array_write s' str (ds' ++ rest) k); [done| |done];
        rewrite length_app; lia). intros _ s1 [B1 M1].
      apply wp_bind. wp_use (eapply (wp_array_write s1 str _ k2); [exact B1| |done];
        rewrite length_insert, length_app; lia). intros _ s2 [B2 M2].
      apply wp_ret. exists (<[k2 := x]> (<[k := y]> ds')), (Datatypes.S k).
      split; [lia|]. split; [lia|]. split.
      { revert B2. by rewrite insert_app_l, insert_app_l by (rewrite ?length_insert; lia). }
      split; [by rewrite !length_insert|]. split.
      * intros z Hz. rewrite !list_lookup_insert, !length_insert, !Hl', (Hk z Hz).
        rewrite Hk, decide_False in Hx by lia. rewrite Hk, decide_False in Hy by lia.
        assert (Ex : reverse ds !! k2 = Some x) by (rewrite reverse_lookup by lia; rewrite <- Hx; f_equal; lia).
        assert (Ey : reverse ds !! k = Some y) by (rewrite reverse_lookup by lia; rewrite <- Hy; f_equal; lia).
        repeat case_decide; try lia; try done;
          match goal with H : _ = z /\ _ |- _ => destruct H as [<- _] end; congruence.
      * etransitivity; [exact M'|]. rewrite length_app.
        etransitivity; [eapply modifies_weaken; [exact M1|]|eapply modifies_weaken; [exact M2|]];
          intros b <-; lia.
    + assert (m = O) as -> by lia. split; [|done].
      replace (reverse ds) with ds'; [done|]. apply list_eq. intros x.
      destruct (decide (x < length ds)%nat) as [Hx|Hx].
      * rewrite Hk by done. case_decide as Hd; [done|].
        assert (k = length ds / 2)%nat as -> by lia.
        pose proof (Nat.div_mod_eq (length ds) 2). pose proof (Nat.mod_upper_bound (length ds) 2).
        assert (x = length ds - Datatypes.S x)%nat by lia.
        rewrite reverse_lookup by done. by f_equal.
      * rewrite !lookup_ge_None_2; [done|rewrite length_reverse; lia|lia].
Qed.

(** The text of a number. *)
Definition numeral (base num : Z) : list Z :=
  if num =? 0 then [48]
  else if num <? 0 then 45 :: reverse (digits 32 base (- num))
  else reverse (digits 32 base num).

(** Numbers [itoa] means to print: in base 10 with their sign, otherwise not
    negative. *)
Definition itoa_domain (base num : Z) : Prop :=
  2 <= base <= 36 /\ - 2 ^ 31 < num < 2 ^ 31 /\ (0 <= num \/ base = 10).

Lemma itoa_ok s str base num l :
  itoa_domain base num -> bytes_at s str l -> length l = 34%nat ->
  wp (itoa num str base) s (fun _ s' =>
    CString.cstr s' str (numeral base num)
    /\ modifies (fun b => str <= b < str + 34) s s').
Proof.
  intros (Hb & Hn & Hs) B Hl. unfold itoa, numeral. destruct (Z.eqb_spec num 0) as [->|N].
  { apply wp_bind. wp_use (apply (wp_array_write s str l 0); [done|lia|lia]). intros _ s1 [B1 M1].
    wp_use (eapply (wp_array_write s1 str _ 1); [exact B1|rewrite length_insert; lia|lia]).
    intros _ s2 [B2 M2]. split.
    - split; [|by repeat constructor]. destruct l as [|? [|? l]]; simpl in Hl; try lia.
      simpl in B2. change ([48] ++ [0]) with (48 :: 0 :: []). intros i x Hi. apply B2.
      do 2 (destruct i as [|i]; [done|]). done.
    - etransitivity; [eapply modifies_weaken; [exact M1|]|eapply modifies_weaken; [exact M2|]];
        intros b <-; lia. }
  assert (Hneg : (num <? 0) && (base =? 10) = (num <? 0)).
  { destruct (Z.ltb_spec num 0); [|done]. simpl. apply Z.eqb_eq. lia. }
  rewrite Hneg. set (neg := num <? 0). set (n := Z.abs num).
  replace (if neg then i32 (- num) else num) with n.
  2: { unfold neg, n. destruct (Z.ltb_spec num 0); [rewrite i32_small by lia|]; lia. }
  set (ds := digits 32 base n).
  assert (Hds : (length ds <= 32)%nat) by by apply digits_length.
  apply wp_bind. eapply wp_mono.
  { apply (itoa_digits_ok s str base 32 l 0 n Hb B); [unfold n; simpl; lia|lia]. }
  intros x s1 (-> & B1 & M1). fold ds in B1 |- *. simpl in B1. simpl fst.
  set (signed := if neg then ds ++ [45] else ds).
  apply wp_bind.
  eapply (wp_mono _ _ (fun i s2 => i = Z.of_nat (length signed)
    /\ (exists rest, bytes_at s2 str (signed ++ rest) /\ (length signed + length rest = 34)%nat)
    /\ modifies (fun b => str <= b < str + 34) s s2)).
  { rewrite Hl in M1. unfold signed. destruct neg.
    - apply wp_bind. simpl plus. wp_use (eapply (wp_array_write s1 str _ (length ds)); [exact B1| |done];
        rewrite length_app, length_drop; lia). intros _ s2 [B2 M2]. apply wp_ret.
      rewrite length_app. split; [simpl; lia|]. split.
      + exists (drop (Datatypes.S (length ds)) l). rewrite length_drop. simpl. split; [|lia].
        revert B2. rewrite insert_app_r_alt, Nat.sub_diag by lia.
        destruct (drop (length ds) l) as [|y l'] eqn:Ed.
        { apply (f_equal length) in Ed. rewrite length_drop in Ed. simpl in Ed. lia. }
        replace (drop (Datatypes.S (length ds)) l) with l'; [by rewrite <- app_assoc|].
        rewrite <- Nat.add_1_r, <- drop_drop, Ed. done.
      + etransitivity; [exact M1|]. eapply modifies_weaken; [exact M2|]. intros b <-. lia.
    - apply wp_ret. split; [done|]. split; [|done]. eexists. split; [exact B1|].
      rewrite length_drop. lia. }
  intros i s2 (-> & (rest & B2 & Hrest) & M2).
  assert (Hsl : (length signed < 34)%nat).
  { unfold signed. destruct neg; rewrite ?length_app; simpl; lia. }
  destruct rest as [|y rest]; [simpl in Hrest; lia|]. simpl in Hrest.
  apply wp_bind. wp_use (eapply (wp_array_write s2 str _ (length signed)); [exact B2| |done];
    rewrite length_app; simpl; lia). intros _ s3 [B3 M3].
  rewrite insert_app_r_alt, Nat.sub_diag in B3 by lia. simpl in B3.
  apply wp_bind. eapply wp_mono; [apply (itoa_reverse_ok s3 str signed (0 :: rest) B3); lia|].
  intros _ s4 [B4 M4]. apply wp_ret. rewrite length_app in M4. simpl in M4. split.
  - assert (Hnum : reverse signed = if neg then 45 :: reverse (digits 32 base (- num))
                                  else reverse (digits 32 base num)).
    { unfold signed, ds, n, neg. destruct (Z.ltb_spec num 0).
      - rewrite reverse_snoc. by replace (Z.abs num) with (- num) by lia.
      - by replace (Z.abs num) with num by lia. }
    rewrite <- Hnum. split.
    + rewrite (app_assoc _ [0] rest) in B4. apply bytes_at_app in B4. tauto.
    + rewrite Forall_reverse. unfold signed.
      assert (Forall (fun x => x <> 0) ds).
      { eapply Forall_impl; [by apply (digits_chars base Hb); unfold n; lia|].
        intros c Hc. simpl in Hc. lia. }
      destruct neg; [|done]. apply Forall_app. split; [done|]. by repeat constructor.
  - etransitivity; [exact M2|].
    etransitivity; [eapply modifies_weaken; [exact M3|]; intros b <-; lia|].
    eapply modifies_weaken; [exact M4|]. simpl. intros b Hb4. lia.
Qed.

Lemma numeral_parse base num : itoa_domain base num -> parse base (numeral base num) = num.
Proof.
  intros (Hb & Hn & Hs). unfold numeral. destruct (Z.eqb_spec num 0) as [->|N].
  { unfold parse, value_of. simpl. change (digit_value 48) with 0. lia. }
  assert (Hv : forall n, 0 < n < 2 ^ 31 ->
    value_of base (reverse (digits 32 base n)) = n
    /\ (parse base (reverse (digits 32 base n)) = value_of base (reverse (digits 32 base n)))).
  { intros n Hn'. split; [apply digits_value; [lia|simpl; lia]|].
    pose proof (digits_chars base Hb 32 n ltac:(lia)) as Hc.
    rewrite <- Forall_reverse in Hc. destruct (reverse (digits 32 base n)) as [|c l]; [done|].
    apply Forall_cons in Hc as [Hc _]. unfold parse.
    destruct (Z.eq_dec c 45) as [->|Nc]; [lia|].
    destruct c as [|p|p]; try done. repeat (destruct p as [p|p|]; try done). }
  destruct (Z.ltb_spec num 0).
  - change (- value_of base (reverse (digits 32 base (- num))) = num).
    destruct (Hv (- num)) as [-> _]; lia.
  - destruct (Hv num) as [E ->]; lia.
Qed.

End Specs.
End Stdio.
