(* ===== verification/Descriptors.v ===== *)
(** The processor's tables: the interrupt descriptor table and the table of
    handlers of [kernel/interrupt.c], the descriptors of [user/tss.c].

    A descriptor is the record the C code fills in; [gate_bytes] and
    [segment_bytes] give the eight bytes the processor reads, and the decoders
    read them back the way the processor's manual says.  What is loaded with
    [lidt], [lgdt] and [ltr] is kept as a number. *)

From S2P Require Import Prelude.

Module Descriptors.

(** ** [kernel/global.h] *)

Definition RPL0 : Z := 0.
Definition RPL3 : Z := 3.
Definition TI_GDT : Z := 0.

Definition DESC_G_4K : Z := 1.
Definition DESC_D_32 : Z := 1.
Definition DESC_L : Z := 0.
Definition DESC_P : Z := 1.
Definition DESC_DPL_0 : Z := 0.
Definition DESC_DPL_3 : Z := 3.
Definition DESC_AVL : Z := 0.
Definition DESC_S_CODE : Z := 1.
Definition DESC_S_DATA : Z := DESC_S_CODE.
Definition DESC_S_SYS : Z := 0.
Definition DESC_TYPE_CODE : Z := 8.
Definition DESC_TYPE_DATA : Z := 2.
Definition DESC_TYPE_TSS : Z := 9.
Definition TSS_DESC_D : Z := 0.
Definition IDT_DESC_P : Z := 1.
Definition IDT_DESC_DPL0 : Z := 0.
Definition IDT_DESC_DPL3 : Z := 3.
Definition IDT_DESC_32_TYPE : Z := 0xe.

Definition SELECTOR_K_CODE : Z := Z.shiftl 1 3 + Z.shiftl TI_GDT 2 + RPL0.
Definition SELECTOR_K_DATA : Z := Z.shiftl 2 3 + Z.shiftl TI_GDT 2 + RPL0.
Definition SELECTOR_K_STACK : Z := SELECTOR_K_DATA.
Definition SELECTOR_U_CODE : Z := Z.shiftl 5 3 + Z.shiftl TI_GDT 2 + RPL3.
Definition SELECTOR_U_DATA : Z := Z.shiftl 6 3 + Z.shiftl TI_GDT 2 + RPL3.
Definition SELECTOR_TSS : Z := Z.shiftl 4 3 + Z.shiftl TI_GDT 2 + RPL0.

Definition attr_low (p dpl s type : Z) : Z :=
  Z.shiftl p 7 + Z.shiftl dpl 5 + Z.shiftl s 4 + type.
Definition attr_high (g d l avl : Z) : Z :=
  Z.shiftl g 7 + Z.shiftl d 6 + Z.shiftl l 5 + Z.shiftl avl 4.

Definition GDT_CODE_ATTR_LOW_DPL3 : Z := attr_low DESC_P DESC_DPL_3 DESC_S_CODE DESC_TYPE_CODE.
Definition GDT_DATA_ATTR_LOW_DPL3 : Z := attr_low DESC_P DESC_DPL_3 DESC_S_DATA DESC_TYPE_DATA.
Definition GDT_ATTR_HIGH : Z := attr_high DESC_G_4K DESC_D_32 DESC_L DESC_AVL.
Definition TSS_ATTR_LOW : Z := attr_low DESC_P DESC_DPL_0 DESC_S_SYS DESC_TYPE_TSS.
Definition TSS_ATTR_HIGH : Z := attr_high DESC_G_4K TSS_DESC_D DESC_L DESC_AVL + 0x00.
Definition IDT_DESC_ATTR_DPL0 : Z := Z.shiftl IDT_DESC_P 7 + Z.shiftl IDT_DESC_DPL0 5 + IDT_DESC_32_TYPE.
Definition IDT_DESC_ATTR_DPL3 : Z := Z.shiftl IDT_DESC_P 7 + Z.shiftl IDT_DESC_DPL3 5 + IDT_DESC_32_TYPE.

(** ** Descriptors *)

Record gate_desc := mkGate {
  func_offset_low_word : Z;
  selector : Z;
  dcount : Z;
  attribute : Z;
  func_offset_high_word : Z
}.

Definition idt_desc_make (attr func : Z) : gate_desc :=
  mkGate (u16 (Z.land func 0x0000ffff)) SELECTOR_K_CODE 0 (u8 attr)
    (u16 (Z.shiftr (Z.land func 0xffff0000) 16)).

Record gdt_desc := mkSegment {
  limit_low_word : Z;
  base_low_word : Z;
  base_mid_byte : Z;
  attr_low_byte : Z;
  limit_high_attr_high : Z;
  base_high_byte : Z
}.

Definition gdt_desc_make (desc_addr limit attr_low attr_high : Z) : gdt_desc :=
  let desc_base := u32 desc_addr in
  mkSegment (u16 (Z.land limit 0xffff)) (u16 (Z.land desc_base 0xffff))
    (u8 (Z.shiftr (Z.land desc_base 0x00ff0000) 16)) (u8 attr_low)
    (u8 (Z.shiftr (Z.land limit 0x000f0000) 16 + u8 attr_high))
    (u8 (Z.shiftr desc_base 24)).

(** ** The tables *)

(** The C handlers an interrupt can be routed to. *)
Inductive intr_handler : Set :=
| general_intr_handler_ptr
| intr_timer_handler_ptr
| intr_keyboard_handler_ptr.

#[export] Instance intr_handler_eq_dec : EqDecision intr_handler.
Proof. solve_decision. Defined.

Definition IDT_DESC_CNT : Z := 0x81.
Definition INT_KEYBOARD : Z := 0x21.
Definition INT_TIMER : Z := 0x20.
Definition INT_SYSCALL : Z := 0x80.
Definition SYSCALL_NUM : Z := 32.

(** The system calls of [user/syscall_init.c]. *)
Inductive syscall : Set := sys_pid_get_ptr.

(** [struct tss]: the members the kernel sets; the others are only cleared. *)
Record tss := mkTss { tss_esp0 : Z; tss_ss0 : Z; tss_io_base : Z }.
Definition TSS_SIZE : Z := 108.

(** An entry that was never written is [None] in the maps: a null pointer. *)
Record tables := mkTables {
  idt : gmap Z gate_desc;
  idt_table : gmap Z intr_handler;
  gdt : gmap Z gdt_desc;
  the_tss : tss;
  syscall_table : gmap Z syscall;
  idtr : Z;
  gdtr : Z;
  task_register : Z
}.

Definition set_idt (i : Z) (g : gate_desc) : M tables unit := modify (fun t =>
  mkTables (<[i := g]> (idt t)) (idt_table t) (gdt t) (the_tss t) (syscall_table t) (idtr t)
    (gdtr t) (task_register t)).
Definition set_handler (i : Z) (h : intr_handler) : M tables unit := modify (fun t =>
  mkTables (idt t) (<[i := h]> (idt_table t)) (gdt t) (the_tss t) (syscall_table t) (idtr t)
    (gdtr t) (task_register t)).
Definition set_gdt (i : Z) (d : gdt_desc) : M tables unit := modify (fun t =>
  mkTables (idt t) (idt_table t) (<[i := d]> (gdt t)) (the_tss t) (syscall_table t) (idtr t)
    (gdtr t) (task_register t)).
Definition with_tss (s : tss) (t : tables) : tables :=
  mkTables (idt t) (idt_table t) (gdt t) s (syscall_table t) (idtr t) (gdtr t)
    (task_register t).
Definition set_tss (s : tss) : M tables unit := modify (with_tss s).
Definition set_syscall (i : Z) (c : syscall) : M tables unit := modify (fun t =>
  mkTables (idt t) (idt_table t) (gdt t) (the_tss t) (<[i := c]> (syscall_table t)) (idtr t)
    (gdtr t) (task_register t)).
Definition lidt (v : Z) : M tables unit := modify (fun t =>
  mkTables (idt t) (idt_table t) (gdt t) (the_tss t) (syscall_table t) v (gdtr t)
    (task_register t)).
Definition lgdt (v : Z) : M tables unit := modify (fun t =>
  mkTables (idt t) (idt_table t) (gdt t) (the_tss t) (syscall_table t) (idtr t) v
    (task_register t)).
Definition ltr (v : Z) : M tables unit := modify (fun t =>
  mkTables (idt t) (idt_table t) (gdt t) (the_tss t) (syscall_table t) (idtr t) (gdtr t) v).

(** [vec_no] is a [uint8_t], and [idt_table] has 0x81 entries. *)
Definition intr_handler_register (vec_no : Z) (func : intr_handler) : M tables unit :=
  if u8 vec_no <? IDT_DESC_CNT then set_handler (u8 vec_no) func else fault.

Definition exception_init : M tables unit :=
  for_upto 0 (Z.to_nat IDT_DESC_CNT) (fun i => set_handler i general_intr_handler_ptr).

(** The operand of [lidt]; a [struct gate_desc] has 8 bytes. *)
Definition idt_operand (idt_addr : Z) : Z :=
  let idt_base_addr := Z.land (u64 (Z.shiftl idt_addr 16)) 0xffffffff0000 in
  let idt_limit := 8 * IDT_DESC_CNT - 1 in
  Z.lor idt_base_addr idt_limit.

Definition gdt_base_addr : Z := 0xc0000900.

(** The compiler extends the sign of a pointer that is cast to a wider type; of
    the operand of [lgdt] the processor reads 48 bits. *)
Definition gdt_operand : Z := Z.lor (u64 (Z.shiftl (u64 (i32 gdt_base_addr)) 16)) 55.

(** [user/syscall_init.c] *)
Definition PID_GET : Z := 0.

(** ** What the processor reads *)

Definition le16 (w : Z) : list Z := [w mod 256; w / 256].

Definition gate_bytes (g : gate_desc) : list Z :=
  le16 (func_offset_low_word g) ++ le16 (selector g) ++ [dcount g; attribute g]
  ++ le16 (func_offset_high_word g).

Definition segment_bytes (d : gdt_desc) : list Z :=
  le16 (limit_low_word d) ++ le16 (base_low_word d)
  ++ [base_mid_byte d; attr_low_byte d; limit_high_attr_high d; base_high_byte d].

Definition bit (b n : Z) : bool := b / 2 ^ n mod 2 =? 1.

(** A gate as the processor decodes it. *)
Record gate := mkDecodedGate {
  g_offset : Z; g_selector : Z; g_present : bool; g_dpl : Z; g_type : Z
}.

Definition decode_gate (b : list Z) : option gate :=
  match b with
  | [b0; b1; b2; b3; _; b5; b6; b7] =>
      Some (mkDecodedGate (b0 + 256 * b1 + 65536 * b6 + 16777216 * b7) (b2 + 256 * b3)
              (bit b5 7) (b5 / 32 mod 4) (b5 mod 32))
  | _ => None
  end.

(** A segment as the processor decodes it; the limit in bytes, with the
    granularity bit taken into account. *)
Record segment := mkDecodedSegment {
  s_base : Z; s_limit : Z; s_granular : bool; s_32bit : bool;
  s_present : bool; s_dpl : Z; s_system : bool; s_type : Z
}.

Definition decode_segment (b : list Z) : option segment :=
  match b with
  | [b0; b1; b2; b3; b4; b5; b6; b7] =>
      Some (mkDecodedSegment (b2 + 256 * b3 + 65536 * b4 + 16777216 * b7)
              (b0 + 256 * b1 + 65536 * (b6 mod 16)) (bit b6 7) (bit b6 6)
              (bit b5 7) (b5 / 32 mod 4) (negb (bit b5 4)) (b5 mod 16))
  | _ => None
  end.

Lemma land_ffff z : Z.land z 0xffff = z mod 65536.
Proof. change 0xffff with (2 ^ 16 - 1). by apply land_low_mask. Qed.

Lemma idt_desc_make_decodes attr func : is_u32 func -> is_u8 attr ->
  decode_gate (gate_bytes (idt_desc_make attr func))
  = Some (mkDecodedGate func SELECTOR_K_CODE (bit attr 7) (attr / 32 mod 4) (attr mod 32)).
Proof.
  intros Hf Ha. unfold idt_desc_make, gate_bytes, le16. simpl.
  rewrite (u8_small attr), land_ffff by done.
  change 0xffff0000 with (2 ^ 32 - 2 ^ 16). rewrite land_high_mask, Z.shiftr_div_pow2 by lia.
  do 2 f_equal. unfold u16. zdiv_lia.
Qed.

Lemma gdt_desc_make_decodes base limit lo hi :
  is_u32 base -> 0 <= limit < 2 ^ 20 -> is_u8 lo -> is_u8 hi -> hi mod 16 = 0 ->
  decode_segment (segment_bytes (gdt_desc_make base limit lo hi))
  = Some (mkDecodedSegment base limit (bit hi 7) (bit hi 6)
            (bit lo 7) (lo / 32 mod 4) (negb (bit lo 4)) (lo mod 16)).
Proof.
  intros Hb Hl Hlo Hhi H16. unfold gdt_desc_make, segment_bytes, le16. cbn [app decode_segment
    limit_low_word base_low_word base_mid_byte attr_low_byte limit_high_attr_high base_high_byte].
  rewrite (u8_small lo), (u8_small hi), (u32_small base), !land_ffff by done.
  replace (Z.land base 0x00ff0000) with (Z.land (Z.land base (2 ^ 24 - 1)) (2 ^ 32 - 2 ^ 16))
    by (by rewrite <- Z.land_assoc).
  replace (Z.land limit 0x000f0000) with (Z.land (Z.land limit (2 ^ 20 - 1)) (2 ^ 32 - 2 ^ 16))
    by (by rewrite <- Z.land_assoc).
  rewrite !land_low_mask, !land_high_mask, !Z.shiftr_div_pow2 by (try lia; zdiv_lia).
  unfold bit. do 2 f_equal; unfold u8, u16; try zdiv_lia; f_equal; zdiv_lia.
Qed.

End Descriptors.
