(* ===== verification/LibraryTheorems.v ===== *)
(** The theorems about the library code: strings, bitmaps, lists, the
    interrupt flag.  Each is followed by an instance at concrete data, in a
    flat memory or a small heap of nodes. *)

From S2P Require Import Prelude Bytes CString Bitmap Interrupt LinkedList.

Module LibraryTheorems.
Import CString Bitmap Interrupt LinkedList.

(** ** Strings *)

(** "ab" at 16, "c" at 32; the block at 16 has room for 12 bytes. *)
Definition two_strings : gmap Z Z :=
  of_list 16 [97; 98; 0; 0; 0; 0; 0; 0; 0; 0; 0; 0] ∪ of_list 32 [99; 0].

Lemma two_strings_ab : cstr two_strings 16 [97; 98].
Proof. split; [by apply bytes_check_at; vm_compute|]. by repeat constructor. Qed.
Lemma two_strings_c : cstr two_strings 32 [99].
Proof. split; [by apply bytes_check_at; vm_compute|]. by repeat constructor. Qed.

Section Strings.
Context {S : Type} `{!ByteOps S} `{!ByteMem S}.

(** [strcat] joins the two strings: afterwards [dst] holds the first
    string followed by the second, terminated, [src] still holds the second,
    [strlen] of [dst] is the sum of the lengths, and nothing outside the bytes
    after the first string changed. *)
Theorem strcat_then_strlen (s : S) dst src l1 l2 fuel :
  cstr s dst l1 -> cstr s src l2 ->
  valid_block s dst (Z.of_nat (length l1) + Z.of_nat (length l2) + 1) ->
  dst + Z.of_nat (length l1) + Z.of_nat (length l2) < src
    \/ src + Z.of_nat (length l2) < dst ->
  dst <> 0 -> src <> 0 -> (length l1 + length l2 < fuel)%nat ->
  wp (p ← strcat fuel dst src; strlen fuel p) s (fun r s' =>
    r = Z.of_nat (length l1) + Z.of_nat (length l2)
    /\ cstr s' dst (l1 ++ l2) /\ cstr s' src l2
    /\ modifies (fun b => dst + Z.of_nat (length l1) <= b
         <= dst + Z.of_nat (length l1) + Z.of_nat (length l2)) s s').
Proof.
  intros H1 H2 V Hov N1 N2 Hf. apply wp_bind.
  wp_use (by apply strcat_appends; (done || lia)). intros p s' (-> & Hd & Hm).
  wp_use (apply strlen_length; [exact Hd|done|rewrite length_app; lia]).
  intros r s'' [-> ->]. rewrite length_app. split; [lia|]. split; [done|]. split; [|done].
  split; [|apply H2]. eapply bytes_at_modifies; [exact Hm|apply H2|].
  intros i Hi. rewrite length_app in Hi. simpl in *. lia.
Qed.

(** [strcmp] returns 0 exactly for equal strings, and otherwise -1 or 1 by
    the first place where they differ, the bytes read as signed characters
    and the terminator as 0. *)
Theorem strcmp_orders (s : S) p1 p2 l1 l2 fuel :
  cstr s p1 l1 -> cstr s p2 l2 -> p1 <> 0 -> p2 <> 0 -> (length l1 < fuel)%nat ->
  wp (strcmp fuel p1 p2) s (fun r s' =>
    s' = s /\ compared l1 l2 r /\ (r = 0 <-> l1 = l2)).
Proof.
  intros H1 H2 N1 N2 Hf. wp_use (by apply strcmp_compared). intros r s' [-> Hc].
  split; [done|]. split; [done|]. destruct Hc as [[-> ->]|(k & E & N & ->)]; [done|].
  split; [by destruct (_ <? _)|]. by intros ->.
Qed.

(** [strchr] compares a signed character with an unsigned argument, so it
    finds no byte above 127, even where the string holds one. *)
Theorem strchr_misses_high_bytes (s : S) p l ch fuel :
  cstr s p l -> p <> 0 -> (length l < fuel)%nat -> 128 <= ch < 256 ->
  wp (strchr fuel p ch) s (fun r s' => s' = s /\ r = 0).
Proof.
  intros H N Hf Hch. wp_use (by apply strchr_first). intros r s' [-> ->]. split; [done|].
  destruct (list_find (fun x => i8 x = ch) l) as [[i x]|] eqn:E; [|done].
  apply list_find_Some in E as (_ & E & _). word_lia.
Qed.

(** [memcpy] copies a block, forwards and so correctly also onto an
    overlapping block below the source, writes nothing else, and [memcmp]
    then finds destination and a disjoint source equal. *)
Theorem memcpy_then_memcmp (s : S) dst src l :
  bytes_at s src l -> valid_block s dst (Z.of_nat (length l)) -> src <> 0 -> dst <> 0 ->
  dst <= src \/ src + Z.of_nat (length l) <= dst ->
  wp (memcpy dst src (Z.of_nat (length l))) s (fun _ s' =>
    bytes_at s' dst l /\ modifies (fun b => dst <= b < dst + Z.of_nat (length l)) s s'
    /\ (dst + Z.of_nat (length l) <= src \/ src + Z.of_nat (length l) <= dst ->
        wp (memcmp dst src (Z.of_nat (length l))) s' (fun r s'' => s'' = s' /\ r = 0))).
Proof.
  intros B V Ns Nd Hov. wp_use (by apply memcpy_block). intros _ s' [B' Hm].
  split; [done|]. split; [done|]. intros Hdis.
  wp_use (apply memcmp_compared; [exact B'| |reflexivity|done|done];
    eapply bytes_at_modifies; [exact Hm|exact B|intros i Hi; simpl; lia]).
  intros r s'' [-> Hc]. split; [done|]. by destruct Hc as [[-> _]|(k & _ & N & _)].
Qed.

End Strings.

Lemma strcat_then_strlen_witness :
  wp (p ← strcat 9 16 32; strlen 9 p) two_strings (fun r s' => r = 3 /\ cstr s' 16 [97; 98; 99]).
Proof.
  eapply wp_mono.
  - apply (strcat_then_strlen two_strings 16 32 [97; 98] [99] 9);
      [apply two_strings_ab|apply two_strings_c| |simpl; lia..].
    apply (block_check_valid _ 16 4). by vm_compute.
  - simpl. intros r s' (-> & H & _). by split.
Defined.

Lemma strcmp_orders_witness :
  wp (strcmp 9 16 32) two_strings (fun r s' => s' = two_strings /\ r <> 0).
Proof.
  eapply wp_mono.
  - apply (strcmp_orders two_strings 16 32 [97; 98] [99] 9);
      [apply two_strings_ab|apply two_strings_c|lia|lia|simpl; lia].
  - simpl. intros r s' (-> & _ & H). split; [done|]. intros E%H. done.
Defined.

Lemma strchr_misses_high_bytes_witness :
  wp (strchr 9 16 200) (of_list 16 [65; 200; 0]) (fun r s' => r = 0).
Proof.
  eapply wp_mono.
  - apply (strchr_misses_high_bytes (of_list 16 [65; 200; 0]) 16 [65; 200] 200 9);
      [|lia|simpl; lia|lia].
    split; [by apply bytes_check_at; vm_compute|by repeat constructor].
  - by intros r s' [_ ->].
Defined.

Lemma memcpy_then_memcmp_witness :
  wp (memcpy 16 18 4) (of_list 16 [1; 2; 3; 4; 5; 6]) (fun _ s' => bytes_at s' 16 [3; 4; 5; 6]).
Proof.
  eapply wp_mono.
  - apply (memcpy_then_memcmp (of_list 16 [1; 2; 3; 4; 5; 6]) 16 18 [3; 4; 5; 6]);
      [by apply bytes_check_at; vm_compute| |lia|lia|simpl; lia].
    apply (block_check_valid _ 16 4). by vm_compute.
  - by intros _ s' [H _].
Defined.

(** ** Bitmaps *)

Section Bitmaps.
Context {S : Type} `{!ByteOps S} `{!ByteMem S}.

(** C31: [bitmap_scan] returns the start of the first run of [cnt] bits equal to
    the wanted value, and -1 exactly when there is none; it reads no byte
    outside the bitmap and changes nothing. *)
Theorem bitmap_scan_finds_first (s : S) b bits v cnt :
  bitmap_rep s b bits -> bit_num b < 2 ^ 31 -> 0 < cnt < 2 ^ 32 ->
  wp (bitmap_scan b (of_bool v) cnt) s (fun r s' => s' = s
    /\ first_run bits v (Z.to_nat cnt) r
    /\ (r = -1 <-> forall i, ~ run bits v (Z.to_nat cnt) i)
    /\ (r <> -1 -> 0 <= r /\ r + cnt <= bit_num b)).
Proof.
  intros R Hn Hc. wp_use (by apply bitmap_scan_first). intros r s' [-> H].
  split; [done|]. split; [done|]. destruct H as [[-> H]|(i & -> & Hi & _)].
  - split; [done|]. done.
  - split; [split; [lia|intros H; by destruct (H i)]|]. intros _.
    specialize (Hi (Z.to_nat cnt - 1)%nat ltac:(lia)). apply lookup_lt_Some in Hi.
    destruct R as (Hl & _). lia.
Qed.

(** the bit a [bitmap_set] or [bitmap_clear] writes is the one [bitmap_get]
    reads back; every other bit reads as before, and no byte outside the one
    that holds the bit changes. *)
Theorem bitmap_write_then_get (s : S) b bits idx j (v : bool) :
  bitmap_rep s b bits -> 0 <= idx < bit_num b -> 0 <= j < bit_num b ->
  wp ((if v then bitmap_set b idx else bitmap_clear b idx);; bitmap_get b j) s (fun r s' =>
    bitmap_rep s' b (<[Z.to_nat idx := v]> bits)
    /\ modifies (eq (base_addr b + idx / 8)) s s'
    /\ r = if bool_decide (j = idx) then of_bool v
           else of_bool (default false (bits !! Z.to_nat j))).
Proof.
  intros R Hi Hj. apply wp_bind.
  eapply (wp_mono _ _ (fun _ s' => bitmap_rep s' b (<[Z.to_nat idx := v]> bits)
    /\ modifies (eq (base_addr b + idx / 8)) s s')).
  { destruct v; [by apply bitmap_set_bit|by apply bitmap_clear_bit]. }
  intros _ s1 [R1 M1]. wp_use (by apply bitmap_get_bit). intros r s2 [-> (w & Hw & ->)].
  split; [done|]. split; [done|]. destruct (bool_decide_reflect (j = idx)) as [->|N].
  - rewrite list_lookup_insert_eq in Hw; [by injection Hw as ->|].
    destruct R as (Hl & _). lia.
  - rewrite list_lookup_insert_ne in Hw by lia. by rewrite Hw.
Qed.
End Bitmaps.

(** Twelve bits: 1 0 1 1 0 0 0 0 1 1 1 1. *)
Definition twelve_bits : list bool :=
  [true; false; true; true; false; false; false; false; true; true; true; true].

Lemma twelve_bits_rep :
  bitmap_rep (of_list 16 [13; 15]) (mkBitmap 16 12 2) twelve_bits.
Proof.
  split; [done|]. split; [done|]. split; [done|]. split.
  - apply (block_check_valid _ 16 2). by vm_compute.
  - intros i v Hi. assert (Hlt : (i < 12)%nat) by by apply lookup_lt_Some in Hi.
    do 12 (destruct i as [|i]; [injection Hi as <-; eexists; split; [reflexivity|reflexivity]|]).
    lia.
Qed.

Lemma bitmap_scan_finds_first_witness :
  wp (bitmap_scan (mkBitmap 16 12 2) (of_bool false) 3) (of_list 16 [13; 15])
    (fun r s' => first_run twelve_bits false 3 r) /\ first_run twelve_bits false 3 4.
Proof.
  split.
  - eapply wp_mono.
    + apply (bitmap_scan_finds_first _ _ _ false 3 twelve_bits_rep); [simpl; lia|lia].
    + by intros r s' (_ & H & _).
  - right. exists 4%nat. split; [done|]. split.
    + intros j Hj. do 3 (destruct j as [|j]; [done|]). lia.
    + intros j Hj H. assert (E : twelve_bits !! (j + 0)%nat = Some false) by (apply H; lia).
      assert (E2 : twelve_bits !! (j + 2)%nat = Some false) by (apply H; lia).
      do 4 (destruct j as [|j]; [done|]). lia.
Defined.

Lemma bitmap_write_then_get_witness :
  wp ((if false then bitmap_set (mkBitmap 16 12 2) 8 else bitmap_clear (mkBitmap 16 12 2) 8);;
      bitmap_get (mkBitmap 16 12 2) 8) (of_list 16 [13; 15]) (fun r s' => r = 0).
Proof.
  eapply wp_mono.
  - apply (bitmap_write_then_get _ _ _ 8 8 false twelve_bits_rep); simpl; lia.
  - by intros r s' (_ & _ & ->).
Defined.

(** ** Lists *)

(** [list_push_back] on one of a family of disjoint lists puts the free
    node at the end of that list, [list_remove] takes exactly that node out
    again; the other lists, their order and the interrupt flag are as before,
    and afterwards the node belongs to no list. *)
Theorem list_push_back_then_remove s L l xs e :
  lists_rep (l_links s) L -> L !! l = Some xs -> ~ owned L e -> is_Some (l_links s !! e) ->
  lists_become (list_push_back l e s) s (<[l := xs ++ [e]]> L)
  /\ exists h, (list_push_back l e;; list_remove e) s = Ok tt (mkL (l_eflags s) h)
       /\ lists_rep h L /\ ~ owned L e /\ dom h = dom (l_links s).
Proof.
  intros HL Hl He Hn. pose proof (list_push_back_spec s L l xs e HL Hl He Hn) as Hp.
  split; [done|]. destruct Hp as (h & E & HL1 & Hd1).
  destruct (list_remove_at (mkL (l_eflags s) h) _ l xs e [] HL1) as (h2 & E2 & HL2 & Hd2).
  { apply lookup_insert_eq. }
  exists h2. erewrite bind_ok by exact E. split; [exact E2|].
  rewrite app_nil_r, insert_insert_eq, insert_id in HL2 by done.
  split; [done|]. split; [done|]. by rewrite Hd2.
Qed.

(** a list is a queue: after pushing [e] at its back, popping its front
    gives the element that was first, or [e] when the list was empty, and
    leaves the others in order. *)
Theorem list_is_a_queue s L l xs e :
  lists_rep (l_links s) L -> L !! l = Some xs -> ~ owned L e -> is_Some (l_links s !! e) ->
  exists h, (list_push_back l e;; list_pop_front l) s
      = Ok (hd e xs) (mkL (l_eflags s) h)
    /\ lists_rep h (<[l := tl (xs ++ [e])]> L).
Proof.
  intros HL Hl He Hn.
  destruct (list_push_back_spec s L l xs e HL Hl He Hn) as (h & E & HL1 & _).
  destruct (list_pop_front_spec (mkL (l_eflags s) h) _ l (hd e xs) (tl (xs ++ [e])) HL1)
    as (h2 & E2 & HL2 & _).
  { rewrite lookup_insert_eq. by destruct xs. }
  exists h2. erewrite bind_ok by exact E. split; [exact E2|]. by rewrite insert_insert_eq in HL2.
Qed.

(** [list_pop_front] has no test for emptiness: on an empty list it unlinks
    the tail sentinel and writes through the null pointer of its [next]. *)
Theorem list_pop_front_of_empty s L l :
  lists_rep (l_links s) L -> L !! l = Some [] -> l_links s !! NULL = None ->
  list_empty l s = Ok true s /\ list_pop_front l s = Fault.
Proof.
  intros HL Hl HN. split; [|by eapply list_pop_front_empty].
  by rewrite (list_empty_spec _ _ _ _ HL Hl).
Qed.

(** A list at 100 that holds the node 200, and a free node 300. *)
Definition one_list : gmap Z list_elem :=
  list_to_map [(100, mkElem 0 200); (200, mkElem 100 108); (108, mkElem 200 0);
               (300, mkElem 0 0)].

Lemma one_list_rep : lists_rep one_list {[100 := [200]]}.
Proof.
  split.
  - intros l xs [<- <-]%lookup_singleton_Some.
    split; [done|]. split; [done|]. split; [by repeat split|].
    by apply (bool_decide_unpack _).
  - by intros l1 l2 xs1 xs2 a [<- <-]%lookup_singleton_Some [<- <-]%lookup_singleton_Some.
Qed.

Lemma one_list_free : ~ owned {[100 := [200]]} 300.
Proof.
  intros (l & xs & [<- <-]%lookup_singleton_Some & H). revert H.
  by apply (bool_decide_unpack _).
Qed.

Lemma list_push_back_then_remove_witness :
  lists_become (list_push_back 100 300 (mkL 0x202 one_list)) (mkL 0x202 one_list)
    (<[100 := [200; 300]]> {[100 := [200]]}).
Proof.
  apply (list_push_back_then_remove (mkL 0x202 one_list) {[100 := [200]]} 100 [200] 300);
    [apply one_list_rep|reflexivity|apply one_list_free|by eexists].
Defined.

Lemma list_is_a_queue_witness :
  exists h, (list_push_back 100 300;; list_pop_front 100) (mkL 0x202 one_list)
    = Ok 200 (mkL 0x202 h) /\ lists_rep h (<[100 := [300]]> {[100 := [200]]}).
Proof.
  apply (list_is_a_queue (mkL 0x202 one_list) {[100 := [200]]} 100 [200] 300);
    [apply one_list_rep|reflexivity|apply one_list_free|by eexists].
Defined.

Definition empty_list : gmap Z list_elem :=
  list_to_map [(100, mkElem 0 108); (108, mkElem 100 0)].

Lemma list_pop_front_of_empty_witness :
  list_empty 100 (mkL 0x202 empty_list) = Ok true (mkL 0x202 empty_list)
  /\ list_pop_front 100 (mkL 0x202 empty_list) = Fault.
Proof.
  apply (list_pop_front_of_empty (mkL 0x202 empty_list) {[100 := []]} 100); [|done|done].
  split.
  - intros l xs [<- <-]%lookup_singleton_Some.
    split; [done|]. split; [done|]. split; [by repeat split|].
    by apply (bool_decide_unpack _).
  - by intros l1 l2 xs1 xs2 a [<- <-]%lookup_singleton_Some [<- <-]%lookup_singleton_Some.
Defined.

(** ** The interrupt flag *)

(** critical sections nest: [intr_disable] returns what the flag was and
    clears it, and giving that value to [intr_set_status] restores EFLAGS
    exactly, whatever a balanced section in between did and whether or not
    interrupts were on. *)
Theorem critical_sections_nest (section : M Z unit) eflags :
  (forall e, if_flag e = false -> section e = Ok tt e) ->
  (st ← intr_disable; section;; intr_set_status st) eflags = Ok INTR_OFF eflags
  /\ (st ← intr_disable; f ← gets if_flag; intr_set_status st;; mret f) eflags = Ok false eflags.
Proof.
  intros Hs. split.
  - erewrite bind_ok by apply intr_disable_ok.
    erewrite bind_ok by apply Hs, with_if_flag.
    rewrite intr_set_status_ok, with_if_flag, with_if_with_if, with_if_same. done.
  - erewrite bind_ok by apply intr_disable_ok. erewrite bind_ok by done.
    erewrite bind_ok by apply intr_set_status_ok.
    by rewrite with_if_flag, with_if_with_if, with_if_same.
Qed.

Lemma critical_sections_nest_witness :
  (st ← intr_disable; (st' ← intr_disable; intr_set_status st';; mret tt);; intr_set_status st)
    0x202 = Ok INTR_OFF 0x202.
Proof.
  apply (critical_sections_nest (st' ← intr_disable; intr_set_status st';; mret tt) 0x202).
  intros e He. erewrite bind_ok by apply intr_disable_ok.
  erewrite bind_ok by apply intr_set_status_ok. by rewrite with_if_with_if, with_if_same.
Defined.

End LibraryTheorems.
