(* ===== verification/OutputTheorems.v ===== *)
(** The theorems about output: the screen, numbers as text, and the
    descriptors the processor reads. *)

From S2P Require Import Prelude Bytes CString Ports Print Stdio Descriptors.

Module OutputTheorems.
Import Ports Print Descriptors.

(** ** A blank screen in a flat memory *)

Fixpoint cells_check (m : gmap Z Z) (a : Z) (cells : list cell) : bool :=
  match cells with
  | [] => true
  | (c, b) :: cells' =>
      bool_decide (m !! a = Some c /\ m !! (a + 1) = Some b) && cells_check m (a + 2) cells'
  end.

Lemma cells_check_loads m a cells : cells_check m a cells = true ->
  forall i c b, cells !! i = Some (c, b) ->
    m !! (a + 2 * Z.of_nat i) = Some c /\ m !! (a + 2 * Z.of_nat i + 1) = Some b.
Proof.
  revert a. induction cells as [|[c b] cells IH]; intros a; simpl; [done|].
  intros [[H1 H2]%bool_decide_eq_true H]%andb_true_iff [|i] c' b' Hi; simpl in Hi.
  - injection Hi as <- <-. by rewrite Z.add_0_r.
  - destruct (IH _ H _ _ _ Hi) as [E1 E2].
    by replace (a + 2 * Z.of_nat (S i)) with (a + 2 + 2 * Z.of_nat i) by lia.
Qed.

Definition blank_cells : list cell := replicate 2000 blank.

(** The screen, a byte on either side of it, and the string "ok" at 16. *)
Definition screen_memory : gmap Z Z :=
  of_list (video_base_addr - 2) (0 :: 0 :: mjoin (replicate 2000 [32; 7])) ∪ of_list 16 [111; 107; 0].

Definition cursor_io (pos : Z) : io :=
  mkIo 0 (<[CUR_POS_HIGH_INDEX := pos / 256]> {[CUR_POS_LOW_INDEX := pos mod 256]}) 0 [].

Definition blank_display (pos : Z) : display (gmap Z Z) := mkDisplay screen_memory (cursor_io pos).

Lemma blank_cells_rep : screen_cells screen_memory blank_cells.
Proof.
  split; [done|]. split.
  - apply (block_check_valid _ video_base_addr 4000). vm_compute. reflexivity.
  - apply cells_check_loads. vm_compute. reflexivity.
Qed.

Lemma blank_display_rep pos : is_u16 pos -> screen_rep (blank_display pos) blank_cells pos.
Proof.
  intros H. split; [apply blank_cells_rep|]. split; [done|]. simpl.
  by rewrite lookup_insert_eq, lookup_insert_ne, lookup_singleton_eq.
Qed.

Section Screen.
Context {Mem : Type} `{!ByteOps Mem} `{!ByteMem Mem}.

(** C38: a character does to the screen what it means to: it is put at the
    cursor, which advances; a line end moves to the next line; a backspace
    blanks the cell before; past the last cell the screen scrolls up one line
    with a blank last line.  The cursor stays on the screen, and nothing but
    the screen's memory and the cursor's registers changes.  Backspace is
    excluded at position 0. *)
Theorem put_char_shows (d : display Mem) cells cur c :
  screen_rep d cells cur -> 0 <= cur < SCREEN_MAX -> is_u8 c -> (c = 8 -> 0 < cur) ->
  wp (put_char c) d (fun _ d' =>
    screen_rep d' (putc c (cells, cur)).1 (putc c (cells, cur)).2
    /\ 0 <= (putc c (cells, cur)).2 < SCREEN_MAX /\ shows d d').
Proof.
  intros Hs Hcur Hu H8. wp_use (by apply put_char_ok). intros _ d' [Hs' S].
  split; [done|]. split; [|done]. apply putc_range; [done|done|apply Hs].
Qed.

(** [put_str] shows the string its argument points to, character by
    character, stopping at the terminator, for every string of printable bytes
    outside the screen's own memory. *)
Theorem put_str_shows (d : display Mem) cells cur p l fuel :
  screen_rep d cells cur -> 0 <= cur < SCREEN_MAX -> printable l ->
  CString.cstr (d_mem d) p l -> (forall i, 0 <= i <= Z.of_nat (length l) -> ~ video_byte (p + i)) ->
  (length l < fuel)%nat ->
  wp (put_str fuel p) d (fun _ d' =>
    screen_rep d' (puts l (cells, cur)).1 (puts l (cells, cur)).2 /\ shows d d').
Proof. apply put_str_ok. Qed.

(** C39: [put_int] shows the number in hexadecimal: the digits it computes into
    its local array never leave the array, read back as the number modulo
    2^32, have no leading zero, and the result on the screen is that of
    showing them one by one. *)
Theorem put_int_shows_hex (d : display Mem) cells cur num :
  screen_rep d cells cur -> 0 <= cur < SCREEN_MAX ->
  exists l, hex_value l = u32 num /\ (length l <= 8)%nat /\ (hd 0 l = 48 -> l = [48])
    /\ wp (put_int num) d (fun _ d' =>
         screen_rep d' (puts l (cells, cur)).1 (puts l (cells, cur)).2 /\ shows d d').
Proof.
  intros Hs Hcur. pose proof (u32_range num) as Hn. exists (hex (u32 num)).
  split; [by apply hex_value_hex|]. split; [by apply hex_length|].
  split; [by apply hex_canonical|].
  unfold wp. rewrite put_int_text.
  eapply wp_mono; [apply (put_text_ok d cells cur); [done|done|by apply hex_printable; lia]|].
  by intros _ d' (? & ? & _).
Qed.

(** a backspace with the cursor at the first cell writes the two bytes
    before the screen's memory and moves the cursor to 65535, off the
    screen. *)
Theorem backspace_at_origin (d : display Mem) :
  cursor_at (d_io d) 0 -> valid (d_mem d) (video_base_addr - 2) ->
  valid (d_mem d) (video_base_addr - 1) ->
  wp (put_char 8) d (fun _ d' =>
    cursor_at (d_io d') 65535
    /\ load8 (d_mem d') (video_base_addr - 2) = Some 32
    /\ load8 (d_mem d') (video_base_addr - 1) = Some BLK_BACK_WHT_WORD).
Proof.
  intros Hc V1 V2. destruct (get_cursor_ok _ _ Hc) as (i1 & E1 & C1 & K1).
  unfold put_char. apply wp_bind, wp_zoom. eapply wp_ok; [exact E1|]. simpl.
  apply wp_bind, wp_bind, wp_zoom. simpl. unfold cell_write.
  change (video_base_addr +! u32 ((0 - 1) * 2)) with (video_base_addr - 2).
  change (video_base_addr +! u32 (u32 ((0 - 1) * 2) + 1)) with (video_base_addr - 1).
  apply wp_bind. wp_use (by apply wp_wr8). intros _ m1 [M1 L1].
  wp_use (by apply wp_wr8; eapply modifies_valid). intros _ m2 [M2 L2].
  apply wp_ret, wp_zoom. simpl.
  destruct (set_cursor_ok i1 65535) as (i2 & E2 & C2 & K2); [lia|].
  change (u16 (0 - 1)) with 65535. eapply wp_ok; [exact E2|]. simpl.
  split; [done|]. split; [|done].
  rewrite (modifies_load _ _ _ _ M2); [done| |lia]. by eapply modifies_valid.
Qed.

(** [itoa] writes the numeral of a number, with a minus sign in base 10,
    terminated, within 34 bytes; reading the text gives the number back.  The
    bases are 2 to 36; negative numbers other than in base 10, and INT_MIN, are
    excluded. *)
Theorem itoa_then_parse (s : Mem) str base num l :
  Stdio.itoa_domain base num -> bytes_at s str l -> length l = 34%nat ->
  wp (Stdio.itoa num str base) s (fun _ s' =>
    exists text, CString.cstr s' str text /\ Stdio.parse base text = num
      /\ modifies (fun b => str <= b < str + 34) s s').
Proof.
  intros Hd B Hl. wp_use (by eapply Stdio.itoa_ok). intros _ s' [C Hm].
  exists (Stdio.numeral base num). split; [done|]. split; [|done].
  by apply Stdio.numeral_parse.
Qed.
End Screen.

Lemma put_char_shows_witness :
  wp (put_char 10) (blank_display 1999) (fun _ d' => screen_rep d' (scroll blank_cells) 1920).
Proof.
  eapply wp_mono.
  - apply (put_char_shows (blank_display 1999) blank_cells 1999 10);
      [by apply blank_display_rep|unfold SCREEN_MAX; lia|lia|lia].
  - by intros _ d' [H _].
Defined.

Lemma put_str_shows_witness :
  wp (put_str 3 16) (blank_display 0) (fun _ d' =>
    screen_rep d' (<[1%nat := (107, 7)]> (<[0%nat := (111, 7)]> blank_cells)) 2).
Proof.
  eapply wp_mono.
  - apply (put_str_shows (blank_display 0) blank_cells 0 16 [111; 107] 3);
      [by apply blank_display_rep|unfold SCREEN_MAX; lia| | | |simpl; lia].
    + repeat constructor; lia.
    + split; [by apply bytes_check_at; vm_compute|by repeat constructor].
    + unfold video_byte, video_base_addr. simpl. lia.
  - by intros _ d' [H _].
Defined.

Lemma put_int_shows_hex_witness :
  exists l, hex_value l = 0xbeef /\ wp (put_int 0xbeef) (blank_display 0) (fun _ d' =>
    screen_rep d' (puts l (blank_cells, 0)).1 (puts l (blank_cells, 0)).2).
Proof.
  destruct (put_int_shows_hex (blank_display 0) blank_cells 0 0xbeef) as (l & Hv & _ & _ & H);
    [by apply blank_display_rep|unfold SCREEN_MAX; lia|].
  exists l. split; [exact Hv|]. eapply wp_mono; [exact H|]. by intros _ d' [Hs _].
Defined.

Lemma backspace_at_origin_witness :
  wp (put_char 8) (blank_display 0) (fun _ d' => cursor_at (d_io d') 65535).
Proof.
  eapply wp_mono.
  - apply (backspace_at_origin (blank_display 0));
      [by apply (blank_display_rep 0)|split; [done|by exists 0]|split; [done|by exists 0]].
  - by intros _ d' [H _].
Defined.

Lemma itoa_then_parse_witness :
  wp (Stdio.itoa (-120) 16 10) (of_list 16 (replicate 34 0)) (fun _ s' =>
    exists text, CString.cstr s' 16 text /\ Stdio.parse 10 text = -120).
Proof.
  eapply wp_mono.
  - apply (itoa_then_parse (of_list 16 (replicate 34 0)) 16 10 (-120) (replicate 34 0));
      [split_and!; [lia..|by right]|by apply bytes_check_at; vm_compute|done].
  - intros _ s' (text & H & E & _). by exists text.
Defined.

(** ** Descriptors *)

(** the gate [idt_desc_make] fills in is, in the eight bytes the processor
    reads, a gate to that address through the kernel's code segment, with the
    given attributes; the attributes of [kernel/global.h] are a present 32-bit
    interrupt gate for privilege 0 and 3. *)
Theorem idt_desc_make_is_gate attr func :
  is_u32 func -> attr = IDT_DESC_ATTR_DPL0 \/ attr = IDT_DESC_ATTR_DPL3 ->
  decode_gate (gate_bytes (idt_desc_make attr func))
  = Some (mkDecodedGate func SELECTOR_K_CODE true
            (if attr =? IDT_DESC_ATTR_DPL3 then 3 else 0) 0xe).
Proof. intros Hf [->| ->]; by rewrite idt_desc_make_decodes. Qed.

(** a descriptor that [gdt_desc_make] fills in is, in the eight bytes the
    processor reads, a segment with that base and limit and those
    attributes. *)
Theorem gdt_desc_make_is_segment base limit lo hi :
  is_u32 base -> 0 <= limit < 2 ^ 20 -> is_u8 lo -> is_u8 hi -> hi mod 16 = 0 ->
  decode_segment (segment_bytes (gdt_desc_make base limit lo hi))
  = Some (mkDecodedSegment base limit (bit hi 7) (bit hi 6)
            (bit lo 7) (lo / 32 mod 4) (negb (bit lo 4)) (lo mod 16)).
Proof. apply gdt_desc_make_decodes. Qed.

Lemma idt_desc_make_is_gate_witness :
  decode_gate (gate_bytes (idt_desc_make IDT_DESC_ATTR_DPL3 0xc0001530))
  = Some (mkDecodedGate 0xc0001530 8 true 3 0xe).
Proof. apply (idt_desc_make_is_gate IDT_DESC_ATTR_DPL3 0xc0001530); [lia|by right]. Defined.

Lemma gdt_desc_make_is_segment_witness :
  decode_segment (segment_bytes (gdt_desc_make 0 0xfffff GDT_CODE_ATTR_LOW_DPL3 GDT_ATTR_HIGH))
  = Some (mkDecodedSegment 0 0xfffff true true true 3 false 8).
Proof.
  apply (gdt_desc_make_is_segment 0 0xfffff GDT_CODE_ATTR_LOW_DPL3 GDT_ATTR_HIGH);
    by vm_compute.
Defined.

End OutputTheorems.
