(* ===== verification/Kernel.v ===== *)
(** The kernel's state: the global variables and the objects the C code shares.

    Memory is typed by object, as the C code uses it: raw bytes (bitmaps,
    strings, the screen, page tables) are in the paged memory [k_vm]; list
    nodes, thread control blocks, semaphores and mutexes are finite maps from
    their addresses.  The address of a member is the address of its object
    plus the offset the i386 ABI gives it, so [&thread->ready_tag] and
    [ELEM2ENTRY] are the address arithmetic of the source.  The addresses of
    the global variables are those of [build/kernel.map]. *)

From S2P Require Import Prelude Bytes Bitmap Interrupt LinkedList Paging Ports Print Descriptors.

Module Kernel.
Import Bitmap LinkedList.

(** ** [thread/thread.h] *)

Definition MAX_THREAD_NUM : Z := 128.
Definition PRIO_NUM : Z := 32.
Definition PG_SIZE : Z := 4096.

Inductive task_status : Set :=
| TASK_RUNNING | TASK_READY | TASK_BLOCKED | TASK_WAITING | TASK_HANGING | TASK_DIED.

#[export] Instance task_status_eq_dec : EqDecision task_status.
Proof. solve_decision. Defined.

(** [struct pool] of [kernel/memory.h]; its mutex is in [k_sems] and
    [k_holders], at its address. *)
Record pool := mkPool { btmp : bitmap; addr_base : Z; pool_size : Z }.

(** [tcb]; its three list nodes are in [k_links], at their addresses. *)
Record tcb := mkTcb {
  stack_top : Z;
  pid : Z;
  status : task_status;
  priority : Z;
  name : list Z;
  ticks : Z;
  elapsed_ticks : Z;
  pg_dir : Z;
  user_vaddr_pool : pool;
  stack_magic : Z
}.

(** Offsets of the members of [tcb] in the i386 ABI. *)
Definition OFF_name : Z := 13.
Definition OFF_ready_tag : Z := 40.
Definition OFF_pend_tag : Z := 48.
Definition OFF_all_list_tag : Z := 56.
Definition NAME_LEN : nat := 16.
Definition TCB_SIZE : Z := 116.

Definition ready_tag (thread : Z) : Z := thread + OFF_ready_tag.
Definition pend_tag (thread : Z) : Z := thread + OFF_pend_tag.
Definition all_list_tag (thread : Z) : Z := thread + OFF_all_list_tag.

(** [struct scheduler]; its lists are in [k_links], its mutex in [k_sems] and
    [k_holders]. *)
Record sched := mkSched {
  running_thread : Z;
  need_schedule : bool;
  idle_thread : Z;
  thread_table : list Z;
  rq_mask : bitmap
}.

Definition scheduler : Z := 0xc0007a40.
Definition THIS_RQ (prio : Z) : Z := u32 (scheduler + 536 + 16 * prio).
Definition all_list : Z := scheduler + 1048.
Definition pid_mtx : Z := scheduler + 1064.

(** The address wraps around for numbers that are no priority, which are 8 bits
    wide. *)
Lemma THIS_RQ_byte p : 0 <= p < 256 -> THIS_RQ p = scheduler + 536 + 16 * p.
Proof. intros Hp. apply u32_small. unfold scheduler. lia. Qed.

(** ** [thread/sync.h]: offsets of [struct mutex] and [struct semaphore] *)

Definition mutex_sem (mtx : Z) : Z := mtx + 4.
Definition sem_waiters (sem : Z) : Z := sem + 4.

(** ** The other global variables *)

Definition kernel_phy_pool : Z := 0xc0007e80.
Definition user_phy_pool : Z := 0xc0007ec0.
Definition kernel_vir_pool : Z := 0xc0007f00.
Definition kbd_buf : Z := 0xc0007f40.
Definition console_mutex : Z := 0xc000798c.
Definition tss_addr : Z := 0xc00079c0.
(** The mutex in a [struct pool]. *)
Definition pool_mtx (p : Z) : Z := p + 20.

(** ** The state *)

(** [struct ioqueue] of [device/ioqueue.h]; its mutex is in [k_sems] and
    [k_holders], at its address. *)
Record ioqueue := mkIoq { producer : Z; consumer : Z; buf : list Z; head : Z; tail : Z }.

(** The static variables of [device/keyboard.c]. *)
Record kbd := mkKbd {
  ctrl_status : bool; shift_status : bool; alt_status : bool; caps_lock_status : bool;
  ext_scan_code : bool
}.

Record kernel := mkKernel {
  k_eflags : Z;                     (* EFLAGS *)
  k_vm : Paging.vm;                 (* memory and CR3 *)
  k_io : Ports.io;                  (* the ports *)
  k_tables : Descriptors.tables;    (* IDT, GDT, TSS, handler and system-call tables *)
  k_links : gmap Z list_elem;       (* list nodes *)
  k_tcbs : gmap Z tcb;              (* thread control blocks *)
  k_sched : sched;                  (* scheduler *)
  k_sems : gmap Z Z;                (* semaphore address -> val *)
  k_holders : gmap Z Z;             (* mutex address -> holder *)
  k_pools : gmap Z pool;            (* the three global pools *)
  k_ioqs : gmap Z ioqueue;          (* the queues of device/ioqueue.c *)
  k_kbd : kbd;                      (* the static variables of device/keyboard.c *)
  k_clock : Z                      (* ticks of device/timer.c *)
}.

Definition with_eflags (x : Z) (k : kernel) : kernel :=
  mkKernel x (k_vm k) (k_io k) (k_tables k) (k_links k) (k_tcbs k)
    (k_sched k) (k_sems k) (k_holders k) (k_pools k) (k_ioqs k) (k_kbd k) (k_clock k).
Definition with_vm (x : Paging.vm) (k : kernel) : kernel :=
  mkKernel (k_eflags k) x (k_io k) (k_tables k) (k_links k) (k_tcbs k)
    (k_sched k) (k_sems k) (k_holders k) (k_pools k) (k_ioqs k) (k_kbd k) (k_clock k).
Definition with_io (x : Ports.io) (k : kernel) : kernel :=
  mkKernel (k_eflags k) (k_vm k) x (k_tables k) (k_links k) (k_tcbs k)
    (k_sched k) (k_sems k) (k_holders k) (k_pools k) (k_ioqs k) (k_kbd k) (k_clock k).
Definition with_tables (x : Descriptors.tables) (k : kernel) : kernel :=
  mkKernel (k_eflags k) (k_vm k) (k_io k) x (k_links k) (k_tcbs k)
    (k_sched k) (k_sems k) (k_holders k) (k_pools k) (k_ioqs k) (k_kbd k) (k_clock k).
Definition with_links (x : gmap Z list_elem) (k : kernel) : kernel :=
  mkKernel (k_eflags k) (k_vm k) (k_io k) (k_tables k) x (k_tcbs k)
    (k_sched k) (k_sems k) (k_holders k) (k_pools k) (k_ioqs k) (k_kbd k) (k_clock k).
Definition with_tcbs (x : gmap Z tcb) (k : kernel) : kernel :=
  mkKernel (k_eflags k) (k_vm k) (k_io k) (k_tables k) (k_links k) x
    (k_sched k) (k_sems k) (k_holders k) (k_pools k) (k_ioqs k) (k_kbd k) (k_clock k).
Definition with_sched (x : sched) (k : kernel) : kernel :=
  mkKernel (k_eflags k) (k_vm k) (k_io k) (k_tables k) (k_links k) (k_tcbs k)
    x (k_sems k) (k_holders k) (k_pools k) (k_ioqs k) (k_kbd k) (k_clock k).
Definition with_sems (x : gmap Z Z) (k : kernel) : kernel :=
  mkKernel (k_eflags k) (k_vm k) (k_io k) (k_tables k) (k_links k) (k_tcbs k)
    (k_sched k) x (k_holders k) (k_pools k) (k_ioqs k) (k_kbd k) (k_clock k).
Definition with_holders (x : gmap Z Z) (k : kernel) : kernel :=
  mkKernel (k_eflags k) (k_vm k) (k_io k) (k_tables k) (k_links k) (k_tcbs k)
    (k_sched k) (k_sems k) x (k_pools k) (k_ioqs k) (k_kbd k) (k_clock k).
Definition with_pools (x : gmap Z pool) (k : kernel) : kernel :=
  mkKernel (k_eflags k) (k_vm k) (k_io k) (k_tables k) (k_links k) (k_tcbs k)
    (k_sched k) (k_sems k) (k_holders k) x (k_ioqs k) (k_kbd k) (k_clock k).
Definition with_ioqs (x : gmap Z ioqueue) (k : kernel) : kernel :=
  mkKernel (k_eflags k) (k_vm k) (k_io k) (k_tables k) (k_links k) (k_tcbs k)
    (k_sched k) (k_sems k) (k_holders k) (k_pools k) x (k_kbd k) (k_clock k).
Definition with_kbd (x : kbd) (k : kernel) : kernel :=
  mkKernel (k_eflags k) (k_vm k) (k_io k) (k_tables k) (k_links k) (k_tcbs k)
    (k_sched k) (k_sems k) (k_holders k) (k_pools k) (k_ioqs k) x (k_clock k).
Definition with_clock (x : Z) (k : kernel) : kernel :=
  mkKernel (k_eflags k) (k_vm k) (k_io k) (k_tables k) (k_links k) (k_tcbs k)
    (k_sched k) (k_sems k) (k_holders k) (k_pools k) (k_ioqs k) (k_kbd k) x.

(** [tss.esp0] *)
Definition k_esp0 (k : kernel) : Z := Descriptors.tss_esp0 (Descriptors.the_tss (k_tables k)).

(** ** The parts the components work on *)

#[local] Obligation Tactic :=
  intros; repeat match goal with
    | s : kernel |- _ => destruct s | s : lstate |- _ => destruct s
    | s : Print.display _ |- _ => destruct s end; reflexivity.

Program Definition eflags_of : lens kernel Z := Lens k_eflags with_eflags _ _ _.
Program Definition vm_of : lens kernel Paging.vm := Lens k_vm with_vm _ _ _.
Program Definition io_of : lens kernel Ports.io := Lens k_io with_io _ _ _.
(** The lists: EFLAGS and the nodes. *)
Program Definition lists_of : lens kernel lstate :=
  Lens (fun k => mkL (k_eflags k) (k_links k))
       (fun l k => with_eflags (l_eflags l) (with_links (l_links l) k)) _ _ _.

Program Definition tables_of : lens kernel Descriptors.tables :=
  Lens k_tables with_tables _ _ _.
(** The screen. *)
Program Definition display_of : lens kernel (Print.display Paging.vm) :=
  Lens (fun k => Print.mkDisplay (k_vm k) (k_io k))
       (fun d k => with_vm (Print.d_mem d) (with_io (Print.d_io d) k)) _ _ _.

#[local] Existing Instance Paging.vm_ops.

(** [put_str] of a literal, and [put_int], on the kernel's screen. *)
Definition say (s : string) : M kernel unit := zoom display_of (Print.put_literal s).
Definition say_int (n : Z) : M kernel unit := zoom display_of (Print.put_int n).

Definition with_esp0 (e : Z) (k : kernel) : kernel :=
  let t := Descriptors.the_tss (k_tables k) in
  put_view tables_of (Descriptors.with_tss
    (Descriptors.mkTss e (Descriptors.tss_ss0 t) (Descriptors.tss_io_base t)) (k_tables k)) k.

Lemma with_esp0_id k : with_esp0 (k_esp0 k) k = k.
Proof. by destruct k as [? ? ? [? ? ? [] ? ? ? ?]]. Qed.

(** Accesses to the typed objects. *)
Definition get_tcb (a : Z) : M kernel tcb := deref (fun k => k_tcbs k !! a).
Definition set_tcb (a : Z) (t : tcb) : M kernel unit := update (fun k =>
  match k_tcbs k !! a with
  | Some _ => Some (with_tcbs (<[a := t]> (k_tcbs k)) k)
  | None => None
  end).
(** [f] applied to the object [*a]. *)
Definition on_tcb (a : Z) (f : tcb -> tcb) : M kernel unit :=
  t ← get_tcb a; set_tcb a (f t).

Definition RUNNING_THREAD : M kernel Z := gets (fun k => running_thread (k_sched k)).
Definition on_sched (f : sched -> sched) : M kernel unit :=
  modify (fun k => with_sched (f (k_sched k)) k).

(** Record updates. *)
Definition tcb_status (v : task_status) (t : tcb) : tcb :=
  mkTcb (stack_top t) (pid t) v (priority t) (name t) (ticks t) (elapsed_ticks t)
    (pg_dir t) (user_vaddr_pool t) (stack_magic t).
Definition tcb_priority (v : Z) (t : tcb) : tcb :=
  mkTcb (stack_top t) (pid t) (status t) v (name t) (ticks t) (elapsed_ticks t)
    (pg_dir t) (user_vaddr_pool t) (stack_magic t).
Definition tcb_ticks (v : Z) (t : tcb) : tcb :=
  mkTcb (stack_top t) (pid t) (status t) (priority t) (name t) v (elapsed_ticks t)
    (pg_dir t) (user_vaddr_pool t) (stack_magic t).
Definition tcb_elapsed_ticks (v : Z) (t : tcb) : tcb :=
  mkTcb (stack_top t) (pid t) (status t) (priority t) (name t) (ticks t) v
    (pg_dir t) (user_vaddr_pool t) (stack_magic t).
Definition tcb_stack_top (v : Z) (t : tcb) : tcb :=
  mkTcb v (pid t) (status t) (priority t) (name t) (ticks t) (elapsed_ticks t)
    (pg_dir t) (user_vaddr_pool t) (stack_magic t).
Definition tcb_pid (v : Z) (t : tcb) : tcb :=
  mkTcb (stack_top t) v (status t) (priority t) (name t) (ticks t) (elapsed_ticks t)
    (pg_dir t) (user_vaddr_pool t) (stack_magic t).
Definition tcb_name (v : list Z) (t : tcb) : tcb :=
  mkTcb (stack_top t) (pid t) (status t) (priority t) v (ticks t) (elapsed_ticks t)
    (pg_dir t) (user_vaddr_pool t) (stack_magic t).
Definition tcb_pg_dir (v : Z) (t : tcb) : tcb :=
  mkTcb (stack_top t) (pid t) (status t) (priority t) (name t) (ticks t) (elapsed_ticks t)
    v (user_vaddr_pool t) (stack_magic t).
Definition tcb_user_vaddr_pool (v : pool) (t : tcb) : tcb :=
  mkTcb (stack_top t) (pid t) (status t) (priority t) (name t) (ticks t) (elapsed_ticks t)
    (pg_dir t) v (stack_magic t).
Definition tcb_stack_magic (v : Z) (t : tcb) : tcb :=
  mkTcb (stack_top t) (pid t) (status t) (priority t) (name t) (ticks t) (elapsed_ticks t)
    (pg_dir t) (user_vaddr_pool t) v.

Definition sched_running (v : Z) (s : sched) : sched :=
  mkSched v (need_schedule s) (idle_thread s) (thread_table s) (rq_mask s).
Definition sched_need (v : bool) (s : sched) : sched :=
  mkSched (running_thread s) v (idle_thread s) (thread_table s) (rq_mask s).
Definition sched_idle (v : Z) (s : sched) : sched :=
  mkSched (running_thread s) (need_schedule s) v (thread_table s) (rq_mask s).
Definition sched_table (v : list Z) (s : sched) : sched :=
  mkSched (running_thread s) (need_schedule s) (idle_thread s) v (rq_mask s).
Definition sched_mask (v : bitmap) (s : sched) : sched :=
  mkSched (running_thread s) (need_schedule s) (idle_thread s) (thread_table s) v.

End Kernel.
