(* ===== verification/ReadyQueues.v ===== *)
(** The scheduler's contract: 32 queues of threads.

    [first_ready] is the thread to run, the head of the first non-empty queue;
    [slice] is what the end of a time slice does to the queues: the running
    thread goes to the back of the next lower queue, and from the lowest queue
    back to the highest.  The wrap-around is what makes the policy free of
    starvation: [slice_wait] computes exactly how many slices pass before a
    given thread runs. *)

From S2P Require Import Prelude.

Module ReadyQueues.

(** Threads are named by the addresses of their control blocks. *)
Abbreviation queues := (list (list Z)).

Definition LEVELS : nat := 32.

(** Changing one queue. *)
Definition on_level (p : nat) (f : list Z -> list Z) (qs : queues) : queues :=
  match qs !! p with Some q => <[p := f q]> qs | None => qs end.

Definition enqueue (p : nat) (t : Z) (qs : queues) : queues :=
  on_level p (fun q => q ++ [t]) qs.
Definition enqueue_front (p : nat) (t : Z) (qs : queues) : queues := on_level p (cons t) qs.
Definition leave (p : nat) (t : Z) (qs : queues) : queues :=
  on_level p (filter (fun t' => t' <> t)) qs.

Definition queued (t : Z) (qs : queues) : Prop := exists p q, qs !! p = Some q /\ t ∈ q.

Definition nonempty (q : list Z) : bool := bool_decide (q <> []).

(** The head of the first non-empty queue, with its level. *)
Fixpoint first_ready (qs : queues) : option (nat * Z) :=
  match qs with
  | [] => None
  | [] :: qs' => '(p, t) ← first_ready qs'; Some (S p, t)
  | (t :: _) :: _ => Some (0%nat, t)
  end.

Definition next_level (p : nat) : nat := (S p mod LEVELS)%nat.

Definition demote (p : nat) (t : Z) (qs : queues) : queues :=
  enqueue (next_level p) t (leave p t qs).

Definition slice (qs : queues) : queues :=
  match first_ready qs with Some (p, t) => demote p t qs | None => qs end.

(** ** The queues after an operation *)

Lemma on_level_eq p f qs q : qs !! p = Some q -> on_level p f qs = <[p := f q]> qs.
Proof. intros H. unfold on_level. by rewrite H. Qed.

Lemma on_level_length p f qs : length (on_level p f qs) = length qs.
Proof. unfold on_level. destruct (qs !! p); [apply length_insert|done]. Qed.

Lemma on_level_lookup p f qs j :
  on_level p f qs !! j = if decide (j = p) then f <$> qs !! p else qs !! j.
Proof.
  unfold on_level. destruct (qs !! p) as [q|] eqn:E; simpl.
  - case_decide as Ej.
    + subst j. rewrite list_lookup_insert_eq; [done|]. by eapply lookup_lt_Some.
    + by rewrite list_lookup_insert_ne.
  - case_decide as Ej; [by subst|done].
Qed.

(** No thread stands in two places. *)
Definition wf (qs : queues) : Prop :=
  length qs = LEVELS /\ (forall p q, qs !! p = Some q -> NoDup q)
  /\ (forall p1 p2 q1 q2 t, qs !! p1 = Some q1 -> qs !! p2 = Some q2 ->
        t ∈ q1 -> t ∈ q2 -> p1 = p2).

Lemma filter_other (t : Z) (q : list Z) : t ∉ q -> filter (fun t' => t' <> t) q = q.
Proof.
  induction q as [|x q IH]; [done|]. intros Hn. rewrite filter_cons.
  rewrite decide_True by set_solver. rewrite IH; [done|set_solver].
Qed.

Lemma filter_head (t : Z) (q : list Z) :
  NoDup (t :: q) -> filter (fun t' => t' <> t) (t :: q) = q.
Proof.
  intros [Hn _]%NoDup_cons. rewrite filter_cons, decide_False by tauto.
  by apply filter_other.
Qed.

(** After [leave] the thread is in no queue. *)
Lemma leave_not_queued p t qs q :
  wf qs -> qs !! p = Some q -> t ∈ q -> ~ queued t (leave p t qs).
Proof.
  intros (_ & _ & U) Hq Ht (p' & q' & Hq' & Ht'). unfold leave in Hq'.
  rewrite on_level_lookup in Hq'. case_decide as E.
  - subst p'. rewrite Hq in Hq'. injection Hq' as <-.
    apply list_elem_of_filter in Ht' as [? _]. done.
  - by apply E, (U p' p q' q t).
Qed.

Lemma leave_queued p t x qs : queued x (leave p t qs) -> queued x qs.
Proof.
  intros (j & q & Hq & Hin). unfold leave in Hq. rewrite on_level_lookup in Hq.
  case_decide as E; [|by exists j, q]. subst j. destruct (qs !! p) as [q0|] eqn:Hp; [|done].
  injection Hq as <-. apply list_elem_of_filter in Hin as [_ Hin]. by exists p, q0.
Qed.

Lemma on_level_queued p t x f qs q :
  qs !! p = Some q -> (forall q, f q ≡ₚ t :: q) ->
  queued x (on_level p f qs) <-> x = t \/ queued x qs.
Proof.
  intros Hp Hf. split.
  - intros (j & q' & Hq & Hin). rewrite on_level_lookup in Hq.
    case_decide as E; [|by right; exists j, q']. subst j. rewrite Hp in Hq. injection Hq as <-.
    rewrite Hf in Hin. apply elem_of_cons in Hin as [?|?]; [by left|right; by exists p, q].
  - intros [->|(j & q' & Hq & Hin)].
    + exists p, (f q). rewrite on_level_lookup, decide_True, Hp by done. split; [done|].
      rewrite Hf. left.
    + destruct (decide (j = p)) as [->|N].
      * exists p, (f q). rewrite on_level_lookup, decide_True, Hp by done. split; [done|].
        rewrite Hf. right. congruence.
      * exists j, q'. by rewrite on_level_lookup, decide_False.
Qed.

Lemma enqueue_queued p t x qs q :
  qs !! p = Some q -> queued x (enqueue p t qs) <-> x = t \/ queued x qs.
Proof. intros Hp. eapply on_level_queued; [done|]. intros q'. by rewrite Permutation_app_comm. Qed.

Lemma enqueue_front_queued p t x qs q :
  qs !! p = Some q -> queued x (enqueue_front p t qs) <-> x = t \/ queued x qs.
Proof. intros Hp. by eapply on_level_queued. Qed.

Lemma leave_queued_other p t x qs : x <> t -> queued x qs -> queued x (leave p t qs).
Proof.
  intros N (j & q & Hq & Hin). unfold leave. destruct (decide (j = p)) as [->|Nj].
  - exists p, (filter (fun t' => t' <> t) q). rewrite on_level_lookup, decide_True, Hq by done.
    split; [done|]. by apply list_elem_of_filter.
  - exists j, q. by rewrite on_level_lookup, decide_False.
Qed.

Lemma leave_wf p t qs : wf qs -> wf (leave p t qs).
Proof.
  intros (L & N & U). split; [by rewrite <- L; apply on_level_length|].
  assert (Hsub : forall j q', leave p t qs !! j = Some q' ->
    exists q, qs !! j = Some q /\ NoDup q' /\ q' ⊆ q).
  { intros j q'. unfold leave. rewrite on_level_lookup. case_decide as E.
    - subst j. destruct (qs !! p) as [q|] eqn:Hq; [|done]. intros [= <-].
      exists q. split; [done|]. split; [by apply NoDup_filter; eauto|].
      intros x Hx. by apply list_elem_of_filter in Hx as [_ Hx].
    - intros Hq. exists q'. eauto. }
  split.
  - intros j q' Hq'. by destruct (Hsub _ _ Hq') as (q & _ & ? & _).
  - intros p1 p2 q1 q2 t' H1 H2 Ht1 Ht2.
    destruct (Hsub _ _ H1) as (q1' & H1' & _ & S1), (Hsub _ _ H2) as (q2' & H2' & _ & S2).
    eapply U; eauto.
Qed.

(** Adding a thread that is in no queue, at either end. *)
Lemma join_wf p t qs (f : list Z -> list Z) :
  wf qs -> ~ queued t qs -> (forall q, f q ≡ₚ t :: q) -> wf (on_level p f qs).
Proof.
  intros (L & N & U) Ht Hf. split; [by rewrite <- L; apply on_level_length|].
  assert (Hin : forall j q', on_level p f qs !! j = Some q' ->
    exists q, qs !! j = Some q /\ NoDup q' /\ forall x, x ∈ q' -> (j = p /\ x = t) \/ x ∈ q).
  { intros j q'. rewrite on_level_lookup. case_decide as E.
    - subst j. destruct (qs !! p) as [q|] eqn:Hq; [|done]. intros [= <-].
      exists q. split; [done|]. split.
      + rewrite Hf. apply NoDup_cons. split; [|by eauto]. intros Hx. apply Ht. by exists p, q.
      + intros x. rewrite Hf. intros [->|]%elem_of_cons; auto.
    - intros Hq. exists q'. eauto. }
  split.
  - intros j q' Hq'. by destruct (Hin _ _ Hq') as (q & _ & ? & _).
  - intros p1 p2 q1 q2 x H1 H2 Hx1 Hx2.
    destruct (Hin _ _ H1) as (q1' & H1' & _ & S1), (Hin _ _ H2) as (q2' & H2' & _ & S2).
    destruct (S1 _ Hx1) as [[-> ->]|I1], (S2 _ Hx2) as [[-> E]|I2]; subst; try done.
    + exfalso. apply Ht. by exists p2, q2'.
    + exfalso. apply Ht. by exists p1, q1'.
    + eapply U; eauto.
Qed.

Lemma first_ready_spec qs p t :
  first_ready qs = Some (p, t) <->
  exists q, qs !! p = Some (t :: q) /\ forall j, (j < p)%nat -> qs !! j = Some [].
Proof.
  revert p. induction qs as [|[|t0 q0] qs IH]; intros p; simpl.
  - split; [done|]. by intros (q & H & _).
  - destruct (first_ready qs) as [[p' t']|] eqn:E; simpl.
    + split.
      * intros H. injection H as <- <-. destruct (IH p') as [H1 _].
        destruct (H1 eq_refl) as (q & Hq & Hlow). exists q. split; [done|].
        intros [|j] Hj; [done|]. apply Hlow. lia.
      * intros (q & Hq & Hlow). destruct p as [|p]; [done|]. simpl in Hq.
        assert (Some (p', t') = Some (p, t)) as [= -> ->]; [|done].
        apply IH. exists q. split; [done|]. intros j Hj. apply (Hlow (S j)). lia.
    + split; [done|]. intros (q & Hq & Hlow). destruct p as [|p]; [done|].
      enough (None = Some (p, t)) by done. apply IH. exists q. split; [done|].
      intros j Hj. apply (Hlow (S j)). lia.
  - split.
    + intros [= <- <-]. exists q0. split; [done|]. lia.
    + intros (q & Hq & Hlow). destruct p as [|p]; [by injection Hq as -> ->|].
      specialize (Hlow O ltac:(lia)). done.
Qed.

Lemma first_ready_none qs :
  first_ready qs = None <-> forall p q, qs !! p = Some q -> q = [].
Proof.
  induction qs as [|[|t0 q0] qs IH]; simpl.
  - split; [|done]. by intros _ p q H.
  - destruct (first_ready qs) as [[p t]|]; simpl.
    + split; [done|]. intros H. assert (Some (p, t) = None) as [=].
      apply IH. intros p' q Hq. by apply (H (S p')).
    + split; [|done]. intros _ [|p] q Hq; [by injection Hq|].
      by apply (proj1 IH eq_refl p q).
  - split; [done|]. intros H. by specialize (H O _ eq_refl).
Qed.

(** ** How long a thread waits

    A thread at place [i] of level [px] waits for every thread on a higher
    level to come down to its own, one level per slice, and for every thread
    ahead of it on its level to run once; from the lowest level those start
    again at the top and come all the way down. *)
Definition above (px : nat) (qs : queues) : nat :=
  sum_list_with (fun p => (px - p) * length (qs !!! p))%nat (seq 0 px).

Definition slice_wait (px i : nat) (qs : queues) : nat :=
  above px qs + (if decide (S px = LEVELS) then LEVELS else 1) * i.

Lemma sum_with_update (f g : nat -> nat) l p :
  NoDup l -> p ∈ l -> (forall j, j <> p -> f j = g j) ->
  (sum_list_with f l + g p = sum_list_with g l + f p)%nat.
Proof.
  intros Hn Hp Hfg. induction l as [|x l IH]; [by apply not_elem_of_nil in Hp|]. simpl.
  apply NoDup_cons in Hn as [Hx Hn]. apply elem_of_cons in Hp as [->|Hp].
  - assert (sum_list_with f l = sum_list_with g l) as ->; [|lia].
    clear IH Hn. induction l as [|y l IH]; [done|]. simpl.
    rewrite Hfg by set_solver. rewrite IH; [done|set_solver].
  - rewrite (Hfg x) by (intros ->; done). specialize (IH Hn Hp). lia.
Qed.

(** One queue changed. *)
Lemma above_update px qs p q q' :
  qs !! p = Some q -> (p < px)%nat ->
  (above px (<[p := q']> qs) + (px - p) * length q
   = above px qs + (px - p) * length q')%nat.
Proof.
  intros Hq Hp. unfold above.
  pose proof (sum_with_update
    (fun j => (px - j) * length ((<[p := q']> qs) !!! j))%nat
    (fun j => (px - j) * length (qs !!! j))%nat (seq 0 px) p) as H.
  assert (p < length qs)%nat by (by eapply lookup_lt_Some).
  cbv beta in H. rewrite (list_lookup_total_correct _ _ _ Hq) in H.
  rewrite list_lookup_total_insert_eq in H by done. apply H.
  - apply NoDup_seq.
  - apply elem_of_seq. lia.
  - intros j Hj. by rewrite list_lookup_total_insert_ne by done.
Qed.

Lemma above_update_ge px qs p q' :
  (px <= p)%nat -> above px (<[p := q']> qs) = above px qs.
Proof.
  intros Hp. unfold above.
  assert (H : forall l, Forall (fun j => j < px)%nat l ->
    sum_list_with (fun j => (px - j) * length ((<[p := q']> qs) !!! j))%nat l
    = sum_list_with (fun j => (px - j) * length (qs !!! j))%nat l).
  { intros l Hl. induction Hl as [|j l Hj Hl IH]; [done|]. simpl.
    rewrite list_lookup_total_insert_ne by lia. by rewrite IH. }
  apply H. apply Forall_forall. intros j Hj%elem_of_seq. lia.
Qed.

Lemma above_zero px qs :
  above px qs = 0%nat -> (px <= length qs)%nat -> forall j, (j < px)%nat -> qs !! j = Some [].
Proof.
  intros H Hl j Hj. destruct (lookup_lt_is_Some_2 qs j) as [q Hq]; [lia|].
  destruct q as [|t q]; [done|]. exfalso.
  pose proof (above_update px qs j (t :: q) [] Hq Hj) as E. simpl in E. nia.
Qed.

Lemma enqueue_wf p t qs : wf qs -> ~ queued t qs -> wf (enqueue p t qs).
Proof.
  intros H Ht. apply join_wf with t; [done..|]. intros q. by rewrite Permutation_app_comm.
Qed.
Lemma enqueue_front_wf p t qs : wf qs -> ~ queued t qs -> wf (enqueue_front p t qs).
Proof. intros H Ht. by apply join_wf with t. Qed.

Lemma demote_wf p t qs q : wf qs -> qs !! p = Some q -> t ∈ q -> wf (demote p t qs).
Proof.
  intros H Hq Ht. apply enqueue_wf; [by apply leave_wf|by eapply leave_not_queued].
Qed.

Lemma demote_queued p t x qs q :
  wf qs -> qs !! p = Some q -> t ∈ q -> queued x (demote p t qs) <-> queued x qs.
Proof.
  intros W Hq Ht. pose proof (lookup_lt_Some _ _ _ Hq) as Hlt. rewrite (proj1 W) in Hlt.
  destruct (lookup_lt_is_Some_2 (leave p t qs) (next_level p)) as [q1 Hq1].
  { rewrite (proj1 (leave_wf p t qs W)). unfold next_level. apply Nat.mod_upper_bound.
    unfold LEVELS. lia. }
  unfold demote. rewrite (enqueue_queued _ _ _ _ _ Hq1). split.
  - intros [->|H]; [by exists p, q|by eapply leave_queued].
  - intros H. destruct (decide (x = t)) as [->|N]; [by left|right; by apply leave_queued_other].
Qed.

Lemma slice_wf qs : wf qs -> wf (slice qs).
Proof.
  intros H. unfold slice. destruct (first_ready qs) as [[p t]|] eqn:E; [|done].
  apply first_ready_spec in E as (q & Hq & _). eapply demote_wf; [done..|left].
Qed.

Lemma next_level_cases p :
  (p < LEVELS)%nat -> (S p < LEVELS /\ next_level p = S p)%nat
    \/ (S p = LEVELS /\ next_level p = 0)%nat.
Proof.
  unfold next_level, LEVELS. intros Hp. destruct (decide (S p = 32%nat)) as [->|].
  - by right.
  - left. rewrite Nat.mod_small; lia.
Qed.

Lemma next_level_ne p : (p < LEVELS)%nat -> next_level p <> p.
Proof. intros Hp. destruct (next_level_cases p Hp) as [[? ->]|[? ->]]; unfold LEVELS in *; lia. Qed.

(** A slice moves the head of the running level to the back of another. *)
Lemma slice_lookup qs p t q j :
  wf qs -> qs !! p = Some (t :: q) -> first_ready qs = Some (p, t) ->
  slice qs !! j =
    if decide (j = next_level p) then (fun q' => q' ++ [t]) <$> qs !! j
    else if decide (j = p) then Some q else qs !! j.
Proof.
  intros (L & N & U) Hq Hf. unfold slice. rewrite Hf. unfold demote, enqueue, leave.
  rewrite !on_level_lookup.
  pose proof (next_level_ne p ltac:(apply lookup_lt_Some in Hq; lia)) as Np.
  repeat case_decide; subst; try done.
  rewrite Hq. simpl fmap. rewrite filter_head; eauto.
Qed.

Lemma slice_eq qs p t r :
  wf qs -> qs !! p = Some (t :: r) -> first_ready qs = Some (p, t) ->
  slice qs = enqueue (next_level p) t (<[p := r]> qs).
Proof.
  intros (_ & N & _) Hp Hf. unfold slice. rewrite Hf. unfold demote, leave.
  rewrite (on_level_eq _ _ _ _ Hp). by rewrite filter_head by eauto.
Qed.

Lemma above_low px qs : (forall j, (j < px)%nat -> qs !! j = Some []) -> above px qs = 0%nat.
Proof.
  intros Hlow. unfold above.
  assert (H : forall l, Forall (fun j => j < px)%nat l ->
    sum_list_with (fun p => (px - p) * length (qs !!! p))%nat l = 0%nat).
  { intros l Hl. induction Hl as [|j l Hj Hl IH]; [done|]. simpl.
    rewrite (list_lookup_total_correct _ _ [] (Hlow j Hj)), IH. simpl. lia. }
  apply H, Forall_forall. intros j Hj%elem_of_seq. lia.
Qed.

(** The running thread leaves the waiting thread's own level ... *)
Lemma slice_progress_same qs px t r i :
  wf qs -> qs !! px = Some (t :: r) -> first_ready qs = Some (px, t) ->
  slice qs !! px = Some r /\ S (slice_wait px i (slice qs)) = slice_wait px (S i) qs.
Proof.
  intros W Hp Hf. pose proof W as (L & _). pose proof Hf as (r' & Hp' & Hlow)%first_ready_spec.
  pose proof (lookup_lt_Some _ _ _ Hp) as Hlp. rewrite L in Hlp.
  pose proof (next_level_ne px Hlp) as Nn.
  split.
  { rewrite (slice_lookup _ _ _ _ px W Hp Hf).
    by rewrite decide_False, decide_True by congruence. }
  unfold slice_wait. rewrite (slice_eq _ _ _ _ W Hp Hf).
  destruct (next_level_cases px Hlp) as [[Hn ->]|[Hn ->]].
  - rewrite decide_False by lia. unfold enqueue, on_level.
    destruct (<[px:=r]> qs !! S px); rewrite ?above_update_ge by lia; lia.
  - rewrite decide_True by done. destruct px as [|px]; [done|].
    assert (H0 : <[S px := r]> qs !! 0%nat = Some []).
    { rewrite list_lookup_insert_ne by done. apply Hlow. lia. }
    unfold enqueue. rewrite (on_level_eq _ _ _ _ H0). simpl app.
    pose proof (above_update (S px) _ 0 [] [t] H0 ltac:(lia)) as E. simpl length in E.
    rewrite (above_update_ge (S px) qs (S px) r) in E by lia.
    rewrite Nat.mul_succ_r. lia.
Qed.

(** ... or comes one level down from above. *)
Lemma slice_progress_above qs px p t r q i x :
  wf qs -> qs !! p = Some (t :: r) -> first_ready qs = Some (p, t) -> (p < px)%nat ->
  qs !! px = Some q -> q !! i = Some x ->
  exists q', slice qs !! px = Some q' /\ q' !! i = Some x
    /\ S (slice_wait px i (slice qs)) = slice_wait px i qs.
Proof.
  intros W Hp Hf Hpp Hpx Hx. pose proof W as (L & _).
  pose proof (lookup_lt_Some _ _ _ Hpx) as Hlt. rewrite L in Hlt.
  pose proof (slice_lookup _ _ _ _ px W Hp Hf) as Hs.
  pose proof (slice_eq _ _ _ _ W Hp Hf) as Es.
  destruct (next_level_cases p ltac:(lia)) as [[Hn En]|]; [|lia]. rewrite En in *.
  pose proof (above_update px qs p (t :: r) r Hp Hpp) as E1. simpl length in E1.
  destruct (lookup_lt_is_Some_2 (<[p:=r]> qs) (S p)) as [q1 Hq1].
  { rewrite length_insert. lia. }
  unfold slice_wait. rewrite Es. unfold enqueue in *. rewrite Es in Hs.
  rewrite (on_level_eq _ _ _ _ Hq1) in *.
  destruct (decide (px = S p)) as [->|Nsp].
  - exists (q ++ [t]). rewrite Hpx in Hs. split; [done|].
    split; [by apply lookup_app_l_Some|]. rewrite above_update_ge by lia. lia.
  - exists q. rewrite decide_False in Hs by lia. split; [congruence|]. split; [done|].
    pose proof (above_update px _ (S p) q1 (q1 ++ [t]) Hq1 ltac:(lia)) as E2.
    rewrite length_app in E2. simpl in E2. nia.
Qed.

(** One slice brings a waiting thread one slice nearer. *)
Lemma slice_progress qs px i q x :
  wf qs -> qs !! px = Some q -> q !! i = Some x -> (0 < slice_wait px i qs)%nat ->
  exists i' q', slice qs !! px = Some q' /\ q' !! i' = Some x
    /\ S (slice_wait px i' (slice qs)) = slice_wait px i qs.
Proof.
  intros W Hpx Hx Hw. destruct (first_ready qs) as [[p t]|] eqn:Hf.
  2: { rewrite first_ready_none in Hf. by rewrite (Hf _ _ Hpx) in Hx. }
  pose proof Hf as (r & Hp & Hlow)%first_ready_spec.
  assert (p <= px)%nat as Hle.
  { destruct (decide (p <= px)%nat); [done|]. rewrite Hlow in Hpx by lia.
    injection Hpx as <-. done. }
  destruct (decide (p = px)) as [->|Npx].
  - rewrite Hp in Hpx. injection Hpx as <-. destruct i as [|i].
    { unfold slice_wait in Hw. rewrite (above_low _ _ Hlow) in Hw. lia. }
    destruct (slice_progress_same qs px t r i) as [Hs Hws]; [done..|]. by exists i, r.
  - destruct (slice_progress_above qs px p t r q i x) as (q' & ?); [done..|lia|done|done|].
    by exists i, q'.
Qed.

(** After exactly [slice_wait] slices the thread is first. *)
Lemma slices_reach qs px i q x n :
  wf qs -> qs !! px = Some q -> q !! i = Some x -> slice_wait px i qs = n ->
  first_ready (Nat.iter n slice qs) = Some (px, x).
Proof.
  revert qs i q. induction n as [|n IH]; intros qs i q W Hq Hx Hn.
  - simpl. unfold slice_wait in Hn.
    assert (i = O) as -> by (destruct (decide (S px = LEVELS)); destruct i; lia).
    apply first_ready_spec. destruct q as [|y q]; [done|]. injection Hx as ->.
    exists q. split; [done|]. apply above_zero; [lia|].
    apply lookup_lt_Some in Hq. lia.
  - destruct (slice_progress qs px i q x) as (i' & q' & Hq' & Hx' & Hw); [done..|lia|].
    rewrite Nat.iter_succ_r.
    eapply IH; [by apply slice_wf|exact Hq'|exact Hx'|lia].
Qed.

End ReadyQueues.
