(* ===== verification/Sched.v ===== *)
(** [thread/thread.c], the scheduler: the ready queues, [main_schedule],
    [schedule], [thread_block] and [thread_unblock]; with [process_activate]
    of [user/process.c], which every switch runs.

    There are 32 queues, one per priority, the highest being 0, and a bitmap
    that says which are not empty.  The running thread stays in its queue.
    [sched_rep] relates the heap of list nodes, the bitmap and the thread
    control blocks to a list of 32 queues of threads; every operation is
    proved to do to the queues what it means to do ([enqueue], [requeue],
    [leave]).

    A function that gives the processor away ends in [Switched] here; what the
    assembly of [thread/switch.s] does to the stacks, around it, is in
    [Entry]. *)

From S2P Require Import Prelude Bytes Bitmap Interrupt LinkedList Paging PageTable Kernel.
From S2P Require Import ReadyQueues.

Module Sched.
Import Bitmap Interrupt LinkedList Paging PageTable Kernel ReadyQueues.

(** ** The code *)

Definition ticks_get (prio : Z) : Z := prio / 3 + 1.

Definition RQ_MASK_BITMAP : M kernel bitmap := gets (fun k => rq_mask (k_sched k)).

Definition scheduler_rq_join_only (thread : Z) : M kernel unit :=
  t ← get_tcb thread;
  let prio := priority t in
  zoom lists_of (list_push_back (THIS_RQ prio) (ready_tag thread));;
  mask ← RQ_MASK_BITMAP;
  zoom vm_of (bitmap_set mask prio).

(** [if (RUNNING_THREAD->priority > thread->priority) need_schedule = true;] *)
Definition preempt_check (thread : Z) : M kernel unit :=
  r ← RUNNING_THREAD;
  rt ← get_tcb r;
  t ← get_tcb thread;
  if priority t <? priority rt then on_sched (sched_need true) else mret tt.

Definition scheduler_rq_join (thread : Z) : M kernel unit :=
  scheduler_rq_join_only thread;;
  preempt_check thread.

Definition scheduler_rq_jump_only (thread : Z) : M kernel unit :=
  t ← get_tcb thread;
  let prio := priority t in
  zoom lists_of (list_push_front (THIS_RQ prio) (ready_tag thread));;
  mask ← RQ_MASK_BITMAP;
  zoom vm_of (bitmap_set mask prio).

Definition scheduler_rq_jump (thread : Z) : M kernel unit :=
  scheduler_rq_jump_only thread;;
  preempt_check thread.

Definition scheduler_rq_leave_only (thread : Z) : M kernel unit :=
  t ← get_tcb thread;
  let prio := priority t in
  zoom lists_of (list_remove (ready_tag thread));;
  e ← zoom lists_of (list_empty (THIS_RQ prio));
  if (e : bool) then mask ← RQ_MASK_BITMAP; zoom vm_of (bitmap_clear mask prio)
  else mret tt.

Definition scheduler_rq_leave (thread : Z) : M kernel unit :=
  scheduler_rq_leave_only thread;;
  r ← RUNNING_THREAD;
  if thread =? r then on_sched (sched_need true) else mret tt.

Definition thread_prio_change (thread : Z) : M kernel unit :=
  on_tcb thread (fun t => tcb_priority (u8 ((priority t + 1) mod PRIO_NUM)) t).

Definition highest_rq_get : M kernel Z :=
  mask ← RQ_MASK_BITMAP;
  r ← zoom vm_of (bitmap_scan mask 1 1);
  mret (u32 r).

Definition next_thread_pick : M kernel Z :=
  prio ← highest_rq_get;
  next_tag ← zoom lists_of (list_first_elem (THIS_RQ prio));
  mret (ELEM2ENTRY OFF_ready_tag next_tag).

(** [user/process.c] and [user/tss.c]. *)
Definition KERNEL_PAGE_DIR_BASE_ADDR : Z := 0x100000.

Definition page_dir_activate (thread : Z) : M kernel unit :=
  t ← get_tcb thread;
  page_dir_phy_addr ←
    (if negb (pg_dir t =? NULL) then zoom vm_of (addr_v2p (pg_dir t))
     else mret KERNEL_PAGE_DIR_BASE_ADDR);
  zoom vm_of (modify (fun v => under v page_dir_phy_addr)).

Definition tss_esp0_update (thread : Z) : M kernel unit :=
  modify (with_esp0 (u32 (thread + PG_SIZE))).

Definition process_activate (thread : Z) : M kernel unit :=
  page_dir_activate thread;;
  t ← get_tcb thread;
  if negb (pg_dir t =? NULL) then tss_esp0_update thread else mret tt.

(** [main_schedule]: a thread whose time slice is over goes to the back of the
    next lower queue ... *)
Definition slice_over (cur : Z) : M kernel unit :=
  c ← get_tcb cur;
  if bool_decide (status c = TASK_RUNNING) then
    scheduler_rq_leave_only cur;;
    thread_prio_change cur;;
    scheduler_rq_join_only cur;;
    on_tcb cur (fun t => tcb_ticks (ticks_get (priority t)) t);;
    on_tcb cur (tcb_status TASK_READY)
  else mret tt.

(** ... and the next thread is picked and becomes the running one. *)
Definition dispatch_to (next : Z) : M kernel unit :=
  on_tcb next (tcb_status TASK_RUNNING);;
  on_sched (sched_running next);;
  process_activate next.

Definition dispatch : M kernel Z :=
  next ← next_thread_pick;
  dispatch_to next;;
  mret next.

(** The whole function up to [context_load]; it returns the thread whose
    context is loaded. *)
Definition main_schedule : M kernel Z :=
  cur ← RUNNING_THREAD;
  _ ← get_tcb cur;
  need ← gets (fun k => need_schedule (k_sched k));
  if (need : bool) then
    on_sched (sched_need false);;
    slice_over cur;;
    dispatch
  else mret cur.

(** [schedule]: [task_trap] saves the context of the running thread and enters
    [main_schedule]; when another thread is picked the processor is its. *)
Definition schedule : M kernel unit :=
  need ← gets (fun k => need_schedule (k_sched k));
  if negb (need : bool) then mret tt
  else
    cur ← RUNNING_THREAD;
    next ← main_schedule;
    if next =? cur then mret tt else switch_away.

Definition may_block (s : task_status) : bool :=
  bool_decide (s = TASK_BLOCKED) || bool_decide (s = TASK_WAITING)
  || bool_decide (s = TASK_HANGING).

Definition thread_block (tsk_status : task_status) : M kernel unit :=
  ASSERT (may_block tsk_status)
    "tsk_status == TASK_BLOCKED || tsk_status == TASK_WAITING || tsk_status == TASK_HANGING";;
  int_save ← zoom eflags_of intr_disable;
  r ← RUNNING_THREAD;
  on_tcb r (tcb_status tsk_status);;
  r ← RUNNING_THREAD;
  scheduler_rq_leave r;;
  schedule;;
  zoom eflags_of (intr_set_status int_save);;
  mret tt.

Definition thread_unblock (thread : Z) : M kernel unit :=
  t ← get_tcb thread;
  ASSERT (may_block (status t))
    "thread->status == TASK_BLOCKED || thread->status == TASK_WAITING || thread->status == TASK_HANGING";;
  int_save ← zoom eflags_of intr_disable;
  on_tcb thread (tcb_status TASK_READY);;
  scheduler_rq_jump thread;;
  zoom eflags_of (intr_set_status int_save);;
  mret tt.

(** [kernel/interrupt.c]: the tail of every hardware interrupt. *)
Definition hwi_tail_handle : M kernel Z := main_schedule.

(** ** The queues behind the state *)

Section Refinement.
Context (D : list Z).
Implicit Types (k : kernel) (qs : queues) (L : gmap Z (list Z)).

#[local] Instance data_mem : ByteMem vm := vm_mem D.

(** A process's page directory, by its kernel address: the directory it names
    is one of [D], and every directory of [D] maps that address to it. *)
Definition dir_ok (v : vm) (va : Z) : Prop :=
  is_u32 va /\ exists d, d ∈ D /\ 0 <= d /\ forall c, c ∈ D ->
    self_mapped (under v c) /\ translate (under v c) va = Some d
    /\ forall pde pte, pde_of (under v c) (pd_index va) = Some pde -> present pde = true ->
         pte_of (under v c) pde (pt_index va) = Some pte -> is_u32 pte.

Record sched_rep k qs L : Prop := {
  sr_levels : length qs = LEVELS;
  sr_lists : lists_rep (k_links k) L;
  sr_rqs : forall p q, qs !! p = Some q -> L !! THIS_RQ (Z.of_nat p) = Some (ready_tag <$> q);
  sr_bit_num : bit_num (rq_mask (k_sched k)) = PRIO_NUM;
  sr_mask : bitmap_rep (k_vm k) (rq_mask (k_sched k)) (nonempty <$> qs);
  sr_queued : forall p q t, qs !! p = Some q -> t ∈ q ->
    exists tc, k_tcbs k !! t = Some tc /\ priority tc = Z.of_nat p;
  sr_tcbs : forall t tc, k_tcbs k !! t = Some tc ->
    0 <= priority tc < PRIO_NUM /\ 0 < t < 2 ^ 32 - PG_SIZE
    /\ is_Some (k_links k !! ready_tag t) /\ (pg_dir tc = NULL \/ dir_ok (k_vm k) (pg_dir tc));
  sr_aligned : forall t, is_Some (k_tcbs k !! t) -> t mod PG_SIZE = 0;
  sr_ready : forall t, owned L (ready_tag t) -> is_Some (k_tcbs k !! t) -> queued t qs;
  sr_cr3 : cr3 (k_vm k) ∈ D;
  sr_kernel_dir : KERNEL_PAGE_DIR_BASE_ADDR ∈ D
}.

Lemma THIS_RQ_inj p1 p2 : 0 <= p1 < 256 -> 0 <= p2 < 256 -> THIS_RQ p1 = THIS_RQ p2 -> p1 = p2.
Proof. intros H1 H2. rewrite !THIS_RQ_byte by done. lia. Qed.

Lemma ready_tag_inj t1 t2 : ready_tag t1 = ready_tag t2 -> t1 = t2.
Proof. unfold ready_tag. lia. Qed.

Lemma elem_of_ready t (q : list Z) : ready_tag t ∈ ready_tag <$> q <-> t ∈ q.
Proof.
  rewrite list_elem_of_fmap. split.
  - by intros (t' & ->%ready_tag_inj & ?).
  - intros H. by exists t.
Qed.

(** The element of a queue is found from its tag. *)
Lemma elem2entry_ready t : 0 < t < 2 ^ 32 - PG_SIZE -> ELEM2ENTRY OFF_ready_tag (ready_tag t) = t.
Proof.
  unfold ELEM2ENTRY, ready_tag, OFF_ready_tag, PG_SIZE. intros H.
  rewrite u32_small; lia.
Qed.

Lemma dir_ok_keeps v v' va : cr3 v ∈ D -> vm_keeps D v v' -> dir_ok v va -> dir_ok v' va.
Proof.
  intros Hc [_ K] (Hva & d & Hd & Hd0 & H). split; [done|]. exists d. do 2 (split; [done|]).
  intros c Hin. destruct (H c Hin) as ((e & He & Pe & Fe) & T & W).
  assert (Kc : tables_kept (under v c) (under v' c)) by (apply K; by right).
  destruct (index_range va Hva). split_and!.
  - exists e. by rewrite (keeps_pde _ _ Kc) by lia.
  - by rewrite (keeps_translate _ _ Kc).
  - intros pde pte. rewrite (keeps_pde _ _ Kc) by lia. intros E P.
    rewrite (keeps_pte _ _ Kc (pd_index va)) by done. eauto.
Qed.

Lemma rep_wf k qs L : sched_rep k qs L -> wf qs.
Proof.
  intros R. split; [apply R|]. split.
  - intros p q Hq. destruct (proj1 (sr_lists _ _ _ R) _ _ (sr_rqs _ _ _ R _ _ Hq))
      as (_ & _ & _ & N). unfold nodes in N. apply NoDup_cons in N as [_ N].
    apply NoDup_app in N as (N & _). by apply NoDup_fmap_1 in N.
  - intros p1 p2 q1 q2 t H1 H2 T1 T2.
    destruct (sr_queued _ _ _ R _ _ _ H1 T1) as (tc1 & E1 & P1).
    destruct (sr_queued _ _ _ R _ _ _ H2 T2) as (tc2 & E2 & P2). simplify_eq. lia.
Qed.

(** A thread that is in no queue owns its node. *)
Lemma not_queued_free k qs L t :
  sched_rep k qs L -> is_Some (k_tcbs k !! t) -> ~ queued t qs -> ~ owned L (ready_tag t).
Proof. intros R Ht Hq Ho. by apply Hq, (sr_ready _ _ _ R). Qed.

(** The lists other than the ready queues are untouched. *)
Definition rq_addrs : list Z := (fun p => THIS_RQ (Z.of_nat p)) <$> seq 0 LEVELS.

Lemma rq_addrs_level p : 0 <= p < PRIO_NUM -> THIS_RQ p ∈ rq_addrs.
Proof.
  unfold PRIO_NUM. intros Hp. apply list_elem_of_fmap. exists (Z.to_nat p).
  rewrite Z2Nat.id by lia. split; [done|]. apply elem_of_seq. unfold LEVELS. lia.
Qed.

Lemma rq_addrs_inv l : l ∈ rq_addrs -> exists p, (p < LEVELS)%nat /\ l = THIS_RQ (Z.of_nat p).
Proof.
  intros (p & -> & Hp%elem_of_seq)%list_elem_of_fmap. exists p. split; [lia|done].
Qed.

Definition other_lists L L' : Prop := forall l, l ∉ rq_addrs -> L' !! l = L !! l.

Lemma other_lists_update L p xs :
  0 <= p < PRIO_NUM -> other_lists L (<[THIS_RQ p := xs]> L).
Proof. intros Hp l Hl. apply lookup_insert_ne. intros <-. by apply Hl, rq_addrs_level. Qed.

(** One queue, its list and its bit change together. *)
Lemma rep_change_queue k qs L p q q' h v :
  sched_rep k qs L -> qs !! p = Some q ->
  let L' := <[THIS_RQ (Z.of_nat p) := ready_tag <$> q']> L in
  lists_rep h L' -> dom h = dom (k_links k) -> vm_keeps D (k_vm k) v ->
  bitmap_rep v (rq_mask (k_sched k)) (nonempty <$> <[p := q']> qs) ->
  (forall t, t ∈ q' -> exists tc, k_tcbs k !! t = Some tc /\ priority tc = Z.of_nat p) ->
  (forall t, t ∈ q -> t ∈ q' \/ ~ owned L' (ready_tag t)) ->
  sched_rep (with_vm v (with_links h k)) (<[p := q']> qs) L'.
Proof.
  intros R Hp L' Hh Hdom Hv Hm Hq' Hout. destruct R. pose proof (lookup_lt_Some _ _ _ Hp) as Hlt.
  constructor; simpl; try done.
  - by rewrite length_insert.
  - intros j r Hr. unfold L'. destruct (decide (p = j)) as [<-|Ne].
    + rewrite list_lookup_insert_eq in Hr by done. injection Hr as <-. apply lookup_insert_eq.
    + rewrite list_lookup_insert_ne in Hr by done. rewrite lookup_insert_ne; [by apply sr_rqs0|].
      pose proof (lookup_lt_Some _ _ _ Hr). unfold LEVELS in *. intros E%THIS_RQ_inj; lia.
  - intros j r t Hr Ht. destruct (decide (p = j)) as [<-|Ne].
    + rewrite list_lookup_insert_eq in Hr by done. injection Hr as <-. by apply Hq'.
    + rewrite list_lookup_insert_ne in Hr by done. by eapply sr_queued0.
  - intros t tc Ht. destruct (sr_tcbs0 t tc Ht) as (H1 & H2 & H3 & H4). split; [done|].
    split; [done|]. split.
    + apply elem_of_dom. rewrite Hdom. by apply elem_of_dom.
    + destruct H4 as [|H4]; [by left|right]. by eapply dir_ok_keeps.
  - intros t Ho Ht. assert (Hold : owned L (ready_tag t) \/ t ∈ q').
    { destruct Ho as (l & xs & Hl & Hin). unfold L' in Hl. rewrite lookup_insert in Hl.
      case_decide as E; [|left; by exists l, xs]. injection Hl as <-.
      unfold nodes in Hin. apply elem_of_cons in Hin as [Hin|Hin].
      - left. exists (THIS_RQ (Z.of_nat p)), (ready_tag <$> q). split; [by apply sr_rqs0|].
        subst l. rewrite Hin. left.
      - apply elem_of_app in Hin as [Hin|Hin]; [right; by apply elem_of_ready|].
        left. exists (THIS_RQ (Z.of_nat p)), (ready_tag <$> q). split; [by apply sr_rqs0|].
        subst l. right. apply elem_of_app. by right. }
    destruct Hold as [Hold|Hin].
    + destruct (sr_ready0 t Hold Ht) as (j & r & Hr & Hin).
      destruct (decide (p = j)) as [<-|Ne].
      * rewrite Hp in Hr. injection Hr as <-. destruct (Hout t Hin) as [?|Hn]; [|by destruct Hn].
        exists p, q'. by rewrite list_lookup_insert_eq.
      * exists j, r. by rewrite list_lookup_insert_ne.
    + exists p, q'. by rewrite list_lookup_insert_eq.
  - destruct Hv as [-> _]. done.
Qed.

(** ** Running the parts *)

Lemma zoom_lists_ok (m : M lstate unit) k L :
  lists_become (m (view lists_of k)) (view lists_of k) L ->
  exists h, zoom lists_of m k = Ok tt (with_links h k) /\ lists_rep h L
    /\ dom h = dom (k_links k).
Proof. intros (h & E & R & Dm). exists h. by rewrite (zoom_ok _ _ _ _ _ E). Qed.

Lemma zoom_vm_ok {A} (m : M vm A) k Q :
  wp m (k_vm k) Q -> exists a v, zoom vm_of m k = Ok a (with_vm v k) /\ Q a v.
Proof.
  intros (a & v & E & H)%wp_inv. exists a, v. split; [|done]. by erewrite zoom_ok by exact E.
Qed.

Lemma get_tcb_ok k t tc : k_tcbs k !! t = Some tc -> get_tcb t k = Ok tc k.
Proof. intros H. unfold get_tcb, deref. by rewrite H. Qed.

Lemma on_tcb_ok k t tc f :
  k_tcbs k !! t = Some tc -> on_tcb t f k = Ok tt (with_tcbs (<[t := f tc]> (k_tcbs k)) k).
Proof.
  intros H. unfold on_tcb. erewrite bind_ok by by apply get_tcb_ok.
  unfold set_tcb, update. by rewrite H.
Qed.

(** The bytes of the ready mask. *)
Definition mask_byte k (a : Z) : Prop :=
  base_addr (rq_mask (k_sched k)) <= a
    < base_addr (rq_mask (k_sched k)) + byte_len (rq_mask (k_sched k)).

(** What an operation on the ready queues changes: list nodes and the mask. *)
Definition queues_become (r : result kernel unit) k qs L : Prop :=
  exists h v L', r = Ok tt (with_vm v (with_links h k))
    /\ sched_rep (with_vm v (with_links h k)) qs L'
    /\ dom h = dom (k_links k) /\ modifies (mask_byte k) (k_vm k) v /\ other_lists L L'.

Lemma queue_at k qs L t tc :
  sched_rep k qs L -> k_tcbs k !! t = Some tc ->
  exists q, qs !! Z.to_nat (priority tc) = Some q
    /\ L !! THIS_RQ (priority tc) = Some (ready_tag <$> q).
Proof.
  intros R Ht. destruct (sr_tcbs _ _ _ R t tc Ht) as (Hp & _).
  unfold PRIO_NUM in Hp.
  destruct (lookup_lt_is_Some_2 qs (Z.to_nat (priority tc))) as [q Hq].
  { rewrite (sr_levels _ _ _ R). unfold LEVELS. lia. }
  exists q. split; [done|]. pose proof (sr_rqs _ _ _ R _ _ Hq) as H.
  by rewrite Z2Nat.id in H by lia.
Qed.

Lemma mask_bit_byte k qs L prio :
  sched_rep k qs L -> 0 <= prio < PRIO_NUM ->
  mask_byte k (base_addr (rq_mask (k_sched k)) + prio / 8).
Proof.
  intros R Hp. pose proof (sr_mask _ _ _ R) as (_ & _ & Hb & _).
  unfold mask_byte. rewrite Hb, (sr_bit_num _ _ _ R).
  pose proof (bit_in_byte_len PRIO_NUM prio Hp). lia.
Qed.

(** Joining a queue at either end: [ins] is what the list operation does to
    the queue. *)
Lemma rq_insert_ok k qs L t tc (op : Z -> Z -> M lstate unit) (ins : list Z -> list Z) :
  sched_rep k qs L -> k_tcbs k !! t = Some tc -> ~ queued t qs ->
  (forall q, ins q ≡ₚ t :: q) ->
  (forall q, L !! THIS_RQ (priority tc) = Some (ready_tag <$> q) ->
     lists_become (op (THIS_RQ (priority tc)) (ready_tag t) (view lists_of k)) (view lists_of k)
       (<[THIS_RQ (priority tc) := ready_tag <$> ins q]> L)) ->
  queues_become ((zoom lists_of (op (THIS_RQ (priority tc)) (ready_tag t));;
     mask ← RQ_MASK_BITMAP; zoom vm_of (bitmap_set mask (priority tc))) k)
     k (on_level (Z.to_nat (priority tc)) ins qs) L.
Proof.
  intros R Ht Hnq Hins Hop. destruct (queue_at _ _ _ _ _ R Ht) as (q & Hq & HL).
  destruct (sr_tcbs _ _ _ R t tc Ht) as (Hp & _ & Hnode & _).
  destruct (zoom_lists_ok _ _ _ (Hop q HL)) as (h & E & HR & Hd).
  erewrite bind_ok by exact E. erewrite bind_ok by done.
  destruct (zoom_vm_ok (bitmap_set (rq_mask (k_sched k)) (priority tc)) (with_links h k) _
    (bitmap_set_bit _ _ _ _ (sr_mask _ _ _ R)
       ltac:(rewrite (sr_bit_num _ _ _ R); exact Hp))) as ([] & v & Ev & Rv & Mv).
  rewrite (on_level_eq _ _ _ _ Hq).
  exists h, v, (<[THIS_RQ (priority tc) := ready_tag <$> ins q]> L). split; [exact Ev|].
  pose proof (Z2Nat.id (priority tc) ltac:(lia)) as Eid.
  split; [|split; [done|split]].
  - replace (THIS_RQ (priority tc)) with (THIS_RQ (Z.of_nat (Z.to_nat (priority tc))))
      in * by (by rewrite Eid).
    apply (rep_change_queue k qs L _ q); [done..| | | |].
    + by apply (modifies_keeps _ _ _ Mv).
    + rewrite list_fmap_insert. replace (nonempty (ins q)) with true; [done|].
      symmetry. apply bool_decide_eq_true. intros E0. specialize (Hins q). rewrite E0 in Hins.
      by apply Permutation_nil_cons in Hins.
    + intros x. rewrite Hins. intros [->|Hx]%elem_of_cons.
      * exists tc. by rewrite Eid.
      * by eapply (sr_queued _ _ _ R).
    + intros x Hx. left. rewrite Hins. by right.
  - eapply modifies_weaken; [exact Mv|]. intros a <-. by eapply mask_bit_byte.
  - by apply other_lists_update.
Qed.

Lemma rq_join_only_ok k qs L t tc :
  sched_rep k qs L -> k_tcbs k !! t = Some tc -> ~ queued t qs ->
  queues_become (scheduler_rq_join_only t k) k (enqueue (Z.to_nat (priority tc)) t qs) L.
Proof.
  intros R Ht Hnq. unfold scheduler_rq_join_only. erewrite bind_ok by by apply get_tcb_ok.
  apply (rq_insert_ok k qs L t tc list_push_back); try done.
  - intros q. by rewrite Permutation_app_comm.
  - intros q HL. rewrite fmap_app. apply list_push_back_spec; [apply R|done| |].
    + eapply not_queued_free; eauto.
    + by apply (sr_tcbs _ _ _ R t tc Ht).
Qed.

Lemma rq_jump_only_ok k qs L t tc :
  sched_rep k qs L -> k_tcbs k !! t = Some tc -> ~ queued t qs ->
  queues_become (scheduler_rq_jump_only t k) k
    (enqueue_front (Z.to_nat (priority tc)) t qs) L.
Proof.
  intros R Ht Hnq. unfold scheduler_rq_jump_only. erewrite bind_ok by by apply get_tcb_ok.
  apply (rq_insert_ok k qs L t tc list_push_front); try done.
  intros q HL. apply list_push_front_spec; [apply R|done| |].
  - eapply not_queued_free; eauto.
  - by apply (sr_tcbs _ _ _ R t tc Ht).
Qed.

Lemma filter_split (t : Z) q1 q2 :
  NoDup (q1 ++ t :: q2) -> filter (fun t' => t' <> t) (q1 ++ t :: q2) = q1 ++ q2.
Proof.
  intros (N1 & N2 & N3)%NoDup_app. rewrite filter_app, filter_head by done.
  f_equal. apply filter_other. intros H. by apply (N2 t H); left.
Qed.

Lemma rq_leave_only_ok k qs L t tc q :
  sched_rep k qs L -> k_tcbs k !! t = Some tc ->
  qs !! Z.to_nat (priority tc) = Some q -> t ∈ q ->
  queues_become (scheduler_rq_leave_only t k) k (leave (Z.to_nat (priority tc)) t qs) L.
Proof.
  intros R Ht Hq Hin. destruct (sr_tcbs _ _ _ R t tc Ht) as (Hp & _ & _ & _).
  pose proof (rep_wf _ _ _ R) as (_ & ND & _). specialize (ND _ _ Hq).
  apply list_elem_of_split in Hin as (q1 & q2 & ->).
  unfold leave. rewrite (on_level_eq _ _ _ _ Hq), filter_split by done.
  pose proof (Z2Nat.id (priority tc) ltac:(lia)) as Eid.
  pose proof (sr_rqs _ _ _ R _ _ Hq) as HL. rewrite Eid, fmap_app, fmap_cons in HL.
  destruct (zoom_lists_ok (list_remove (ready_tag t)) k _
    (list_remove_at (view lists_of k) _ _ _ _ _ (sr_lists _ _ _ R) HL)) as (h & E & HR & Hd).
  rewrite <- fmap_app in HR.
  unfold scheduler_rq_leave_only. erewrite bind_ok by by apply get_tcb_ok.
  erewrite bind_ok by exact E.
  erewrite bind_ok by (eapply zoom_ok, (list_empty_spec (view lists_of (with_links h k)));
    [exact HR|apply lookup_insert_eq]).
  set (L' := <[THIS_RQ (priority tc) := ready_tag <$> q1 ++ q2]> L).
  assert (Hother : other_lists L L') by by apply other_lists_update.
  assert (Hrep : forall v, modifies (mask_byte k) (k_vm k) v ->
    bitmap_rep v (rq_mask (k_sched k))
      (<[Z.to_nat (priority tc) := nonempty (q1 ++ q2)]> (nonempty <$> qs)) ->
    sched_rep (with_vm v (with_links h k)) (<[Z.to_nat (priority tc) := q1 ++ q2]> qs) L').
  { intros v Mv Rv. unfold L'. replace (THIS_RQ (priority tc))
      with (THIS_RQ (Z.of_nat (Z.to_nat (priority tc)))) by (by rewrite Eid).
    apply (rep_change_queue k qs L _ (q1 ++ t :: q2)); try done.
    - by rewrite Eid.
    - by apply (modifies_keeps _ _ _ Mv).
    - by rewrite list_fmap_insert.
    - intros x Hx. eapply (sr_queued _ _ _ R); [exact Hq|]. set_solver.
    - intros x Hx. rewrite Eid.
      assert (x = t \/ x ∈ q1 ++ q2) as [->|] by set_solver; [right|by left].
      rewrite fmap_app. eapply removed_not_owned; [apply R|exact HL]. }
  exists h. destruct (bool_decide_reflect (ready_tag <$> q1 ++ q2 = [])) as [E0|N0].
  - erewrite bind_ok by done.
    destruct (zoom_vm_ok (bitmap_clear (rq_mask (k_sched k)) (priority tc)) (with_links h k) _
      (bitmap_clear_bit _ _ _ _ (sr_mask _ _ _ R)
         ltac:(rewrite (sr_bit_num _ _ _ R); exact Hp))) as ([] & v & Ev & Rv & Mv).
    assert (Mv' : modifies (mask_byte k) (k_vm k) v).
    { eapply modifies_weaken; [exact Mv|]. intros a <-. by eapply mask_bit_byte. }
    exists v, L'. split; [exact Ev|]. split; [|done]. apply Hrep; [done|].
    apply fmap_nil_inv in E0. by rewrite E0.
  - exists (k_vm k), L'. split; [done|]. split; [|done]. apply Hrep; [done|].
    rewrite list_insert_id; [apply R|]. rewrite list_lookup_fmap, Hq. simpl. f_equal.
    unfold nonempty. rewrite !bool_decide_true; [done|..]; [intros E0; by rewrite E0 in N0|by destruct q1].
Qed.

(** ** Changes that leave the queues alone *)

Lemma rep_ext k k' qs L :
  k_links k' = k_links k -> k_vm k' = k_vm k -> k_tcbs k' = k_tcbs k ->
  rq_mask (k_sched k') = rq_mask (k_sched k) -> sched_rep k qs L -> sched_rep k' qs L.
Proof.
  intros E1 E2 E3 E4 []. constructor; rewrite ?E1, ?E2, ?E3, ?E4; try done.
Qed.

(** Any field of a control block may change; the priority only of a thread
    that is in no queue. *)
Lemma rep_tcb k qs L t tc tc' :
  sched_rep k qs L -> k_tcbs k !! t = Some tc ->
  (priority tc' = priority tc \/ (~ queued t qs /\ 0 <= priority tc' < PRIO_NUM)) ->
  (pg_dir tc' = pg_dir tc \/ pg_dir tc' = NULL \/ dir_ok (k_vm k) (pg_dir tc')) ->
  sched_rep (with_tcbs (<[t := tc']> (k_tcbs k)) k) qs L.
Proof.
  intros R Ht Hp Hd. pose proof (sr_tcbs _ _ _ R t tc Ht) as (P1 & P2 & P3 & P4).
  pose proof (sr_queued _ _ _ R) as Hqd. pose proof (sr_tcbs _ _ _ R) as Htcbs.
  pose proof (sr_ready _ _ _ R) as Hrd. pose proof (sr_aligned _ _ _ R) as Hal.
  assert (Hsome : forall x, is_Some (<[t := tc']> (k_tcbs k) !! x) -> is_Some (k_tcbs k !! x)).
  { intros x Hx. rewrite lookup_insert in Hx. case_decide; [by subst; rewrite Ht|done]. }
  destruct R. constructor; simpl; try done.
  - intros p q x Hq Hx. rewrite lookup_insert. case_decide as E; [subst x|by eapply Hqd].
    exists tc'. split; [done|]. destruct (Hqd _ _ _ Hq Hx) as (tc0 & E0 & E1).
    destruct Hp as [->|[Hn _]]; [congruence|]. destruct Hn. by exists p, q.
  - intros x xc. rewrite lookup_insert. case_decide as E; [|by apply Htcbs].
    intros [= <-]. subst x. split; [destruct Hp as [->|[_ ?]]; lia|]. split; [done|].
    split; [done|]. destruct Hd as [->|Hd]; done.
  - intros x Hx. by apply Hal, Hsome.
  - intros x Ho Hx. by apply Hrd, Hsome.
Qed.

Lemma rep_tcb_at k k' qs L t tc tc' :
  sched_rep k qs L -> k_tcbs k !! t = Some tc ->
  k_links k' = k_links k -> k_vm k' = k_vm k -> k_tcbs k' = <[t := tc']> (k_tcbs k) ->
  rq_mask (k_sched k') = rq_mask (k_sched k) ->
  (priority tc' = priority tc \/ (~ queued t qs /\ 0 <= priority tc' < PRIO_NUM)) ->
  pg_dir tc' = pg_dir tc -> sched_rep k' qs L.
Proof.
  intros R Ht E1 E2 E3 E4 Hp Hd.
  eapply rep_ext; [..|by apply (rep_tcb k qs L t tc tc'); auto]; done.
Qed.

(** A list that is no ready queue may change, as long as it takes no node of a
    ready queue. *)
Lemma rep_other_list k qs L l xs h :
  sched_rep k qs L -> l ∉ rq_addrs ->
  lists_rep h (<[l := xs]> L) -> dom h = dom (k_links k) ->
  (forall t, is_Some (k_tcbs k !! t) -> ready_tag t ∈ nodes l xs -> owned L (ready_tag t)) ->
  sched_rep (with_links h k) qs (<[l := xs]> L).
Proof.
  intros R Hl HL Hd Hnew. pose proof (sr_ready _ _ _ R) as Hrd.
  destruct R. constructor; simpl; try done.
  - intros p q Hq. rewrite lookup_insert_ne; [by apply sr_rqs0|]. intros ->. apply Hl.
    apply rq_addrs_level. apply lookup_lt_Some in Hq. unfold LEVELS, PRIO_NUM in *. lia.
  - intros t tc Ht. destruct (sr_tcbs0 t tc Ht) as (H1 & H2 & H3 & H4). do 2 (split; [done|]).
    split; [|done]. apply elem_of_dom. rewrite Hd. by apply elem_of_dom.
  - intros t (l' & ys & Hl' & Hin) Ht. apply Hrd; [|done].
    rewrite lookup_insert in Hl'. case_decide as E.
    + injection Hl' as <-. subst l'. by apply Hnew.
    + by exists l', ys.
Qed.

(** A ready queue holds no other node of a thread control block. *)
Lemma rq_nodes_only_ready k qs L l xs t off :
  sched_rep k qs L -> is_Some (k_tcbs k !! t) -> 0 <= off < TCB_SIZE -> off <> OFF_ready_tag ->
  L !! l = Some xs -> l ∈ rq_addrs -> t + off ∉ nodes l xs.
Proof.
  intros R Ht Hoff Hne HL (p & Hp & ->)%rq_addrs_inv Hin.
  pose proof (sr_aligned _ _ _ R t Ht) as Hal.
  destruct (lookup_lt_is_Some_2 qs p) as [q Hq]; [by rewrite (sr_levels _ _ _ R)|].
  rewrite (sr_rqs _ _ _ R _ _ Hq) in HL. injection HL as <-.
  unfold nodes, TCB_SIZE, PG_SIZE, LEVELS in *. apply elem_of_cons in Hin as [Hin|Hin].
  { rewrite THIS_RQ_byte in Hin by lia. unfold list_head, scheduler in Hin. zdiv_lia. }
  apply elem_of_app in Hin as [(u & Hu & Huq)%list_elem_of_fmap|Hin%list_elem_of_singleton].
  - destruct (sr_queued _ _ _ R _ _ _ Hq Huq) as (uc & Hu' & _).
    pose proof (sr_aligned _ _ _ R u ltac:(eauto)) as Hal'.
    unfold ready_tag, OFF_ready_tag, PG_SIZE in *. zdiv_lia.
  - rewrite THIS_RQ_byte in Hin by lia. unfold list_tail, scheduler in Hin. zdiv_lia.
Qed.

Lemma owned_other k' qs' L L' t off :
  sched_rep k' qs' L' -> other_lists L L' -> is_Some (k_tcbs k' !! t) ->
  0 <= off < TCB_SIZE -> off <> OFF_ready_tag -> owned L' (t + off) -> owned L (t + off).
Proof.
  intros R Ho Ht Hoff Hne (l & xs & Hl & Hin). exists l, xs. split; [|done].
  destruct (decide (l ∈ rq_addrs)) as [Hrq|Hn]; [|by rewrite <- Ho].
  by destruct (rq_nodes_only_ready _ _ _ _ _ _ _ R Ht Hoff Hne Hl Hrq).
Qed.

Lemma rep_cr3 k qs L d :
  d ∈ D -> sched_rep k qs L -> sched_rep (with_vm (under (k_vm k) d) k) qs L.
Proof.
  intros Hd []. constructor; simpl; try done.
  eapply bitmap_rep_ext; [|done]. intros a Va. by apply vm_switch_valid.
Qed.

(** ** Picking a thread *)

Lemma with_vm_id k : with_vm (k_vm k) k = k.
Proof. by destruct k. Qed.

Lemma first_run_ready qs p t r :
  first_ready qs = Some (p, t) -> first_run (nonempty <$> qs) true 1 r -> r = Z.of_nat p.
Proof.
  intros (q & Hq & Hlow)%first_ready_spec H.
  assert (Hrun : forall j, run (nonempty <$> qs) true 1 j <->
    exists q, qs !! j = Some q /\ q <> []).
  { intros j. unfold run. split.
    - intros Hr. specialize (Hr O ltac:(lia)). rewrite Nat.add_0_r, list_lookup_fmap in Hr.
      destruct (qs !! j) as [q'|]; [|done]. injection Hr as Hr%bool_decide_eq_true. eauto.
    - intros (q' & E & N) i Hi. replace (j + i)%nat with j by lia.
      rewrite list_lookup_fmap, E. simpl. f_equal. by apply bool_decide_eq_true. }
  assert (Hp : run (nonempty <$> qs) true 1 p) by (apply Hrun; eauto).
  destruct H as [[_ Hno]|(i & -> & Hi & Hmin)]; [by destruct (Hno p)|]. f_equal.
  destruct (Nat.lt_trichotomy i p) as [Hlt|[->|Hgt]]; [|done|by destruct (Hmin p)].
  rewrite Hrun, Hlow in Hi by done. destruct Hi as (? & [= <-] & ?). done.
Qed.

Lemma mask_scan k qs L :
  sched_rep k qs L -> exists r, zoom vm_of (bitmap_scan (rq_mask (k_sched k)) 1 1) k = Ok r k
    /\ first_run (nonempty <$> qs) true 1 r.
Proof.
  intros R. destruct (zoom_vm_ok (bitmap_scan (rq_mask (k_sched k)) (of_bool true) 1) k _
    (bitmap_scan_first _ _ _ true 1 (sr_mask _ _ _ R)
       ltac:(by rewrite (sr_bit_num _ _ _ R)) ltac:(lia))) as (r & v & E & -> & H).
  exists r. by rewrite with_vm_id in E.
Qed.

Lemma highest_rq_get_ok k qs L p t :
  sched_rep k qs L -> first_ready qs = Some (p, t) -> highest_rq_get k = Ok (Z.of_nat p) k.
Proof.
  intros R Hf. destruct (mask_scan _ _ _ R) as (r & E & Hr).
  unfold highest_rq_get. erewrite bind_ok by done. erewrite bind_ok by exact E.
  rewrite (first_run_ready _ _ _ _ Hf Hr). unfold mret, M_ret.
  apply first_ready_spec in Hf as (q & Hq & _). apply lookup_lt_Some in Hq.
  rewrite (sr_levels _ _ _ R) in Hq. unfold LEVELS in Hq. by rewrite u32_small by lia.
Qed.

Lemma lists_view_id k : put_view lists_of (view lists_of k) k = k.
Proof. by apply put_id. Qed.

Lemma next_thread_pick_ok k qs L p t :
  sched_rep k qs L -> first_ready qs = Some (p, t) -> next_thread_pick k = Ok t k.
Proof.
  intros R Hf. unfold next_thread_pick. erewrite bind_ok by by eapply highest_rq_get_ok.
  pose proof Hf as (q & Hq & _)%first_ready_spec.
  pose proof (sr_rqs _ _ _ R _ _ Hq) as HL.
  erewrite bind_ok.
  2: { eapply zoom_ok, (list_first_elem_spec (view lists_of k)); [apply R|exact HL]. }
  rewrite lists_view_id. unfold mret, M_ret.
  destruct (sr_queued _ _ _ R _ _ t Hq) as (tc & Ht & _); [left|].
  destruct (sr_tcbs _ _ _ R _ _ Ht) as (_ & Hr & _).
  simpl. by rewrite elem2entry_ready.
Qed.

(** The directory a thread runs under, and the stack its system calls use. *)
Definition dir_for (v : vm) (tc : tcb) (d : Z) : Prop :=
  if pg_dir tc =? NULL then d = KERNEL_PAGE_DIR_BASE_ADDR
  else translate v (pg_dir tc) = Some d.

Definition esp0_for (t : Z) (tc : tcb) (old : Z) : Z :=
  if pg_dir tc =? NULL then old else u32 (t + PG_SIZE).

(** The translation of a directory's address is not changed by a store that
    keeps the paging structures. *)
Lemma dir_for_keeps k qs L t tc v d : sched_rep k qs L -> k_tcbs k !! t = Some tc ->
  vm_keeps D v (k_vm k) -> dir_for (k_vm k) tc d -> dir_for v tc d.
Proof.
  intros R Ht [Ec [K _]]. unfold dir_for. destruct (Z.eqb_spec (pg_dir tc) NULL) as [|N]; [done|].
  destruct (sr_tcbs _ _ _ R t tc Ht) as (_ & _ & _ & [?|(Hva & _)]); [done|].
  assert (Kc : tables_kept (under v (cr3 v)) (under (k_vm k) (cr3 (k_vm k)))) by (rewrite Ec; apply K; left).
  pose proof (keeps_translate _ _ Kc _ Hva) as T.
  assert (U : forall s, under s (cr3 s) = s) by by intros []. rewrite !U in T. by rewrite <- T.
Qed.

Lemma page_dir_activate_ok k qs L t tc :
  sched_rep k qs L -> k_tcbs k !! t = Some tc ->
  exists d, d ∈ D /\ dir_for (k_vm k) tc d
    /\ page_dir_activate t k = Ok tt (with_vm (under (k_vm k) d) k).
Proof.
  intros R Ht. unfold page_dir_activate. erewrite bind_ok by by apply get_tcb_ok.
  unfold dir_for. destruct (Z.eqb_spec (pg_dir tc) NULL) as [E|N]; simpl negb; cbv iota.
  { exists KERNEL_PAGE_DIR_BASE_ADDR. split; [apply R|]. split; [done|].
    by erewrite bind_ok by done. }
  destruct (sr_tcbs _ _ _ R t tc Ht) as (_ & _ & _ & [?|(Hva & d & Hd & Hd0 & H)]); [done|].
  destruct (H (cr3 (k_vm k)) (sr_cr3 _ _ _ R)) as (Hs & T & W).
  assert (Eu : under (k_vm k) (cr3 (k_vm k)) = k_vm k) by by destruct (k_vm k).
  rewrite Eu in *. exists d. split; [done|]. split; [done|].
  erewrite bind_ok by (eapply zoom_ok, addr_v2p_ok; eauto).
  by erewrite zoom_ok by done.
Qed.

Lemma process_activate_ok k qs L t tc :
  sched_rep k qs L -> k_tcbs k !! t = Some tc ->
  exists d, d ∈ D /\ dir_for (k_vm k) tc d
    /\ process_activate t k
       = Ok tt (with_esp0 (esp0_for t tc (k_esp0 k)) (with_vm (under (k_vm k) d) k)).
Proof.
  intros R Ht. destruct (page_dir_activate_ok _ _ _ _ _ R Ht) as (d & Hd & Hf & E).
  exists d. split; [done|]. split; [done|]. unfold process_activate, esp0_for.
  erewrite bind_ok by exact E. erewrite bind_ok by by apply get_tcb_ok.
  destruct (pg_dir tc =? NULL); [|done]. simpl negb. cbv iota. unfold mret, M_ret.
  f_equal. symmetry. apply (with_esp0_id (with_vm (under (k_vm k) d) k)).
Qed.

Definition dispatched k (next : Z) (tn : tcb) (d : Z) : kernel :=
  with_esp0 (esp0_for next tn (k_esp0 k)) (with_vm (under (k_vm k) d)
    (with_sched (sched_running next (k_sched k))
      (with_tcbs (<[next := tcb_status TASK_RUNNING tn]> (k_tcbs k)) k))).

Lemma dispatch_to_ok k qs L t tn : sched_rep k qs L -> k_tcbs k !! t = Some tn ->
  exists d, d ∈ D /\ dir_for (k_vm k) tn d /\ dispatch_to t k = Ok tt (dispatched k t tn d)
    /\ sched_rep (dispatched k t tn d) qs L.
Proof.
  intros R Ht.
  assert (R1 : sched_rep (with_sched (sched_running t (k_sched k))
      (with_tcbs (<[t := tcb_status TASK_RUNNING tn]> (k_tcbs k)) k)) qs L).
  { eapply rep_ext; [..|by eapply (rep_tcb k _ _ t tn (tcb_status TASK_RUNNING tn)); auto];
      done. }
  destruct (process_activate_ok _ _ _ t (tcb_status TASK_RUNNING tn) R1
    (lookup_insert_eq _ _ _)) as (d & Hd & Hdf & E).
  exists d. do 2 (split; [done|]). split.
  - unfold dispatch_to. erewrite bind_ok by by apply on_tcb_ok. erewrite bind_ok by done. exact E.
  - eapply (rep_ext _ _ _ _); [..|by apply (rep_cr3 _ _ _ d Hd R1)]; done.
Qed.

Lemma dispatch_ok k qs L p next :
  sched_rep k qs L -> first_ready qs = Some (p, next) ->
  exists tn d, k_tcbs k !! next = Some tn /\ d ∈ D /\ dir_for (k_vm k) tn d
    /\ dispatch k = Ok next (dispatched k next tn d)
    /\ sched_rep (dispatched k next tn d) qs L.
Proof.
  intros R Hf. pose proof Hf as (q & Hq & _)%first_ready_spec.
  destruct (sr_queued _ _ _ R _ _ next Hq) as (tn & Ht & _); [left|].
  destruct (dispatch_to_ok k qs L next tn R Ht) as (d & Hd & Hdf & E & R').
  exists tn, d. do 3 (split; [done|]). split; [|exact R'].
  unfold dispatch. erewrite bind_ok by by eapply next_thread_pick_ok. by erewrite bind_ok by exact E.
Qed.

(** The control block of a thread whose time slice is over. *)
Definition next_priority (tc : tcb) : Z := u8 ((priority tc + 1) mod PRIO_NUM).
Definition requeued (tc : tcb) : tcb :=
  tcb_status TASK_READY
    (tcb_ticks (ticks_get (next_priority tc)) (tcb_priority (next_priority tc) tc)).

Lemma next_priority_level tc : 0 <= priority tc < PRIO_NUM ->
  0 <= next_priority tc < PRIO_NUM
  /\ Z.to_nat (next_priority tc) = next_level (Z.to_nat (priority tc)).
Proof.
  unfold next_priority, next_level, PRIO_NUM, LEVELS. intros H.
  rewrite u8_small by (pose proof (Z.mod_pos_bound (priority tc + 1) 32); lia).
  split; [apply Z.mod_pos_bound; lia|].
  rewrite Z2Nat.inj_mod by lia. f_equal. lia.
Qed.

Lemma slice_over_ok k qs L cur tc q :
  sched_rep k qs L -> k_tcbs k !! cur = Some tc -> status tc = TASK_RUNNING ->
  qs !! Z.to_nat (priority tc) = Some q -> cur ∈ q ->
  exists h v L', let k' := with_tcbs (<[cur := requeued tc]> (k_tcbs k))
                             (with_vm v (with_links h k)) in
    slice_over cur k = Ok tt k'
    /\ sched_rep k' (demote (Z.to_nat (priority tc)) cur qs) L'
    /\ dom h = dom (k_links k) /\ modifies (mask_byte k) (k_vm k) v /\ other_lists L L'.
Proof.
  intros R Ht Hs Hq Hin. destruct (sr_tcbs _ _ _ R _ _ Ht) as (Hp & _).
  destruct (next_priority_level tc Hp) as [Hp' Hlev].
  pose proof (leave_not_queued _ _ _ _ (rep_wf _ _ _ R) Hq Hin) as Hnq.
  unfold slice_over. erewrite bind_ok by by apply get_tcb_ok.
  rewrite bool_decide_true by done.
  destruct (rq_leave_only_ok _ _ _ _ _ _ R Ht Hq Hin) as (h1 & v1 & L1 & E1 & R1 & D1 & M1 & O1).
  erewrite bind_ok by exact E1. unfold thread_prio_change.
  erewrite bind_ok by by apply on_tcb_ok.
  set (tc1 := tcb_priority (next_priority tc) tc).
  assert (R2 : sched_rep (with_tcbs (<[cur := tc1]> (k_tcbs k)) (with_vm v1 (with_links h1 k)))
    (leave (Z.to_nat (priority tc)) cur qs) L1).
  { eapply (rep_tcb_at _ _ _ _ cur tc tc1 R1); by auto. }
  destruct (rq_join_only_ok _ _ _ cur tc1 R2 (lookup_insert_eq _ _ _) Hnq)
    as (h2 & v2 & L2 & E2 & R3 & D2 & M2 & O2).
  erewrite bind_ok by exact E2.
  erewrite bind_ok by (apply on_tcb_ok, lookup_insert_eq).
  erewrite on_tcb_ok by (apply lookup_insert_eq).
  change (priority tc1) with (next_priority tc) in R3. rewrite Hlev in R3.
  exists h2, v2, L2. split; [by simpl; rewrite !insert_insert_eq|]. split.
  - eapply (rep_tcb_at _ _ _ _ cur tc1 (requeued tc) R3 (lookup_insert_eq _ _ _)); auto.
    simpl. by rewrite insert_insert_eq.
  - split; [by rewrite D2|]. split; [by etransitivity|]. intros l Hl. by rewrite O2, O1.
Qed.

Definition sliced k cur tc h v : kernel :=
  with_sched (sched_need false (k_sched k))
    (with_tcbs (<[cur := requeued tc]> (k_tcbs k)) (with_vm v (with_links h k))).

(** The end of a time slice: the running thread is demoted, and the first
    thread of the queues is picked. *)
Lemma main_schedule_slice k qs L cur tc q p next :
  sched_rep k qs L -> running_thread (k_sched k) = cur -> need_schedule (k_sched k) = true ->
  k_tcbs k !! cur = Some tc -> status tc = TASK_RUNNING ->
  qs !! Z.to_nat (priority tc) = Some q -> cur ∈ q ->
  first_ready (demote (Z.to_nat (priority tc)) cur qs) = Some (p, next) ->
  exists h v L' tn d, let k1 := sliced k cur tc h v in
    k_tcbs k1 !! next = Some tn /\ d ∈ D /\ dir_for (k_vm k) tn d
    /\ main_schedule k = Ok next (dispatched k1 next tn d)
    /\ sched_rep (dispatched k1 next tn d) (demote (Z.to_nat (priority tc)) cur qs) L'
    /\ dom h = dom (k_links k) /\ modifies (mask_byte k) (k_vm k) v /\ other_lists L L'.
Proof.
  intros R <- Hneed Ht Hs Hq Hin Hf.
  set (k0 := with_sched (sched_need false (k_sched k)) k).
  assert (R0 : sched_rep k0 qs L) by by apply (rep_ext k).
  destruct (slice_over_ok k0 _ _ _ _ _ R0 Ht Hs Hq Hin) as (h & v & L' & E & R1 & Hd & Hm & Ho).
  destruct (dispatch_ok _ _ _ _ _ R1 Hf) as (tn & d & Hn & HD & Hdir & E' & R2).
  assert (K : vm_keeps D (k_vm k) v) by exact (modifies_keeps _ _ _ Hm).
  exists h, v, L', tn, d. do 2 (split; [done|]). split; [exact (dir_for_keeps _ _ _ _ _ _ _ R1 Hn K Hdir)|].
  split; [|done].
  unfold main_schedule. erewrite bind_ok by done. erewrite bind_ok by by apply get_tcb_ok.
  erewrite bind_ok by done. rewrite Hneed. erewrite bind_ok by done.
  by erewrite bind_ok by exact E.
Qed.

Lemma main_schedule_same k cur tc :
  running_thread (k_sched k) = cur -> k_tcbs k !! cur = Some tc ->
  need_schedule (k_sched k) = false -> main_schedule k = Ok cur k.
Proof.
  intros <- Ht Hn. unfold main_schedule. erewrite bind_ok by done.
  erewrite bind_ok by by apply get_tcb_ok. erewrite bind_ok by done. by rewrite Hn.
Qed.

(** A thread that is not running any more gives the processor away. *)
Lemma main_schedule_leaves k cur tc :
  running_thread (k_sched k) = cur -> k_tcbs k !! cur = Some tc ->
  need_schedule (k_sched k) = true -> status tc <> TASK_RUNNING ->
  main_schedule k = dispatch (with_sched (sched_need false (k_sched k)) k).
Proof.
  intros <- Ht Hn Hs. unfold main_schedule. erewrite bind_ok by done.
  erewrite bind_ok by by apply get_tcb_ok. erewrite bind_ok by done. rewrite Hn.
  erewrite bind_ok by done. erewrite bind_ok; [done|].
  unfold slice_over. erewrite bind_ok by by apply get_tcb_ok.
  by rewrite bool_decide_false.
Qed.

(** ** Blocking and waking *)

(** The state [thread_block] leaves behind, before the next thread is
    dispatched. *)
Definition slept k (r : Z) (tc : tcb) (st : task_status) h v : kernel :=
  with_eflags (with_if false (k_eflags k)) (with_sched (sched_need false (k_sched k))
    (with_tcbs (<[r := tcb_status st tc]> (k_tcbs k)) (with_vm v (with_links h k)))).

Lemma may_block_not_running st : may_block st = true -> st <> TASK_RUNNING /\ st <> TASK_READY.
Proof. by destruct st. Qed.

Lemma zoom_eflags_disable k : zoom eflags_of intr_disable k
  = Ok (status_of (if_flag (k_eflags k))) (with_eflags (with_if false (k_eflags k)) k).
Proof. by erewrite zoom_ok by apply intr_disable_ok. Qed.

Lemma zoom_eflags_restore b k : zoom eflags_of (intr_set_status (status_of b)) k
  = Ok (status_of (if_flag (k_eflags k))) (with_eflags (with_if b (k_eflags k)) k).
Proof. by erewrite zoom_ok by apply intr_set_status_ok. Qed.

Lemma rq_leave_ok k k' t :
  scheduler_rq_leave_only t k = Ok tt k' ->
  scheduler_rq_leave t k =
    Ok tt (if t =? running_thread (k_sched k') then with_sched (sched_need true (k_sched k')) k'
           else k').
Proof.
  intros E. unfold scheduler_rq_leave. erewrite bind_ok by exact E.
  erewrite bind_ok by done. by destruct (t =? _).
Qed.

Lemma schedule_runs k : need_schedule (k_sched k) = true ->
  schedule k = (next ← main_schedule;
                if next =? running_thread (k_sched k) then mret tt else switch_away) k.
Proof. unfold schedule, mbind, M_bind, gets, RUNNING_THREAD. by intros ->. Qed.

(** [thread_block] from the call of [next_thread_pick] on. *)
Definition block_rest (r : Z) (int_save : intr_status) : M kernel unit :=
  (next ← dispatch; if next =? r then mret tt else switch_away);;
  zoom eflags_of (intr_set_status int_save);;
  mret tt.

Lemma thread_block_runs k qs L r tc st q :
  sched_rep k qs L -> running_thread (k_sched k) = r -> k_tcbs k !! r = Some tc ->
  may_block st = true -> qs !! Z.to_nat (priority tc) = Some q -> r ∈ q ->
  exists h v L',
    sched_rep (slept k r tc st h v) (leave (Z.to_nat (priority tc)) r qs) L'
    /\ dom h = dom (k_links k) /\ modifies (mask_byte k) (k_vm k) v /\ other_lists L L'
    /\ thread_block st k = block_rest r (status_of (if_flag (k_eflags k))) (slept k r tc st h v).
Proof.
  intros R <- Ht Hst Hq Hin. set (r := running_thread (k_sched k)) in *.
  set (k1 := with_tcbs (<[r := tcb_status st tc]> (k_tcbs k))
    (with_eflags (with_if false (k_eflags k)) k)).
  assert (R1 : sched_rep k1 qs L) by (apply (rep_tcb_at k _ _ _ r tc (tcb_status st tc)); auto).
  destruct (rq_leave_only_ok k1 qs L r (tcb_status st tc) q R1 (lookup_insert_eq _ _ _) Hq Hin)
    as (h & v & L' & E & R2 & Hd & Hm & Ho).
  exists h, v, L'. split; [by apply (rep_ext _ (slept k r tc st h v)) in R2|]. do 3 (split; [done|]).
  pose proof (rq_leave_ok _ _ _ E) as E'. rewrite Z.eqb_refl in E'.
  unfold thread_block. rewrite Hst. erewrite bind_ok by done.
  erewrite bind_ok by apply zoom_eflags_disable. erewrite bind_ok by done.
  erewrite bind_ok by by apply on_tcb_ok. erewrite bind_ok by done.
  erewrite bind_ok by exact E'.
  unfold block_rest. unfold mbind at 1 3, M_bind at 1 3. rewrite schedule_runs by done.
  unfold mbind at 1, M_bind at 1.
  by rewrite (main_schedule_leaves _ r (tcb_status st tc));
    [|done|apply lookup_insert_eq|done|apply may_block_not_running].
Qed.

Lemma thread_block_ok k qs L r tc st q p next :
  sched_rep k qs L -> running_thread (k_sched k) = r -> k_tcbs k !! r = Some tc ->
  may_block st = true -> qs !! Z.to_nat (priority tc) = Some q -> r ∈ q ->
  first_ready (leave (Z.to_nat (priority tc)) r qs) = Some (p, next) ->
  exists h v L' tn d, let k1 := slept k r tc st h v in
    next <> r /\ k_tcbs k1 !! next = Some tn /\ d ∈ D /\ dir_for v tn d
    /\ thread_block st k = Switched (dispatched k1 next tn d)
    /\ sched_rep (dispatched k1 next tn d) (leave (Z.to_nat (priority tc)) r qs) L'
    /\ dom h = dom (k_links k) /\ modifies (mask_byte k) (k_vm k) v /\ other_lists L L'.
Proof.
  intros R Hr Ht Hst Hq Hin Hf.
  destruct (thread_block_runs _ _ _ _ _ _ _ R Hr Ht Hst Hq Hin)
    as (h & v & L' & R1 & Hd & Hm & Ho & E).
  destruct (dispatch_ok _ _ _ _ _ R1 Hf) as (tn & d & Hn & HD & Hdir & E' & R2).
  assert (next <> r).
  { intros ->. eapply (leave_not_queued _ r qs); [by eapply rep_wf|done..|].
    apply first_ready_spec in Hf as (q' & Hq' & _). exists p, (r :: q'). split; [done|left]. }
  exists h, v, L', tn, d. do 4 (split; [done|]). split; [|done].
  rewrite E. unfold block_rest, mbind, M_bind. rewrite E'. by rewrite (proj2 (Z.eqb_neq _ _)).
Qed.

(** [scheduler_rq_join] and [scheduler_rq_jump] ask for a new schedule when
    the thread has a higher priority than the running one. *)
Definition preempted k (prio : Z) : sched :=
  match k_tcbs k !! running_thread (k_sched k) with
  | Some rt => if prio <? priority rt then sched_need true (k_sched k) else k_sched k
  | None => k_sched k
  end.

Lemma preempt_check_ok k t tc :
  k_tcbs k !! t = Some tc -> is_Some (k_tcbs k !! running_thread (k_sched k)) ->
  preempt_check t k = Ok tt (with_sched (preempted k (priority tc)) k).
Proof.
  intros Ht [rt Hr]. unfold preempt_check, preempted. erewrite bind_ok by done.
  erewrite bind_ok by by apply get_tcb_ok. erewrite bind_ok by by apply get_tcb_ok.
  rewrite Hr. destruct (priority tc <? priority rt); [done|]. by destruct k.
Qed.

(** The state [thread_unblock] leaves. *)
Definition woken k (t : Z) (tc : tcb) h v : kernel :=
  with_sched (preempted k (priority tc))
    (with_tcbs (<[t := tcb_status TASK_READY tc]> (k_tcbs k)) (with_vm v (with_links h k))).

Lemma rep_preempted k qs L prio :
  sched_rep k qs L -> sched_rep (with_sched (preempted k prio) k) qs L.
Proof.
  apply rep_ext; try done. simpl. unfold preempted.
  destruct (k_tcbs k !! _); [|done]. by destruct (_ <? _).
Qed.

Lemma thread_unblock_ok k qs L t tc :
  sched_rep k qs L -> k_tcbs k !! t = Some tc -> may_block (status tc) = true ->
  ~ queued t qs -> is_Some (k_tcbs k !! running_thread (k_sched k)) ->
  exists h v L',
    thread_unblock t k = Ok tt (woken k t tc h v)
    /\ sched_rep (woken k t tc h v) (enqueue_front (Z.to_nat (priority tc)) t qs) L'
    /\ dom h = dom (k_links k) /\ modifies (mask_byte k) (k_vm k) v /\ other_lists L L'.
Proof.
  intros R Ht Hst Hnq [rt Hr].
  set (k1 := with_tcbs (<[t := tcb_status TASK_READY tc]> (k_tcbs k))
    (with_eflags (with_if false (k_eflags k)) k)).
  assert (R1 : sched_rep k1 qs L)
    by (apply (rep_tcb_at k _ _ _ t tc (tcb_status TASK_READY tc)); auto).
  destruct (rq_jump_only_ok k1 qs L t _ R1 (lookup_insert_eq _ _ _) Hnq)
    as (h & v & L' & E & R2 & Hd & Hm & Ho).
  assert (Hp : preempted (with_vm v (with_links h k1)) (priority tc) = preempted k (priority tc)).
  { unfold preempted. simpl. rewrite Hr, lookup_insert. case_decide as Et; [|by rewrite Hr].
    subst t. rewrite Ht in Hr. injection Hr as <-. done. }
  exists h, v, L'. split.
  - unfold thread_unblock. erewrite bind_ok by by apply get_tcb_ok. rewrite Hst.
    erewrite bind_ok by done. erewrite bind_ok by apply zoom_eflags_disable.
    erewrite bind_ok by by apply on_tcb_ok. unfold scheduler_rq_jump.
    erewrite bind_ok.
    2: { erewrite bind_ok by exact E. eapply preempt_check_ok; [apply lookup_insert_eq|].
         simpl. rewrite lookup_insert. case_decide; eauto. }
    erewrite bind_ok by apply zoom_eflags_restore. simpl priority. rewrite Hp.
    unfold mret, M_ret. simpl. by rewrite with_if_with_if, with_if_same.
  - split; [|done]. apply (rep_preempted _ _ _ (priority tc)) in R2. rewrite Hp in R2.
    by apply (rep_ext _ (woken k t tc h v)) in R2.
Qed.

Lemma rq_join_ok k qs L t tc :
  sched_rep k qs L -> k_tcbs k !! t = Some tc -> ~ queued t qs ->
  is_Some (k_tcbs k !! running_thread (k_sched k)) ->
  exists h v L', let k' := with_sched (preempted k (priority tc)) (with_vm v (with_links h k)) in
    scheduler_rq_join t k = Ok tt k'
    /\ sched_rep k' (enqueue (Z.to_nat (priority tc)) t qs) L'
    /\ dom h = dom (k_links k) /\ modifies (mask_byte k) (k_vm k) v /\ other_lists L L'.
Proof.
  intros R Ht Hnq Hr. destruct (rq_join_only_ok _ _ _ _ _ R Ht Hnq)
    as (h & v & L' & E & R1 & Hd & Hm & Ho).
  exists h, v, L'. split; [|split; [|done]].
  - unfold scheduler_rq_join. erewrite bind_ok by exact E.
    by erewrite preempt_check_ok by done.
  - by apply (rep_preempted _ _ _ (priority tc)) in R1.
Qed.

(** When no thread is ready the bitmap scan finds nothing: the queue number is
    [(uint32_t)-1], and the address of the queue wraps around to the words in
    front of the queues. *)
Lemma highest_rq_get_none k qs L :
  sched_rep k qs L -> first_ready qs = None -> highest_rq_get k = Ok 0xffffffff k.
Proof.
  intros R Hf. destruct (mask_scan _ _ _ R) as (r & E & Hr).
  assert (r = -1) as ->.
  { destruct Hr as [[? _]|(i & -> & Hi & _)]; [done|]. specialize (Hi O ltac:(lia)).
    rewrite first_ready_none in Hf. rewrite list_lookup_fmap in Hi.
    destruct (qs !! (i + 0)%nat) as [q|] eqn:Hq; [|done]. by rewrite (Hf _ _ Hq) in Hi. }
  unfold highest_rq_get. erewrite bind_ok by done. by erewrite bind_ok by exact E.
Qed.

(** What is picked from a list at [rq]. *)
Definition pick_from (rq : Z) : M kernel Z :=
  next_tag ← zoom lists_of (list_first_elem rq);
  mret (ELEM2ENTRY OFF_ready_tag next_tag).

Lemma next_thread_pick_wild k qs L : sched_rep k qs L -> first_ready qs = None ->
  next_thread_pick k = pick_from (scheduler + 520) k.
Proof.
  intros R Hf. unfold next_thread_pick. by erewrite bind_ok by by eapply highest_rq_get_none.
Qed.

Lemma next_thread_pick_none k qs L :
  sched_rep k qs L -> first_ready qs = None ->
  k_links k !! THIS_RQ 0xffffffff = None -> next_thread_pick k = Fault.
Proof.
  intros R Hf Hno. rewrite (next_thread_pick_wild _ _ _ R Hf). apply bind_fault.
  change (THIS_RQ 0xffffffff) with (scheduler + 520) in Hno.
  unfold zoom, list_first_elem, rd_next, deref, list_head. simpl in *. by rewrite Hno.
Qed.

(** So the last ready thread must not block. *)
Lemma thread_block_last k qs L r tc st q :
  sched_rep k qs L -> running_thread (k_sched k) = r -> k_tcbs k !! r = Some tc ->
  may_block st = true -> qs !! Z.to_nat (priority tc) = Some q -> r ∈ q ->
  first_ready (leave (Z.to_nat (priority tc)) r qs) = None ->
  k_links k !! THIS_RQ 0xffffffff = None -> thread_block st k = Fault.
Proof.
  intros R Hr Ht Hst Hq Hin Hf Hno.
  destruct (thread_block_runs _ _ _ _ _ _ _ R Hr Ht Hst Hq Hin)
    as (h & v & L' & R1 & Hd & Hm & Ho & E).
  rewrite E. unfold block_rest. do 2 apply bind_fault. unfold dispatch. apply bind_fault.
  eapply next_thread_pick_none; [exact R1|exact Hf|]. apply not_elem_of_dom. simpl.
  rewrite Hd. by apply not_elem_of_dom.
Qed.

(** A demoted thread is still ready. *)
Lemma demote_ready k qs L cur tc q :
  sched_rep k qs L -> qs !! Z.to_nat (priority tc) = Some q -> cur ∈ q ->
  exists p next, first_ready (demote (Z.to_nat (priority tc)) cur qs) = Some (p, next).
Proof.
  intros R Hq Hin. pose proof (rep_wf _ _ _ R) as W.
  destruct (first_ready (demote _ cur qs)) as [[p next]|] eqn:Hf; [eauto|].
  rewrite first_ready_none in Hf. exfalso.
  pose proof (lookup_lt_Some _ _ _ Hq) as Hlt. rewrite (proj1 W) in Hlt.
  destruct (lookup_lt_is_Some_2 (leave (Z.to_nat (priority tc)) cur qs)
    (next_level (Z.to_nat (priority tc)))) as [q1 Hq1].
  { rewrite (proj1 (leave_wf _ _ _ W)). destruct (next_level_cases _ Hlt) as [[? ->]|[? ->]]; [done|].
    unfold LEVELS. lia. }
  unfold demote, enqueue in Hf. rewrite (on_level_eq _ _ _ _ Hq1) in Hf.
  specialize (Hf (next_level (Z.to_nat (priority tc))) (q1 ++ [cur])).
  rewrite list_lookup_insert_eq in Hf by (by eapply lookup_lt_Some).
  by specialize (Hf eq_refl); destruct q1.
Qed.

(** The thread that has the processor. *)
Definition running k qs (n : Z) : Prop :=
  running_thread (k_sched k) = n /\ exists tc q, k_tcbs k !! n = Some tc
    /\ status tc = TASK_RUNNING /\ qs !! Z.to_nat (priority tc) = Some q /\ n ∈ q.

Lemma dispatched_running k qs L p next tn d :
  sched_rep (dispatched k next tn d) qs L -> first_ready qs = Some (p, next) ->
  k_tcbs k !! next = Some tn -> running (dispatched k next tn d) qs next.
Proof.
  intros R (q & Hq & _)%first_ready_spec Htn. split; [done|].
  destruct (sr_queued _ _ _ R _ _ next Hq) as (tc & Ht & Hp); [left|].
  exists tc, (next :: q). split; [done|]. simpl in Ht. rewrite lookup_insert_eq in Ht.
  injection Ht as <-. split; [done|]. rewrite Hp, Nat2Z.id. split; [done|left].
Qed.

(** What every interrupt ends with: some ready thread runs, the others are
    where they were, and no other list or object changes. *)
Lemma main_schedule_any k qs L cur :
  sched_rep k qs L -> running k qs cur ->
  exists n k' qs' L', main_schedule k = Ok n k' /\ sched_rep k' qs' L' /\ running k' qs' n
    /\ other_lists L L' /\ (forall t, queued t qs' <-> queued t qs)
    /\ (forall t, t <> cur -> t <> n -> k_tcbs k' !! t = k_tcbs k !! t)
    /\ dom (k_tcbs k') = dom (k_tcbs k) /\ dom (k_links k') = dom (k_links k)
    /\ k_sems k' = k_sems k /\ k_holders k' = k_holders k.
Proof.
  intros R Hrun. pose proof Hrun as (Hr & tc & q & Ht & Hs & Hq & Hin).
  destruct (need_schedule (k_sched k)) eqn:Hneed.
  2: { exists cur, k, qs, L. by erewrite main_schedule_same by done. }
  destruct (demote_ready _ _ _ _ _ _ R Hq Hin) as (p & next & Hf).
  destruct (main_schedule_slice _ _ _ _ _ _ _ _ R Hr Hneed Ht Hs Hq Hin Hf)
    as (h & v & L' & tn & d & Hn & _ & _ & E & R' & Hd & Hm & Ho).
  eexists next, _, _, L'. split; [exact E|]. split; [exact R'|].
  split; [by eapply dispatched_running|]. split; [done|].
  split; [intros t; by eapply demote_queued; [eapply rep_wf|..]|].
  split; [intros t N1 N2; simpl; by rewrite !lookup_insert_ne|].
  split; [|done]. simpl in *. rewrite !dom_insert_L. apply elem_of_dom_2 in Ht, Hn.
  rewrite dom_insert_L in Hn. set_solver.
Qed.

Lemma preempted_running k prio :
  running_thread (preempted k prio) = running_thread (k_sched k).
Proof.
  unfold preempted. destruct (k_tcbs k !! running_thread (k_sched k)) as [rt|]; [|done].
  by destruct (prio <? priority rt).
Qed.

(** A thread that is put in front of a queue leaves the running one where it is. *)
Lemma running_front k k' qs r p t tc' :
  running k qs r -> running_thread (k_sched k') = r -> k_tcbs k' = <[t := tc']> (k_tcbs k) ->
  t <> r -> running k' (enqueue_front p t qs) r.
Proof.
  intros (Hr & tc & q & Htc & Hst & Hq & Hin) Hr' Et Hne. split; [done|]. exists tc.
  rewrite Et, lookup_insert_ne by done. unfold enqueue_front. rewrite on_level_lookup.
  case_decide as E.
  - subst p. rewrite Hq. eexists. do 3 (split; [done|]). by right.
  - by exists q.
Qed.

End Refinement.
End Sched.
