(* ===== verification/Machine.v ===== *)
(** A small concrete machine: a paged memory, lists and threads on which the
    theorems about the kernel are instantiated.

    The page directory and the one page table stand where the loader puts
    them, at 0x100000 and 0x101000.  [paged] builds such a memory; [machine] is
    the one of a running kernel, whose table maps the page of the pool bitmaps,
    the screen, and the first page of the kernel heap, where the scheduler's
    ready mask is. *)

From S2P Require Import Prelude Bytes Bitmap LinkedList Paging PageTable Ports Descriptors Kernel.
From S2P Require Import ReadyQueues Sched.

Module Machine.
Import Bitmap LinkedList Paging PageTable Kernel ReadyQueues Sched.

(** ** Paged memory *)

Definition PD : Z := 0x100000.
Definition PT : Z := 0x101000.

Definition word_bytes (a w : Z) : list (Z * Z) :=
  [(a, u8 w); (a + 1, u8 (Z.shiftr w 8)); (a + 2, u8 (Z.shiftr w 16));
   (a + 3, u8 (Z.shiftr w 24))].

Definition page_va (i : Z) : Z := 0xc0000000 + 4096 * i.

(** Entries of the directory that are there and not present. *)
Definition absent_dirs : list Z := seqZ 769 254.

(** Memory with page tables: [ps] gives the entries of the page table, index
    and frame, [ab] those that are there and not present, [dirs] the directory
    entries that lead to the table. *)
Definition entries (dirs : list Z) (ps : list (Z * Z)) (ab : list Z) : list (Z * Z) :=
  mjoin ((fun i => word_bytes (PD + 4 * i) (PT + 7)) <$> dirs) ++ word_bytes (PD + 4 * 1023) (PD + 7)
  ++ mjoin ((fun '(i, f) => word_bytes (PT + 4 * i) (f + 7)) <$> ps)
  ++ mjoin ((fun i => word_bytes (PT + 4 * i) 0) <$> ab)
  ++ mjoin ((fun i => word_bytes (PD + 4 * i) 0) <$> absent_dirs).

Definition page_tables dirs ps ab : gmap Z Z := list_to_map (entries dirs ps ab).

(** The machine whose other memory holds [data]. *)
Definition paged dirs ps ab (data : gmap Z Z) : vm := mkVm (page_tables dirs ps ab ∪ data) PD.

Definition layout_ok (dirs : list Z) (ps : list (Z * Z)) (ab : list Z) : bool :=
  let t := page_tables dirs ps ab in
  bool_decide (NoDup ps.*1 /\ NoDup ps.*2)
  && forallb (fun i => bool_decide (0 <= i <= 768 /\ ld32p t (PD + 4 * i) = Some (PT + 7))) dirs
  && bool_decide (768 ∈ dirs) && bool_decide (ld32p t (PD + 4 * 1023) = Some (PD + 7))
  && forallb (fun '(i, f) => bool_decide (0 <= i < 1023 /\ 0 <= f /\ f mod 4096 = 0 /\ f <> PD /\ f <> PT
       /\ ld32p t (PT + 4 * i) = Some (f + 7))) ps
  && forallb (fun i => bool_decide (0 <= i < 1024 /\ ld32p t (PT + 4 * i) = Some 0)) ab
  && forallb (fun i => bool_decide (ld32p t (PD + 4 * i) = Some 0)) absent_dirs.

(** ** The contents of memory

    [bytes_ok]: bytes, outside the page tables.  [room m p n]: [m] has the [n]
    bytes from [p]. *)
Definition bytes_ok (m : gmap Z Z) : Prop :=
  forall p v, m !! p = Some v -> is_u8 v /\ (p < PD \/ PT + 4096 <= p).
Definition room (m : gmap Z Z) (p n : Z) : Prop := forall o, 0 <= o < n -> is_Some (m !! (p + o)).

Lemma bytes_ok_union m1 m2 : bytes_ok m1 -> bytes_ok m2 -> bytes_ok (m1 ∪ m2).
Proof. intros H1 H2 p v [H|[_ H]]%lookup_union_Some_raw; [by apply H1|by apply H2]. Qed.

Lemma bytes_ok_block a l : Forall (fun v => is_u8 v) l ->
  a + Z.of_nat (length l) <= PD \/ PT + 4096 <= a -> bytes_ok (FlatMem.of_list a l).
Proof.
  intros F Ha p v [Hp Hv]%lookup_map_seqZ_Some. pose proof (lookup_lt_Some _ _ _ Hv).
  split; [|lia]. rewrite Forall_forall in F. by eapply F, list_elem_of_lookup_2.
Qed.

Lemma room_block a l p n : a <= p -> p + n <= a + Z.of_nat (length l) -> room (FlatMem.of_list a l) p n.
Proof.
  intros Hp Hn o Ho. apply lookup_map_seqZ_is_Some. lia.
Qed.

Lemma room_union_l m1 m2 p n : room m1 p n -> room (m1 ∪ m2) p n.
Proof. intros H o Ho. apply lookup_union_is_Some. left. by apply H. Qed.

Lemma room_union_r m1 m2 p n : room m2 p n -> room (m1 ∪ m2) p n.
Proof. intros H o Ho. apply lookup_union_is_Some. right. by apply H. Qed.

(** Small contents are checked. *)
Definition data_check (m : gmap Z Z) : bool :=
  forallb (fun '(p, v) => bool_decide (0 <= v < 256 /\ (p < PD \/ PT + 4096 <= p))) (map_to_list m).

Lemma data_check_ok m : data_check m = true -> bytes_ok m.
Proof.
  unfold data_check. rewrite forallb_forall. intros Hd p v H. specialize (Hd (p, v)
    ltac:(by apply list_elem_of_In, elem_of_map_to_list)). by apply bool_decide_eq_true in Hd.
Qed.

(** A bitmap in the mapped page [i], checked bit by bit. *)
Definition paged_bitmap_check (ps : list (Z * Z)) (m : gmap Z Z) (i f o n : Z) (bits : list bool) : bool :=
  bool_decide (0 <= o /\ 0 < n < 2 ^ 31 /\ o + bit_num_2_byte_len n <= 4096
    /\ (i, f) ∈ ps /\ length bits = Z.to_nat n)
  && forallb (fun j => bool_decide (is_Some (m !! (f + o + Z.of_nat j))))
       (seq 0 (Z.to_nat (bit_num_2_byte_len n)))
  && forallb (fun j => bool_decide
       ((fun c => Z.testbit c (Z.of_nat j mod 8)) <$> m !! (f + o + Z.of_nat j / 8)
        = bits !! j)) (seq 0 (length bits)).

Section Paged.
Context (dirs : list Z) (ps : list (Z * Z)) (ab : list Z) (Hlayout : layout_ok dirs ps ab = true).
Context (data : gmap Z Z) (Hdata : bytes_ok data).

#[local] Notation tables := (page_tables dirs ps ab).

Lemma layout_dirs i : i ∈ dirs -> 0 <= i <= 768 /\ ld32p tables (PD + 4 * i) = Some (PT + 7).
Proof.
  unfold layout_ok in Hlayout. rewrite !andb_true_iff, forallb_forall in Hlayout.
  intros Hi. destruct Hlayout as [[[[[[_ H] _] _] _] _] _]. apply list_elem_of_In in Hi.
  specialize (H i Hi). by apply bool_decide_eq_true in H.
Qed.

Lemma layout_kernel : 768 ∈ dirs /\ ld32p tables (PD + 4 * 1023) = Some (PD + 7).
Proof.
  unfold layout_ok in Hlayout. rewrite !andb_true_iff, !bool_decide_eq_true in Hlayout.
  by destruct Hlayout as [[[[[_ H1] H2] _] _] _].
Qed.

Lemma layout_page i f : (i, f) ∈ ps -> (0 <= i < 1023 /\ 0 <= f /\ f mod 4096 = 0 /\ f <> PD /\ f <> PT)
  /\ ld32p tables (PT + 4 * i) = Some (f + 7).
Proof.
  unfold layout_ok in Hlayout. rewrite !andb_true_iff, !forallb_forall in Hlayout.
  intros Hi. destruct Hlayout as [[[_ H] _] _]. apply list_elem_of_In in Hi.
  specialize (H (i, f) Hi). apply bool_decide_eq_true in H. tauto.
Qed.

Lemma layout_absent i : i ∈ ab -> 0 <= i < 1024 /\ ld32p tables (PT + 4 * i) = Some 0.
Proof.
  unfold layout_ok in Hlayout. rewrite !andb_true_iff, !forallb_forall in Hlayout.
  intros Hi. destruct Hlayout as [[_ H] _]. apply list_elem_of_In in Hi.
  specialize (H i Hi). by apply bool_decide_eq_true in H.
Qed.

Lemma layout_upper i : 769 <= i < 1023 -> ld32p tables (PD + 4 * i) = Some 0.
Proof.
  unfold layout_ok in Hlayout. rewrite !andb_true_iff, !forallb_forall in Hlayout.
  intros Hi. destruct Hlayout as [_ H]. specialize (H i). apply bool_decide_eq_true in H; [done|].
  apply list_elem_of_In, elem_of_seqZ. lia.
Qed.

(** A page has one frame and a frame one page. *)
Lemma layout_unique i f j g : (i, f) ∈ ps -> (j, g) ∈ ps -> i = j \/ f = g -> i = j /\ f = g.
Proof.
  unfold layout_ok in Hlayout. rewrite !andb_true_iff, !bool_decide_eq_true in Hlayout.
  destruct Hlayout as [[[[[[[N1 N2] _] _] _] _] _] _]. revert N1 N2.
  induction ps as [|[x y] l IH]; intros N1 N2 H1 H2 E; [by apply not_elem_of_nil in H1|].
  apply NoDup_cons in N1 as [A1 N1], N2 as [A2 N2].
  assert (Hin : forall x y, (x, y) ∈ l -> x ∈ l.*1 /\ y ∈ l.*2).
  { intros x' y' H. split; apply list_elem_of_fmap; by exists (x', y'). }
  apply elem_of_cons in H1 as [[= -> ->]|H1], H2 as [[= -> ->]|H2]; [done| | |by apply IH].
  - destruct (Hin _ _ H2). destruct E as [->| ->]; [by destruct A1|by destruct A2].
  - destruct (Hin _ _ H1). destruct E as [<-|<-]; [by destruct A1|by destruct A2].
Qed.

Lemma tables_cases q v : tables !! q = Some v -> (q, v) ∈ entries dirs ps ab.
Proof. apply elem_of_list_to_map_2. Qed.

Lemma machine_low q v : (tables ∪ data) !! q = Some v -> PD <= q < PT + 4096 ->
  tables !! q = Some v.
Proof.
  intros [H|[_ H]]%lookup_union_Some_raw Hq; [done|]. destruct (Hdata _ _ H) as [_ ?]. lia.
Qed.

Lemma word_bytes_range a w q v : (q, v) ∈ word_bytes a w -> a <= q < a + 4.
Proof. unfold word_bytes. rewrite !elem_of_cons, elem_of_nil. naive_solver lia. Qed.

Lemma entry_cases q v : (q, v) ∈ entries dirs ps ab ->
  (exists i, i ∈ dirs /\ PD + 4 * i <= q < PD + 4 * i + 4) \/ PD + 4 * 1023 <= q < PD + 4 * 1023 + 4
  \/ (exists i f, (i, f) ∈ ps /\ PT + 4 * i <= q < PT + 4 * i + 4)
  \/ (exists i, i ∈ ab /\ PT + 4 * i <= q < PT + 4 * i + 4)
  \/ exists i, 769 <= i < 1023 /\ PD + 4 * i <= q < PD + 4 * i + 4.
Proof.
  unfold entries. rewrite !elem_of_app. intros [H|[H|[H|[H|H]]]].
  - left. apply list_elem_of_join in H as (l & Hin & Hl).
    apply list_elem_of_fmap in Hl as (i & -> & Hi). exists i. split; [done|]. by eapply word_bytes_range.
  - right; left. by eapply word_bytes_range.
  - right; right; left. apply list_elem_of_join in H as (l & Hin & Hl).
    apply list_elem_of_fmap in Hl as ([i f] & -> & Hp). exists i, f.
    split; [done|]. by eapply word_bytes_range.
  - right; right; right; left. apply list_elem_of_join in H as (l & Hin & Hl).
    apply list_elem_of_fmap in Hl as (i & -> & Hp). exists i.
    split; [done|]. by eapply word_bytes_range.
  - right; right; right; right. apply list_elem_of_join in H as (l & Hin & Hl).
    apply list_elem_of_fmap in Hl as (i & -> & Hp%elem_of_seqZ). exists i.
    split; [lia|]. by eapply word_bytes_range.
Qed.

(** The page tables are within their two frames. *)
Lemma entry_range q v : (q, v) ∈ entries dirs ps ab -> PD <= q < PT + 4096.
Proof.
  intros [(i & Hi & H)|[H|[(i & f & Hi & H)|[(i & Hi & H)|(i & Hi & H)]]]]%entry_cases.
  - apply layout_dirs in Hi. unfold PD, PT in *. lia.
  - unfold PD, PT in *. lia.
  - apply layout_page in Hi. unfold PD, PT in *. lia.
  - apply layout_absent in Hi. unfold PD, PT in *. lia.
  - unfold PD, PT in *. lia.
Qed.

Lemma machine_word a w :
  ld32p tables a = Some w -> ld32p (tables ∪ data) a = Some w.
Proof.
  unfold ld32p. destruct (tables !! a) as [b0|] eqn:E0; [|done].
  destruct (tables !! (a + 1)) as [b1|] eqn:E1; [|done].
  destruct (tables !! (a + 2)) as [b2|] eqn:E2; [|done].
  destruct (tables !! (a + 3)) as [b3|] eqn:E3; [|done].
  by rewrite !(lookup_union_Some_l _ _ _ _ E0), (lookup_union_Some_l _ _ _ _ E1),
    (lookup_union_Some_l _ _ _ _ E2), (lookup_union_Some_l _ _ _ _ E3).
Qed.

Lemma word_present a w : ld32p (tables ∪ data) a = Some w -> PD <= a < PT + 4096 ->
  exists b, (a, b) ∈ entries dirs ps ab.
Proof.
  unfold ld32p. intros H Ha. destruct ((tables ∪ data) !! a) as [b|] eqn:E; [|done].
  exists b. by apply tables_cases, machine_low.
Qed.

(** The only directory entries. *)
Lemma paged_pde i e : 0 <= i < 1024 -> pde_of (paged dirs ps ab data) i = Some e ->
  (i ∈ dirs /\ e = PT + 7) \/ (i = 1023 /\ e = PD + 7) \/ (769 <= i < 1023 /\ e = 0).
Proof.
  intros Hi H. unfold pde_of in H.
  change (ld32p (tables ∪ data) (PD + 4 * i) = Some e) in H.
  destruct (word_present _ _ H) as [b E]; [unfold PD, PT; lia|].
  apply entry_cases in E as [(j & Hj & E)|[E|[(j & f & Hf & E)|[(j & Hf & E)|(j & Hj & E)]]]].
  - replace i with j in * by lia. left. split; [done|].
    rewrite (machine_word _ (PT + 7)) in H by by apply layout_dirs. by injection H.
  - replace i with 1023 in * by lia. right; left. split; [done|].
    rewrite (machine_word _ (PD + 7)) in H by apply layout_kernel. by injection H.
  - apply layout_page in Hf. unfold PD, PT in E. lia.
  - apply layout_absent in Hf. unfold PD, PT in E. lia.
  - replace i with j in * by lia. right; right. split; [done|].
    rewrite (machine_word _ 0) in H by by apply layout_upper. by injection H.
Qed.

Lemma paged_pte j e : 0 <= j < 1024 -> pte_of (paged dirs ps ab data) (PT + 7) j = Some e ->
  (exists f, (j, f) ∈ ps /\ e = f + 7) \/ (j ∈ ab /\ e = 0).
Proof.
  intros Hj H. unfold pte_of in H.
  change (ld32p (tables ∪ data) (PT + 4 * j) = Some e) in H.
  destruct (word_present _ _ H) as [b E]; [unfold PD, PT; lia|].
  apply entry_cases in E as [(i & Hi & E)|[E|[(i & f & Hf & E)|[(i & Hf & E)|(i & Hi & E)]]]].
  - apply layout_dirs in Hi. unfold PD, PT in E. lia.
  - unfold PD, PT in E. lia.
  - replace j with i in * by lia. left. exists f. split; [done|].
    rewrite (machine_word _ (f + 7)) in H by by apply layout_page. by injection H.
  - replace j with i in * by lia. right. split; [done|].
    rewrite (machine_word _ 0) in H by by apply layout_absent. by injection H.
  - unfold PD, PT in E. lia.
Qed.

(** The addresses that are mapped, and where to; those of the kernel below. *)
Lemma paged_reach b p : is_u32 b -> pd_index b <> 1023 -> translate (paged dirs ps ab data) b = Some p ->
  pd_index b ∈ dirs /\ exists f, (pt_index b, f) ∈ ps /\ p = f + b mod 4096.
Proof.
  intros Rb Hk T. destruct (index_range b Rb) as [Hi Hj].
  apply translate_inv in T as (pde & pte & E1 & P1 & E2 & Pr & ->).
  destruct (paged_pde _ _ Hi E1) as [[Ei ->]|[[Ei _]|[_ ->]]]; [|done..]. split; [done|].
  destruct (paged_pte _ _ Hj E2) as [(f & Hf & ->)|[_ ->]]; [|done].
  exists f. split; [done|].
  assert (frame (f + 7) = f) as ->; [|done].
  apply layout_page in Hf as [(_ & _ & Hm & _) _]. unfold frame, PAGE. zdiv_lia.
Qed.

Lemma paged_translate b p : kernel_addr b -> translate (paged dirs ps ab data) b = Some p ->
  exists i f o, (i, f) ∈ ps /\ 0 <= o < 4096 /\ b = page_va i + o /\ p = f + o.
Proof.
  intros Kb T. unfold kernel_addr in Kb.
  destruct (paged_reach b p ltac:(lia) ltac:(unfold pd_index; zdiv_lia) T) as [Ei%layout_dirs (f & Hf & ->)].
  exists (pt_index b), f, (b mod 4096). split; [done|]. split; [apply Z.mod_pos_bound; lia|].
  split; [|done]. unfold page_va, pd_index, pt_index, PAGE in *. zdiv_lia.
Qed.

(** A byte of [data] in a mapped frame is a valid byte of the machine. *)
Lemma data_not_table p v : data !! p = Some v -> (tables ∪ data) !! p = Some v.
Proof.
  intros Hv. destruct (Hdata _ _ Hv) as [_ Hr]. rewrite lookup_union_r; [done|].
  apply eq_None_not_Some. intros [w Hw%tables_cases%entry_range]. lia.
Qed.

Lemma paged_under d : d ∈ PD :: [PD] -> under (paged dirs ps ab data) d = paged dirs ps ab data.
Proof.
  intros Hd. apply elem_of_cons in Hd as [->|Hd]; [done|]. by apply list_elem_of_singleton in Hd as ->.
Qed.

(** The frames of the paging structures. *)
Lemma paged_struct f : struct_frame (paged dirs ps ab data) f -> f = PD \/ f = PT.
Proof.
  intros [E|(j & e & Hj & He & Pe & E)]; [left; by rewrite E|].
  destruct (paged_pde _ _ Hj He) as [[_ ->]|[[_ ->]|[_ ->]]]; [right|left|done]; by rewrite E.
Qed.

Lemma paged_maps dir i f o : dir ∈ dirs -> (i, f) ∈ ps -> 0 <= o < 4096 ->
  translate (paged dirs ps ab data) (4194304 * dir + 4096 * i + o) = Some (f + o).
Proof.
  intros Hd Hp Ho. destruct (layout_page _ _ Hp) as [(Hi & Hf & Hm & _) He].
  destruct (layout_dirs _ Hd) as [Hdi Hde].
  replace (f + o) with (frame (f + 7) + (4194304 * dir + 4096 * i + o) mod PAGE)
    by (unfold frame, PAGE; zdiv_lia).
  apply (translate_some _ _ (PT + 7) (f + 7)); [|done| |unfold present; rewrite Z.bit0_odd; apply Z.odd_spec; exists (f / 2 + 3); zdiv_lia].
  - replace (pd_index _) with dir by (unfold pd_index; zdiv_lia). by apply machine_word.
  - replace (pt_index _) with i by (unfold pt_index, PAGE; zdiv_lia). by apply machine_word.
Qed.

Lemma paged_valid i f o v :
  (i, f) ∈ ps -> 0 <= o < 4096 -> data !! (f + o) = Some v ->
  vm_valid [PD] (paged dirs ps ab data) (page_va i + o)
  /\ vm_load (paged dirs ps ab data) (page_va i + o) = Some v.
Proof.
  intros Hp Ho Hv. destruct (Hdata _ _ Hv) as [R Hr].
  destruct (layout_page _ _ Hp) as [(Hi & Hf & Hm & N1 & N2) _].
  assert (T : translate (paged dirs ps ab data) (page_va i + o) = Some (f + o)).
  { replace (page_va i + o) with (4194304 * 768 + 4096 * i + o) by (unfold page_va; lia).
    apply paged_maps; [apply layout_kernel|done|done]. }
  pose proof (data_not_table _ _ Hv) as L.
  split; [|unfold vm_load; rewrite T; exact L].
  split; [unfold kernel_addr, page_va; lia|]. exists (f + o), v.
  split; [exact L|]. split; [done|]. intros d Hd. rewrite paged_under by done.
  split; [done|]. split.
  - assert (frame (f + o) = f) as -> by (apply frame_aligned; unfold PAGE; lia).
    intros [E|E]%paged_struct; congruence.
  - intros b Kb Tb. destruct (paged_translate _ _ Kb Tb) as (j & g & o' & Hg & Ho' & -> & E).
    destruct (layout_page _ _ Hg) as [(_ & _ & Hm' & _) _].
    destruct (layout_unique i f j g Hp Hg) as [-> ->]; [right; zdiv_lia|lia].
Qed.

(** Part of a mapped frame. *)
Lemma paged_block i f o n : (i, f) ∈ ps -> 0 <= o -> o + n <= 4096 -> room data (f + o) n ->
  @valid_block vm _ (vm_mem [PD]) (paged dirs ps ab data) (page_va i + o) n.
Proof.
  intros Hp Ho Hn C j Hj. destruct (C j Hj) as [v Hv].
  rewrite <- Z.add_assoc in *. by eapply paged_valid; [done|lia|].
Qed.

Lemma paged_u8 : all_u8 (paged dirs ps ab data).
Proof.
  intros p v [H|[_ H]]%lookup_union_Some_raw; [|by apply (Hdata p v H)].
  apply tables_cases in H. revert H. unfold entries. rewrite !elem_of_app.
  assert (W : forall a w, (p, v) ∈ word_bytes a w -> is_u8 v).
  { intros a w. unfold word_bytes. rewrite !elem_of_cons, elem_of_nil.
    pose proof (u8_range w). pose proof (u8_range (Z.shiftr w 8)). pose proof (u8_range (Z.shiftr w 16)).
    pose proof (u8_range (Z.shiftr w 24)). naive_solver. }
  intros [H|[H|[H|[H|H]]]]; [|by apply W in H| | |]; apply list_elem_of_join in H as (l & Hin & Hl);
    apply list_elem_of_fmap in Hl; [destruct Hl as (i & -> & _)|destruct Hl as ([i f] & -> & _)
      |destruct Hl as (i & -> & _)|destruct Hl as (i & -> & _)]; by apply W in Hin.
Qed.

(** The upper part of the directory is in memory. *)
Lemma paged_upper o : 0xc00 <= o < PAGE -> is_Some (phys (paged dirs ps ab data) !! (frame PD + o)).
Proof.
  intros Ho. change (frame PD) with PD.
  assert (W : exists w, ld32p (tables ∪ data) (PD + 4 * (o / 4)) = Some w).
  { assert (Hd : o / 4 = 768 \/ o / 4 = 1023 \/ 769 <= o / 4 < 1023) by (unfold PAGE in Ho; zdiv_lia).
    destruct layout_kernel as [L1%layout_dirs L2]. destruct Hd as [->|[->|Hd]].
    - eexists. by apply machine_word, L1.
    - eexists. by apply machine_word.
    - eexists. by apply machine_word, layout_upper. }
  destruct W as [w W]. unfold ld32p in W. simpl.
  assert (Hr : o = 4 * (o / 4) \/ o = 4 * (o / 4) + 1 \/ o = 4 * (o / 4) + 2 \/ o = 4 * (o / 4) + 3) by zdiv_lia.
  destruct ((tables ∪ data) !! (PD + 4 * (o / 4))) eqn:E0; [|done].
  destruct ((tables ∪ data) !! (PD + 4 * (o / 4) + 1)) eqn:E1; [|done].
  destruct ((tables ∪ data) !! (PD + 4 * (o / 4) + 2)) eqn:E2; [|done].
  destruct ((tables ∪ data) !! (PD + 4 * (o / 4) + 3)) eqn:E3; [|done].
  destruct Hr as [->|[->|[->| ->]]]; rewrite ?Z.add_assoc; eexists; eassumption.
Qed.

#[local] Existing Instance vm_mem.

Lemma paged_bitmap m i f o n bits :
  m ⊆ data -> paged_bitmap_check ps m i f o n bits = true ->
  @bitmap_rep vm _ (vm_mem [PD]) (paged dirs ps ab data)
    (mkBitmap (page_va i + o) n (bit_num_2_byte_len n)) bits.
Proof.
  unfold paged_bitmap_check. rewrite !andb_true_iff, bool_decide_eq_true, !forallb_forall.
  intros Hm [[(Ho & Hn & Hlen & Hp & Hl) Hd] Hb].
  assert (Hin : forall m (j : nat), (j < m)%nat -> In j (seq 0 m)) by (intros; apply in_seq; lia).
  split; [done|]. split; [simpl; lia|]. split; [done|]. split; simpl.
  - intros j Hj. specialize (Hd (Z.to_nat j) ltac:(apply Hin; lia)).
    apply bool_decide_eq_true in Hd as [v Hv]. rewrite Z2Nat.id in Hv by lia.
    eapply lookup_weaken in Hv; [|exact Hm].
    rewrite <- Z.add_assoc in *. by eapply paged_valid; [done|lia|].
  - intros j v Hj. pose proof (lookup_lt_Some _ _ _ Hj).
    specialize (Hb j ltac:(apply Hin; lia)). apply bool_decide_eq_true in Hb.
    rewrite Hj in Hb. apply fmap_Some in Hb as (c & Hc & Hb). exists c. split; [|done].
    eapply lookup_weaken in Hc; [|exact Hm].
    pose proof (bit_in_byte_len n (Z.of_nat j) ltac:(lia)).
    rewrite <- Z.add_assoc in *. by eapply paged_valid; [done|lia|].
Qed.

End Paged.

(** ** The machine of the running kernel *)

Definition pages : list (Z * Z) :=
  [(0x9a, 0x9a000); (0xb8, 0xb8000); (0x100, 0x200000)].
Definition absent : list Z := [0x103; 0x104; 0x105].
Definition machine : gmap Z Z -> vm := paged [768] pages absent.

Lemma demo_layout : layout_ok [768] pages absent = true.
Proof. by vm_compute. Qed.

(** ** Lists *)

#[export] Instance linked_dec h a b : Decision (linked h a b).
Proof. unfold linked. apply _. Defined.
#[export] Instance path_dec h ns : Decision (path h ns).
Proof.
  induction ns as [|a [|b ns] IH]; simpl; [left; done..|]. apply and_dec; [apply _|apply IH].
Defined.
#[export] Instance dll_dec h l xs : Decision (dll h l xs).
Proof. unfold dll. apply _. Defined.

(** The nodes of a chain that starts after [p]. *)
Fixpoint chain (p : Z) (ns : list Z) : list (Z * list_elem) :=
  match ns with
  | a :: ((b :: _) as ns') => (a, mkElem p b) :: chain a ns'
  | [a] => [(a, mkElem p NULL)]
  | [] => []
  end.

Definition family_nodes (fam : list (Z * list Z)) : list Z :=
  mjoin ((fun '(l, xs) => nodes l xs) <$> fam).

(** The heap of the lists [fam] and of the unlinked nodes [free]. *)
Definition heap_of (fam : list (Z * list Z)) (free : list Z) : gmap Z list_elem :=
  list_to_map (mjoin ((fun '(l, xs) => chain NULL (nodes l xs)) <$> fam)
               ++ ((fun a => (a, mkElem NULL NULL)) <$> free)).

Definition lists_check (h : gmap Z list_elem) (fam : list (Z * list Z)) : bool :=
  forallb (fun '(l, xs) => bool_decide (dll h l xs)) fam && bool_decide (NoDup (family_nodes fam)).

Lemma family_disjoint fam l1 l2 xs1 xs2 a :
  NoDup (family_nodes fam) -> (l1, xs1) ∈ fam -> (l2, xs2) ∈ fam ->
  a ∈ nodes l1 xs1 -> a ∈ nodes l2 xs2 -> l1 = l2.
Proof.
  assert (Hin : forall fam l xs a, (l, xs) ∈ fam -> a ∈ nodes l xs -> a ∈ family_nodes fam).
  { intros fam' l xs a' H Ha. apply list_elem_of_join. exists (nodes l xs). split; [done|].
    apply list_elem_of_fmap. by exists (l, xs). }
  induction fam as [|[l xs] fam IH]; intros N H1 H2 A1 A2; [by apply not_elem_of_nil in H1|].
  change (NoDup (nodes l xs ++ family_nodes fam)) in N. apply NoDup_app in N as (_ & N1 & N2).
  apply elem_of_cons in H1 as [[= -> ->]|H1], H2 as [[= -> ->]|H2]; [done|..].
  - destruct (N1 a A1). by eapply Hin.
  - destruct (N1 a A2). by eapply Hin.
  - by apply IH.
Qed.

Lemma lists_check_rep h fam : lists_check h fam = true -> lists_rep h (list_to_map fam).
Proof.
  intros [Hd N%bool_decide_eq_true]%andb_true_iff. rewrite forallb_forall in Hd. split.
  - intros l xs H%elem_of_list_to_map_2. specialize (Hd (l, xs) ltac:(by apply list_elem_of_In)).
    by apply bool_decide_eq_true in Hd.
  - intros l1 l2 xs1 xs2 a H1%elem_of_list_to_map_2 H2%elem_of_list_to_map_2.
    by apply (family_disjoint fam).
Qed.

(** ** Threads *)

(** A thread control block of a kernel thread. *)
Definition kthread (pid prio : Z) (st : task_status) : tcb :=
  mkTcb 0 pid st prio [] (ticks_get prio) 0 NULL
    (mkPool (mkBitmap 0 0 0) 0 0) 0x19980820.

(** The representation invariant of the scheduler, checked. *)
Definition sched_check (k : kernel) (qs : queues) (fam : list (Z * list Z)) : bool :=
  bool_decide (length qs = LEVELS) && lists_check (k_links k) fam
  && forallb (fun p => bool_decide
       ((list_to_map fam : gmap Z (list Z)) !! THIS_RQ (Z.of_nat p)
        = Some (ready_tag <$> qs !!! p))) (seq 0 LEVELS)
  && bool_decide (bit_num (rq_mask (k_sched k)) = PRIO_NUM)
  && forallb (fun p => forallb (fun t =>
       bool_decide (priority <$> k_tcbs k !! t = Some (Z.of_nat p))) (qs !!! p)) (seq 0 LEVELS)
  && forallb (fun '(t, tc) => bool_decide (0 <= priority tc < PRIO_NUM /\ 0 < t < 2 ^ 32 - PG_SIZE
       /\ is_Some (k_links k !! ready_tag t) /\ pg_dir tc = NULL /\ t mod PG_SIZE = 0
       /\ (ready_tag t ∉ family_nodes fam \/ t ∈ mjoin qs))) (map_to_list (k_tcbs k)).

Lemma sched_check_rep k qs fam :
  sched_check k qs fam = true -> cr3 (k_vm k) = PD ->
  @bitmap_rep vm _ (vm_mem [PD]) (k_vm k) (rq_mask (k_sched k)) (nonempty <$> qs) ->
  sched_rep [PD] k qs (list_to_map fam).
Proof.
  unfold sched_check. rewrite !andb_true_iff, !bool_decide_eq_true, !forallb_forall.
  intros [[[[[Hl Hls] Hq] Hb] Hqd] Ht] Hc Hm.
  assert (Hlev : forall p q, qs !! p = Some q -> In p (seq 0 LEVELS)).
  { intros p q H%lookup_lt_Some. apply in_seq. lia. }
  assert (Htc : forall t tc, k_tcbs k !! t = Some tc ->
    In (t, tc) (map_to_list (k_tcbs k))).
  { intros t tc H. by apply list_elem_of_In, elem_of_map_to_list. }
  constructor; try done.
  - by apply lists_check_rep.
  - intros p q H. specialize (Hq p (Hlev _ _ H)). apply bool_decide_eq_true in Hq.
    by rewrite Hq, (list_lookup_total_correct _ _ _ H).
  - intros p q t H Hin. specialize (Hqd p (Hlev _ _ H)).
    rewrite (list_lookup_total_correct _ _ _ H) in Hqd. rewrite forallb_forall in Hqd.
    specialize (Hqd t ltac:(by apply list_elem_of_In)). apply bool_decide_eq_true in Hqd.
    apply fmap_Some in Hqd as (tc & E & Hp). by exists tc.
  - intros t tc H. specialize (Ht (t, tc) (Htc _ _ H)). apply bool_decide_eq_true in Ht.
    destruct Ht as (? & ? & ? & ? & _). auto.
  - intros t [tc H]. specialize (Ht (t, tc) (Htc _ _ H)).
    by apply bool_decide_eq_true in Ht as (_ & _ & _ & _ & ? & _).
  - intros t (l & xs & HL%elem_of_list_to_map_2 & Hin) [tc H].
    specialize (Ht (t, tc) (Htc _ _ H)). apply bool_decide_eq_true in Ht.
    destruct Ht as (_ & _ & _ & _ & _ & [Hn|Hj]).
    + destruct Hn. apply list_elem_of_join. exists (nodes l xs). split; [done|].
      apply list_elem_of_fmap. by exists (l, xs).
    + apply list_elem_of_join in Hj as (q & Hq' & Hin').
      apply list_elem_of_lookup in Hin' as [p Hp]. by exists p, q.
  - rewrite Hc. left.
  - left.
Qed.

(** ** A kernel in a given state *)

Definition no_tables : Descriptors.tables :=
  Descriptors.mkTables ∅ ∅ ∅ (Descriptors.mkTss 0 0 0) ∅ 0 0 0.
Definition no_io : Ports.io := Ports.mkIo 0 ∅ 0 [].

(** The bytes of the ready mask for the queues [qs]. *)
Definition mask_bytes (qs : queues) : list Z :=
  (fun j => foldr (fun i n => (if nonempty (qs !!! (8 * j + i)%nat) then 1 else 0) + 2 * n) 0
     (seq 0 8)) <$> seq 0 4.

Definition mask_data (qs : queues) : gmap Z Z := FlatMem.of_list 0x200000 (mask_bytes qs).

(** The queues with the given threads at the given levels. *)
Definition queues_of (l : list (nat * list Z)) : queues :=
  foldr (fun '(p, q) qs => <[p := q]> qs) (replicate LEVELS []) l.

Definition family (qs : queues) (others : list (Z * list Z)) : list (Z * list Z) :=
  imap (fun p q => (THIS_RQ (Z.of_nat p), ready_tag <$> q)) qs ++ others.

(** A kernel with the threads [ths], the ready queues [qs] and the other lists
    [others]; [more] is the rest of memory. *)
Definition build (ths : list (Z * tcb)) (qs : queues) (others : list (Z * list Z)) (cur : Z)
    (sems holders : gmap Z Z) (more : gmap Z Z) : kernel :=
  let fam := family qs others in
  let tags := mjoin ((fun '(t, _) => [ready_tag t; pend_tag t; all_list_tag t]) <$> ths) in
  let free := filter (fun a => a ∉ family_nodes fam) tags in
  mkKernel 0x202 (machine (mask_data qs ∪ more)) no_io no_tables (heap_of fam free)
    (list_to_map ths) (mkSched cur false 0xc009e000 [] (mkBitmap (page_va 0x100) 32 4))
    sems holders ∅ ∅ (mkKbd false false false false false) 0.

Definition build_check ths qs others cur sems holders more : bool :=
  let k := build ths qs others cur sems holders more in
  sched_check k qs (family qs others)
  && paged_bitmap_check pages (mask_data qs) 0x100 0x200000 0 32 (nonempty <$> qs)
  && data_check (mask_data qs).

Lemma build_bytes ths qs others cur sems holders more :
  build_check ths qs others cur sems holders more = true -> bytes_ok more -> bytes_ok (mask_data qs ∪ more).
Proof.
  unfold build_check. rewrite !andb_true_iff. intros [_ Hd%data_check_ok]. by apply bytes_ok_union.
Qed.

Lemma build_rep ths qs others cur sems holders more :
  build_check ths qs others cur sems holders more = true -> bytes_ok more ->
  sched_rep [PD] (build ths qs others cur sems holders more) qs
    (list_to_map (family qs others)).
Proof.
  intros C Hm. pose proof (build_bytes _ _ _ _ _ _ _ C Hm) as Hd.
  unfold build_check in C. rewrite !andb_true_iff in C. destruct C as [[Hs Hb] _].
  apply sched_check_rep; [done|done|].
  apply (paged_bitmap [768] pages absent demo_layout _ Hd (mask_data qs) 0x100 0x200000 0 32
    (nonempty <$> qs)); [apply map_union_subseteq_l|exact Hb].
Qed.

Lemma bytes_ok_empty : bytes_ok ∅.
Proof. intros p v. by rewrite lookup_empty. Qed.

(** Three threads: the idle thread and two kernel threads of priority 8, the
    first of which runs; [console_mutex] is free. *)
Definition idle : Z := 0xc009e000.
Definition thread_a : Z := 0xc0101000.
Definition thread_b : Z := 0xc0102000.

Definition demo_threads : list (Z * tcb) :=
  [(idle, kthread 0 31 TASK_READY); (thread_a, kthread 1 8 TASK_RUNNING);
   (thread_b, kthread 2 8 TASK_READY)].

Definition demo_queues : queues := queues_of [(8%nat, [thread_a; thread_b]); (31%nat, [idle])].

Definition console_sem : Z := mutex_sem console_mutex.
Definition demo_others : list (Z * list Z) := [(sem_waiters console_sem, [])].

Definition demo : kernel :=
  build demo_threads demo_queues demo_others thread_a {[console_sem := 1]} {[console_mutex := 0]} ∅.

Lemma demo_rep : sched_rep [PD] demo demo_queues (list_to_map (family demo_queues demo_others)).
Proof. apply build_rep; [by vm_compute|apply bytes_ok_empty]. Qed.

End Machine.
