(* ===== verification/Sync.v ===== *)
(** [thread/sync.c]: semaphores and mutexes.

    A semaphore's value is in [k_sems], a mutex's holder in [k_holders]; the
    list of waiters is one of the lists of [k_links].  [sem_down] gives the
    processor away while the value is 0: the model returns [Switched] there,
    and [sem_down_again] is what the thread runs when it is scheduled again. *)

From S2P Require Import Prelude Bytes Bitmap Interrupt LinkedList Paging Kernel ReadyQueues Sched.

Module Sync.
Import Bitmap Interrupt LinkedList Paging Kernel ReadyQueues Sched.

(** ** The code *)

Definition get_sem (sem : Z) : M kernel Z := deref (fun k => k_sems k !! sem).
Definition set_sem (sem val : Z) : M kernel unit := update (fun k =>
  match k_sems k !! sem with
  | Some _ => Some (with_sems (<[sem := u8 val]> (k_sems k)) k)
  | None => None
  end).
Definition set_holder (mtx thread : Z) : M kernel unit := update (fun k =>
  match k_holders k !! mtx with
  | Some _ => Some (with_holders (<[mtx := thread]> (k_holders k)) k)
  | None => None
  end).

Definition sem_init (sem val : Z) : M kernel unit :=
  set_sem sem val;;
  zoom lists_of (list_init (sem_waiters sem)).

Definition mutex_init (mtx : Z) : M kernel unit :=
  set_holder mtx NULL;;
  sem_init (mutex_sem mtx) 1.

(** The body of the [while]: the thread queues up, once, and blocks. *)
Definition sem_wait (sem : Z) : M kernel unit :=
  r ← RUNNING_THREAD;
  found ← zoom lists_of (list_elem_find (sem_waiters sem) (pend_tag r));
  (if negb (found : bool) then
     r ← RUNNING_THREAD;
     zoom lists_of (list_push_back (sem_waiters sem) (pend_tag r))
   else mret tt);;
  thread_block TASK_BLOCKED.

(** [while (sem->val == 0) ...; sem->val--; intr_set_status(int_save);]

    A thread that blocks leaves the loop as [Switched], so one activation
    evaluates the condition at most twice. *)
Definition sem_down_loop (sem : Z) (int_save : intr_status) : M kernel unit :=
  while 2 (fun _ => v ← get_sem sem; mret (v =? 0)) (fun _ => sem_wait sem) tt;;
  v ← get_sem sem;
  set_sem sem (v - 1);;
  zoom eflags_of (intr_set_status int_save);;
  mret tt.

Definition sem_down (sem : Z) : M kernel unit :=
  int_save ← zoom eflags_of intr_disable;
  sem_down_loop sem int_save.

(** What a thread that blocked in [sem_down] runs when it is scheduled again:
    the end of [thread_block], which was entered with interrupts off, and the
    loop. *)
Definition sem_down_again (sem : Z) (int_save : intr_status) : M kernel unit :=
  zoom eflags_of (intr_set_status INTR_OFF);;
  sem_down_loop sem int_save.

Definition sem_up (sem : Z) : M kernel unit :=
  int_save ← zoom eflags_of intr_disable;
  v ← get_sem sem;
  ASSERT (v =? 0) "sem->val == 0";;
  e ← zoom lists_of (list_empty (sem_waiters sem));
  (if negb (e : bool) then
     tag ← zoom lists_of (list_pop_front (sem_waiters sem));
     let thread_blocked := ELEM2ENTRY OFF_pend_tag tag in
     thread_unblock thread_blocked
   else mret tt);;
  v ← get_sem sem;
  set_sem sem (v + 1);;
  zoom eflags_of (intr_set_status int_save);;
  mret tt.

(** Statements, one after the other. *)
Fixpoint statements (l : list (M kernel unit)) : M kernel unit :=
  match l with [] => mret tt | [m] => m | m :: l' => m;; statements l' end.

(** The statements of [mutex_lock] and [mutex_unlock].  [sem_down] and [sem_up]
    run with interrupts off; between two statements an interrupt may come. *)
Definition mutex_lock_body (mtx : Z) : list (M kernel unit) :=
  [sem_down (mutex_sem mtx);
   r ← RUNNING_THREAD; set_holder mtx r].
Definition mutex_unlock_body (mtx : Z) : list (M kernel unit) :=
  [sem_up (mutex_sem mtx);
   set_holder mtx NULL].

Definition mutex_lock (mtx : Z) : M kernel unit := statements (mutex_lock_body mtx).
Definition mutex_unlock (mtx : Z) : M kernel unit := statements (mutex_unlock_body mtx).

(** ** What they do *)

Section Semaphores.
Context (D : list Z).
Implicit Types (k : kernel) (qs : queues) (L : gmap Z (list Z)) (ws : list Z).

#[local] Instance data_mem : ByteMem vm := vm_mem D.

Lemma get_sem_ok k sem v : k_sems k !! sem = Some v -> get_sem sem k = Ok v k.
Proof. intros H. unfold get_sem, deref. by rewrite H. Qed.

Lemma set_sem_ok k sem v w : k_sems k !! sem = Some v ->
  set_sem sem w k = Ok tt (with_sems (<[sem := u8 w]> (k_sems k)) k).
Proof. intros H. unfold set_sem, update. by rewrite H. Qed.

Lemma pend_tag_inj t1 t2 : pend_tag t1 = pend_tag t2 -> t1 = t2.
Proof. unfold pend_tag. lia. Qed.

Lemma elem_of_pend t ws : pend_tag t ∈ pend_tag <$> ws <-> t ∈ ws.
Proof.
  rewrite list_elem_of_fmap. split.
  - by intros (t' & ->%pend_tag_inj & ?).
  - intros H. by exists t.
Qed.

Lemma elem2entry_pend t : 0 < t < 2 ^ 32 - PG_SIZE -> ELEM2ENTRY OFF_pend_tag (pend_tag t) = t.
Proof.
  unfold ELEM2ENTRY, pend_tag, OFF_pend_tag, PG_SIZE. intros H. rewrite u32_small; lia.
Qed.

(** The state of a semaphore: its value and the threads that wait for it, all
    blocked and off the ready queues; no other thread's node is in a list. *)
Record sem_rep k qs L (sem v : Z) ws : Prop := {
  se_sched : sched_rep D k qs L;
  se_val : k_sems k !! sem = Some v;
  se_waiters : L !! sem_waiters sem = Some (pend_tag <$> ws);
  se_addr : sem_waiters sem ∉ rq_addrs;
  se_blocked : forall t, t ∈ ws -> exists tc, k_tcbs k !! t = Some tc
    /\ status tc = TASK_BLOCKED /\ ~ queued t qs;
  se_free : forall t, is_Some (k_tcbs k !! t) -> t ∉ ws -> ~ owned L (pend_tag t);
  se_nodes : forall t, is_Some (k_tcbs k !! t) -> is_Some (k_links k !! pend_tag t)
}.

(** The value is not 0: it is taken, and nothing else changes. *)
Lemma sem_down_takes k sem v :
  k_sems k !! sem = Some v -> 0 < v < 256 ->
  sem_down sem k = Ok tt (with_sems (<[sem := v - 1]> (k_sems k)) k).
Proof.
  intros Hv Hr. unfold sem_down. erewrite bind_ok by apply zoom_eflags_disable.
  unfold sem_down_loop. erewrite bind_ok.
  2: { apply while_stop. erewrite bind_ok by by apply get_sem_ok.
       by rewrite (proj2 (Z.eqb_neq v 0)) by lia. }
  erewrite bind_ok by by apply get_sem_ok. erewrite bind_ok by by eapply set_sem_ok.
  erewrite bind_ok by apply zoom_eflags_restore. unfold mret, M_ret. simpl.
  rewrite with_if_with_if, with_if_same, u8_small by lia. by destruct k.
Qed.

(** The same when the thread had blocked: the flag is set to what it was when
    it called [sem_down]. *)
Lemma sem_down_again_takes k sem v b :
  k_sems k !! sem = Some v -> 0 < v < 256 ->
  sem_down_again sem (status_of b) k
  = Ok tt (with_eflags (with_if b (k_eflags k)) (with_sems (<[sem := v - 1]> (k_sems k)) k)).
Proof.
  intros Hv Hr. unfold sem_down_again.
  erewrite bind_ok by apply (zoom_eflags_restore false). unfold sem_down_loop. erewrite bind_ok.
  2: { apply while_stop. erewrite bind_ok by by apply get_sem_ok.
       by rewrite (proj2 (Z.eqb_neq v 0)) by lia. }
  erewrite bind_ok by by apply get_sem_ok. erewrite bind_ok by by eapply set_sem_ok.
  erewrite bind_ok by apply zoom_eflags_restore. unfold mret, M_ret. simpl.
  by rewrite with_if_with_if, u8_small by lia.
Qed.

(** Changing the list of waiters. *)
Lemma sem_waiters_change k qs L sem v ws ws' h :
  sem_rep k qs L sem v ws ->
  lists_rep h (<[sem_waiters sem := pend_tag <$> ws']> L) -> dom h = dom (k_links k) ->
  (forall t, t ∈ ws' -> is_Some (k_tcbs k !! t)) ->
  sched_rep D (with_links h k) qs (<[sem_waiters sem := pend_tag <$> ws']> L).
Proof.
  intros [R Hv Hw Ha _ _ _] HL Hd Hws. apply rep_other_list; try done. intros t Ht Hin.
  exists (sem_waiters sem), (pend_tag <$> ws). split; [done|]. unfold nodes in *.
  apply elem_of_cons in Hin as [->|Hin]; [left|right].
  apply elem_of_app in Hin as [(u & Hu & Huw)%list_elem_of_fmap|Hin].
  - exfalso. pose proof (sr_aligned _ _ _ _ R t Ht). pose proof (sr_aligned _ _ _ _ R u (Hws _ Huw)).
    unfold ready_tag, pend_tag, OFF_ready_tag, OFF_pend_tag, PG_SIZE in *. zdiv_lia.
  - apply elem_of_app. by right.
Qed.

Lemma sem_blocked_tcb k qs L sem v ws t :
  sem_rep k qs L sem v ws -> t ∈ ws -> is_Some (k_tcbs k !! t).
Proof. intros S (tc & -> & _)%(se_blocked _ _ _ _ _ _ S). eauto. Qed.

(** A thread outside the old and the new waiters still owns its node. *)
Lemma waiters_free k qs L sem v ws ws' t :
  sem_rep k qs L sem v ws -> is_Some (k_tcbs k !! t) -> t ∉ ws -> t ∉ ws' ->
  ~ owned (<[sem_waiters sem := pend_tag <$> ws']> L) (pend_tag t).
Proof.
  intros S Ht Hn Hn' (l & ys & Hl & Hin). apply (se_free _ _ _ _ _ _ S t Ht Hn).
  rewrite lookup_insert in Hl. case_decide as El; [|by exists l, ys]. injection Hl as <-. subst l.
  exists (sem_waiters sem), (pend_tag <$> ws). split; [apply S|].
  unfold nodes in *. apply elem_of_cons in Hin as [->|Hin]; [left|right].
  apply elem_of_app in Hin as [Hin|Hin]; [by apply (elem_of_pend t ws') in Hin|].
  apply elem_of_app. by right.
Qed.

(** The running thread joins the waiters, and blocks. *)
Lemma sem_wait_queues k qs L sem v ws r :
  sem_rep k qs L sem v ws -> running_thread (k_sched k) = r -> is_Some (k_tcbs k !! r) ->
  r ∉ ws ->
  exists h, sem_wait sem k = thread_block TASK_BLOCKED (with_links h k)
    /\ lists_rep h (<[sem_waiters sem := pend_tag <$> ws ++ [r]]> L)
    /\ dom h = dom (k_links k)
    /\ sched_rep D (with_links h k) qs (<[sem_waiters sem := pend_tag <$> ws ++ [r]]> L).
Proof.
  intros S Hr Ht Hws. pose proof S as [R Hv Hw Ha Hb Hfree Hn].
  destruct (zoom_lists_ok (list_push_back (sem_waiters sem) (pend_tag r)) k
    (<[sem_waiters sem := pend_tag <$> ws ++ [r]]> L)) as (h & E & HL & Hd).
  { rewrite fmap_app. apply list_push_back_spec; [apply R|done|by apply Hfree|by apply Hn]. }
  exists h. split; [|split; [done|split; [done|]]].
  - unfold sem_wait. erewrite bind_ok by done. rewrite Hr. erewrite bind_ok.
    2: { eapply zoom_ok, (list_elem_find_spec (view lists_of k)); [apply R|exact Hw]. }
    rewrite lists_view_id, bool_decide_false by (by rewrite elem_of_pend). simpl negb. cbv iota.
    erewrite bind_ok; [done|]. erewrite bind_ok by done. rewrite Hr. exact E.
  - eapply sem_waiters_change; [done..|].
    intros t [Ht'|Ht'%list_elem_of_singleton]%elem_of_app; [by eapply sem_blocked_tcb|by subst].
Qed.

(** What is scheduled does not matter to the semaphore: its list is no ready
    queue, and the waiters are not touched. *)
Lemma sem_rep_sched k k' qs qs' L L' sem v ws :
  sem_rep k qs L sem v ws -> sched_rep D k' qs' L' -> other_lists L L' ->
  k_sems k' !! sem = k_sems k !! sem -> dom (k_tcbs k') = dom (k_tcbs k) ->
  dom (k_links k') = dom (k_links k) ->
  (forall t, t ∈ ws -> k_tcbs k' !! t = k_tcbs k !! t /\ ~ queued t qs') ->
  sem_rep k' qs' L' sem v ws.
Proof.
  intros [R Hv Hw Ha Hb Hfree Hn] R' Ho Es Ed El Hws.
  assert (Hdom : forall t, is_Some (k_tcbs k' !! t) -> is_Some (k_tcbs k !! t)).
  { intros t Ht. apply elem_of_dom. rewrite <- Ed. by apply elem_of_dom. }
  constructor; try done.
  - by rewrite Es.
  - by rewrite Ho.
  - intros t Ht. destruct (Hws t Ht) as [-> Hnq]. destruct (Hb t Ht) as (tc & ? & ? & _). eauto.
  - intros t Ht Hx Hown. apply (Hfree t); [by apply Hdom|done|].
    by eapply (owned_other D); [..|unfold OFF_pend_tag, TCB_SIZE; lia| |exact Hown].
  - intros t Ht. apply elem_of_dom. rewrite El. apply elem_of_dom, Hn. by apply Hdom.
Qed.

(** The value is 0: the running thread joins the waiters and gives the
    processor away. *)
Lemma sem_wait_blocks k qs L sem v ws r tc q p next :
  sem_rep k qs L sem v ws -> running_thread (k_sched k) = r -> k_tcbs k !! r = Some tc ->
  r ∉ ws -> qs !! Z.to_nat (priority tc) = Some q -> r ∈ q ->
  first_ready (leave (Z.to_nat (priority tc)) r qs) = Some (p, next) ->
  exists h m L' tn d, let k' := dispatched (slept k r tc TASK_BLOCKED h m) next tn d in
    sem_wait sem k = Switched k' /\ next <> r
    /\ k_tcbs k !! next = Some tn /\ d ∈ D /\ dir_for m tn d
    /\ sem_rep k' (leave (Z.to_nat (priority tc)) r qs) L' sem v (ws ++ [r])
    /\ dom h = dom (k_links k) /\ modifies (mask_byte k) (k_vm k) m
    /\ other_lists (<[sem_waiters sem := pend_tag <$> ws ++ [r]]> L) L'.
Proof.
  intros S Hr Ht Hws Hq Hin Hf. pose proof S as [R Hv Hw Ha Hb Hfree Hn].
  destruct (sem_wait_queues _ _ _ _ _ _ _ S Hr ltac:(eauto) Hws) as (h1 & E1 & HL1 & Hd1 & R1).
  destruct (thread_block_ok D _ _ _ r tc TASK_BLOCKED q p next R1 Hr Ht eq_refl Hq Hin Hf)
    as (h & m & L' & tn & d & Hne & Htn & HD & Hdir & E & R2 & Hd & Hm & Ho).
  pose proof (leave_not_queued _ _ _ _ (rep_wf _ _ _ _ R) Hq Hin) as Hnq.
  assert (Htn' : k_tcbs k !! next = Some tn) by (by simpl in Htn; rewrite lookup_insert_ne in Htn).
  simpl in Hd. rewrite Hd1 in Hd.
  exists h, m, L', tn, d. split; [by rewrite E1|]. do 4 (split; [done|]). split; [|done].
  assert (Hnext : next ∉ ws).
  { intros Hx. apply first_ready_spec in Hf as (qn & Hqn & _).
    destruct (Hb _ Hx) as (_ & _ & _ & Hnqn). eapply Hnqn, leave_queued.
    exists p, (next :: qn). split; [exact Hqn|left]. }
  assert (Hdom : forall t, is_Some (<[next := tcb_status TASK_RUNNING tn]>
      (<[r := tcb_status TASK_BLOCKED tc]> (k_tcbs k)) !! t) -> is_Some (k_tcbs k !! t)).
  { intros t Ht'. rewrite !lookup_insert in Ht'. repeat case_decide; subst; eauto. }
  constructor; simpl; try done.
  - rewrite Ho by done. apply lookup_insert_eq.
  - intros t [Hx|Hx%list_elem_of_singleton]%elem_of_app.
    + rewrite !lookup_insert_ne by (by intros ->). destruct (Hb _ Hx) as (tc' & ? & ? & Hnq').
      exists tc'. do 2 (split; [done|]). intros Hq'. by eapply Hnq', leave_queued.
    + subst t. rewrite lookup_insert_ne, lookup_insert_eq by done.
      by exists (tcb_status TASK_BLOCKED tc).
  - intros t Ht'%Hdom Hx Hown.
    apply (owned_other D _ _ _ _ _ _ R2 Ho) in Hown; [| |unfold OFF_pend_tag, TCB_SIZE; lia|done].
    + apply (waiters_free k qs L sem v ws (ws ++ [r]) t S Ht'); [set_solver|done|exact Hown].
    + simpl. rewrite !lookup_insert. repeat case_decide; eauto.
  - intros t Ht'%Hdom. apply elem_of_dom. rewrite Hd. by apply elem_of_dom, Hn.
Qed.

Lemma sem_rep_ext k k' qs L sem v ws :
  k_links k' = k_links k -> k_vm k' = k_vm k -> k_tcbs k' = k_tcbs k ->
  rq_mask (k_sched k') = rq_mask (k_sched k) -> k_sems k' !! sem = k_sems k !! sem ->
  sem_rep k qs L sem v ws -> sem_rep k' qs L sem v ws.
Proof.
  intros E1 E2 E3 E4 E5 []. constructor; rewrite ?E1, ?E3, ?E5; try done.
  by apply (rep_ext D k).
Qed.

Lemma slept_eflags k e r tc st h m :
  (forall b, with_if b e = with_if b (k_eflags k)) ->
  slept (with_eflags e k) r tc st h m = slept k r tc st h m.
Proof. intros H. unfold slept. simpl. by rewrite H. Qed.

Lemma sem_down_blocks k qs L sem ws r tc q p next :
  sem_rep k qs L sem 0 ws -> running_thread (k_sched k) = r -> k_tcbs k !! r = Some tc ->
  r ∉ ws -> qs !! Z.to_nat (priority tc) = Some q -> r ∈ q ->
  first_ready (leave (Z.to_nat (priority tc)) r qs) = Some (p, next) ->
  exists h m L' tn d, let k' := dispatched (slept k r tc TASK_BLOCKED h m) next tn d in
    sem_down sem k = Switched k' /\ (forall b, sem_down_again sem (status_of b) k = Switched k')
    /\ next <> r /\ k_tcbs k !! next = Some tn /\ d ∈ D /\ dir_for m tn d
    /\ sem_rep k' (leave (Z.to_nat (priority tc)) r qs) L' sem 0 (ws ++ [r])
    /\ dom h = dom (k_links k) /\ modifies (mask_byte k) (k_vm k) m
    /\ other_lists (<[sem_waiters sem := pend_tag <$> ws ++ [r]]> L) L'.
Proof.
  intros S Hr Ht Hws Hq Hin Hf.
  set (k0 := with_eflags (with_if false (k_eflags k)) k).
  assert (S0 : sem_rep k0 qs L sem 0 ws) by by apply (sem_rep_ext k).
  destruct (sem_wait_blocks k0 qs L sem 0 ws r tc q p next S0 Hr Ht Hws Hq Hin Hf)
    as (h & m & L' & tn & d & E & Hne & Htn & HD & Hdir & S1 & Hd & Hm & Ho).
  unfold k0 in E, S1. rewrite slept_eflags in E, S1 by (intros b; apply with_if_with_if).
  assert (Hloop : forall b, sem_down_loop sem b k0
    = Switched (dispatched (slept k r tc TASK_BLOCKED h m) next tn d)).
  { intros b. apply bind_switched. eapply while_switched; [|exact E].
    erewrite bind_ok by by apply get_sem_ok, S. done. }
  exists h, m, L', tn, d. split; [|split; [|done]].
  - unfold sem_down. erewrite bind_ok by apply zoom_eflags_disable. apply Hloop.
  - intros b. unfold sem_down_again.
    erewrite bind_ok by apply (zoom_eflags_restore false). apply Hloop.
Qed.

(** When no other thread is ready, waiting is the undefined case of
    [next_thread_pick]. *)
Lemma sem_down_last k qs L sem ws r tc q b :
  sem_rep k qs L sem 0 ws -> running_thread (k_sched k) = r -> k_tcbs k !! r = Some tc ->
  r ∉ ws -> qs !! Z.to_nat (priority tc) = Some q -> r ∈ q ->
  first_ready (leave (Z.to_nat (priority tc)) r qs) = None ->
  k_links k !! THIS_RQ 0xffffffff = None ->
  sem_down sem k = Fault /\ sem_down_again sem (status_of b) k = Fault.
Proof.
  intros S Hr Ht Hws Hq Hin Hf Hno.
  set (k0 := with_eflags (with_if false (k_eflags k)) k).
  assert (S0 : sem_rep k0 qs L sem 0 ws) by by apply (sem_rep_ext k).
  destruct (sem_wait_queues _ _ _ _ _ _ _ S0 Hr ltac:(eauto) Hws) as (h1 & E1 & HL1 & Hd1 & R1).
  assert (E : sem_wait sem k0 = Fault).
  { rewrite E1. eapply (thread_block_last D); [exact R1|exact Hr|exact Ht|done|exact Hq|done|done|].
    apply not_elem_of_dom. simpl. rewrite Hd1. by apply not_elem_of_dom. }
  assert (Hloop : forall b, sem_down_loop sem b k0 = Fault).
  { intros b'. apply bind_fault. simpl while. erewrite bind_ok.
    2: { by erewrite bind_ok by apply get_sem_ok, S. }
    by apply bind_fault. }
  split.
  - unfold sem_down. erewrite bind_ok by apply zoom_eflags_disable. apply Hloop.
  - unfold sem_down_again. erewrite bind_ok by apply (zoom_eflags_restore false). apply Hloop.
Qed.

(** Giving the semaphore back: the longest waiter, if there is one, becomes
    ready. *)
Lemma sem_up_wakes k qs L sem w ws tw :
  sem_rep k qs L sem 0 (w :: ws) -> NoDup (w :: ws) ->
  k_tcbs k !! w = Some tw -> is_Some (k_tcbs k !! running_thread (k_sched k)) ->
  exists h m L', let k' := with_sems (<[sem := 1]> (k_sems k)) (woken k w tw h m) in
    sem_up sem k = Ok tt k'
    /\ sem_rep k' (enqueue_front (Z.to_nat (priority tw)) w qs) L' sem 1 ws
    /\ dom h = dom (k_links k) /\ modifies (mask_byte k) (k_vm k) m
    /\ other_lists (<[sem_waiters sem := pend_tag <$> ws]> L) L'.
Proof.
  intros S ND Htw Hrun. pose proof S as [R Hv Hw Ha Hb Hfree Hn].
  apply NoDup_cons in ND as [Nw _].
  set (k0 := with_eflags (with_if false (k_eflags k)) k).
  destruct (Hb w ltac:(left)) as (tw' & E & Hst & Hnq). rewrite Htw in E. injection E as <-.
  destruct (list_pop_front_spec (view lists_of k0) L _ _ _ (sr_lists _ _ _ _ R) Hw)
    as (h1 & Epop & HL1 & Hd1).
  assert (Hws' : forall t, t ∈ ws -> is_Some (k_tcbs k !! t)).
  { intros t Ht. eapply sem_blocked_tcb; [exact S|by right]. }
  pose proof (sem_waiters_change _ _ _ _ _ _ _ _ S HL1 Hd1 Hws') as R1.
  assert (R1' : sched_rep D (with_links h1 k0) qs (<[sem_waiters sem := pend_tag <$> ws]> L))
    by by apply (rep_ext D (with_links h1 k)).
  destruct (thread_unblock_ok D (with_links h1 k0) qs _ w tw R1' Htw) as
    (h & m & L' & Eun & R2 & Hd & Hm & Ho); [by rewrite Hst|done|done|].
  destruct (sr_tcbs _ _ _ _ R _ _ Htw) as (_ & Hwr & _).
  exists h, m, L'. split_and!; try done.
  - unfold sem_up. erewrite bind_ok by apply zoom_eflags_disable. fold k0.
    erewrite bind_ok by by apply get_sem_ok. erewrite bind_ok by done.
    erewrite bind_ok.
    2: { eapply zoom_ok, (list_empty_spec (view lists_of k0)); [apply R|exact Hw]. }
    rewrite lists_view_id, bool_decide_false by done. simpl negb. cbv iota.
    erewrite bind_ok.
    2: { erewrite bind_ok by (eapply zoom_ok; exact Epop). rewrite elem2entry_pend by done.
         exact Eun. }
    erewrite bind_ok by by apply get_sem_ok. erewrite bind_ok by by eapply set_sem_ok.
    erewrite bind_ok by apply zoom_eflags_restore. unfold mret, M_ret. simpl.
    rewrite with_if_with_if, with_if_same, (u8_small (0 + 1)) by lia. done.
  - assert (Hnext : forall t, t ∈ ws -> t <> w) by (intros t Ht ->; done).
    constructor; simpl; try done.
    + by apply (rep_ext D (woken (with_links h1 k0) w tw h m)).
    + apply lookup_insert_eq.
    + rewrite Ho by done. apply lookup_insert_eq.
    + intros t Ht. rewrite lookup_insert_ne by (intros <-; by apply (Hnext w)).
      destruct (Hb t ltac:(by right)) as (tc & ? & ? & Hnqt). exists tc. do 2 (split; [done|]).
      intros (j & q & Hq & Hin). unfold enqueue_front in Hq. rewrite on_level_lookup in Hq.
      case_decide as Ej; [|by apply Hnqt; exists j, q]. subst j.
      destruct (qs !! Z.to_nat (priority tw)) as [q0|] eqn:Hq0; [|done]. injection Hq as <-.
      apply elem_of_cons in Hin as [->|Hin]; [by apply (Hnext w)|]. apply Hnqt. by eexists _, q0.
    + intros t Ht Hx Hown. assert (Ht0 : is_Some (k_tcbs k !! t)).
      { rewrite lookup_insert in Ht. case_decide; subst; eauto. }
      apply (owned_other D _ _ _ _ _ _ R2 Ho) in Hown; [|done|unfold OFF_pend_tag, TCB_SIZE; lia|done].
      destruct (decide (t = w)) as [->|Ntw].
      * revert Hown. change (w + OFF_pend_tag) with (pend_tag w).
        eapply (removed_not_owned _ L _ []); [apply R|exact Hw].
      * apply (waiters_free k qs L sem 0 (w :: ws) ws t S Ht0); [set_solver|done|exact Hown].
    + intros t Ht. apply elem_of_dom. rewrite Hd. simpl. rewrite Hd1. apply elem_of_dom, Hn.
      rewrite lookup_insert in Ht. case_decide; subst; eauto.
  - by rewrite Hd.
Qed.

Lemma sem_up_idle k L sem :
  lists_rep (k_links k) L -> k_sems k !! sem = Some 0 -> L !! sem_waiters sem = Some [] ->
  sem_up sem k = Ok tt (with_sems (<[sem := 1]> (k_sems k)) k).
Proof.
  intros HL Hv Hw.
  set (k0 := with_eflags (with_if false (k_eflags k)) k).
  unfold sem_up. erewrite bind_ok by apply zoom_eflags_disable. fold k0.
  erewrite bind_ok by by apply get_sem_ok. erewrite bind_ok by done.
  erewrite bind_ok.
  2: { eapply zoom_ok, (list_empty_spec (view lists_of k0)); [exact HL|exact Hw]. }
  rewrite lists_view_id, bool_decide_true by done. simpl negb. cbv iota.
  erewrite bind_ok by done.
  erewrite bind_ok by by apply get_sem_ok. erewrite bind_ok by by eapply set_sem_ok.
  erewrite bind_ok by apply zoom_eflags_restore. unfold mret, M_ret. simpl.
  rewrite with_if_with_if, with_if_same, (u8_small (0 + 1)) by lia. by destruct k.
Qed.

Lemma sem_up_no_waiter k qs L sem :
  sem_rep k qs L sem 0 [] ->
  sem_up sem k = Ok tt (with_sems (<[sem := 1]> (k_sems k)) k).
Proof. intros [R Hv Hw _ _ _ _]. apply (sem_up_idle k L); [apply R|done|done]. Qed.

(** ** A mutex nobody has or waits for *)

Record mutex_free k L (mtx : Z) : Prop := {
  mf_sem : k_sems k !! mutex_sem mtx = Some 1;
  mf_holder : is_Some (k_holders k !! mtx);
  mf_waiters : L !! sem_waiters (mutex_sem mtx) = Some []
}.

Definition mutex_taken (mtx : Z) k : kernel :=
  with_holders (<[mtx := running_thread (k_sched k)]> (k_holders k))
    (with_sems (<[mutex_sem mtx := 0]> (k_sems k)) k).
Definition mutex_given_back (mtx : Z) k : kernel :=
  with_holders (<[mtx := NULL]> (k_holders k)) (with_sems (<[mutex_sem mtx := 1]> (k_sems k)) k).

Lemma mutex_lock_free k L mtx : mutex_free k L mtx -> mutex_lock mtx k = Ok tt (mutex_taken mtx k).
Proof.
  intros [Hs [h Hh] _]. unfold mutex_lock. simpl. erewrite bind_ok by by apply (sem_down_takes _ _ 1).
  erewrite bind_ok by reflexivity. unfold set_holder, update. simpl. by rewrite Hh.
Qed.

Lemma mutex_unlock_idle k L mtx :
  lists_rep (k_links k) L -> k_sems k !! mutex_sem mtx = Some 0 -> is_Some (k_holders k !! mtx) ->
  L !! sem_waiters (mutex_sem mtx) = Some [] ->
  mutex_unlock mtx k = Ok tt (mutex_given_back mtx k).
Proof.
  intros HL Hs [h Hh] Hw. unfold mutex_unlock. simpl. erewrite bind_ok by by apply (sem_up_idle k L).
  unfold set_holder, update. simpl. by rewrite Hh.
Qed.

(** Given back by whoever took it. *)
Lemma mutex_unlock_taken k L mtx :
  lists_rep (k_links k) L -> L !! sem_waiters (mutex_sem mtx) = Some [] ->
  mutex_unlock mtx (mutex_taken mtx k) = Ok tt (mutex_given_back mtx k).
Proof.
  intros HL Hw. rewrite (mutex_unlock_idle (mutex_taken mtx k) L).
  - unfold mutex_given_back, mutex_taken. simpl. by rewrite !insert_insert_eq.
  - done.
  - apply lookup_insert_eq.
  - unfold mutex_taken. cbn [k_holders with_holders]. rewrite lookup_insert_eq. by eexists.
  - done.
Qed.

Lemma sem_up_not_taken k sem v :
  k_sems k !! sem = Some v -> v <> 0 -> sem_up sem k = Panic "sem->val == 0".
Proof.
  intros Hv Hn. unfold sem_up. erewrite bind_ok by apply zoom_eflags_disable.
  erewrite bind_ok by by apply get_sem_ok. apply bind_panic. unfold ASSERT.
  by rewrite (proj2 (Z.eqb_neq v 0)).
Qed.

Lemma sem_init_ok k L sem v w :
  lists_rep (k_links k) L -> k_sems k !! sem = Some v -> L !! sem_waiters sem = None ->
  is_Some (k_links k !! list_head (sem_waiters sem)) ->
  is_Some (k_links k !! list_tail (sem_waiters sem)) ->
  ~ owned L (list_head (sem_waiters sem)) -> ~ owned L (list_tail (sem_waiters sem)) ->
  exists h, sem_init sem w k = Ok tt (with_links h (with_sems (<[sem := u8 w]> (k_sems k)) k))
    /\ lists_rep h (<[sem_waiters sem := []]> L) /\ dom h = dom (k_links k).
Proof.
  intros HL Hv Hn Hh Ht Oh Ot.
  destruct (zoom_lists_ok (list_init (sem_waiters sem)) (with_sems (<[sem := u8 w]> (k_sems k)) k) _
    (list_init_spec (view lists_of k) _ _ HL Hn Hh Ht Oh Ot)) as (h & E & HL' & Hd).
  exists h. split; [|done]. unfold sem_init. erewrite bind_ok by by eapply set_sem_ok. exact E.
Qed.

End Semaphores.
End Sync.
