(* ===== verification/Mutex.v ===== *)
(** Threads that share a mutex, interleaved by the timer.

    The system is the kernel's state and, for each thread, how far it is in
    [mutex_lock ... mutex_unlock].  Every step runs the code of [Sync.v] or
    [Sched.v] on the kernel's state: the running thread runs the next statement
    of [mutex_lock] ([sem_down], the holder) or of [mutex_unlock] ([sem_up], no
    holder), or runs on in [sem_down] after it blocked there; or an interrupt
    ends in [main_schedule].  Code between two of these steps runs with
    interrupts on, so an interrupt may come between any two.
    [mutual_exclusion] and the invariant it rests on hold after any sequence
    of steps. *)

From S2P Require Import Prelude Bytes Bitmap Interrupt LinkedList Paging Kernel ReadyQueues Sched.
From S2P Require Import Sync.

Module Mutex.
Import Interrupt LinkedList Paging Kernel ReadyQueues Sched Sync.

(** Where a thread is: not in the mutex's code; blocked in [sem_down]; woken
    and about to run the loop of [sem_down] again; back from [sem_down]; back
    from [mutex_lock]; back from [sem_up] in [mutex_unlock]. *)
Inductive phase : Set := Out | Waiting | Trying | Got | In | Leaving.

#[export] Instance phase_eq_dec : EqDecision phase.
Proof. solve_decision. Defined.

Record system := mkSystem { kern : kernel; phase_of : Z -> phase }.

Definition set_phase (t : Z) (p : phase) (ph : Z -> phase) : Z -> phase :=
  fun u => if decide (u = t) then p else ph u.

(** A thread that was blocked in [sem_down] and is ready now will try again. *)
Definition woken_phases (k : kernel) (ph : Z -> phase) : Z -> phase := fun t =>
  match ph t, status <$> k_tcbs k !! t with
  | Waiting, Some TASK_READY => Trying
  | p, _ => p
  end.

(** The thread that has taken the semaphore. *)
Definition critical (p : phase) : Prop := p = Got \/ p = In.

Definition me (s : system) : Z := running_thread (k_sched (kern s)).
Definition my_phase (s : system) : phase := phase_of s (me s).

(** The statements of [mutex_lock] and [mutex_unlock], by their number. *)
Definition lock_stmt (mtx : Z) (i : nat) : M kernel unit := nth i (mutex_lock_body mtx) (mret tt).
Definition unlock_stmt (mtx : Z) (i : nat) : M kernel unit := nth i (mutex_unlock_body mtx) (mret tt).

Inductive step (mtx : Z) : system -> system -> Prop :=
| step_lock s k' :
    my_phase s = Out -> lock_stmt mtx 0 (kern s) = Ok tt k' ->
    step mtx s (mkSystem k' (set_phase (me s) Got (phase_of s)))
| step_lock_wait s k' :
    my_phase s = Out -> lock_stmt mtx 0 (kern s) = Switched k' ->
    step mtx s (mkSystem k' (set_phase (me s) Waiting (phase_of s)))
| step_again s k' b :
    my_phase s = Trying -> sem_down_again (mutex_sem mtx) (status_of b) (kern s) = Ok tt k' ->
    step mtx s (mkSystem k' (set_phase (me s) Got (phase_of s)))
| step_again_wait s k' b :
    my_phase s = Trying -> sem_down_again (mutex_sem mtx) (status_of b) (kern s) = Switched k' ->
    step mtx s (mkSystem k' (set_phase (me s) Waiting (phase_of s)))
| step_hold s k' :
    my_phase s = Got -> lock_stmt mtx 1 (kern s) = Ok tt k' ->
    step mtx s (mkSystem k' (set_phase (me s) In (phase_of s)))
| step_unlock s k' :
    my_phase s = In -> unlock_stmt mtx 0 (kern s) = Ok tt k' ->
    step mtx s (mkSystem k' (set_phase (me s) Leaving (woken_phases k' (phase_of s))))
| step_clear s k' :
    my_phase s = Leaving -> unlock_stmt mtx 1 (kern s) = Ok tt k' ->
    step mtx s (mkSystem k' (set_phase (me s) Out (phase_of s)))
| step_interrupt s b n k' :
    main_schedule (with_sched (sched_need b (k_sched (kern s))) (kern s)) = Ok n k' ->
    step mtx s (mkSystem k' (phase_of s)).

Section Invariant.
Context (D : list Z) (mtx : Z).
Implicit Types (s : system) (qs : queues) (L : gmap Z (list Z)) (ws : list Z).

#[local] Abbreviation sem := (mutex_sem mtx).

(** The semaphore is free and somebody is about to take it if anybody wants
    to, or it is taken by exactly one thread. *)
Definition taken_once (ph : Z -> phase) (v : Z) ws : Prop :=
  (v = 1 /\ (forall t, ~ critical (ph t)) /\ (ws = [] \/ exists t, ph t = Trying))
  \/ (v = 0 /\ exists t, critical (ph t) /\ forall u, critical (ph u) -> u = t).

Definition system_inv s qs L (v : Z) ws : Prop :=
  sem_rep D (kern s) qs L sem v ws /\ NoDup ws
  /\ (forall t, t ∈ ws <-> phase_of s t = Waiting)
  /\ (exists r, running (kern s) qs r)
  /\ (forall t, phase_of s t = Trying -> queued t qs)
  /\ k_links (kern s) !! THIS_RQ 0xffffffff = None
  /\ taken_once (phase_of s) v ws.

Definition good s : Prop := exists qs L v ws, system_inv s qs L v ws.

Lemma set_phase_eq t p ph : set_phase t p ph t = p.
Proof. unfold set_phase. by rewrite decide_True. Qed.
Lemma set_phase_ne t u p ph : u <> t -> set_phase t p ph u = ph u.
Proof. intros. unfold set_phase. by rewrite decide_False. Qed.

(** A state in which only the semaphore's value and the holder changed. *)
Lemma sem_rep_val k qs L v w ws :
  sem_rep D k qs L sem v ws ->
  sem_rep D (with_sems (<[sem := w]> (k_sems k)) k) qs L sem w ws.
Proof.
  intros [R Hv Hw Ha Hb Hf Hn]. constructor; try done; simpl.
  - by apply (rep_ext D k).
  - apply lookup_insert_eq.
Qed.

Lemma running_ext k k' qs n :
  running_thread (k_sched k') = running_thread (k_sched k) -> k_tcbs k' = k_tcbs k ->
  running k qs n -> running k' qs n.
Proof. unfold running. by intros -> ->. Qed.

(** Taking the semaphore: what [step_lock] and [step_again] do. *)
Lemma take_good s qs L v ws k' :
  system_inv s qs L v ws -> my_phase s = Out \/ my_phase s = Trying -> v = 1 ->
  k_links k' = k_links (kern s) -> k_vm k' = k_vm (kern s) -> k_tcbs k' = k_tcbs (kern s) ->
  k_sched k' = k_sched (kern s) -> k_sems k' = <[sem := 0]> (k_sems (kern s)) ->
  good (mkSystem k' (set_phase (me s) Got (phase_of s))).
Proof.
  intros (S & ND & Hws & [r Hr] & Ht & Hno & Hone) Hme -> E1 E2 E3 E4 E5.
  destruct Hone as [(_ & Hnone & Hprog)|[? _]]; [|done].
  exists qs, L, 0, ws. split_and!; simpl.
  - apply (sem_rep_val _ _ _ _ 0) in S. apply (sem_rep_ext D _ k') in S; try done.
    + by rewrite E4.
    + by rewrite E5.
  - done.
  - intros t. rewrite Hws. unfold set_phase. case_decide as E; [|done]. subst t.
    unfold my_phase in Hme. split; [|done]. intros Hw. destruct Hme; congruence.
  - exists r. eapply running_ext; [by rewrite E4|done|done].
  - intros t. unfold set_phase. case_decide; [done|]. apply Ht.
  - by rewrite E1.
  - right. split; [done|]. exists (me s). rewrite set_phase_eq. split; [by left|].
    intros u. unfold set_phase. case_decide; [done|]. intros Hc. by destruct (Hnone u).
Qed.

(** Waiting for it: what [step_lock_wait] and [step_again_wait] do. *)
Lemma wait_good s qs L ws k' qs' L' n :
  system_inv s qs L 0 ws -> my_phase s = Out \/ my_phase s = Trying ->
  sem_rep D k' qs' L' sem 0 (ws ++ [me s]) -> running k' qs' n ->
  (forall t, t <> me s -> queued t qs -> queued t qs') ->
  k_links k' !! THIS_RQ 0xffffffff = None ->
  good (mkSystem k' (set_phase (me s) Waiting (phase_of s))).
Proof.
  intros (S & ND & Hws & _ & Ht & _ & Hone) Hme S' Hr' Hq Hno.
  assert (Hmw : me s ∉ ws).
  { rewrite Hws. fold (my_phase s). destruct Hme as [->| ->]; done. }
  destruct Hone as [(? & _)|(_ & h & Hh & Huniq)]; [done|].
  exists qs', L', 0, (ws ++ [me s]). split_and!; simpl; try done.
  - apply NoDup_app. split; [done|]. split; [|by apply NoDup_singleton].
    intros x Hx ->%list_elem_of_singleton. done.
  - intros t. rewrite elem_of_app, list_elem_of_singleton, Hws. unfold set_phase.
    case_decide; [tauto|]. naive_solver.
  - by exists n.
  - intros t. unfold set_phase. case_decide as E; [done|]. intros Htr. by apply Hq, Ht.
  - right. split; [done|]. exists h.
    assert (h <> me s).
    { intros ->. fold (my_phase s) in Hh. destruct Hme as [E|E]; rewrite E in Hh; by destruct Hh. }
    rewrite set_phase_ne by done. split; [done|]. intros u. unfold set_phase.
    case_decide; [by intros [|]|apply Huniq].
Qed.

(** The three things [sem_down] can do, whoever calls it and for the first
    time or again. *)
Definition down_takes s (v : Z) : Prop :=
  v = 1 /\ sem_down sem (kern s) = Ok tt (with_sems (<[sem := 0]> (k_sems (kern s))) (kern s))
  /\ forall b, sem_down_again sem (status_of b) (kern s)
     = Ok tt (with_eflags (with_if b (k_eflags (kern s)))
         (with_sems (<[sem := 0]> (k_sems (kern s))) (kern s))).

Definition down_waits s qs (v : Z) ws : Prop :=
  v = 0 /\ exists k' qs' L' n, sem_down sem (kern s) = Switched k'
    /\ (forall b, sem_down_again sem (status_of b) (kern s) = Switched k')
    /\ sem_rep D k' qs' L' sem 0 (ws ++ [me s]) /\ running k' qs' n
    /\ (forall t, t <> me s -> queued t qs -> queued t qs')
    /\ k_links k' !! THIS_RQ 0xffffffff = None.

Definition down_stuck s : Prop :=
  sem_down sem (kern s) = Fault /\ forall b, sem_down_again sem (status_of b) (kern s) = Fault.

Lemma down_cases s qs L v ws :
  system_inv s qs L v ws -> my_phase s = Out \/ my_phase s = Trying ->
  down_takes s v \/ down_waits s qs v ws \/ down_stuck s.
Proof.
  intros (S & ND & Hws & [r Hr] & Ht & Hno & Hone) Hme.
  assert (Hmw : me s ∉ ws).
  { rewrite Hws. fold (my_phase s). destruct Hme as [->| ->]; done. }
  pose proof Hr as (Er & tc & q & Htc & Hst & Hq & Hin). unfold me in *. rewrite Er in *.
  pose proof (se_val _ _ _ _ _ _ _ S) as Hv.
  destruct Hone as [(-> & _)|(-> & _)].
  { left. split; [done|]. split; [by apply (sem_down_takes _ _ 1)|].
    intros b. by apply (sem_down_again_takes _ _ 1). }
  right. destruct (first_ready (leave (Z.to_nat (priority tc)) r qs)) as [[p next]|] eqn:Hf.
  - left. split; [done|].
    destruct (sem_down_blocks D _ _ _ _ _ _ _ _ _ _ S Er Htc Hmw Hq Hin Hf)
      as (h & m & L' & tn & d & E1 & E2 & Hne & Htn & _ & _ & S' & Hd & _).
    eexists _, _, L', next. split; [exact E1|]. split; [exact E2|].
    unfold me. rewrite Er. split; [exact S'|]. split; [|split].
    + eapply dispatched_running; [apply S'|exact Hf|]. simpl. by rewrite lookup_insert_ne.
    + intros t Hn Hqt. by apply leave_queued_other.
    + apply not_elem_of_dom. simpl. rewrite Hd. by apply not_elem_of_dom.
  - right. split; [|intros b]; by eapply (sem_down_last D) with (b := true)
      || by eapply (sem_down_last D).
Qed.

(** Writing the holder changes nothing the invariant speaks about. *)
Lemma holder_good s qs L v ws h k' p :
  system_inv s qs L v ws -> set_holder mtx h (kern s) = Ok tt k' ->
  p <> Waiting -> p <> Trying -> my_phase s <> Waiting ->
  (critical p <-> critical (my_phase s)) -> my_phase s <> Trying ->
  good (mkSystem k' (set_phase (me s) p (phase_of s))).
Proof.
  intros (S & ND & Hws & [r Hr] & Ht & Hno & Hone) E Np Np' Nm Hc Nt.
  unfold set_holder, update in E. destruct (k_holders (kern s) !! mtx); [|done].
  injection E as <-. exists qs, L, v, ws. split_and!; simpl; try done.
  - by apply (sem_rep_ext D (kern s)).
  - intros t. rewrite Hws. unfold set_phase. case_decide as E; [|done]. by subst t.
  - exists r. by apply (running_ext (kern s)).
  - intros t. unfold set_phase. case_decide; [done|]. apply Ht.
  - assert (Hcrit : forall t, critical (set_phase (me s) p (phase_of s) t)
      <-> critical (phase_of s t)).
    { intros t. unfold set_phase. case_decide as E; [|done]. by subst t. }
    destruct Hone as [(-> & Hnone & Hprog)|(-> & t & Htc & Huniq)].
    + left. split; [done|]. split; [intros t; by rewrite Hcrit|].
      destruct Hprog as [|[t Htr]]; [by left|right]. exists t. rewrite set_phase_ne; [done|].
      by intros ->.
    + right. split; [done|]. exists t. rewrite Hcrit. split; [done|]. intros u.
      rewrite Hcrit. apply Huniq.
Qed.

Lemma interrupt_good s qs L v ws b n k' :
  system_inv s qs L v ws ->
  main_schedule (with_sched (sched_need b (k_sched (kern s))) (kern s)) = Ok n k' ->
  good (mkSystem k' (phase_of s)).
Proof.
  intros (S & ND & Hws & [r Hr] & Ht & Hno & Hone) E.
  set (k0 := with_sched (sched_need b (k_sched (kern s))) (kern s)) in *.
  assert (R0 : sched_rep D k0 qs L) by (apply (rep_ext D (kern s)); [done..|apply S]).
  assert (Hr0 : running k0 qs r) by by apply (running_ext (kern s)).
  destruct (main_schedule_any D k0 qs L r R0 Hr0)
    as (n' & k1 & qs' & L' & E' & R' & Hr' & Ho & Hqd & Hkeep & Hdt & Hdl & Hs & _).
  rewrite E in E'. injection E' as <- <-.
  exists qs', L', v, ws. split_and!; simpl; try done.
  - eapply (sem_rep_sched D (kern s)); [exact S|exact R'|exact Ho|by rewrite Hs|done|done|].
    intros t Hin. destruct (se_blocked _ _ _ _ _ _ _ S t Hin) as (tc & Htc & Hst & Hnq).
    split; [|by rewrite Hqd]. apply Hkeep; intros ->; apply Hnq.
    + destruct Hr as (_ & tc' & q & _ & _ & Hq & Hin'). eexists _, q. eauto.
    + rewrite <- Hqd. destruct Hr' as (_ & tc' & q & _ & _ & Hq & Hin'). eexists _, q. eauto.
  - by exists n.
  - intros t Htr. rewrite Hqd. by apply Ht.
  - apply not_elem_of_dom. rewrite Hdl. by apply not_elem_of_dom.
Qed.

(** Only the threads whose status became [TASK_READY] change phase. *)
Lemma woken_phases_other k ph t :
  (ph t = Waiting -> exists tc, k_tcbs k !! t = Some tc /\ status tc = TASK_BLOCKED) ->
  woken_phases k ph t = ph t.
Proof.
  intros H. unfold woken_phases. destruct (ph t) eqn:E; try done.
  destruct (H eq_refl) as (tc & -> & Hs). simpl. by rewrite Hs.
Qed.

Lemma woken_phases_woken k ph t tc :
  ph t = Waiting -> k_tcbs k !! t = Some tc -> status tc = TASK_READY ->
  woken_phases k ph t = Trying.
Proof. intros E Ht Hs. unfold woken_phases. rewrite E, Ht. simpl. by rewrite Hs. Qed.

Lemma unlock_good s qs L v ws k' :
  system_inv s qs L v ws -> my_phase s = In -> sem_up sem (kern s) = Ok tt k' ->
  good (mkSystem k' (set_phase (me s) Leaving (woken_phases k' (phase_of s)))).
Proof.
  intros (S & ND & Hws & [r Hr] & Ht & Hno & Hone) Hme E.
  pose proof (proj1 Hr) as Er. pose proof Hr as (_ & tcr & qr & Htcr & _).
  assert (Hcm : critical (phase_of s (me s))) by (by right).
  destruct Hone as [(_ & Hnone & _)|(-> & h & Hh & Huniq)]; [by destruct (Hnone (me s))|].
  assert (h = me s) as -> by (symmetry; by apply Huniq).
  destruct ws as [|w ws].
  - rewrite (sem_up_no_waiter D _ _ _ _ S) in E. injection E as <-.
    assert (Hph : forall t, woken_phases (with_sems (<[sem := 1]> (k_sems (kern s))) (kern s))
        (phase_of s) t = phase_of s t).
    { intros t. apply woken_phases_other. intros Hw. apply Hws in Hw. by apply not_elem_of_nil in Hw. }
    exists qs, L, 1, []. split_and!; simpl; try done.
    + by eapply sem_rep_val.
    + intros t. unfold set_phase. case_decide; [|by rewrite Hph, Hws].
      split; [by intros ?%not_elem_of_nil|done].
    + exists r. by apply (running_ext (kern s)).
    + intros t. unfold set_phase. case_decide; [done|]. rewrite Hph. apply Ht.
    + left. split; [done|]. split; [|by left]. intros t. unfold set_phase.
      case_decide as Et; [by intros [|]|]. rewrite Hph. intros Hc. by apply Et, Huniq.
  - destruct (se_blocked _ _ _ _ _ _ _ S w ltac:(left)) as (tw & Htw & Hstw & Hnqw).
    destruct (sem_up_wakes D _ _ _ _ _ _ _ S ND Htw ltac:(rewrite Er; eauto))
      as (h & m & L' & E' & S' & Hd & _ & _).
    rewrite E in E'. injection E' as ->. clear E.
    set (k' := with_sems (<[sem := 1]> (k_sems (kern s))) (woken (kern s) w tw h m)) in *.
    apply NoDup_cons in ND as [Nw ND].
    assert (Hpw : phase_of s w = Waiting) by (apply Hws; left).
    assert (w <> me s) as Nwm by (intros ->; fold (my_phase s) in Hpw; congruence).
    assert (Hphw : woken_phases k' (phase_of s) w = Trying).
    { eapply woken_phases_woken; [done|apply lookup_insert_eq|done]. }
    assert (Hph : forall t, t <> w -> woken_phases k' (phase_of s) t = phase_of s t).
    { intros t Nt. apply woken_phases_other. intros Hw. apply Hws in Hw.
      destruct (se_blocked _ _ _ _ _ _ _ S t Hw) as (tc & Htc & Hst & _).
      exists tc. split; [|done]. simpl. by rewrite lookup_insert_ne. }
    destruct (queue_at D _ _ _ _ _ (se_sched _ _ _ _ _ _ _ S) Htw) as (qw & Hqw & _).
    exists (enqueue_front (Z.to_nat (priority tw)) w qs), L', 1, ws. split_and!; simpl; try done.
    + intros t. unfold set_phase. case_decide as Et.
      { subst t. split; [|done]. intros Hx. assert (Hx' : me s ∈ w :: ws) by by right.
        apply Hws in Hx'. fold (my_phase s) in Hx'. congruence. }
      destruct (decide (t = w)) as [->|Nt]; [by rewrite Hphw|].
      rewrite Hph, <- Hws by done. set_solver.
    + exists r. eapply (running_front (kern s)); [done| |reflexivity|unfold me in Nwm; congruence].
      simpl. by rewrite preempted_running.
    + intros t Htr. rewrite (enqueue_front_queued _ _ _ _ _ Hqw).
      unfold set_phase in Htr. case_decide; [done|].
      destruct (decide (t = w)) as [->|Nt]; [by left|right]. apply Ht. by rewrite <- Hph.
    + apply not_elem_of_dom. rewrite Hd. by apply not_elem_of_dom.
    + left. split; [done|]. split.
      * intros t. unfold set_phase. case_decide as Et; [by intros [|]|].
        destruct (decide (t = w)) as [->|Nt]; [rewrite Hphw; by intros [|]|].
        rewrite Hph by done. intros Hc. by apply Et, Huniq.
      * right. exists w. by rewrite set_phase_ne.
Qed.

Lemma step_good s s' : good s -> step mtx s s' -> good s'.
Proof.
  intros (qs & L & v & ws & I) Hstep. pose proof (down_cases s qs L v ws I) as Hdown.
  destruct Hstep as [s k' Hme E|s k' Hme E|s k' b Hme E|s k' b Hme E|s k' Hme E|s k' Hme E
    |s k' Hme E|s b n k' E].
  all: unfold lock_stmt, unlock_stmt in *; cbn [nth mutex_lock_body mutex_unlock_body] in *.
  1-4: destruct Hdown as [(Hv & E1 & E2)|[(-> & k1 & qs' & L' & n & E1 & E2 & S' & Hr' & Hq & Hno)
    |[E1 E2]]]; [by auto|..]; rewrite ?E1, ?E2 in E; try done; injection E as <-.
  - eapply take_good; eauto.
  - eapply wait_good; eauto.
  - eapply take_good; eauto.
  - eapply wait_good; eauto.
  - eapply holder_good; [exact I|exact E|done..| | |]; rewrite ?Hme; unfold critical; naive_solver.
  - by eapply unlock_good.
  - eapply holder_good; [exact I|exact E|done..| | |]; rewrite ?Hme; unfold critical; naive_solver.
  - by eapply interrupt_good.
Qed.

Lemma reachable_good s s' : good s -> rtc (step mtx) s s' -> good s'.
Proof. intros H R. induction R; [done|]. eauto using step_good. Qed.

End Invariant.
(** ** Running the system *)

Inductive action : Set := DoDown | DoAgain | DoHold | DoUp | DoClear | DoInterrupt.

(** The state after an action of the running thread, or an interrupt that ends
    its time slice. *)
Definition act (mtx : Z) (a : action) (s : system) : option system :=
  let down r := match r with
    | Ok _ k' => Some (mkSystem k' (set_phase (me s) Got (phase_of s)))
    | Switched k' => Some (mkSystem k' (set_phase (me s) Waiting (phase_of s)))
    | _ => None
    end in
  match a, my_phase s with
  | DoDown, Out => down (lock_stmt mtx 0 (kern s))
  | DoAgain, Trying => down (sem_down_again (mutex_sem mtx) (status_of true) (kern s))
  | DoHold, Got =>
      match lock_stmt mtx 1 (kern s) with
      | Ok _ k' => Some (mkSystem k' (set_phase (me s) In (phase_of s))) | _ => None end
  | DoUp, In =>
      match unlock_stmt mtx 0 (kern s) with
      | Ok _ k' => Some (mkSystem k' (set_phase (me s) Leaving (woken_phases k' (phase_of s))))
      | _ => None end
  | DoClear, Leaving =>
      match unlock_stmt mtx 1 (kern s) with
      | Ok _ k' => Some (mkSystem k' (set_phase (me s) Out (phase_of s))) | _ => None end
  | DoInterrupt, _ =>
      match main_schedule (with_sched (sched_need true (k_sched (kern s))) (kern s)) with
      | Ok _ k' => Some (mkSystem k' (phase_of s)) | _ => None end
  | _, _ => None
  end.

Fixpoint acts (mtx : Z) (l : list action) (s : system) : option system :=
  match l with
  | [] => Some s
  | a :: l' => s' ← act mtx a s; acts mtx l' s'
  end.

Lemma act_step mtx a s s' : act mtx a s = Some s' -> step mtx s s'.
Proof.
  unfold act. intros H. destruct a, (my_phase s) eqn:Hp; try done.
  all: match type of H with context [match ?x with _ => _ end] => destruct x as [[]| | | |] eqn:E end;
    try done; injection H as <-; eauto using step.
  all: by eapply step_interrupt.
Qed.

Lemma acts_steps mtx l s s' : acts mtx l s = Some s' -> rtc (step mtx) s s'.
Proof.
  revert s. induction l as [|a l IH]; intros s; simpl; [by intros [= ->]|].
  destruct (act mtx a s) as [s1|] eqn:E; [|done]. simpl. intros H.
  eapply rtc_l; [by eapply act_step|by apply IH].
Qed.

End Mutex.
