(* ===== verification/Console.v ===== *)
(** Messages on the kernel's screen, [device/console.c] and [kernel/debug.c].

    [on_screen D k] says that the screen's memory is mapped and the cursor is
    on it; [say_ok] and [say_int_ok] are what every function that prints a
    message relies on: the message changes only the screen's memory and the
    ports. *)

From S2P Require Import Prelude Bytes Interrupt Paging Ports Print Descriptors Kernel Sched Sync.

Module Console.
Import Interrupt Paging Ports Kernel Sched Sync.

Section Code.
#[local] Existing Instance Paging.vm_ops.

(** ** [device/console.c] *)

Definition console_init : M kernel unit := mutex_init console_mutex.
Definition console_acquire : M kernel unit := mutex_lock console_mutex.
Definition console_release : M kernel unit := mutex_unlock console_mutex.

(** [fuel] bounds the length of the string. *)
Definition console_put_str (fuel : nat) (str : Z) : M kernel unit :=
  console_acquire;;
  zoom display_of (Print.put_str fuel str);;
  console_release.

Definition console_put_char (c : Z) : M kernel unit :=
  console_acquire;;
  zoom display_of (Print.put_char c);;
  console_release.

Definition console_put_int (num : Z) : M kernel unit :=
  console_acquire;;
  say_int num;;
  console_release.

(** ** [kernel/debug.c] *)

(** [while (1);] *)
Definition spin {A} : M kernel A := panic "while (1)".

(** What [ASSERT] and [PANIC] call; the result [Panic] of the model stands for
    the whole call. *)
Definition panic_spin (fuel : nat) (filename line func cond : Z) : M kernel unit :=
  zoom eflags_of intr_disable;;
  say "filename: ";;
  zoom display_of (Print.put_str fuel filename);;
  say Print.nl;;
  say "line: 0x";;
  say_int line;;
  say Print.nl;;
  say "function: ";;
  zoom display_of (Print.put_str fuel func);;
  say Print.nl;;
  say "condition: ";;
  zoom display_of (Print.put_str fuel cond);;
  say Print.nl;;
  spin.

End Code.

Section Messages.
Context (D : list Z).
Implicit Types (k : kernel).

#[local] Instance data_mem : ByteMem vm := vm_mem D.

Definition on_screen k : Prop := exists cells cur,
  Print.screen_rep (Print.mkDisplay (k_vm k) (k_io k)) cells cur /\ 0 <= cur < Print.SCREEN_MAX.

(** From [k] to [k'] there was only output. *)
Definition printed k k' : Prop := exists v i, k' = with_vm v (with_io i k)
  /\ modifies Print.video_byte (k_vm k) v /\ crt_only (k_io k) i.

Lemma printed_refl k : printed k k.
Proof. exists (k_vm k), (k_io k). split; [by destruct k|done]. Qed.

Lemma printed_trans k1 k2 k3 : printed k1 k2 -> printed k2 k3 -> printed k1 k3.
Proof.
  intros (v1 & i1 & -> & M1 & K1) (v2 & i2 & -> & M2 & K2). simpl in *.
  exists v2, i2. split; [done|]. split; [by etransitivity|by etransitivity].
Qed.

#[export] Instance printed_preorder : PreOrder printed.
Proof. split; [exact printed_refl|exact printed_trans]. Qed.

Definition printable_string (s : string) : bool :=
  forallb (fun c => (0 <? c) && (c <? 256) && negb (c =? 8)) (Print.text_of s).

Lemma printable_text s : printable_string s = true -> Print.printable (Print.text_of s).
Proof.
  unfold printable_string, Print.printable. rewrite forallb_forall, Forall_forall.
  intros H c Hc. specialize (H c (proj1 (list_elem_of_In _ _) Hc)).
  rewrite !andb_true_iff, negb_true_iff in H. destruct H as [[?%Z.ltb_lt ?%Z.ltb_lt] ?%Z.eqb_neq].
  lia.
Qed.

Lemma shown_ok k (m : M (Print.display vm) unit) l : on_screen k -> Print.printable l ->
  m (Print.mkDisplay (k_vm k) (k_io k)) = Print.put_text l (Print.mkDisplay (k_vm k) (k_io k)) ->
  exists k', zoom display_of m k = Ok tt k' /\ on_screen k' /\ printed k k'.
Proof.
  intros (cells & cur & Hs & Hc) Hl Em.
  pose proof (Print.put_text_ok _ _ _ l Hs Hc Hl) as W.
  apply wp_inv in W as ([] & d & E & Hs' & [M K] & Hc'). destruct d as [v i].
  exists (with_vm v (with_io i k)). split; [|split].
  - unfold zoom. simpl. rewrite Em, E. done.
  - exists (Print.puts l (cells, cur)).1, (Print.puts l (cells, cur)).2. done.
  - by exists v, i.
Qed.

Lemma say_ok s k : on_screen k -> printable_string s = true ->
  exists k', say s k = Ok tt k' /\ on_screen k' /\ printed k k'.
Proof. intros Ho Hs. by apply (shown_ok k _ (Print.text_of s)), eq_refl; [|apply printable_text]. Qed.

Lemma say_int_ok n k : on_screen k ->
  exists k', say_int n k = Ok tt k' /\ on_screen k' /\ printed k k'.
Proof.
  intros Ho. apply (shown_ok k _ (Print.hex (u32 n))); [done| |apply Print.put_int_text].
  apply Print.hex_printable. pose proof (u32_range n). lia.
Qed.

Lemma on_screen_ext k k' : k_vm k' = k_vm k -> crt_regs (k_io k') = crt_regs (k_io k) ->
  on_screen k -> on_screen k'.
Proof.
  intros E1 E2 (cells & cur & [Hs Hc] & Hr). exists cells, cur. split; [|done].
  split; simpl in *; [by rewrite E1|]. unfold Print.cursor_at in *. by rewrite E2.
Qed.

(** As rules for reasoning forwards through a function that prints. *)
Lemma wp_say s k (Q : unit -> kernel -> Prop) : on_screen k -> printable_string s = true ->
  (forall v i, on_screen (with_vm v (with_io i k)) -> modifies Print.video_byte (k_vm k) v ->
     crt_only (k_io k) i -> Q tt (with_vm v (with_io i k))) ->
  wp (say s) k Q.
Proof.
  intros Ho Hs HQ. destruct (say_ok s k Ho Hs) as (k' & E & Ho' & v & i & -> & M & C).
  eapply wp_ok; [exact E|auto].
Qed.

Lemma wp_say_int n k (Q : unit -> kernel -> Prop) : on_screen k ->
  (forall v i, on_screen (with_vm v (with_io i k)) -> modifies Print.video_byte (k_vm k) v ->
     crt_only (k_io k) i -> Q tt (with_vm v (with_io i k))) ->
  wp (say_int n) k Q.
Proof.
  intros Ho HQ. destruct (say_int_ok n k Ho) as (k' & E & Ho' & v & i & -> & M & C).
  eapply wp_ok; [exact E|auto].
Qed.

End Messages.
End Console.
