(* ===== verification/Idt.v ===== *)
(** Setting up the processor: [kernel/interrupt.c] (the IDT, the interrupt
    controllers, the default handler), [tss_init] of [user/tss.c] and
    [user/syscall_init.c].

    The addresses of the assembly entry points ([kernel/kernel.s]) and of the
    C objects are the linker's: the functions that use them take them as
    arguments.  [pic] is the 8259A interrupt controller, as far as the kernel
    programs it; it reads the writes the ports have logged. *)

From S2P Require Import Prelude Bytes Interrupt LinkedList Paging Ports Print Descriptors Kernel.
From S2P Require Import Console.

Module Idt.
Import Interrupt LinkedList Paging Ports Descriptors Kernel Console.

(** ** [kernel/interrupt.c] *)

Definition PIC_M_CTRL : Z := 0x20.
Definition PIC_M_DATA : Z := 0x21.
Definition PIC_S_CTRL : Z := 0xa0.
Definition PIC_S_DATA : Z := 0xa1.
Definition EXP_PAGE_FAULT : Z := 0x0e.

(** A null pointer is [None]. *)
Definition intr_name : list (option string) :=
  (Some <$> ["#DE"; "#DB"; "#NMI"; "#BP"; "#OF"; "#BR"; "#UD"; "#NM"; "#DF"; "#CSO"; "TS"; "NP";
    "SS"; "GP"; "PF"]) ++ [None] ++ (Some <$> ["MF"; "AC"; "MC"; "XF"]) ++ replicate 12 None
  ++ [Some "TIMER"] ++ replicate 95 None ++ [Some "SYSCALL"].

Example intr_names : length intr_name = Z.to_nat IDT_DESC_CNT
  /\ intr_name !! Z.to_nat EXP_PAGE_FAULT = Some (Some "PF")
  /\ intr_name !! Z.to_nat INT_TIMER = Some (Some "TIMER").
Proof. done. Qed.

Section Code.
#[local] Existing Instance Paging.vm_ops.
Context (intr_entry_table : Z -> Z) (syscall_entry : Z).

Definition idt_desc_init : M kernel unit :=
  say ("   idt_desc_init begin" +:+ Print.nl);;
  for_upto 0 (Z.to_nat IDT_DESC_CNT) (fun i =>
    zoom tables_of (set_idt i (idt_desc_make IDT_DESC_ATTR_DPL0 (intr_entry_table i))));;
  zoom tables_of (set_idt INT_SYSCALL (idt_desc_make IDT_DESC_ATTR_DPL3 syscall_entry));;
  say ("   idt_desc_init done" +:+ Print.nl).

Definition pic_init : M kernel unit :=
  zoom io_of (
    outb PIC_M_CTRL 0x11;; outb PIC_M_DATA 0x20;; outb PIC_M_DATA 0x04;; outb PIC_M_DATA 0x01;;
    outb PIC_S_CTRL 0x11;; outb PIC_S_DATA 0x28;; outb PIC_S_DATA 0x02;; outb PIC_S_DATA 0x01;;
    outb PIC_M_DATA 0xfe;; outb PIC_S_DATA 0xff;; outb PIC_M_DATA 0xfc;; outb PIC_S_DATA 0xff);;
  say ("   pic_init done" +:+ Print.nl).

(** [put_str(intr_name[vec_nr])]; [fuel] bounds what is read at address 0 when
    the vector has no name. *)
Definition put_name (fuel : nat) (vec_nr : Z) : M kernel unit :=
  match intr_name !! Z.to_nat vec_nr with
  | Some (Some s) => say s
  | Some None => zoom display_of (Print.put_str fuel NULL)
  | None => fault
  end.

Definition cursor_set (target : Z) : M kernel unit := zoom io_of (Print.set_cursor target).

(** [cr2] is the register's value: the address of the last page fault. *)
Definition general_intr_handler (fuel : nat) (cr2 vec_nr : Z) : M kernel unit :=
  if (vec_nr =? 0x27) || (vec_nr =? 0x2f) then mret tt else
  cursor_set 0;;
  for_upto 0 320 (fun _ => zoom display_of (Print.put_char 32));;
  cursor_set 0;;
  say ("!!!!!!!  exception message begin !!!!!!!" +:+ Print.nl);;
  cursor_set 88;;
  put_name fuel vec_nr;;
  (if vec_nr =? EXP_PAGE_FAULT then
     say (Print.nl +:+ "page fault vaddr is ");;
     say_int cr2
   else mret tt);;
  say (Print.nl +:+ "!!!!!!!  exception message end !!!!!!!" +:+ Print.nl);;
  spin.

Definition idt_init (idt_addr : Z) : M kernel unit :=
  say ("idt_init start" +:+ Print.nl);;
  idt_desc_init;;
  zoom tables_of exception_init;;
  pic_init;;
  zoom tables_of (lidt (idt_operand idt_addr));;
  say ("idt_init done" +:+ Print.nl).

(** ** [user/tss.c], [user/syscall_init.c] *)

(** The [memset] clears every member of [tss]; those the model leaves out are
    not used afterwards. *)
Definition tss_init : M kernel unit :=
  say ("tss init begin" +:+ Print.nl);;
  let tss_size := TSS_SIZE in
  zoom tables_of (
    set_tss (mkTss 0 0 0);;
    t ← gets the_tss;
    set_tss (mkTss (tss_esp0 t) SELECTOR_K_STACK (tss_io_base t));;
    t ← gets the_tss;
    set_tss (mkTss (tss_esp0 t) (tss_ss0 t) tss_size);;
    set_gdt 4 (gdt_desc_make tss_addr (tss_size - 1) TSS_ATTR_LOW TSS_ATTR_HIGH);;
    set_gdt 5 (gdt_desc_make 0 0xfffff GDT_CODE_ATTR_LOW_DPL3 GDT_ATTR_HIGH);;
    set_gdt 6 (gdt_desc_make 0 0xfffff GDT_DATA_ATTR_LOW_DPL3 GDT_ATTR_HIGH);;
    lgdt gdt_operand;;
    ltr SELECTOR_TSS);;
  say ("tss_init done" +:+ Print.nl).

Definition sys_pid_get : M kernel Z :=
  r ← RUNNING_THREAD;
  t ← get_tcb r;
  mret (u32 (pid t)).

Definition syscall_init : M kernel unit :=
  say ("syscall_init start" +:+ Print.nl);;
  zoom tables_of (set_syscall PID_GET sys_pid_get_ptr);;
  say ("syscall_init done" +:+ Print.nl).

(** ** System calls

    [syscall_entry] of [kernel/kernel.s]: [call [syscall_table + eax * 4]],
    whose result the caller finds in eax. *)
Definition syscall_dispatch (eax : Z) : M kernel Z :=
  t ← gets k_tables;
  match syscall_table t !! eax with
  | Some sys_pid_get_ptr => sys_pid_get
  | None => fault
  end.

(** [int $0x80] from user mode: the processor looks the gate up in the IDT and
    checks that user code may use it. *)
Definition int_syscall (eax : Z) : M kernel Z :=
  t ← gets k_tables;
  match idt t !! INT_SYSCALL ≫= fun g => decode_gate (gate_bytes g) with
  | Some g =>
      if g_present g && (3 <=? g_dpl g) && (g_offset g =? syscall_entry) then syscall_dispatch eax
      else fault
  | None => fault
  end.

(** [lib/user/syscall.c].  The arguments are in ebx, ecx and edx; [syscall_entry]
    pushes these registers, and the only function of the table does not read
    them.  [syscall1], [syscall2] and [syscall3] drop the result. *)
Definition syscall0 (num : Z) : M kernel Z := int_syscall num.
Definition syscall1 (num arg1 : Z) : M kernel unit := _ ← int_syscall num; mret tt.
Definition syscall2 (num arg1 arg2 : Z) : M kernel unit := _ ← int_syscall num; mret tt.
Definition syscall3 (num arg1 arg2 arg3 : Z) : M kernel unit := _ ← int_syscall num; mret tt.
Definition pid_get : M kernel Z := syscall0 PID_GET.

End Code.

(** ** The interrupt controllers

    A controller takes its initialisation as a sequence of command words: the
    first at its control port, with bit 4 set, and the next three at its data
    port, the vector of its first line, its connection to the other one, and
    its mode.  Afterwards a byte at the data port is the mask. *)
Record pic := mkPic { vector_base : Z; cascade : Z; imr : Z; init_step : nat }.

Definition pic_write (ctrl data : Z) (w : Z * Z) (p : pic) : pic :=
  if w.1 =? ctrl then
    if Z.testbit w.2 4 then mkPic (vector_base p) (cascade p) 0 1 else p
  else if w.1 =? data then
    match init_step p with
    | 1%nat => mkPic (Z.land w.2 0xf8) (cascade p) (imr p) 2
    | 2%nat => mkPic (vector_base p) w.2 (imr p) 3
    | 3%nat => mkPic (vector_base p) (cascade p) (imr p) 0
    | _ => mkPic (vector_base p) (cascade p) w.2 0
    end
  else p.

(** The controllers after the writes of [l], the latest first. *)
Definition pic_after (ctrl data : Z) (l : list (Z * Z)) (p : pic) : pic :=
  foldr (pic_write ctrl data) p l.

(** The vectors the two controllers can deliver. *)
Definition pic_vectors (p : pic) : list Z :=
  (fun n => vector_base p + Z.of_nat n) <$> List.filter (fun n => negb (Z.testbit (imr p) (Z.of_nat n))) (seq 0 8).

(** The writes of [pic_init], the latest first. *)
Definition pic_words : list (Z * Z) :=
  rev [(PIC_M_CTRL, 0x11); (PIC_M_DATA, 0x20); (PIC_M_DATA, 0x04); (PIC_M_DATA, 0x01);
    (PIC_S_CTRL, 0x11); (PIC_S_DATA, 0x28); (PIC_S_DATA, 0x02); (PIC_S_DATA, 0x01);
    (PIC_M_DATA, 0xfe); (PIC_S_DATA, 0xff); (PIC_M_DATA, 0xfc); (PIC_S_DATA, 0xff)].

Lemma pic_words_do l p :
  pic_vectors (pic_after PIC_M_CTRL PIC_M_DATA (pic_words ++ l) p) = [INT_TIMER; INT_KEYBOARD]
  /\ pic_vectors (pic_after PIC_S_CTRL PIC_S_DATA (pic_words ++ l) p) = []
  /\ cascade (pic_after PIC_M_CTRL PIC_M_DATA (pic_words ++ l) p) = 2 ^ 2
  /\ cascade (pic_after PIC_S_CTRL PIC_S_DATA (pic_words ++ l) p) = 2.
Proof.
  unfold pic_after. rewrite !foldr_app. set (m := foldr _ p l). set (s := foldr _ p l).
  generalize m s. clear. by intros [] [].
Qed.

(** ** What the functions do *)

Section Setup.
Context (D : list Z) (intr_entry_table : Z -> Z) (syscall_entry : Z).
Implicit Types (k : kernel).

#[local] Instance data_mem : ByteMem vm := vm_mem D.

(** A table filled from entry [from] on. *)
Fixpoint fill {A} (f : Z -> A) (from : Z) (n : nat) (m : gmap Z A) : gmap Z A :=
  match n with O => m | S n' => fill f (from + 1) n' (<[from := f from]> m) end.

Lemma fill_lookup {A} (f : Z -> A) from n m j :
  fill f from n m !! j = if decide (from <= j < from + Z.of_nat n) then Some (f j) else m !! j.
Proof.
  revert from m. induction n as [|n IH]; intros from m; simpl; [by rewrite decide_False by lia|].
  rewrite IH. destruct (decide (j = from)) as [->|Hj].
  - rewrite lookup_insert_eq. rewrite decide_False by lia. by rewrite decide_True by lia.
  - rewrite lookup_insert_ne by done. repeat case_decide; done || lia.
Qed.

Definition with_idt (m : gmap Z gate_desc) (t : tables) : tables :=
  mkTables m (idt_table t) (gdt t) (the_tss t) (syscall_table t) (idtr t) (gdtr t) (task_register t).
Definition with_handlers (m : gmap Z intr_handler) (t : tables) : tables :=
  mkTables (idt t) m (gdt t) (the_tss t) (syscall_table t) (idtr t) (gdtr t) (task_register t).

Lemma idt_fill f from n k : for_upto from n (fun i => zoom tables_of (set_idt i (f i))) k
  = Ok tt (with_tables (with_idt (fill f from n (idt (k_tables k))) (k_tables k)) k).
Proof.
  revert from k. induction n as [|n IH]; intros from k; simpl.
  - by destruct k as [? ? ? []].
  - erewrite bind_ok by reflexivity. by rewrite IH.
Qed.

Lemma handlers_fill h from n t : for_upto from n (fun i => set_handler i h) t
  = Ok tt (with_handlers (fill (fun _ => h) from n (idt_table t)) t).
Proof.
  revert from t. induction n as [|n IH]; intros from t; simpl; [by destruct t|].
  erewrite bind_ok by reflexivity. by rewrite IH.
Qed.

(** From [k] on, messages were printed, the log of the ports other than the
    CRT controller's grew by [w], and the processor's tables became [t]. *)
Definition set_up k w t k' : Prop := exists v i,
  k' = with_vm v (with_io i (with_tables t k)) /\ on_screen D k'
  /\ modifies Print.video_byte (k_vm k) v
  /\ kbd_data i = kbd_data (k_io k) /\ other_writes i = w ++ other_writes (k_io k).

Lemma set_up_trans k w1 t1 k1 w2 t2 k2 :
  set_up k w1 t1 k1 -> set_up k1 w2 t2 k2 -> set_up k (w2 ++ w1) t2 k2.
Proof.
  intros (v1 & i1 & -> & _ & M1 & K1 & W1) (v2 & i2 & -> & S2 & M2 & K2 & W2). simpl in *.
  exists v2, i2. split; [done|]. split; [done|]. split; [by etransitivity|].
  split; [congruence|]. by rewrite W2, W1, app_assoc.
Qed.

Lemma set_up_tables k t : on_screen D k -> set_up k [] t (with_tables t k).
Proof. intros S. exists (k_vm k), (k_io k). split; [by destruct k|]. split; [done|]. by split. Qed.

Lemma set_up_say s k : on_screen D k -> printable_string s = true ->
  exists k', say s k = Ok tt k' /\ set_up k [] (k_tables k) k'.
Proof.
  intros S P. destruct (say_ok D s k S P) as (k' & E & S' & v & i & -> & M & K & W).
  eexists. split; [exact E|]. exists v, i. split; [by destruct k|done].
Qed.

(** Running the statements of a set-up function: [sets w t m] says what [m]
    does, from wherever it starts with the tables [t0]. *)
Definition sets t0 w t1 (m : M kernel unit) : Prop := forall k, on_screen D k -> k_tables k = t0 ->
  exists k', m k = Ok tt k' /\ set_up k w t1 k'.

Lemma set_up_inv k w t k' : set_up k w t k' -> on_screen D k' /\ k_tables k' = t.
Proof. by intros (v & i & -> & S & _). Qed.

Lemma sets_bind t0 w1 t1 w2 t2 m1 m2 :
  sets t0 w1 t1 m1 -> sets t1 w2 t2 m2 -> sets t0 (w2 ++ w1) t2 (m1;; m2).
Proof.
  intros H1 H2 k S E. destruct (H1 k S E) as (k1 & E1 & U1).
  destruct (set_up_inv _ _ _ _ U1) as [S1 T1]. destruct (H2 k1 S1 T1) as (k2 & E2 & U2).
  exists k2. split; [by erewrite bind_ok by exact E1|by eapply set_up_trans].
Qed.

Lemma sets_say t s : printable_string s = true -> sets t [] t (say s).
Proof. intros P k S <-. by apply set_up_say. Qed.

Ltac sets_say := apply sets_say; vm_compute; reflexivity.

Lemma sets_tables t t' m : m t = Ok tt t' -> sets t [] t' (zoom tables_of m).
Proof.
  intros E k S <-. exists (with_tables t' k). split; [by apply (zoom_ok tables_of)|by apply set_up_tables].
Qed.

Lemma sets_io t w m : (forall i, exists i', m i = Ok tt i' /\ crt_regs i' = crt_regs i
    /\ kbd_data i' = kbd_data i /\ other_writes i' = w ++ other_writes i) ->
  sets t w t (zoom io_of m).
Proof.
  intros H k S <-. destruct (H (k_io k)) as (i' & E & C & K & W).
  exists (with_io i' k). split; [by apply (zoom_ok io_of)|]. exists (k_vm k), i'.
  split; [by destruct k|]. split; [|by split_and!]. by apply (on_screen_ext D k).
Qed.

Definition idt_made t : tables :=
  with_idt (<[INT_SYSCALL := idt_desc_make IDT_DESC_ATTR_DPL3 syscall_entry]>
    (fill (fun i => idt_desc_make IDT_DESC_ATTR_DPL0 (intr_entry_table i)) 0 (Z.to_nat IDT_DESC_CNT)
      (idt t))) t.

Lemma sets_fill t : sets t [] (with_idt (fill (fun i => idt_desc_make IDT_DESC_ATTR_DPL0 (intr_entry_table i))
    0 (Z.to_nat IDT_DESC_CNT) (idt t)) t)
  (for_upto 0 (Z.to_nat IDT_DESC_CNT) (fun i =>
    zoom tables_of (set_idt i (idt_desc_make IDT_DESC_ATTR_DPL0 (intr_entry_table i))))).
Proof.
  intros k S <-. eexists. split; [apply idt_fill|]. by apply set_up_tables.
Qed.

Lemma idt_desc_init_sets t :
  sets t [] (idt_made t) (idt_desc_init intr_entry_table syscall_entry).
Proof.
  unfold idt_desc_init. change [] with ((([] ++ []) ++ []) ++ [] : list (Z * Z)).
  eapply sets_bind; [sets_say|]. eapply sets_bind; [apply sets_fill|].
  eapply sets_bind; [|sets_say]. by apply sets_tables.
Qed.

Lemma pic_init_sets t : sets t pic_words t pic_init.
Proof.
  unfold pic_init. change pic_words with ([] ++ pic_words).
  eapply sets_bind; [|sets_say]. apply sets_io. intros i.
  exists (mkIo (crt_index i) (crt_regs i) (kbd_data i) (pic_words ++ written i)).
  split; [vm_compute; reflexivity|]. split; [reflexivity|]. split; [reflexivity|].
  exact (List.filter_app _ pic_words (written i)).
Qed.

Definition idt_ready idt_addr t : tables :=
  let t := idt_made t in
  mkTables (idt t) (fill (fun _ => general_intr_handler_ptr) 0 (Z.to_nat IDT_DESC_CNT) (idt_table t))
    (gdt t) (the_tss t) (syscall_table t) (idt_operand idt_addr) (gdtr t) (task_register t).

Lemma idt_init_sets idt_addr t :
  sets t pic_words (idt_ready idt_addr t) (idt_init intr_entry_table syscall_entry idt_addr).
Proof.
  unfold idt_init. change pic_words with ([] ++ ([] ++ (pic_words ++ ([] ++ ([] ++ [] : list (Z * Z)))))).
  rewrite !app_assoc.
  eapply sets_bind; [sets_say|]. eapply sets_bind; [apply idt_desc_init_sets|].
  eapply sets_bind; [apply sets_tables, handlers_fill|].
  eapply sets_bind; [apply pic_init_sets|]. eapply sets_bind; [by apply sets_tables|sets_say].
Qed.

Lemma put_char_on_screen c k : on_screen D k -> is_u8 c -> c <> 8 ->
  exists k', zoom display_of (Print.put_char c) k = Ok tt k' /\ on_screen D k'.
Proof.
  intros (cells & cur & Hs & Hc) Hu H8.
  pose proof (Print.put_char_ok _ cells cur c Hs Hc Hu ltac:(done)) as W.
  apply wp_inv in W as ([] & d & E & Hs' & _). destruct d as [v i].
  exists (with_vm v (with_io i k)). split; [exact (zoom_ok display_of _ k tt (Print.mkDisplay v i) E)|].
  eexists _, _. split; [exact Hs'|]. by apply Print.putc_range; [|done|apply Hs].
Qed.

Lemma put_chars_on_screen c n from k : on_screen D k -> is_u8 c -> c <> 8 ->
  exists k', for_upto from n (fun _ => zoom display_of (Print.put_char c)) k = Ok tt k' /\ on_screen D k'.
Proof.
  intros Ho Hu H8. revert from k Ho. induction n as [|n IH]; intros from k Ho; simpl; [by exists k|].
  destruct (put_char_on_screen c k Ho Hu H8) as (k1 & E & Ho1).
  erewrite bind_ok by exact E. by apply IH.
Qed.

Lemma cursor_set_on_screen target k : on_screen D k -> 0 <= target < Print.SCREEN_MAX ->
  exists k', cursor_set target k = Ok tt k' /\ on_screen D k'.
Proof.
  intros (cells & cur & [Hs _] & Hc) Ht.
  destruct (Print.set_cursor_ok (k_io k) target) as (i & E & C & _); [unfold Print.SCREEN_MAX in Ht; lia|].
  exists (with_io i k). split; [by apply (zoom_ok io_of)|]. by exists cells, target.
Qed.

Lemma put_name_on_screen fuel vec s k : on_screen D k ->
  intr_name !! Z.to_nat vec = Some (Some s) ->
  exists k', put_name fuel vec k = Ok tt k' /\ on_screen D k'.
Proof.
  intros Ho Hv. unfold put_name. rewrite Hv.
  assert (P : forallb (fun n => match n with Some s => printable_string s | None => true end) intr_name
    = true) by (vm_compute; reflexivity).
  rewrite forallb_forall in P.
  destruct (say_ok D s k Ho) as (k' & E & Ho' & _).
  { apply (P (Some s)). by eapply list_elem_of_In, list_elem_of_lookup_2. }
  by exists k'.
Qed.

(** The tables after [tss_init] and after [syscall_init]. *)
Definition tss_ready t : tables :=
  mkTables (idt t) (idt_table t)
    (<[6 := gdt_desc_make 0 0xfffff GDT_DATA_ATTR_LOW_DPL3 GDT_ATTR_HIGH]>
     (<[5 := gdt_desc_make 0 0xfffff GDT_CODE_ATTR_LOW_DPL3 GDT_ATTR_HIGH]>
     (<[4 := gdt_desc_make tss_addr (TSS_SIZE - 1) TSS_ATTR_LOW TSS_ATTR_HIGH]> (gdt t))))
    (mkTss 0 SELECTOR_K_STACK TSS_SIZE) (syscall_table t) (idtr t) gdt_operand SELECTOR_TSS.

Lemma tss_init_sets t : sets t [] (tss_ready t) tss_init.
Proof.
  unfold tss_init. change [] with (([] ++ []) ++ [] : list (Z * Z)).
  eapply sets_bind; [sets_say|]. eapply sets_bind; [|sets_say].
  by apply sets_tables.
Qed.

Definition syscall_ready t : tables :=
  mkTables (idt t) (idt_table t) (gdt t) (the_tss t) (<[PID_GET := sys_pid_get_ptr]> (syscall_table t))
    (idtr t) (gdtr t) (task_register t).

Lemma syscall_init_sets t : sets t [] (syscall_ready t) syscall_init.
Proof.
  unfold syscall_init. change [] with (([] ++ []) ++ [] : list (Z * Z)).
  eapply sets_bind; [sets_say|]. eapply sets_bind; [|sets_say].
  by apply sets_tables.
Qed.

End Setup.
End Idt.
