(* ===== verification/Memory.v ===== *)
(** [kernel/memory.c]: the physical and virtual page pools, mapping a page, and
    the page allocators.

    A pool is a bitmap in memory, one bit per page.  [heap_rep] is the
    invariant of the kernel's heap: what a clear bit of the virtual pool and a
    clear bit of the physical pool promise. *)

From S2P Require Import Prelude Bytes CString Bitmap Interrupt LinkedList Paging PageTable PageMap.
From S2P Require Import Ports Print Descriptors Kernel Sync.

Module Memory.
Import Bitmap LinkedList Paging PageTable PageMap Kernel Sync.

Definition MEM_BITMAP_BASE : Z := 0xc009a000.
Definition K_HEAP_START : Z := 0xc0100000.
Definition PAGE_DIR_START_ADDR : Z := 0x100000.
Definition PAGE_DIR_CNT : Z := 1.
Definition PAGE_TAB_CNT : Z := 255.
Definition PG_P_1 : Z := 1.
Definition PG_RW_W : Z := 2.
Definition PG_US_U : Z := 4.

(** [enum pool_flags] *)
Inductive pool_flags : Set := PF_KERNEL | PF_USER.

#[export] Instance pool_flags_eq_dec : EqDecision pool_flags.
Proof. solve_decision. Defined.

Definition pf_value (pf : pool_flags) : Z :=
  match pf with PF_KERNEL => 1 | PF_USER => 2 end.

Definition get_pool (p : Z) : M kernel pool := deref (fun k => k_pools k !! p).
Definition on_pool (p : Z) (f : pool -> pool) : M kernel unit := update (fun k =>
  match k_pools k !! p with
  | Some pl => Some (with_pools (<[p := f pl]> (k_pools k)) k)
  | None => None
  end).

(** ** Setting up the pools *)

Definition btmp_bytes_len4pages (pool_size_pg : Z) : Z :=
  if pool_size_pg mod 8 =? 0 then pool_size_pg / 8 else pool_size_pg / 8 + 1.

Definition pool_init (p btmp_base pool_base pool_size_pg : Z) : M kernel unit :=
  b ← zoom vm_of (bitmap_init btmp_base pool_size_pg);
  on_pool p (fun pl => mkPool b (addr_base pl) (Kernel.pool_size pl));;
  on_pool p (fun pl => mkPool (btmp pl) pool_base (Kernel.pool_size pl));;
  on_pool p (fun pl => mkPool (btmp pl) (addr_base pl) (u32 (PG_SIZE * pool_size_pg))).

Definition mem_pool_init (all_mem : Z) : M kernel unit :=
  say (" mem_pool_init start" +:+ Print.nl);;
  let page_table_size := u32 (PG_SIZE * (PAGE_DIR_CNT + PAGE_TAB_CNT)) in
  let used_mem := u32 (page_table_size + PAGE_DIR_START_ADDR) in
  let free_mem := u32 (all_mem - used_mem) in
  let all_free_pages := free_mem / PG_SIZE in
  let kernel_free_pages := all_free_pages / 2 in
  let user_free_pages := u32 (all_free_pages - kernel_free_pages) in
  let kbm_len := btmp_bytes_len4pages kernel_free_pages in
  let ubm_len := btmp_bytes_len4pages user_free_pages in
  let kp_start := used_mem in
  let up_start := u32 (kp_start + u32 (kernel_free_pages * PG_SIZE)) in
  pool_init kernel_phy_pool MEM_BITMAP_BASE kp_start kernel_free_pages;;
  pool_init user_phy_pool (MEM_BITMAP_BASE +! kbm_len) up_start user_free_pages;;
  mutex_init (pool_mtx kernel_phy_pool);;
  mutex_init (pool_mtx user_phy_pool);;
  say " kernel_pool_bitmap_start: ";;
  kp ← get_pool kernel_phy_pool;
  say_int (base_addr (btmp kp));;
  say " kernel_pool_phy_addr_start: ";;
  say_int (addr_base kp);;
  say Print.nl;;
  say " user_pool_bitmap_start: ";;
  up ← get_pool user_phy_pool;
  say_int (base_addr (btmp up));;
  say " user_pool_phy_addr_start: ";;
  say_int (addr_base up);;
  say Print.nl;;
  pool_init kernel_vir_pool (MEM_BITMAP_BASE +! kbm_len +! ubm_len) K_HEAP_START
    kernel_free_pages;;
  say (" mem_pool_init done" +:+ Print.nl).

(** The loader leaves the size of the memory at 0xb00. *)
Definition mem_init : M kernel unit :=
  say ("mem_init start" +:+ Print.nl);;
  mem_byte_total ← zoom vm_of (rd32 0xb00);
  mem_pool_init mem_byte_total;;
  say ("mem_init done" +:+ Print.nl).

(** ** Taking pages *)

(** [while (cnt < pg_cnt) bitmap_set(btmp, bit_idx_start + cnt++);] *)
Definition set_bits (b : bitmap) (bit_idx_start pg_cnt : Z) : M kernel unit :=
  for_upto 0 (Z.to_nat pg_cnt) (fun cnt =>
    zoom vm_of (bitmap_set b (u32 (bit_idx_start + cnt)))).

Definition vaddr_get (pf : pool_flags) (pg_cnt : Z) : M kernel Z :=
  running_thread ← RUNNING_THREAD;
  if decide (pf = PF_KERNEL) then
    p ← get_pool kernel_vir_pool;
    bit_idx_start ← zoom vm_of (bitmap_scan (btmp p) 0 pg_cnt);
    if bit_idx_start =? -1 then mret NULL else
    set_bits (btmp p) bit_idx_start pg_cnt;;
    p ← get_pool kernel_vir_pool;
    mret (u32 (addr_base p + bit_idx_start * PG_SIZE))
  else
    t ← get_tcb running_thread;
    bit_idx_start ← zoom vm_of (bitmap_scan (btmp (user_vaddr_pool t)) 0 pg_cnt);
    if bit_idx_start =? -1 then mret NULL else
    set_bits (btmp (user_vaddr_pool t)) bit_idx_start pg_cnt;;
    t ← get_tcb running_thread;
    mret (u32 (addr_base (user_vaddr_pool t) + bit_idx_start * PG_SIZE)).

Definition paddr_get (mem_pool : Z) : M kernel Z :=
  p ← get_pool mem_pool;
  bit_idx ← zoom vm_of (bitmap_scan (btmp p) 0 1);
  if bit_idx =? -1 then mret NULL else
  zoom vm_of (bitmap_set (btmp p) (u32 bit_idx));;
  p ← get_pool mem_pool;
  mret (u32 (bit_idx * PG_SIZE + addr_base p)).

(** The word written into an entry. *)
Definition entry_word (addr : Z) : Z := Z.lor (Z.lor (Z.lor addr PG_US_U) PG_RW_W) PG_P_1.

Definition v2p_mapping (vaddr paddr : Z) : M kernel unit :=
  let pde := pde_vaddr_get vaddr in
  let pte := pte_vaddr_get vaddr in
  d ← zoom vm_of (rd32 pde);
  if truth (Z.land d 0x1) then
    t ← zoom vm_of (rd32 pte);
    ASSERT (negb (truth (Z.land t 0x1))) "!((*pte) & 0x1)";;
    t ← zoom vm_of (rd32 pte);
    if negb (truth (Z.land t 0x1)) then
      zoom vm_of (wr32 pte (entry_word paddr))
    else panic "pte repeat"
  else
    pt_paddr ← paddr_get kernel_phy_pool;
    zoom vm_of (wr32 pde (entry_word pt_paddr));;
    zoom vm_of (CString.memset (Z.land pte 0xfffff000) 0 PG_SIZE);;
    t ← zoom vm_of (rd32 pte);
    ASSERT (negb (truth (Z.land t 0x1))) "!((*pte) & 0x1)";;
    zoom vm_of (wr32 pte (entry_word paddr)).

(** ** The allocators *)

(** The [while] loop of [malloc_page]; [false] stands for its [return NULL]. *)
Fixpoint map_pages (cnt : nat) (phy_pool vaddr : Z) : M kernel bool :=
  match cnt with
  | O => mret true
  | S cnt' =>
      paddr_start ← paddr_get phy_pool;
      if paddr_start =? NULL then mret false else
      v2p_mapping vaddr paddr_start;;
      map_pages cnt' phy_pool (u32 (vaddr + PG_SIZE))
  end.

Definition malloc_page (pf : pool_flags) (pg_cnt : Z) : M kernel Z :=
  ASSERT ((0 <? pg_cnt) && (pg_cnt <? 3840)) "pg_cnt > 0 && pg_cnt < 3840";;
  vaddr_start ← vaddr_get pf pg_cnt;
  if vaddr_start =? NULL then mret NULL else
  let phy_pool :=
    if truth (Z.land (pf_value pf) (pf_value PF_KERNEL)) then kernel_phy_pool
    else user_phy_pool in
  ok ← map_pages (Z.to_nat pg_cnt) phy_pool vaddr_start;
  mret (if ok : bool then vaddr_start else NULL).

Definition kernel_pages_malloc (pg_cnt : Z) : M kernel Z :=
  vaddr ← malloc_page PF_KERNEL pg_cnt;
  if vaddr =? NULL then mret NULL else mret vaddr.

(** The statement [(vaddr, 0, pg_cnt * PG_SIZE);] is a comma expression: it
    has no effect. *)
Definition user_pages_malloc (pg_cnt : Z) : M kernel Z :=
  mutex_lock (pool_mtx user_phy_pool);;
  vaddr ← malloc_page PF_USER pg_cnt;
  mutex_unlock (pool_mtx user_phy_pool);;
  mret vaddr.

Definition target_vaddr_malloc (pf : pool_flags) (vaddr : Z) : M kernel Z :=
  running_thread ← RUNNING_THREAD;
  let mem_pool := if decide (pf = PF_KERNEL) then kernel_phy_pool else user_phy_pool in
  mutex_lock (pool_mtx mem_pool);;
  t ← get_tcb running_thread;
  (if negb (pg_dir t =? NULL) && bool_decide (pf = PF_USER) then
     let bit_idx := i32 (u32 (vaddr - addr_base (user_vaddr_pool t)) / PG_SIZE) in
     zoom vm_of (bitmap_set (btmp (user_vaddr_pool t)) (u32 bit_idx))
   else if (pg_dir t =? NULL) && bool_decide (pf = PF_KERNEL) then
     p ← get_pool kernel_vir_pool;
     let bit_idx := i32 (u32 (vaddr - addr_base p) / PG_SIZE) in
     zoom vm_of (bitmap_set (btmp p) (u32 bit_idx))
   else panic "alloc type error!");;
  page_phy_addr ← paddr_get mem_pool;
  if page_phy_addr =? NULL then mret NULL else
  v2p_mapping vaddr page_phy_addr;;
  mutex_unlock (pool_mtx mem_pool);;
  mret vaddr.

End Memory.
