(* ===== verification/Heap.v ===== *)
(** The kernel's page allocator, specified: what [paddr_get], [vaddr_get],
    [v2p_mapping] and [malloc_page] of [Memory.v] do to the heap.

    [heap_rep D H k vb pb] is the invariant.  [vb] and [pb] are the bits of the
    kernel's virtual pool and physical pool.  A clear bit of [vb] promises that
    the page-table entry of that page is not present; a clear bit of [pb], that
    the frame exists, holds no paging structure, and that no kernel address of
    any directory in [D] is mapped to it.  The page tables of the heap are
    shared by all those directories, as the loader and [page_dir_create] set
    them up. *)

From S2P Require Import Prelude Bytes CString Bitmap Interrupt LinkedList Paging PageTable PageMap.
From S2P Require Import Kernel Sched Sync Memory.

Module Heap.
Import Bitmap LinkedList Paging PageTable PageMap Kernel Sched Memory.

(** What no allocation changes: the two [struct pool]s and the directory
    entries of the heap. *)
Record kheap := mkHeap { h_vpool : pool; h_ppool : pool; h_table : Z -> Z }.

Definition page_at (H : kheap) (i : Z) : Z := addr_base (h_vpool H) + PG_SIZE * i.
Definition frame_at (H : kheap) (j : Z) : Z := addr_base (h_ppool H) + PG_SIZE * j.

(** The physical address of the page-table entry of a heap address. *)
Definition entry_at (H : kheap) (va : Z) : Z := frame (h_table H (pd_index va)) + 4 * pt_index va.

(** The indices of the clear bits, in order, and a bitmap with some more bits
    set. *)
Fixpoint clear_from (i : nat) (bits : list bool) : list nat :=
  match bits with
  | [] => []
  | b :: bits' => (if b then [] else [i]) ++ clear_from (S i) bits'
  end.

Definition used (js : list nat) (bits : list bool) : list bool :=
  foldl (fun b j => <[j := true]> b) bits js.

Lemma clear_from_none i bits : (forall j, bits !! j <> Some false) -> clear_from i bits = [].
Proof.
  revert i. induction bits as [|b bits IH]; intros i Hn; [done|].
  simpl. destruct b; [|by destruct (Hn O)]. apply IH. intros j. apply (Hn (S j)).
Qed.

Lemma clear_from_first i bits j : bits !! j = Some false ->
  (forall j', (j' < j)%nat -> bits !! j' <> Some false) ->
  clear_from i bits = (i + j)%nat :: clear_from i (<[j := true]> bits).
Proof.
  revert i j. induction bits as [|b bits IH]; intros i j Hj Hn; [done|].
  destruct j as [|j]; simpl in *.
  - injection Hj as ->. by rewrite Nat.add_0_r.
  - destruct b; [|by destruct (Hn O ltac:(lia))]. simpl.
    rewrite (IH (S i) j Hj); [by rewrite Nat.add_succ_r|].
    intros j' Hl. apply (Hn (S j')). lia.
Qed.

Lemma clear_from_elem i bits x :
  x ∈ clear_from i bits <-> exists j, x = (i + j)%nat /\ bits !! j = Some false.
Proof.
  revert i. induction bits as [|b bits IH]; intros i; simpl.
  - rewrite elem_of_nil. split; [done|]. by intros (j & _ & ?).
  - rewrite elem_of_app, IH. split.
    + intros [Hx|(j & -> & Hj)]; [|exists (S j); split; [lia|done]].
      destruct b; [by apply not_elem_of_nil in Hx|]. apply list_elem_of_singleton in Hx as ->.
      exists O. split; [lia|done].
    + intros ([|j] & -> & Hj); simpl in Hj; [left|right; exists j; split; [lia|done]].
      injection Hj as ->. apply list_elem_of_singleton. lia.
Qed.

Lemma clear_from_nodup i bits : NoDup (clear_from i bits).
Proof.
  revert i. induction bits as [|b bits IH]; intros i; simpl; [constructor|].
  apply NoDup_app. split_and!; [destruct b; constructor; [apply not_elem_of_nil|constructor]| |done].
  intros x Hx (j & -> & _)%clear_from_elem. destruct b; [by apply not_elem_of_nil in Hx|].
  apply list_elem_of_singleton in Hx. lia.
Qed.

(** [n] bits set from [i] on. *)
Fixpoint mark (i n : nat) (bits : list bool) : list bool :=
  match n with O => bits | S n' => <[(i + n')%nat := true]> (mark i n' bits) end.

Lemma mark_length i n bits : length (mark i n bits) = length bits.
Proof. induction n; simpl; [done|]. by rewrite length_insert. Qed.

Lemma mark_lookup i n bits j : (j < length bits)%nat ->
  mark i n bits !! j = if decide (i <= j < i + n)%nat then Some true else bits !! j.
Proof.
  intros Hj. induction n as [|n IH]; simpl.
  - by rewrite decide_False by lia.
  - destruct (decide (i + n = j)%nat) as [<-|Hne].
    + rewrite list_lookup_insert_eq by by rewrite mark_length. by rewrite decide_True by lia.
    + rewrite list_lookup_insert_ne, IH by done.
      destruct (decide (i <= j < i + n)%nat); [rewrite decide_True by lia|rewrite decide_False by lia];
        done.
Qed.

Lemma used_seq i n bits : used (seq i n) bits = mark i n bits.
Proof.
  induction n as [|n IH]; [done|]. rewrite seq_S. unfold used in *. rewrite foldl_app. simpl. by rewrite IH.
Qed.

Lemma run_one bits i : run bits false 1 i <-> bits !! i = Some false.
Proof.
  split; intros H.
  - specialize (H 0%nat ltac:(lia)). by rewrite Nat.add_0_r in H.
  - intros j Hj. by replace (i + j)%nat with i by lia.
Qed.

(** No function gives a page back: the bits in use are the first ones. *)
Definition first_used (n N : nat) : list bool := replicate n true ++ replicate (N - n) false.

Lemma first_used_length n N : (n <= N)%nat -> length (first_used n N) = N.
Proof. intros H. unfold first_used. rewrite length_app, !length_replicate. lia. Qed.

Lemma first_used_lookup n N i : (n <= N)%nat ->
  first_used n N !! i = if decide (i < n)%nat then Some true else if decide (i < N)%nat then Some false else None.
Proof.
  intros H. unfold first_used. destruct (decide (i < n)%nat).
  - rewrite lookup_app_l by (rewrite length_replicate; lia). by apply lookup_replicate.
  - rewrite lookup_app_r, length_replicate by (rewrite length_replicate; lia). case_decide.
    + apply lookup_replicate. split; [done|lia].
    + apply lookup_replicate_None. lia.
Qed.

Lemma first_used_free n N i : (n <= N)%nat -> first_used n N !! i = Some false <-> (n <= i < N)%nat.
Proof. intros H. rewrite first_used_lookup by done. repeat case_decide; split; (done || lia). Qed.

Lemma first_used_more a b N i : (a <= b)%nat -> first_used b N !! i = Some false -> first_used a N !! i = Some false.
Proof.
  intros Hab Hi. destruct (decide (b <= N)%nat) as [Hb|Hb].
  - apply first_used_free in Hi; [|done]. apply first_used_free; lia.
  - unfold first_used in Hi. replace (N - b)%nat with 0%nat in Hi by lia.
    simpl in Hi. rewrite app_nil_r in Hi. apply list_elem_of_lookup_2, elem_of_replicate in Hi as [Hi _]. done.
Qed.

Lemma first_used_clear n N : clear_from 0 (first_used n N) = seq n (N - n).
Proof.
  unfold first_used. change n with (0 + n)%nat at 3. generalize 0%nat as i, (N - n)%nat as m.
  induction n as [|n IH]; intros i m; simpl.
  - rewrite Nat.add_0_r. revert i. induction m as [|m IH]; intros i; simpl; [done|by rewrite IH].
  - rewrite IH. f_equal. lia.
Qed.

Lemma first_used_run n m N i : (0 < m)%nat -> (n + m <= N)%nat ->
  run (first_used n N) false m i -> (forall j, (j < i)%nat -> ~ run (first_used n N) false m j) -> i = n.
Proof.
  intros Hm HN Hi Hlow. pose proof (Hi 0%nat Hm) as H0. apply first_used_free in H0; [|lia].
  destruct (decide (n < i)%nat) as [Hn|]; [|lia]. destruct (Hlow n Hn).
  intros j Hj. apply first_used_free; lia.
Qed.

Lemma mark_first_used n m N : (n + m <= N)%nat -> mark n m (first_used n N) = first_used (n + m) N.
Proof.
  intros H. apply list_eq. intros i. destruct (decide (i < N)%nat) as [Hi|Hi].
  - rewrite mark_lookup, !first_used_lookup by (rewrite ?first_used_length; lia).
    repeat case_decide; (done || lia).
  - rewrite !lookup_ge_None_2; rewrite ?mark_length, ?first_used_length; (done || lia).
Qed.

Lemma insert_first_used n N : (n < N)%nat -> <[n := true]> (first_used n N) = first_used (S n) N.
Proof.
  intros H. pose proof (mark_first_used n 1 N ltac:(lia)) as E. simpl in E.
  by rewrite Nat.add_0_r, Nat.add_1_r in E.
Qed.

Lemma first_used_lowest n N i : (n <= N)%nat -> first_used n N !! i = Some false ->
  (forall j, (j < i)%nat -> first_used n N !! j <> Some false) -> i = n.
Proof.
  intros H Hi Hlow. apply first_used_free in Hi; [|done]. destruct (decide (n < i)%nat) as [Hn|]; [|lia].
  destruct (Hlow n Hn). apply first_used_free; lia.
Qed.

Lemma used_first_used n m N : (n + m <= N)%nat ->
  used (take m (clear_from 0 (first_used n N))) (first_used n N) = first_used (n + m) N.
Proof.
  intros H. rewrite first_used_clear, take_seq, Nat.min_l by lia. by rewrite used_seq, mark_first_used.
Qed.

Section Heap.
Context (D : list Z).
Implicit Types (k : kernel) (H : kheap) (vb pb : list bool) (s : vm).

#[local] Instance data_mem : ByteMem vm := vm_mem D.

Definition heap_addr H (a : Z) : Prop :=
  addr_base (h_vpool H) <= a < addr_base (h_vpool H) + PG_SIZE * bit_num (btmp (h_vpool H)).

(** The page tables of the heap, under every directory. *)
Record tables_ok H s : Prop := {
  to_u8 : all_u8 s;
  to_range : addr_base (h_vpool H) mod PAGE = 0 /\ 0xc0000000 <= addr_base (h_vpool H)
    /\ addr_base (h_vpool H) + PG_SIZE * bit_num (btmp (h_vpool H)) <= 0xffc00000;
  to_self d : d ∈ cr3 s :: D -> self_mapped (under s d);
  to_pde d a : d ∈ cr3 s :: D -> heap_addr H a ->
    pde_of (under s d) (pd_index a) = Some (h_table H (pd_index a));
  to_present a : heap_addr H a -> present (h_table H (pd_index a)) = true;
  to_dir d a : d ∈ cr3 s :: D -> heap_addr H a -> frame (h_table H (pd_index a)) <> frame d;
  to_alias d a j e : d ∈ cr3 s :: D -> heap_addr H a -> 768 <= j < 1023 ->
    pde_of (under s d) j = Some e -> present e = true ->
    frame e = frame (h_table H (pd_index a)) -> j = pd_index a
}.

Definition page_free H s (i : Z) : Prop :=
  exists e, ld32p (phys s) (entry_at H (page_at H i)) = Some e /\ present e = false.

Definition frame_free s (f : Z) : Prop :=
  unmapped D s f /\ (forall d, d ∈ cr3 s :: D -> ~ struct_frame (under s d) f)
  /\ (forall o, 0 <= o < PAGE -> is_Some (phys s !! (f + o))).

(** No address below the kernel's gigabyte leads to the frame. *)
Definition user_addr (a : Z) : Prop := 0 <= a < 0xc0000000.
Definition nobody_has s (f : Z) : Prop := forall d a p, d ∈ cr3 s :: D -> user_addr a ->
  translate (under s d) a = Some p -> frame p <> f.

(** No directory in use changes. *)
Definition dirs_kept s s' : Prop := forall d x, d ∈ cr3 s :: D -> 0 <= x < 1024 ->
  pde_of (under s' d) x = pde_of (under s d) x.

(** A frame nobody uses; one that is not of the kernel's pool. *)
Definition spare s (f : Z) : Prop := frame_free s f /\ nobody_has s f.
Definition outside H (f : Z) : Prop := forall j, 0 <= j < bit_num (btmp (h_ppool H)) -> f <> frame_at H j.

Record heap_rep H k vb pb : Prop := {
  hr_vpool : k_pools k !! kernel_vir_pool = Some (h_vpool H);
  hr_ppool : k_pools k !! kernel_phy_pool = Some (h_ppool H);
  hr_vbits : bitmap_rep (k_vm k) (btmp (h_vpool H)) vb;
  hr_pbits : bitmap_rep (k_vm k) (btmp (h_ppool H)) pb;
  hr_apart i j : 0 <= i < byte_len (btmp (h_vpool H)) -> 0 <= j < byte_len (btmp (h_ppool H)) ->
    base_addr (btmp (h_vpool H)) + i <> base_addr (btmp (h_ppool H)) + j;
  hr_pbase : addr_base (h_ppool H) mod PAGE = 0 /\ 0 < addr_base (h_ppool H)
    /\ addr_base (h_ppool H) + PG_SIZE * bit_num (btmp (h_ppool H)) <= 2 ^ 32;
  hr_tables : tables_ok H (k_vm k);
  hr_pages i : vb !! i = Some false -> page_free H (k_vm k) (Z.of_nat i);
  hr_frames j : pb !! j = Some false -> frame_free (k_vm k) (frame_at H (Z.of_nat j))
}.

Lemma heap_addr_kernel H s a : tables_ok H s -> heap_addr H a -> kernel_addr a.
Proof. intros [_ R _ _ _ _ _] Ha. unfold heap_addr, kernel_addr in *. lia. Qed.

Lemma heap_addr_index H s a : tables_ok H s -> heap_addr H a ->
  768 <= pd_index a < 1023 /\ 0 <= pt_index a < 1024 /\ is_u32 a.
Proof.
  intros T Ha. pose proof (heap_addr_kernel _ _ _ T Ha) as Ka.
  destruct (index_range a (kernel_addr_u32 a Ka)). unfold kernel_addr in Ka.
  split; [|lia]. unfold pd_index. zdiv_lia.
Qed.

(** Page [i] of the heap. *)
Lemma page_heap_addr H s i o : tables_ok H s -> 0 <= i < bit_num (btmp (h_vpool H)) ->
  0 <= o < PAGE -> heap_addr H (page_at H i + o).
Proof. unfold heap_addr, page_at, PG_SIZE, PAGE. intros. lia. Qed.

Lemma entry_pte_addr H s d a : tables_ok H s -> d ∈ cr3 s :: D -> heap_addr H a ->
  pte_addr (under s d) a = Some (entry_at H a).
Proof.
  intros T Hd Ha. apply pte_addr_some; [by eapply to_pde|by eapply to_present].
Qed.

Lemma entry_at_word H s a : tables_ok H s -> heap_addr H a ->
  frame (entry_at H a) = frame (h_table H (pd_index a)) /\ exists j, entry_at H a = 4 * j.
Proof.
  intros T Ha. destruct (heap_addr_index _ _ _ T Ha) as (_ & Hj & _). unfold entry_at. split.
  - apply frame_add. unfold PAGE. lia.
  - destruct (frame_multiple (h_table H (pd_index a))) as [i Hi].
    exists (i + pt_index a). lia.
Qed.

(** One entry, one page: also seen from another directory of the list. *)
Lemma entry_at_page H s d a b : tables_ok H s -> d ∈ cr3 s :: D -> heap_addr H a ->
  kernel_addr b -> pte_addr (under s d) b = Some (entry_at H a) -> b / PAGE = a / PAGE.
Proof.
  intros T Hd Ha Kb E. destruct (heap_addr_index _ _ _ T Ha) as (Hi & Hj & Ra).
  assert (Rb : is_u32 b) by by apply kernel_addr_u32.
  destruct (index_range b Rb) as [_ Hjb].
  unfold pte_addr in E. destruct (pde_of (under s d) (pd_index b)) as [e|] eqn:Ee; [|done].
  simpl in E. destruct (present e) eqn:Pe; [|done]. unfold entry_at in E. injection E as E.
  assert (Ef : frame e = frame (h_table H (pd_index a))).
  { rewrite <- (frame_add e (4 * pt_index b)), E by (unfold PAGE; lia).
    apply frame_add. unfold PAGE. lia. }
  assert (pd_index b = pd_index a).
  { eapply (to_alias _ _ T d a); try done. unfold kernel_addr in Kb. unfold pd_index. zdiv_lia. }
  assert (pt_index b = pt_index a) by lia. unfold pd_index, pt_index, PAGE in *. zdiv_lia.
Qed.

(** ** Writes of data keep the tables and what is free *)

Lemma keeps_word s s' d f q : vm_keeps D s s' -> d ∈ cr3 s :: D -> struct_frame (under s d) f ->
  frame f = f -> f <= q -> q + 4 <= f + PAGE -> ld32p (phys s') q = ld32p (phys s) q.
Proof.
  intros (C & K & _) Hd Sf Hf H1 H2. apply ld32p_ext. intros i Hi.
  destruct (K d Hd) as (_ & _ & F). apply F. left. simpl.
  replace (q + i) with (f + (q + i - f)) by lia. rewrite <- Hf at 1.
  rewrite frame_add by lia. by rewrite Hf.
Qed.

Lemma keeps_tables H s s' : vm_keeps D s s' -> tables_ok H s -> tables_ok H s'.
Proof.
  intros (C & K & U) T.
  assert (Hp : forall d i, d ∈ cr3 s :: D -> 0 <= i < 1024 ->
    pde_of (under s' d) i = pde_of (under s d) i) by (intros; apply keeps_pde; [by apply K|done]).
  constructor; rewrite ?C.
  - apply U, T.
  - apply T.
  - intros d Hd. destruct (to_self _ _ T d Hd) as (e & He & Pe & Fe).
    exists e. by rewrite Hp by (done || lia).
  - intros d a Hd Ha. destruct (heap_addr_index _ _ _ T Ha) as (Hi & _).
    rewrite Hp by (done || lia). by eapply to_pde.
  - apply T.
  - apply T.
  - intros d a j e Hd Ha Hj. rewrite Hp by (done || lia). by eapply to_alias.
Qed.

Lemma keeps_page_free H s s' i : vm_keeps D s s' -> tables_ok H s ->
  0 <= i < bit_num (btmp (h_vpool H)) -> page_free H s i -> page_free H s' i.
Proof.
  intros K T Hi (e & He & Pe). exists e. split; [|done]. rewrite <- He.
  assert (Ha : heap_addr H (page_at H i)).
  { rewrite <- (Z.add_0_r (page_at H i)). by eapply page_heap_addr. }
  destruct (heap_addr_index _ _ _ T Ha) as (Hpi & Hti & _).
  apply (keeps_word s s' (cr3 s) (frame (h_table H (pd_index (page_at H i))))); try done.
  - left.
  - right. exists (pd_index (page_at H i)), (h_table H (pd_index (page_at H i))).
    split_and!; [lia..| |by eapply to_present|done]. eapply to_pde; [done|left|done].
  - apply frame_idem.
  - unfold entry_at. lia.
  - unfold entry_at, PAGE. lia.
Qed.

Lemma keeps_frame_free s s' f : vm_keeps D s s' -> frame_free s f -> frame_free s' f.
Proof.
  intros (C & K & _) (Um & Sf & Ex). split; [|split].
  - intros d a p Hd Ka. rewrite C in Hd. rewrite (keeps_translate _ _ (K d Hd)) by by apply kernel_addr_u32.
    by eapply Um.
  - intros d. rewrite C. intros Hd. rewrite (keeps_struct _ _ (K d Hd)). by apply Sf.
  - intros o Ho. apply elem_of_dom. destruct (K (cr3 s)) as (_ & Dm & _); [left|].
    simpl in Dm. rewrite Dm. apply elem_of_dom. auto.
Qed.

Lemma keeps_nobody s v f : vm_keeps D s v -> nobody_has s f -> nobody_has v f.
Proof.
  intros (C & K & _) N d a p. rewrite C. intros Hd Ha. rewrite (keeps_translate _ _ (K d Hd)); [by apply N|].
  unfold user_addr in Ha. lia.
Qed.

Lemma keeps_dirs s v : vm_keeps D s v -> dirs_kept s v.
Proof. intros (_ & K & _) d x Hd Hx. apply keeps_pde; [by apply K|done]. Qed.

Lemma dirs_kept_trans s1 s2 s3 : cr3 s2 = cr3 s1 -> dirs_kept s1 s2 -> dirs_kept s2 s3 -> dirs_kept s1 s3.
Proof. intros C K1 K2 d x Hd Hx. rewrite K2 by (rewrite ?C; done). by apply K1. Qed.

Lemma keeps_spare s v f : vm_keeps D s v -> spare s f -> spare v f.
Proof. intros K [F N]. split; [by eapply keeps_frame_free|by eapply keeps_nobody]. Qed.

(** ** The bitmaps *)

Lemma heap_rep_vm H k vb pb v vb' pb' :
  heap_rep H k vb pb -> vm_keeps D (k_vm k) v ->
  bitmap_rep v (btmp (h_vpool H)) vb' -> bitmap_rep v (btmp (h_ppool H)) pb' ->
  (forall i, vb' !! i = Some false -> vb !! i = Some false) ->
  (forall j, pb' !! j = Some false -> pb !! j = Some false) ->
  heap_rep H (with_vm v k) vb' pb'.
Proof.
  intros R K Hv Hp Iv Ip. pose proof R as []. constructor; try done; simpl.
  - by eapply keeps_tables.
  - intros i Hi. eapply keeps_page_free; [done|done| |by apply hr_pages0, Iv].
    destruct hr_vbits0 as (Hl & _). apply Iv, lookup_lt_Some in Hi. lia.
  - intros j Hj. eapply keeps_frame_free; [done|]. by apply hr_frames0, Ip.
Qed.

Lemma insert_true_free (b : list bool) j i : <[j := true]> b !! i = Some false -> b !! i = Some false.
Proof.
  intros E. destruct (decide (j = i)) as [<-|].
  - pose proof (lookup_lt_Some _ _ _ E) as Hl. rewrite length_insert in Hl.
    by rewrite list_lookup_insert_eq in E.
  - by rewrite list_lookup_insert_ne in E.
Qed.

Lemma pool_sizes H k vb pb : heap_rep H k vb pb ->
  0 <= bit_num (btmp (h_vpool H)) < 2 ^ 31 /\ 0 <= bit_num (btmp (h_ppool H)) < 2 ^ 31
  /\ length vb = Z.to_nat (bit_num (btmp (h_vpool H)))
  /\ length pb = Z.to_nat (bit_num (btmp (h_ppool H))).
Proof.
  intros []. destruct hr_vbits0 as (? & ? & _), hr_pbits0 as (? & ? & _).
  pose proof (to_range _ _ hr_tables0). unfold PG_SIZE in *. lia.
Qed.

(** A changed bit is in the bitmap's bytes. *)
Lemma bit_byte b i a : 0 <= i < bit_num b -> byte_len b = bit_num_2_byte_len (bit_num b) ->
  base_addr b + i / 8 = a -> base_addr b <= a < base_addr b + byte_len b.
Proof. intros Hi Hl <-. pose proof (bit_in_byte_len _ _ Hi). lia. Qed.

Definition bitmap_byte (b : bitmap) (a : Z) : Prop := base_addr b <= a < base_addr b + byte_len b.

Lemma get_pool_ok k p pl : k_pools k !! p = Some pl -> get_pool p k = Ok pl k.
Proof. intros H. unfold get_pool, deref. by rewrite H. Qed.

(** A bit of a bitmap in the kernel's memory. *)
Lemma set_bit k b bits j : bitmap_rep (k_vm k) b bits -> (j < length bits)%nat ->
  exists v, zoom vm_of (bitmap_set b (Z.of_nat j)) k = Ok tt (with_vm v k)
    /\ bitmap_rep v b (<[j := true]> bits) /\ modifies (bitmap_byte b) (k_vm k) v.
Proof.
  intros B Hj. assert (Hr : 0 <= Z.of_nat j < bit_num b) by (destruct B; lia).
  destruct (zoom_vm_ok (bitmap_set b (Z.of_nat j)) k _ (bitmap_set_bit _ _ _ _ B Hr)) as ([] & v & E & Bv & Mv).
  rewrite Nat2Z.id in Bv. exists v. do 2 (split; [done|]).
  eapply modifies_weaken; [exact Mv|]. intros a Ha. eapply bit_byte; [exact Hr|apply B|done].
Qed.

Lemma heap_rep_bit H k vb pb v P vb' pb' : heap_rep H k vb pb -> modifies P (k_vm k) v ->
  bitmap_rep v (btmp (h_vpool H)) vb' -> bitmap_rep v (btmp (h_ppool H)) pb' ->
  (forall i, vb' !! i = Some false -> vb !! i = Some false) ->
  (forall j, pb' !! j = Some false -> pb !! j = Some false) ->
  heap_rep H (with_vm v k) vb' pb'.
Proof. intros R M. eapply heap_rep_vm; [exact R|exact (modifies_keeps _ _ _ M)]. Qed.

Lemma bitmap_apart H k vb pb a : heap_rep H k vb pb ->
  bitmap_byte (btmp (h_vpool H)) a -> ~ bitmap_byte (btmp (h_ppool H)) a.
Proof.
  intros R H1 H2. unfold bitmap_byte in *.
  apply (hr_apart _ _ _ _ R (a - base_addr (btmp (h_vpool H))) (a - base_addr (btmp (h_ppool H)))); lia.
Qed.

Lemma set_pbit H k vb pb v j : heap_rep H k vb pb -> bitmap_rep v (btmp (h_ppool H)) (<[j := true]> pb) ->
  modifies (bitmap_byte (btmp (h_ppool H))) (k_vm k) v -> heap_rep H (with_vm v k) vb (<[j := true]> pb).
Proof.
  intros R B M. eapply heap_rep_bit; [exact R|exact M| |exact B|done|apply insert_true_free].
  eapply bitmap_rep_modifies; [exact M| |apply R]. intros i Hi. eapply bitmap_apart; [exact R|].
  unfold bitmap_byte. lia.
Qed.

Lemma set_vbit H k vb pb i : heap_rep H k vb pb -> (i < length vb)%nat ->
  exists v, zoom vm_of (bitmap_set (btmp (h_vpool H)) (Z.of_nat i)) k = Ok tt (with_vm v k)
    /\ heap_rep H (with_vm v k) (<[i := true]> vb) pb
    /\ modifies (bitmap_byte (btmp (h_vpool H))) (k_vm k) v.
Proof.
  intros R Hi. destruct (set_bit k _ vb i (hr_vbits _ _ _ _ R) Hi) as (v & E & B & M).
  exists v. split; [done|]. split; [|done].
  eapply heap_rep_bit; [exact R|exact M|exact B| |apply insert_true_free|done].
  eapply bitmap_rep_modifies; [exact M| |apply R]. intros j Hj Hv. eapply bitmap_apart; [exact R|exact Hv|].
  unfold bitmap_byte. lia.
Qed.

(** The first frame that is free, or none. *)
Lemma first_free (bits : list bool) r : first_run bits false 1 r ->
  (r = -1 /\ forall j, bits !! j <> Some false) \/
  (exists j, r = Z.of_nat j /\ bits !! j = Some false /\ forall j', (j' < j)%nat -> bits !! j' <> Some false).
Proof.
  assert (Hr : forall j, run bits false 1 j <-> bits !! j = Some false).
  { intros j. split.
    - intros Hj. specialize (Hj O ltac:(lia)). by rewrite Nat.add_0_r in Hj.
    - intros Hj [|m] ?; [by rewrite Nat.add_0_r|lia]. }
  intros [[-> Hn]|(j & -> & Hj & Hn)]; [left|right].
  - split; [done|]. intros j Hj. by eapply Hn, Hr.
  - exists j. split; [done|]. split; [by apply Hr|]. intros j' Hl Hj'. by eapply Hn, Hr.
Qed.

(** The first free frame of a pool. *)
Lemma paddr_get_first k p pl bits : k_pools k !! p = Some pl -> bitmap_rep (k_vm k) (btmp pl) bits ->
  bit_num (btmp pl) < 2 ^ 31 -> 0 <= addr_base pl -> addr_base pl + PG_SIZE * bit_num (btmp pl) <= 2 ^ 32 ->
  (paddr_get p k = Ok NULL k /\ forall j, bits !! j <> Some false) \/
  (exists j v, bits !! j = Some false /\ (forall j', (j' < j)%nat -> bits !! j' <> Some false)
     /\ paddr_get p k = Ok (addr_base pl + PG_SIZE * Z.of_nat j) (with_vm v k)
     /\ bitmap_rep v (btmp pl) (<[j := true]> bits) /\ modifies (bitmap_byte (btmp pl)) (k_vm k) v).
Proof.
  intros Hp B Hn Hb Hb'. assert (G : forall v, get_pool p (with_vm v k) = Ok pl (with_vm v k))
    by (intros v; by apply get_pool_ok).
  destruct (zoom_vm_ok (bitmap_scan (btmp pl) (of_bool false) 1) k _
    (bitmap_scan_first _ _ _ false 1 B ltac:(lia) ltac:(lia))) as (r & v0 & E & -> & Hr).
  rewrite with_vm_id in E. unfold paddr_get. erewrite bind_ok by by apply get_pool_ok.
  erewrite bind_ok by exact E. destruct (first_free _ _ Hr) as [[-> Hno]|(j & -> & Hj & Hno)].
  - left. by rewrite (proj2 (Z.eqb_eq (-1) (-1))).
  - right. pose proof (lookup_lt_Some _ _ _ Hj) as Hlt.
    assert (Hl : Z.of_nat j < bit_num (btmp pl)) by (destruct B; lia).
    destruct (set_bit k _ _ j B Hlt) as (v & Es & Bv & Mv). exists j, v.
    split; [done|]. split; [done|]. split; [|done].
    rewrite (proj2 (Z.eqb_neq (Z.of_nat j) (-1))) by lia. rewrite u32_small by lia.
    erewrite bind_ok by exact Es. erewrite bind_ok by apply G. unfold mret, M_ret.
    f_equal. unfold PG_SIZE in *. rewrite u32_small; lia.
Qed.

Lemma paddr_get_ok H k vb pb : heap_rep H k vb pb ->
  (paddr_get kernel_phy_pool k = Ok NULL k /\ forall j, pb !! j <> Some false) \/
  (exists j v, pb !! j = Some false /\ (forall j', (j' < j)%nat -> pb !! j' <> Some false)
     /\ paddr_get kernel_phy_pool k = Ok (frame_at H (Z.of_nat j)) (with_vm v k)
     /\ heap_rep H (with_vm v k) vb (<[j := true]> pb)
     /\ modifies (bitmap_byte (btmp (h_ppool H))) (k_vm k) v).
Proof.
  intros R. destruct (pool_sizes _ _ _ _ R) as (_ & Hn & _ & _). destruct (hr_pbase _ _ _ _ R) as (_ & Hb & Hb').
  destruct (paddr_get_first k _ _ pb (hr_ppool _ _ _ _ R) (hr_pbits _ _ _ _ R) ltac:(lia) ltac:(lia) Hb')
    as [?|(j & v & Hj & Hno & E & B & M)]; [by left|right].
  exists j, v. do 3 (split; [done|]). split; [|done]. by apply set_pbit.
Qed.

(** ** Mapping a page *)

Lemma entry_word_eq f : is_u32 f -> f mod PAGE = 0 ->
  entry_word f = f + 7 /\ is_u32 (entry_word f) /\ frame (entry_word f) = f
  /\ present (entry_word f) = true.
Proof.
  intros Hf Hm. assert (E : entry_word f = f + 7).
  { unfold entry_word. rewrite <- !Z.lor_assoc. change (Z.lor PG_US_U (Z.lor PG_RW_W PG_P_1)) with 7.
    replace f with (Z.shiftl (f / 4096) 12) at 1.
    2: { rewrite Z.shiftl_mul_pow2 by lia. unfold PAGE in Hm. zdiv_lia. }
    rewrite lor_disjoint_add, Z.shiftl_mul_pow2 by lia. unfold PAGE in Hm. zdiv_lia. }
  split; [done|]. rewrite E. unfold PAGE in Hm.
  split; [zdiv_lia|]. split; [unfold frame, PAGE; zdiv_lia|].
  unfold present. rewrite Z.bit0_odd, Zodd_mod. apply Z.eqb_eq. zdiv_lia.
Qed.

Lemma land_1_present e : truth (Z.land e 1) = present e.
Proof.
  unfold truth, present. change 1 with (2 ^ 1 - 1). rewrite land_low_mask by lia.
  rewrite Z.bit0_odd, Zodd_mod. change (2 ^ 1) with 2.
  destruct (Z.eqb_spec (e mod 2) 0) as [->|Hn]; [done|].
  simpl. symmetry. apply Z.eqb_eq. zdiv_lia.
Qed.

Lemma under_cr3 s : under s (cr3 s) = s.
Proof. by destruct s. Qed.

(** The frame [f] stands behind the page [pg] now; nothing else moved. *)
Record maps H s s' (pg f : Z) : Prop := {
  mp_cr3 : cr3 s' = cr3 s;
  mp_page d o : d ∈ cr3 s :: D -> 0 <= o < PAGE -> translate (under s' d) (pg + o) = Some (f + o);
  mp_valid o : 0 <= o < PAGE -> vm_valid D s' (pg + o);
  mp_other d b : d ∈ cr3 s :: D -> kernel_addr b -> frame b <> pg ->
    translate (under s' d) b = translate (under s d) b;
  mp_kept a : vm_valid D s a -> vm_valid D s' a /\ vm_load s' a = vm_load s a;
  mp_tables : tables_ok H s -> tables_ok H s';
  mp_pages j : 0 <= j < bit_num (btmp (h_vpool H)) -> page_at H j <> pg ->
    page_free H s j -> page_free H s' j;
  mp_frames g : g <> f -> frame_free s g -> frame_free s' g;
  mp_phys q : is_Some (phys s !! q) -> is_Some (phys s' !! q);
  mp_same q : ~ struct_frame s (frame q) -> phys s' !! q = phys s !! q;
  mp_reach d a p : d ∈ cr3 s :: D -> is_u32 a -> translate (under s' d) a = Some p ->
    translate (under s d) a = Some p \/ frame p = f;
  mp_dirs : dirs_kept s s'
}.

Lemma page_at_aligned H s i : tables_ok H s -> page_at H i mod PAGE = 0.
Proof.
  intros T. destruct (to_range _ _ T) as [Hm _]. unfold page_at, PG_SIZE, PAGE in *. zdiv_lia.
Qed.

Lemma page_of_aligned pg o : pg mod PAGE = 0 -> 0 <= o < PAGE ->
  (pg + o) / PAGE = pg / PAGE /\ (pg + o) mod PAGE = o.
Proof. unfold PAGE. intros. zdiv_lia. Qed.

(** A page's entry, its bytes all in one place. *)
Lemma entry_at_offset H s i o : tables_ok H s -> 0 <= i < bit_num (btmp (h_vpool H)) -> 0 <= o < PAGE ->
  entry_at H (page_at H i + o) = entry_at H (page_at H i).
Proof.
  intros T Hi Ho. pose proof (page_at_aligned _ _ i T) as Hm. unfold entry_at.
  assert (pd_index (page_at H i + o) = pd_index (page_at H i)) as ->
    by (unfold pd_index, PAGE in *; zdiv_lia).
  by replace (pt_index (page_at H i + o)) with (pt_index (page_at H i))
    by (unfold pt_index, PAGE in *; zdiv_lia).
Qed.

Lemma entry_enters H s s' i w : tables_ok H s -> 0 <= i < bit_num (btmp (h_vpool H)) ->
  page_free H s i -> entry_written s s' (entry_at H (page_at H i)) w ->
  entered D s s' (entry_at H (page_at H i)) w.
Proof.
  intros T Hi (e & He & Pe) W.
  assert (Ha : heap_addr H (page_at H i)).
  { rewrite <- (Z.add_0_r (page_at H i)). by eapply page_heap_addr. }
  destruct (entry_at_word _ _ _ T Ha) as [Fe Al].
  constructor; [done| |done|..].
  - intros e' He'. congruence.
  - intros d Hd. rewrite Fe. by eapply to_dir.
  - intros d Hd. rewrite Fe. right. exists (pd_index (page_at H i)), (h_table H (pd_index (page_at H i))).
    destruct (heap_addr_index _ _ _ T Ha) as (Hpi & _).
    split_and!; [lia|lia| |by eapply to_present|done]. by eapply to_pde.
Qed.

Lemma enters_maps H s s' i f : tables_ok H s -> 0 <= i < bit_num (btmp (h_vpool H)) ->
  page_free H s i -> frame_free s f -> is_u32 f -> f mod PAGE = 0 ->
  entry_written s s' (entry_at H (page_at H i)) (entry_word f) ->
  (forall q, is_Some (phys s' !! q) <-> is_Some (phys s !! q)) -> all_u8 s' ->
  maps H s s' (page_at H i) f.
Proof.
  intros T Hi Fi (Um & Sf & Ex) Rf Hf W Hdom U8.
  pose proof (entry_enters _ _ _ _ _ T Hi Fi W) as En.
  destruct (entry_word_eq f Rf Hf) as (_ & Rw & Fw & Pw).
  assert (Hpa : forall o, 0 <= o < PAGE -> heap_addr H (page_at H i + o))
    by (intros; by eapply page_heap_addr).
  assert (Ha : heap_addr H (page_at H i)) by (rewrite <- (Z.add_0_r (page_at H i)); by apply Hpa).
  assert (Hk : forall o, 0 <= o < PAGE -> kernel_addr (page_at H i + o))
    by (intros; eapply heap_addr_kernel; [done|by apply Hpa]).
  assert (Hu : forall d o, d ∈ cr3 s :: D -> 0 <= o < PAGE ->
    pte_addr (under s d) (page_at H i + o) = Some (entry_at H (page_at H i))).
  { intros d o Hd Ho. rewrite <- (entry_at_offset H s i o) by done. eapply entry_pte_addr; auto. }
  pose proof (page_at_aligned _ _ i T) as Hm.
  assert (Hother : forall d b, d ∈ cr3 s :: D -> kernel_addr b -> frame b <> page_at H i ->
    pte_addr (under s d) b <> Some (entry_at H (page_at H i))).
  { intros d b Hd Kb Hb Eb. apply Hb.
    pose proof (entry_at_page _ _ _ _ _ T Hd Ha Kb Eb). unfold frame, PAGE in *. zdiv_lia. }
  assert (C : cr3 s' = cr3 s) by apply W.
  constructor; try done.
  - intros d o Hd Ho. destruct (page_of_aligned _ _ Hm Ho) as [_ Hmod].
    rewrite (entered_here _ _ _ _ _ En) by (auto; by apply kernel_addr_u32, Hk).
    by rewrite Pw, Fw, Hmod.
  - intros o Ho. destruct (page_of_aligned _ _ Hm Ho) as [Hdiv Hmod].
    destruct (proj2 (Hdom (f + o)) (Ex o Ho)) as [v Hv].
    apply (entered_new _ _ _ _ _ En _ v); rewrite ?Fw, ?Hmod; auto.
    + intros d b Hd Kb Eb. rewrite Hdiv. by eapply entry_at_page.
    + by eapply U8.
  - intros d b Hd Kb Hb. apply (entered_other _ _ _ _ _ En); auto. by apply kernel_addr_u32.
  - intros a Va. apply (entered_valid _ _ _ _ _ En); [by rewrite Fw|done].
  - intros _. assert (Hp : forall d j, d ∈ cr3 s :: D -> 0 <= j < 1024 ->
      pde_of (under s' d) j = pde_of (under s d) j) by (intros; by apply (entered_pde _ _ _ _ _ En)).
    constructor; rewrite ?C; [done|apply T|..].
    + intros d Hd. destruct (to_self _ _ T d Hd) as (e & He & Pe & Fe). exists e.
      by rewrite Hp by (done || lia).
    + intros d a Hd Hha. destruct (heap_addr_index _ _ _ T Hha) as (? & _).
      rewrite Hp by (done || lia). by eapply to_pde.
    + apply T.
    + apply T.
    + intros d a j e Hd Hha Hj. rewrite Hp by (done || lia). by eapply to_alias.
  - intros j Hj Hne (e & He & Pe). exists e. split; [|done].
    assert (Hja : heap_addr H (page_at H j)).
    { rewrite <- (Z.add_0_r (page_at H j)). by eapply page_heap_addr. }
    rewrite (entered_word _ _ _ _ _ En); [done|by eapply entry_at_word|].
    intros Eq. apply Hne. pose proof (page_at_aligned _ _ j T) as Hmj.
    enough (page_at H j / PAGE = page_at H i / PAGE) by (unfold PAGE in *; zdiv_lia).
    eapply (entry_at_page _ _ (cr3 s)); [done|left|done|by eapply heap_addr_kernel|].
    rewrite <- Eq. eapply entry_pte_addr; [done|left|done].
  - intros g Hg (Ug & Sg & Eg). split; [|split].
    + eapply entered_unmapped; [done|done|by rewrite Fw].
    + intros d. rewrite C. intros Hd. rewrite (entered_struct _ _ _ _ _ En) by done. by apply Sg.
    + intros o Ho. by apply Hdom, Eg.
  - intros q. apply Hdom.
  - intros q Hq. destruct W as (_ & _ & Ho). apply Ho. intros Hr. apply Hq.
    destruct (en_aligned _ _ _ _ _ En) as [j Ej].
    assert (frame q = frame (entry_at H (page_at H i))) as -> by (rewrite Ej in *; unfold frame, PAGE; zdiv_lia).
    rewrite <- (under_cr3 s). apply (en_table _ _ _ _ _ En). left.
  - intros d a p Hd Ra T'. rewrite <- Fw. by apply (entered_reach _ _ _ _ _ En).
  - intros d x. by apply (entered_pde _ _ _ _ _ En).
Qed.

Lemma page_heap H s i : tables_ok H s -> 0 <= i < bit_num (btmp (h_vpool H)) ->
  heap_addr H (page_at H i).
Proof. intros. rewrite <- (Z.add_0_r (page_at H i)). by eapply page_heap_addr. Qed.

Lemma rd_pde H s a : tables_ok H s -> heap_addr H a ->
  rd32 (pde_vaddr_get a) s = Ok (h_table H (pd_index a)) s.
Proof.
  intros T Ha. destruct (heap_addr_index _ _ _ T Ha) as (Hi & Hj & Ra).
  assert (S : self_mapped s) by (rewrite <- (under_cr3 s); eapply to_self; [done|left]).
  apply (rd32_phys _ _ (frame (cr3 s) + 4 * pd_index a)).
  - rewrite pde_vaddr_eq by done. lia.
  - rewrite pde_vaddr_eq by done. lia.
  - intros q Hq. by apply translate_pde.
  - pose proof (to_pde _ _ T (cr3 s) a ltac:(left) Ha) as E. by rewrite under_cr3 in E.
Qed.

Lemma rd_pte H s a e : tables_ok H s -> heap_addr H a ->
  ld32p (phys s) (entry_at H a) = Some e -> rd32 (pte_vaddr_get a) s = Ok e s.
Proof.
  intros T Ha E. destruct (heap_addr_index _ _ _ T Ha) as (Hi & Hj & Ra).
  assert (S : self_mapped s) by (rewrite <- (under_cr3 s); eapply to_self; [done|left]).
  apply (rd32_phys _ _ (entry_at H a)); [..|done].
  - rewrite pte_vaddr_eq by done. unfold PAGE. lia.
  - rewrite pte_vaddr_eq by done. unfold PAGE. lia.
  - intros q Hq. apply translate_pte; try done; [|by eapply to_present].
    pose proof (to_pde _ _ T (cr3 s) a ltac:(left) Ha) as E'. by rewrite under_cr3 in E'.
Qed.

Lemma steady_entry H s a : tables_ok H s -> heap_addr H a ->
  steady s (pte_vaddr_get a) (entry_at H a) 4.
Proof.
  intros T Ha. destruct (heap_addr_index _ _ _ T Ha) as (Hi & Hj & Ra).
  apply steady_pte; try done.
  - rewrite <- (under_cr3 s). eapply to_self; [done|left].
  - pose proof (to_pde _ _ T (cr3 s) a ltac:(left) Ha) as E. by rewrite under_cr3 in E.
  - by eapply to_present.
  - eapply to_dir; [done|left|done].
Qed.

(** [v2p_mapping] of a free page of the heap to a free frame. *)
Lemma v2p_mapping_heap H k i f : tables_ok H (k_vm k) -> 0 <= i < bit_num (btmp (h_vpool H)) ->
  page_free H (k_vm k) i -> frame_free (k_vm k) f -> is_u32 f -> f mod PAGE = 0 ->
  exists v, v2p_mapping (page_at H i) f k = Ok tt (with_vm v k)
    /\ maps H (k_vm k) v (page_at H i) f.
Proof.
  intros T Hi Fi Ff Rf Hf. pose proof (page_heap _ _ _ T Hi) as Ha.
  pose proof Fi as (e & He & Pe). destruct (heap_addr_index _ _ _ T Ha) as (Hpi & Hti & Ra).
  destruct (entry_word_eq f Rf Hf) as (_ & Rw & _).
  pose proof (pte_vaddr_eq _ Ra) as Ea.
  destruct (wr32_steady (k_vm k) (pte_vaddr_get (page_at H i)) _ (entry_word f)
    ltac:(rewrite Ea; unfold PAGE; lia) ltac:(rewrite Ea; unfold PAGE; lia) Rw
    (steady_entry _ _ _ T Ha) ltac:(eauto)) as (v & E & W & Hdom & U8).
  exists v. split; [|eapply enters_maps; eauto; apply U8, T].
  unfold v2p_mapping.
  erewrite bind_ok by (apply zoom_ok, (rd_pde _ _ _ T Ha)).
  rewrite land_1_present, (to_present _ _ T _ Ha).
  change (put_view vm_of (k_vm k) k) with (with_vm (k_vm k) k). rewrite with_vm_id.
  assert (Er : zoom vm_of (rd32 (pte_vaddr_get (page_at H i))) k = Ok e k).
  { erewrite zoom_ok by (eapply rd_pte; [exact T|exact Ha|exact He]).
    change (put_view vm_of (k_vm k) k) with (with_vm (k_vm k) k). by rewrite with_vm_id. }
  erewrite bind_ok by exact Er. rewrite land_1_present, Pe. simpl negb.
  erewrite bind_ok by reflexivity. erewrite bind_ok by exact Er.
  rewrite land_1_present, Pe. simpl negb. by apply zoom_ok.
Qed.

(** After a mapping the invariant holds again, once the page's and the frame's
    bits are set. *)
Lemma maps_rep H k vb pb v pg f : heap_rep H k vb pb -> maps H (k_vm k) v pg f ->
  (forall i, vb !! i = Some false -> page_at H (Z.of_nat i) <> pg) ->
  (forall j, pb !! j = Some false -> frame_at H (Z.of_nat j) <> f) ->
  heap_rep H (with_vm v k) vb pb.
Proof.
  intros R M Hv Hp. destruct (pool_sizes _ _ _ _ R) as (_ & _ & Lv & _). destruct R.
  constructor; try done; simpl.
  - eapply bitmap_rep_ext; [apply M|done].
  - eapply bitmap_rep_ext; [apply M|done].
  - by apply M.
  - intros i Hi. eapply mp_pages; eauto. apply lookup_lt_Some in Hi. lia.
  - intros j Hj. eapply mp_frames; eauto.
Qed.

(** ** Mapping a run of pages *)

(** The pages [i], [i + 1], ... of the heap are backed by the frames [js] of
    the pool; the rest of memory is as it was, but for the pool's bitmap. *)
Record backed H s s' (i n : Z) (js : list nat) : Prop := {
  bk_cr3 : cr3 s' = cr3 s;
  bk_page (x : nat) j d o : js !! x = Some j -> d ∈ cr3 s :: D -> 0 <= o < PAGE ->
    translate (under s' d) (page_at H (i + Z.of_nat x) + o) = Some (frame_at H (Z.of_nat j) + o)
    /\ vm_valid D s' (page_at H (i + Z.of_nat x) + o);
  bk_kept a : vm_valid D s a -> vm_valid D s' a
    /\ (~ bitmap_byte (btmp (h_ppool H)) a -> vm_load s' a = vm_load s a);
  bk_other d b : d ∈ cr3 s :: D -> kernel_addr b ->
    (forall x, i <= x < i + n -> frame b <> page_at H x) ->
    translate (under s' d) b = translate (under s d) b;
  bk_phys q : is_Some (phys s !! q) -> is_Some (phys s' !! q);
  bk_free q : frame_free s (frame q) -> (forall j, j ∈ js -> frame q <> frame_at H (Z.of_nat j)) ->
    phys s' !! q = phys s !! q;
  bk_new (x : nat) j o : js !! x = Some j -> 0 <= o < PAGE ->
    vm_load s' (page_at H (i + Z.of_nat x) + o) = phys s !! (frame_at H (Z.of_nat j) + o);
  bk_frames g : frame_free s g -> (forall j, j ∈ js -> g <> frame_at H (Z.of_nat j)) -> frame_free s' g;
  bk_reach d a p : d ∈ cr3 s :: D -> is_u32 a -> translate (under s' d) a = Some p ->
    translate (under s d) a = Some p \/ exists j, j ∈ js /\ frame p = frame_at H (Z.of_nat j);
  bk_dirs : dirs_kept s s'
}.

Lemma backed_nil H s i n : backed H s s i n [].
Proof. constructor; try done. by left. Qed.

(** Nothing writes to a free frame. *)
Lemma keeps_frame s s' q : vm_keeps D s s' -> frame_free s (frame q) -> phys s' !! q = phys s !! q.
Proof.
  intros (_ & K & _) (Um & _ & _). destruct (K (cr3 s)) as (_ & _ & F); [left|]. apply F. right.
  apply (unmapped_unseen D); [left|done].
Qed.

Lemma maps_frame H s s1 s2 pg f q : vm_keeps D s s1 -> maps H s1 s2 pg f -> frame_free s (frame q) ->
  phys s2 !! q = phys s !! q.
Proof.
  intros K Mp Fr. rewrite <- (keeps_frame _ _ _ K Fr). apply (mp_same _ _ _ _ _ Mp).
  destruct (keeps_frame_free _ _ _ K Fr) as (_ & Sf & _). rewrite <- (under_cr3 s1). apply Sf. left.
Qed.

(** A write to the pool's bitmap, one mapping, and the rest. *)
Lemma backed_cons H s s1 s2 s3 i n j js : tables_ok H s1 -> 0 <= n -> 0 <= i ->
  i + 1 + n <= bit_num (btmp (h_vpool H)) ->
  modifies (bitmap_byte (btmp (h_ppool H))) s s1 ->
  maps H s1 s2 (page_at H i) (frame_at H (Z.of_nat j)) -> backed H s2 s3 (i + 1) n js ->
  (forall x, x ∈ j :: js -> frame_free s (frame_at H (Z.of_nat x))) ->
  addr_base (h_ppool H) mod PAGE = 0 ->
  (forall o, 0 <= o < PAGE -> ~ bitmap_byte (btmp (h_ppool H)) (page_at H i + o)) ->
  backed H s s3 i (1 + n) (j :: js).
Proof.
  intros T Hn Hi Hb M Mp [C3 P3 K3 O3 X3 F3 N3 G3 Q3 D3] Hfree Hal Hnot.
  assert (Ks : vm_keeps D s s1) by exact (modifies_keeps _ _ _ M).
  pose proof Ks as (C1 & K1 & _).
  assert (Hin : forall x o, 0 <= o < PAGE -> frame (frame_at H (Z.of_nat x) + o) = frame_at H (Z.of_nat x)).
  { intros x o Ho. apply frame_aligned; [unfold frame_at, PG_SIZE, PAGE in *; zdiv_lia|done]. }
  pose proof (mp_cr3 _ _ _ _ _ Mp) as C2. rewrite C1 in C2. rewrite C2 in *.
  assert (Hpg : forall o, 0 <= o < PAGE -> kernel_addr (page_at H i + o)).
  { intros o Ho. eapply heap_addr_kernel; [done|]. eapply page_heap_addr; [done|lia|done]. }
  assert (Hfr : forall o, 0 <= o < PAGE -> frame (page_at H i + o) = page_at H i).
  { intros o Ho. apply frame_aligned; [by eapply page_at_aligned|done]. }
  constructor; [done|..].
  - intros [|x] j' d o Hj Hd Ho; simpl in Hj.
    + injection Hj as <-. rewrite Z.add_0_r. split.
      * rewrite O3; auto; [eapply (mp_page _ _ _ _ _ Mp); [by rewrite C1|done]|].
        intros x Hx. rewrite Hfr by done. unfold page_at, PG_SIZE. lia.
      * eapply K3, mp_valid; eauto.
    + replace (i + Z.of_nat (S x)) with (i + 1 + Z.of_nat x) by lia. by apply P3.
  - intros a Va. pose proof (modifies_valid _ _ _ _ M Va) as V1.
    destruct (mp_kept _ _ _ _ _ Mp a V1) as [V2 L2]. destruct (K3 a V2) as [V3 L3].
    split; [done|]. intros Hna. rewrite L3, L2 by done.
    by apply (modifies_load _ _ _ _ M).
  - intros d b Hd Kb Hx. rewrite O3 by (auto; intros; apply Hx; lia).
    rewrite (mp_other _ _ _ _ _ Mp) by (try rewrite C1; auto; apply Hx; lia).
    apply keeps_translate; [by apply K1|by apply kernel_addr_u32].
  - intros q Hq. apply X3, (mp_phys _ _ _ _ _ Mp). apply elem_of_dom.
    destruct (K1 (cr3 s)) as (_ & Dm & _); [left|]. simpl in Dm. rewrite Dm. by apply elem_of_dom.
  - intros q Fq Hj. rewrite F3.
    + by eapply maps_frame.
    + apply (mp_frames _ _ _ _ _ Mp); [apply Hj; left|by eapply keeps_frame_free].
    + intros x Hx. apply Hj. by right.
  - intros [|x] j' o Hj Ho; simpl in Hj.
    + injection Hj as <-. rewrite Z.add_0_r.
      destruct (K3 _ (mp_valid _ _ _ _ _ Mp o Ho)) as [_ ->]; [|by apply Hnot].
      unfold vm_load. rewrite <- (under_cr3 s2), C2, <- C1.
      rewrite (mp_page _ _ _ _ _ Mp) by (done || left). simpl. eapply maps_frame; [done|done|].
      rewrite Hin by done. apply Hfree. left.
    + replace (i + Z.of_nat (S x)) with (i + 1 + Z.of_nat x) by lia. rewrite (N3 x j') by done.
      eapply maps_frame; [done|done|]. rewrite Hin by done. apply Hfree. right.
      by eapply list_elem_of_lookup_2.
  - intros g Fg Hj. apply G3; [|intros x Hx; apply Hj; by right].
    apply (mp_frames _ _ _ _ _ Mp); [apply Hj; left|by eapply keeps_frame_free].
  - intros d a p Hd Ra Tp. destruct (Q3 d a p Hd Ra Tp) as [T2|(x & Hx & Ex)]; [|right; exists x; split; [by right|done]].
    destruct (mp_reach _ _ _ _ _ Mp d a p ltac:(by rewrite C1) Ra T2) as [T1|Ex]; [|right; exists j; split; [by left|done]].
    left. rewrite <- T1. symmetry. apply keeps_translate; [by apply K1|done].
  - apply (dirs_kept_trans _ s2); [by rewrite C2| |exact D3].
    apply (dirs_kept_trans _ s1); [done|by apply keeps_dirs|apply Mp].
Qed.

(** A free page is mapped nowhere. *)
Lemma page_free_unmapped H s i d o : tables_ok H s -> 0 <= i < bit_num (btmp (h_vpool H)) ->
  page_free H s i -> d ∈ cr3 s :: D -> 0 <= o < PAGE ->
  translate (under s d) (page_at H i + o) = None.
Proof.
  intros T Hi (e & He & Pe) Hd Ho. rewrite translate_pte_addr.
  rewrite (entry_pte_addr H s d _ T Hd) by by eapply page_heap_addr.
  simpl. rewrite (entry_at_offset H s i o T Hi Ho), He. simpl. by rewrite Pe.
Qed.

Lemma map_pages_ok H n : forall k vb pb i, heap_rep H k vb pb -> 0 <= i ->
  i + Z.of_nat n <= bit_num (btmp (h_vpool H)) ->
  (forall x, i <= x < i + Z.of_nat n -> page_free H (k_vm k) x /\ vb !! Z.to_nat x <> Some false) ->
  let js := take n (clear_from 0 pb) in
  exists v, map_pages n kernel_phy_pool (page_at H i) k
      = Ok (n <=? length (clear_from 0 pb))%nat (with_vm v k)
    /\ heap_rep H (with_vm v k) vb (used js pb) /\ backed H (k_vm k) v i (Z.of_nat n) js.
Proof.
  induction n as [|n IH]; intros k vb pb i R Hi Hb Hp.
  { exists (k_vm k). split; [by rewrite with_vm_id|]. split; [by rewrite with_vm_id|].
    apply backed_nil. }
  pose proof (hr_tables _ _ _ _ R) as T. simpl map_pages.
  destruct (paddr_get_ok _ _ _ _ R) as [[E Hno]|(j & v1 & Hj & Hlow & E & R1 & M1)].
  { rewrite (clear_from_none O pb Hno). exists (k_vm k). erewrite bind_ok by exact E.
    rewrite with_vm_id. split; [done|]. split; [done|]. apply backed_nil. }
  rewrite (clear_from_first O pb j Hj Hlow). simpl take. simpl length.
  assert (K1 : vm_keeps D (k_vm k) v1) by exact (modifies_keeps _ _ _ M1).
  destruct (Hp i ltac:(lia)) as [Fi Bi].
  assert (Fi1 : page_free H v1 i) by (eapply keeps_page_free; [done|done|lia|done]).
  pose proof (keeps_frame_free _ _ _ K1 (hr_frames _ _ _ _ R j Hj)) as Ff.
  destruct (pool_sizes _ _ _ _ R) as (Sv & Sp & Lv & Lp).
  pose proof (lookup_lt_Some _ _ _ Hj) as Hlt.
  destruct (hr_pbase _ _ _ _ R) as (Hm & Hb0 & Hb1).
  assert (Hf : frame_at H (Z.of_nat j) mod PAGE = 0 /\ 0 < frame_at H (Z.of_nat j) < 2 ^ 32).
  { unfold frame_at, PG_SIZE, PAGE in *. split; [zdiv_lia|lia]. }
  destruct (v2p_mapping_heap H (with_vm v1 k) i (frame_at H (Z.of_nat j)) (hr_tables _ _ _ _ R1)
    ltac:(lia) Fi1 Ff ltac:(lia) ltac:(lia)) as (v2 & E2 & Mp).
  assert (R2 : heap_rep H (with_vm v2 (with_vm v1 k)) vb (<[j := true]> pb)).
  { eapply maps_rep; [exact R1|exact Mp|..].
    - intros i' Hi' Eq. assert (Z.of_nat i' = i) as <- by (unfold page_at, PG_SIZE in Eq; lia).
      by rewrite Nat2Z.id in Bi.
    - intros j' Hj' Eq. assert (j' = j) as -> by (unfold frame_at, PG_SIZE in Eq; lia).
      by rewrite list_lookup_insert_eq in Hj'. }
  change (with_vm v2 (with_vm v1 k)) with (with_vm v2 k) in *.
  destruct (IH (with_vm v2 k) vb (<[j := true]> pb) (i + 1) R2 ltac:(lia) ltac:(lia))
    as (v3 & E3 & R3 & B3).
  { intros x Hx. destruct (Hp x ltac:(lia)) as [Fx Bx]. split; [|done].
    eapply (mp_pages _ _ _ _ _ Mp); [lia|unfold page_at, PG_SIZE; lia|].
    eapply keeps_page_free; [done|done|lia|done]. }
  exists v3. split; [|split; [exact R3|]].
  - erewrite bind_ok by exact E. rewrite (proj2 (Z.eqb_neq _ _)) by (unfold NULL; lia).
    erewrite bind_ok by exact E2.
    replace (u32 (page_at H i + PG_SIZE)) with (page_at H (i + 1)); [exact E3|].
    destruct (to_range _ _ T) as (_ & Hr1 & Hr2).
    unfold page_at, PG_SIZE in *. rewrite u32_small; lia.
  - replace (Z.of_nat (S n)) with (1 + Z.of_nat n) by lia.
    eapply backed_cons; [apply R1|lia..|exact M1|exact Mp|exact B3| |exact Hm|].
    + intros x Hx. apply (hr_frames _ _ _ _ R). apply elem_of_cons in Hx as [->|Hx]; [done|].
      apply elem_of_take in Hx as (y & Hx & _). apply list_elem_of_lookup_2, clear_from_elem in Hx as (x' & -> & Hx).
      by eapply insert_true_free.
    + intros o Ho Hbit. pose proof (page_free_unmapped H (k_vm k) i (cr3 (k_vm k)) o T ltac:(lia) Fi ltac:(left) Ho) as Tn.
      destruct (hr_pbits _ _ _ _ R) as (_ & _ & _ & Vb & _).
      destruct (vm_load_valid D (k_vm k) (page_at H i + o)) as (p & v & Tp & _).
      { replace (page_at H i + o) with (base_addr (btmp (h_ppool H)) + (page_at H i + o - base_addr (btmp (h_ppool H)))) by lia.
        apply Vb. unfold bitmap_byte in Hbit. lia. }
      rewrite under_cr3 in Tn. congruence.
Qed.

(** ** Reserving a run of virtual pages *)

Lemma set_bits_ok H k vb pb i n : heap_rep H k vb pb -> (i + n <= length vb)%nat ->
  exists v, set_bits (btmp (h_vpool H)) (Z.of_nat i) (Z.of_nat n) k = Ok tt (with_vm v k)
    /\ heap_rep H (with_vm v k) (mark i n vb) pb
    /\ modifies (bitmap_byte (btmp (h_vpool H))) (k_vm k) v.
Proof.
  intros R Hl. destruct (pool_sizes _ _ _ _ R) as (Sv & _ & Lv & _).
  enough (W : wp (set_bits (btmp (h_vpool H)) (Z.of_nat i) (Z.of_nat n)) k (fun _ k' =>
    exists v, k' = with_vm v k /\ heap_rep H k' (mark i n vb) pb
      /\ modifies (bitmap_byte (btmp (h_vpool H))) (k_vm k) v)).
  { apply wp_inv in W as ([] & k' & E & v & -> & R' & M). by exists v. }
  unfold set_bits. rewrite Nat2Z.id.
  eapply wp_for_upto with (Inv := fun c k' => exists v, k' = with_vm v k
    /\ heap_rep H k' (mark i (Z.to_nat c) vb) pb
    /\ modifies (bitmap_byte (btmp (h_vpool H))) (k_vm k) v).
  - exists (k_vm k). rewrite with_vm_id. split_and!; done.
  - intros c k' Hc (v & -> & R' & M). rewrite u32_small by lia.
    destruct (set_vbit _ _ _ _ (i + Z.to_nat c) R' ltac:(rewrite mark_length; lia))
      as (v' & E & R'' & M').
    replace (Z.of_nat i + c) with (Z.of_nat (i + Z.to_nat c)) by lia.
    eapply wp_ok; [exact E|]. exists v'. split; [done|].
    replace (Z.to_nat (c + 1)) with (S (Z.to_nat c)) by lia.
    split; [exact R''|]. by etransitivity.
  - intros k'. rewrite Z.add_0_l, Nat2Z.id. done.
Qed.

Lemma vaddr_get_ok H k vb pb n : heap_rep H k vb pb -> (0 < n)%nat -> Z.of_nat n < 2 ^ 31 ->
  (vaddr_get PF_KERNEL (Z.of_nat n) k = Ok NULL k /\ forall i, ~ run vb false n i) \/
  (exists i v, run vb false n i /\ (forall i', (i' < i)%nat -> ~ run vb false n i')
     /\ vaddr_get PF_KERNEL (Z.of_nat n) k = Ok (page_at H (Z.of_nat i)) (with_vm v k)
     /\ heap_rep H (with_vm v k) (mark i n vb) pb
     /\ modifies (bitmap_byte (btmp (h_vpool H))) (k_vm k) v).
Proof.
  intros R Hn Hn'. destruct (pool_sizes _ _ _ _ R) as (Hv & _ & Hl & _).
  destruct (zoom_vm_ok (bitmap_scan (btmp (h_vpool H)) (of_bool false) (Z.of_nat n)) k _
    (bitmap_scan_first _ _ _ false (Z.of_nat n) (hr_vbits _ _ _ _ R) ltac:(lia) ltac:(lia)))
    as (r & v0 & E & -> & Hr).
  rewrite with_vm_id in E. rewrite Nat2Z.id in Hr.
  unfold vaddr_get. erewrite bind_ok by reflexivity. rewrite decide_True by done.
  erewrite bind_ok by (apply get_pool_ok, R). erewrite bind_ok by exact E.
  destruct Hr as [[-> Hno]|(i & -> & Hi & Hno)].
  - left. by rewrite (proj2 (Z.eqb_eq (-1) (-1))).
  - right. assert (Hin : (i + n <= length vb)%nat).
    { specialize (Hi (n - 1)%nat ltac:(lia)). apply lookup_lt_Some in Hi. lia. }
    destruct (set_bits_ok _ _ _ _ i n R Hin) as (v & Es & R' & M). exists i, v.
    split; [done|]. split; [done|]. split; [|done].
    rewrite (proj2 (Z.eqb_neq (Z.of_nat i) (-1))) by lia.
    erewrite bind_ok by exact Es. erewrite bind_ok by (apply get_pool_ok, R').
    unfold mret, M_ret. f_equal. unfold page_at, PG_SIZE.
    destruct (to_range _ _ (hr_tables _ _ _ _ R)) as (_ & Hr1 & Hr2). unfold PG_SIZE in *.
    rewrite u32_small; lia.
Qed.

(** ** [malloc_page] for the kernel *)

Lemma malloc_page_ok H k vb pb n : heap_rep H k vb pb -> (0 < n)%nat -> Z.of_nat n < 3840 ->
  (malloc_page PF_KERNEL (Z.of_nat n) k = Ok NULL k /\ forall i, ~ run vb false n i) \/
  (exists i v1 v2, run vb false n i /\ (forall i', (i' < i)%nat -> ~ run vb false n i')
     /\ malloc_page PF_KERNEL (Z.of_nat n) k
        = Ok (if (n <=? length (clear_from 0 pb))%nat then page_at H (Z.of_nat i) else NULL)
            (with_vm v2 k)
     /\ heap_rep H (with_vm v2 k) (mark i n vb) (used (take n (clear_from 0 pb)) pb)
     /\ modifies (bitmap_byte (btmp (h_vpool H))) (k_vm k) v1
     /\ backed H v1 v2 (Z.of_nat i) (Z.of_nat n) (take n (clear_from 0 pb))).
Proof.
  intros R Hn Hn'. unfold malloc_page.
  rewrite (proj2 (Z.ltb_lt 0 (Z.of_nat n))), (proj2 (Z.ltb_lt (Z.of_nat n) 3840)) by lia.
  erewrite bind_ok by reflexivity.
  destruct (vaddr_get_ok _ _ _ _ n R Hn ltac:(change (2 ^ 31) with 2147483648; lia)) as [[E Hno]|(i & v1 & Hi & Hno & E & R1 & M)].
  { left. split; [|done]. by erewrite bind_ok by exact E. }
  right. destruct (pool_sizes _ _ _ _ R) as (Sv & _ & Lv & _).
  pose proof (hr_tables _ _ _ _ R) as T. destruct (to_range _ _ T) as (_ & Hr1 & Hr2).
  assert (Hin : (i + n <= length vb)%nat).
  { specialize (Hi (n - 1)%nat ltac:(lia)). apply lookup_lt_Some in Hi. lia. }
  assert (K : vm_keeps D (k_vm k) v1) by exact (modifies_keeps _ _ _ M).
  destruct (map_pages_ok H n (with_vm v1 k) (mark i n vb) pb (Z.of_nat i) R1 ltac:(lia) ltac:(lia))
    as (v2 & E2 & R2 & B).
  { intros x Hx. rewrite mark_lookup, decide_True by lia. split; [|done].
    eapply keeps_page_free; [done|done|lia|].
    rewrite <- (Z2Nat.id x) by lia. apply (hr_pages _ _ _ _ R).
    specialize (Hi (Z.to_nat x - i)%nat ltac:(lia)). by replace (i + (Z.to_nat x - i))%nat
      with (Z.to_nat x) in Hi by lia. }
  exists i, v1, v2. do 2 (split; [done|]). split; [|done].
  erewrite bind_ok by exact E. rewrite (proj2 (Z.eqb_neq _ _)).
  2: { unfold page_at, NULL, PG_SIZE. lia. }
  cbv zeta. change (truth _) with true. cbv iota. rewrite Nat2Z.id.
  erewrite bind_ok by exact E2. by destruct (n <=? length (clear_from 0 pb))%nat.
Qed.

End Heap.
End Heap.
