(* ===== verification/HeapMachine.v ===== *)
(** The kernel's heap on the concrete memories of [Machine.v]: what the page
    tables of [paged] promise to [Heap.v].

    The heap is in the part of the address space the one page table maps; a
    page is free when its entry is absent, a frame when no entry leads to it. *)

From S2P Require Import Prelude Bytes Bitmap LinkedList Paging PageTable PageMap Kernel ReadyQueues.
From S2P Require Import Sched Machine Memory Heap.

Module HeapMachine.
Import Bitmap LinkedList Paging PageTable PageMap Kernel ReadyQueues Sched Machine Memory Heap.

(** Every heap address is mapped by the one page table. *)
Definition one_table (_ : Z) : Z := PT + 7.

Definition heap_in_table (vp : pool) : Prop :=
  addr_base vp mod PAGE = 0 /\ 0xc0000000 <= addr_base vp
  /\ addr_base vp + PG_SIZE * bit_num (btmp vp) <= 0xc0400000.

Section Paged.
Context (dirs : list Z) (ps : list (Z * Z)) (ab : list Z) (Hlayout : layout_ok dirs ps ab = true).
Context (data : gmap Z Z) (Hdata : bytes_ok data).
Context (vp pp : pool) (Hvp : heap_in_table vp).

#[local] Notation M := (paged dirs ps ab data).
#[local] Notation H := (mkHeap vp pp one_table).

Lemma heap_index a : heap_addr H a -> pd_index a = 768.
Proof. destruct Hvp as (_ & H1 & H2). unfold heap_addr, pd_index. simpl. intros. zdiv_lia. Qed.

Lemma paged_tables : tables_ok [PD] H M.
Proof.
  destruct (layout_kernel _ _ _ Hlayout) as [Hk Hself].
  constructor.
  - by apply paged_u8.
  - destruct Hvp as (H1 & H2 & H3). simpl. lia.
  - intros d Hd. rewrite paged_under by done. exists (PD + 7).
    split; [by apply machine_word|by vm_compute].
  - intros d a Hd Ha. rewrite paged_under, heap_index by done. apply machine_word.
    by apply (layout_dirs _ _ _ Hlayout).
  - intros a _. by vm_compute.
  - intros d a Hd _. assert (d = PD) as ->; [|by vm_compute].
    apply elem_of_cons in Hd as [->|Hd]; [done|]. by apply list_elem_of_singleton in Hd.
  - intros d a j e Hd Ha Hj. rewrite paged_under by done. rewrite heap_index by done. intros He Pe Hf.
    destruct (paged_pde _ _ _ Hlayout data Hdata j e ltac:(lia) He) as [[Hj' _]|[[-> _]|[_ ->]]]; [|lia|done].
    apply (layout_dirs _ _ _ Hlayout) in Hj' as [? _]. lia.
Qed.

Lemma paged_page_free i : addr_base vp / PAGE mod 1024 + i ∈ ab -> 0 <= i < bit_num (btmp vp) ->
  page_free H M i.
Proof.
  intros Hi Hr. exists 0. split; [|done].
  destruct (layout_absent _ _ _ Hlayout _ Hi) as [Hm E]. apply machine_word. rewrite <- E. f_equal.
  destruct Hvp as (H1 & H2 & H3). unfold entry_at, one_table, page_at, pt_index.
  change (frame (PT + 7)) with PT. simpl in *. unfold PG_SIZE, PAGE in *.
  set (q := addr_base vp / 4096) in *.
  assert (Eq : addr_base vp + 4096 * i = 4096 * (q + i)) by (unfold q; zdiv_lia).
  assert (Hq : 786432 <= q /\ q + i < 787456) by (unfold q; zdiv_lia).
  rewrite Eq, (Z.mul_comm 4096 (q + i)), Z.div_mul by done.
  assert (Em : (q mod 1024 + i) mod 1024 = q mod 1024 + i)
    by by (apply Z.mod_small, Hm).
  rewrite <- Em, Zplus_mod_idemp_l. done.
Qed.

(** A frame in memory that is not mapped. *)
Definition frame_spare (f : Z) : bool := bool_decide (f mod 4096 = 0 /\ f ∉ ps.*2 /\ f <> PD /\ f <> PT).

Lemma paged_frame_free f : frame_spare f = true -> room data f 4096 -> frame_free [PD] M f.
Proof.
  unfold frame_spare. rewrite bool_decide_eq_true.
  intros (Hm & Hn & N1 & N2) Hb. split; [|split].
  - intros d a p Hd Ka. rewrite paged_under by done. intros T.
    destruct (paged_translate _ _ _ Hlayout data Hdata a p Ka T) as (i & g & o & Hg & Ho & _ & ->).
    destruct (layout_page _ _ _ Hlayout _ _ Hg) as [(_ & _ & Hm' & _) _].
    rewrite frame_aligned by done. intros ->. apply Hn. apply list_elem_of_fmap. by exists (i, f).
  - intros d Hd. rewrite paged_under by done.
    intros [E|E]%(paged_struct _ _ _ Hlayout data Hdata); congruence.
  - intros o Ho. destruct (Hb o Ho) as [v Hv]. exists v. simpl. by apply data_not_table.
Qed.

(** Nor by an address below the kernel's gigabyte. *)
Lemma paged_frame_nobody f : frame_spare f = true -> nobody_has [PD] M f.
Proof.
  unfold frame_spare. rewrite bool_decide_eq_true. intros (Hm & Hn & _) d a p Hd Ha.
  rewrite paged_under by done. intros T. unfold user_addr in Ha.
  destruct (paged_reach _ _ _ Hlayout data Hdata a p ltac:(lia) ltac:(unfold pd_index; zdiv_lia) T) as (_ & g & Hg & ->).
  destruct (layout_page _ _ _ Hlayout _ _ Hg) as [(_ & _ & Hm' & _) _].
  rewrite frame_aligned by (done || by apply Z.mod_pos_bound). intros ->. apply Hn.
  apply list_elem_of_fmap. by exists (pt_index a, f).
Qed.

Lemma paged_spare f : frame_spare f = true -> room data f 4096 -> spare [PD] M f.
Proof. intros Hf Hr. split; [by apply paged_frame_free|by apply paged_frame_nobody]. Qed.

End Paged.
End HeapMachine.
