(* ===== verification/MemInit.v ===== *)
(** Setting up the memory pools: [mem_pool_init] and [mem_init] of
    [kernel/memory.c], specified.

    [kernel_frames], [user_frames] and [kernel_heap] are the three pools as
    functions of the size of the memory.  [so_far] says what the kernel's
    initialisation has done up to some point: it printed, cleared some bitmaps,
    and set up some pools and mutexes; the other initialisation functions use
    it too. *)

From S2P Require Import Prelude Bytes Bitmap Interrupt LinkedList Paging PageTable PageMap Words Ports.
From S2P Require Import Print Descriptors Kernel Sched Sync Console Memory Heap.

Module MemInit.
Import Bitmap LinkedList Paging PageTable PageMap Words Ports Kernel Sched Sync Console Memory Heap.

(** ** The layout *)

Definition USED_MEM : Z := 0x200000.
Definition free_pages (total : Z) : Z := (total - USED_MEM) / PG_SIZE.
Definition kernel_pages (total : Z) : Z := free_pages total / 2.
Definition user_pages (total : Z) : Z := free_pages total - kernel_pages total.

Definition pool_at (base addr pages : Z) : pool :=
  mkPool (mkBitmap base pages (bit_num_2_byte_len pages)) addr (PG_SIZE * pages).

Definition user_map (total : Z) : Z := MEM_BITMAP_BASE + bit_num_2_byte_len (kernel_pages total).
Definition heap_map (total : Z) : Z := user_map total + bit_num_2_byte_len (user_pages total).
Definition maps_end (total : Z) : Z := heap_map total + bit_num_2_byte_len (kernel_pages total).

Definition kernel_frames (total : Z) : pool := pool_at MEM_BITMAP_BASE USED_MEM (kernel_pages total).
Definition user_frames (total : Z) : pool :=
  pool_at (user_map total) (USED_MEM + PG_SIZE * kernel_pages total) (user_pages total).
Definition kernel_heap (total : Z) : pool := pool_at (heap_map total) K_HEAP_START (kernel_pages total).

(** The sizes for which the bitmaps end below the screen. *)
Definition memory_fits (total : Z) : Prop :=
  USED_MEM <= total < 2 ^ 32 /\ maps_end total <= Print.video_base_addr.

Lemma bytes_len_eq n : 0 <= n -> btmp_bytes_len4pages n = bit_num_2_byte_len n.
Proof.
  intros Hn. unfold btmp_bytes_len4pages, bit_num_2_byte_len, truth. by destruct (n mod 8 =? 0).
Qed.

Lemma byte_len_range n : 0 <= n -> 0 <= bit_num_2_byte_len n <= n / 8 + 1.
Proof. intros Hn. unfold bit_num_2_byte_len. destruct (truth _); zdiv_lia. Qed.

Lemma pages_range total : USED_MEM <= total < 2 ^ 32 ->
  0 <= kernel_pages total <= user_pages total /\ user_pages total <= kernel_pages total + 1
  /\ USED_MEM + PG_SIZE * (kernel_pages total + user_pages total) <= total.
Proof. unfold user_pages, kernel_pages, free_pages, USED_MEM, PG_SIZE. intros H. zdiv_lia. Qed.

(** ** Initialising, step by step *)

Section Init.
Context (D : list Z) (region : Z -> Prop).
Context (Hregion : forall a, region a -> ~ Print.video_byte a).
Implicit Types (k : kernel) (bs : list bitmap) (L : gmap Z (list Z)).

#[local] Instance data_mem : ByteMem vm := vm_mem D.

(** Since [k0] there was output, and the state is [k1] apart from memory and
    ports; of the region, the bitmaps [bs] were cleared. *)
Record so_far k0 bs k1 L k : Prop := {
  sf_state : exists v i, k = with_vm v (with_io i k1);
  sf_screen : on_screen D k;
  sf_mod : modifies (fun a => Print.video_byte a \/ region a) (k_vm k0) (k_vm k);
  sf_bits b : b ∈ bs -> bitmap_rep (k_vm k) b (replicate (Z.to_nat (bit_num b)) false)
    /\ forall a, bitmap_byte b a -> region a;
  sf_lists : lists_rep (k_links k) L;
  sf_io : crt_only (k_io k0) (k_io k)
}.

Lemma sf_start k L : on_screen D k -> lists_rep (k_links k) L -> so_far k [] k L k.
Proof.
  intros S HL. constructor; [by exists (k_vm k), (k_io k); destruct k|done|reflexivity| |done|reflexivity].
  intros b Hb. by apply not_elem_of_nil in Hb.
Qed.

Lemma video_bits s s' b bits : modifies Print.video_byte s s' ->
  (forall a, bitmap_byte b a -> region a) -> bitmap_rep s b bits -> bitmap_rep s' b bits.
Proof.
  intros M Hb. apply (bitmap_rep_modifies Print.video_byte); [done|].
  intros i Hi. apply Hregion, Hb. unfold bitmap_byte. lia.
Qed.

Lemma sf_printed k0 bs k1 L k k' : so_far k0 bs k1 L k -> on_screen D k' -> printed D k k' ->
  so_far k0 bs k1 L k'.
Proof.
  intros [(v0 & i0 & ->) _ M B HL C] S (v & i & -> & M' & C'). constructor.
  - by exists v, i.
  - done.
  - etransitivity; [exact M|]. eapply modifies_weaken; [exact M'|]. by left.
  - intros b [Hb Hr]%B. split; [|done]. by eapply video_bits.
  - done.
  - etransitivity; [exact C|exact C'].
Qed.

Lemma sf_say k0 bs k1 L k s : so_far k0 bs k1 L k -> printable_string s = true ->
  exists k', say s k = Ok tt k' /\ so_far k0 bs k1 L k'.
Proof.
  intros F P. destruct (say_ok D s k (sf_screen _ _ _ _ _ F) P) as (k' & E & S & Pr).
  exists k'. split; [done|]. by eapply sf_printed.
Qed.

Lemma sf_say_int k0 bs k1 L k n : so_far k0 bs k1 L k ->
  exists k', say_int n k = Ok tt k' /\ so_far k0 bs k1 L k'.
Proof.
  intros F. destruct (say_int_ok D n k (sf_screen _ _ _ _ _ F)) as (k' & E & S & Pr).
  exists k'. split; [done|]. by eapply sf_printed.
Qed.

Lemma sf_get_pool k0 bs k1 L k p pl : so_far k0 bs k1 L k -> k_pools k1 !! p = Some pl ->
  get_pool p k = Ok pl k.
Proof. intros [(v & i & ->) _ _ _ _ _] H. by apply get_pool_ok. Qed.

Lemma screen_kept k k' : (forall a, Print.video_byte a -> valid (k_vm k) a ->
    valid (k_vm k') a /\ load8 (k_vm k') a = load8 (k_vm k) a) ->
  k_io k' = k_io k -> on_screen D k -> on_screen D k'.
Proof.
  intros H Ei (cells & cur & [(Hl & V & C) Hc] & Hr). exists cells, cur. split; [|done].
  assert (Hb : forall i, 0 <= i < 4000 -> Print.video_byte (Print.video_base_addr + i))
    by (unfold Print.video_byte; lia).
  split; [|simpl in *; by rewrite Ei]. split; [done|]. split.
  - intros i Hi. apply H; [by apply Hb|by apply V].
  - intros i c a Hi. pose proof (lookup_lt_Some _ _ _ Hi). destruct (C i c a Hi) as [C1 C2].
    simpl in *. rewrite <- Z.add_assoc in *. rewrite <- C1, <- C2.
    split; apply H; (apply Hb; lia) || (apply V; lia).
Qed.

(** Clearing a bitmap. *)
Lemma sf_bitmap k0 bs k1 L k base n : so_far k0 bs k1 L k -> is_u32 n -> base <> 0 ->
  valid_block (k_vm k0) base (bit_num_2_byte_len n) ->
  (forall a, base <= a < base + bit_num_2_byte_len n -> region a /\ forall b, b ∈ bs -> ~ bitmap_byte b a) ->
  let b := mkBitmap base n (bit_num_2_byte_len n) in
  exists v, zoom vm_of (bitmap_init base n) k = Ok b (with_vm v k) /\ so_far k0 (b :: bs) k1 L (with_vm v k).
Proof.
  intros F Hn Hb V Hr b. destruct F as [(v0 & i0 & ->) S M B HL C].
  destruct (zoom_vm_ok (bitmap_init base n) (with_vm v0 (with_io i0 k1)) _
    (bitmap_init_zero v0 base n Hn ltac:(by eapply valid_block_modifies) Hb)) as (b' & v & E & -> & R & M').
  exists v. split; [exact E|]. constructor.
  - by exists v, i0.
  - apply (screen_kept (with_vm v0 (with_io i0 k1))); [|done|exact S]. intros a Ha Va. split; [by eapply modifies_valid|].
    eapply modifies_load; [exact M'|exact Va|]. intros Hw. destruct (Hr a Hw) as [Hw' _].
    by apply (Hregion a).
  - etransitivity; [exact M|]. eapply modifies_weaken; [exact M'|]. intros a Ha. right. by apply Hr.
  - intros x Hx. apply elem_of_cons in Hx as [->|Hx].
    + split; [exact R|]. intros a Ha. apply (Hr a Ha).
    + destruct (B x Hx) as [Bx Rx]. split; [|done]. eapply bitmap_rep_modifies; [exact M'| |exact Bx].
      intros i Hi Hw. apply (proj2 (Hr _ Hw) x Hx). unfold bitmap_byte. lia.
  - done.
  - exact C.
Qed.

(** A statement that works on other objects. *)
Lemma sf_step {A} k0 bs k1 k2 L L' k (m : M kernel A) a : so_far k0 bs k1 L k ->
  (forall v i, m (with_vm v (with_io i k1)) = Ok a (with_vm v (with_io i k2))) ->
  (lists_rep (k_links k1) L -> lists_rep (k_links k2) L') -> exists k', m k = Ok a k' /\ so_far k0 bs k2 L' k'.
Proof.
  intros [(v & i & ->) S M B HL C] E HL'. exists (with_vm v (with_io i k2)). split; [apply E|].
  constructor; [by exists v, i| |exact M|exact B|by apply HL'|exact C].
  by apply (on_screen_ext D (with_vm v (with_io i k1))).
Qed.

(** ** Pools *)

Definition with_pool (p : Z) (pl : pool) k : kernel := with_pools (<[p := pl]> (k_pools k)) k.

Lemma on_pool_ok k p pl f : k_pools k !! p = Some pl ->
  on_pool p f k = Ok tt (with_pool p (f pl) k).
Proof. intros H. unfold on_pool, update. by rewrite H. Qed.

Lemma sf_pool_init k0 bs k1 L k p pl base addr n : so_far k0 bs k1 L k -> k_pools k1 !! p = Some pl ->
  0 <= n < 2 ^ 20 -> base <> 0 ->
  valid_block (k_vm k0) base (bit_num_2_byte_len n) ->
  (forall a, base <= a < base + bit_num_2_byte_len n -> region a /\ forall b, b ∈ bs -> ~ bitmap_byte b a) ->
  exists k', pool_init p base addr n k = Ok tt k'
    /\ so_far k0 (btmp (pool_at base addr n) :: bs) (with_pool p (pool_at base addr n) k1) L k'.
Proof.
  intros F Hp Hn Hb V Hr.
  destruct (sf_bitmap k0 bs k1 L k base n F ltac:(lia) Hb V Hr) as (v & E & F').
  destruct (sf_step k0 _ k1 (with_pool p (pool_at base addr n) k1) L L _
    (on_pool p (fun pl => mkPool (mkBitmap base n (bit_num_2_byte_len n)) (addr_base pl) (Kernel.pool_size pl));;
     on_pool p (fun pl => mkPool (btmp pl) addr (Kernel.pool_size pl));;
     on_pool p (fun pl => mkPool (btmp pl) (addr_base pl) (u32 (PG_SIZE * n)))) tt F') as (k' & E' & F2).
  - intros v' i'. erewrite bind_ok by by apply on_pool_ok.
    erewrite bind_ok by apply on_pool_ok, lookup_insert_eq.
    rewrite (on_pool_ok _ _ _ _ (lookup_insert_eq _ _ _)). simpl. unfold with_pool.
    cbn [k_pools with_pools with_vm with_io btmp addr_base]. rewrite !insert_insert_eq.
    rewrite u32_small by (unfold PG_SIZE; lia). done.
  - done.
  - exists k'. split; [|exact F2]. unfold pool_init. by erewrite bind_ok by exact E.
Qed.

(** ** Mutexes *)

(** There is room for a mutex at [mtx]. *)
Record mutex_room k L (mtx : Z) : Prop := {
  mr_sem : is_Some (k_sems k !! mutex_sem mtx);
  mr_holder : is_Some (k_holders k !! mtx);
  mr_new : L !! sem_waiters (mutex_sem mtx) = None;
  mr_nodes a : a ∈ nodes (sem_waiters (mutex_sem mtx)) [] -> is_Some (k_links k !! a) /\ ~ owned L a
}.

Definition with_mutex (mtx : Z) (h : gmap Z list_elem) k : kernel :=
  with_links h (with_sems (<[mutex_sem mtx := 1]> (k_sems k))
    (with_holders (<[mtx := NULL]> (k_holders k)) k)).

Lemma mutex_init_ok k L mtx : lists_rep (k_links k) L -> mutex_room k L mtx ->
  exists h, mutex_init mtx k = Ok tt (with_mutex mtx h k)
    /\ lists_rep h (<[sem_waiters (mutex_sem mtx) := []]> L) /\ dom h = dom (k_links k).
Proof.
  intros HL [[v Hs] [w Hh] Hn Hno].
  destruct (Hno (list_head (sem_waiters (mutex_sem mtx)))) as [N1 O1]; [left|].
  destruct (Hno (list_tail (sem_waiters (mutex_sem mtx)))) as [N2 O2]; [right; left|].
  destruct (sem_init_ok (with_holders (<[mtx := NULL]> (k_holders k)) k) L (mutex_sem mtx) v 1)
    as (h & E & HL' & Hd); try done.
  exists h. split; [|done]. unfold mutex_init. erewrite bind_ok.
  2: { unfold set_holder, update. by rewrite Hh. }
  exact E.
Qed.

Lemma sf_mutex_init k0 bs k1 L k mtx : so_far k0 bs k1 L k -> mutex_room k1 L mtx ->
  exists h k', mutex_init mtx k = Ok tt k' /\ dom h = dom (k_links k1)
    /\ so_far k0 bs (with_mutex mtx h k1) (<[sem_waiters (mutex_sem mtx) := []]> L) k'.
Proof.
  intros [(v & i & ->) S M B HL C] [R1 R2 R3 R4].
  destruct (mutex_init_ok (with_vm v (with_io i k1)) L mtx HL) as (h & E & HL' & Hd); [done|].
  exists h. eexists. split; [exact E|]. split; [exact Hd|]. constructor.
  - by exists v, i.
  - by apply (on_screen_ext D (with_vm v (with_io i k1))).
  - exact M.
  - exact B.
  - exact HL'.
  - exact C.
Qed.

Lemma mutex_room_ext k k' L mtx : k_sems k' = k_sems k -> k_holders k' = k_holders k ->
  k_links k' = k_links k -> mutex_room k L mtx -> mutex_room k' L mtx.
Proof. intros E1 E2 E3 []. by constructor; rewrite ?E1, ?E2, ?E3. Qed.

(** The lists of two mutexes have no node in common. *)
Definition mutexes_apart (m1 m2 : Z) : bool := bool_decide (m1 <> m2
  /\ Forall (fun a => a ∉ nodes (sem_waiters (mutex_sem m1)) []) (nodes (sem_waiters (mutex_sem m2)) [])).

Lemma mutex_room_other k L m1 m2 h : mutex_room k L m2 -> dom h = dom (k_links k) ->
  mutexes_apart m1 m2 = true ->
  mutex_room (with_mutex m1 h k) (<[sem_waiters (mutex_sem m1) := []]> L) m2.
Proof.
  intros [[v Hs] [w Hh] Hn Hno] Hd [Hm Ha]%bool_decide_eq_true. rewrite Forall_forall in Ha.
  assert (Hw : sem_waiters (mutex_sem m1) <> sem_waiters (mutex_sem m2)).
  { intros E. apply (Ha (list_head (sem_waiters (mutex_sem m2)))); [left|]. rewrite <- E. left. }
  assert (Hms : mutex_sem m1 <> mutex_sem m2) by congruence.
  constructor.
  - exists v. unfold with_mutex. cbn [k_sems with_links with_sems with_holders]. by rewrite lookup_insert_ne.
  - exists w. unfold with_mutex. cbn [k_holders with_links with_sems with_holders]. by rewrite lookup_insert_ne.
  - by rewrite lookup_insert_ne.
  - intros a Hin. destruct (Hno a Hin) as [N O]. split.
    + change (k_links (with_mutex m1 h k)) with h. apply elem_of_dom. rewrite Hd. by apply elem_of_dom.
    + intros (l & xs & Hl & Hx). destruct (decide (l = sem_waiters (mutex_sem m1))) as [->|Hne].
      * rewrite lookup_insert_eq in Hl. injection Hl as <-. by apply (Ha a).
      * rewrite lookup_insert_ne in Hl by done. apply O. by exists l, xs.
Qed.

End Init.

(** ** [mem_pool_init] *)

Section Pools.
Context (D : list Z) (total : Z).
Context (Hfits : memory_fits total).
Implicit Types (k : kernel) (L : gmap Z (list Z)).

#[local] Instance data_mem2 : ByteMem vm := vm_mem D.

Definition map_byte (a : Z) : Prop := MEM_BITMAP_BASE <= a < maps_end total.

Lemma map_bytes_apart a : map_byte a -> ~ Print.video_byte a.
Proof. unfold map_byte, Print.video_byte. destruct Hfits. lia. Qed.

(** What the pools need: their objects, and the memory of their bitmaps. *)
Record pools_room k L : Prop := {
  pr_pool p : p ∈ [kernel_phy_pool; user_phy_pool; kernel_vir_pool] -> is_Some (k_pools k !! p);
  pr_mutex p : p ∈ [kernel_phy_pool; user_phy_pool] -> mutex_room k L (pool_mtx p);
  pr_maps : valid_block (k_vm k) MEM_BITMAP_BASE (maps_end total - MEM_BITMAP_BASE)
}.

Definition pool_waiters (p : Z) : Z := sem_waiters (mutex_sem (pool_mtx p)).

(** The state after [mem_pool_init], apart from memory and ports. *)
Definition pools_made (h1 h2 : gmap Z list_elem) k : kernel :=
  with_pool kernel_vir_pool (kernel_heap total)
    (with_mutex (pool_mtx user_phy_pool) h2
      (with_mutex (pool_mtx kernel_phy_pool) h1
        (with_pool user_phy_pool (user_frames total)
          (with_pool kernel_phy_pool (kernel_frames total) k)))).
Definition pools_lists L : gmap Z (list Z) :=
  <[pool_waiters user_phy_pool := []]> (<[pool_waiters kernel_phy_pool := []]> L).
Definition pool_maps : list bitmap :=
  [btmp (kernel_heap total); btmp (user_frames total); btmp (kernel_frames total)].

Lemma room_mutexes k k' L : pools_room k L -> k_sems k' = k_sems k -> k_holders k' = k_holders k ->
  k_links k' = k_links k ->
  mutex_room k' L (pool_mtx kernel_phy_pool)
  /\ forall h, dom h = dom (k_links k) ->
     mutex_room (with_mutex (pool_mtx kernel_phy_pool) h k') (<[pool_waiters kernel_phy_pool := []]> L)
       (pool_mtx user_phy_pool).
Proof.
  intros R E1 E2 E3. split.
  - eapply mutex_room_ext; [exact E1|exact E2|exact E3|]. apply (pr_mutex _ _ R). left.
  - intros h Hh. apply mutex_room_other; [|by rewrite E3|done].
    eapply mutex_room_ext; [exact E1|exact E2|exact E3|]. apply (pr_mutex _ _ R). right; left.
Qed.

(** [mem_pool_init] with its arithmetic done. *)
Lemma mem_pool_init_eq : mem_pool_init total = (
  say (" mem_pool_init start" +:+ Print.nl);;
  pool_init kernel_phy_pool MEM_BITMAP_BASE USED_MEM (kernel_pages total);;
  pool_init user_phy_pool (user_map total) (USED_MEM + PG_SIZE * kernel_pages total) (user_pages total);;
  mutex_init (pool_mtx kernel_phy_pool);;
  mutex_init (pool_mtx user_phy_pool);;
  say " kernel_pool_bitmap_start: ";;
  kp ← get_pool kernel_phy_pool;
  say_int (base_addr (btmp kp));;
  say " kernel_pool_phy_addr_start: ";;
  say_int (addr_base kp);;
  say Print.nl;;
  say " user_pool_bitmap_start: ";;
  up ← get_pool user_phy_pool;
  say_int (base_addr (btmp up));;
  say " user_pool_phy_addr_start: ";;
  say_int (addr_base up);;
  say Print.nl;;
  pool_init kernel_vir_pool (heap_map total) K_HEAP_START (kernel_pages total);;
  say (" mem_pool_init done" +:+ Print.nl)).
Proof.
  destruct Hfits as [Ht He]. pose proof (pages_range total Ht) as (H1 & H2 & H3).
  pose proof (byte_len_range (kernel_pages total) ltac:(lia)).
  pose proof (byte_len_range (user_pages total) ltac:(lia)).
  assert (E1 : u32 (u32 (PG_SIZE * (PAGE_DIR_CNT + PAGE_TAB_CNT)) + PAGE_DIR_START_ADDR) = USED_MEM)
    by reflexivity.
  assert (E2 : u32 (total - USED_MEM) / PG_SIZE = free_pages total).
  { unfold free_pages. rewrite u32_small; [done|]. unfold USED_MEM in *. lia. }
  assert (E3 : u32 (free_pages total - kernel_pages total) = user_pages total).
  { unfold user_pages. rewrite u32_small; [done|]. unfold user_pages in *. unfold PG_SIZE, USED_MEM in *. lia. }
  assert (E4 : MEM_BITMAP_BASE +! bit_num_2_byte_len (kernel_pages total) = user_map total).
  { unfold maps_end, heap_map, user_map, MEM_BITMAP_BASE, Print.video_base_addr in *.
    rewrite u32_small; lia. }
  assert (E5 : user_map total +! bit_num_2_byte_len (user_pages total) = heap_map total).
  { unfold maps_end, heap_map, user_map, MEM_BITMAP_BASE, Print.video_base_addr in *.
    rewrite u32_small; lia. }
  assert (E6 : u32 (USED_MEM + u32 (kernel_pages total * PG_SIZE)) = USED_MEM + PG_SIZE * kernel_pages total).
  { unfold PG_SIZE, USED_MEM in *. rewrite (u32_small (_ * _)), u32_small; lia. }
  unfold mem_pool_init. rewrite E1, E2. fold (kernel_pages total). rewrite E3, E6.
  rewrite !bytes_len_eq, E4, E5 by lia. reflexivity.
Qed.

(** One statement of an initialisation: [F] is what happened so far. *)
Ltac sf_by F H := let k := fresh "k" in let E := fresh "E" in let F' := fresh "F" in
  (edestruct H as (k & E & F'); [exact F|..|erewrite bind_ok by exact E; clear E F; rename F' into F]).
Ltac sf_says F := sf_by F (sf_say D map_byte map_bytes_apart); [vm_compute; reflexivity|].
Ltac sf_says_int F := sf_by F (sf_say_int D map_byte map_bytes_apart).

Lemma maps_order : MEM_BITMAP_BASE <= user_map total <= heap_map total /\ heap_map total <= maps_end total
  /\ 0 <= kernel_pages total < 2 ^ 20 /\ 0 <= user_pages total < 2 ^ 20.
Proof.
  destruct Hfits as [Ht He]. pose proof (pages_range total Ht) as (H1 & H2 & H3).
  pose proof (byte_len_range (kernel_pages total) ltac:(lia)).
  pose proof (byte_len_range (user_pages total) ltac:(lia)).
  unfold maps_end, heap_map, user_map, USED_MEM, PG_SIZE in *. lia.
Qed.

Lemma mem_pool_init_ok k L ka : pools_room k L -> so_far D map_byte k [] k L ka ->
  exists h1 h2 k', mem_pool_init total ka = Ok tt k' /\ dom h1 = dom (k_links k) /\ dom h2 = dom h1
    /\ so_far D map_byte k pool_maps (pools_made h1 h2 k) (pools_lists L) k'.
Proof.
  intros R F.
  destruct (room_mutexes k (with_pool user_phy_pool (user_frames total)
    (with_pool kernel_phy_pool (kernel_frames total) k)) L R eq_refl eq_refl eq_refl) as [Rk Ru].
  destruct R as [Rp _ V].
  destruct maps_order as (O1 & O2 & O3 & O4).
  assert (Vb : forall base n, MEM_BITMAP_BASE <= base -> base + n <= maps_end total ->
    valid_block (k_vm k) base n).
  { intros base n H1 H2 i Hi. replace (base + i) with (MEM_BITMAP_BASE + (base - MEM_BITMAP_BASE + i)) by lia.
    apply V. lia. }
  destruct (Rp kernel_phy_pool) as [p1 P1]; [left|]. destruct (Rp user_phy_pool) as [p2 P2]; [right; left|].
  destruct (Rp kernel_vir_pool) as [p3 P3]; [right; right; left|].
  rewrite mem_pool_init_eq.
  assert (Hu : user_map total = MEM_BITMAP_BASE + bit_num_2_byte_len (kernel_pages total)) by done.
  assert (Hh : heap_map total = user_map total + bit_num_2_byte_len (user_pages total)) by done.
  assert (He : maps_end total = heap_map total + bit_num_2_byte_len (kernel_pages total)) by done.
  sf_says F.
  sf_by F (sf_pool_init D map_byte map_bytes_apart); [exact P1|done|done|apply Vb; lia| |].
  { intros a Ha. split; [unfold map_byte; lia|]. intros b Hb. by apply not_elem_of_nil in Hb. }
  sf_by F (sf_pool_init D map_byte map_bytes_apart); [|exact O4| |apply Vb; lia| |].
  { unfold with_pool. cbn [k_pools with_pools]. rewrite lookup_insert_ne by done. exact P2. }
  { unfold MEM_BITMAP_BASE in *. lia. }
  { intros a Ha. split; [unfold map_byte; lia|]. intros b Hb%list_elem_of_singleton.
    subst b. unfold bitmap_byte. simpl. lia. }
  destruct (sf_mutex_init D map_byte _ _ _ _ _ (pool_mtx kernel_phy_pool) F Rk) as (h1 & k3 & E3 & Hd1 & F3).
  erewrite bind_ok by exact E3. clear E3 F.
  destruct (sf_mutex_init D map_byte _ _ _ _ _ (pool_mtx user_phy_pool) F3 (Ru h1 Hd1))
    as (h2 & k4 & E4 & Hd2 & F).
  erewrite bind_ok by exact E4. clear E4 F3.
  set (k5 := with_mutex (pool_mtx user_phy_pool) h2 (with_mutex (pool_mtx kernel_phy_pool) h1
    (with_pool user_phy_pool (user_frames total) (with_pool kernel_phy_pool (kernel_frames total) k)))) in F.
  assert (Ep : k_pools k5 = <[user_phy_pool := user_frames total]>
    (<[kernel_phy_pool := kernel_frames total]> (k_pools k))) by done.
  assert (G1 : k_pools k5 !! kernel_phy_pool = Some (kernel_frames total)).
  { rewrite Ep, lookup_insert_ne by done. apply lookup_insert_eq. }
  assert (G2 : k_pools k5 !! user_phy_pool = Some (user_frames total)).
  { rewrite Ep. apply lookup_insert_eq. }
  assert (G3 : k_pools k5 !! kernel_vir_pool = Some p3) by by rewrite Ep, !lookup_insert_ne by done.
  sf_says F. erewrite bind_ok by (eapply sf_get_pool; [exact F|exact G1]). sf_says_int F. sf_says F. sf_says_int F.
  sf_says F. sf_says F. erewrite bind_ok by (eapply sf_get_pool; [exact F|exact G2]). sf_says_int F. sf_says F. sf_says_int F.
  sf_says F.
  sf_by F (sf_pool_init D map_byte map_bytes_apart); [|exact O3| |apply Vb; lia| |].
  { exact G3. }
  { unfold MEM_BITMAP_BASE in *. lia. }
  { intros a Ha. split; [unfold map_byte; lia|]. intros b Hb.
    apply elem_of_cons in Hb as [->|Hb]; [|apply list_elem_of_singleton in Hb as ->];
      unfold bitmap_byte; simpl; lia. }
  destruct (sf_say D map_byte map_bytes_apart _ _ _ _ _ (" mem_pool_init done" +:+ Print.nl) F)
    as (k' & E & F'); [by vm_compute|].
  exists h1, h2, k'. split; [exact E|]. split; [exact Hd1|]. split; [exact Hd2|exact F'].
Qed.

(** ** [mem_init] *)

(** The loader left the size of the memory at 0xb00; the page tables map low
    memory at 0 and at 0xc0000000. *)
Record total_at (s : vm) : Prop := {
  ta_low i : 0 <= i < 4 -> translate s (0xb00 + i) = translate s (0xc0000b00 + i);
  ta_valid : valid_block s 0xc0000b00 4;
  ta_word : rd32 0xc0000b00 s = Ok total s
}.

Lemma total_kept s s' : total_at s -> modifies Print.video_byte s s' -> total_at s'.
Proof.
  intros [Hl V Hw] M. constructor.
  - intros i Hi. assert (K : vm_keeps D s s') by exact (modifies_keeps _ _ _ M).
    destruct K as (C & K & _). specialize (K (cr3 s) ltac:(left)).
    assert (T : forall a, is_u32 a -> translate s' a = translate s a).
    { intros a Ha. pose proof (keeps_translate _ _ K a Ha) as Kt. rewrite <- C in Kt at 1.
      by rewrite !under_cr3 in Kt. }
    rewrite !T by lia. by apply Hl.
  - by eapply valid_block_modifies.
  - eapply rd32_modifies; [exact M|exact V| |exact Hw]. unfold Print.video_byte, Print.video_base_addr. lia.
Qed.

Lemma total_read s : total_at s -> rd32 0xb00 s = Ok total s.
Proof.
  intros [Hl V Hw].
  assert (B : forall i, 0 <= i < 4 -> exists b, rd8 (0xb00 + i) s = Ok b s /\ rd8 (0xc0000b00 + i) s = Ok b s).
  { intros i Hi. destruct (load8_valid s (0xc0000b00 + i)) as (b & Hb & _); [by apply V|].
    assert (E : load8 s (0xb00 + i) = load8 s (0xc0000b00 + i)) by (simpl; unfold vm_load; by rewrite Hl).
    exists b. unfold rd8, deref. by rewrite E, Hb. }
  destruct (B 0 ltac:(lia)) as (b0 & X0 & Y0), (B 1 ltac:(lia)) as (b1 & X1 & Y1),
    (B 2 ltac:(lia)) as (b2 & X2 & Y2), (B 3 ltac:(lia)) as (b3 & X3 & Y3).
  revert Hw. unfold rd32.
  erewrite !bind_ok by first [exact X0|exact X1|exact X2|exact X3|exact Y0|exact Y1|exact Y2|exact Y3]. done.
Qed.

(** What the loader's page tables promise for the pages and frames of the
    kernel; [table] gives the directory entries. *)
Definition heap_of_total (table : Z -> Z) : kheap := mkHeap (kernel_heap total) (kernel_frames total) table.

Record heap_room table (s : vm) : Prop := {
  hm_tables : tables_ok D (heap_of_total table) s;
  hm_pages i : 0 <= i < kernel_pages total -> page_free (heap_of_total table) s i;
  hm_frames j : 0 <= j < kernel_pages total -> frame_free D s (frame_at (heap_of_total table) j)
}.

Lemma heap_room_kept table s s' : heap_room table s -> vm_keeps D s s' -> heap_room table s'.
Proof.
  intros [T P F] K. constructor.
  - by eapply keeps_tables.
  - intros i Hi. eapply keeps_page_free; [exact K|exact T|simpl; lia|by apply P].
  - intros j Hj. eapply keeps_frame_free; [exact K|by apply F].
Qed.

Definition all_clear : list bool := replicate (Z.to_nat (kernel_pages total)) false.

Lemma mem_init_ok table k L : pools_room k L -> on_screen D k -> lists_rep (k_links k) L ->
  total_at (k_vm k) -> heap_room table (k_vm k) ->
  exists h1 h2 k', mem_init k = Ok tt k' /\ dom h1 = dom (k_links k) /\ dom h2 = dom h1
    /\ so_far D map_byte k pool_maps (pools_made h1 h2 k) (pools_lists L) k'
    /\ heap_rep D (heap_of_total table) k' all_clear all_clear.
Proof.
  intros R S HL T [Ht Hp Hf]. pose proof (sf_start D map_byte k L S HL) as F0.
  destruct (say_ok D ("mem_init start" +:+ Print.nl) k S) as (k1 & E1 & S1 & P1); [by vm_compute|].
  pose proof (sf_printed D map_byte map_bytes_apart _ _ _ _ _ _ F0 S1 P1) as F1. clear F0.
  destruct (mem_pool_init_ok k L k1 R F1) as (h1 & h2 & k2 & E2 & Hd1 & Hd2 & F2).
  destruct (sf_say D map_byte map_bytes_apart _ _ _ _ _ ("mem_init done" +:+ Print.nl) F2)
    as (k3 & E3 & F3); [by vm_compute|].
  exists h1, h2, k3. split; [|split; [exact Hd1|split; [exact Hd2|split; [exact F3|]]]].
  { unfold mem_init. erewrite bind_ok by exact E1. destruct P1 as (v & i & -> & M & _).
    erewrite bind_ok by by apply (zoom_ok vm_of), total_read; eapply total_kept.
    erewrite bind_ok by exact E2. exact E3. }
  destruct F3 as [(v & i & ->) _ M B _ _].
  assert (K : vm_keeps D (k_vm k) v) by exact (modifies_keeps _ _ _ M).
  constructor.
  - apply lookup_insert_eq.
  - unfold pools_made, with_mutex, with_pool.
    cbn [k_pools with_pools with_links with_sems with_holders with_vm with_io].
    rewrite !lookup_insert_ne by done. apply lookup_insert_eq.
  - apply (B (btmp (kernel_heap total))). left.
  - apply (B (btmp (kernel_frames total))). right; right; left.
  - intros x y Hx Hy. revert Hx Hy. unfold heap_of_total, kernel_heap, kernel_frames, pool_at. simpl.
    destruct maps_order as (O1 & O2 & _).
    pose proof (byte_len_range (kernel_pages total)).
    pose proof (byte_len_range (user_pages total)). unfold heap_map, user_map in *. lia.
  - destruct Hfits as [Hr _]. pose proof (pages_range total Hr). simpl.
    unfold PG_SIZE, USED_MEM in *. split; [done|]. lia.
  - by eapply keeps_tables.
  - intros x [_ Hx]%lookup_replicate. eapply keeps_page_free; [exact K|exact Ht|simpl; lia|]. apply Hp. lia.
  - intros y [_ Hy]%lookup_replicate. eapply keeps_frame_free; [exact K|]. apply Hf. lia.
Qed.

End Pools.
End MemInit.
