(* ===== verification/Ioqueue.v ===== *)
(** [device/ioqueue.c]: the ring buffer between an interrupt handler and a
    thread.

    The [struct ioqueue] at address [q] is in [k_ioqs]; its mutex, the first
    member, is at the same address.  A caller that has to wait leaves the
    function as [Switched], inside [ioq_wait]; [ioq_getchar_again] and
    [ioq_putchar_again] are what it runs when it is scheduled again.  [ioq_rep i
    l] says which characters the ring holds. *)

From S2P Require Import Prelude Bytes Bitmap Interrupt LinkedList Paging Kernel ReadyQueues Sched.
From S2P Require Import Sync.

Module Ioqueue.
Import Interrupt LinkedList Paging Kernel ReadyQueues Sched Sync.

Definition BUF_SIZE : Z := 64.

Definition get_ioq (q : Z) : M kernel ioqueue := deref (fun k => k_ioqs k !! q).
Definition on_ioq (q : Z) (f : ioqueue -> ioqueue) : M kernel unit := update (fun k =>
  match k_ioqs k !! q with
  | Some i => Some (with_ioqs (<[q := f i]> (k_ioqs k)) k)
  | None => None
  end).

Definition ioq_producer (v : Z) (i : ioqueue) : ioqueue :=
  mkIoq v (consumer i) (buf i) (head i) (tail i).
Definition ioq_consumer (v : Z) (i : ioqueue) : ioqueue :=
  mkIoq (producer i) v (buf i) (head i) (tail i).
Definition ioq_buf (v : list Z) (i : ioqueue) : ioqueue :=
  mkIoq (producer i) (consumer i) v (head i) (tail i).
Definition ioq_head (v : Z) (i : ioqueue) : ioqueue :=
  mkIoq (producer i) (consumer i) (buf i) v (tail i).
Definition ioq_tail (v : Z) (i : ioqueue) : ioqueue :=
  mkIoq (producer i) (consumer i) (buf i) (head i) v.

Definition ioqueue_init (q : Z) : M kernel unit :=
  mutex_init q;;
  on_ioq q (ioq_producer NULL);;
  on_ioq q (ioq_consumer NULL);;
  on_ioq q (ioq_head 0);;
  on_ioq q (ioq_tail 0).

Definition next_pos_get (pos : Z) : Z := u32 (pos + 1) mod BUF_SIZE.

Definition ioq_full (q : Z) : M kernel bool :=
  i ← get_ioq q; mret (next_pos_get (head i) =? tail i).
Definition ioq_empty (q : Z) : M kernel bool :=
  i ← get_ioq q; mret (head i =? tail i).

(** The [tcb **] the waiting functions are given: one of the two members. *)
Inductive waiter : Set := Producer | Consumer.

Definition get_waiter (w : waiter) (i : ioqueue) : Z :=
  match w with Producer => producer i | Consumer => consumer i end.
Definition set_waiter (w : waiter) (v : Z) (i : ioqueue) : ioqueue :=
  match w with Producer => ioq_producer v i | Consumer => ioq_consumer v i end.

Definition ioq_wait (q : Z) (w : waiter) : M kernel unit :=
  r ← RUNNING_THREAD;
  on_ioq q (set_waiter w r);;
  thread_block TASK_BLOCKED.

Definition ioq_signal (q : Z) (w : waiter) : M kernel unit :=
  i ← get_ioq q;
  thread_unblock (get_waiter w i);;
  on_ioq q (set_waiter w NULL).

(** An element of [q->buf]. *)
Definition buf_get (i : ioqueue) (pos : Z) : M kernel Z := fun k =>
  match buf i !! Z.to_nat pos with Some c => Ok c k | None => Fault end.
Definition buf_set (q pos c : Z) : M kernel unit :=
  i ← get_ioq q;
  if decide (is_Some (buf i !! Z.to_nat pos)) then on_ioq q (ioq_buf (<[Z.to_nat pos := c]> (buf i)))
  else fault.

(** [while (...) { mutex_lock; ioq_wait; mutex_unlock }].  [ioq_wait] leaves
    the function, so one activation evaluates the condition at most twice. *)
Definition wait_while (q : Z) (cond : M kernel bool) (w : waiter) : M kernel unit :=
  while 2 (fun _ => cond) (fun _ => mutex_lock q;; ioq_wait q w;; mutex_unlock q) tt.

Definition getchar_rest (q : Z) : M kernel Z :=
  i ← get_ioq q;
  byte ← buf_get i (tail i);
  i ← get_ioq q;
  on_ioq q (ioq_tail (next_pos_get (tail i)));;
  i ← get_ioq q;
  (if negb (producer i =? NULL) then ioq_signal q Producer else mret tt);;
  mret byte.

Definition ioq_getchar (q : Z) : M kernel Z :=
  wait_while q (ioq_empty q) Consumer;;
  getchar_rest q.

(** From the end of [thread_block] in [ioq_wait] on. *)
Definition ioq_getchar_again (q : Z) (int_save : intr_status) : M kernel Z :=
  zoom eflags_of (intr_set_status int_save);;
  mutex_unlock q;;
  ioq_getchar q.

Definition putchar_rest (q byte : Z) : M kernel unit :=
  i ← get_ioq q;
  buf_set q (head i) byte;;
  i ← get_ioq q;
  on_ioq q (ioq_head (next_pos_get (head i)));;
  i ← get_ioq q;
  if negb (consumer i =? NULL) then ioq_signal q Consumer else mret tt.

Definition ioq_putchar (q byte : Z) : M kernel unit :=
  wait_while q (ioq_full q) Producer;;
  putchar_rest q byte.

Definition ioq_putchar_again (q : Z) (int_save : intr_status) (byte : Z) : M kernel unit :=
  zoom eflags_of (intr_set_status int_save);;
  mutex_unlock q;;
  ioq_putchar q byte.

(** ** The ring as a queue *)

Definition CAPACITY : nat := 63.

(** The characters from [tail] to [head]. *)
Definition ioq_rep (i : ioqueue) (l : list Z) : Prop :=
  length (buf i) = 64%nat /\ 0 <= head i < 64 /\ 0 <= tail i < 64
  /\ Z.of_nat (length l) = (head i - tail i) mod 64
  /\ forall x c, l !! x = Some c -> buf i !! Z.to_nat ((tail i + Z.of_nat x) mod 64) = Some c.

Lemma next_pos_range pos : 0 <= pos < 64 ->
  0 <= next_pos_get pos < 64 /\ next_pos_get pos = (pos + 1) mod 64.
Proof. intros H. unfold next_pos_get, BUF_SIZE. rewrite u32_small by lia. zdiv_lia. Qed.

Lemma rep_capacity i l : ioq_rep i l -> (length l <= CAPACITY)%nat.
Proof. intros (_ & _ & _ & H & _). unfold CAPACITY. zdiv_lia. Qed.

Lemma rep_full i l : ioq_rep i l -> (next_pos_get (head i) =? tail i) = bool_decide (length l = CAPACITY).
Proof.
  intros (_ & Hh & Ht & Hl & _). destruct (next_pos_range (head i) Hh) as [_ ->].
  unfold CAPACITY.
  destruct (bool_decide_reflect (length l = 63%nat)); [apply Z.eqb_eq|apply Z.eqb_neq]; zdiv_lia.
Qed.

Lemma rep_empty i l : ioq_rep i l -> (head i =? tail i) = bool_decide (l = []).
Proof.
  intros (_ & Hh & Ht & Hl & _).
  destruct (bool_decide_reflect (l = [])) as [->|N]; [apply Z.eqb_eq|apply Z.eqb_neq].
  - simpl in Hl. zdiv_lia.
  - destruct l; [done|]. simpl in Hl. zdiv_lia.
Qed.

Lemma rep_put i l c : ioq_rep i l -> (length l < CAPACITY)%nat ->
  ioq_rep (ioq_head (next_pos_get (head i)) (ioq_buf (<[Z.to_nat (head i) := c]> (buf i)) i)) (l ++ [c]).
Proof.
  intros (Hb & Hh & Ht & Hl & H) Hc. unfold CAPACITY in Hc.
  destruct (next_pos_range (head i) Hh) as [Hr Hn].
  split; [simpl; by rewrite length_insert|]. split; [done|]. split; [done|]. split; simpl.
  - rewrite length_app, Hn. simpl. zdiv_lia.
  - intros x c' Hx. destruct (decide (x < length l)%nat) as [Hlt|Hge].
    + rewrite lookup_app_l in Hx by done. rewrite list_lookup_insert_ne; [by apply H|]. zdiv_lia.
    + rewrite lookup_app_r in Hx by lia. assert (x = length l) as ->.
      { apply lookup_lt_Some in Hx. simpl in Hx. lia. }
      rewrite Nat.sub_diag in Hx. injection Hx as <-.
      replace (Z.to_nat ((tail i + Z.of_nat (length l)) mod 64)) with (Z.to_nat (head i)) by zdiv_lia.
      apply list_lookup_insert_eq. lia.
Qed.

Lemma rep_get i c l : ioq_rep i (c :: l) ->
  buf i !! Z.to_nat (tail i) = Some c /\ ioq_rep (ioq_tail (next_pos_get (tail i)) i) l.
Proof.
  intros (Hb & Hh & Ht & Hl & H). destruct (next_pos_range (tail i) Ht) as [Hr Hn].
  simpl in Hl. split.
  - specialize (H O c eq_refl). rewrite Z.add_0_r, Z.mod_small in H by lia. done.
  - split; [done|]. split; [done|]. split; [done|]. split; simpl.
    + rewrite Hn. zdiv_lia.
    + intros x c' Hx. specialize (H (S x) c' Hx). rewrite Hn.
      by replace (((tail i + 1) mod 64 + Z.of_nat x) mod 64) with ((tail i + Z.of_nat (S x)) mod 64)
        by zdiv_lia.
Qed.

(** Who waits does not matter to the contents. *)
Lemma rep_waiter i l w v : ioq_rep (set_waiter w v i) l <-> ioq_rep i l.
Proof. by destruct w. Qed.

(** ** The operations *)

Section Operations.
Context (D : list Z).
Implicit Types (k : kernel) (qs : queues) (i : ioqueue).

#[local] Instance data_mem : ByteMem vm := vm_mem D.

Lemma get_ioq_ok k q i : k_ioqs k !! q = Some i -> get_ioq q k = Ok i k.
Proof. intros H. unfold get_ioq, deref. by rewrite H. Qed.

Lemma on_ioq_ok k q i f : k_ioqs k !! q = Some i ->
  on_ioq q f k = Ok tt (with_ioqs (<[q := f i]> (k_ioqs k)) k).
Proof. intros H. unfold on_ioq, update. by rewrite H. Qed.

Lemma ioq_full_ok k q i l : k_ioqs k !! q = Some i -> ioq_rep i l ->
  ioq_full q k = Ok (bool_decide (length l = CAPACITY)) k.
Proof.
  intros H R. unfold ioq_full. erewrite bind_ok by by apply get_ioq_ok. by rewrite (rep_full _ _ R).
Qed.

Lemma ioq_empty_ok k q i l : k_ioqs k !! q = Some i -> ioq_rep i l ->
  ioq_empty q k = Ok (bool_decide (l = [])) k.
Proof.
  intros H R. unfold ioq_empty. erewrite bind_ok by by apply get_ioq_ok. by rewrite (rep_empty _ _ R).
Qed.

Lemma wait_while_stop k q cond w : cond k = Ok false k -> wait_while q cond w k = Ok tt k.
Proof. intros E. by apply while_stop. Qed.

(** The states after a character went in or out. *)
Definition put_in i c : ioqueue := ioq_head (next_pos_get (head i)) (ioq_buf (<[Z.to_nat (head i) := c]> (buf i)) i).
Definition take_out i : ioqueue := ioq_tail (next_pos_get (tail i)) i.

Lemma with_ioqs_twice a b k : with_ioqs a (with_ioqs b k) = with_ioqs a k.
Proof. done. Qed.

(** Waking whoever waits at the other end. *)
Definition signal_rest (q : Z) (w : waiter) : M kernel unit :=
  i ← get_ioq q;
  if negb (get_waiter w i =? NULL) then ioq_signal q w else mret tt.

Lemma putchar_put k q i l c : k_ioqs k !! q = Some i -> ioq_rep i l -> (length l < CAPACITY)%nat ->
  ioq_putchar q c k = signal_rest q Consumer (with_ioqs (<[q := put_in i c]> (k_ioqs k)) k).
Proof.
  intros H R Hl. unfold ioq_putchar. erewrite bind_ok.
  2: { apply wait_while_stop. erewrite ioq_full_ok by done. by rewrite bool_decide_false by lia. }
  destruct R as (Hb & Hh & Ht & _).
  unfold putchar_rest. erewrite bind_ok by by apply get_ioq_ok. erewrite bind_ok.
  2: { unfold buf_set. erewrite bind_ok by by apply get_ioq_ok.
       rewrite decide_True; [by apply on_ioq_ok|]. apply lookup_lt_is_Some_2. lia. }
  erewrite bind_ok by (apply get_ioq_ok, lookup_insert_eq).
  erewrite bind_ok by (apply on_ioq_ok, lookup_insert_eq).
  rewrite with_ioqs_twice. simpl. by rewrite insert_insert_eq.
Qed.

Lemma getchar_take k q i c l : k_ioqs k !! q = Some i -> ioq_rep i (c :: l) ->
  ioq_getchar q k = (signal_rest q Producer;; mret c) (with_ioqs (<[q := take_out i]> (k_ioqs k)) k).
Proof.
  intros H R. unfold ioq_getchar. erewrite bind_ok.
  2: { apply wait_while_stop. by erewrite ioq_empty_ok by done. }
  destruct (rep_get _ _ _ R) as [Hc _].
  unfold getchar_rest. erewrite bind_ok by by apply get_ioq_ok.
  erewrite bind_ok by (unfold buf_get; by rewrite Hc).
  erewrite bind_ok by by apply get_ioq_ok. erewrite bind_ok by by apply on_ioq_ok.
  assert (E : get_ioq q (with_ioqs (<[q := take_out i]> (k_ioqs k)) k)
    = Ok (take_out i) (with_ioqs (<[q := take_out i]> (k_ioqs k)) k))
    by apply get_ioq_ok, lookup_insert_eq.
  erewrite bind_ok by exact E. unfold signal_rest, mbind, M_bind. by rewrite E.
Qed.

Lemma signal_nobody k q i w : k_ioqs k !! q = Some i -> get_waiter w i = NULL ->
  signal_rest q w k = Ok tt k.
Proof.
  intros H Hw. unfold signal_rest. erewrite bind_ok by by apply get_ioq_ok. by rewrite Hw.
Qed.

Lemma signal_wakes k qs L q i w t tc : k_ioqs k !! q = Some i -> get_waiter w i = t -> t <> NULL ->
  sched_rep D k qs L -> k_tcbs k !! t = Some tc -> may_block (status tc) = true ->
  ~ queued t qs -> is_Some (k_tcbs k !! running_thread (k_sched k)) ->
  exists k' L', signal_rest q w k = Ok tt k'
    /\ sched_rep D k' (enqueue_front (Z.to_nat (priority tc)) t qs) L'
    /\ k_ioqs k' = <[q := set_waiter w NULL i]> (k_ioqs k)
    /\ k_tcbs k' = <[t := tcb_status TASK_READY tc]> (k_tcbs k) /\ other_lists L L'
    /\ running_thread (k_sched k') = running_thread (k_sched k) /\ k_sems k' = k_sems k
    /\ k_eflags k' = k_eflags k.
Proof.
  intros H Hw Hn R Ht Hb Hq Hr.
  destruct (thread_unblock_ok D _ _ _ _ _ R Ht Hb Hq Hr) as (h & v & L' & E & R' & _ & _ & Ho).
  eexists _, L'. split.
  - unfold signal_rest. erewrite bind_ok by by apply get_ioq_ok.
    rewrite Hw, (proj2 (Z.eqb_neq _ _) Hn). cbv beta iota delta [negb]. unfold ioq_signal.
    erewrite bind_ok by by apply get_ioq_ok. rewrite Hw. erewrite bind_ok by exact E.
    by apply on_ioq_ok.
  - split; [by apply (rep_ext D (woken k t tc h v))|]. split; [done|]. split; [done|].
    split; [done|]. simpl. unfold preempted.
    destruct (k_tcbs k !! running_thread (k_sched k)); [|done]. by destruct (_ <? _).
Qed.

(** Waiting: the mutex is taken, the thread's address stored, and the thread
    blocks. *)
Lemma wait_while_blocks k qs L q i w cond r tc p next :
  cond k = Ok true k -> sched_rep D k qs L -> running k qs r -> k_tcbs k !! r = Some tc ->
  k_sems k !! mutex_sem q = Some 1 -> is_Some (k_holders k !! q) -> k_ioqs k !! q = Some i ->
  first_ready (leave (Z.to_nat (priority tc)) r qs) = Some (p, next) ->
  exists k' L', wait_while q cond w k = Switched k'
    /\ sched_rep D k' (leave (Z.to_nat (priority tc)) r qs) L'
    /\ running k' (leave (Z.to_nat (priority tc)) r qs) next /\ next <> r
    /\ k_ioqs k' = <[q := set_waiter w r i]> (k_ioqs k)
    /\ k_sems k' = <[mutex_sem q := 0]> (k_sems k) /\ k_holders k' = <[q := r]> (k_holders k)
    /\ k_tcbs k' !! r = Some (tcb_status TASK_BLOCKED tc) /\ other_lists L L'.
Proof.
  intros Ec R (Hr & tc' & qu & Ht' & Hs & Hq & Hin) Ht Hsem [hd Hh] Hi Hf.
  rewrite Ht in Ht'. injection Ht' as <-.
  set (k1 := with_holders (<[q := r]> (k_holders k)) (with_sems (<[mutex_sem q := 0]> (k_sems k)) k)).
  set (k2 := with_ioqs (<[q := set_waiter w r i]> (k_ioqs k)) k1).
  assert (R2 : sched_rep D k2 qs L) by by apply (rep_ext D k).
  destruct (thread_block_ok D k2 qs L r tc TASK_BLOCKED qu p next R2 Hr Ht eq_refl Hq Hin Hf)
    as (h & v & L' & tn & d & Hne & Hn & HD & Hdir & E & R' & _ & _ & Ho).
  eexists _, L'. split; [|split; [exact R'|]].
  - unfold wait_while. eapply while_switched; [exact Ec|].
    assert (El : mutex_lock q k = Ok tt k1).
    { unfold mutex_lock. simpl. erewrite bind_ok by (by apply (sem_down_takes _ _ 1)).
      erewrite bind_ok by reflexivity. unfold set_holder, update. simpl. by rewrite Hh, Hr. }
    erewrite bind_ok by exact El. apply bind_switched.
    unfold ioq_wait. erewrite bind_ok by reflexivity. simpl. rewrite Hr.
    erewrite bind_ok by by apply (on_ioq_ok k1). exact E.
  - split; [by eapply (dispatched_running D)|]. split; [done|].
    split; [done|]. split; [done|]. split; [done|]. split; [|done].
    simpl. rewrite lookup_insert_ne by done. apply lookup_insert_eq.
Qed.

End Operations.
End Ioqueue.
