(* ===== verification/Keyboard.v ===== *)
(** [device/keyboard.c], [device/keyboard.h]: from scan codes to characters.

    The handler reads one byte of the keyboard controller at each interrupt;
    its static variables are the record [kbd] of the state.  [scan_codes c] is
    what a US keyboard sends when the character [c] is typed, by a table of the
    device that is independent of the kernel's ([keymap_agrees]). *)

From S2P Require Import Prelude Bytes Interrupt LinkedList Paging Ports Print Descriptors Kernel.
From S2P Require Import Sched Sync Ioqueue Console.

Module Keyboard.
Import Interrupt LinkedList Ports Kernel Sync Ioqueue Console.

Definition KBD_BUF_PORT : Z := 0x60.

Definition ESC : Z := 27.
Definition BACKSPACE : Z := 8.
Definition TAB : Z := 9.
Definition ENTER : Z := 13.
Definition CHAR_INVISIBLE : Z := 0.
Definition CTRL_LEFT_CHAR : Z := CHAR_INVISIBLE.
Definition SHIFT_LEFT_CHAR : Z := CHAR_INVISIBLE.
Definition SHIFT_RIGHT_CHAR : Z := CHAR_INVISIBLE.
Definition ALT_LEFT_CHAR : Z := CHAR_INVISIBLE.
Definition CAPS_LOCK_CHAR : Z := CHAR_INVISIBLE.

(** [enum ctrl_key_make_code] *)
Definition SHIFT_LEFT_MAKE : Z := 0x2a.
Definition SHIFT_RIGHT_MAKE : Z := 0x36.
Definition ALT_LEFT_MAKE : Z := 0x38.
Definition ALT_RIGHT_MAKE : Z := 0xe038.
Definition CTRL_LEFT_MAKE : Z := 0x1d.
Definition CTRL_RIGHT_MAKE : Z := 0xe01d.
Definition CAPS_LOCK_MAKE : Z := 0x3a.

(** The ASCII codes of two strings, paired. *)
Definition rows (plain shifted : string) : list (Z * Z) :=
  zip (Print.text_of plain) (Print.text_of shifted).

(** [keymap]: the character of a key, without and with shift. *)
Definition keymap : list (Z * Z) :=
  [(0, 0); (ESC, ESC)] ++ rows "1234567890-=" "!@#$%^&*()_+"
  ++ [(BACKSPACE, BACKSPACE); (TAB, TAB)] ++ rows "qwertyuiop[]" "QWERTYUIOP{}"
  ++ [(ENTER, ENTER); (CTRL_LEFT_CHAR, CTRL_LEFT_CHAR)] ++ rows "asdfghjkl;" "ASDFGHJKL:"
  ++ [(39, 34)] ++ rows "`" "~" ++ [(SHIFT_LEFT_CHAR, SHIFT_LEFT_CHAR)] ++ rows "\zxcvbnm,./" "|ZXCVBNM<>?"
  ++ [(SHIFT_RIGHT_CHAR, SHIFT_RIGHT_CHAR); (42, 42); (ALT_LEFT_CHAR, ALT_LEFT_CHAR); (32, 32);
      (CAPS_LOCK_CHAR, CAPS_LOCK_CHAR)].

Definition KEYMAP_MAX_INDEX : Z := Z.of_nat (length keymap) - 1.

Example keymap_entries : length keymap = 59%nat /\ keymap !! 0x1e%nat = Some (97, 65)
  /\ keymap !! 0x28%nat = Some (39, 34) /\ keymap !! 0x2b%nat = Some (92, 124)
  /\ keymap !! 0x39%nat = Some (32, 32).
Proof. by vm_compute. Qed.

Definition on_kbd (f : kbd -> kbd) : M kernel unit := modify (fun k => with_kbd (f (k_kbd k)) k).
Definition set_ctrl (b : bool) (s : kbd) : kbd :=
  mkKbd b (shift_status s) (alt_status s) (caps_lock_status s) (ext_scan_code s).
Definition set_shift (b : bool) (s : kbd) : kbd :=
  mkKbd (ctrl_status s) b (alt_status s) (caps_lock_status s) (ext_scan_code s).
Definition set_alt (b : bool) (s : kbd) : kbd :=
  mkKbd (ctrl_status s) (shift_status s) b (caps_lock_status s) (ext_scan_code s).
Definition set_caps (b : bool) (s : kbd) : kbd :=
  mkKbd (ctrl_status s) (shift_status s) (alt_status s) b (ext_scan_code s).
Definition set_ext (b : bool) (s : kbd) : kbd :=
  mkKbd (ctrl_status s) (shift_status s) (alt_status s) (caps_lock_status s) b.

Definition scan_code_get : M kernel Z :=
  scan_code ← zoom io_of (inb KBD_BUF_PORT);
  s ← gets k_kbd;
  if ext_scan_code s then
    on_kbd (set_ext false);;
    mret (Z.lor 0xe000 scan_code)
  else
    (if scan_code =? 0xe0 then on_kbd (set_ext true) else mret tt);;
    mret scan_code.

Definition break_code (scan_code : Z) : bool := negb (Z.land scan_code 0x0080 =? 0).
Definition break_code2make_code (break_code : Z) : Z := Z.land break_code 0xff7f.

Definition ctrl_key_proc (scan_code : Z) : M kernel bool :=
  let '(status_to_set, scan_code) :=
    if break_code scan_code then (false, break_code2make_code scan_code) else (true, scan_code) in
  if scan_code =? CTRL_LEFT_MAKE then on_kbd (set_ctrl status_to_set);; mret true
  else if scan_code =? CTRL_RIGHT_MAKE then on_kbd (set_ctrl status_to_set);; mret true
  else if scan_code =? ALT_LEFT_MAKE then on_kbd (set_alt status_to_set);; mret true
  else if scan_code =? ALT_RIGHT_MAKE then on_kbd (set_alt status_to_set);; mret true
  else if scan_code =? SHIFT_LEFT_MAKE then on_kbd (set_shift status_to_set);; mret true
  else if scan_code =? SHIFT_RIGHT_MAKE then on_kbd (set_shift status_to_set);; mret true
  else if scan_code =? CAPS_LOCK_MAKE then
    (if negb status_to_set then on_kbd (fun s => set_caps (negb (caps_lock_status s)) s)
     else mret tt);;
    mret true
  else mret false.

(** [keymap[index][shift]] *)
Definition keymap_get (index : Z) (shift : bool) : M kernel Z := fun k =>
  match keymap !! Z.to_nat index with
  | Some (c, s) => Ok (if shift then s else c) k
  | None => Fault
  end.

Definition normal_key_proc (scan_code : Z) : M kernel bool :=
  if break_code scan_code then mret true else
  s ← gets k_kbd;
  let shift := shift_status s || caps_lock_status s in
  let index := Z.land scan_code 0xff in
  if KEYMAP_MAX_INDEX <? index then mret false else
  c ← keymap_get index shift;
  ioq_putchar kbd_buf c;;
  mret true.

Definition intr_keyboard_handler : M kernel unit :=
  scan_code ← scan_code_get;
  if scan_code =? 0x00e0 then mret tt else
  ret ← ctrl_key_proc scan_code;
  if ret : bool then mret tt else
  ret ← normal_key_proc scan_code;
  if ret : bool then mret tt else
  say ("unknown key" +:+ Print.nl).

Definition keyboard_init : M kernel unit :=
  say ("keyboard init start" +:+ Print.nl);;
  ioqueue_init kbd_buf;;
  zoom tables_of (Descriptors.intr_handler_register Descriptors.INT_KEYBOARD
    Descriptors.intr_keyboard_handler_ptr);;
  say ("keyboard init done" +:+ Print.nl).

(** ** Typing *)

(** One byte from the keyboard, one interrupt. *)
Definition present_byte (b : Z) (i : io) : io :=
  mkIo (crt_index i) (crt_regs i) b (written i).
Definition key_interrupt (b : Z) : M kernel unit :=
  modify (fun k => with_io (present_byte b (k_io k)) k);;
  intr_keyboard_handler.
Fixpoint key_interrupts (bs : list Z) : M kernel unit :=
  match bs with [] => mret tt | b :: bs' => key_interrupt b;; key_interrupts bs' end.

(** *** The keyboard

    A US keyboard in scan code set 1.  This is the device's side and has nothing
    from the kernel's [keymap]: for each row of keys the make code of its first
    key, and what is printed on the keys, below and above. *)
Definition key_row (first : Z) (plain shifted : list Z) : list (Z * (Z * bool)) :=
  imap (fun i c => (c, (first + Z.of_nat i, false))) plain
  ++ imap (fun i c => (c, (first + Z.of_nat i, true))) shifted.
Definition us_keyboard : list (Z * (Z * bool)) :=
  key_row 0x02 (Print.text_of "1234567890-=") (Print.text_of "!@#$%^&*()_+")
  ++ key_row 0x10 (Print.text_of "qwertyuiop[]") (Print.text_of "QWERTYUIOP{}")
  ++ key_row 0x1e (Print.text_of "asdfghjkl;" ++ [39; 96]) (Print.text_of "ASDFGHJKL:" ++ [34; 126])
  ++ key_row 0x2b (Print.text_of "\zxcvbnm,./") (Print.text_of "|ZXCVBNM<>?")
  ++ [(27, (0x01, false)); (8, (0x0e, false)); (9, (0x0f, false)); (13, (0x1c, false)); (32, (0x39, false))].
Definition left_shift_key : Z := 0x2a.

Fixpoint key_in (m : list (Z * (Z * bool))) (c : Z) : option (Z * bool) :=
  match m with
  | [] => None
  | (c', key) :: m' => if c' =? c then Some key else key_in m' c
  end.
(** The key, and whether shift is held, for a character. *)
Definition find_key : Z -> option (Z * bool) := key_in us_keyboard.

(** What the keyboard sends when a character is typed: make code and break code
    of the key, between those of the left shift key where needed. *)
Definition scan_codes (c : Z) : list Z :=
  match find_key c with
  | Some (i, false) => [i; i + 0x80]
  | Some (i, true) => [left_shift_key; i; i + 0x80; left_shift_key + 0x80]
  | None => []
  end.

Definition no_keys : kbd := mkKbd false false false false false.

(** ** One interrupt *)

Definition arrived (b : Z) (k : kernel) : kernel := with_io (present_byte b (k_io k)) k.

(** Without a pending prefix, the byte itself is the scan code. *)
Lemma key_interrupt_plain b k : is_u8 b -> b <> 0xe0 -> ext_scan_code (k_kbd k) = false ->
  key_interrupt b k = (ret ← ctrl_key_proc b; if ret : bool then mret tt else
    ret ← normal_key_proc b; if ret : bool then mret tt else
    say ("unknown key" +:+ Print.nl)) (arrived b k).
Proof.
  intros Hb He Hx. unfold key_interrupt. erewrite bind_ok by reflexivity.
  unfold intr_keyboard_handler. erewrite bind_ok.
  2: { unfold scan_code_get.
       erewrite bind_ok by (apply zoom_ok; unfold inb, gets; reflexivity). simpl view.
       erewrite bind_ok by reflexivity. simpl. rewrite Hx, u8_small by done.
       rewrite (proj2 (Z.eqb_neq _ _) He). reflexivity. }
  by rewrite (proj2 (Z.eqb_neq _ _) He).
Qed.

(** The keys that have a character: their codes, and the code of their
    release, are none of the control keys'. *)
Definition plain_code (i : Z) : bool :=
  forallb (fun c => negb (i =? c)) [CTRL_LEFT_MAKE; CTRL_RIGHT_MAKE; ALT_LEFT_MAKE; ALT_RIGHT_MAKE;
    SHIFT_LEFT_MAKE; SHIFT_RIGHT_MAKE; CAPS_LOCK_MAKE].
Definition char_key (i : Z) : bool :=
  (0 <=? i) && (i <=? KEYMAP_MAX_INDEX) && plain_code i
  && negb (break_code i) && break_code (i + 0x80) && (break_code2make_code (i + 0x80) =? i)
  && (Z.land i 0xff =? i).

Lemma char_keys j a b : keymap !! j = Some (a, b) -> a <> 0 \/ b <> 0 ->
  char_key (Z.of_nat j) = true.
Proof.
  assert (H : forallb (fun j => match keymap !! j with
    | Some (a, b) => (a =? 0) && (b =? 0) || char_key (Z.of_nat j) | None => true end)
    (seq 0 59) = true) by by vm_compute.
  intros Hj Hab. rewrite forallb_forall in H.
  specialize (H j ltac:(apply in_seq; pose proof (lookup_lt_Some _ _ _ Hj) as Hl;
    change (length keymap) with 59%nat in Hl; lia)).
  rewrite Hj in H. apply orb_true_iff in H as [H|H]; [|done].
  apply andb_true_iff in H as [?%Z.eqb_eq ?%Z.eqb_eq]. lia.
Qed.

(** The kernel's key map has the keyboard's keys where they are. *)
Lemma keymap_agrees : Forall (fun '(c, (i, sh)) => 0 <= i /\ exists a b,
  keymap !! Z.to_nat i = Some (a, b) /\ (if sh : bool then b else a) = c) us_keyboard.
Proof.
  assert (H : forallb (fun '(c, (i, sh)) => (0 <=? i) && match keymap !! Z.to_nat i with
    | Some (a, b) => (if sh : bool then b else a) =? c | None => false end) us_keyboard = true) by by vm_compute.
  apply Forall_forall. intros [c [i sh]] Hin. rewrite forallb_forall in H. apply list_elem_of_In in Hin.
  specialize (H _ Hin). apply andb_true_iff in H as [Hi%Z.leb_le H]. split; [done|].
  destruct (keymap !! Z.to_nat i) as [[a b]|]; [|done]. exists a, b. split; [done|]. by apply Z.eqb_eq.
Qed.

Lemma key_in_elem m c key : key_in m c = Some key -> (c, key) ∈ m.
Proof.
  induction m as [|[c' key'] m IH]; simpl; [done|]. destruct (Z.eqb_spec c' c) as [->|_].
  - intros [= ->]. left.
  - intros H. right. by apply IH.
Qed.

Lemma find_key_spec c i sh : find_key c = Some (i, sh) ->
  exists j a b, i = Z.of_nat j /\ keymap !! j = Some (a, b) /\ (if sh then b else a) = c.
Proof.
  intros H%key_in_elem. pose proof keymap_agrees as K. rewrite Forall_forall in K.
  destruct (K _ H) as (Hi & a & b & Hj & Hc). exists (Z.to_nat i), a, b. split; [lia|done].
Qed.

Lemma ctrl_key_proc_plain sc k :
  plain_code (if break_code sc then break_code2make_code sc else sc) = true ->
  ctrl_key_proc sc k = Ok false k.
Proof.
  unfold plain_code, ctrl_key_proc. simpl. rewrite !andb_true_iff, !negb_true_iff. intros H.
  destruct (break_code sc); destruct H as (-> & -> & -> & -> & -> & -> & -> & _); done.
Qed.

(** A character key goes down: its character, in the column the shift and caps
    lock flags select, goes into the buffer. *)
Lemma press_eq k j a b : keymap !! j = Some (a, b) -> char_key (Z.of_nat j) = true ->
  ext_scan_code (k_kbd k) = false ->
  key_interrupt (Z.of_nat j) k = (ret ← (
      ioq_putchar kbd_buf (if shift_status (k_kbd k) || caps_lock_status (k_kbd k) then b else a);;
      mret true);
    if ret : bool then mret tt else say ("unknown key" +:+ Print.nl)) (arrived (Z.of_nat j) k).
Proof.
  unfold char_key. rewrite !andb_true_iff. intros Hj ((((((H1 & H2) & H3) & H4) & H5) & H6) & H7) Hx.
  apply negb_true_iff in H4. apply Z.eqb_eq in H7. apply Z.leb_le in H1, H2.
  pose proof (lookup_lt_Some _ _ _ Hj) as Hlt. change (length keymap) with 59%nat in Hlt.
  rewrite key_interrupt_plain by (done || lia).
  erewrite bind_ok by (apply ctrl_key_proc_plain; by rewrite H4). cbv iota.
  unfold mbind at 1 3, M_bind at 1 3. do 2 f_equal. unfold normal_key_proc. rewrite H4.
  erewrite bind_ok by reflexivity. rewrite H7. cbv zeta. rewrite (proj2 (Z.ltb_ge _ _) H2).
  by erewrite bind_ok by (unfold keymap_get; rewrite Nat2Z.id, Hj; reflexivity).
Qed.

Lemma press_ok k j a b i l : keymap !! j = Some (a, b) -> char_key (Z.of_nat j) = true ->
  ext_scan_code (k_kbd k) = false ->
  k_ioqs k !! kbd_buf = Some i -> ioq_rep i l -> (length l < CAPACITY)%nat -> consumer i = NULL ->
  key_interrupt (Z.of_nat j) k = Ok tt
    (with_ioqs (<[kbd_buf := put_in i
       (if shift_status (k_kbd k) || caps_lock_status (k_kbd k) then b else a)]> (k_ioqs k))
       (arrived (Z.of_nat j) k)).
Proof.
  intros Hj Hck Hx Hi R Hl Hc. rewrite (press_eq _ _ _ _ Hj Hck Hx).
  set (c := if shift_status (k_kbd k) || _ then b else a). set (k1 := arrived _ k).
  assert (E : ioq_putchar kbd_buf c k1 = Ok tt (with_ioqs (<[kbd_buf := put_in i c]> (k_ioqs k)) k1)).
  { rewrite (putchar_put k1 _ i l) by done.
    eapply signal_nobody; [apply lookup_insert_eq|done]. }
  by erewrite bind_ok by (erewrite bind_ok by exact E; reflexivity).
Qed.

(** Its release changes nothing. *)
Lemma release_ok k j : char_key (Z.of_nat j) = true -> (j < 59)%nat ->
  ext_scan_code (k_kbd k) = false ->
  key_interrupt (Z.of_nat j + 0x80) k = Ok tt (arrived (Z.of_nat j + 0x80) k).
Proof.
  unfold char_key. rewrite !andb_true_iff. intros ((((((H1 & H2) & H3) & H4) & H5) & H6) & H7) Hj Hx.
  apply Z.eqb_eq in H6. rewrite key_interrupt_plain by (done || lia).
  erewrite bind_ok by (apply ctrl_key_proc_plain; by rewrite H5, H6). cbv iota.
  assert (E : normal_key_proc (Z.of_nat j + 0x80) (arrived (Z.of_nat j + 0x80) k)
    = Ok true (arrived (Z.of_nat j + 0x80) k)) by (unfold normal_key_proc; by rewrite H5).
  by erewrite bind_ok by exact E.
Qed.

(** The left shift key, down and up. *)
Lemma shift_ok (d : bool) k : ext_scan_code (k_kbd k) = false ->
  let b := if d then SHIFT_LEFT_MAKE else SHIFT_LEFT_MAKE + 0x80 in
  key_interrupt b k = Ok tt (with_kbd (set_shift d (k_kbd k)) (arrived b k)).
Proof.
  intros Hx. simpl. rewrite key_interrupt_plain; [|by destruct d..|done].
  by destruct d.
Qed.

(** ** A whole text *)

(** The character [c] is typed with no other key held. *)
Lemma type_char k i l c : is_Some (find_key c) -> c <> 0 -> k_kbd k = no_keys ->
  k_ioqs k !! kbd_buf = Some i -> ioq_rep i l -> (length l < CAPACITY)%nat -> consumer i = NULL ->
  exists b, key_interrupts (scan_codes c) k
    = Ok tt (with_ioqs (<[kbd_buf := put_in i c]> (k_ioqs k)) (arrived b k)).
Proof.
  intros [[n sh] Hf] Hc0 Hk Hi R Hl Hc. unfold scan_codes. rewrite Hf.
  destruct (find_key_spec _ _ _ Hf) as (j & a & b & -> & Hj & Hab).
  assert (Hck : char_key (Z.of_nat j) = true) by (eapply char_keys; [exact Hj|]; destruct sh; lia).
  pose proof (lookup_lt_Some _ _ _ Hj) as Hlt. change (length keymap) with 59%nat in Hlt.
  destruct sh; simpl key_interrupts.
  - pose proof (shift_ok true k ltac:(by rewrite Hk)) as E1. simpl in E1.
    erewrite bind_ok by exact E1. rewrite Hk. set (k1 := with_kbd _ _).
    pose proof (press_ok k1 j a b i l Hj Hck eq_refl Hi R Hl Hc) as E2. simpl in E2.
    erewrite bind_ok by exact E2. set (k2 := with_ioqs _ _).
    erewrite bind_ok by (apply (release_ok k2 j Hck Hlt eq_refl)). set (k3 := arrived _ k2).
    pose proof (shift_ok false k3 eq_refl) as E4. simpl in E4. erewrite bind_ok by exact E4.
    exists (SHIFT_LEFT_MAKE + 0x80). subst c. unfold k3, k2, k1, mret, M_ret.
    f_equal. destruct k. simpl in Hk. subst. done.
  - pose proof (press_ok k j a b i l Hj Hck ltac:(by rewrite Hk) Hi R Hl Hc) as E2.
    rewrite Hk in E2. simpl in E2. erewrite bind_ok by exact E2. set (k2 := with_ioqs _ _).
    erewrite bind_ok by (apply (release_ok k2 j Hck Hlt); simpl; by rewrite Hk).
    exists (Z.of_nat j + 0x80). by subst c.
Qed.

Lemma key_interrupts_app bs1 bs2 k k1 : key_interrupts bs1 k = Ok tt k1 ->
  key_interrupts (bs1 ++ bs2) k = key_interrupts bs2 k1.
Proof.
  revert k. induction bs1 as [|b bs1 IH]; intros k; simpl; [by intros [= ->]|].
  unfold mbind, M_bind. destruct (key_interrupt b k); try done. apply IH.
Qed.

(** Every printable ASCII character, and the four control characters with a
    key of their own. *)
Definition typable (c : Z) : bool :=
  (32 <=? c) && (c <? 127) || bool_decide (c ∈ [ESC; BACKSPACE; TAB; ENTER]).

Lemma typable_key c : typable c = true -> is_Some (find_key c) /\ c <> 0.
Proof.
  assert (H : forallb (fun j => negb (typable (Z.of_nat j)) || bool_decide (is_Some (find_key (Z.of_nat j))))
    (seq 0 127) = true) by by vm_compute.
  intros Hc. assert (Hr : 0 < c < 127).
  { unfold typable in Hc. apply orb_true_iff in Hc as [[?%Z.leb_le ?%Z.ltb_lt]%andb_true_iff|Hc]; [lia|].
    apply bool_decide_eq_true in Hc. unfold ESC, BACKSPACE, TAB, ENTER in Hc.
    rewrite !elem_of_cons, elem_of_nil in Hc. lia. }
  rewrite forallb_forall in H. specialize (H (Z.to_nat c) ltac:(apply in_seq; lia)).
  rewrite Z2Nat.id, Hc in H by lia. apply bool_decide_eq_true in H. split; [done|lia].
Qed.

(** ** Any byte *)

Lemma ctrl_key_proc_any sc k : exists r s, ctrl_key_proc sc k = Ok r (with_kbd s k).
Proof.
  unfold ctrl_key_proc. destruct (if break_code sc then _ else _) as [st c].
  repeat match goal with |- context [if ?x =? ?y then _ else _] => destruct (x =? y) end;
    try (do 2 eexists; reflexivity).
  - destruct st; simpl negb; cbv iota; [|do 2 eexists; reflexivity].
    exists true, (k_kbd k). by destruct k.
  - exists false, (k_kbd k). by destruct k.
Qed.

Lemma scan_code_get_any b k : is_u8 b -> exists sc s,
  scan_code_get (arrived b k) = Ok sc (with_kbd s (arrived b k)).
Proof.
  intros Hb. unfold scan_code_get.
  erewrite bind_ok by (apply zoom_ok; unfold inb, gets; reflexivity). simpl view.
  erewrite bind_ok by reflexivity. simpl. rewrite u8_small by done.
  destruct (ext_scan_code (k_kbd k)); [by do 2 eexists|].
  destruct (b =? 0xe0); [by do 2 eexists|]. exists b, (k_kbd k). by destruct k.
Qed.

Section Screen.
Context (D : list Z).

(** [normal_key_proc] looks only into the keymap, and adds at most one
    character. *)
Lemma normal_key_proc_any sc k i l : k_ioqs k !! kbd_buf = Some i -> ioq_rep i l ->
  (length l < CAPACITY)%nat -> consumer i = NULL ->
  exists r i' cs, normal_key_proc sc k = Ok r (with_ioqs (<[kbd_buf := i']> (k_ioqs k)) k)
    /\ ioq_rep i' (l ++ cs) /\ (length cs <= 1)%nat /\ consumer i' = NULL.
Proof.
  intros Hi R Hl Hc.
  assert (Ek : with_ioqs (<[kbd_buf := i]> (k_ioqs k)) k = k) by (rewrite insert_id by done; by destruct k).
  unfold normal_key_proc. destruct (break_code sc).
  { exists true, i, []. rewrite Ek, app_nil_r. auto. }
  erewrite bind_ok by reflexivity. cbv zeta.
  destruct (Z.ltb_spec KEYMAP_MAX_INDEX (Z.land sc 0xff)) as [|Hle].
  { exists false, i, []. rewrite Ek, app_nil_r. auto. }
  assert (Hr : 0 <= Z.land sc 0xff) by (apply Z.land_nonneg; right; done).
  destruct (lookup_lt_is_Some_2 keymap (Z.to_nat (Z.land sc 0xff))) as [[a b] Hab].
  { unfold KEYMAP_MAX_INDEX in Hle. lia. }
  set (sh := shift_status _ || _). exists true, (put_in i (if sh then b else a)), [if sh then b else a].
  split; [|split; [by apply rep_put|done]].
  erewrite bind_ok by (unfold keymap_get; rewrite Hab; reflexivity).
  erewrite bind_ok; [reflexivity|]. rewrite (putchar_put k _ i l) by done.
  eapply signal_nobody; [apply lookup_insert_eq|done].
Qed.

Lemma key_interrupt_any b k i l : on_screen D k -> is_u8 b ->
  k_ioqs k !! kbd_buf = Some i -> ioq_rep i l -> (length l < CAPACITY)%nat -> consumer i = NULL ->
  exists k' i' cs, key_interrupt b k = Ok tt k' /\ on_screen D k'
    /\ k_ioqs k' = <[kbd_buf := i']> (k_ioqs k)
    /\ ioq_rep i' (l ++ cs) /\ (length cs <= 1)%nat /\ consumer i' = NULL
    /\ k_sched k' = k_sched k /\ k_tcbs k' = k_tcbs k /\ k_links k' = k_links k.
Proof.
  intros Ho Hb Hi R Hl Hc.
  unfold key_interrupt. erewrite bind_ok by reflexivity. fold (arrived b k).
  destruct (scan_code_get_any b k Hb) as (sc & s & E1).
  unfold intr_keyboard_handler. erewrite bind_ok by exact E1.
  assert (Ho' : forall s m, on_screen D (with_ioqs m (with_kbd s (arrived b k))))
    by (intros; by apply (on_screen_ext D k)).
  assert (Eid : <[kbd_buf := i]> (k_ioqs k) = k_ioqs k) by by apply insert_id.
  destruct (sc =? 0xe0).
  { exists (with_kbd s (arrived b k)), i, []. rewrite Eid, app_nil_r. split_and!; auto. }
  destruct (ctrl_key_proc_any sc (with_kbd s (arrived b k))) as (r & s2 & E2).
  erewrite bind_ok by exact E2. destruct r.
  { exists (with_kbd s2 (arrived b k)), i, []. rewrite Eid, app_nil_r. split_and!; auto. }
  destruct (normal_key_proc_any sc (with_kbd s2 (with_kbd s (arrived b k))) i l Hi R Hl Hc)
    as (r3 & i' & cs & E3 & R3 & Hcs & Hc').
  erewrite bind_ok by exact E3. destruct r3.
  { eexists _, i', cs. split; [reflexivity|]. split; [apply Ho'|]. by split_and!. }
  destruct (say_ok D ("unknown key" +:+ Print.nl) _ (Ho' s2 (<[kbd_buf := i']> (k_ioqs k))) eq_refl)
    as (k' & E4 & Ho4 & (v & io & -> & _)).
  eexists _, i', cs. split; [exact E4|]. split; [done|]. by split_and!.
Qed.

End Screen.
End Keyboard.
