(* ===== verification/Timer.v ===== *)
(** [device/timer.c]: the clock interrupt, and what it makes of the scheduler.

    [timer_interrupt] is the whole interrupt: the handler, and the tail every
    hardware interrupt runs.  [run_ticks] is a stretch of time in which
    nothing else happens in the kernel.  A thread's time slice ends after at
    most twelve interrupts, so any ready thread runs after at most twelve
    times the number of slices [ReadyQueues.slice_wait] computes. *)

From S2P Require Import Prelude Bytes Bitmap LinkedList Paging Ports Print Descriptors Kernel.
From S2P Require Import ReadyQueues Sched.

Module Timer.
Import LinkedList Paging Ports Descriptors Kernel ReadyQueues Sched.

(** ** The code *)

Definition IRQ0_FREQUENCY : Z := 100.
Definition INPUT_FREQUENCY : Z := 1193180.
Definition COUNTER0_VALUE : Z := INPUT_FREQUENCY / IRQ0_FREQUENCY.
Definition COUNTER0_PORT : Z := 0x40.
Definition COUNTER0_NO : Z := 0.
Definition COUNTER_MODE : Z := 2.
Definition READ_WRITE_LATCH : Z := 3.
Definition PIT_CONTROL_PORT : Z := 0x43.

Definition freq_set (counter_port counter_no rwl counter_mode counter_value : Z) : M io unit :=
  outb PIT_CONTROL_PORT
    (u8 (Z.lor (Z.lor (Z.shiftl counter_no 6) (Z.shiftl rwl 4)) (Z.shiftl counter_mode 1)));;
  outb counter_port (u8 counter_value);;
  outb counter_port (u8 (Z.shiftr counter_value 8)).

Definition STACK_MAGIC : Z := 0x19980820.

Definition intr_timer_handler : M kernel unit :=
  r ← RUNNING_THREAD;
  t ← get_tcb r;
  ASSERT (stack_magic t =? STACK_MAGIC) "RUNNING_THREAD->stack_magic == 0x19980820";;
  on_tcb r (fun t => tcb_elapsed_ticks (u32 (elapsed_ticks t + 1)) t);;
  modify (fun k => with_clock (u32 (k_clock k + 1)) k);;
  t ← get_tcb r;
  if ticks t =? 0 then on_sched (sched_need true)
  else on_tcb r (fun t => tcb_ticks (u32 (ticks t - 1)) t).

Definition timer_init : M kernel unit :=
  say ("timer_init start" +:+ Print.nl);;
  zoom io_of (freq_set COUNTER0_PORT COUNTER0_NO READ_WRITE_LATCH COUNTER_MODE COUNTER0_VALUE);;
  zoom tables_of (intr_handler_register 0x20 intr_timer_handler_ptr);;
  say ("timer_init done" +:+ Print.nl).

(** One clock interrupt, and [n] of them. *)
Definition timer_interrupt : M kernel unit := intr_timer_handler;; _ ← hwi_tail_handle; mret tt.

Fixpoint run_ticks (n : nat) : M kernel unit :=
  match n with
  | O => mret tt
  | S n' => timer_interrupt;; run_ticks n'
  end.

Lemma run_ticks_app n m k k1 : run_ticks n k = Ok tt k1 -> run_ticks (n + m) k = run_ticks m k1.
Proof.
  revert k. induction n as [|n IH]; intros k; simpl; [by intros [= ->]|].
  unfold mbind, M_bind. destruct (timer_interrupt k) as [[] k2| | | |]; try done.
  apply IH.
Qed.

(** ** Time slices *)

Section Slices.
Context (D : list Z).
Implicit Types (k : kernel) (qs : queues) (L : gmap Z (list Z)).

(** The longest time slice, in decrements of [ticks]. *)
Definition MAX_TICKS : Z := 11.

(** The control block of the running thread after a tick. *)
Definition ticked (tc : tcb) : tcb :=
  tcb_ticks (u32 (ticks tc - 1)) (tcb_elapsed_ticks (u32 (elapsed_ticks tc + 1)) tc).

(** A thread runs that is the first of the queues, no schedule is pending, and
    the control blocks are intact. *)
Definition slicing k qs L : Prop :=
  sched_rep D k qs L /\ need_schedule (k_sched k) = false
  /\ (exists p cur, first_ready qs = Some (p, cur) /\ running k qs cur)
  /\ (forall t tc, k_tcbs k !! t = Some tc ->
        stack_magic tc = STACK_MAGIC /\ 0 <= ticks tc <= MAX_TICKS).

Lemma handler_tick k cur tc :
  running_thread (k_sched k) = cur -> k_tcbs k !! cur = Some tc -> stack_magic tc = STACK_MAGIC ->
  intr_timer_handler k = Ok tt (
    let tc1 := tcb_elapsed_ticks (u32 (elapsed_ticks tc + 1)) tc in
    let k1 := with_clock (u32 (k_clock k + 1)) (with_tcbs (<[cur := tc1]> (k_tcbs k)) k) in
    if ticks tc =? 0 then with_sched (sched_need true (k_sched k)) k1
    else with_tcbs (<[cur := ticked tc]> (k_tcbs k)) k1).
Proof.
  intros <- Ht Hm. unfold intr_timer_handler. erewrite bind_ok by done.
  erewrite bind_ok by by apply get_tcb_ok. rewrite (proj2 (Z.eqb_eq _ _) Hm).
  erewrite bind_ok by done. erewrite bind_ok by by apply on_tcb_ok. erewrite bind_ok by done.
  erewrite bind_ok by apply get_tcb_ok, lookup_insert_eq.
  change (ticks (tcb_elapsed_ticks (u32 (elapsed_ticks tc + 1)) tc)) with (ticks tc).
  destruct (ticks tc =? 0); [done|].
  erewrite on_tcb_ok by apply lookup_insert_eq. simpl. by rewrite insert_insert_eq.
Qed.

Lemma slicing_tick k qs L cur tc :
  slicing k qs L -> running_thread (k_sched k) = cur -> k_tcbs k !! cur = Some tc -> 0 < ticks tc ->
  exists k', timer_interrupt k = Ok tt k' /\ slicing k' qs L
    /\ running_thread (k_sched k') = cur /\ k_tcbs k' !! cur = Some (ticked tc).
Proof.
  intros (R & Hneed & (p & cur' & Hf & Hrun) & Hok) Hr Ht Hpos.
  destruct (Hok _ _ Ht) as [Hm Hrange]. unfold MAX_TICKS in Hrange.
  set (k' := with_tcbs (<[cur := ticked tc]> (k_tcbs k)) (with_clock (u32 (k_clock k + 1)) k)).
  exists k'. unfold slicing. split_and!.
  - unfold timer_interrupt. erewrite bind_ok by by apply (handler_tick k cur tc).
    rewrite (proj2 (Z.eqb_neq _ _)) by lia. cbv zeta.
    unfold hwi_tail_handle. erewrite bind_ok; [done|].
    eapply main_schedule_same; [exact Hr|apply lookup_insert_eq|exact Hneed].
  - eapply (rep_tcb_at D k k'); [exact R|exact Ht|done..|by left|done].
  - done.
  - exists p, cur'. split; [done|]. pose proof (proj1 Hrun) as Ecur. rewrite Hr in Ecur. subst cur'.
    destruct Hrun as (_ & tc' & q & Ht' & Hs & Hq & Hin).
    rewrite Ht in Ht'. injection Ht' as <-. split; [done|].
    exists (ticked tc), q. split; [apply lookup_insert_eq|done].
  - intros t tc'. simpl. rewrite lookup_insert. case_decide; [|apply Hok].
    intros [= <-]. split; [done|]. simpl. rewrite u32_small; unfold MAX_TICKS; lia.
  - done.
  - apply lookup_insert_eq.
Qed.

Lemma ticks_get_range prio : 0 <= prio < PRIO_NUM -> 0 <= ticks_get prio <= MAX_TICKS.
Proof. unfold ticks_get, PRIO_NUM, MAX_TICKS. intros. zdiv_lia. Qed.

(** The last tick of a slice. *)
Lemma slicing_end k qs L cur tc :
  slicing k qs L -> running_thread (k_sched k) = cur -> k_tcbs k !! cur = Some tc -> ticks tc = 0 ->
  exists k' L', timer_interrupt k = Ok tt k' /\ slicing k' (slice qs) L'.
Proof.
  intros (R & Hneed & (p & cur' & Hf & Hrun) & Hok) Hr Ht Hz.
  destruct (Hok _ _ Ht) as [Hm Hrange].
  set (tc1 := tcb_elapsed_ticks (u32 (elapsed_ticks tc + 1)) tc).
  set (k1 := with_sched (sched_need true (k_sched k))
    (with_clock (u32 (k_clock k + 1)) (with_tcbs (<[cur := tc1]> (k_tcbs k)) k))).
  assert (R1 : sched_rep D k1 qs L)
    by (eapply (rep_tcb_at D k k1); [exact R|exact Ht|done..|by left|done]).
  pose proof (proj1 Hrun) as Ecur. rewrite Hr in Ecur. subst cur'.
  destruct Hrun as (_ & tc' & q & Ht' & Hs & Hq & Hin). rewrite Ht in Ht'. injection Ht' as <-.
  assert (Hp : Z.to_nat (priority tc) = p).
  { apply first_ready_spec in Hf as (q' & Hq' & _).
    eapply (rep_wf D k qs L R); [exact Hq|exact Hq'|exact Hin|left]. }
  destruct (demote_ready D _ _ _ _ tc1 _ R1 Hq Hin) as (p' & next & Hf').
  destruct (main_schedule_slice D k1 qs L cur tc1 q p' next R1 Hr eq_refl (lookup_insert_eq _ _ _) Hs
    Hq Hin Hf') as (h & v & L' & tn & d & Htn & HD & Hdir & E & R2 & _).
  assert (Hslice : slice qs = demote (Z.to_nat (priority tc1)) cur qs).
  { unfold slice. rewrite Hf. simpl priority. by rewrite Hp. }
  eexists _, L'. split.
  - unfold timer_interrupt. erewrite bind_ok by by apply (handler_tick k cur tc).
    rewrite (proj2 (Z.eqb_eq _ _)) by done. cbv zeta. unfold hwi_tail_handle.
    by erewrite bind_ok by exact E.
  - rewrite Hslice. unfold slicing. split_and!.
    + exact R2.
    + done.
    + exists p', next. split; [done|]. by eapply (dispatched_running D).
    + assert (Hcur : forall t x, <[cur := requeued tc1]> (<[cur := tc1]> (k_tcbs k)) !! t = Some x ->
        stack_magic x = STACK_MAGIC /\ 0 <= ticks x <= MAX_TICKS).
      { intros t x. rewrite insert_insert_eq, lookup_insert. case_decide; [|apply Hok].
        intros [= <-]. split; [done|]. simpl. apply ticks_get_range.
        apply (next_priority_level tc1). apply (sr_tcbs D _ _ _ R _ _ Ht). }
      intros t x. simpl. rewrite lookup_insert. case_decide; [|apply Hcur].
      intros [= <-]. exact (Hcur next tn Htn).
Qed.

(** A slice is over after as many ticks as the thread has left, and one. *)
Lemma slicing_slice k qs L :
  slicing k qs L -> exists n k' L', (n <= 12)%nat /\ run_ticks n k = Ok tt k'
    /\ slicing k' (slice qs) L'.
Proof.
  intros H. pose proof H as (R & _ & (p & cur & _ & Hrun) & Hok).
  destruct Hrun as (Hr & tc & _ & Ht & _). destruct (Hok _ _ Ht) as [_ Hrange].
  assert (Hn : exists m : nat, ticks tc = Z.of_nat m /\ (m <= 11)%nat).
  { exists (Z.to_nat (ticks tc)). unfold MAX_TICKS in Hrange. lia. }
  destruct Hn as (m & Em & Hm). clear Hok Hrange R.
  enough (exists k' L', run_ticks (S m) k = Ok tt k' /\ slicing k' (slice qs) L')
    as (k' & L' & E & H') by (exists (S m), k', L'; split; [lia|done]).
  clear Hm. revert k tc H Hr Ht Em. induction m as [|m IH]; intros k tc H Hr Ht Em.
  - destruct (slicing_end _ _ _ _ _ H Hr Ht Em) as (k' & L' & E & H').
    exists k', L'. split; [|done]. simpl. by erewrite bind_ok by exact E.
  - destruct (slicing_tick _ _ _ _ _ H Hr Ht ltac:(lia)) as (k1 & E & H1 & Hr1 & Ht1).
    destruct (IH _ _ H1 Hr1 Ht1) as (k' & L' & E' & H').
    { simpl. rewrite u32_small; [lia|]. destruct H as (_ & _ & _ & Hok).
      destruct (Hok _ _ Ht) as [_ Hr']. unfold MAX_TICKS in Hr'. lia. }
    exists k', L'. split; [|done]. change (run_ticks (S (S m))) with (timer_interrupt;; run_ticks (S m)).
    by erewrite bind_ok by exact E.
Qed.

Lemma slicing_slices n k qs L :
  slicing k qs L -> exists m k' L', (m <= 12 * n)%nat /\ run_ticks m k = Ok tt k'
    /\ slicing k' (Nat.iter n slice qs) L'.
Proof.
  revert k qs L. induction n as [|n IH]; intros k qs L H.
  - by exists O, k, L.
  - destruct (slicing_slice _ _ _ H) as (m1 & k1 & L1 & Hm1 & E1 & H1).
    destruct (IH _ _ _ H1) as (m2 & k2 & L2 & Hm2 & E2 & H2).
    exists (m1 + m2)%nat, k2, L2. split; [lia|]. rewrite (run_ticks_app _ _ _ _ E1).
    by rewrite Nat.iter_succ_r.
Qed.

(** Freedom from starvation, in interrupts. *)
Lemma slicing_reaches k qs L px q i x :
  slicing k qs L -> qs !! px = Some q -> q !! i = Some x ->
  exists m k' , (m <= 12 * slice_wait px i qs)%nat /\ run_ticks m k = Ok tt k'
    /\ running_thread (k_sched k') = x.
Proof.
  intros H Hq Hx. destruct (slicing_slices (slice_wait px i qs) _ _ _ H)
    as (m & k' & L' & Hm & E & H').
  exists m, k'. split; [done|]. split; [done|].
  destruct H as (R & _). pose proof (slices_reach qs px i q x _ (rep_wf D _ _ _ R) Hq Hx eq_refl) as Hf.
  destruct H' as (_ & _ & (p' & cur' & Hf' & Hrun') & _). rewrite Hf in Hf'.
  injection Hf' as <- <-. apply Hrun'.
Qed.

End Slices.
End Timer.
