(* ===== verification/Thread.v ===== *)
(** Creating threads: the rest of [thread/thread.c], with [context_load] of
    [thread/switch.s], which starts them.

    A thread is one page of the kernel's heap: the control block at its start,
    the stack at its end.  The stack is raw memory.  The [memset] that clears
    the control block also is where its typed objects come into being (the
    record, its list nodes, the mutex of its page pool). *)

From S2P Require Import Prelude Bytes CString Bitmap Interrupt LinkedList Paging PageTable Ports.
From S2P Require Import Print Kernel Sched Sync Memory.

Module Thread.
Import Bitmap Interrupt LinkedList Paging PageTable Kernel Sched Sync Memory.

(** [enum save_flag] *)
Definition ALL_SAVE_FLAG : Z := 0.
Definition FAST_SAVE_FLAG : Z := 1.

(** [struct thread_stack]: the offsets of its members, and its size. *)
Definition TS_save_flag : Z := 0.
Definition TS_ebp : Z := 4.
Definition TS_ebx : Z := 8.
Definition TS_edi : Z := 12.
Definition TS_esi : Z := 16.
Definition TS_eip : Z := 20.
Definition TS_unused_ret_addr : Z := 24.
Definition TS_func : Z := 28.
Definition TS_func_arg : Z := 32.
Definition THREAD_STACK_SIZE : Z := 36.

(** [struct intr_stack], the same. *)
Definition IS_save_flag : Z := 0.
Definition IS_edi : Z := 4.
Definition IS_esi : Z := 8.
Definition IS_ebp : Z := 12.
Definition IS_esp_dummy : Z := 16.
Definition IS_ebx : Z := 20.
Definition IS_edx : Z := 24.
Definition IS_ecx : Z := 28.
Definition IS_eax : Z := 32.
Definition IS_gs : Z := 36.
Definition IS_fs : Z := 40.
Definition IS_es : Z := 44.
Definition IS_ds : Z := 48.
Definition IS_err_code : Z := 52.
Definition IS_eip : Z := 56.
Definition IS_cs : Z := 60.
Definition IS_eflags : Z := 64.
Definition IS_esp : Z := 68.
Definition IS_ss : Z := 72.
Definition INTR_STACK_SIZE : Z := 76.

(** A store of a word of the stack. *)
Definition st32 (a v : Z) : M kernel unit := zoom vm_of (wr32 a v).
Definition ld32 (a : Z) : M kernel Z := zoom vm_of (rd32 a).

(** ** [scheduler_init] *)

Definition scheduler_init : M kernel unit :=
  on_sched (sched_running NULL);;
  on_sched (sched_need false);;
  on_sched (sched_idle NULL);;
  on_sched (sched_table (replicate (Z.to_nat MAX_THREAD_NUM) NULL));;
  btmp_base ← kernel_pages_malloc 1;
  b ← zoom vm_of (bitmap_init btmp_base PRIO_NUM);
  on_sched (sched_mask b);;
  for_upto 0 (Z.to_nat PRIO_NUM) (fun i => zoom lists_of (list_init (THIS_RQ i)));;
  zoom lists_of (list_init all_list);;
  mutex_init pid_mtx.

(** ** The control block *)

(** The objects of a control block of zeros.  [OFF_user_vaddr_pool] is the
    offset of the page pool. *)
Definition OFF_user_vaddr_pool : Z := 68.
Definition pool_of (thread : Z) : Z := thread + OFF_user_vaddr_pool.
Definition no_tcb : tcb :=
  mkTcb 0 0 TASK_RUNNING 0 (replicate NAME_LEN 0) 0 0 NULL (mkPool (mkBitmap 0 0 0) 0 0) 0.
Definition no_elem : list_elem := mkElem NULL NULL.

(** Its list nodes: the three tags, and the sentinels of the pool's waiters. *)
Definition tcb_nodes (thread : Z) : list Z :=
  [ready_tag thread; pend_tag thread; all_list_tag thread;
   list_head (sem_waiters (mutex_sem (pool_mtx (pool_of thread))));
   list_tail (sem_waiters (mutex_sem (pool_mtx (pool_of thread))))].

Definition with_new_tcb (thread : Z) (k : kernel) : kernel :=
  with_tcbs (<[thread := no_tcb]> (k_tcbs k))
    (with_links (foldr (fun a h => <[a := no_elem]> h) (k_links k) (tcb_nodes thread))
    (with_sems (<[mutex_sem (pool_mtx (pool_of thread)) := 0]> (k_sems k))
    (with_holders (<[pool_mtx (pool_of thread) := NULL]> (k_holders k)) k))).

(** [memset(pthread, 0, sizeof( *pthread))] *)
Definition tcb_clear (pthread : Z) : M kernel unit :=
  zoom vm_of (CString.memset pthread 0 TCB_SIZE);;
  modify (with_new_tcb pthread).

(** [strcpy(pthread->name, name)], which copies no terminator; [name] is the
    string's characters.  A longer one than [name] has room for overwrites the
    members behind it. *)
Definition name_copy (pthread : Z) (name : list Z) : M kernel unit :=
  if (length name <=? NAME_LEN)%nat then
    on_tcb pthread (fun t => tcb_name (name ++ drop (length name) (Kernel.name t)) t)
  else fault.

Definition thread_table_get (i : Z) : M kernel Z :=
  deref (fun k => thread_table (k_sched k) !! Z.to_nat i).

(** The [for] loop, with its [break]; [n] iterations are left. *)
Fixpoint pid_search (n : nat) (i thread : Z) : M kernel unit :=
  match n with
  | O => mret tt
  | S n' =>
      e ← thread_table_get i;
      if e =? NULL then
        on_tcb thread (tcb_pid (u16 i));;
        on_sched (fun s => sched_table (<[Z.to_nat i := thread]> (thread_table s)) s)
      else pid_search n' (i + 1) thread
  end.

Definition pid_alloc (thread : Z) : M kernel unit :=
  mutex_lock pid_mtx;;
  pid_search (Z.to_nat MAX_THREAD_NUM) 0 thread;;
  mutex_unlock pid_mtx.

Definition thread_tcb_init (pthread : Z) (name : list Z) (prio : Z) : M kernel unit :=
  tcb_clear pthread;;
  name_copy pthread name;;
  idle ← gets (fun k => idle_thread (k_sched k));
  on_tcb pthread (tcb_status (if pthread =? idle then TASK_RUNNING else TASK_READY));;
  on_tcb pthread (tcb_priority (u8 prio));;
  on_tcb pthread (tcb_stack_top (u32 (pthread + PG_SIZE)));;
  on_tcb pthread (tcb_ticks (ticks_get (u8 prio)));;
  on_tcb pthread (tcb_pg_dir NULL);;
  pid_alloc pthread;;
  on_tcb pthread (tcb_stack_magic 0x19980820).

(** ** The stack, and the whole thread

    [entry] is the address of [kernel_thread_entry]. *)
Section Threads.
Context (entry : Z).

Definition thread_stack_init (pthread func func_arg : Z) : M kernel unit :=
  t ← get_tcb pthread;
  let kstack_tmp := stack_top t in
  let kstack_tmp := u32 (kstack_tmp - INTR_STACK_SIZE) in
  let kstack_tmp := u32 (kstack_tmp - THREAD_STACK_SIZE) in
  on_tcb pthread (tcb_stack_top kstack_tmp);;
  t ← get_tcb pthread;
  let kthread_stack := stack_top t in
  st32 (kthread_stack +! TS_eip) entry;;
  st32 (kthread_stack +! TS_func) func;;
  st32 (kthread_stack +! TS_func_arg) func_arg;;
  st32 (kthread_stack +! TS_save_flag) FAST_SAVE_FLAG;;
  st32 (kthread_stack +! TS_ebp) 0;;
  st32 (kthread_stack +! TS_ebx) 0;;
  st32 (kthread_stack +! TS_esi) 0;;
  st32 (kthread_stack +! TS_edi) 0.

Definition thread_init (pthread : Z) (name : list Z) (prio func func_arg : Z) : M kernel unit :=
  thread_tcb_init pthread name prio;;
  thread_stack_init pthread func func_arg.

Definition thread_create (thread_name : list Z) (thread_prio func func_arg : Z) : M kernel Z :=
  thread ← kernel_pages_malloc 1;
  thread_init thread thread_name thread_prio func func_arg;;
  mret thread.

Definition thread_run (name : list Z) (prio func func_arg : Z) : M kernel Z :=
  thread ← thread_create name prio func func_arg;
  scheduler_rq_join thread;;
  zoom lists_of (list_push_back all_list (all_list_tag thread));;
  mret thread.

(** What a new thread runs: [func] is what the pointer points to. *)
Definition kernel_thread_entry {A} (func : Z -> M kernel A) (func_arg : Z) : M kernel A :=
  zoom eflags_of intr_enable;;
  func func_arg.

(** ** The idle thread

    [esp] is the stack pointer. *)
Definition running_thread_get (esp : Z) : Z := Z.land esp 0xfffff000.

Definition idle_thread_make (esp : Z) : M kernel unit :=
  on_sched (sched_running (running_thread_get esp));;
  r ← RUNNING_THREAD;
  on_sched (sched_idle r);;
  idle ← gets (fun k => idle_thread (k_sched k));
  thread_tcb_init idle (Print.text_of "idle") 31;;
  r ← RUNNING_THREAD;
  scheduler_rq_join r;;
  r ← RUNNING_THREAD;
  zoom lists_of (list_push_back all_list (all_list_tag r)).

Definition thread_all_init (esp : Z) : M kernel unit :=
  say ("thread_all_init begin" +:+ Print.nl);;
  scheduler_init;;
  idle_thread_make esp;;
  say ("thread_all_init done" +:+ Print.nl).

End Threads.

(** ** [context_load]

    What the processor continues with: the registers a thread left by
    [task_trap] (or a new thread) gets, or those of an interrupted one.  [c_ss]
    is the stack segment of user mode; in the kernel it never changes. *)
Record fast_context := mkFast {
  f_ebp : Z; f_ebx : Z; f_edi : Z; f_esi : Z; f_eip : Z; f_esp : Z
}.
Record full_context := mkFull {
  c_edi : Z; c_esi : Z; c_ebp : Z; c_ebx : Z; c_edx : Z; c_ecx : Z; c_eax : Z;
  c_gs : Z; c_fs : Z; c_es : Z; c_ds : Z;
  c_eip : Z; c_cs : Z; c_eflags : Z;
  c_esp : Z; c_ss : option Z
}.

(** [fast_load]: [pop ebp; pop ebx; pop edi; pop esi; ret]. *)
Definition fast_load (esp : Z) : M kernel fast_context :=
  ebp ← ld32 esp; ebx ← ld32 (esp +! 4); edi ← ld32 (esp +! 8); esi ← ld32 (esp +! 12);
  eip ← ld32 (esp +! 16);
  mret (mkFast ebp ebx edi esi eip (esp +! 20)).

(** [all_load] and [hwi_ret]: [popad], which skips the saved esp, the segment
    registers, and [iret], which pops esp and ss when it returns to user
    mode. *)
Definition all_load (esp : Z) : M kernel full_context :=
  edi ← ld32 esp; esi ← ld32 (esp +! 4); ebp ← ld32 (esp +! 8); ebx ← ld32 (esp +! 16);
  edx ← ld32 (esp +! 20); ecx ← ld32 (esp +! 24); eax ← ld32 (esp +! 28);
  gs ← ld32 (esp +! 32); fs ← ld32 (esp +! 36); es ← ld32 (esp +! 40); ds ← ld32 (esp +! 44);
  eip ← ld32 (esp +! 52); cs ← ld32 (esp +! 56); eflags ← ld32 (esp +! 60);
  '(sp, ss) ← (if cs mod 4 =? 3 then sp ← ld32 (esp +! 64); ss ← ld32 (esp +! 68); mret (sp, Some ss)
               else mret (esp +! 64, None));
  mret (mkFull edi esi ebp ebx edx ecx eax gs fs es ds eip cs eflags sp ss).

Definition context_load (thread : Z) : M kernel (fast_context + full_context) :=
  t ← get_tcb thread;
  let esp := stack_top t in
  eax ← ld32 esp;
  if eax =? ALL_SAVE_FLAG then c ← all_load (esp +! 4); mret (inr c)
  else c ← fast_load (esp +! 4); mret (inl c).

End Thread.
