(* ===== verification/ThreadSpec.v ===== *)
(** What creating a thread does: [thread_tcb_init] and [thread_stack_init] of
    [Thread.v], specified.

    [born] is the control block a thread starts with, and [first_frame] the
    words on its stack, from which [context_load] makes the processor continue
    in [kernel_thread_entry]. *)

From S2P Require Import Prelude Bytes CString Bitmap Interrupt LinkedList Paging PageTable Words.
From S2P Require Import Kernel Sched Sync Memory Thread.

Module ThreadSpec.
Import Bitmap Interrupt LinkedList Paging PageTable Words Kernel Sched Sync Memory Thread.

Section Threads.
Context (D : list Z).
Implicit Types (k : kernel) (L : gmap Z (list Z)).

#[local] Instance data_mem : ByteMem vm := vm_mem D.

(** ** The control block *)

(** No node of the control block that is to be at [t] is in a list. *)
Definition fresh L (t : Z) : Prop := forall a, a ∈ tcb_nodes t -> ~ owned L a.

Lemma new_nodes (h : gmap Z list_elem) l a :
  foldr (fun a h => <[a := no_elem]> h) h l !! a = if decide (a ∈ l) then Some no_elem else h !! a.
Proof.
  induction l as [|b l IH]; [by rewrite decide_False by apply not_elem_of_nil|]. cbn [foldr].
  destruct (decide (b = a)) as [->|N]; [by rewrite lookup_insert_eq, decide_True by left|].
  rewrite lookup_insert_ne, IH by done. repeat case_decide; set_solver.
Qed.

Lemma new_tcb_lists t k L : fresh L t -> lists_rep (k_links k) L ->
  lists_rep (k_links (with_new_tcb t k)) L.
Proof.
  intros F. apply lists_rep_frame. intros a Ha.
  change (k_links (with_new_tcb t k)) with (foldr (fun a h => <[a := no_elem]> h) (k_links k) (tcb_nodes t)).
  rewrite new_nodes. case_decide as Hin; [|done]. by destruct (F a Hin).
Qed.

(** The first free slot of the thread table. *)
Definition free_slot (tbl : list Z) : option nat := fst <$> list_find (fun e => e = NULL) tbl.

Definition slot_taken (t : Z) k : kernel :=
  match free_slot (thread_table (k_sched k)) with
  | Some i => with_sched (sched_table (<[i := t]> (thread_table (k_sched k))) (k_sched k))
      (with_tcbs (alter (tcb_pid (Z.of_nat i)) t (k_tcbs k)) k)
  | None => k
  end.

Lemma pid_search_from n i t k tc : k_tcbs k !! t = Some tc ->
  (i + n = length (thread_table (k_sched k)))%nat -> (i + n <= 128)%nat ->
  (forall j, (j < i)%nat -> thread_table (k_sched k) !! j <> Some NULL) ->
  pid_search n (Z.of_nat i) t k = Ok tt (slot_taken t k).
Proof.
  intros Ht. revert i. induction n as [|n IH]; intros i Hl Hm Hn; simpl; unfold slot_taken, free_slot.
  - destruct (list_find _ _) as [[j e]|] eqn:E; [|done]. exfalso.
    apply list_find_Some in E as (Hj & -> & _). apply (Hn j); [|done].
    apply lookup_lt_Some in Hj. lia.
  - destruct (lookup_lt_is_Some_2 (thread_table (k_sched k)) i) as [e He]; [lia|].
    erewrite bind_ok by (unfold thread_table_get, deref; rewrite Nat2Z.id, He; reflexivity).
    destruct (Z.eqb_spec e NULL) as [->|Hne].
    + assert (E : list_find (fun e => e = NULL) (thread_table (k_sched k)) = Some (i, NULL)).
      { apply list_find_Some. split; [done|]. split; [done|]. intros j y Hj Hlt ->. by apply (Hn j). }
      rewrite E. simpl. erewrite bind_ok by by apply on_tcb_ok.
      unfold on_sched, modify. rewrite Nat2Z.id. simpl. rewrite (u16_small (Z.of_nat i)) by lia.
      f_equal. f_equal. f_equal. symmetry. apply map_eq. intros x.
      destruct (decide (t = x)) as [<-|N];
        [by rewrite lookup_alter_eq, Ht, lookup_insert_eq|by rewrite lookup_alter_ne, lookup_insert_ne].
    + replace (Z.of_nat i + 1) with (Z.of_nat (S i)) by lia. apply IH; [lia|lia|].
      intros j Hj. destruct (decide (j = i)) as [->|]; [congruence|apply Hn; lia].
Qed.

Lemma pid_search_ok t k tc : k_tcbs k !! t = Some tc -> length (thread_table (k_sched k)) = 128%nat ->
  pid_search (Z.to_nat MAX_THREAD_NUM) 0 t k = Ok tt (slot_taken t k).
Proof. intros Ht Hl. apply (pid_search_from 128 0 t k tc Ht); [lia|lia|lia]. Qed.

Lemma pid_alloc_ok t k L tc : k_tcbs k !! t = Some tc ->
  length (thread_table (k_sched k)) = 128%nat ->
  lists_rep (k_links k) L -> mutex_free k L pid_mtx ->
  pid_alloc t k = Ok tt (mutex_given_back pid_mtx (slot_taken t k)).
Proof.
  intros Ht Hl HL F. unfold pid_alloc. erewrite bind_ok by by eapply mutex_lock_free.
  erewrite bind_ok by by eapply (pid_search_ok t (mutex_taken pid_mtx k)).
  assert (E : forall k', slot_taken t (mutex_taken pid_mtx k') = mutex_taken pid_mtx (slot_taken t k')).
  { intros k'. unfold slot_taken. simpl. by destruct (free_slot _). }
  rewrite E. apply (mutex_unlock_taken _ L); [|apply F].
  unfold slot_taken. by destruct (free_slot _).
Qed.

(** The slot's number; 0 when the table is full. *)
Definition pid_of_slot (tbl : list Z) : Z :=
  match free_slot tbl with Some i => Z.of_nat i | None => 0 end.

(** A control block fresh from [thread_tcb_init]. *)
Definition born (st : task_status) (pid prio top : Z) (nm : list Z) : tcb :=
  mkTcb top pid st prio (nm ++ replicate (NAME_LEN - length nm) 0) (ticks_get prio) 0 NULL
    (mkPool (mkBitmap 0 0 0) 0 0) 0x19980820.

(** The kernel with that control block at [t]. *)
Definition with_born (t : Z) (tc : tcb) k : kernel :=
  let k1 := mutex_given_back pid_mtx (with_new_tcb t k) in
  let k2 := with_tcbs (<[t := tc]> (k_tcbs k)) k1 in
  with_sched (sched_table (match free_slot (thread_table (k_sched k)) with
    | Some i => <[i := t]> (thread_table (k_sched k)) | None => thread_table (k_sched k) end)
    (k_sched k)) k2.

Record creatable k L (t : Z) (nm : list Z) : Prop := {
  cr_addr : t mod PG_SIZE = 0 /\ 0 < t < 2 ^ 32 - PG_SIZE;
  cr_page : valid_block (k_vm k) t PG_SIZE;
  cr_fresh : fresh L t;
  cr_lists : lists_rep (k_links k) L;
  cr_pid : mutex_free k L pid_mtx;
  cr_table : length (thread_table (k_sched k)) = 128%nat;
  cr_name : (length nm <= NAME_LEN)%nat
}.

Lemma pid_mtx_other t : t mod PG_SIZE = 0 ->
  mutex_sem (pool_mtx (pool_of t)) <> mutex_sem pid_mtx /\ pool_mtx (pool_of t) <> pid_mtx.
Proof.
  unfold mutex_sem, pool_mtx, pool_of, OFF_user_vaddr_pool, pid_mtx, scheduler, PG_SIZE. intros H. zdiv_lia.
Qed.

Lemma tcb_clear_ok t k L nm : creatable k L t nm ->
  exists v, tcb_clear t k = Ok tt (with_new_tcb t (with_vm v k))
    /\ modifies (in_block t TCB_SIZE) (k_vm k) v.
Proof.
  intros C. pose proof (cr_addr _ _ _ _ C) as (_ & Ht).
  destruct (zoom_vm_ok (CString.memset t 0 TCB_SIZE) k
    (fun _ v => modifies (in_block t TCB_SIZE) (k_vm k) v)) as ([] & v & E & M).
  { wp_use (apply CString.memset_block;
      [intros i Hi; apply (cr_page _ _ _ _ C); unfold TCB_SIZE, PG_SIZE in *; lia
      |lia|unfold TCB_SIZE; lia|done]).
    by intros _ v [_ M]. }
  exists v. split; [|done]. unfold tcb_clear. by erewrite bind_ok by exact E.
Qed.

Lemma sched_table_id (s : sched) : sched_table (thread_table s) s = s.
Proof. by destruct s. Qed.

Ltac on_tcb_step := erewrite bind_ok by (apply on_tcb_ok, lookup_insert_eq).

Lemma thread_tcb_init_ok t k L nm prio : creatable k L t nm -> is_u8 prio ->
  let st := if t =? idle_thread (k_sched k) then TASK_RUNNING else TASK_READY in
  exists v, thread_tcb_init t nm prio k
      = Ok tt (with_born t (born st (pid_of_slot (thread_table (k_sched k))) prio (u32 (t + PG_SIZE)) nm)
          (with_vm v k))
    /\ modifies (in_block t TCB_SIZE) (k_vm k) v.
Proof.
  intros C Hp st. destruct (tcb_clear_ok t k L nm C) as (v & E & M). exists v. split; [|done].
  destruct C as [[Ha Ht] _ F HL P Htbl Hnm]. destruct (pid_mtx_other t Ha) as [N1 N2].
  unfold thread_tcb_init. erewrite bind_ok by exact E. set (k0 := with_new_tcb t (with_vm v k)).
  assert (HL0 : lists_rep (k_links k0) L) by by apply new_tcb_lists.
  erewrite bind_ok.
  2: { unfold name_copy. rewrite (proj2 (Nat.leb_le _ _) Hnm). apply on_tcb_ok, lookup_insert_eq. }
  erewrite bind_ok by reflexivity. fold st.
  do 5 on_tcb_step. rewrite (u8_small prio) by done. simpl k_tcbs. rewrite !insert_insert_eq.
  set (tc := tcb_pg_dir _ _). set (k1 := with_tcbs _ _).
  assert (Ek1 : k1 = with_tcbs (<[t := tc]> (k_tcbs k)) k0) by reflexivity.
  clearbody k1. subst k1.
  erewrite bind_ok.
  2: { eapply (pid_alloc_ok t _ L); [apply lookup_insert_eq|done|exact HL0|].
       destruct P as [P1 P2 P3]. split; [|unfold k0, with_new_tcb|done].
       - unfold k0, with_new_tcb. cbn [k_sems with_tcbs with_links with_sems]. by rewrite lookup_insert_ne.
       - cbn [k_holders with_tcbs with_links with_sems with_holders]. by rewrite lookup_insert_ne. }
  unfold slot_taken, with_born, born, pid_of_slot.
  change (thread_table (k_sched (with_tcbs (<[t:=tc]> (k_tcbs k)) k0))) with (thread_table (k_sched k)).
  change (thread_table (k_sched (with_vm v k))) with (thread_table (k_sched k)).
  destruct (free_slot (thread_table (k_sched k))) as [i|].
  - erewrite on_tcb_ok by (cbn [k_tcbs with_sched with_tcbs mutex_given_back with_holders with_sems];
      rewrite alter_insert_eq; apply lookup_insert_eq).
    cbn [k_tcbs with_sched with_tcbs mutex_given_back with_holders with_sems].
    rewrite alter_insert_eq, insert_insert_eq. unfold tc. change (name no_tcb) with (replicate NAME_LEN 0). by rewrite drop_replicate.
  - erewrite on_tcb_ok by apply lookup_insert_eq.
    cbn [k_tcbs with_sched with_tcbs mutex_given_back with_holders with_sems].
    change (k_sched (with_vm v k)) with (k_sched k). rewrite sched_table_id, insert_insert_eq.
    unfold tc. change (name no_tcb) with (replicate NAME_LEN 0). by rewrite drop_replicate.
Qed.

(** ** The stack *)

Lemma st32_frame s0 base n m k o w (Q : unit -> kernel -> Prop) : framed s0 base n m (k_vm k) ->
  (o mod 4 = 0 /\ 0 <= o /\ o + 4 <= n) -> is_u32 w ->
  (forall v, framed s0 base n (<[o := w]> m) v -> Q tt (with_vm v k)) ->
  wp (st32 (base +! o) w) k Q.
Proof.
  intros F (H1 & H2 & H3) Hw HQ. apply wp_zoom. simpl.
  wp_use (by apply (frame_store s0 base n m)). intros [] v. apply HQ.
Qed.

Lemma ld32_frame s0 base n m k o w : framed s0 base n m (k_vm k) -> m !! o = Some w ->
  ld32 (base +! o) k = Ok w k.
Proof.
  intros F H. unfold ld32. erewrite zoom_ok by by eapply frame_load. simpl. by rewrite with_vm_id.
Qed.

Lemma frame_sum sp a b : sp +! a +! b = sp +! (a + b).
Proof. unfold u32. rewrite Zplus_mod_idemp_l. f_equal. lia. Qed.

Definition first_stack (t : Z) : Z := t + PG_SIZE - INTR_STACK_SIZE - THREAD_STACK_SIZE.
Definition first_frame (entry func func_arg : Z) : gmap Z Z :=
  <[TS_edi := 0]> (<[TS_esi := 0]> (<[TS_ebx := 0]> (<[TS_ebp := 0]>
    (<[TS_save_flag := FAST_SAVE_FLAG]> (<[TS_func_arg := func_arg]> (<[TS_func := func]>
      {[TS_eip := entry]})))))).

Ltac frame_steps := repeat (first [apply wp_bind|idtac];
  eapply st32_frame; [eassumption|done|done|intros ? ?]).

Lemma thread_stack_init_ok entry t k tc func func_arg :
  k_tcbs k !! t = Some tc -> stack_top tc = t + PG_SIZE -> 0 < t < 2 ^ 32 - PG_SIZE ->
  valid_block (k_vm k) t PG_SIZE -> is_u32 entry -> is_u32 func -> is_u32 func_arg ->
  exists v, thread_stack_init entry t func func_arg k
      = Ok tt (with_vm v (with_tcbs (<[t := tcb_stack_top (first_stack t) tc]> (k_tcbs k)) k))
    /\ framed (k_vm k) (first_stack t) THREAD_STACK_SIZE (first_frame entry func func_arg) v.
Proof.
  intros Ht Hst Hr V He Hf Ha.
  set (k1 := with_tcbs (<[t := tcb_stack_top (first_stack t) tc]> (k_tcbs k)) k).
  assert (E : thread_stack_init entry t func func_arg k = (
      let sp := first_stack t in
      st32 (sp +! TS_eip) entry;; st32 (sp +! TS_func) func;; st32 (sp +! TS_func_arg) func_arg;;
      st32 (sp +! TS_save_flag) FAST_SAVE_FLAG;; st32 (sp +! TS_ebp) 0;; st32 (sp +! TS_ebx) 0;;
      st32 (sp +! TS_esi) 0;; st32 (sp +! TS_edi) 0) k1).
  { unfold thread_stack_init. erewrite bind_ok by by apply get_tcb_ok. cbv zeta. rewrite Hst.
    replace (u32 (u32 (t + PG_SIZE - INTR_STACK_SIZE) - THREAD_STACK_SIZE)) with (first_stack t)
      by (unfold first_stack, INTR_STACK_SIZE, THREAD_STACK_SIZE, PG_SIZE in *; rewrite (u32_small (t + _ - _)), u32_small; lia).
    erewrite bind_ok by by apply on_tcb_ok. fold k1.
    by erewrite bind_ok by (apply get_tcb_ok, lookup_insert_eq). }
  enough (W : wp (thread_stack_init entry t func func_arg) k (fun _ k' => exists v, k' = with_vm v k1
    /\ framed (k_vm k) (first_stack t) THREAD_STACK_SIZE (first_frame entry func func_arg) v)).
  { apply wp_inv in W as ([] & k' & E' & v & -> & F). by exists v. }
  unfold wp. rewrite E. cbv zeta.
  match goal with |- match ?m k1 with _ => _ end => change (wp m k1 (fun _ k' => exists v, k' = with_vm v k1
    /\ framed (k_vm k) (first_stack t) THREAD_STACK_SIZE (first_frame entry func func_arg) v)) end.
  assert (F : framed (k_vm k) (first_stack t) THREAD_STACK_SIZE ∅ (k_vm k1)).
  { apply frame_start. intros i Hi.
    unfold first_stack, INTR_STACK_SIZE, THREAD_STACK_SIZE, PG_SIZE in *.
    replace (t + 4096 - 76 - 36 + i) with (t + (3984 + i)) by lia. apply V. lia. }
  frame_steps. eexists. split; [reflexivity|]. eassumption.
Qed.

(** The first time the thread is loaded. *)
Lemma context_load_first entry func func_arg t k s0 tc :
  k_tcbs k !! t = Some tc -> stack_top tc = first_stack t -> 0 < t < 2 ^ 32 - PG_SIZE ->
  framed s0 (first_stack t) THREAD_STACK_SIZE (first_frame entry func func_arg) (k_vm k) ->
  let esp := first_stack t + TS_unused_ret_addr in
  context_load t k = Ok (inl (mkFast 0 0 0 0 entry esp)) k
  /\ ld32 (esp +! 4) k = Ok func k /\ ld32 (esp +! 8) k = Ok func_arg k.
Proof.
  intros Ht Hs Hr F esp.
  assert (L : forall o w, first_frame entry func func_arg !! o = Some w ->
    ld32 (first_stack t +! o) k = Ok w k) by (intros; by eapply ld32_frame).
  assert (E0 : first_stack t = first_stack t +! 0).
  { unfold first_stack, INTR_STACK_SIZE, THREAD_STACK_SIZE, PG_SIZE in *. unfold u32. zdiv_lia. }
  assert (Ee : esp = first_stack t +! TS_unused_ret_addr).
  { unfold esp, first_stack, INTR_STACK_SIZE, THREAD_STACK_SIZE, PG_SIZE, TS_unused_ret_addr in *.
    unfold u32. zdiv_lia. }
  split.
  - unfold context_load. erewrite bind_ok by by apply get_tcb_ok. cbv zeta. rewrite Hs.
    erewrite bind_ok by (rewrite E0; apply L; reflexivity). cbn [Z.eqb].
    change (FAST_SAVE_FLAG =? ALL_SAVE_FLAG) with false. cbv iota.
    unfold fast_load.
    erewrite bind_ok; [reflexivity|].
    erewrite bind_ok by (apply (L TS_ebp); reflexivity).
    erewrite bind_ok by (rewrite frame_sum; apply (L TS_ebx); reflexivity).
    erewrite bind_ok by (rewrite frame_sum; apply (L TS_edi); reflexivity).
    erewrite bind_ok by (rewrite frame_sum; apply (L TS_esi); reflexivity).
    erewrite bind_ok by (rewrite frame_sum; apply (L TS_eip); reflexivity).
    by rewrite frame_sum, Ee.
  - rewrite Ee, !frame_sum. split; by apply L.
Qed.

End Threads.
End ThreadSpec.
