(* ===== verification/ThreadRun.v ===== *)
(** Starting a thread in a running kernel: [thread_run].

    [grows] says what allocating memory keeps of the machine's memory, and
    [kernel_ok] is the invariant of the whole kernel: the ready queues, the
    heap, the list of all threads, the table of process numbers, and that
    these do not share memory.  [thread_run] is shown to keep it. *)

From S2P Require Import Prelude Bytes Bitmap Interrupt LinkedList Paging PageTable PageMap Words.
From S2P Require Import Kernel ReadyQueues Sched Sync Memory Heap Thread ThreadSpec.

Module ThreadRun.
Import Bitmap Interrupt LinkedList Paging PageTable PageMap Words Kernel ReadyQueues Sched Sync.
Import Memory Heap Thread ThreadSpec.

Section Growing.
Context (D : list Z).
Implicit Types (k : kernel) (H : kheap) (vb pb : list bool) (s v : vm) (qs : queues).
Implicit Types (L : gmap Z (list Z)).

#[local] Instance data_mem : ByteMem vm := vm_mem D.

(** ** Memory that grows *)

Record grows s s' : Prop := {
  gr_cr3 : cr3 s' = cr3 s;
  gr_valid a : vm_valid D s a -> vm_valid D s' a;
  gr_map d b p : d ∈ cr3 s :: D -> kernel_addr b -> translate (under s d) b = Some p ->
    translate (under s' d) b = Some p;
  gr_self d : d ∈ cr3 s :: D -> self_mapped (under s d) -> self_mapped (under s' d);
  gr_u8 : all_u8 s -> all_u8 s';
  gr_phys q : is_Some (phys s !! q) -> is_Some (phys s' !! q)
}.

Lemma grows_trans s1 s2 s3 : grows s1 s2 -> grows s2 s3 -> grows s1 s3.
Proof.
  intros [C1 V1 M1 S1 U1 P1] [C2 V2 M2 S2 U2 P2]. rewrite C1 in M2, S2.
  constructor; [congruence|auto..].
Qed.

Lemma modifies_grows P s s' : modifies P s s' -> grows s s'.
Proof.
  intros M. assert (K : vm_keeps D s s') by exact (modifies_keeps _ _ _ M).
  destruct K as (C & K & U). constructor; [done| | | |done|].
  - intros a Va. exact (modifies_valid P s s' a M Va).
  - intros d b p Hd Kb. rewrite (keeps_translate _ _ (K d Hd)); [done|by apply kernel_addr_u32].
  - intros d Hd (e & He & Hp). exists e. by rewrite (keeps_pde _ _ (K d Hd)) by lia.
  - intros q Hq. destruct (K (cr3 s)) as (_ & Dm & _); [left|]. apply elem_of_dom. simpl in Dm. rewrite Dm.
    by apply elem_of_dom.
Qed.

Lemma ld32p_u32 s p w : all_u8 s -> ld32p (phys s) p = Some w -> is_u32 w.
Proof.
  intros U. unfold ld32p. destruct (phys s !! p) as [b0|] eqn:E0; [|done].
  destruct (phys s !! (p + 1)) as [b1|] eqn:E1; [|done].
  destruct (phys s !! (p + 2)) as [b2|] eqn:E2; [|done].
  destruct (phys s !! (p + 3)) as [b3|] eqn:E3; [|done]. intros [= <-].
  pose proof (U _ _ E0). pose proof (U _ _ E1). pose proof (U _ _ E2). pose proof (U _ _ E3).
  unfold word_of. lia.
Qed.

(** A directory's address is mapped as before. *)
Lemma dir_ok_grows s s' va : cr3 s ∈ D -> all_u8 s -> kernel_addr va -> grows s s' ->
  dir_ok D s va -> dir_ok D s' va.
Proof.
  intros Hc U Ka G (Hva & d & Hd & Hd0 & H). split; [done|]. exists d. do 2 (split; [done|]).
  intros c Hin. destruct (H c Hin) as (S & T & W). split; [|split].
  - apply (gr_self _ _ G); [by right|done].
  - apply (gr_map _ _ G); [by right|done|done].
  - intros pde pte _ _ E. eapply ld32p_u32; [by apply (gr_u8 _ _ G)|exact E].
Qed.

(** The ready queues do not notice, as long as their mask is not written. *)
Lemma rep_grows k qs L v : sched_rep D k qs L -> all_u8 (k_vm k) -> grows (k_vm k) v ->
  (forall t tc, k_tcbs k !! t = Some tc -> pg_dir tc <> NULL -> kernel_addr (pg_dir tc)) ->
  (forall a, mask_byte k a -> vm_valid D (k_vm k) a -> vm_load v a = vm_load (k_vm k) a) ->
  sched_rep D (with_vm v k) qs L.
Proof.
  intros R U G Hka Hm. pose proof (sr_cr3 _ _ _ _ R) as Hc. destruct R. constructor; try done; simpl.
  - eapply bitmap_rep_kept; [|exact sr_mask0]. intros a Ha Va. split; [by apply (gr_valid _ _ G)|].
    by apply Hm.
  - intros t tc Ht. destruct (sr_tcbs0 t tc Ht) as (H1 & H2 & H3 & H4).
    do 3 (split; [done|]). destruct (decide (pg_dir tc = NULL)) as [E|N]; [by left|right].
    destruct H4 as [H4|H4]; [done|]. by eapply dir_ok_grows; eauto.
  - by rewrite (gr_cr3 _ _ G).
Qed.

(** ** Pages from the kernel's heap *)

(** What taking the pages [i], ..., [i + n - 1] of the heap does, with the
    frames [js]. *)
Record pages_taken H s v (i n : Z) (js : list nat) : Prop := {
  pt_grows : grows s v;
  pt_pages : valid_block v (page_at H i) (PG_SIZE * n);
  pt_new a : vm_valid D s a -> ~ in_block (page_at H i) (PG_SIZE * n) a;
  pt_load a : vm_valid D s a -> ~ bitmap_byte (btmp (h_vpool H)) a ->
    ~ bitmap_byte (btmp (h_ppool H)) a -> vm_load v a = vm_load s a;
  pt_map (x : nat) j d o : js !! x = Some j -> d ∈ cr3 s :: D -> 0 <= o < PAGE ->
    translate (under v d) (page_at H (i + Z.of_nat x) + o) = Some (frame_at H (Z.of_nat j) + o);
  pt_content (x : nat) j o : js !! x = Some j -> 0 <= o < PAGE ->
    vm_load v (page_at H (i + Z.of_nat x) + o) = phys s !! (frame_at H (Z.of_nat j) + o);
  pt_free q : frame_free D s (frame q) -> (forall j, j ∈ js -> frame q <> frame_at H (Z.of_nat j)) ->
    phys v !! q = phys s !! q;
  pt_frames g : frame_free D s g -> (forall j, j ∈ js -> g <> frame_at H (Z.of_nat j)) -> frame_free D v g;
  pt_reach d a p : d ∈ cr3 s :: D -> is_u32 a -> translate (under v d) a = Some p ->
    translate (under s d) a = Some p \/ exists j, j ∈ js /\ frame p = frame_at H (Z.of_nat j);
  pt_pool j : j ∈ js -> 0 <= Z.of_nat j < bit_num (btmp (h_ppool H));
  pt_dirs : dirs_kept D s v
}.

Lemma taken_free n pb x j : take n (clear_from 0 pb) !! x = Some j -> pb !! j = Some false.
Proof.
  intros Hj%list_elem_of_lookup_2. apply elem_of_take in Hj as (y & Hy & _).
  by apply list_elem_of_lookup_2, clear_from_elem in Hy as (j' & -> & Hj').
Qed.

Lemma kernel_pages_malloc_ok H k vb pb (n : nat) i0 :
  heap_rep D H k vb pb -> (0 < n)%nat -> Z.of_nat n < 3840 -> run vb false n i0 ->
  (n <= length (clear_from 0 pb))%nat ->
  exists (i : nat) v, run vb false n i /\ (forall i', (i' < i)%nat -> ~ run vb false n i')
    /\ kernel_pages_malloc (Z.of_nat n) k = Ok (page_at H (Z.of_nat i)) (with_vm v k)
    /\ heap_rep D H (with_vm v k) (mark i n vb) (used (take n (clear_from 0 pb)) pb)
    /\ pages_taken H (k_vm k) v (Z.of_nat i) (Z.of_nat n) (take n (clear_from 0 pb)).
Proof.
  intros R Hn Hn' Hrun Hlen.
  destruct (malloc_page_ok D H k vb pb n R Hn Hn') as [[_ Hno]|(i & v1 & v & Hi & Hlow & E & R' & M & B)];
    [by destruct (Hno i0)|].
  pose proof (hr_tables _ _ _ _ _ R) as T. destruct (pool_sizes _ _ _ _ _ R) as (Sv & _ & Lv & _).
  assert (Hin : forall x, (x < n)%nat -> vb !! (i + x)%nat = Some false) by (intros; by apply Hi).
  assert (Hib : Z.of_nat i + Z.of_nat n <= bit_num (btmp (h_vpool H))).
  { specialize (Hin (n - 1)%nat ltac:(lia)). apply lookup_lt_Some in Hin. lia. }
  assert (Hblock : forall a, in_block (page_at H (Z.of_nat i)) (PG_SIZE * Z.of_nat n) a ->
    exists x o, (x < n)%nat /\ 0 <= o < PAGE /\ a = page_at H (Z.of_nat i + Z.of_nat x) + o).
  { unfold in_block, page_at, PG_SIZE, PAGE. intros a Ha.
    exists (Z.to_nat ((a - (addr_base (h_vpool H) + 4096 * Z.of_nat i)) / 4096)),
      ((a - (addr_base (h_vpool H) + 4096 * Z.of_nat i)) mod 4096). split_and!; zdiv_lia. }
  assert (Hun : forall d x o, d ∈ cr3 (k_vm k) :: D -> (x < n)%nat -> 0 <= o < PAGE ->
    translate (under (k_vm k) d) (page_at H (Z.of_nat i + Z.of_nat x) + o) = None).
  { intros d x o Hd Hx Ho. eapply page_free_unmapped; [done|lia| |done|done].
    rewrite <- Nat2Z.inj_add. apply (hr_pages _ _ _ _ _ R). by apply Hin. }
  rewrite (proj2 (Nat.leb_le _ _) Hlen) in E.
  assert (Hnn : page_at H (Z.of_nat i) <> NULL).
  { pose proof (to_range D _ _ T). unfold page_at, PG_SIZE, NULL in *. lia. }
  exists i, v. do 2 (split; [done|]). split; [|split; [done|]].
  { unfold kernel_pages_malloc. erewrite bind_ok by exact E. by rewrite (proj2 (Z.eqb_neq _ _) Hnn). }
  pose proof (modifies_grows _ _ _ M) as G1. pose proof (gr_cr3 _ _ G1) as C1.
  assert (K1 : vm_keeps D (k_vm k) v1) by exact (modifies_keeps _ _ _ M).
  constructor.
  - destruct B as [C2 P K O X _ _ _ _]. rewrite C1 in *. constructor.
    + done.
    + intros a Va. by apply K, (gr_valid _ _ G1).
    + intros d b p Hd Kb Tb. rewrite O; [by apply (gr_map _ _ G1)|done|done|].
      intros x Hx Hf. specialize (Hun d (Z.to_nat (x - Z.of_nat i)) (b mod PAGE) Hd ltac:(lia)
        ltac:(apply Z.mod_pos_bound; done)).
      rewrite Z2Nat.id in Hun by lia. replace (Z.of_nat i + (x - Z.of_nat i)) with x in Hun by lia.
      rewrite <- Hf in Hun. replace (frame b + b mod PAGE) with b in Hun by (unfold frame; lia).
      congruence.
    + intros d Hd _. replace (under v d) with (under (k_vm (with_vm v k)) d) by done.
      eapply (to_self D H); [exact (hr_tables _ _ _ _ _ R')|]. simpl. by rewrite C2.
    + intros _. exact (to_u8 D H _ (hr_tables _ _ _ _ _ R')).
    + intros q Hq. by apply X, (gr_phys _ _ G1).
  - intros a Ha. destruct (Hblock (page_at H (Z.of_nat i) + a)) as (x & o & Hx & Ho & ->);
      [unfold in_block; lia|].
    destruct (lookup_lt_is_Some_2 (take n (clear_from 0 pb)) x) as [j Hj];
      [rewrite length_take; lia|].
    eapply (bk_page _ _ _ _ _ _ _ B); [exact Hj|by left|done].
  - intros a (Ka & p & w & _ & _ & Hd) (x & o & Hx & Ho & ->)%Hblock.
    destruct (Hd (cr3 (k_vm k))) as (Ta & _); [left|]. by rewrite Hun in Ta by (done || left).
  - intros a Va Nv Np. destruct (bk_kept _ _ _ _ _ _ _ B a (gr_valid _ _ G1 a Va)) as [_ ->]; [|done].
    exact (modifies_load _ _ _ a M Va Nv).
  - intros x j d o Hj Hd Ho. rewrite <- C1 in Hd. by apply (bk_page _ _ _ _ _ _ _ B x j d o).
  - intros x j o Hj Ho. rewrite (bk_new _ _ _ _ _ _ _ B x j) by done.
    destruct (pool_sizes _ _ _ _ _ R) as (_ & _ & _ & _).
    eapply keeps_frame; [exact K1|]. destruct (hr_pbase _ _ _ _ _ R) as (Hm & _).
    rewrite frame_aligned by (unfold frame_at, PG_SIZE, PAGE in *; zdiv_lia || done).
    apply (hr_frames _ _ _ _ _ R). by eapply taken_free.
  - intros q Fq Hj. rewrite (bk_free _ _ _ _ _ _ _ B q); [|by eapply keeps_frame_free|done].
    by eapply keeps_frame.
  - intros g Fg Hj. apply (bk_frames _ _ _ _ _ _ _ B); [by eapply keeps_frame_free|done].
  - intros d a p Hd Ra Tp. destruct (bk_reach _ _ _ _ _ _ _ B d a p) as [T1|?]; [by rewrite C1|done|done| |by right].
    left. rewrite <- T1. symmetry. destruct K1 as (_ & K1 & _). apply keeps_translate; [by apply K1|done].
  - intros j [x Hx]%list_elem_of_lookup_1. apply taken_free, lookup_lt_Some in Hx.
    destruct (pool_sizes _ _ _ _ _ R) as (_ & _ & _ & Lp). lia.
  - apply (dirs_kept_trans D _ v1); [done|by apply keeps_dirs|apply B].
Qed.

(** A frame that nobody uses, and that is none of the pool's, stays so. *)
Lemma taken_spare H s v i n js f : pages_taken H s v i n js -> outside H f -> spare D s f -> spare D v f.
Proof.
  intros Pt O [F N]. split.
  - apply (pt_frames _ _ _ _ _ _ Pt); [done|]. intros j Hj. by apply O, (pt_pool _ _ _ _ _ _ Pt).
  - intros d a p. rewrite (gr_cr3 _ _ (pt_grows _ _ _ _ _ _ Pt)). intros Hd Ha Tp.
    destruct (pt_reach _ _ _ _ _ _ Pt d a p Hd ltac:(unfold user_addr in Ha; lia) Tp) as [T|(j & Hj & Ep)];
      [by apply (N d a p)|].
    rewrite Ep. intros E. by apply (O (Z.of_nat j)); [apply (pt_pool _ _ _ _ _ _ Pt)|].
Qed.

(** The bytes of the frames that are free in the end are as they were. *)
Definition untouched H s v (pb : list bool) : Prop := forall (j : nat) o, pb !! j = Some false -> 0 <= o < PAGE ->
  phys v !! (frame_at H (Z.of_nat j) + o) = phys s !! (frame_at H (Z.of_nat j) + o).

Lemma untouched_trans H s1 s2 s3 pb : untouched H s1 s2 pb -> untouched H s2 s3 pb -> untouched H s1 s3 pb.
Proof. intros U1 U2 j o Hj Ho. by rewrite U2, U1. Qed.

Lemma untouched_fewer H s1 s2 pb pb' : untouched H s1 s2 pb ->
  (forall j, pb' !! j = Some false -> pb !! j = Some false) -> untouched H s1 s2 pb'.
Proof. intros U Hp j o Hj Ho. by apply U; [apply Hp|]. Qed.

Lemma pool_frame H k vb pb (j : nat) o : heap_rep D H k vb pb -> 0 <= o < PAGE ->
  frame (frame_at H (Z.of_nat j) + o) = frame_at H (Z.of_nat j).
Proof.
  intros R Ho. destruct (hr_pbase _ _ _ _ _ R) as (Hm & _).
  apply frame_aligned; [unfold frame_at, PG_SIZE, PAGE in *; zdiv_lia|done].
Qed.

Lemma modifies_untouched H k vb pb P v : heap_rep D H k vb pb -> modifies P (k_vm k) v ->
  untouched H (k_vm k) v pb.
Proof.
  intros R M j o Hj Ho. apply (keeps_frame D); [exact (modifies_keeps _ _ _ M)|].
  rewrite (pool_frame _ _ _ _ _ _ R Ho). by apply (hr_frames _ _ _ _ _ R).
Qed.

Lemma used_free js (pb : list bool) j : used js pb !! j = Some false -> pb !! j = Some false /\ j ∉ js.
Proof.
  revert pb. induction js as [|x js IH]; intros pb; simpl.
  - split; [done|apply not_elem_of_nil].
  - intros [Hj Hn]%IH. split; [by eapply insert_true_free|]. apply not_elem_of_cons. split; [|done].
    intros ->. destruct (decide (x < length pb)%nat) as [Hl|Hl].
    + by rewrite list_lookup_insert_eq in Hj.
    + apply lookup_lt_Some in Hj. rewrite length_insert in Hj. lia.
Qed.

Lemma taken_untouched H k vb pb v i n js : heap_rep D H k vb pb -> pages_taken H (k_vm k) v i n js ->
  untouched H (k_vm k) v (used js pb).
Proof.
  intros R Pt j o [Hj Hn]%used_free Ho. apply (pt_free _ _ _ _ _ _ Pt);
    rewrite (pool_frame _ _ _ _ _ _ R Ho); [by apply (hr_frames _ _ _ _ _ R)|].
  intros x Hx Ef. apply Hn. unfold frame_at, PG_SIZE in Ef. by replace j with x by lia.
Qed.

(** How memory evolves when the kernel takes pages and works in them: other
    data changes only in [mask] and in the bitmaps of the pools. *)
Record evolves H (mask : Z -> Prop) s v (pb : list bool) : Prop := {
  ev_grows : grows s v;
  ev_untouched : untouched H s v pb;
  ev_load a : vm_valid D s a -> ~ mask a -> ~ bitmap_byte (btmp (h_vpool H)) a ->
    ~ bitmap_byte (btmp (h_ppool H)) a -> vm_load v a = vm_load s a;
  ev_spare f : outside H f -> spare D s f -> spare D v f;
  ev_dirs : dirs_kept D s v
}.

Lemma evolves_trans H mask s1 s2 s3 pb pb' : evolves H mask s1 s2 pb -> evolves H mask s2 s3 pb' ->
  (forall j, pb' !! j = Some false -> pb !! j = Some false) -> evolves H mask s1 s3 pb'.
Proof.
  intros [G1 U1 L1 S1 D1] [G2 U2 L2 S2 D2] Hp. constructor; [..|by auto|].
  - by eapply grows_trans.
  - eapply untouched_trans; [by eapply untouched_fewer|done].
  - intros a Va N1 N2 N3. rewrite L2; [by apply L1|by apply (gr_valid _ _ G1)|done..].
  - by apply (dirs_kept_trans D _ s2); [apply G1|..].
Qed.

Lemma evolves_weaken H (P Q : Z -> Prop) s v pb : evolves H P s v pb -> (forall a, P a -> Q a) -> evolves H Q s v pb.
Proof. intros [] HPQ. constructor; auto. Qed.

(** A write that leaves the free frames alone. *)
Lemma write_evolves H k vb pb P v : heap_rep D H k vb pb -> modifies P (k_vm k) v -> evolves H P (k_vm k) v pb.
Proof.
  intros R M. constructor.
  - by eapply modifies_grows.
  - by eapply modifies_untouched.
  - intros a Va Na _ _. exact (modifies_load _ _ _ _ M Va Na).
  - intros f _. apply keeps_spare. exact (modifies_keeps _ _ _ M).
  - apply keeps_dirs. exact (modifies_keeps _ _ _ M).
Qed.

Lemma taken_evolves H k vb pb v i n js mask : heap_rep D H k vb pb -> pages_taken H (k_vm k) v i n js ->
  evolves H mask (k_vm k) v (used js pb).
Proof.
  intros R Pt. constructor; [apply Pt|by eapply taken_untouched|..].
  - intros a Va _. by apply (pt_load _ _ _ _ _ _ Pt).
  - intros f. by eapply taken_spare.
  - apply Pt.
Qed.

(** A write to memory that is new since the start, or to the mask. *)
Lemma evolves_write H mask k vb pb s P v : evolves H mask s (k_vm k) pb -> heap_rep D H k vb pb ->
  modifies P (k_vm k) v -> (forall a, vm_valid D s a -> P a -> mask a) -> evolves H mask s v pb.
Proof.
  intros [G U Ld Sp Dk] R M HP. constructor.
  - eapply grows_trans; [exact G|by eapply modifies_grows].
  - eapply untouched_trans; [exact U|by eapply modifies_untouched].
  - intros a Va N1 N2 N3. rewrite (modifies_load _ _ _ _ M); [by apply Ld|by apply (gr_valid _ _ G)|auto].
  - intros f O Sf. eapply keeps_spare; [exact (modifies_keeps _ _ _ M)|by apply Sp].
  - apply (dirs_kept_trans D _ (k_vm k)); [apply G|done|]. apply keeps_dirs. exact (modifies_keeps _ _ _ M).
Qed.

Lemma mask_valid k qs L a : sched_rep D k qs L -> mask_byte k a -> vm_valid D (k_vm k) a.
Proof.
  intros R Ha. pose proof (sr_mask _ _ _ _ R) as (_ & _ & _ & Vm & _).
  replace a with (base_addr (rq_mask (k_sched k)) + (a - base_addr (rq_mask (k_sched k)))) by lia.
  apply Vm. unfold mask_byte in Ha. lia.
Qed.

(** ** A new control block *)

Lemma born_links t tc k L : fresh L t -> lists_rep (k_links k) L ->
  lists_rep (k_links (with_born t tc k)) L.
Proof. intros F HL. exact (new_tcb_lists t k L F HL). Qed.

Lemma born_node t tc k a : a ∈ tcb_nodes t -> is_Some (k_links (with_born t tc k) !! a).
Proof.
  intros Ha. change (k_links (with_born t tc k))
    with (foldr (fun a h => <[a := no_elem]> h) (k_links k) (tcb_nodes t)).
  rewrite new_nodes, decide_True by done. by eexists.
Qed.

Lemma born_keeps_node t tc k a : is_Some (k_links k !! a) -> is_Some (k_links (with_born t tc k) !! a).
Proof.
  intros Ha. change (k_links (with_born t tc k))
    with (foldr (fun a h => <[a := no_elem]> h) (k_links k) (tcb_nodes t)).
  rewrite new_nodes. case_decide; [by eexists|done].
Qed.

Lemma rep_born k qs L t tc : sched_rep D k qs L -> k_tcbs k !! t = None -> fresh L t ->
  t mod PG_SIZE = 0 /\ 0 < t < 2 ^ 32 - PG_SIZE -> 0 <= priority tc < PRIO_NUM -> pg_dir tc = NULL ->
  sched_rep D (with_born t tc k) qs L.
Proof.
  intros R Hnew F [Ha Ht] Hp Hd.
  assert (Htc : forall x, k_tcbs (with_born t tc k) !! x = if decide (t = x) then Some tc else k_tcbs k !! x)
    by (intros; apply lookup_insert).
  assert (Ro : ~ owned L (ready_tag t)) by (apply F; left).
  pose proof (sr_tcbs _ _ _ _ R) as Htcbs.
  destruct R. constructor; try done.
  - by apply born_links.
  - intros p q x Hq Hx. destruct (sr_queued0 p q x Hq Hx) as (xc & Hx' & Hxp). rewrite Htc.
    rewrite decide_False by (intros <-; congruence). by exists xc.
  - intros x xc. rewrite Htc. case_decide as E; [subst x; intros [= <-]|].
    + do 2 (split; [done|]). split; [apply born_node; left|by left].
    + intros Hx. destruct (Htcbs x xc Hx) as (H1 & H2 & H3 & H4). do 2 (split; [done|]).
      split; [by apply born_keeps_node|done].
  - intros x. rewrite Htc. case_decide as E; [by subst x|apply sr_aligned0].
  - intros x Hx. rewrite Htc. case_decide as E; [by subst x|by apply sr_ready0].
Qed.

(** ** The invariant of the kernel *)

Record kernel_ok H k qs L vb pb (ts : list Z) : Prop := {
  ko_sched : sched_rep D k qs L;
  ko_heap : heap_rep D H k vb pb;
  ko_apart a : mask_byte k a ->
    ~ bitmap_byte (btmp (h_vpool H)) a /\ ~ bitmap_byte (btmp (h_ppool H)) a;
  ko_pid : mutex_free k L pid_mtx;
  ko_all : L !! all_list = Some (all_list_tag <$> ts);
  ko_threads t : t ∈ ts -> is_Some (k_tcbs k !! t);
  ko_table : length (thread_table (k_sched k)) = 128%nat;
  ko_running : is_Some (k_tcbs k !! running_thread (k_sched k));
  ko_idle : is_Some (k_tcbs k !! idle_thread (k_sched k));
  ko_dirs t tc : k_tcbs k !! t = Some tc -> pg_dir tc <> NULL -> kernel_addr (pg_dir tc);
  ko_free i : vb !! i = Some false ->
    fresh L (page_at H (Z.of_nat i)) /\ k_tcbs k !! page_at H (Z.of_nat i) = None
}.

Lemma page_addr H s i : tables_ok D H s -> 0 <= i < bit_num (btmp (h_vpool H)) ->
  page_at H i mod PG_SIZE = 0 /\ 0xc0000000 <= page_at H i < 2 ^ 32 - PG_SIZE.
Proof.
  intros T Hi. pose proof (to_range _ _ _ T). unfold page_at, PG_SIZE, PAGE in *. zdiv_lia.
Qed.

Lemma ko_u8 H k qs L vb pb ts : kernel_ok H k qs L vb pb ts -> all_u8 (k_vm k).
Proof. intros K. exact (to_u8 _ _ _ (hr_tables _ _ _ _ _ (ko_heap _ _ _ _ _ _ _ K))). Qed.

(** Other memory changed. *)
Lemma kernel_ok_vm H k qs L vb pb ts v vb' pb' : kernel_ok H k qs L vb pb ts ->
  heap_rep D H (with_vm v k) vb' pb' -> grows (k_vm k) v ->
  (forall a, mask_byte k a -> vm_valid D (k_vm k) a -> vm_load v a = vm_load (k_vm k) a) ->
  (forall i, vb' !! i = Some false -> vb !! i = Some false) ->
  kernel_ok H (with_vm v k) qs L vb' pb' ts.
Proof.
  intros K R G Hm Hv. pose proof (ko_u8 _ _ _ _ _ _ _ K) as U. destruct K.
  constructor; try done.
  - by eapply rep_grows.
  - by split; apply ko_pid0.
  - intros i Hi. by apply ko_free0, Hv.
Qed.

Lemma heap_rep_ext H k k' vb pb : k_vm k' = k_vm k -> k_pools k' = k_pools k ->
  heap_rep D H k vb pb -> heap_rep D H k' vb pb.
Proof. intros E1 E2 []. constructor; rewrite ?E1, ?E2; done. Qed.

Lemma heap_write H k vb pb P v : heap_rep D H k vb pb -> modifies P (k_vm k) v ->
  (forall a, P a -> ~ bitmap_byte (btmp (h_vpool H)) a /\ ~ bitmap_byte (btmp (h_ppool H)) a) ->
  heap_rep D H (with_vm v k) vb pb.
Proof.
  intros R M HP. eapply heap_rep_vm; [exact R|exact (modifies_keeps _ _ _ M)| | |done|done].
  - eapply bitmap_rep_modifies; [exact M| |exact (hr_vbits _ _ _ _ _ R)].
    intros i Hi Pi. apply HP in Pi as (Nv & _). apply Nv. unfold bitmap_byte. lia.
  - eapply bitmap_rep_modifies; [exact M| |exact (hr_pbits _ _ _ _ _ R)].
    intros i Hi Pi. apply HP in Pi as (_ & Np). apply Np. unfold bitmap_byte. lia.
Qed.

(** Of the mutexes, only that of the process numbers matters. *)
Lemma kernel_ok_locks H k k' qs L vb pb ts : k_vm k' = k_vm k -> k_links k' = k_links k ->
  k_tcbs k' = k_tcbs k -> k_sched k' = k_sched k -> k_pools k' = k_pools k -> mutex_free k' L pid_mtx ->
  kernel_ok H k qs L vb pb ts -> kernel_ok H k' qs L vb pb ts.
Proof.
  intros E1 E2 E3 E4 E5 M []. constructor; rewrite ?E3, ?E4; try done.
  - apply (rep_ext D k k'); congruence.
  - by apply (heap_rep_ext H k).
  - intros a. unfold mask_byte. rewrite E4. apply ko_apart0.
Qed.

(** Ports, descriptor tables, ring buffers and the clock do not matter. *)
Lemma kernel_ok_ext H k k' qs L vb pb ts : k_vm k' = k_vm k -> k_links k' = k_links k ->
  k_tcbs k' = k_tcbs k -> k_sched k' = k_sched k -> k_sems k' = k_sems k ->
  k_holders k' = k_holders k -> k_pools k' = k_pools k ->
  kernel_ok H k qs L vb pb ts -> kernel_ok H k' qs L vb pb ts.
Proof.
  intros E1 E2 E3 E4 E5 E6 E7 K. apply (kernel_ok_locks H k k'); [done..| |exact K].
  destruct (ko_pid _ _ _ _ _ _ _ K). split; congruence.
Qed.

(** A write outside the mask and the heap's bitmaps. *)
Lemma kernel_ok_write H k qs L vb pb ts P v : kernel_ok H k qs L vb pb ts -> modifies P (k_vm k) v ->
  (forall a, P a -> ~ mask_byte k a /\ ~ bitmap_byte (btmp (h_vpool H)) a
     /\ ~ bitmap_byte (btmp (h_ppool H)) a) ->
  kernel_ok H (with_vm v k) qs L vb pb ts.
Proof.
  intros K M HP. pose proof (ko_heap _ _ _ _ _ _ _ K) as R. eapply kernel_ok_vm; [exact K| | | |done].
  - eapply heap_write; [exact R|exact M|]. intros a Pa. by apply HP in Pa as (_ & ?).
  - by eapply modifies_grows.
  - intros a Ha Va. apply (modifies_load _ _ _ _ M Va). intros Pa. by apply HP in Pa as (N & _).
Qed.

(** A control block was added in a page that is in use. *)
Lemma kernel_ok_born H k qs L vb pb ts t tc : kernel_ok H k qs L vb pb ts ->
  k_tcbs k !! t = None -> fresh L t ->
  t mod PG_SIZE = 0 /\ 0 < t < 2 ^ 32 - PG_SIZE -> 0 <= priority tc < PRIO_NUM -> pg_dir tc = NULL ->
  (forall j, vb !! j = Some false -> page_at H (Z.of_nat j) <> t) ->
  kernel_ok H (with_born t tc k) qs L vb pb ts.
Proof.
  intros K Hnew F Ha Hp Hd Hj.
  assert (Htc : forall x, k_tcbs (with_born t tc k) !! x = if decide (t = x) then Some tc else k_tcbs k !! x)
    by (intros; apply lookup_insert).
  assert (Hsome : forall x, is_Some (k_tcbs k !! x) -> is_Some (k_tcbs (with_born t tc k) !! x)).
  { intros x Hx. rewrite Htc. case_decide; [by eexists|done]. }
  destruct K. constructor; try done.
  - by apply rep_born.
  - by destruct ko_heap0.
  - split; [apply lookup_insert_eq|exists NULL; apply lookup_insert_eq|apply ko_pid0].
  - auto.
  - unfold with_born. simpl. destruct (free_slot _); [by rewrite length_insert|done].
  - by apply Hsome.
  - by apply Hsome.
  - intros x xc. rewrite Htc. case_decide as E; [by intros [= <-]|apply ko_dirs0].
  - intros j Hj'. destruct (ko_free0 j Hj') as [F' N']. split; [done|].
    rewrite Htc, decide_False; [done|]. intros E. by apply (Hj j).
Qed.

Definition new_thread (t prio : Z) (nm : list Z) k : tcb :=
  tcb_stack_top (first_stack t)
    (born TASK_READY (pid_of_slot (thread_table (k_sched k))) prio (u32 (t + PG_SIZE)) nm).

Lemma thread_init_ok entry H k qs L vb pb ts t nm prio func func_arg :
  kernel_ok H k qs L vb pb ts -> valid_block (k_vm k) t PG_SIZE ->
  t mod PG_SIZE = 0 /\ 0 < t < 2 ^ 32 - PG_SIZE -> k_tcbs k !! t = None -> fresh L t ->
  (forall a, in_block t PG_SIZE a -> ~ mask_byte k a /\ ~ bitmap_byte (btmp (h_vpool H)) a
     /\ ~ bitmap_byte (btmp (h_ppool H)) a) ->
  (forall j, vb !! j = Some false -> page_at H (Z.of_nat j) <> t) ->
  (length nm <= NAME_LEN)%nat -> 0 <= prio < PRIO_NUM ->
  is_u32 entry -> is_u32 func -> is_u32 func_arg ->
  exists v, let k' := with_born t (new_thread t prio nm k) (with_vm v k) in
    thread_init entry t nm prio func func_arg k = Ok tt k'
    /\ kernel_ok H k' qs L vb pb ts
    /\ framed v (first_stack t) THREAD_STACK_SIZE (first_frame entry func func_arg) v
    /\ modifies (in_block t PG_SIZE) (k_vm k) v.
Proof.
  intros K V Ha Hnew F Hpage Hj Hnm Hp He Hf Hfa. pose proof Ha as [Ha1 Ha2].
  assert (C : creatable D k L t nm).
  { constructor; try done; apply K. }
  destruct (thread_tcb_init_ok D t k L nm prio C) as (v1 & E1 & M1); [unfold PRIO_NUM in Hp; lia|].
  assert (Hidle : (t =? idle_thread (k_sched k)) = false).
  { apply Z.eqb_neq. intros ->. destruct (ko_idle _ _ _ _ _ _ _ K) as [x Hx]. congruence. }
  rewrite Hidle in E1. set (tc := born _ _ _ _ _) in E1.
  assert (V1 : valid_block v1 t PG_SIZE) by by eapply valid_block_modifies.
  destruct (thread_stack_init_ok D entry t (with_born t tc (with_vm v1 k)) tc func func_arg)
    as (v2 & E2 & F2); [apply lookup_insert_eq| |done|done|done|done|done|].
  { unfold tc, born. simpl. unfold PG_SIZE in *. by rewrite u32_small by lia. }
  simpl k_vm in F2. pose proof F2 as (_ & M2 & _).
  assert (M : modifies (in_block t PG_SIZE) (k_vm k) v2).
  { etransitivity; (eapply modifies_weaken; [eassumption|]); unfold in_block, TCB_SIZE, first_stack,
      THREAD_STACK_SIZE, INTR_STACK_SIZE, PG_SIZE; intros; lia. }
  exists v2. cbv zeta. split; [|split; [|split; [by eapply framed_now|done]]].
  - unfold thread_init. erewrite bind_ok by exact E1. rewrite E2.
    change (k_tcbs (with_born t tc (with_vm v1 k))) with (<[t := tc]> (k_tcbs k)).
    by rewrite insert_insert_eq.
  - apply kernel_ok_born; try done. by eapply kernel_ok_write.
Qed.

(** [thread_create], given that the heap has a page. *)
Lemma thread_create_ok entry H k qs L vb pb ts i0 nm prio func func_arg :
  kernel_ok H k qs L vb pb ts -> vb !! i0 = Some false -> clear_from 0 pb <> [] ->
  (length nm <= NAME_LEN)%nat -> 0 <= prio < PRIO_NUM ->
  is_u32 entry -> is_u32 func -> is_u32 func_arg ->
  exists (i : nat) v, let t := page_at H (Z.of_nat i) in
    let k' := with_born t (new_thread t prio nm k) (with_vm v k) in
    vb !! i = Some false /\ (forall j, (j < i)%nat -> vb !! j <> Some false)
    /\ thread_create entry nm prio func func_arg k = Ok t k'
    /\ kernel_ok H k' qs L (<[i := true]> vb) (used (take 1 (clear_from 0 pb)) pb) ts
    /\ framed v (first_stack t) THREAD_STACK_SIZE (first_frame entry func func_arg) v
    /\ valid_block v t PG_SIZE /\ (forall a, vm_valid D (k_vm k) a -> ~ in_block t PG_SIZE a)
    /\ evolves H (mask_byte k) (k_vm k) v (used (take 1 (clear_from 0 pb)) pb).
Proof.
  intros K Hi0 Hpb Hnm Hp He Hf Hfa. pose proof (ko_heap _ _ _ _ _ _ _ K) as R.
  pose proof (proj2 (run_one vb i0) Hi0) as Hrun.
  destruct (kernel_pages_malloc_ok H k vb pb 1 i0 R ltac:(lia) ltac:(lia) Hrun)
    as (i & v1 & Hi & Hlow & E & R1 & Hpt); [destruct (clear_from 0 pb); simpl; [done|lia]|].
  pose proof (taken_evolves _ _ _ _ _ _ _ _ (mask_byte k) R Hpt) as Ev. destruct Hpt as [G1 Vp Hnw Hld _ _ _ _].
  pose proof (proj1 (run_one vb i) Hi) as Hvi.
  simpl mark in R1. rewrite Nat.add_0_r in R1. set (t := page_at H (Z.of_nat i)) in *.
  change (Z.of_nat 1) with 1 in *. rewrite Z.mul_1_r in Vp, Hnw.
  pose proof (hr_tables _ _ _ _ _ R) as T. destruct (pool_sizes _ _ _ _ _ R) as (_ & _ & Lv & _).
  pose proof (lookup_lt_Some _ _ _ Hvi) as Hlt.
  destruct (page_addr H _ (Z.of_nat i) T ltac:(lia)) as [Ha1 Ha2]. fold t in Ha1, Ha2.
  destruct (ko_free _ _ _ _ _ _ _ K i Hvi) as [F N]. fold t in F, N.
  pose proof (fun a => mask_valid k qs L a (ko_sched _ _ _ _ _ _ _ K)) as Hm.
  assert (Hins : forall j, <[i:=true]> vb !! j = Some false -> vb !! j = Some false /\ j <> i).
  { intros j Hj. split; [by eapply insert_true_free|]. intros ->.
    by rewrite list_lookup_insert_eq in Hj. }
  assert (K1 : kernel_ok H (with_vm v1 k) qs L (<[i := true]> vb) (used (take 1 (clear_from 0 pb)) pb) ts).
  { eapply kernel_ok_vm; [exact K|exact R1|exact G1| |by intros j [? _]%Hins].
    intros a Ha Va. destruct (ko_apart _ _ _ _ _ _ _ K a Ha). by apply Hld. }
  assert (Hbv : forall b bits a, bitmap_rep (k_vm k) b bits -> bitmap_byte b a -> vm_valid D (k_vm k) a).
  { intros b bits a (_ & _ & _ & Vb & _) Ha. replace a with (base_addr b + (a - base_addr b)) by lia.
    apply Vb. unfold bitmap_byte in Ha. lia. }
  destruct (thread_init_ok entry H (with_vm v1 k) qs L _ _ ts t nm prio func func_arg K1 Vp)
    as (v2 & E2 & K2 & F2 & M2); try done.
  { split; [done|lia]. }
  { intros a Ha. split_and!; intros Hb; apply (Hnw a); try done; [by apply Hm|..].
    - by eapply Hbv; [apply R|].
    - by eapply Hbv; [apply (hr_pbits _ _ _ _ _ R)|]. }
  { intros j [Hj Hne]%Hins Eq. apply Hne. unfold t, page_at, PG_SIZE in Eq. lia. }
  exists i, v2. cbv zeta. fold t. split; [done|].
  split; [by intros j Hj Hb%run_one; apply (Hlow j)|].
  split; [|split; [exact K2|split; [done|split; [|split; [exact Hnw|]]]]].
  - unfold thread_create. erewrite bind_ok by exact E. by erewrite bind_ok by exact E2.
  - by eapply valid_block_modifies.
  - apply (evolves_write H _ (with_vm v1 k) _ _ _ _ _ Ev R1 M2). intros a Va Pa. by destruct (Hnw a).
Qed.

(** A mutex that starting the thread [t] has nothing to do with. *)
Record bystander (t mtx : Z) : Prop := {
  by_queues : sem_waiters (mutex_sem mtx) ∉ rq_addrs;
  by_all : sem_waiters (mutex_sem mtx) <> all_list;
  by_sems : mutex_sem mtx <> mutex_sem pid_mtx /\ mutex_sem mtx <> mutex_sem (pool_mtx (pool_of t));
  by_holders : mtx <> pid_mtx /\ mtx <> pool_mtx (pool_of t)
}.

Definition bystanders_free t k k' L L' : Prop :=
  forall mtx, bystander t mtx -> mutex_free k L mtx -> mutex_free k' L' mtx.

Lemma born_bystanders t tc k L mtx : bystander t mtx -> mutex_free k L mtx -> mutex_free (with_born t tc k) L mtx.
Proof.
  intros [_ _ [S1 S2] [H1 H2]] [Hs Hh Hw]. split; [| |done].
  - change (k_sems (with_born t tc k)) with
      (<[mutex_sem pid_mtx := 1]> (<[mutex_sem (pool_mtx (pool_of t)) := 0]> (k_sems k))).
    by rewrite !lookup_insert_ne by congruence.
  - change (k_holders (with_born t tc k)) with
      (<[pid_mtx := NULL]> (<[pool_mtx (pool_of t) := NULL]> (k_holders k))).
    by rewrite !lookup_insert_ne by congruence.
Qed.

(** ** Entering the queues *)

(** A queue that was joined owns no other new node. *)
Lemma joined_owned k k' qs L L' p t a : sched_rep D k qs L -> sched_rep D k' (enqueue p t qs) L' ->
  other_lists L L' -> owned L' a -> owned L a \/ a = ready_tag t.
Proof.
  intros R R' Ho (l & xs & Hl & Ha). destruct (decide (l ∈ rq_addrs)) as [Hin|Hn].
  2: { left. exists l, xs. by rewrite <- Ho. }
  apply rq_addrs_inv in Hin as (j & Hj & ->).
  destruct (lookup_lt_is_Some_2 qs j) as [q Hq]; [by rewrite (sr_levels _ _ _ _ R)|].
  destruct (lookup_lt_is_Some_2 (enqueue p t qs) j) as [q' Hq'];
    [by rewrite (sr_levels _ _ _ _ R')|].
  rewrite (sr_rqs _ _ _ _ R' _ _ Hq') in Hl. injection Hl as <-.
  assert (Hqq : forall x, x ∈ q' -> x ∈ q \/ x = t).
  { unfold enqueue in Hq'. rewrite on_level_lookup in Hq'. case_decide as E.
    - subst j. rewrite Hq in Hq'. injection Hq' as <-. intros x. rewrite elem_of_app, list_elem_of_singleton. tauto.
    - rewrite Hq in Hq'. injection Hq' as <-. auto. }
  assert (Hold : forall b, b ∈ nodes (THIS_RQ (Z.of_nat j)) (ready_tag <$> q) -> owned L b).
  { intros b Hb. exists (THIS_RQ (Z.of_nat j)), (ready_tag <$> q).
    split; [by apply (sr_rqs _ _ _ _ R)|done]. }
  unfold nodes in *. apply elem_of_cons in Ha as [->|Ha]; [left; apply Hold; left|].
  apply elem_of_app in Ha as [(x & -> & Hx)%list_elem_of_fmap|Ha].
  - destruct (Hqq x Hx) as [Hx'| ->]; [left|by right]. apply Hold. right. apply elem_of_app. left.
    by apply list_elem_of_fmap_2.
  - left. apply Hold. right. apply elem_of_app. by right.
Qed.

Lemma fixed_lists : all_list ∉ rq_addrs /\ sem_waiters (mutex_sem pid_mtx) ∉ rq_addrs
  /\ sem_waiters (mutex_sem pid_mtx) <> all_list.
Proof.
  assert (E : bool_decide (all_list ∉ rq_addrs /\ sem_waiters (mutex_sem pid_mtx) ∉ rq_addrs
    /\ sem_waiters (mutex_sem pid_mtx) <> all_list) = true) by (vm_compute; reflexivity).
  by apply bool_decide_eq_true in E.
Qed.

(** The tags of two control blocks in different pages differ. *)
Lemma tags_apart t u a : t mod PG_SIZE = 0 -> u mod PG_SIZE = 0 -> t <> u ->
  a ∈ tcb_nodes u -> a <> ready_tag t /\ a <> all_list_tag t.
Proof.
  unfold tcb_nodes, ready_tag, pend_tag, all_list_tag, OFF_ready_tag, OFF_pend_tag, OFF_all_list_tag,
    list_head, list_tail, sem_waiters, mutex_sem, pool_mtx, pool_of, OFF_user_vaddr_pool, PG_SIZE.
  intros H1 H2 Hn. rewrite !elem_of_cons, elem_of_nil. zdiv_lia.
Qed.

Lemma all_tag_not_sentinel t : t mod PG_SIZE = 0 -> 0 < t ->
  all_list_tag t ∉ [list_head all_list; list_tail all_list].
Proof.
  unfold all_list_tag, OFF_all_list_tag, list_head, list_tail, all_list, scheduler, PG_SIZE.
  intros H1 H2. rewrite !elem_of_cons, elem_of_nil. zdiv_lia.
Qed.

Definition enter (t : Z) : M kernel unit :=
  scheduler_rq_join t;; zoom lists_of (list_push_back all_list (all_list_tag t)).

Lemma enter_ok H k qs L vb pb ts t tc : kernel_ok H k qs L vb pb ts ->
  k_tcbs k !! t = Some tc -> ~ queued t qs -> ~ owned L (all_list_tag t) ->
  is_Some (k_links k !! all_list_tag t) ->
  exists h v L', let k' := with_sched (preempted k (priority tc)) (with_vm v (with_links h k)) in
    enter t k = Ok tt k'
    /\ kernel_ok H k' (enqueue (Z.to_nat (priority tc)) t qs) L' vb pb (ts ++ [t])
    /\ modifies (mask_byte k) (k_vm k) v /\ dom h = dom (k_links k)
    /\ (forall a, owned L' a -> owned L a \/ a = ready_tag t \/ a = all_list_tag t)
    /\ (forall l, l ∉ rq_addrs -> l <> all_list -> L' !! l = L !! l).
Proof.
  intros K Ht Hq Hall Hnode. pose proof (ko_sched _ _ _ _ _ _ _ K) as R.
  pose proof (sr_aligned _ _ _ _ R t ltac:(eauto)) as Hal.
  destruct fixed_lists as (X1 & X2 & X3).
  destruct (rq_join_ok D k qs L t tc R Ht Hq (ko_running _ _ _ _ _ _ _ K))
    as (h & v & L' & E & R' & Hd & M & Ho). cbv zeta in *.
  set (k1 := with_sched (preempted k (priority tc)) (with_vm v (with_links h k))) in *.
  assert (Hall' : ~ owned L' (all_list_tag t)).
  { intros Hw. destruct (joined_owned k k1 qs L L' _ t _ R R' Ho Hw) as [?|Eq]; [done|].
    unfold all_list_tag, ready_tag, OFF_all_list_tag, OFF_ready_tag in Eq. lia. }
  assert (HL : L' !! all_list = Some (all_list_tag <$> ts)) by (rewrite Ho by done; apply K).
  destruct (zoom_lists_ok (list_push_back all_list (all_list_tag t)) k1 _
    (list_push_back_spec (view lists_of k1) L' _ _ _ (sr_lists _ _ _ _ R') HL Hall'
      ltac:(simpl; apply elem_of_dom; rewrite Hd; by apply elem_of_dom))) as (h2 & E2 & HL2 & Hd2).
  set (L2 := <[all_list := (all_list_tag <$> ts) ++ [all_list_tag t]]> L') in *.
  assert (Hown : forall a, owned L2 a -> owned L a \/ a = ready_tag t \/ a = all_list_tag t).
  { intros a (l & xs & Hl & Ha). unfold L2 in Hl. destruct (decide (l = all_list)) as [->|Hne].
    - rewrite lookup_insert_eq in Hl. injection Hl as <-.
      assert (Hx : a ∈ nodes all_list (all_list_tag <$> ts) \/ a = all_list_tag t).
      { revert Ha. unfold nodes. rewrite !elem_of_cons, !elem_of_app, !list_elem_of_singleton. tauto. }
      destruct Hx as [Hx|Hx]; [|by auto]. left. exists all_list, (all_list_tag <$> ts).
      split; [apply K|done].
    - rewrite lookup_insert_ne in Hl by done.
      destruct (joined_owned k k1 qs L L' _ t a R R' Ho ltac:(by exists l, xs)); auto. }
  assert (R2 : sched_rep D (with_links h2 k1) (enqueue (Z.to_nat (priority tc)) t qs) L2).
  { unfold L2. apply rep_other_list; [exact R'|done|exact HL2|done|].
    intros u Hu Hin. pose proof (sr_aligned _ _ _ _ R u Hu) as Hau.
    exfalso. revert Hin. unfold nodes. rewrite elem_of_cons, !elem_of_app, !list_elem_of_singleton.
    unfold ready_tag, OFF_ready_tag, list_head, list_tail, all_list, scheduler, PG_SIZE in *.
    intros [Hin|[[Hin|Hin]|Hin]]; [zdiv_lia| | |zdiv_lia].
    - apply list_elem_of_fmap in Hin as (w & Ew & Hw).
      pose proof (sr_aligned _ _ _ _ R w (ko_threads _ _ _ _ _ _ _ K w Hw)) as Haw.
      unfold all_list_tag, OFF_all_list_tag, PG_SIZE in *. zdiv_lia.
    - unfold all_list_tag, OFF_all_list_tag in Hin. zdiv_lia. }
  exists h2, v, L2. split; [|split; [|split; [exact M|split; [by rewrite Hd2|split; [exact Hown|]]]]].
  3: { intros l Hl Hne. unfold L2. rewrite lookup_insert_ne by done. by apply Ho. }
  { unfold enter. erewrite bind_ok by exact E. exact E2. }
  assert (Es : rq_mask (preempted k (priority tc)) = rq_mask (k_sched k)
    /\ thread_table (preempted k (priority tc)) = thread_table (k_sched k)
    /\ running_thread (preempted k (priority tc)) = running_thread (k_sched k)
    /\ idle_thread (preempted k (priority tc)) = idle_thread (k_sched k)).
  { unfold preempted. destruct (k_tcbs k !! running_thread (k_sched k)); [|done]. by destruct (_ <? _). }
  destruct Es as (Es1 & Es2 & Es3 & Es4).
  assert (Rh : heap_rep D H (with_vm v k) vb pb).
  { eapply heap_write; [apply K|exact M|]. apply K. }
  set (k2 := with_links h2 k1).
  assert (Htags : forall i, vb !! i = Some false ->
    page_at H (Z.of_nat i) mod PG_SIZE = 0 /\ t <> page_at H (Z.of_nat i)).
  { intros i Hi. destruct (ko_free _ _ _ _ _ _ _ K i Hi) as [_ N]. split; [|congruence].
    pose proof (lookup_lt_Some _ _ _ Hi). pose proof (ko_heap _ _ _ _ _ _ _ K) as Rk.
    destruct (pool_sizes _ _ _ _ _ Rk) as (_ & _ & Lv & _).
    apply (page_addr H (k_vm k)); [by eapply hr_tables|lia]. }
  pose proof Rh as Rh2. apply (heap_rep_ext H (with_vm v k) k2) in Rh2; [|done|done].
  destruct K. constructor; try done.
  - intros a. unfold mask_byte. simpl k_sched. rewrite Es1. apply ko_apart0.
  - split; [apply ko_pid0|apply ko_pid0|]. unfold L2.
    rewrite lookup_insert_ne, Ho by done. apply ko_pid0.
  - unfold L2. by rewrite lookup_insert_eq, fmap_app.
  - intros x. rewrite elem_of_app, list_elem_of_singleton. intros [Hx|Hx]; [by apply ko_threads0|subst x].
    by exists tc.
  - simpl. by rewrite Es2.
  - simpl. by rewrite Es3.
  - simpl. by rewrite Es4.
  - intros i Hi. destruct (ko_free0 i Hi) as [F N]. split; [|done]. destruct (Htags i Hi) as [H1 H2].
    intros a Ha Hw. destruct (tags_apart t _ a Hal H1 H2 Ha) as [N1 N2].
    destruct (Hown a Hw) as [Hw'|[?|?]]; [by apply (F a)|done|done].
Qed.

(** ** [thread_run] *)

Lemma born_tcbs t tc k : k_tcbs (with_born t tc k) = <[t := tc]> (k_tcbs k).
Proof. done. Qed.

(** The thread table with [t] in its first free slot, if there is one. *)
Definition entered (t : Z) (tbl : list Z) : list Z :=
  match free_slot tbl with Some i => <[i := t]> tbl | None => tbl end.

Lemma thread_run_ok entry H k qs L vb pb ts i0 rt nm prio func func_arg :
  kernel_ok H k qs L vb pb ts -> k_tcbs k !! running_thread (k_sched k) = Some rt ->
  vb !! i0 = Some false -> clear_from 0 pb <> [] ->
  (length nm <= NAME_LEN)%nat -> 0 <= prio < PRIO_NUM ->
  is_u32 entry -> is_u32 func -> is_u32 func_arg ->
  exists (i : nat) k' L', let t := page_at H (Z.of_nat i) in
    vb !! i = Some false /\ (forall j, (j < i)%nat -> vb !! j <> Some false) /\ k_tcbs k !! t = None
    /\ thread_run entry nm prio func func_arg k = Ok t k'
    /\ kernel_ok H k' (enqueue (Z.to_nat prio) t qs) L' (<[i := true]> vb)
         (used (take 1 (clear_from 0 pb)) pb) (ts ++ [t])
    /\ k_tcbs k' = <[t := new_thread t prio nm k]> (k_tcbs k)
    /\ k_sched k' = sched_table (entered t (thread_table (k_sched k)))
         (if prio <? priority rt then sched_need true (k_sched k) else k_sched k)
    /\ framed (k_vm k') (first_stack t) THREAD_STACK_SIZE (first_frame entry func func_arg) (k_vm k')
    /\ 0 < t < 2 ^ 32 - PG_SIZE
    /\ evolves H (mask_byte k) (k_vm k) (k_vm k') (used (take 1 (clear_from 0 pb)) pb)
    /\ k_io k' = k_io k /\ k_pools k' = k_pools k /\ bystanders_free t k k' L L'
    /\ valid_block (k_vm k') t PG_SIZE.
Proof.
  intros K Hrt Hi0 Hpb Hnm Hp He Hf Hfa.
  destruct (thread_create_ok entry H k qs L vb pb ts i0 nm prio func func_arg K Hi0 Hpb Hnm Hp He Hf Hfa)
    as (i & v & Hi & Hlow & E & K1 & F & Vt & Hnw & Ev). cbv zeta in *.
  set (t := page_at H (Z.of_nat i)) in *. set (tc := new_thread t prio nm k) in *.
  set (k1 := with_born t tc (with_vm v k)) in *.
  destruct (ko_free _ _ _ _ _ _ _ K i Hi) as [Fr N]. fold t in Fr, N.
  assert (Ht1 : k_tcbs k1 !! t = Some tc) by apply lookup_insert_eq.
  assert (Hr1 : k_tcbs k1 !! running_thread (k_sched k1) = Some rt).
  { change (k_tcbs k1) with (<[t := tc]> (k_tcbs k)). change (running_thread (k_sched k1)) with
      (running_thread (k_sched k)). rewrite lookup_insert_ne; [done|]. intros Eq. congruence. }
  assert (Hnq : ~ queued t qs).
  { intros (p & q & Hq & Hin). destruct (sr_queued _ _ _ _ (ko_sched _ _ _ _ _ _ _ K) p q t Hq Hin)
      as (x & Hx & _). congruence. }
  destruct (enter_ok H k1 qs L _ _ ts t tc K1 Ht1 Hnq) as (h & v' & L' & E2 & K2 & M2 & _ & _ & Ho).
  { apply Fr. right; right; left. }
  { apply born_node. right; right; left. }
  cbv zeta in *. exists i, (with_sched (preempted k1 (priority tc)) (with_vm v' (with_links h k1))), L'.
  split; [done|]. split; [exact Hlow|]. split; [done|].
  split; [|split; [exact K2|split; [done|split; [|split; [|split; [|split; [|split; [done|split; [done|split]]]]]]]]].
  - unfold thread_run. erewrite bind_ok by exact E. revert E2. unfold enter, mbind, M_bind.
    destruct (scheduler_rq_join t k1) as [[] k2| | | |]; [|done..]. by intros ->.
  - change (k_sched (with_sched ?s _)) with s. unfold preempted. rewrite Hr1.
    change (priority tc) with prio. destruct (prio <? priority rt); reflexivity.
  - eapply framed_now, framed_kept; [exact F|exact M2|]. intros a Ha Hm.
    apply (Hnw a); [|unfold in_block, first_stack, INTR_STACK_SIZE, THREAD_STACK_SIZE, PG_SIZE in *; lia].
    exact (mask_valid k qs L a (ko_sched _ _ _ _ _ _ _ K) Hm).
  - apply (sr_tcbs _ _ _ _ (ko_sched _ _ _ _ _ _ _ K2) t tc). exact Ht1.
  - apply (evolves_write H _ k1 _ _ _ _ _ Ev (ko_heap _ _ _ _ _ _ _ K1) M2). done.
  - intros mtx B M. assert (M1 : mutex_free (with_vm v k) L mtx) by by destruct M.
    apply (born_bystanders t tc (with_vm v k) L mtx B) in M1 as [Hs Hh Hw].
    split; [exact Hs|exact Hh|]. by rewrite Ho by apply B.
  - eapply valid_block_modifies; [exact M2|exact Vt].
Qed.

End Growing.
End ThreadRun.
