(* ===== verification/SchedInit.v ===== *)
(** Starting the scheduler: [scheduler_init], [idle_thread_make] and
    [thread_all_init] of [thread/thread.c], specified.

    [inited ls L]: the family of lists [L] with the new, empty lists [ls].
    After [thread_all_init] the invariant [kernel_ok] holds for the first
    time. *)

From S2P Require Import Prelude Bytes Bitmap Interrupt LinkedList Paging PageTable PageMap Words Ports.
From S2P Require Import Print Kernel ReadyQueues Sched Sync Console Memory Heap MemInit.
From S2P Require Import Thread ThreadSpec ThreadRun.

Module SchedInit.
Import Bitmap LinkedList Paging PageTable PageMap Words Kernel ReadyQueues Sched Sync Console Memory.
Import Heap MemInit Thread ThreadSpec ThreadRun.

(** ** New lists *)

Definition inited (ls : list Z) (L : gmap Z (list Z)) : gmap Z (list Z) :=
  foldl (fun L l => <[l := []]> L) L ls.

Lemma inited_snoc ls l L : inited (ls ++ [l]) L = <[l := []]> (inited ls L).
Proof. unfold inited. by rewrite foldl_snoc. Qed.

Lemma inited_lookup ls L l : inited ls L !! l = if decide (l ∈ ls) then Some [] else L !! l.
Proof.
  induction ls as [|x ls IH] using rev_ind; [by rewrite decide_False by apply not_elem_of_nil|].
  rewrite inited_snoc. destruct (decide (x = l)) as [->|N].
  - rewrite lookup_insert_eq, decide_True; [done|]. rewrite elem_of_app, list_elem_of_singleton. by right.
  - rewrite lookup_insert_ne, IH by done. repeat case_decide; try done; exfalso;
      rewrite elem_of_app, list_elem_of_singleton in *; naive_solver.
Qed.

Lemma inited_owned ls L a : owned (inited ls L) a ->
  owned L a \/ exists l, l ∈ ls /\ a ∈ nodes l [].
Proof.
  intros (l & xs & Hl & Ha). rewrite inited_lookup in Hl. case_decide as Hin.
  - injection Hl as <-. right. by exists l.
  - left. by exists l, xs.
Qed.

Lemma inited_app ls ls' L : inited ls' (inited ls L) = inited (ls ++ ls') L.
Proof. unfold inited. by rewrite foldl_app. Qed.

(** The sentinels of the lists [ls]. *)
Definition sentinels (ls : list Z) : list Z := mjoin ((fun l => nodes l []) <$> ls).

Lemma sentinel_of ls a : a ∈ sentinels ls <-> exists l, l ∈ ls /\ a ∈ nodes l [].
Proof.
  unfold sentinels. rewrite list_elem_of_join. split.
  - intros (x & Ha & (l & -> & Hl)%list_elem_of_fmap). by exists l.
  - intros (l & Hl & Ha). exists (nodes l []). split; [done|]. apply list_elem_of_fmap. by exists l.
Qed.

Lemma sentinels_snoc ls l : sentinels (ls ++ [l]) = sentinels ls ++ nodes l [].
Proof. unfold sentinels. by rewrite fmap_app, join_app. Qed.

(** The nodes of [ls] exist and are in no list. *)
Definition lists_room (h : gmap Z list_elem) L (ls : list Z) : Prop :=
  NoDup (sentinels ls) /\ forall a, a ∈ sentinels ls -> is_Some (h !! a) /\ ~ owned L a.

Lemma not_owned_new L l : ~ owned L (list_head l) -> L !! l = None.
Proof. intros O. apply eq_None_not_Some. intros [xs Hl]. apply O. exists l, xs. split; [done|left]. Qed.

Lemma lists_room_next (h h' : gmap Z list_elem) L ls l : lists_room h L (ls ++ [l]) -> dom h' = dom h ->
  (is_Some (h' !! list_head l) /\ ~ owned (inited ls L) (list_head l))
  /\ (is_Some (h' !! list_tail l) /\ ~ owned (inited ls L) (list_tail l)).
Proof.
  unfold lists_room. rewrite sentinels_snoc. intros [N R] Hd. apply NoDup_app in N as (_ & N & _).
  assert (H : forall a, a ∈ nodes l [] -> is_Some (h' !! a) /\ ~ owned (inited ls L) a).
  { intros a Ha. destruct (R a) as [E O]; [apply elem_of_app; by right|]. split.
    - apply elem_of_dom. rewrite Hd. by apply elem_of_dom.
    - intros [Hw|Hw%sentinel_of]%inited_owned; [done|]. by apply (N a). }
  split; apply H; [left|right; left].
Qed.

Lemma lists_room_init h L ls ls' : lists_room h L (ls ++ ls') -> lists_room h L ls.
Proof.
  unfold lists_room, sentinels. rewrite fmap_app, join_app.
  intros [N R]. apply NoDup_app in N as (N & _ & _). split; [done|]. intros a Ha. apply R, elem_of_app. by left.
Qed.

(** [list_init] of the next list. *)
Lemma list_init_ok k h L ls l : lists_rep (k_links k) (inited ls L) -> lists_room h L (ls ++ [l]) ->
  dom (k_links k) = dom h ->
  exists h', zoom lists_of (list_init l) k = Ok tt (with_links h' k)
    /\ lists_rep h' (inited (ls ++ [l]) L) /\ dom h' = dom h.
Proof.
  intros HL R Hd. destruct (lists_room_next h (k_links k) L ls l R Hd) as [[E1 O1] [E2 O2]].
  destruct (zoom_lists_ok (list_init l) k _ (list_init_spec (view lists_of k) _ l HL
    (not_owned_new _ _ O1) E1 E2 O1 O2)) as (h' & E & HL' & Hd').
  exists h'. rewrite inited_snoc. split; [done|]. split; [done|]. congruence.
Qed.

(** The ready queues' loop, after the lists [ls]. *)
Definition rqs_below (n : nat) : list Z := (fun p => THIS_RQ (Z.of_nat p)) <$> seq 0 n.

Lemma rqs_below_S n : rqs_below (S n) = rqs_below n ++ [THIS_RQ (Z.of_nat n)].
Proof. unfold rqs_below. by rewrite seq_S, fmap_app. Qed.

Lemma rqs_init_ok k L ls : lists_rep (k_links k) (inited ls L) ->
  lists_room (k_links k) L (ls ++ rq_addrs) ->
  exists h', for_upto 0 (Z.to_nat PRIO_NUM) (fun i => zoom lists_of (list_init (THIS_RQ i))) k
      = Ok tt (with_links h' k)
    /\ lists_rep h' (inited (ls ++ rq_addrs) L) /\ dom h' = dom (k_links k).
Proof.
  intros HL R.
  assert (W : wp (for_upto 0 (Z.to_nat PRIO_NUM) (fun i => zoom lists_of (list_init (THIS_RQ i)))) k
    (fun _ k' => exists h', k' = with_links h' k /\ lists_rep h' (inited (ls ++ rq_addrs) L)
       /\ dom h' = dom (k_links k))).
  { apply (wp_for_upto (fun i k' => exists h', k' = with_links h' k
      /\ lists_rep h' (inited (ls ++ rqs_below (Z.to_nat i)) L) /\ dom h' = dom (k_links k))).
    - exists (k_links k). split; [by destruct k|]. by rewrite app_nil_r.
    - intros i k' Hi (h & -> & Hh & Hd). change (Z.of_nat (Z.to_nat PRIO_NUM)) with 32 in Hi.
      assert (Er : rq_addrs = rqs_below (Z.to_nat i) ++ [THIS_RQ i]
        ++ ((fun p => THIS_RQ (Z.of_nat p)) <$> seq (S (Z.to_nat i)) (31 - Z.to_nat i))).
      { unfold rq_addrs, rqs_below, LEVELS. replace 32%nat with (Z.to_nat i + S (31 - Z.to_nat i))%nat at 1 by lia.
        rewrite seq_app, fmap_app. simpl. by rewrite Z2Nat.id by lia. }
      rewrite Er, !app_assoc in R. apply lists_room_init in R.
      destruct (list_init_ok (with_links h k) (k_links k) L _ (THIS_RQ i) Hh R Hd) as (h' & E & Hh' & Hd').
      eapply wp_ok; [exact E|]. exists h'. split; [done|]. split; [|done].
      rewrite Z2Nat.inj_add, Nat.add_1_r, rqs_below_S, Z2Nat.id, app_assoc by lia. exact Hh'.
    - intros k' Hk'. exact Hk'. }
  apply wp_inv in W as ([] & k' & E & h' & -> & Hh' & Hd). by exists h'.
Qed.

(** ** [scheduler_init] *)

Definition sched_lists : list Z := rq_addrs ++ [all_list] ++ [sem_waiters (mutex_sem pid_mtx)].

(** The mask, in a page of its own. *)
Definition mask_at (page : Z) : bitmap := mkBitmap page PRIO_NUM (bit_num_2_byte_len PRIO_NUM).
Definition first_sched (page : Z) : sched :=
  mkSched NULL false NULL (replicate (Z.to_nat MAX_THREAD_NUM) NULL) (mask_at page).

#[local] Opaque rq_addrs.

Section Scheduler.
Context (D : list Z).
Implicit Types (k : kernel) (L : gmap Z (list Z)) (H : kheap).

#[local] Instance data_mem : ByteMem vm := vm_mem D.

(** What the scheduler's initialisation needs of the lists and mutexes. *)
Record sched_room k L : Prop := {
  so_lists : lists_room (k_links k) L sched_lists;
  so_sem : is_Some (k_sems k !! mutex_sem pid_mtx);
  so_holder : is_Some (k_holders k !! pid_mtx)
}.

Lemma sched_lists_ok k L : sched_room k L -> lists_rep (k_links k) L ->
  exists h, (for_upto 0 (Z.to_nat PRIO_NUM) (fun i => zoom lists_of (list_init (THIS_RQ i)));;
     zoom lists_of (list_init all_list);; mutex_init pid_mtx) k = Ok tt (with_mutex pid_mtx h k)
    /\ lists_rep h (inited sched_lists L) /\ dom h = dom (k_links k).
Proof.
  intros [R Hs Hh] HL. unfold sched_lists in R. rewrite app_assoc in R.
  destruct (rqs_init_ok k L [] HL) as (h1 & E1 & HL1 & Hd1).
  { rewrite <- app_assoc in R. change ([] ++ rq_addrs) with rq_addrs. by eapply lists_room_init. }
  change ([] ++ rq_addrs) with rq_addrs in HL1.
  destruct (list_init_ok (with_links h1 k) (k_links k) L rq_addrs all_list HL1) as (h2 & E2 & HL2 & Hd2).
  { by eapply lists_room_init. }
  { exact Hd1. }
  destruct (lists_room_next (k_links k) h2 L _ _ R Hd2) as [[N1 O1] [N2 O2]].
  destruct (mutex_init_ok (with_links h2 k) (inited (rq_addrs ++ [all_list]) L) pid_mtx HL2)
    as (h3 & E3 & HL3 & Hd3).
  { constructor; [exact Hs|exact Hh|by apply not_owned_new|]. intros a Ha.
    apply elem_of_cons in Ha as [->|Ha%list_elem_of_singleton]; [done|]. by rewrite Ha. }
  exists h3. split; [|split].
  - erewrite bind_ok by exact E1. erewrite bind_ok by exact E2. exact E3.
  - rewrite <- inited_snoc, <- app_assoc in HL3. exact HL3.
  - rewrite Hd3. exact Hd2.
Qed.

(** The state after [scheduler_init]: [page] is the mask's page, [h] the nodes
    of the lists. *)
Definition sched_made (page : Z) (h : gmap Z list_elem) v k : kernel :=
  with_mutex pid_mtx h (with_sched (first_sched page) (with_vm v k)).

Lemma scheduler_init_ok H k vb pb L i0 : heap_rep D H k vb pb -> vb !! i0 = Some false ->
  clear_from 0 pb <> [] -> lists_rep (k_links k) L -> sched_room k L ->
  exists (i : nat) v h, let page := page_at H (Z.of_nat i) in
    scheduler_init k = Ok tt (sched_made page h v k)
    /\ vb !! i = Some false /\ (forall j, (j < i)%nat -> vb !! j <> Some false)
    /\ heap_rep D H (with_vm v k) (<[i := true]> vb) (used (take 1 (clear_from 0 pb)) pb)
    /\ lists_rep h (inited sched_lists L) /\ dom h = dom (k_links k)
    /\ bitmap_rep v (mask_at page) (replicate LEVELS false)
    /\ (forall a, vm_valid D (k_vm k) a -> ~ in_block page PG_SIZE a)
    /\ evolves D H (fun _ => False) (k_vm k) v (used (take 1 (clear_from 0 pb)) pb).
Proof.
  intros R Hi0 Hpb HL Rs.
  set (s0 := mkSched NULL false NULL (replicate (Z.to_nat MAX_THREAD_NUM) NULL) (rq_mask (k_sched k))).
  set (k0 := with_sched s0 k).
  assert (R0 : heap_rep D H k0 vb pb) by by apply (heap_rep_ext D H k).
  pose proof (proj2 (run_one vb i0) Hi0) as Hrun.
  destruct (kernel_pages_malloc_ok D H k0 vb pb 1 i0 R0 ltac:(lia) ltac:(lia) Hrun)
    as (i & v1 & Hi & Hlow & E & R1 & Hpt); [destruct (clear_from 0 pb); simpl; [done|lia]|].
  pose proof (taken_evolves D H k0 vb pb _ _ _ _ (fun _ => False) R0 Hpt) as Ev.
  destruct Hpt as [G1 Vp Hnw _ _ _ _ _]. pose proof (proj1 (run_one vb i) Hi) as Hvi.
  simpl mark in R1. rewrite Nat.add_0_r in R1. set (page := page_at H (Z.of_nat i)) in *.
  change (Z.of_nat 1) with 1 in *. rewrite Z.mul_1_r in Vp, Hnw.
  assert (Hpage : page <> 0).
  { pose proof (to_range D _ _ (hr_tables _ _ _ _ _ R)). unfold page, page_at, PG_SIZE in *. lia. }
  destruct (zoom_vm_ok (bitmap_init page PRIO_NUM) (with_vm v1 k0) _
    (bitmap_init_zero v1 page PRIO_NUM ltac:(unfold PRIO_NUM; lia)
      ltac:(intros j Hj; apply Vp; unfold PG_SIZE; change (bit_num_2_byte_len PRIO_NUM) with 4 in Hj; lia)
      Hpage)) as (b & v & E2 & Eb & Bm & M).
  change (bit_num_2_byte_len PRIO_NUM) with 4 in M. rewrite Eb in E2, Bm. clear b Eb.
  destruct (sched_lists_ok (with_sched (first_sched page) (with_vm v k0)) L) as (h & E3 & HL3 & Hd3).
  { by destruct Rs. }
  { exact HL. }
  assert (Hin : forall a, page <= a < page + 4 -> in_block page PG_SIZE a)
    by (unfold in_block, PG_SIZE; intros; lia).
  assert (Hbv : forall b bits a, bitmap_rep (k_vm k) b bits -> bitmap_byte b a -> vm_valid D (k_vm k) a).
  { intros b bits a (_ & _ & _ & Vb & _) Ha. replace a with (base_addr b + (a - base_addr b)) by lia.
    apply Vb. unfold bitmap_byte in Ha. lia. }
  exists i, v, h. cbv zeta. fold page.
  split; [|split; [exact Hvi|split; [by intros j Hj Hb%run_one; apply (Hlow j)|]]].
  { unfold scheduler_init. do 4 (erewrite bind_ok by reflexivity). fold s0. fold k0.
    erewrite bind_ok by exact E. erewrite bind_ok by exact E2. erewrite bind_ok by reflexivity.
    exact E3. }
  split; [|split; [exact HL3|split; [exact Hd3|split; [exact Bm|split; [exact Hnw|]]]]].
  - apply (heap_rep_ext D H (with_vm v (with_vm v1 k0))); [done|done|].
    eapply heap_write; [exact R1|exact M|]. intros a Ha%Hin.
    split; intros Hb; apply (Hnw a); try done; eapply Hbv; try exact Hb; apply R.
  - eapply (evolves_write D H _ (with_vm v1 k0)); [exact Ev|exact R1|exact M|].
    intros a Va Ha%Hin. by apply (Hnw a).
Qed.

(** ** The idle thread *)

Definition no_queues : queues := replicate LEVELS [].

Lemma sched_rep_empty k L page : k_tcbs k = ∅ -> rq_mask (k_sched k) = mask_at page ->
  bitmap_rep (k_vm k) (mask_at page) (replicate LEVELS false) ->
  lists_rep (k_links k) L -> (forall p, (p < LEVELS)%nat -> L !! THIS_RQ (Z.of_nat p) = Some []) ->
  cr3 (k_vm k) ∈ D -> KERNEL_PAGE_DIR_BASE_ADDR ∈ D -> sched_rep D k no_queues L.
Proof.
  intros Et Em Hm HL Hq Hc Hk.
  assert (Hno : forall p q, no_queues !! p = Some q -> q = [] /\ (p < LEVELS)%nat)
    by (intros p q [-> ?]%lookup_replicate; done).
  constructor; try done.
  - intros p q [-> Hp]%Hno. by apply Hq.
  - by rewrite Em.
  - rewrite Em. unfold no_queues. by rewrite fmap_replicate.
  - intros p q t [-> _]%Hno Hin. by apply not_elem_of_nil in Hin.
  - intros t tc. by rewrite Et, lookup_empty.
  - intros t. rewrite Et, lookup_empty. by intros [? ?].
  - intros t _. rewrite Et, lookup_empty. by intros [? ?].
Qed.

(** What [idle_thread_make] starts from: [t] is the page of the stack. *)
Record idle_room H k L vb pb page (t : Z) : Prop := {
  ir_tcbs : k_tcbs k = ∅;
  ir_sched : k_sched k = first_sched page;
  ir_mask : bitmap_rep (k_vm k) (mask_at page) (replicate LEVELS false);
  ir_lists : lists_rep (k_links k) (inited sched_lists L);
  ir_pid : k_sems k !! mutex_sem pid_mtx = Some 1 /\ is_Some (k_holders k !! pid_mtx);
  ir_heap : heap_rep D H k vb pb;
  ir_maps a : bitmap_byte (btmp (h_vpool H)) a \/ bitmap_byte (btmp (h_ppool H)) a ->
    a < addr_base (h_vpool H) /\ ~ in_block t PG_SIZE a;
  ir_page : addr_base (h_vpool H) <= page;
  ir_stack : t mod PG_SIZE = 0 /\ 0 < t /\ t + PG_SIZE <= addr_base (h_vpool H);
  ir_valid : valid_block (k_vm k) t PG_SIZE;
  ir_static a : owned (inited sched_lists L) a -> a < t;
  ir_dirs : cr3 (k_vm k) ∈ D /\ KERNEL_PAGE_DIR_BASE_ADDR ∈ D
}.

Definition idle_tcb (t : Z) : tcb :=
  born TASK_RUNNING 0 31 (u32 (t + PG_SIZE)) (Print.text_of "idle").

Lemma static_fresh H k L vb pb page t u : idle_room H k L vb pb page t -> t <= u ->
  fresh (inited sched_lists L) u.
Proof.
  intros R Hu a Ha Hw. pose proof (ir_static _ _ _ _ _ _ _ R a Hw). revert Ha.
  unfold tcb_nodes, ready_tag, pend_tag, all_list_tag, OFF_ready_tag, OFF_pend_tag, OFF_all_list_tag,
    list_head, list_tail, sem_waiters, mutex_sem, pool_mtx, pool_of, OFF_user_vaddr_pool.
  rewrite !elem_of_cons, elem_of_nil. lia.
Qed.

(** With its control block, the idle thread makes the invariant true. *)
Lemma idle_born_ok H k L vb pb page t v : idle_room H k L vb pb page t ->
  modifies (in_block t TCB_SIZE) (k_vm k) v ->
  let k1 := with_sched (sched_idle t (sched_running t (first_sched page))) k in
  kernel_ok D H (with_born t (idle_tcb t) (with_vm v k1)) no_queues (inited sched_lists L) vb pb [].
Proof.
  intros R M k1. pose proof R as [Et Es Hm HL [P1 P2] Rh Hmaps Hpg (Ha & Ht & Hs) V Hst [Hc Hk]].
  pose proof (to_range D _ _ (hr_tables _ _ _ _ _ Rh)) as (_ & Hlo & Hhi).
  assert (Hn : 0 <= bit_num (btmp (h_vpool H))) by (pose proof (pool_sizes _ _ _ _ _ Rh); lia).
  assert (Hrq : forall p, (p < LEVELS)%nat -> inited sched_lists L !! THIS_RQ (Z.of_nat p) = Some []).
  { intros p Hp. rewrite inited_lookup, decide_True; [done|]. unfold sched_lists. apply elem_of_app. left.
    apply rq_addrs_level. unfold LEVELS, PRIO_NUM in *. lia. }
  assert (R1 : sched_rep D k1 no_queues (inited sched_lists L)) by by apply (sched_rep_empty k1 _ page).
  assert (Hmask : forall a, mask_byte k1 a -> ~ in_block t TCB_SIZE a).
  { intros a Hb. unfold mask_byte in Hb. change (rq_mask (k_sched k1)) with (mask_at page) in Hb.
    unfold mask_at in Hb. simpl in Hb. unfold in_block, TCB_SIZE, PG_SIZE in *. lia. }
  assert (R2 : sched_rep D (with_vm v k1) no_queues (inited sched_lists L)).
  { eapply rep_grows; [exact R1| |exact (modifies_grows D _ _ _ M)| |].
    - exact (to_u8 _ _ _ (hr_tables _ _ _ _ _ Rh)).
    - intros x xc Hx. change (k_tcbs k1) with (k_tcbs k) in Hx. by rewrite Et, lookup_empty in Hx.
    - intros a Hb Va. refine (modifies_load _ _ _ a M Va _). by apply Hmask. }
  assert (Rh2 : heap_rep D H (with_vm v k1) vb pb).
  { apply (heap_rep_ext D H (with_vm v k)); [done|done|]. eapply heap_write; [exact Rh|exact M|].
    intros a Hin. split; intros Hb; apply (Hmaps a ltac:(auto)); unfold in_block, TCB_SIZE, PG_SIZE in *; lia. }
  assert (F : fresh (inited sched_lists L) t) by (eapply static_fresh; [exact R|lia]).
  set (k3 := with_born t (idle_tcb t) (with_vm v k1)).
  assert (Htc : k_tcbs k3 = {[t := idle_tcb t]}).
  { unfold k3. rewrite born_tcbs. change (k_tcbs (with_vm v k1)) with (k_tcbs k). by rewrite Et. }
  assert (Hu32 : 0 < t < 2 ^ 32 - PG_SIZE) by (unfold PG_SIZE in *; lia).
  assert (Hall : sched_lists = rq_addrs ++ [all_list] ++ [sem_waiters (mutex_sem pid_mtx)]) by done.
  constructor.
  - apply rep_born; try done. change (k_tcbs (with_vm v k1)) with (k_tcbs k). by rewrite Et, lookup_empty.
  - apply (heap_rep_ext D H (with_vm v k1)); done.
  - intros a Hb. change (mask_byte k3 a) with (mask_byte k1 a) in Hb. unfold mask_byte in Hb.
    change (rq_mask (k_sched k1)) with (mask_at page) in Hb. unfold mask_at in Hb. simpl in Hb.
    split; intros Hx; destruct (Hmaps a ltac:(auto)); lia.
  - split; [apply lookup_insert_eq|exists NULL; apply lookup_insert_eq|].
    rewrite inited_lookup, decide_True; [done|]. rewrite Hall, !elem_of_app. right; right. by left.
  - rewrite inited_lookup, decide_True; [done|]. rewrite Hall, !elem_of_app. right; left. by left.
  - intros x Hx. by apply not_elem_of_nil in Hx.
  - done.
  - rewrite Htc. exists (idle_tcb t). apply lookup_singleton_eq.
  - rewrite Htc. exists (idle_tcb t). apply lookup_singleton_eq.
  - intros x xc. rewrite Htc. intros [<- <-]%lookup_singleton_Some Hd. by destruct Hd.
  - intros i Hi. assert (Hpi : t < page_at H (Z.of_nat i)) by (unfold page_at, PG_SIZE in *; lia).
    split; [eapply static_fresh; [exact R|lia]|]. rewrite Htc. apply lookup_singleton_ne. lia.
Qed.

Lemma creatable_idle H k L vb pb page t : idle_room H k L vb pb page t ->
  creatable D (with_sched (sched_idle t (sched_running t (first_sched page))) k)
    (inited sched_lists L) t (Print.text_of "idle").
Proof.
  intros R. pose proof R as [Et Es Hm HL [P1 P2] Rh Hmaps Hpg (Ha & Ht & Hs) V Hst [Hc Hk]].
  pose proof (to_range D _ _ (hr_tables _ _ _ _ _ Rh)) as (_ & Hlo & Hhi).
  assert (Hn : 0 <= bit_num (btmp (h_vpool H))) by (pose proof (pool_sizes _ _ _ _ _ Rh); lia).
  constructor; [unfold PG_SIZE in *; lia|exact V|eapply static_fresh; [exact R|lia]|exact HL| |done|vm_compute; lia].
  split; [exact P1|exact P2|]. rewrite inited_lookup, decide_True; [done|].
  unfold sched_lists. rewrite !elem_of_app. right; right. by left.
Qed.

Lemma idle_thread_make_ok H k L vb pb page esp : let t := running_thread_get esp in
  idle_room H k L vb pb page t ->
  exists k' L', idle_thread_make esp k = Ok tt k'
    /\ kernel_ok D H k' (enqueue 31 t no_queues) L' vb pb [t]
    /\ k_tcbs k' = {[t := idle_tcb t]}
    /\ k_sched k' = mkSched t false t (t :: replicate 127 NULL) (mask_at page)
    /\ modifies (fun a => in_block t TCB_SIZE a \/ in_block page 4 a) (k_vm k) (k_vm k')
    /\ (forall a, is_Some (k_links k !! a) -> is_Some (k_links k' !! a))
    /\ (forall a, owned L' a -> owned (inited sched_lists L) a \/ a = ready_tag t \/ a = all_list_tag t)
    /\ (forall l, l ∉ rq_addrs -> l <> all_list -> L' !! l = inited sched_lists L !! l)
    /\ exists v h, k' = with_sched (k_sched k') (with_vm v (with_links h (with_born t (idle_tcb t) k))).
Proof.
  intros t R. set (k1 := with_sched (sched_idle t (sched_running t (first_sched page))) k).
  destruct (thread_tcb_init_ok D t k1 _ _ 31 (creatable_idle H k L vb pb page t R) ltac:(lia)) as (v1 & E1 & M1).
  change (idle_thread (k_sched k1)) with t in E1. rewrite Z.eqb_refl in E1.
  change (born TASK_RUNNING _ 31 _ _) with (idle_tcb t) in E1.
  pose proof (idle_born_ok H k L vb pb page t v1 R M1) as K. cbv zeta in K. fold k1 in K.
  set (k3 := with_born t (idle_tcb t) (with_vm v1 k1)) in *.
  assert (Htc : k_tcbs k3 !! t = Some (idle_tcb t)) by apply lookup_insert_eq.
  assert (Hnq : ~ queued t no_queues).
  { intros (p & q & [-> _]%lookup_replicate & Hin). by apply not_elem_of_nil in Hin. }
  assert (F : fresh (inited sched_lists L) t) by (eapply static_fresh; [exact R|lia]).
  destruct (enter_ok D H k3 no_queues _ vb pb [] t (idle_tcb t) K Htc Hnq) as (h & v & L' & E2 & K2 & M2 & Hd & Ho & Hl).
  { apply F. right; right; left. }
  { apply born_node. right; right; left. }
  cbv zeta in *. set (k4 := with_sched (preempted k3 (priority (idle_tcb t))) (with_vm v (with_links h k3))) in *.
  assert (Es : k_sched k4 = mkSched t false t (t :: replicate 127 NULL) (mask_at page)).
  { change (k_sched k4) with (preempted k3 (priority (idle_tcb t))). unfold preempted.
    change (running_thread (k_sched k3)) with t. rewrite Htc. change (priority (idle_tcb t) <? priority (idle_tcb t))
      with false. reflexivity. }
  exists k4, L'. split; [|split; [exact K2|]].
  - unfold idle_thread_make. fold t. do 3 (erewrite bind_ok by reflexivity).
    replace (with_sched _ _) with k1 by (unfold k1; by rewrite (ir_sched _ _ _ _ _ _ _ R)).
    erewrite bind_ok by reflexivity.
    change (idle_thread (k_sched k1)) with t. erewrite bind_ok by exact E1. fold k3.
    erewrite bind_ok by reflexivity. change (running_thread (k_sched k3)) with t.
    destruct (rq_join_ok D k3 no_queues _ t (idle_tcb t) (ko_sched _ _ _ _ _ _ _ _ K) Htc Hnq) as
      (h5 & v5 & L5 & E5 & _); [by exists (idle_tcb t)|]. cbv zeta in E5.
    revert E2. unfold enter. erewrite !bind_ok by exact E5. erewrite bind_ok by reflexivity.
    assert (Er : running_thread (preempted k3 (priority (idle_tcb t))) = t).
    { change (preempted k3 (priority (idle_tcb t))) with (k_sched k4). by rewrite Es. }
    cbn [k_sched with_sched]. by rewrite Er.
  - split; [|split; [exact Es|split; [|split; [|split; [exact Ho|split; [exact Hl|]]]]]].
    + change (k_tcbs k4) with (<[t := idle_tcb t]> (k_tcbs k)). by rewrite (ir_tcbs _ _ _ _ _ _ _ R).
    + etransitivity; [eapply modifies_weaken; [exact M1|by left]|].
      eapply modifies_weaken; [exact M2|]. intros a Hb. right. exact Hb.
    + intros a Ha%(born_keeps_node t (idle_tcb t) k). apply elem_of_dom. change (k_links k4) with h.
      rewrite Hd. by apply elem_of_dom.
    + exists v, h. unfold k4, k3. unfold with_born, k1. done.
Qed.

End Scheduler.
End SchedInit.
