(* ===== verification/Process.v ===== *)
(** [user/process.c]: user processes.

    [page_dir_activate] and [process_activate], which every switch of threads
    runs, are in [Sched.v]. *)

From S2P Require Import Prelude Bytes CString Bitmap Interrupt LinkedList Paging PageTable Ports.
From S2P Require Import Descriptors Kernel Sched Sync Memory Thread.

Module Process.
Import Bitmap Interrupt LinkedList Paging PageTable Descriptors Kernel Sched Sync Memory Thread.

Definition USER_STACK3_VADDR : Z := 0xc0000000 - 0x1000.
Definition USER_VADDR_START : Z := 0x8048000.

Definition EFLAGS_MBS : Z := Z.shiftl 1 1.
Definition EFLAGS_IF_1 : Z := Z.shiftl 1 9.
Definition EFLAGS_IOPL_0 : Z := Z.shiftl 0 12.

(** It ends in [hwi_ret]: the result is what the processor continues with. *)
Definition process_entry (filename : Z) : M kernel full_context :=
  running_thread ← RUNNING_THREAD;
  let func := filename in
  t ← get_tcb running_thread;
  let stack := stack_top t in
  let stack := u32 (stack + THREAD_STACK_SIZE) in
  on_tcb running_thread (tcb_stack_top stack);;
  t ← get_tcb running_thread;
  let proc_stack := stack_top t in
  st32 (proc_stack +! IS_save_flag) ALL_SAVE_FLAG;;
  st32 (proc_stack +! IS_edi) 0;;
  st32 (proc_stack +! IS_esi) 0;;
  st32 (proc_stack +! IS_ebp) 0;;
  st32 (proc_stack +! IS_esp_dummy) 0;;
  st32 (proc_stack +! IS_ebx) 0;;
  st32 (proc_stack +! IS_edx) 0;;
  st32 (proc_stack +! IS_ecx) 0;;
  st32 (proc_stack +! IS_eax) 0;;
  st32 (proc_stack +! IS_gs) 0;;
  st32 (proc_stack +! IS_ds) SELECTOR_U_DATA;;
  st32 (proc_stack +! IS_es) SELECTOR_U_DATA;;
  st32 (proc_stack +! IS_fs) SELECTOR_U_DATA;;
  st32 (proc_stack +! IS_eip) func;;
  st32 (proc_stack +! IS_cs) SELECTOR_U_CODE;;
  st32 (proc_stack +! IS_eflags) (Z.lor (Z.lor EFLAGS_IOPL_0 EFLAGS_MBS) EFLAGS_IF_1);;
  user_stack ← target_vaddr_malloc PF_USER USER_STACK3_VADDR;
  st32 (proc_stack +! IS_esp) (u32 (user_stack + PG_SIZE));;
  st32 (proc_stack +! IS_ss) SELECTOR_U_DATA;;
  all_load (proc_stack +! 4).

Definition page_dir_create : M kernel Z :=
  page_dir_vaddr ← kernel_pages_malloc 1;
  if page_dir_vaddr =? NULL then mret NULL else
  zoom vm_of (CString.memcpy (page_dir_vaddr +! 0x300 * 4) (0xfffff000 + 0x300 * 4) 1024);;
  page_dir_phy_addr ← zoom vm_of (addr_v2p page_dir_vaddr);
  st32 (page_dir_vaddr +! 4 * 1023) (entry_word page_dir_phy_addr);;
  mret page_dir_vaddr.

Definition user_vaddr_bitmap_create (task : Z) : M kernel unit :=
  on_tcb task (fun t => let p := user_vaddr_pool t in
    tcb_user_vaddr_pool (mkPool (btmp p) USER_VADDR_START (Kernel.pool_size p)) t);;
  let user_free_pages_num := (0xc0000000 - USER_VADDR_START) / PG_SIZE in
  let bitmap_pages_need := (user_free_pages_num / 8 + 1) / PG_SIZE + 1 in
  user_vaddr_bitmap_base ← kernel_pages_malloc bitmap_pages_need;
  b ← zoom vm_of (bitmap_init user_vaddr_bitmap_base user_free_pages_num);
  on_tcb task (fun t => let p := user_vaddr_pool t in
    tcb_user_vaddr_pool (mkPool b (addr_base p) (Kernel.pool_size p)) t).

(** [entry] and [process_entry_ptr] are the addresses of [kernel_thread_entry]
    and [process_entry]. *)
Definition process_run (entry process_entry_ptr filename : Z) (name : list Z) : M kernel unit :=
  task ← kernel_pages_malloc 1;
  thread_init entry task name 31 process_entry_ptr filename;;
  user_vaddr_bitmap_create task;;
  d ← page_dir_create;
  on_tcb task (tcb_pg_dir d);;
  int_save ← zoom eflags_of intr_disable;
  scheduler_rq_join task;;
  zoom lists_of (list_push_back all_list (all_list_tag task));;
  zoom eflags_of (intr_set_status int_save);;
  mret tt.

End Process.
