(* ===== verification/PageDir.v ===== *)
(** The page directory of a process: [page_dir_create] of [user/process.c],
    specified.

    The function copies the entries of the kernel's gigabyte through the window
    on the directory in use, and makes the last entry lead to the new directory
    itself.  [shares_kernel v F]: the directory in the frame [F] does what the
    directory in CR3 does for the addresses of the kernel. *)

From S2P Require Import Prelude Bytes CString Bitmap LinkedList Paging PageTable PageMap Words Kernel.
From S2P Require Import ReadyQueues Sched Sync Memory Heap Thread ThreadSpec ThreadRun Process.

Module PageDir.
Import Bitmap LinkedList Paging PageTable PageMap Words Kernel ReadyQueues Sched Sync Memory Heap.
Import Thread ThreadSpec ThreadRun Process.

(** The entries of the kernel's gigabyte are in memory. *)
Definition upper_half (s : vm) : Prop := forall o, 0xc00 <= o < PAGE -> is_Some (phys s !! (frame (cr3 s) + o)).

Record shares_kernel (s : vm) (F : Z) : Prop := {
  sk_aligned : F mod PAGE = 0;
  sk_pde x : 768 <= x < 1023 -> pde_of (under s F) x = pde_of s x;
  sk_self : pde_of (under s F) 1023 = Some (entry_word F)
}.

(** The same word at two places. *)
Lemma ld32p_move m m' p q : (forall i, 0 <= i < 4 -> m !! (p + i) = m' !! (q + i)) -> ld32p m p = ld32p m' q.
Proof.
  intros H. unfold ld32p. pose proof (H 0 ltac:(lia)) as H0. rewrite !Z.add_0_r in H0.
  by rewrite H0, !H by lia.
Qed.

(** The window on the directory in use. *)
Lemma translate_dir s o : self_mapped s -> 0 <= o < PAGE ->
  translate s (0xfffff000 + o) = Some (frame (cr3 s) + o).
Proof.
  intros Hs Ho. pose proof Hs as (e & He & Pe & Fe).
  replace (0xfffff000 + o) with (0xffc00000 + 1023 * PAGE + 4 * (o / 4) + o mod 4) by (unfold PAGE; zdiv_lia).
  rewrite (translate_window s 1023 (o / 4) (o mod 4) e); [|done|lia|unfold PAGE in Ho; zdiv_lia|zdiv_lia|done|done].
  rewrite Fe. f_equal. zdiv_lia.
Qed.

(** No entry in use leads to the directory in CR3 as if that were a table. *)
Definition entries_apart (D : list Z) (s : vm) : Prop := forall d i e, d ∈ cr3 s :: D -> 0 <= i < 1023 ->
  pde_of (under s d) i = Some e -> present e = true -> frame e <> frame (cr3 s).

Lemma keeps_apart D s v : vm_keeps D s v -> entries_apart D s -> entries_apart D v.
Proof.
  intros (C & K & _) A d i e. rewrite C. intros Hd Hi. rewrite (keeps_pde _ _ (K d Hd)) by lia. by apply A.
Qed.

Lemma dirs_apart D s v c : dirs_kept D s v -> c ∈ D -> entries_apart D (under s c) -> entries_apart D (under v c).
Proof.
  intros K Hc A d i e Hd Hi. change (under (under v c) d) with (under v d). simpl in *. assert (Hd' : d ∈ cr3 s :: D) by set_solver.
  rewrite (K d i Hd') by lia. by apply A.
Qed.

Section PageDir.
Context (D : list Z).
Implicit Types (s v : vm) (k : kernel) (H : kheap) (vb pb : list bool).

#[local] Instance data_mem : ByteMem vm := vm_mem D.

(** The directory in use does not change. *)
Lemma dir_kept P s s' o : modifies P s s' -> 0 <= o < PAGE ->
  phys s' !! (frame (cr3 s) + o) = phys s !! (frame (cr3 s) + o).
Proof.
  intros M Ho. assert (K : vm_keeps D s s') by exact (modifies_keeps _ _ _ M).
  destruct K as (_ & K & _). destruct (K (cr3 s)) as (_ & _ & F); [left|]. apply F. left.
  rewrite frame_add by done. by left.
Qed.

Lemma self_mapped_kept P s s' : modifies P s s' -> self_mapped s -> self_mapped s'.
Proof.
  intros M Hs. pose proof (modifies_grows _ _ _ _ M) as G. rewrite <- (under_cr3 s'), (gr_cr3 _ _ _ G).
  apply (gr_self _ _ _ G); [left|by rewrite under_cr3].
Qed.

(** Copying the upper half of the directory to the page at [d]. *)
Lemma copy_upper s d : self_mapped s -> upper_half s -> all_u8 s -> valid_block s d PAGE ->
  wp (CString.memcpy (d +! 0x300 * 4) (0xfffff000 + 0x300 * 4) 1024) s (fun _ s' =>
    modifies (in_block (d + 0xc00) 1024) s s'
    /\ forall o, 0xc00 <= o < PAGE -> load8 s' (d + o) = phys s !! (frame (cr3 s) + o)).
Proof.
  intros Hs Hu U V. rewrite (valid_block_addr s d PAGE) by (done || unfold PAGE; lia).
  pose proof (valid_block_range s d PAGE V ltac:(unfold PAGE; lia)) as Hr. unfold PAGE in Hr.
  unfold CString.memcpy. apply wp_bind, wp_assert.
  { apply andb_true_iff. split; apply negb_true_iff, Z.eqb_neq; lia. }
  eapply wp_for_upto with (Inv := fun i s' => modifies (in_block (d + 0xc00) 1024) s s'
    /\ forall o, 0xc00 <= o < 0xc00 + i -> load8 s' (d + o) = phys s !! (frame (cr3 s) + o)).
  - split; [reflexivity|]. lia.
  - change (0 + Z.of_nat (Z.to_nat 1024)) with 1024. intros i s' Hi [M C].
    destruct (Hu (0xc00 + i)) as [b Hb]; [unfold PAGE; lia|]. apply wp_bind.
    rewrite !u32_small by lia. apply (wp_rd8 _ _ b).
    { change (vm_load s' (0xfffff000 + 768 * 4 + i) = Some b).
      replace (0xfffff000 + 768 * 4 + i) with (0xfffff000 + (0xc00 + i)) by lia.
      unfold vm_load. rewrite (translate_dir s'); [|by eapply self_mapped_kept|unfold PAGE; lia].
      rewrite (gr_cr3 _ _ _ (modifies_grows _ _ _ _ M)). simpl.
      rewrite (dir_kept _ _ _ _ M) by (unfold PAGE; lia). exact Hb. }
    assert (Va : vm_valid D s' (d + (0xc00 + i))).
    { apply (modifies_valid _ _ _ _ M), V. unfold PAGE; lia. }
    replace (d + 768 * 4 + i) with (d + (0xc00 + i)) by lia.
    eapply wp_mono; [exact (wp_wr8 s' _ b Va)|]. intros _ s'' [M' L]. split.
    + etransitivity; [exact M|]. eapply modifies_weaken; [exact M'|]. unfold in_block. intros a <-. lia.
    + intros o Ho. destruct (decide (o = 0xc00 + i)) as [->|Hne].
      * rewrite L, Hb, u8_small; [done|]. by apply (U (frame (cr3 s) + (0xc00 + i))).
      * rewrite (modifies_load _ _ _ _ M'); [apply C; lia| |lia].
        apply (modifies_valid _ _ _ _ M), V. unfold PAGE; lia.
  - change (0 + Z.of_nat (Z.to_nat 1024)) with 1024. intros s' [M C]. split; [exact M|].
    intros o Ho. apply C. unfold PAGE in Ho. lia.
Qed.

(** A word that was written is at its physical place. *)
Lemma rd32_place s a p w : valid_block s a 4 -> (forall i, 0 <= i < 4 -> translate s (a + i) = Some (p + i)) ->
  rd32 a s = Ok w s -> ld32p (phys s) p = Some w.
Proof.
  intros V T R. pose proof (valid_block_range s a 4 V ltac:(lia)) as Hr.
  assert (B : forall i, 0 <= i < 4 -> is_Some (phys s !! (p + i))).
  { intros i Hi. destruct (vm_load_valid D s (a + i)) as (q & v & Tq & Lq & _); [by apply V|].
    rewrite T in Tq by done. injection Tq as <-. by exists v. }
  destruct (ld32p (phys s) p) as [w'|] eqn:E.
  - rewrite (rd32_phys s a p w') in R by (done || lia). by injection R as <-.
  - unfold ld32p in E. destruct (B 0 ltac:(lia)) as [b0 B0]. rewrite Z.add_0_r in B0.
    destruct (B 1 ltac:(lia)) as [b1 B1], (B 2 ltac:(lia)) as [b2 B2], (B 3 ltac:(lia)) as [b3 B3].
    by rewrite B0, B1, B2, B3 in E.
Qed.

(** ** [page_dir_create] *)

(** The page [i] of the heap, in the frame [j], holds the new directory. *)
Record dir_made H s v (i j : nat) : Prop := {
  dm_grows : grows D s v;
  dm_page : valid_block v (page_at H (Z.of_nat i)) PG_SIZE;
  dm_new a : vm_valid D s a -> ~ in_block (page_at H (Z.of_nat i)) PG_SIZE a;
  dm_load a : vm_valid D s a -> ~ bitmap_byte (btmp (h_vpool H)) a ->
    ~ bitmap_byte (btmp (h_ppool H)) a -> vm_load v a = vm_load s a;
  dm_map d o : d ∈ cr3 s :: D -> 0 <= o < PAGE ->
    translate (under v d) (page_at H (Z.of_nat i) + o) = Some (frame_at H (Z.of_nat j) + o);
  dm_shares : shares_kernel v (frame_at H (Z.of_nat j));
  dm_low o : 0 <= o < 0xc00 ->
    phys v !! (frame_at H (Z.of_nat j) + o) = phys s !! (frame_at H (Z.of_nat j) + o);
  dm_free q : frame_free D s (frame q) -> frame q <> frame_at H (Z.of_nat j) -> phys v !! q = phys s !! q;
  dm_spare f : outside H f -> spare D s f -> spare D v f;
  dm_dirs : dirs_kept D s v
}.

Lemma page_dir_create_ok H k vb pb i0 : heap_rep D H k vb pb -> vb !! i0 = Some false ->
  clear_from 0 pb <> [] -> upper_half (k_vm k) ->
  exists (i j : nat) v, vb !! i = Some false /\ (forall x, (x < i)%nat -> vb !! x <> Some false)
    /\ take 1 (clear_from 0 pb) = [j]
    /\ page_dir_create k = Ok (page_at H (Z.of_nat i)) (with_vm v k)
    /\ heap_rep D H (with_vm v k) (<[i := true]> vb) (<[j := true]> pb)
    /\ dir_made H (k_vm k) v i j.
Proof.
  intros R Hi0 Hpb Hu. pose proof (proj2 (run_one vb i0) Hi0) as Hrun.
  destruct (clear_from 0 pb) as [|j js] eqn:Ej; [done|].
  destruct (kernel_pages_malloc_ok D H k vb pb 1 i0 R ltac:(lia) ltac:(lia) Hrun)
    as (i & v1 & Hi & Hlow & E1 & R1 & Pt); [rewrite Ej; simpl; lia|].
  pose proof Pt as [G1 Vp Hnw Hld Hmap Hcon Hfr Hff _ _ Hdk].
  rewrite Ej in *. simpl take in *.
  pose proof (proj1 (run_one vb i) Hi) as Hvi.
  simpl mark in R1. rewrite Nat.add_0_r in R1. change (Z.of_nat 1) with 1 in *. rewrite Z.mul_1_r in Vp, Hnw.
  set (d := page_at H (Z.of_nat i)) in *. set (F := frame_at H (Z.of_nat j)) in *.
  pose proof (hr_tables _ _ _ _ _ R) as T0. pose proof (hr_tables _ _ _ _ _ R1) as T1. simpl in T1.
  assert (Hself : self_mapped v1).
  { rewrite <- (under_cr3 v1). apply (to_self _ _ _ T1). left. }
  assert (Hu1 : upper_half v1).
  { intros o Ho. rewrite (gr_cr3 _ _ _ G1). apply (gr_phys _ _ _ G1). by apply Hu. }
  destruct (zoom_vm_ok _ (with_vm v1 k) _ (copy_upper v1 d Hself Hu1 (to_u8 _ _ _ T1) Vp))
    as ([] & v2 & E2 & M2 & C2).
  pose proof (modifies_grows _ _ _ _ M2) as G2.
  assert (Hmap1 : forall c o, c ∈ cr3 v1 :: D -> 0 <= o < PAGE -> translate (under v1 c) (d + o) = Some (F + o)).
  { intros c o Hc Ho. rewrite (gr_cr3 _ _ _ G1) in Hc. pose proof (Hmap 0%nat j c o eq_refl Hc Ho) as Hm.
    by rewrite Z.add_0_r in Hm. }
  destruct (pool_sizes _ _ _ _ _ R) as (Sv & Sp & Lv & Lp).
  assert (Hpj : pb !! j = Some false).
  { apply (taken_free 1 pb 0 j). by rewrite Ej. }
  pose proof (lookup_lt_Some _ _ _ Hvi) as Hlv. pose proof (lookup_lt_Some _ _ _ Hpj) as Hlp.
  destruct (page_addr D H (k_vm k) (Z.of_nat i) T0 ltac:(lia)) as [Hd1 Hd2]. fold d in Hd1, Hd2.
  destruct (hr_pbase _ _ _ _ _ R) as (Hm & Hb0 & Hb1).
  assert (HF : F mod PAGE = 0 /\ 0 < F < 2 ^ 32).
  { unfold F, frame_at, PG_SIZE, PAGE in *. split; [zdiv_lia|lia]. }
  assert (Hka : forall o, 0 <= o < PAGE -> kernel_addr (d + o)).
  { intros o Ho. eapply heap_addr_kernel; [exact T0|]. eapply page_heap_addr; [exact T0|lia|done]. }
  assert (Hmap2 : translate v2 d = Some F).
  { rewrite <- (under_cr3 v2), (gr_cr3 _ _ _ G2), <- (Z.add_0_r d), <- (Z.add_0_r F).
    apply (gr_map _ _ _ G2); [left|apply Hka; unfold PAGE; lia|apply Hmap1; [left|unfold PAGE; lia]]. }
  assert (E3 : addr_v2p d v2 = Ok F v2).
  { apply addr_v2p_ok; [by eapply self_mapped_kept|unfold PG_SIZE in Hd2; lia|exact Hmap2|lia|].
    intros pde pte _ _ Hpte. eapply ld32p_u32; [|exact Hpte]. apply (gr_u8 _ _ _ G2), T1. }
  destruct (entry_word_eq F ltac:(lia) (proj1 HF)) as (_ & Rw & Fw & Pw).
  assert (V2 : valid_block v2 (d + 4092) 4).
  { intros o Ho. rewrite <- Z.add_assoc. apply (modifies_valid _ _ _ _ M2), Vp. unfold PG_SIZE. lia. }
  destruct (zoom_vm_ok _ (with_vm v2 k) _ (wr32_ok v2 (d + 4092) (entry_word F) V2 Rw)) as ([] & v3 & E4 & M4 & W).
  assert (M : modifies (in_block d PG_SIZE) v1 v3).
  { etransitivity; [eapply modifies_weaken; [exact M2|]|eapply modifies_weaken; [exact M4|]];
      unfold in_block, PG_SIZE; intros a Ha; lia. }
  pose proof (modifies_grows _ _ _ _ M) as G.
  assert (Hload : forall o, 0 <= o < PAGE -> load8 v3 (d + o) = phys v3 !! (F + o)).
  { intros o Ho. simpl. unfold vm_load. rewrite <- (under_cr3 v3), (gr_cr3 _ _ _ G).
    rewrite (gr_map _ _ _ G (cr3 v1) (d + o) (F + o)); [done|left|by apply Hka|apply Hmap1; [left|done]]. }
  assert (Hbit : forall b bits a, bitmap_rep (k_vm k) b bits -> bitmap_byte b a -> ~ in_block d PG_SIZE a).
  { intros b bits a (_ & _ & _ & Vb & _) Ha. apply Hnw. replace a with (base_addr b + (a - base_addr b)) by lia.
    apply Vb. unfold bitmap_byte in Ha. lia. }
  exists i, j, v3. split; [exact Hvi|]. split; [by intros x Hx Hb%run_one; apply (Hlow x)|]. split; [done|]. split; [|split].
  - unfold page_dir_create. erewrite bind_ok by exact E1.
    rewrite (proj2 (Z.eqb_neq d NULL)) by (unfold NULL; lia).
    erewrite bind_ok by exact E2. erewrite bind_ok by (apply zoom_ok; exact E3).
    unfold st32. change (put_view vm_of v2 (with_vm v2 (with_vm v1 k))) with (with_vm v2 k).
    rewrite (valid_block_addr v1 d PG_SIZE) by (done || unfold PG_SIZE; lia).
    change (4 * 1023) with 4092. erewrite bind_ok by exact E4. reflexivity.
  - apply (heap_write D H (with_vm v1 k) _ _ _ v3 R1 M). intros a Ha.
    split; intros Hb; [apply (Hbit _ _ a (hr_vbits _ _ _ _ _ R) Hb)|apply (Hbit _ _ a (hr_pbits _ _ _ _ _ R) Hb)];
      done.
  - constructor.
    + by eapply grows_trans.
    + exact (valid_block_modifies _ _ _ _ _ M Vp).
    + exact Hnw.
    + intros a Va N1 N2. rewrite (modifies_load _ _ _ _ M); [by apply Hld|by apply (gr_valid _ _ _ G1)|by apply Hnw].
    + intros c o Hc Ho. apply (gr_map _ _ _ G); [by rewrite (gr_cr3 _ _ _ G1)|by apply Hka|].
      apply Hmap1; [by rewrite (gr_cr3 _ _ _ G1)|done].
    + fold F. assert (HFr : frame F = F) by (rewrite <- (Z.add_0_r F) at 1; apply frame_aligned; [apply HF|done]).
      constructor; [apply HF| |].
      * intros x Hx. unfold pde_of. simpl. rewrite HFr. apply ld32p_move. intros n Hn.
        rewrite <- !Z.add_assoc. rewrite <- Hload by (unfold PAGE; lia).
        rewrite (modifies_load _ _ _ (d + (4 * x + n)) M4);
          [|apply (modifies_valid _ _ _ _ M2), Vp; unfold PG_SIZE; lia|unfold in_block; lia].
        rewrite C2 by (unfold PAGE; lia). rewrite (gr_cr3 _ _ _ G). symmetry.
        apply (dir_kept _ _ _ _ M). unfold PAGE; lia.
      * unfold pde_of. simpl phys. simpl cr3. rewrite HFr. change (4 * 1023) with 4092.
        apply (rd32_place v3 (d + 4092)); [exact (valid_block_modifies _ _ _ _ _ M4 V2)| |exact W].
        intros o Ho. rewrite <- !Z.add_assoc. rewrite <- (under_cr3 v3), (gr_cr3 _ _ _ G).
        apply (gr_map _ _ _ G); [left|apply Hka; unfold PAGE; lia|apply Hmap1; [left|unfold PAGE; lia]].
    + intros o Ho. fold F. rewrite <- Hload by (unfold PAGE; lia).
      rewrite (modifies_load _ _ _ (d + o) M4);
        [|apply (modifies_valid _ _ _ _ M2), Vp; unfold PG_SIZE; lia|unfold in_block; lia].
      rewrite (modifies_load _ _ _ (d + o) M2); [|apply Vp; unfold PG_SIZE; lia|unfold in_block; lia].
      pose proof (Hcon 0%nat j o eq_refl ltac:(unfold PAGE; lia)) as Hc. by rewrite Z.add_0_r in Hc.
    + intros q Fq Hq.
      assert (Hjs : forall x, x ∈ [j] -> frame q <> frame_at H (Z.of_nat x)).
      { intros x ->%list_elem_of_singleton. exact Hq. }
      rewrite (keeps_frame D v1 v3); [by apply Hfr|exact (modifies_keeps _ _ _ M)|by apply Hff].
    + intros f Of Sf. eapply keeps_spare; [exact (modifies_keeps _ _ _ M)|]. by eapply taken_spare.
    + apply (dirs_kept_trans D _ v1); [apply G1|exact Hdk|]. apply keeps_dirs. exact (modifies_keeps _ _ _ M).
Qed.

End PageDir.
End PageDir.
