(* ===== verification/AddressSpace.v ===== *)
(** A new address space: one more page directory the kernel may load.

    The invariants of the kernel are relative to the list [D] of directories in
    use.  When the frame [F] holds a directory that shares the kernel's gigabyte
    ([shares_kernel]) and whose other entries are absent, they hold for
    [F :: D] too: every valid byte stays valid, but for those of the page that
    holds the directory. *)

From S2P Require Import Prelude Bytes CString Bitmap LinkedList Paging PageTable PageMap Words Ports Print Kernel.
From S2P Require Import ReadyQueues Sched Sync Console Memory Heap Thread ThreadSpec ThreadRun Process PageDir.

Module AddressSpace.
Import Bitmap LinkedList Paging PageTable PageMap Words Kernel ReadyQueues Sched Sync Console Memory.
Import Heap Thread ThreadSpec ThreadRun Process PageDir.

(** No entry below the kernel's gigabyte is present. *)
Definition lower_half_clear (s : vm) (F : Z) : Prop :=
  forall x, 0 <= x < 768 -> exists e, pde_of (under s F) x = Some e /\ present e = false.

Section New.
Context (D : list Z) (s : vm) (F d : Z).
Context (Hshares : shares_kernel s F) (Hlow : lower_half_clear s F) (HF : 0 <= F < 2 ^ 32).
Context (Hpage : forall o, 0 <= o < PAGE -> vm_valid D s (d + o)).
Context (Hmap : forall c o, c ∈ cr3 s :: D -> 0 <= o < PAGE -> translate (under s c) (d + o) = Some (F + o)).

Lemma frame_dir : frame F = F.
Proof. rewrite <- (Z.add_0_r F) at 1. apply frame_aligned; [apply Hshares|done]. Qed.

Lemma kernel_index a : kernel_addr a -> 768 <= pd_index a < 1023.
Proof. unfold kernel_addr, pd_index. intros. zdiv_lia. Qed.

Lemma new_translate a : kernel_addr a -> translate (under s F) a = translate s a.
Proof.
  intros Ka%kernel_index. unfold translate. rewrite (sk_pde _ _ Hshares) by done. done.
Qed.

Lemma new_self_mapped : self_mapped (under s F).
Proof.
  destruct (entry_word_eq F) as (_ & _ & Fw & Pw); [lia|apply Hshares|].
  exists (entry_word F). split; [apply Hshares|]. split; [done|]. simpl. by rewrite Fw, frame_dir.
Qed.

(** The frames of the new space are those of the old one and its directory. *)
Lemma new_struct f : struct_frame (under s F) f -> f = F \/ struct_frame s f.
Proof.
  intros [->|(x & e & Hx & He & Pe & ->)]; [left; apply frame_dir|].
  destruct (decide (x < 768)) as [Hl|Hl].
  { destruct (Hlow x ltac:(lia)) as (e' & He' & Pe'). congruence. }
  destruct (decide (x = 1023)) as [->|Hne].
  - left. rewrite (sk_self _ _ Hshares) in He. injection He as <-.
    apply (entry_word_eq F); [lia|apply Hshares].
  - right. right. exists x, e. rewrite (sk_pde _ _ Hshares) in He by lia. split_and!; (done || lia).
Qed.

(** A valid byte outside the directory's page is in another frame. *)
Lemma other_frame a p : vm_valid D s a -> ~ in_block d PG_SIZE a -> translate s a = Some p -> frame p <> F.
Proof.
  intros (Ka & q & v & _ & _ & Hd) Hn T E. destruct (Hd (cr3 s)) as (Tq & _ & Inj); [left|].
  rewrite under_cr3 in *. rewrite T in Tq. injection Tq as <-. apply Hn.
  assert (Hp : p = F + p mod PAGE) by (unfold frame in E; lia).
  pose proof (Z.mod_pos_bound p PAGE ltac:(done)) as Hr.
  assert (a = d + p mod PAGE) as ->; [|unfold in_block, PG_SIZE, PAGE in *; lia].
  symmetry. apply Inj; [by apply Hpage|]. rewrite <- (under_cr3 s) at 1. rewrite Hmap by (done || left).
  by rewrite Hp at 2.
Qed.

Lemma new_valid a : vm_valid D s a -> ~ in_block d PG_SIZE a -> vm_valid (F :: D) s a.
Proof.
  intros V Hn. pose proof V as (Ka & p & v & Lp & Rv & Hd). split; [done|]. exists p, v.
  split; [done|]. split; [done|]. intros c Hc.
  assert (Hold : c ∈ cr3 s :: D \/ c = F) by set_solver. destruct Hold as [Hc'| ->]; [by apply Hd|].
  destruct (Hd (cr3 s)) as (T & S & Inj); [left|]. rewrite under_cr3 in *. split; [|split].
  - by rewrite new_translate.
  - intros [E|E]%new_struct; [|done]. by eapply other_frame.
  - intros b Kb. rewrite new_translate by done. by apply Inj.
Qed.

Lemma new_bitmap b bits : bitmap_rep (ByteMem0 := vm_mem D) s b bits ->
  (forall a, bitmap_byte b a -> ~ in_block d PG_SIZE a) -> bitmap_rep (ByteMem0 := vm_mem (F :: D)) s b bits.
Proof.
  intros (H1 & H2 & H3 & V & H5) Hn. split_and!; try done; try lia. intros i Hi.
  apply new_valid; [by apply V|]. apply Hn. unfold bitmap_byte. lia.
Qed.

(** The directory's frame holds data in the old spaces. *)
Lemma dir_not_struct c : c ∈ cr3 s :: D -> ~ struct_frame (under s c) F.
Proof.
  intros Hc. destruct (Hpage 0 ltac:(done)) as (_ & p & v & _ & _ & Hd).
  destruct (Hd c Hc) as (T & S & _). rewrite Hmap in T by done. injection T as <-.
  by rewrite Z.add_0_r, frame_dir in S.
Qed.

(** No space uses the new directory as a table. *)
Lemma new_apart_dir : cr3 s ∈ D -> entries_apart (F :: D) (under s F).
Proof.
  intros Hcr c x e Hc Hx He Pe. simpl in *. rewrite frame_dir. intros E.
  assert (Hold : c ∈ D \/ c = F) by set_solver. destruct Hold as [Hc'| ->].
  - apply (dir_not_struct c); [by right|]. right. exists x, e. split_and!; (done || lia).
  - change (pde_of (under s F) x = Some e) in He. destruct (decide (x < 768)) as [Hl|Hl].
    { destruct (Hlow x ltac:(lia)) as (e' & He' & Pe'). congruence. }
    apply (dir_not_struct (cr3 s)); [left|]. rewrite under_cr3. right. exists x, e.
    rewrite (sk_pde _ _ Hshares) in He by lia. split_and!; (done || lia).
Qed.

Lemma new_frame_free f : frame_free D s f -> f <> F -> frame_free (F :: D) s f.
Proof.
  intros (Um & Sf & Ex) Hne. split; [|split; [|done]].
  - intros c a p Hc Ka T. assert (Hold : c ∈ cr3 s :: D \/ c = F) by set_solver.
    destruct Hold as [Hc'| ->]; [by eapply Um|]. rewrite new_translate in T by done.
    eapply (Um (cr3 s)); [left|done|by rewrite under_cr3].
  - intros c Hc. assert (Hold : c ∈ cr3 s :: D \/ c = F) by set_solver.
    destruct Hold as [Hc'| ->]; [by apply Sf|]. intros [E|E]%new_struct; [done|].
    apply (Sf (cr3 s)); [left|]. by rewrite under_cr3.
Qed.

(** No process has the frame in the new space either. *)
Lemma new_spare f : spare D s f -> f <> F -> spare (F :: D) s f.
Proof.
  intros [Fr N] Hne. split; [by apply new_frame_free|]. intros c a p Hc Ha T.
  assert (Hold : c ∈ cr3 s :: D \/ c = F) by set_solver. destruct Hold as [Hc'| ->]; [by eapply N|].
  destruct (Hlow (pd_index a)) as (e & He & Pe); [unfold user_addr, pd_index in *; zdiv_lia|].
  unfold translate in T. rewrite He in T. simpl in T. by rewrite Pe in T.
Qed.

Lemma new_tables H : tables_ok D H s -> tables_ok (F :: D) H s.
Proof.
  intros T. assert (Hcase : forall c, c ∈ cr3 s :: F :: D -> c ∈ cr3 s :: D \/ c = F) by set_solver.
  assert (Hix : forall a, heap_addr H a -> 768 <= pd_index a < 1023).
  { intros a Ha. eapply kernel_index, heap_addr_kernel; [exact T|done]. }
  assert (Hold : forall a, heap_addr H a -> pde_of s (pd_index a) = Some (h_table H (pd_index a))).
  { intros a Ha. rewrite <- (under_cr3 s). apply (to_pde _ _ _ T); [left|done]. }
  constructor.
  - apply T.
  - apply T.
  - intros c [Hc| ->]%Hcase; [by apply T|apply new_self_mapped].
  - intros c a [Hc| ->]%Hcase Ha; [by apply T|]. rewrite (sk_pde _ _ Hshares) by by apply Hix. by apply Hold.
  - apply T.
  - intros c a [Hc| ->]%Hcase Ha; [by apply T|]. rewrite frame_dir. intros E.
    apply (dir_not_struct (cr3 s)); [left|]. rewrite under_cr3. right.
    exists (pd_index a), (h_table H (pd_index a)). pose proof (Hix a Ha).
    split_and!; [lia..|by apply Hold|by apply (to_present _ _ _ T)|done].
  - intros c a j e [Hc| ->]%Hcase Ha Hj; [by apply T|]. rewrite (sk_pde _ _ Hshares) by done.
    rewrite <- (under_cr3 s). apply (to_alias _ _ _ T); [left|done..].
Qed.

Lemma new_dir_ok va : all_u8 s -> cr3 s ∈ D -> kernel_addr va -> dir_ok D s va -> dir_ok (F :: D) s va.
Proof.
  intros U Hc Ka (Rv & x & Hx & Hx0 & H). split; [done|]. exists x. split; [by right|]. split; [done|].
  intros c Hin. apply elem_of_cons in Hin as [->|Hin]; [|by apply H].
  destruct (H (cr3 s) Hc) as (_ & T & _). rewrite under_cr3 in T.
  split; [apply new_self_mapped|]. split; [by rewrite new_translate|].
  intros pde pte _ _ E. by eapply ld32p_u32.
Qed.

(** The new directory itself can be loaded. *)
Lemma this_dir_ok H : tables_ok D H s -> cr3 s ∈ D -> dir_ok (F :: D) s d.
Proof.
  intros T Hcr. assert (Kd : kernel_addr d).
  { rewrite <- (Z.add_0_r d). by apply (Hpage 0). }
  assert (Td : forall c, c ∈ cr3 s :: D -> translate (under s c) d = Some F).
  { intros c Hc. pose proof (Hmap c 0 Hc ltac:(done)) as E. by rewrite !Z.add_0_r in E. }
  split; [by apply kernel_addr_u32|]. exists F. split; [left|]. split; [lia|]. intros c Hc.
  assert (Hw : forall pde pte, pde_of (under s c) (pd_index d) = Some pde -> present pde = true ->
    pte_of (under s c) pde (pt_index d) = Some pte -> is_u32 pte).
  { intros pde pte _ _ E. eapply ld32p_u32; [apply T|exact E]. }
  apply elem_of_cons in Hc as [->|Hc].
  - split; [apply new_self_mapped|]. split; [|done]. rewrite new_translate by done.
    rewrite <- (under_cr3 s). apply Td. left.
  - split; [apply T; by right|]. split; [|done]. apply Td. by right.
Qed.

End New.

(** ** The invariant of the kernel *)

Section Kernel.
Context (D : list Z) (H : kheap) (k : kernel) (F d : Z).
Context (Hshares : shares_kernel (k_vm k) F) (Hlow : lower_half_clear (k_vm k) F) (HF : 0 <= F < 2 ^ 32).
Context (Hpage : forall o, 0 <= o < PAGE -> vm_valid D (k_vm k) (d + o)).
Context (Hmap : forall c o, c ∈ cr3 (k_vm k) :: D -> 0 <= o < PAGE ->
  translate (under (k_vm k) c) (d + o) = Some (F + o)).

Lemma new_heap vb pb : heap_rep D H k vb pb ->
  (forall a, bitmap_byte (btmp (h_vpool H)) a \/ bitmap_byte (btmp (h_ppool H)) a -> ~ in_block d PG_SIZE a) ->
  (forall j, pb !! j = Some false -> frame_at H (Z.of_nat j) <> F) -> heap_rep (F :: D) H k vb pb.
Proof.
  intros [] Hn Hj. constructor; try done.
  - eapply new_bitmap; eauto.
  - eapply new_bitmap; eauto.
  - eapply new_tables; eauto.
  - intros j Hp. eapply new_frame_free; eauto.
Qed.

Lemma new_sched qs L : sched_rep D k qs L -> all_u8 (k_vm k) ->
  (forall t tc, k_tcbs k !! t = Some tc -> pg_dir tc <> NULL -> kernel_addr (pg_dir tc)) ->
  (forall a, mask_byte k a -> ~ in_block d PG_SIZE a) -> sched_rep (F :: D) k qs L.
Proof.
  intros R U Hka Hn. pose proof (sr_cr3 _ _ _ _ R) as Hc. destruct R. constructor; try done.
  - eapply new_bitmap; eauto.
  - intros t tc Ht. destruct (sr_tcbs0 t tc Ht) as (H1 & H2 & H3 & H4). do 3 (split; [done|]).
    destruct (decide (pg_dir tc = NULL)) as [E|N]; [by left|right]. destruct H4 as [H4|H4]; [done|].
    eapply new_dir_ok; eauto.
  - by right.
  - by right.
Qed.

Lemma new_space qs L vb pb ts : kernel_ok D H k qs L vb pb ts ->
  (forall a, mask_byte k a \/ bitmap_byte (btmp (h_vpool H)) a \/ bitmap_byte (btmp (h_ppool H)) a ->
    ~ in_block d PG_SIZE a) ->
  (forall j, pb !! j = Some false -> frame_at H (Z.of_nat j) <> F) ->
  kernel_ok (F :: D) H k qs L vb pb ts.
Proof.
  intros K Hn Hj. pose proof (ko_u8 _ _ _ _ _ _ _ _ K) as U. destruct K. constructor; try done.
  - apply new_sched; auto.
  - apply new_heap; auto.
Qed.

Lemma new_screen : on_screen D k -> (forall a, Print.video_byte a -> ~ in_block d PG_SIZE a) ->
  on_screen (F :: D) k.
Proof.
  intros (cells & cur & [(Hl & V & C) Hc] & Hr) Hn. exists cells, cur. split; [|done]. split; [|done].
  split; [done|]. split; [|done]. intros i Hi. eapply new_valid; eauto; [by apply V|].
  apply Hn. unfold Print.video_byte. lia.
Qed.

End Kernel.
End AddressSpace.
