(* ===== verification/ProcessRun.v ===== *)
(** Starting a process: [process_run] of [user/process.c], specified.

    [spawnable] is what the function needs beyond the invariant [kernel_ok]: the
    entries of the kernel's gigabyte are in memory, and the free frames of the
    kernel hold no present entry, since [page_dir_create] does not clear the
    lower part of the new directory.  [process_run_ok]: the invariant holds with
    one more address space. *)

From S2P Require Import Prelude Bytes Bitmap Interrupt LinkedList Paging PageTable PageMap Words Ports.
From S2P Require Import Print Kernel ReadyQueues Sched Sync Console Memory Heap Thread ThreadSpec ThreadRun.
From S2P Require Import MemInit Process PageDir AddressSpace.

Module ProcessRun.
Import Bitmap Interrupt LinkedList Paging PageTable PageMap Words Kernel ReadyQueues Sched Sync Console Memory.
Import Heap MemInit Thread ThreadSpec ThreadRun Process PageDir AddressSpace.

#[local] Opaque rq_addrs.

(** The map of a process's virtual addresses: a bit per page from
    [USER_VADDR_START] to the kernel's gigabyte. *)
Definition user_map_bits : Z := 753592.
Definition user_map (base : Z) : bitmap := mkBitmap base user_map_bits 94199.
Definition user_map_pages : nat := 23.

Definition with_user_map (base : Z) (tc : tcb) : tcb :=
  tcb_user_vaddr_pool (mkPool (user_map base) USER_VADDR_START (Kernel.pool_size (user_vaddr_pool tc))) tc.

(** ** The same bytes in another address space *)

Section Moved.
Context (D D' : list Z) (s v : vm).

Definition moved (P : Z -> Prop) : Prop := forall a, P a -> vm_valid D s a -> vm_valid D' v a /\ vm_load v a = vm_load s a.

Lemma bitmap_rep_moved b bits : moved (bitmap_byte b) -> bitmap_rep (ByteMem0 := vm_mem D) s b bits ->
  bitmap_rep (ByteMem0 := vm_mem D') v b bits.
Proof.
  intros Hm (Hl & Hn & Hb & V & H). do 3 (split; [done|]). split.
  - intros i Hi. apply Hm; [unfold bitmap_byte; lia|by apply V].
  - intros i w Hw. destruct (H i w Hw) as (c & Hc & Hbit). exists c. split; [|done].
    assert (0 <= Z.of_nat i / 8 < byte_len b).
    { rewrite Hb. apply bit_in_byte_len. apply lookup_lt_Some in Hw. lia. }
    rewrite <- Hc. apply Hm; [unfold bitmap_byte; lia|by apply V].
Qed.

Lemma rd32_moved a w : moved (in_block a 4) -> valid_block (ByteMem0 := vm_mem D) s a 4 ->
  rd32 a s = Ok w s -> rd32 a v = Ok w v.
Proof.
  intros Hm V E.
  assert (V' : valid_block (ByteMem0 := vm_mem D') v a 4).
  { intros i Hi. apply Hm; [unfold in_block; lia|by apply V]. }
  assert (L : forall i, 0 <= i < 4 -> exists b, vm_load s (a + i) = Some b /\ vm_load v (a + i) = Some b).
  { intros i Hi. destruct (vm_load_valid D s (a + i)) as (q & b & T & Lq & _); [by apply V|].
    assert (Hb : vm_load s (a + i) = Some b) by (unfold vm_load; by rewrite T).
    exists b. split; [done|]. rewrite <- Hb. apply Hm; [unfold in_block; lia|by apply V]. }
  destruct (L 0 ltac:(lia)) as (b0 & A0 & B0), (L 1 ltac:(lia)) as (b1 & A1 & B1),
    (L 2 ltac:(lia)) as (b2 & A2 & B2), (L 3 ltac:(lia)) as (b3 & A3 & B3).
  rewrite Z.add_0_r in A0, B0.
  pose proof (rd32_bytes (ByteMem0 := vm_mem D) s a b0 b1 b2 b3 V A0 A1 A2 A3) as E1.
  pose proof (rd32_bytes (ByteMem0 := vm_mem D') v a b0 b1 b2 b3 V' B0 B1 B2 B3) as E2.
  rewrite E in E1. injection E1 as ->. exact E2.
Qed.

Lemma framed_moved s0 base n m : moved (in_block base n) -> framed (ByteMem0 := vm_mem D) s0 base n m s ->
  framed (ByteMem0 := vm_mem D') v base n m v.
Proof.
  intros Hm (V0 & M & H).
  assert (V : valid_block (ByteMem0 := vm_mem D) s base n) by by eapply valid_block_modifies.
  split; [|split; [reflexivity|]].
  - intros i Hi. apply Hm; [unfold in_block; lia|by apply V].
  - intros o w (H1 & H2 & H3 & E)%H. do 3 (split; [done|]). apply rd32_moved; [| |exact E].
    + intros a Ha. apply Hm. unfold in_block in *. lia.
    + by eapply block_word.
Qed.

End Moved.

(** None of the bitmaps of the scheduler and of the heap. *)
Definition elsewhere (H : kheap) (k : kernel) (a : Z) : Prop :=
  ~ mask_byte k a /\ ~ bitmap_byte (btmp (h_vpool H)) a /\ ~ bitmap_byte (btmp (h_ppool H)) a.

Lemma screen_moved D D' k k' : on_screen D k -> moved D D' (k_vm k) (k_vm k') Print.video_byte ->
  k_io k' = k_io k -> on_screen D' k'.
Proof.
  intros (cells & cur & [(Hl & V & C) Hc] & Hr) Hm Ei. exists cells, cur. split; [|done].
  assert (Hb : forall i, 0 <= i < 4000 -> Print.video_byte (Print.video_base_addr + i))
    by (unfold Print.video_byte; lia).
  split; [|simpl in *; by rewrite Ei]. split; [done|]. split.
  - intros i Hi. apply Hm; [by apply Hb|by apply V].
  - intros i c a Hi. pose proof (lookup_lt_Some _ _ _ Hi). destruct (C i c a Hi) as [C1 C2].
    simpl in *. rewrite <- Z.add_assoc in *. rewrite <- C1, <- C2.
    split; apply Hm; (apply Hb; lia) || (apply V; lia).
Qed.

Lemma moved_trans D1 D2 D3 s1 s2 s3 P : moved D1 D2 s1 s2 P -> moved D2 D3 s2 s3 P -> moved D1 D3 s1 s3 P.
Proof.
  intros H1 H2 a Ha Va. destruct (H1 a Ha Va) as [V2 E2]. destruct (H2 a Ha V2) as [V3 E3]. split; [done|congruence].
Qed.

(** The frames outside the pool that nobody uses stay unused, in the new spaces
    too. *)
Definition spares_kept (D D' : list Z) (H : kheap) (s v : vm) : Prop :=
  forall f, outside H f -> spare D s f -> spare D' v f.

(** The address space in the frame [F], whose directory is at [d]; no space uses
    the directory as a table. *)
Record own_space (D : list Z) (s : vm) (F d : Z) : Prop := {
  os_shares : shares_kernel s F;
  os_low : lower_half_clear s F;
  os_dir : translate s d = Some F;
  os_apart : entries_apart D (under s F)
}.

(** No directory changes, and what a kernel address is translated to. *)
Record spaces_grow (D : list Z) (s v : vm) : Prop := {
  sg_cr3 : cr3 v = cr3 s;
  sg_map c b p : c ∈ cr3 s :: D -> kernel_addr b -> translate (under s c) b = Some p ->
    translate (under v c) b = Some p;
  sg_dirs : dirs_kept D s v
}.

Lemma spaces_trans D s1 s2 s3 : spaces_grow D s1 s2 -> spaces_grow D s2 s3 -> spaces_grow D s1 s3.
Proof.
  intros [C1 M1 D1] [C2 M2 D2]. constructor; [congruence| |by eapply dirs_kept_trans].
  intros c b p Hc Kb Tb. apply M2; [by rewrite C1|done|by apply M1].
Qed.

Lemma spaces_fewer D D' s v : (forall c, c ∈ D -> c ∈ D') -> spaces_grow D' s v -> spaces_grow D s v.
Proof.
  intros Hin [C M K]. assert (Hs : forall c, c ∈ cr3 s :: D -> c ∈ cr3 s :: D') by set_solver.
  constructor; [done| |]; intros c *; intros Hc%Hs; [by apply M|by apply K].
Qed.

Lemma evolves_spaces D H mask s v pb : evolves D H mask s v pb -> spaces_grow D s v.
Proof. intros [G _ _ _ K]. by constructor; [apply G..|]. Qed.

Lemma modifies_spaces D P s v : modifies (ByteMem0 := vm_mem D) P s v -> spaces_grow D s v.
Proof.
  intros M. pose proof (modifies_grows D _ _ _ M) as G. constructor; [apply G..|].
  apply keeps_dirs. exact (modifies_keeps _ _ _ M).
Qed.

Section Parts.
Context (D : list Z).
Implicit Types (k : kernel) (H : kheap) (vb pb : list bool) (s v : vm) (qs : queues).
Implicit Types (L : gmap Z (list Z)).

#[local] Instance data_mem : ByteMem vm := vm_mem D.

(** A control block changes, but for its priority. *)
Lemma kernel_ok_tcb H k qs L vb pb ts t tc tc' : kernel_ok D H k qs L vb pb ts ->
  k_tcbs k !! t = Some tc -> priority tc' = priority tc ->
  (pg_dir tc' = pg_dir tc \/ (kernel_addr (pg_dir tc') /\ dir_ok D (k_vm k) (pg_dir tc'))) ->
  kernel_ok D H (with_tcbs (<[t := tc']> (k_tcbs k)) k) qs L vb pb ts.
Proof.
  intros K Ht Hp Hd.
  assert (Hsome : forall x, is_Some (k_tcbs k !! x) -> is_Some (<[t := tc']> (k_tcbs k) !! x)).
  { intros x Hx. apply lookup_insert_is_Some'. auto. }
  destruct K. constructor; try done.
  - apply (rep_tcb D k qs L t tc); [done|done|by left|]. destruct Hd as [Hd|[_ Hd]]; auto.
  - by apply (heap_rep_ext D H k).
  - by destruct ko_pid0.
  - intros x Hx. by apply Hsome, ko_threads0.
  - by apply Hsome.
  - by apply Hsome.
  - intros x xc Hx. cbn [k_tcbs with_tcbs] in Hx. apply lookup_insert_Some in Hx as [[<- <-]|[_ Hx]].
    + destruct Hd as [Hd|[Ka _]]; [|done]. rewrite Hd. by apply (ko_dirs0 t).
    + by apply (ko_dirs0 x).
  - intros i Hi. destruct (ko_free0 i Hi) as [F N]. split; [done|]. apply lookup_insert_None.
    split; [done|]. congruence.
Qed.

(** Pages that are new since [s] are apart from the mask and the bitmaps. *)
Lemma new_apart H k qs L vb pb ts base n : kernel_ok D H k qs L vb pb ts ->
  (forall a, vm_valid D (k_vm k) a -> ~ in_block base n a) ->
  forall a, in_block base n a -> ~ mask_byte k a /\ ~ bitmap_byte (btmp (h_vpool H)) a
    /\ ~ bitmap_byte (btmp (h_ppool H)) a.
Proof.
  intros K Hnew a Ha.
  assert (Hbv : forall b bits, bitmap_rep (k_vm k) b bits -> ~ bitmap_byte b a).
  { intros b bits (_ & _ & _ & Vb & _) Hb. apply (Hnew a); [|done].
    replace a with (base_addr b + (a - base_addr b)) by lia. apply Vb. unfold bitmap_byte in Hb. lia. }
  split_and!.
  - intros Hm. apply (Hnew a); [|done]. exact (mask_valid D k qs L a (ko_sched _ _ _ _ _ _ _ _ K) Hm).
  - eapply Hbv, (hr_vbits _ _ _ _ _ (ko_heap _ _ _ _ _ _ _ _ K)).
  - eapply Hbv, (hr_pbits _ _ _ _ _ (ko_heap _ _ _ _ _ _ _ _ K)).
Qed.

Lemma mark_more i n (vb : list bool) j : mark i n vb !! j = Some false -> vb !! j = Some false.
Proof.
  induction n as [|n IH]; simpl; [done|]. intros Hj. by eapply IH, insert_true_free.
Qed.

(** Pages were taken. *)
Lemma kernel_ok_taken H k qs L vb pb ts v (i n : nat) js : kernel_ok D H k qs L vb pb ts ->
  heap_rep D H (with_vm v k) (mark i n vb) (used js pb) ->
  pages_taken D H (k_vm k) v (Z.of_nat i) (Z.of_nat n) js ->
  kernel_ok D H (with_vm v k) qs L (mark i n vb) (used js pb) ts.
Proof.
  intros K R Pt. eapply kernel_ok_vm; [exact K|exact R|apply Pt| |apply mark_more].
  intros a Ha Va. destruct (ko_apart _ _ _ _ _ _ _ _ K a Ha). by apply (pt_load _ _ _ _ _ _ _ Pt).
Qed.

(** ** [user_vaddr_bitmap_create] *)

Lemma user_vaddr_bitmap_create_ok H k qs L vb pb ts t tc i0 : kernel_ok D H k qs L vb pb ts ->
  k_tcbs k !! t = Some tc -> run vb false user_map_pages i0 ->
  (user_map_pages <= length (clear_from 0 pb))%nat ->
  exists (i : nat) v, let base := page_at H (Z.of_nat i) in
    let pb' := used (take user_map_pages (clear_from 0 pb)) pb in
    let k' := with_tcbs (<[t := with_user_map base tc]> (k_tcbs k)) (with_vm v k) in
    run vb false user_map_pages i /\ (forall j, (j < i)%nat -> ~ run vb false user_map_pages j)
    /\ user_vaddr_bitmap_create t k = Ok tt k'
    /\ kernel_ok D H k' qs L (mark i user_map_pages vb) pb' ts
    /\ bitmap_rep v (user_map base) (replicate (Z.to_nat user_map_bits) false)
    /\ (forall a, bitmap_byte (user_map base) a -> ~ vm_valid D (k_vm k) a)
    /\ evolves D H (mask_byte k) (k_vm k) v pb'.
Proof.
  intros K Ht Hrun Hlen. set (p := user_vaddr_pool tc).
  set (tc0 := tcb_user_vaddr_pool (mkPool (btmp p) USER_VADDR_START (Kernel.pool_size p)) tc).
  set (k0 := with_tcbs (<[t := tc0]> (k_tcbs k)) k).
  assert (K0 : kernel_ok D H k0 qs L vb pb ts) by (eapply kernel_ok_tcb; [exact K|exact Ht|done|by left]).
  destruct (kernel_pages_malloc_ok D H k0 vb pb user_map_pages i0 (ko_heap _ _ _ _ _ _ _ _ K0)
    ltac:(unfold user_map_pages; lia) ltac:(unfold user_map_pages; lia) Hrun Hlen)
    as (i & v1 & Hi & Hlow & E1 & R1 & Pt).
  pose proof (kernel_ok_taken H k0 qs L vb pb ts v1 i _ _ K0 R1 Pt) as K1.
  pose proof (taken_evolves D H k0 vb pb v1 _ _ _ (mask_byte k) (ko_heap _ _ _ _ _ _ _ _ K0) Pt) as Ev.
  set (base := page_at H (Z.of_nat i)) in *. change (Z.of_nat user_map_pages) with 23 in *.
  assert (Hin : forall a, base <= a < base + 94199 -> in_block base (PG_SIZE * 23) a).
  { unfold in_block, PG_SIZE. intros; lia. }
  assert (Hb0 : base <> 0).
  { pose proof (to_range D _ _ (hr_tables _ _ _ _ _ (ko_heap _ _ _ _ _ _ _ _ K))).
    unfold base, page_at, PG_SIZE in *. lia. }
  destruct (zoom_vm_ok (bitmap_init base user_map_bits) (with_vm v1 k0) _
    (bitmap_init_zero v1 base user_map_bits ltac:(unfold user_map_bits; lia)
      ltac:(intros j Hj; apply (pt_pages _ _ _ _ _ _ _ Pt); change (bit_num_2_byte_len user_map_bits) with 94199 in Hj;
        unfold PG_SIZE; lia) Hb0)) as (b & v2 & E2 & Eb & Bm & M).
  change (bit_num_2_byte_len user_map_bits) with 94199 in *. fold (user_map base) in Eb. subst b.
  assert (K2 : kernel_ok D H (with_vm v2 k0) qs L (mark i user_map_pages vb)
    (used (take user_map_pages (clear_from 0 pb)) pb) ts).
  { apply (kernel_ok_write D H (with_vm v1 k0) qs L _ _ ts _ v2 K1 M).
    intros a Ha%Hin. by apply (new_apart H k0 qs L vb pb ts base (PG_SIZE * 23) K0 (pt_new _ _ _ _ _ _ _ Pt)). }
  assert (Etc : <[t := with_user_map base tc]> (<[t := tc0]> (k_tcbs k)) = <[t := with_user_map base tc]> (k_tcbs k))
    by apply insert_insert_eq.
  exists i, v2. cbv zeta. fold base. split; [exact Hi|]. split; [exact Hlow|]. split; [|split; [|split; [exact Bm|split]]].
  - unfold user_vaddr_bitmap_create. erewrite bind_ok by by apply on_tcb_ok. fold p. fold tc0. fold k0.
    change (((0xc0000000 - USER_VADDR_START) / PG_SIZE / 8 + 1) / PG_SIZE + 1) with 23.
    erewrite bind_ok by exact E1. change ((0xc0000000 - USER_VADDR_START) / PG_SIZE) with user_map_bits.
    erewrite bind_ok by exact E2. erewrite on_tcb_ok by apply lookup_insert_eq. f_equal.
    change (k_tcbs (put_view vm_of v2 (with_vm v1 k0))) with (<[t := tc0]> (k_tcbs k)).
    rewrite <- Etc. reflexivity.
  - rewrite <- Etc. apply (kernel_ok_tcb H (with_vm v2 k0) qs L _ _ ts t tc0); [exact K2| |done|by left].
    apply lookup_insert_eq.
  - intros a Ha Va. apply (pt_new _ _ _ _ _ _ _ Pt a Va). apply Hin. exact Ha.
  - apply (evolves_write D H _ (with_vm v1 k0) _ _ _ _ _ Ev R1 M). intros a Va Ha%Hin.
    by destruct (pt_new _ _ _ _ _ _ _ Pt a Va).
Qed.

(** ** What a new process needs *)

(** The free frames hold no present directory entry. *)
Definition clean H s pb : Prop := forall (j : nat) x, pb !! j = Some false -> 0 <= x < 768 ->
  exists e, ld32p (phys s) (frame_at H (Z.of_nat j) + 4 * x) = Some e /\ present e = false.

Record spawnable H s pb : Prop := { sp_upper : upper_half s; sp_clean : clean H s pb }.

Lemma spawnable_evolves H mask s v pb pb' : spawnable H s pb -> evolves D H mask s v pb' ->
  (forall j, pb' !! j = Some false -> pb !! j = Some false) -> spawnable H v pb'.
Proof.
  intros [U C] [G Un _ _ _] Hp. constructor.
  - intros o Ho. rewrite (gr_cr3 _ _ _ G). by apply (gr_phys _ _ _ G), U.
  - intros j x Hj Hx. destruct (C j x (Hp j Hj) Hx) as (e & E & Pe). exists e. split; [|done].
    rewrite <- E. apply ld32p_move. intros i Hi. rewrite <- !Z.add_assoc. apply Un; [done|unfold PAGE; lia].
Qed.

Lemma own_space_modifies P s v F d : F ∈ D -> kernel_addr d -> modifies P s v ->
  own_space D s F d -> own_space D v F d.
Proof.
  intros HF Kd M [[S1 S2 S3] Lo T A]. pose proof (modifies_grows D _ _ _ M) as G.
  assert (K : vm_keeps D s v) by exact (modifies_keeps _ _ _ M). destruct K as (C & K & _).
  assert (E : forall x, 0 <= x < 1024 -> pde_of (under v F) x = pde_of (under s F) x)
    by (intros; apply keeps_pde; [apply K; by right|done]).
  assert (E' : forall x, 0 <= x < 1024 -> pde_of v x = pde_of s x).
  { intros x Hx. rewrite <- (under_cr3 v), <- (under_cr3 s), C. apply keeps_pde; [apply K; left|done]. }
  constructor.
  - constructor; [done| |by rewrite E]. intros x Hx. rewrite E, E' by lia. by apply S2.
  - intros x Hx. rewrite E by lia. by apply Lo.
  - rewrite <- (under_cr3 v), C. apply (gr_map _ _ _ G); [left|done|]. by rewrite under_cr3.
  - intros c x e Hc Hx He. apply (A c x e Hc Hx). rewrite <- He. simpl.
    symmetry. apply (keeps_pde (under s c) (under v c)); [|lia]. apply K. simpl in Hc. set_solver.
Qed.

(** ** [page_dir_create] *)

Lemma first_clear n N : (n < N)%nat -> clear_from 0 (first_used n N) <> [].
Proof. intros Hn. rewrite first_used_clear. destruct (N - n)%nat eqn:E; [lia|done]. Qed.

Lemma made_evolves H k vb pb v i j : heap_rep D H k vb pb -> dir_made D H (k_vm k) v i j ->
  evolves D H (fun _ => False) (k_vm k) v (<[j := true]> pb).
Proof.
  intros R Dm. constructor; [apply Dm| | |apply (dm_spare _ _ _ _ _ _ Dm)|apply Dm].
  - intros x o Hx Ho. pose proof (insert_true_free _ _ _ Hx) as Hx'.
    assert (Hne : x <> j).
    { intros ->. pose proof (lookup_lt_Some _ _ _ Hx') as Hl. by rewrite list_lookup_insert_eq in Hx. }
    apply (dm_free _ _ _ _ _ _ Dm); rewrite (pool_frame _ _ _ _ _ _ _ R Ho).
    + by apply (hr_frames _ _ _ _ _ R).
    + unfold frame_at, PG_SIZE. lia.
  - intros a Va _. by apply (dm_load _ _ _ _ _ _ Dm).
Qed.

(** The new directory maps nothing below the kernel's gigabyte. *)
Lemma made_low H s v pb i j : clean H s pb -> pb !! j = Some false -> frame_at H (Z.of_nat j) mod PAGE = 0 ->
  dir_made D H s v i j -> lower_half_clear v (frame_at H (Z.of_nat j)).
Proof.
  intros C Hj HF Dm x Hx. destruct (C j x Hj Hx) as (e & E & Pe). exists e. split; [|done].
  unfold pde_of. simpl. assert (HFr : frame (frame_at H (Z.of_nat j)) = frame_at H (Z.of_nat j)).
  { rewrite <- (Z.add_0_r (frame_at _ _)) at 1. by apply frame_aligned. }
  rewrite HFr, <- E. apply ld32p_move. intros o Ho. rewrite <- !Z.add_assoc.
  apply (dm_low _ _ _ _ _ _ Dm). lia.
Qed.

Lemma page_dir_space H k qs L n N m N' ts : kernel_ok D H k qs L (first_used n N) (first_used m N') ts ->
  spawnable H (k_vm k) (first_used m N') -> (n < N)%nat -> (m < N')%nat ->
  let d := page_at H (Z.of_nat n) in let F := frame_at H (Z.of_nat m) in
  exists v, page_dir_create k = Ok d (with_vm v k)
    /\ kernel_ok (F :: D) H (with_vm v k) qs L (first_used (S n) N) (first_used (S m) N') ts
    /\ kernel_addr d /\ dir_ok (F :: D) v d /\ own_space (F :: D) v F d
    /\ moved D (F :: D) (k_vm k) v (elsewhere H k)
    /\ evolves D H (fun _ => False) (k_vm k) v (first_used (S m) N')
    /\ spares_kept D (F :: D) H (k_vm k) v.
Proof.
  intros K [Hu Hc] Hn Hm d F. pose proof (ko_heap _ _ _ _ _ _ _ _ K) as R.
  destruct (page_dir_create_ok D H k _ _ n R ltac:(by apply first_used_free; lia) (first_clear m N' Hm) Hu)
    as (i & j & v & Hi & Hlow & Hj & E & R' & Dm).
  apply first_used_lowest in Hi as ->; [|lia|done]. rewrite first_used_clear in Hj.
  assert (j = m) as ->.
  { destruct (N' - m)%nat eqn:E'; [lia|]. simpl in Hj. by injection Hj as <-. }
  pose proof (made_evolves H k _ _ v n m R Dm) as Ev. rewrite (insert_first_used n N), (insert_first_used m N') in R' by lia.
  rewrite (insert_first_used m N') in Ev by lia.
  assert (Hpm : first_used m N' !! m = Some false) by (apply first_used_free; lia).
  destruct (hr_pbase _ _ _ _ _ R) as (Hm0 & Hb0 & Hb1). destruct (pool_sizes _ _ _ _ _ R) as (_ & _ & _ & Lp).
  rewrite first_used_length in Lp by lia.
  assert (HF : F mod PAGE = 0 /\ 0 <= F < 2 ^ 32).
  { unfold F, frame_at, PG_SIZE, PAGE in *. split; [zdiv_lia|lia]. }
  pose proof (made_low H _ v _ n m Hc Hpm (proj1 HF) Dm) as Hlc. fold F in Hlc.
  pose proof (dm_shares _ _ _ _ _ _ Dm) as Hsh. fold F in Hsh.
  pose proof (dm_page _ _ _ _ _ _ Dm : forall o, 0 <= o < PAGE -> vm_valid D v (d + o)) as Hpg.
  assert (Hmap : forall c o, c ∈ cr3 v :: D -> 0 <= o < PAGE -> translate (under v c) (d + o) = Some (F + o)).
  { intros c o. rewrite (gr_cr3 _ _ _ (dm_grows _ _ _ _ _ _ Dm)). apply (dm_map _ _ _ _ _ _ Dm). }
  pose proof (new_apart H k qs L _ _ ts d PG_SIZE K (dm_new _ _ _ _ _ _ Dm)) as Hap.
  assert (K1 : kernel_ok D H (with_vm v k) qs L (first_used (S n) N) (first_used (S m) N') ts).
  { eapply kernel_ok_vm; [exact K|exact R'|apply Dm| |].
    - intros a Ha Va. destruct (ko_apart _ _ _ _ _ _ _ _ K a Ha). by apply (dm_load _ _ _ _ _ _ Dm).
    - intros x. apply first_used_more. lia. }
  pose proof (hr_tables _ _ _ _ _ R') as T'. pose proof (sr_cr3 _ _ _ _ (ko_sched _ _ _ _ _ _ _ _ K1)) as Hcr.
  exists v. split; [exact E|]. split; [|split; [|split; [|split; [|split; [|split; [exact Ev|]]]]]].
  - apply (new_space D H (with_vm v k) F d Hsh Hlc (proj2 HF) Hpg Hmap); [exact K1| |].
    + intros a Ha Hd. destruct (Hap a Hd) as (X1 & X2 & X3). destruct Ha as [Ha|[Ha|Ha]]; done.
    + intros x Hx. apply first_used_free in Hx; [|lia]. unfold F, frame_at, PG_SIZE. lia.
  - rewrite <- (Z.add_0_r d). by apply (Hpg 0).
  - by apply (this_dir_ok D v F d Hsh (proj2 HF) Hpg Hmap H).
  - split; [done|done| |by apply (new_apart_dir D v F d Hsh Hlc (proj2 HF) Hpg Hmap)].
    rewrite <- (under_cr3 v), <- (Z.add_0_r d), <- (Z.add_0_r F). apply Hmap; [left|done].
  - intros a (_ & N1 & N2) Va. split; [|by apply (dm_load _ _ _ _ _ _ Dm)].
    apply (new_valid D v F d Hsh Hlc (proj2 HF) Hpg Hmap); [|by apply (dm_new _ _ _ _ _ _ Dm)].
    by apply (gr_valid _ _ _ (dm_grows _ _ _ _ _ _ Dm)).
  - intros f Of Sf. apply (new_spare D v F d Hsh Hlc (proj2 HF) Hpg Hmap); [by apply (dm_spare _ _ _ _ _ _ Dm)|].
    apply Of. lia.
Qed.

(** ** Entering the queues with interrupts off *)

Definition locked_enter (t : Z) : M kernel unit :=
  int_save ← zoom eflags_of intr_disable;
  scheduler_rq_join t;;
  zoom lists_of (list_push_back all_list (all_list_tag t));;
  zoom eflags_of (intr_set_status int_save);;
  mret tt.

Lemma locked_enter_ok H k qs L vb pb ts t tc : kernel_ok D H k qs L vb pb ts ->
  k_tcbs k !! t = Some tc -> ~ queued t qs -> ~ owned L (all_list_tag t) ->
  is_Some (k_links k !! all_list_tag t) ->
  exists h v L', let k' := with_sched (preempted k (priority tc)) (with_vm v (with_links h k)) in
    locked_enter t k = Ok tt k'
    /\ kernel_ok D H k' (enqueue (Z.to_nat (priority tc)) t qs) L' vb pb (ts ++ [t])
    /\ modifies (mask_byte k) (k_vm k) v /\ (forall l, l ∉ rq_addrs -> l <> all_list -> L' !! l = L !! l).
Proof.
  intros K Ht Hq Hall Hnode. set (e := k_eflags k). set (k0 := with_eflags (with_if false e) k).
  assert (K0 : kernel_ok D H k0 qs L vb pb ts) by by apply (kernel_ok_ext D H k).
  destruct (enter_ok D H k0 qs L vb pb ts t tc K0 Ht Hq Hall Hnode) as (h & v & L' & E & K1 & M & _ & _ & Ho).
  cbv zeta in *. exists h, v, L'. split; [|split; [by eapply (kernel_ok_ext D H); [..|exact K1]|by split]].
  unfold locked_enter. erewrite bind_ok by apply zoom_eflags_disable. fold e. fold k0.
  revert E. unfold enter. unfold mbind at 1, M_bind at 1.
  destruct (scheduler_rq_join t k0) as [[] k1| | | |] eqn:E1; [|done..]. intros E.
  erewrite bind_ok by exact E1. erewrite bind_ok by exact E. erewrite bind_ok by apply zoom_eflags_restore.
  unfold mret, M_ret. f_equal. unfold with_eflags. simpl. rewrite with_if_with_if, with_if_same. by destruct k.
Qed.

End Parts.

(** ** [process_run] *)

Lemma evolves_moved D H mask s v pb P : evolves D H mask s v pb ->
  (forall a, P a -> ~ mask a /\ ~ bitmap_byte (btmp (h_vpool H)) a /\ ~ bitmap_byte (btmp (h_ppool H)) a) ->
  moved D D s v P.
Proof.
  intros [G _ Ld _ _] HP a Ha Va. destruct (HP a Ha) as (N1 & N2 & N3).
  split; [by apply (gr_valid _ _ _ G)|by apply Ld].
Qed.

Lemma modifies_moved D Q s v P : modifies (ByteMem0 := vm_mem D) Q s v -> (forall a, P a -> ~ Q a) -> moved D D s v P.
Proof.
  intros M HP a Ha Va. split; [exact (modifies_valid Q s v a M Va)|].
  exact (modifies_load Q s v a M Va (HP a Ha)).
Qed.

Section Run.
Context (D : list Z).
Implicit Types (k : kernel) (H : kheap) (s v : vm) (qs : queues) (L : gmap Z (list Z)).

Lemma preempted_lowest k : (forall t tc, k_tcbs k !! t = Some tc -> priority tc < PRIO_NUM) ->
  preempted k 31 = k_sched k.
Proof.
  intros H. unfold preempted. destruct (k_tcbs k !! _) as [rt|] eqn:E; [|done]. pose proof (H _ _ E).
  by rewrite (proj2 (Z.ltb_ge _ _)) by (unfold PRIO_NUM in *; lia).
Qed.

Definition process_rest (task : Z) : M kernel unit :=
  user_vaddr_bitmap_create task;;
  d ← page_dir_create;
  on_tcb task (tcb_pg_dir d);;
  locked_enter task.

Lemma process_run_eq entry ptr filename nm k : process_run entry ptr filename nm k
  = (task ← thread_create entry nm 31 ptr filename; process_rest task) k.
Proof.
  unfold process_run, thread_create, mbind, M_bind. destruct (kernel_pages_malloc 1 k) as [t k1| | | |]; [|done..].
  destruct (thread_init entry t nm 31 ptr filename k1) as [[] k2| | | |]; done.
Qed.

(** What the part after [thread_create] does. *)
Lemma process_rest_ok H k qs L n N m N' ts t tc :
  kernel_ok D H k qs L (first_used n N) (first_used m N') ts -> spawnable H (k_vm k) (first_used m N') ->
  (n + 24 <= N)%nat -> (m + 24 <= N')%nat -> k_tcbs k !! t = Some tc -> priority tc = 31 ->
  ~ queued t qs -> ~ owned L (all_list_tag t) -> is_Some (k_links k !! all_list_tag t) ->
  let base := page_at H (Z.of_nat n) in
  let d := page_at H (Z.of_nat (n + 23)) in let F := frame_at H (Z.of_nat (m + 23)) in
  exists k' L', process_rest t k = Ok tt k'
    /\ kernel_ok (F :: D) H k' (enqueue 31 t qs) L' (first_used (n + 24) N) (first_used (m + 24) N') (ts ++ [t])
    /\ spawnable H (k_vm k') (first_used (m + 24) N')
    /\ k_tcbs k' = <[t := tcb_pg_dir d (with_user_map base tc)]> (k_tcbs k)
    /\ k_sched k' = k_sched k /\ k_eflags k' = k_eflags k /\ k_io k' = k_io k /\ k_pools k' = k_pools k
    /\ bitmap_rep (ByteMem0 := vm_mem (F :: D)) (k_vm k') (user_map base) (replicate (Z.to_nat user_map_bits) false)
    /\ moved D (F :: D) (k_vm k) (k_vm k') (elsewhere H k)
    /\ bystanders_free t k k' L L' /\ own_space (F :: D) (k_vm k') F d
    /\ spares_kept D (F :: D) H (k_vm k) (k_vm k') /\ spaces_grow D (k_vm k) (k_vm k').
Proof.
  intros K Sp Hn Hm Ht Hpr Hnq Hall Hnode base d F.
  assert (Hru : run (first_used n N) false user_map_pages n).
  { intros j Hj. apply first_used_free; unfold user_map_pages in *; lia. }
  destruct (user_vaddr_bitmap_create_ok D H k qs L _ _ ts t tc n K Ht Hru)
    as (i & v1 & Hi & Hl & E1 & K1 & B1 & Hnew & Ev1).
  { rewrite first_used_clear, length_seq. unfold user_map_pages. lia. }
  cbv zeta in *. apply first_used_run in Hi as ->; [|unfold user_map_pages; lia..|exact Hl].
  fold base in E1, K1, B1, Hnew. rewrite mark_first_used, used_first_used in K1 by (unfold user_map_pages; lia).
  rewrite used_first_used in Ev1 by (unfold user_map_pages; lia). change user_map_pages with 23%nat in *.
  set (tc1 := with_user_map base tc) in *. set (k1 := with_tcbs (<[t := tc1]> (k_tcbs k)) (with_vm v1 k)) in *.
  assert (Sp1 : spawnable H v1 (first_used (m + 23) N')).
  { apply (spawnable_evolves D H _ _ v1 _ _ Sp Ev1). intros j. apply first_used_more. lia. }
  destruct (page_dir_space D H k1 qs L (n + 23) N (m + 23) N' ts K1 Sp1 ltac:(lia) ltac:(lia))
    as (v2 & E2 & K2 & Kd & Hd & Os & M2 & Ev2 & Sk2). cbv zeta in *. fold d in E2, Kd, Hd, Os. fold F in K2, Hd, Os, M2, Sk2.
  replace (S (n + 23)) with (n + 24)%nat in K2 by lia. replace (S (m + 23)) with (m + 24)%nat in K2, Ev2 by lia.
  set (tc2 := tcb_pg_dir d tc1). set (k2 := with_tcbs (<[t := tc2]> (k_tcbs k1)) (with_vm v2 k1)).
  assert (K2' : kernel_ok (F :: D) H k2 qs L (first_used (n + 24) N) (first_used (m + 24) N') ts).
  { apply (kernel_ok_tcb (F :: D) H (with_vm v2 k1) qs L _ _ ts t tc1 tc2 K2); [apply lookup_insert_eq|done|].
    right. by split. }
  destruct (locked_enter_ok (F :: D) H k2 qs L _ _ ts t tc2 K2' (lookup_insert_eq (k_tcbs k1) t tc2) Hnq Hall Hnode)
    as (h & v3 & L' & E3 & K3 & M3 & Ho). cbv zeta in *. change (priority tc2) with (priority tc) in *. rewrite Hpr in *.
  change (Z.to_nat 31) with 31%nat in K3.
  set (k3 := with_sched (preempted k2 31) (with_vm v3 (with_links h k2))) in *.
  assert (Etc : k_tcbs k3 = <[t := tc2]> (k_tcbs k)).
  { change (k_tcbs k3) with (<[t := tc2]> (<[t := tc1]> (k_tcbs k))). apply insert_insert_eq. }
  assert (Mrest : moved D (F :: D) v1 v3 (elsewhere H k)).
  { apply (moved_trans D (F :: D) (F :: D) _ v2 _ _ M2).
    apply (modifies_moved (F :: D) (mask_byte k2)); [exact M3|]. by intros a (Na & _). }
  exists k3, L'. split; [|split; [exact K3|split; [|split; [exact Etc|split; [|split; [done|split; [done|split; [done|split; [|split; [|split; [|split; [|split]]]]]]]]]]]].
  - unfold process_rest. erewrite bind_ok by exact E1. erewrite bind_ok by exact E2.
    erewrite bind_ok by (apply on_tcb_ok, lookup_insert_eq). exact E3.
  - pose proof (spawnable_evolves D H _ _ v2 _ (first_used (m + 24) N') Sp1 Ev2) as Sp2.
    specialize (Sp2 ltac:(intros j; apply first_used_more; lia)).
    eapply (spawnable_evolves (F :: D) H (mask_byte k2)); [exact Sp2| |done].
    exact (write_evolves (F :: D) H k2 _ _ _ _ (ko_heap _ _ _ _ _ _ _ _ K2') M3).
  - transitivity (k_sched k2); [|done]. apply (preempted_lowest k2). intros x xc Hx.
    apply (sr_tcbs _ _ _ _ (ko_sched _ _ _ _ _ _ _ _ K2') x xc Hx).
  - apply (bitmap_rep_moved D (F :: D) v1 v3); [|exact B1]. intros a Ha. apply Mrest.
    apply (new_apart D H k qs L _ _ ts base 94199 K); [|exact Ha]. intros b Vb Hb. by apply (Hnew b).
  - apply (moved_trans D D (F :: D) _ v1); [|exact Mrest]. eapply evolves_moved; [exact Ev1|done].
  - intros mtx B [Hs Hh Hw]. split; [exact Hs|exact Hh|]. by rewrite Ho by apply B.
  - eapply (own_space_modifies (F :: D)); [left|exact Kd|exact M3|exact Os].
  - intros f Of Sf. eapply keeps_spare; [exact (modifies_keeps _ _ _ M3)|].
    apply Sk2; [exact Of|]. by apply (ev_spare _ _ _ _ _ _ Ev1).
  - apply (spaces_trans D _ v1); [by eapply evolves_spaces|]. apply (spaces_trans D _ v2); [by eapply evolves_spaces|].
    apply (spaces_fewer D (F :: D)); [by right|]. exact (modifies_spaces (F :: D) _ _ _ M3).
Qed.

(** The control block [process_run] makes. *)
Definition new_process (t base d : Z) (nm : list Z) k : tcb :=
  tcb_pg_dir d (with_user_map base (new_thread t 31 nm k)).

(** The pages of a process: its control block, the map of its addresses, its
    page directory. *)
Definition process_pages : nat := 25.

Lemma process_run_ok entry ptr filename nm H k qs L n N m N' ts :
  kernel_ok D H k qs L (first_used n N) (first_used m N') ts ->
  spawnable H (k_vm k) (first_used m N') -> (n + process_pages <= N)%nat -> (m + process_pages <= N')%nat ->
  (length nm <= NAME_LEN)%nat -> is_u32 entry -> is_u32 ptr -> is_u32 filename ->
  let t := page_at H (Z.of_nat n) in let base := page_at H (Z.of_nat (n + 1)) in
  let d := page_at H (Z.of_nat (n + 24)) in let F := frame_at H (Z.of_nat (m + 24)) in
  exists k' L', process_run entry ptr filename nm k = Ok tt k'
    /\ kernel_ok (F :: D) H k' (enqueue 31 t qs) L' (first_used (n + process_pages) N)
         (first_used (m + process_pages) N') (ts ++ [t])
    /\ spawnable H (k_vm k') (first_used (m + process_pages) N')
    /\ k_tcbs k !! t = None /\ k_tcbs k' = <[t := new_process t base d nm k]> (k_tcbs k)
    /\ k_sched k' = sched_table (entered t (thread_table (k_sched k))) (k_sched k)
    /\ k_eflags k' = k_eflags k /\ k_io k' = k_io k /\ k_pools k' = k_pools k
    /\ bitmap_rep (ByteMem0 := vm_mem (F :: D)) (k_vm k') (user_map base) (replicate (Z.to_nat user_map_bits) false)
    /\ framed (ByteMem0 := vm_mem (F :: D)) (k_vm k') (first_stack t) THREAD_STACK_SIZE
         (first_frame entry ptr filename) (k_vm k')
    /\ moved D (F :: D) (k_vm k) (k_vm k') (elsewhere H k)
    /\ bystanders_free t k k' L L' /\ own_space (F :: D) (k_vm k') F d
    /\ spares_kept D (F :: D) H (k_vm k) (k_vm k')
    /\ valid_block (ByteMem0 := vm_mem (F :: D)) (k_vm k') t PG_SIZE
    /\ spaces_grow D (k_vm k) (k_vm k').
Proof.
  intros K Sp Hn Hm Hnm He Hp Hf t base d F. unfold process_pages in *.
  destruct (thread_create_ok D entry H k qs L _ _ ts n nm 31 ptr filename K
    ltac:(by apply first_used_free; lia) (first_clear m N' ltac:(lia)) Hnm ltac:(by unfold PRIO_NUM) He Hp Hf)
    as (i & v1 & Hi & Hl & E1 & K1 & F1 & Vt & Hnew1 & Ev1). cbv zeta in *.
  apply first_used_lowest in Hi as ->; [|lia|done]. fold t in E1, K1, F1, Vt, Hnew1.
  rewrite insert_first_used, used_first_used in K1 by lia. rewrite used_first_used in Ev1 by lia.
  replace (S n) with (n + 1)%nat in K1 by lia.
  set (tc1 := new_thread t 31 nm k) in *. set (k1 := with_born t tc1 (with_vm v1 k)) in *.
  destruct (ko_free _ _ _ _ _ _ _ _ K n ltac:(apply first_used_free; lia)) as [Fr Nt]. fold t in Fr, Nt.
  assert (Hnq : ~ queued t qs).
  { intros (p & q & Hq & Hin). destruct (sr_queued _ _ _ _ (ko_sched _ _ _ _ _ _ _ _ K) p q t Hq Hin)
      as (x & Hx & _). congruence. }
  assert (Sp1 : spawnable H v1 (first_used (m + 1) N')).
  { apply (spawnable_evolves D H _ _ v1 _ _ Sp Ev1). intros j. apply first_used_more. lia. }
  destruct (process_rest_ok H k1 qs L (n + 1) N (m + 1) N' ts t tc1 K1 Sp1 ltac:(lia) ltac:(lia)
    (lookup_insert_eq (k_tcbs k) t tc1) eq_refl Hnq) as (k' & L' & E2 & K2 & Sp2 & Et & Es & Ee & Ei & Epl & B & M & By & Os & Sk & Sg).
  { apply Fr. right; right; left. }
  { apply born_node. right; right; left. }
  cbv zeta in *. replace (n + 1 + 23)%nat with (n + 24)%nat in * by lia.
  replace (m + 1 + 23)%nat with (m + 24)%nat in * by lia. replace (n + 1 + 24)%nat with (n + 25)%nat in * by lia.
  replace (m + 1 + 24)%nat with (m + 25)%nat in * by lia.
  fold base d in Et. fold base in B. fold d in Os. fold F in K2, B, M, Os, Sk.
  pose proof (new_apart D H k qs L _ _ ts t PG_SIZE K Hnew1) as Hel.
  exists k', L'. split; [|split; [exact K2|split; [exact Sp2|split; [exact Nt|split; [|split; [exact Es|
    split; [exact Ee|split; [exact Ei|split; [exact Epl|split; [exact B|split; [|split; [|split; [|split; [exact Os|split; [|split]]]]]]]]]]]]]]].
  - rewrite process_run_eq. by erewrite bind_ok by exact E1.
  - rewrite Et. change (k_tcbs k1) with (<[t := tc1]> (k_tcbs k)). apply insert_insert_eq.
  - apply (framed_moved D (F :: D) v1 (k_vm k') v1); [|exact F1]. intros a Ha. apply M, Hel.
    unfold in_block, first_stack, INTR_STACK_SIZE, THREAD_STACK_SIZE, PG_SIZE in *. lia.
  - apply (moved_trans D D (F :: D) _ v1); [|exact M]. eapply evolves_moved; [exact Ev1|]. by intros a Ha.
  - intros mtx Bm Fm. apply By; [exact Bm|]. apply born_bystanders; [exact Bm|]. by destruct Fm.
  - intros f Of Sf. apply Sk; [exact Of|]. by apply (ev_spare _ _ _ _ _ _ Ev1).
  - intros o Ho. apply M; [apply Hel; unfold in_block; lia|by apply Vt].
  - apply (spaces_trans D _ v1); [by eapply evolves_spaces|exact Sg].
Qed.

End Run.
End ProcessRun.
