(* ===== verification/NewTable.v ===== *)
(** A new page table: what [v2p_mapping] does when the directory entry of the
    page is absent.

    [tabled D s s' x t y f]: in the directory in CR3 the entry [x], which was
    absent, leads to the table in the frame [t] now; the only entry of the table
    that is present is [y], and leads to the frame [f].  The lemmas say what that
    does to every translation; what was valid data still is, and what was free
    is, but for [t]. *)

From S2P Require Import Prelude Bytes CString Bitmap LinkedList Paging PageTable PageMap Words Kernel.
From S2P Require Import ReadyQueues Sched Sync Memory Heap PageDir.

Module NewTable.
Import Bitmap LinkedList Paging PageTable PageMap Words Kernel ReadyQueues Sched Sync Memory Heap PageDir.

Section Table.
Context (D : list Z).
Implicit Types (s v : vm) (k : kernel) (H : kheap) (vb pb : list bool).

#[local] Instance data_mem : ByteMem vm := vm_mem D.

Record tabled s s' (x t y f : Z) : Prop := {
  tb_cr3 : cr3 s' = cr3 s;
  tb_old : exists e, pde_of s x = Some e /\ present e = false;
  tb_new : pde_of s' x = Some (entry_word t);
  tb_table z : 0 <= z < 1024 -> ld32p (phys s') (t + 4 * z) = Some (if z =? y then entry_word f else 0);
  tb_other q : ~ frame (cr3 s) + 4 * x <= q < frame (cr3 s) + 4 * x + 4 -> frame q <> t ->
    phys s' !! q = phys s !! q;
  tb_phys q : is_Some (phys s' !! q) <-> is_Some (phys s !! q);
  tb_u8 : all_u8 s -> all_u8 s'
}.

Section Effect.
Context (s s' : vm) (x t y f : Z) (Tb : tabled s s' x t y f).
Context (Hx : 0 <= x < 768) (Ha : entries_apart D s) (Ft : frame_free D s t).
Context (Ht : is_u32 t /\ t mod PAGE = 0) (Hf : is_u32 f /\ f mod PAGE = 0).

(** The entry that changed, seen from the directory [d]. *)
Definition here (d i : Z) : Prop := frame d = frame (cr3 s) /\ i = x.

Lemma dir_frame d : d ∈ cr3 s :: D -> frame d <> t.
Proof. intros Hd E. destruct Ft as (_ & N & _). apply (N d Hd). by left. Qed.

Lemma t_frame o : 0 <= o < PAGE -> frame (t + o) = t.
Proof. intros Ho. apply frame_aligned; [apply Ht|done]. Qed.

Lemma tabled_pde d i : d ∈ cr3 s :: D -> 0 <= i < 1024 -> ~ here d i ->
  pde_of (under s' d) i = pde_of (under s d) i.
Proof.
  intros Hd Hi Hn. unfold pde_of. simpl. apply ld32p_ext. intros o Ho. rewrite <- Z.add_assoc.
  apply (tb_other _ _ _ _ _ _ Tb).
  - intros Hr. apply Hn. unfold here. revert Hr. unfold frame, PAGE in *. zdiv_lia.
  - rewrite frame_add by (unfold PAGE; lia). by apply dir_frame.
Qed.

Lemma tabled_pde_here d : frame d = frame (cr3 s) -> pde_of (under s' d) x = Some (entry_word t).
Proof. intros E. rewrite <- (tb_new _ _ _ _ _ _ Tb). unfold pde_of. simpl. by rewrite E, (tb_cr3 _ _ _ _ _ _ Tb). Qed.

Lemma old_pde_here d e : frame d = frame (cr3 s) -> pde_of (under s d) x = Some e -> present e = false.
Proof.
  intros E. destruct (tb_old _ _ _ _ _ _ Tb) as (e' & He & Pe). unfold pde_of in *. simpl. rewrite E, He.
  by intros [= <-].
Qed.

(** A table that was in use is as it was. *)
Lemma tabled_pte d i e j : d ∈ cr3 s :: D -> 0 <= i < 1023 -> pde_of (under s d) i = Some e ->
  present e = true -> 0 <= j < 1024 -> pte_of (under s' d) e j = pte_of (under s d) e j.
Proof.
  intros Hd Hi He Pe Hj. unfold pte_of. simpl. apply ld32p_ext. intros o Ho. rewrite <- Z.add_assoc.
  apply (tb_other _ _ _ _ _ _ Tb).
  - intros Hr. apply (Ha d i e Hd Hi He Pe). unfold frame, PAGE in *. zdiv_lia.
  - rewrite frame_add by (unfold PAGE; lia). intros E. destruct Ft as (_ & N & _). apply (N d Hd).
    right. exists i, e. split_and!; (done || lia).
Qed.

Lemma tabled_translate d a : d ∈ cr3 s :: D -> 0 <= pd_index a < 1023 -> ~ here d (pd_index a) ->
  translate (under s' d) a = translate (under s d) a.
Proof.
  intros Hd Hi Hn. unfold translate. rewrite tabled_pde by (done || lia).
  destruct (pde_of (under s d) (pd_index a)) as [e|] eqn:E; [|done]. simpl.
  destruct (present e) eqn:Pe; [|done].
  rewrite (tabled_pte d (pd_index a)); try done. unfold pt_index. apply Z.mod_pos_bound. done.
Qed.

Lemma kernel_not_here d a : kernel_addr a -> 0 <= pd_index a < 1023 /\ ~ here d (pd_index a).
Proof.
  intros Ka. unfold here, kernel_addr, pd_index in *. split; [zdiv_lia|]. intros [_ E]. zdiv_lia.
Qed.

Lemma tabled_kernel d a : d ∈ cr3 s :: D -> kernel_addr a -> translate (under s' d) a = translate (under s d) a.
Proof. intros Hd Ka. destruct (kernel_not_here d a Ka) as [H1 H2]. by apply tabled_translate. Qed.

(** The addresses the new entry is for. *)
Lemma tabled_here a : is_u32 a -> pd_index a = x ->
  translate s' a = if pt_index a =? y then Some (f + a mod PAGE) else None.
Proof.
  intros Ra Ex. destruct (entry_word_eq t) as (_ & _ & Fw & Pw); [apply Ht..|].
  destruct (entry_word_eq f) as (_ & _ & Ff & Pf); [apply Hf..|].
  unfold translate. rewrite Ex, (tb_new _ _ _ _ _ _ Tb). simpl. rewrite Pw. unfold pte_of. rewrite Fw.
  destruct (index_range a Ra) as [_ Hj]. rewrite (tb_table _ _ _ _ _ _ Tb) by done. simpl.
  destruct (pt_index a =? y); [by rewrite Pf, Ff|done].
Qed.

Lemma tabled_struct d g : d ∈ cr3 s :: D -> struct_frame (under s' d) g -> struct_frame (under s d) g \/ g = t.
Proof.
  intros Hd [E|(i & e & Hi & He & Pe & Eg)]; [left; by left|]. subst g.
  destruct (decide (here d i)) as [[E Ei]|Hn].
  - subst i. rewrite tabled_pde_here in He by done. injection He as <-. right.
    by apply (entry_word_eq t); apply Ht.
  - rewrite tabled_pde in He by done. left. right. by exists i, e.
Qed.

Lemma tabled_struct_old d g : d ∈ cr3 s :: D -> struct_frame (under s d) g -> struct_frame (under s' d) g.
Proof.
  intros Hd [E|(i & e & Hi & He & Pe & Eg)]; [by left|right]. exists i, e. split_and!; [lia..| |done|done].
  rewrite tabled_pde; [done|done|done|]. intros [E Ei]. subst i. by rewrite (old_pde_here d e E He) in Pe.
Qed.

Lemma tabled_data_byte d a p : d ∈ cr3 s :: D -> kernel_addr a -> data_byte (under s d) a p ->
  data_byte (under s' d) a p.
Proof.
  intros Hd Ka (T & N & Inj). split; [by rewrite tabled_kernel|]. split.
  - intros [E|E]%tabled_struct; [done| |done]. destruct Ft as (Um & _). by apply (Um d a p Hd Ka T).
  - intros b Kb. rewrite tabled_kernel by done. by apply Inj.
Qed.

Lemma tabled_valid a : vm_valid D s a -> vm_valid D s' a /\ vm_load s' a = vm_load s a.
Proof.
  intros V. pose proof V as (Ka & p & w & Lp & Rw & Hd).
  destruct (Hd (cr3 s)) as (T & N & _); [left|].
  assert (Lp' : phys s' !! p = Some w).
  { rewrite (tb_other _ _ _ _ _ _ Tb); [done| |].
    - intros Hr. apply N. left. simpl. unfold frame, PAGE in *. zdiv_lia.
    - destruct Ft as (Um & _). apply (Um (cr3 s) a p); [left|done|done]. }
  split.
  - split; [done|]. exists p, w. split; [done|]. split; [done|]. rewrite (tb_cr3 _ _ _ _ _ _ Tb).
    intros d Hin. apply tabled_data_byte; auto.
  - unfold vm_load. rewrite <- (under_cr3 s') at 1. rewrite (tb_cr3 _ _ _ _ _ _ Tb), tabled_kernel by (done || left).
    rewrite T, <- (under_cr3 s), T. simpl. congruence.
Qed.

Lemma tabled_tables H : tables_ok D H s -> tables_ok D H s'.
Proof.
  intros T. assert (Hix : forall a, heap_addr H a -> 768 <= pd_index a < 1023).
  { intros a Hh. by destruct (heap_addr_index D H s a T Hh). }
  assert (Hp : forall d i, d ∈ cr3 s :: D -> 768 <= i < 1024 -> pde_of (under s' d) i = pde_of (under s d) i).
  { intros d i Hd Hi. apply tabled_pde; [done|lia|]. intros [_ E]. lia. }
  constructor; rewrite ?(tb_cr3 _ _ _ _ _ _ Tb).
  - apply (tb_u8 _ _ _ _ _ _ Tb), T.
  - apply T.
  - intros d Hd. destruct (to_self _ _ _ T d Hd) as (e & He & Pe & Fe). exists e.
    by rewrite Hp by (done || lia).
  - intros d a Hd Hh. pose proof (Hix a Hh). rewrite Hp by (done || lia). by apply T.
  - apply T.
  - apply T.
  - intros d a j e Hd Hh Hj. rewrite Hp by (done || lia). by apply T.
Qed.

Lemma tabled_page_free H i : tables_ok D H s -> 0 <= i < bit_num (btmp (h_vpool H)) ->
  page_free H s i -> page_free H s' i.
Proof.
  intros T Hi (e & He & Pe). exists e. split; [|done]. rewrite <- He.
  pose proof (page_heap D H s i T Hi) as Hh. destruct (entry_at_word D H s _ T Hh) as [Fe [j Ej]].
  assert (Hd : frame (entry_at H (page_at H i)) <> frame (cr3 s)).
  { rewrite Fe. apply (to_dir _ _ _ T); [left|done]. }
  assert (Hn : frame (entry_at H (page_at H i)) <> t).
  { rewrite Fe. intros E. destruct Ft as (_ & N & _). apply (N (cr3 s)); [left|]. right.
    exists (pd_index (page_at H i)), (h_table H (pd_index (page_at H i))).
    destruct (heap_addr_index D H s _ T Hh) as (Hpi & _).
    split_and!; [lia..| |by apply (to_present _ _ _ T)|done]. apply (to_pde _ _ _ T); [left|done]. }
  rewrite Ej in *. apply ld32p_ext. intros o Ho. apply (tb_other _ _ _ _ _ _ Tb).
  - intros Hr. apply Hd. unfold frame, PAGE in *. zdiv_lia.
  - replace (frame (4 * j + o)) with (frame (4 * j)); [done|]. unfold frame, PAGE. zdiv_lia.
Qed.

Lemma tabled_frame_free g : frame_free D s g -> g <> t -> frame_free D s' g.
Proof.
  intros (Um & N & Ex) Hne. split; [|split].
  - intros d a p. rewrite (tb_cr3 _ _ _ _ _ _ Tb). intros Hd Ka. rewrite tabled_kernel by done. by apply Um.
  - intros d. rewrite (tb_cr3 _ _ _ _ _ _ Tb). intros Hd [E|E]%tabled_struct; [|done|done]. by apply (N d Hd).
  - intros o Ho. by apply (tb_phys _ _ _ _ _ _ Tb), Ex.
Qed.

Lemma tabled_apart : entries_apart D s'.
Proof.
  intros d i e. rewrite (tb_cr3 _ _ _ _ _ _ Tb). intros Hd Hi He Pe.
  destruct (decide (here d i)) as [[E Ei]|Hn].
  - subst i. rewrite tabled_pde_here in He by done. injection He as <-.
    destruct (entry_word_eq t) as (_ & _ & -> & _); [apply Ht..|]. intros E'. by apply (dir_frame (cr3 s)); [left|].
  - rewrite tabled_pde in He by (done || lia). by eapply Ha.
Qed.

End Effect.

(** ** The writes *)

Lemma only_at_pde_word s m' t i : only_at (phys s) m' t PAGE -> t mod PAGE = 0 -> t <> frame (cr3 s) ->
  0 <= i < 1024 -> pde_of (mkVm m' (cr3 s)) i = pde_of s i.
Proof.
  intros Ho Ht Hn Hi. unfold pde_of. simpl. eapply only_at_ld32p; [exact Ho|].
  unfold frame, PAGE in *. zdiv_lia.
Qed.

(** The entry: the rest of the directory stays. *)
Lemma dir_written s va w : self_mapped s -> is_u32 va -> pd_index va <> 1023 -> is_u32 w ->
  is_Some (pde_of s (pd_index va)) ->
  exists s', wr32 (pde_vaddr_get va) w s = Ok tt s'
    /\ entry_written s s' (frame (cr3 s) + 4 * pd_index va) w
    /\ (forall q, is_Some (phys s' !! q) <-> is_Some (phys s !! q)) /\ (all_u8 s -> all_u8 s')
    /\ pde_of s' (pd_index va) = Some w /\ self_mapped s'.
Proof.
  intros Hs Hva Hne Hw Hp. destruct (index_range va Hva) as [Hi _]. pose proof (pde_vaddr_eq va Hva) as Ea.
  destruct (wr32_steady s (pde_vaddr_get va) _ w ltac:(lia) ltac:(lia) Hw (steady_pde s va Hs Hva Hne) Hp)
    as (s' & E & W & Dm & U). pose proof W as (C & L & O).
  exists s'. do 4 (split; [done|]). split.
  - unfold pde_of. by rewrite C.
  - destruct Hs as (e & He & Pe & Fe). exists e. rewrite C. split; [|by split]. rewrite <- He.
    unfold pde_of. rewrite C. eapply only_at_ld32p; [exact O|]. lia.
Qed.

Lemma window_page va : is_u32 va ->
  Z.land (pte_vaddr_get va) 0xfffff000 = 0xffc00000 + pd_index va * PAGE.
Proof.
  intros Hva. rewrite pte_vaddr_eq by done. destruct (index_range va Hva) as [Hi Hj].
  change 0xfffff000 with (2 ^ 32 - 2 ^ 12). rewrite land_high_mask by (unfold PAGE; lia). unfold PAGE. zdiv_lia.
Qed.

Lemma table_written s va t f : self_mapped s -> is_u32 va -> pd_index va <> 1023 ->
  (exists e, pde_of s (pd_index va) = Some e /\ present e = false) ->
  is_u32 t /\ t mod PAGE = 0 -> t <> frame (cr3 s) -> (forall o, 0 <= o < PAGE -> is_Some (phys s !! (t + o))) ->
  is_u32 f /\ f mod PAGE = 0 ->
  exists s1 s2 s3, wr32 (pde_vaddr_get va) (entry_word t) s = Ok tt s1
    /\ CString.memset (Z.land (pte_vaddr_get va) 0xfffff000) 0 PG_SIZE s1 = Ok tt s2
    /\ rd32 (pte_vaddr_get va) s2 = Ok 0 s2
    /\ wr32 (pte_vaddr_get va) (entry_word f) s2 = Ok tt s3
    /\ tabled s s3 (pd_index va) t (pt_index va) f.
Proof.
  intros Hs Hva Hne Hold [Rt Mt] Hn Ht [Rf Mf]. destruct (index_range va Hva) as [Hi Hj].
  destruct (entry_word_eq t Rt Mt) as (_ & Wt & Ft & Pt). destruct (entry_word_eq f Rf Mf) as (_ & Wf & _).
  set (w := entry_word t) in *. pose proof (pte_vaddr_eq va Hva) as Ea.
  destruct (dir_written s va w Hs Hva Hne Wt ltac:(destruct Hold as (e & -> & _); by eexists))
    as (s1 & E1 & (C1 & _ & O1) & D1 & U1 & P1 & S1).
  pose proof (steady_table s1 va w S1 Hva P1 Pt ltac:(rewrite Ft, C1; done)) as St. rewrite Ft in St.
  destruct (wp_inv _ _ _ (memset_steady s1 _ t 0 PAGE St ltac:(unfold PAGE; lia) ltac:(unfold PAGE; lia)
    ltac:(done) ltac:(intros o Ho; by apply D1, Ht))) as ([] & s2 & E2 & C2 & O2 & Z2 & D2 & U2).
  assert (P2 : forall i, 0 <= i < 1024 -> pde_of s2 i = pde_of s1 i).
  { intros i Hii. destruct s2 as [m2 c2]. simpl in C2. subst c2.
    apply (only_at_pde_word s1 m2 t); [done|done|by rewrite C1|done]. }
  assert (S2 : self_mapped s2).
  { destruct S1 as (e & He & Pe & Fe). exists e. rewrite P2, C2 by lia. by split. }
  assert (Z : forall z, 0 <= z < 1024 -> ld32p (phys s2) (t + 4 * z) = Some 0).
  { intros z Hz. assert (B : forall o, 0 <= o < 4 -> phys s2 !! (t + 4 * z + o) = Some 0).
    { intros o Ho. rewrite <- Z.add_assoc. apply Z2. unfold PAGE. lia. }
    unfold ld32p. pose proof (B 0 ltac:(lia)) as B0. rewrite Z.add_0_r in B0. by rewrite B0, !B by lia. }
  assert (P2' : pde_of s2 (pd_index va) = Some w) by by rewrite P2.
  destruct (wr32_steady s2 (pte_vaddr_get va) (t + 4 * pt_index va) (entry_word f) ltac:(rewrite Ea; unfold PAGE; lia)
    ltac:(rewrite Ea; unfold PAGE; lia) Wf) as (s3 & E3 & (C3 & L3 & O3) & D3 & U3).
  { rewrite <- Ft. apply steady_pte; [done|done|done|done|]. by rewrite Ft, C2, C1. }
  { rewrite Z by done. by eexists. }
  exists s1, s2, s3. split; [done|]. split; [by rewrite window_page|]. split; [|split; [done|]].
  { apply (rd32_phys s2 _ (t + 4 * pt_index va)); [rewrite Ea; unfold PAGE; lia..| |by apply Z].
    intros o Ho. rewrite <- Ft. by apply translate_pte. }
  assert (T3 : forall q, frame q <> t -> phys s3 !! q = phys s1 !! q).
  { intros q Hq. assert (Hr : q < t \/ t + PAGE <= q) by (unfold frame, PAGE in *; zdiv_lia).
    rewrite O3 by (unfold PAGE in *; lia). apply O2. lia. }
  constructor.
  - congruence.
  - done.
  - fold w. rewrite <- P1. unfold pde_of. rewrite C3, C2. apply ld32p_ext. intros o Ho. apply T3.
    rewrite <- Z.add_assoc, frame_add by (unfold PAGE; lia). by rewrite C1.
  - intros z Hz. destruct (Z.eqb_spec z (pt_index va)) as [->|Hz']; [done|].
    rewrite <- (Z z Hz). eapply only_at_ld32p; [exact O3|]. lia.
  - intros q Hq Hqt. rewrite T3 by done. by apply O1.
  - intros q. by rewrite D3, D2, D1.
  - intros U. by apply U3, U2, U1.
Qed.

(** ** [v2p_mapping] *)

Lemma keeps_phys s v q : vm_keeps D s v -> is_Some (phys s !! q) -> is_Some (phys v !! q).
Proof.
  intros (_ & K & _) Hq. destruct (K (cr3 s)) as (_ & Dm & _); [left|]. simpl in Dm.
  apply elem_of_dom. rewrite Dm. by apply elem_of_dom.
Qed.

(** The page of [va] is mapped to [f], in a table of its own; [t] is the frame
    the table is in.  Other data changed at most in [P]. *)
Record table_mapped (P : Z -> Prop) s v (va t f : Z) : Prop := {
  tm_cr3 : cr3 v = cr3 s;
  tm_page o : 0 <= o < PAGE -> translate v (frame va + o) = Some (f + o);
  tm_table a : is_u32 a -> pd_index a = pd_index va -> frame a <> frame va -> translate v a = None;
  tm_other d a : d ∈ cr3 s :: D -> is_u32 a -> 0 <= pd_index a < 1023 ->
    ~ (frame d = frame (cr3 s) /\ pd_index a = pd_index va) -> translate (under v d) a = translate (under s d) a;
  tm_valid a : vm_valid D s a -> vm_valid D v a;
  tm_load a : vm_valid D s a -> ~ P a -> vm_load v a = vm_load s a;
  tm_free g : frame_free D s g -> g <> t -> frame_free D v g;
  tm_same q : frame_free D s (frame q) -> frame q <> t -> phys v !! q = phys s !! q;
  tm_phys q : is_Some (phys s !! q) -> is_Some (phys v !! q);
  tm_apart : entries_apart D v;
  tm_dirs d x : d ∈ cr3 s :: D -> 0 <= x < 1024 -> ~ (frame d = frame (cr3 s) /\ x = pd_index va) ->
    pde_of (under v d) x = pde_of (under s d) x;
  tm_new : pde_of v (pd_index va) = Some (entry_word t)
}.

Lemma same_page a b : is_u32 a -> is_u32 b -> pd_index a = pd_index b -> pt_index a = pt_index b -> frame a = frame b.
Proof. intros Ha Hb E1 E2. pose proof (address_split a Ha). pose proof (address_split b Hb). unfold frame. lia. Qed.

Lemma tabled_mapped s v va t f : is_u32 va -> pd_index va < 768 -> entries_apart D s -> frame_free D s t ->
  is_u32 t /\ t mod PAGE = 0 -> is_u32 f /\ f mod PAGE = 0 -> tabled s v (pd_index va) t (pt_index va) f ->
  table_mapped (fun _ => False) s v va t f.
Proof.
  intros Hva Hx A Ft Ht Hf Tb. destruct (index_range va Hva) as [Hi Hj].
  assert (Hx' : 0 <= pd_index va < 768) by lia.
  constructor.
  - apply (tb_cr3 _ _ _ _ _ _ Tb).
  - intros o Ho. assert (E : pd_index (frame va + o) = pd_index va /\ pt_index (frame va + o) = pt_index va
      /\ (frame va + o) mod PAGE = o /\ is_u32 (frame va + o)).
    { unfold pd_index, pt_index, frame, PAGE in *. zdiv_lia. }
    destruct E as (E1 & E2 & E3 & E4).
    rewrite (tabled_here s v _ t _ f Tb Ht Hf) by done. by rewrite E2, Z.eqb_refl, E3.
  - intros a Ra E N. rewrite (tabled_here s v _ t _ f Tb Ht Hf) by done.
    destruct (Z.eqb_spec (pt_index a) (pt_index va)) as [E2|]; [|done]. by destruct N; apply same_page.
  - intros d a Hd _ Hr Hn. by apply (tabled_translate s v _ t _ f Tb Hx' A Ft).
  - intros a Va. by apply (tabled_valid s v _ t _ f Tb Hx' A Ft Ht Hf).
  - intros a Va _. by apply (tabled_valid s v _ t _ f Tb Hx' A Ft Ht Hf a).
  - intros g. by apply (tabled_frame_free s v _ t _ f Tb Hx' A Ft Ht Hf).
  - intros q (_ & N & _) Hq. rewrite (tb_other _ _ _ _ _ _ Tb); [done| |done].
    intros Hr. apply (N (cr3 s)); [left|]. left. simpl. unfold frame, PAGE in *. zdiv_lia.
  - intros q. apply (tb_phys _ _ _ _ _ _ Tb).
  - by apply (tabled_apart s v _ t _ f Tb Hx' A Ft Ht).
  - intros d x Hd Hr Hn. by apply (tabled_pde s v _ t _ f Tb Hx' Ft).
  - apply (tb_new _ _ _ _ _ _ Tb).
Qed.

(** Data was written before. *)
Lemma table_mapped_after P Q s s1 v va t f : modifies Q s s1 -> table_mapped P s1 v va t f ->
  table_mapped (fun a => Q a \/ P a) s v va t f.
Proof.
  intros M []. assert (K : vm_keeps D s s1) by exact (modifies_keeps _ _ _ M). pose proof K as (C & Kd & _).
  rewrite C in *. constructor; try done.
  - intros d a Hd Ra Hr Hn. rewrite tm_other0 by done. by apply (keeps_translate _ _ (Kd d Hd)).
  - intros a Va. apply tm_valid0. exact (modifies_valid _ _ _ _ M Va).
  - intros a Va Na. rewrite tm_load0; [|exact (modifies_valid _ _ _ _ M Va)|tauto].
    apply (modifies_load _ _ _ _ M Va). tauto.
  - intros g Fg Hg. apply tm_free0; [by eapply keeps_frame_free|done].
  - intros q Fq Hq. rewrite tm_same0; [by eapply keeps_frame|by eapply keeps_frame_free|done].
  - intros q Hq. by apply tm_phys0, (keeps_phys _ _ _ K).
  - intros d x Hd Hr Hn. rewrite tm_dirs0 by done. by apply (keeps_dirs D _ _ K).
Qed.

(** Data is written afterwards. *)
Lemma table_mapped_before P Q s s1 v va t f : table_mapped P s s1 va t f -> modifies Q s1 v -> is_u32 va ->
  table_mapped (fun a => P a \/ Q a) s v va t f.
Proof.
  intros T M Rva. pose proof (tm_cr3 _ _ _ _ _ _ T) as C1. destruct T. assert (K : vm_keeps D s1 v) by exact (modifies_keeps _ _ _ M). pose proof K as (C & Kd & _).
  assert (Tr : forall a, is_u32 a -> translate v a = translate s1 a).
  { intros a Ra. rewrite <- (under_cr3 v), <- (under_cr3 s1), C. apply keeps_translate; [apply Kd; left|done]. }
  constructor.
  - congruence.
  - intros o Ho. rewrite Tr; [by apply tm_page0|]. unfold frame, PAGE in *. zdiv_lia.
  - intros a Ra E N. rewrite Tr by done. by apply tm_table0.
  - intros d a Hd Ra Hr Hn. rewrite <- tm_other0 by done. apply keeps_translate; [|done]. apply Kd. by rewrite C1.
  - intros a Va. exact (modifies_valid _ _ _ _ M (tm_valid0 a Va)).
  - intros a Va Na. rewrite <- tm_load0 by tauto. apply (modifies_load _ _ _ _ M (tm_valid0 a Va)). tauto.
  - intros g Fg Hg. eapply keeps_frame_free; [exact K|]. by apply tm_free0.
  - intros q Fq Hq. rewrite <- tm_same0 by done. eapply keeps_frame; [exact K|by apply tm_free0].
  - intros q Hq. by apply (keeps_phys _ _ _ K), tm_phys0.
  - eapply keeps_apart; [exact K|done].
  - intros d x Hd Hr Hn. rewrite <- tm_dirs0 by done. apply (keeps_dirs D _ _ K); [by rewrite C1|done].
  - rewrite <- tm_new0, <- (under_cr3 v), <- (under_cr3 s1), C. apply (keeps_dirs D _ _ K); [left|].
    by destruct (index_range va Rva).
Qed.

(** No space uses as a table what none did. *)
Lemma mapped_spaces P s v va t f c : table_mapped P s v va t f -> frame_free D s t -> is_u32 t -> t mod PAGE = 0 ->
  is_u32 va -> c ∈ D -> entries_apart D (under s c) -> entries_apart D (under v c).
Proof.
  intros T Ft Rt Ht Rva Hc A d i e Hd Hi. change (under (under v c) d) with (under v d). simpl in *.
  assert (Hd' : d ∈ cr3 s :: D) by set_solver.
  destruct (decide (frame d = frame (cr3 s) /\ i = pd_index va)) as [[Ed ->]|Hn].
  - intros He _. assert (e = entry_word t) as ->.
    { pose proof (tm_new _ _ _ _ _ _ T) as E. unfold pde_of in *. simpl in He.
      rewrite Ed, <- (tm_cr3 _ _ _ _ _ _ T) in He. congruence. }
    destruct (entry_word_eq t Rt Ht) as (_ & _ & -> & _). intros E. destruct Ft as (_ & N & _).
    apply (N c); [by right|]. by left.
  - rewrite (tm_dirs _ _ _ _ _ _ T) by (done || lia). by apply A.
Qed.

Lemma table_mapped_weaken P Q s v va t f : table_mapped P s v va t f -> (forall a, P a -> Q a) ->
  table_mapped Q s v va t f.
Proof. intros [] HP. constructor; try done. intros a Va Na. apply tm_load0; [done|]. auto. Qed.

Lemma v2p_mapping_table H k vb pb va f : heap_rep D H k vb pb -> clear_from 0 pb <> [] -> is_u32 va ->
  pd_index va < 768 -> entries_apart D (k_vm k) ->
  (exists e, pde_of (k_vm k) (pd_index va) = Some e /\ present e = false) -> is_u32 f /\ f mod PAGE = 0 ->
  exists (j : nat) v, pb !! j = Some false /\ (forall j', (j' < j)%nat -> pb !! j' <> Some false)
    /\ v2p_mapping va f k = Ok tt (with_vm v k) /\ heap_rep D H (with_vm v k) vb (<[j := true]> pb)
    /\ table_mapped (bitmap_byte (btmp (h_ppool H))) (k_vm k) v va (frame_at H (Z.of_nat j)) f.
Proof.
  intros R Hpb Hva Hx A Hold Hf. destruct (index_range va Hva) as [Hi Hj].
  destruct (paddr_get_ok D H k vb pb R) as [[_ Hno]|(j & v1 & Hpj & Hlow & E1 & R1 & M)].
  { destruct Hpb. by apply clear_from_none. }
  assert (K : vm_keeps D (k_vm k) v1) by exact (modifies_keeps _ _ _ M). pose proof K as (C & Kd & _).
  set (t := frame_at H (Z.of_nat j)) in *.
  pose proof (keeps_frame_free D _ _ t K (hr_frames _ _ _ _ _ R j Hpj)) as Ft.
  destruct (hr_pbase _ _ _ _ _ R) as (Hm & Hb0 & Hb1). destruct (pool_sizes _ _ _ _ _ R) as (_ & _ & _ & Lp).
  pose proof (lookup_lt_Some _ _ _ Hpj) as Hlt.
  assert (Ht : is_u32 t /\ t mod PAGE = 0).
  { unfold t, frame_at, PG_SIZE, PAGE in *. split; [lia|zdiv_lia]. }
  pose proof (hr_tables _ _ _ _ _ R1) as T1. simpl in T1.
  assert (Hs1 : self_mapped v1) by (rewrite <- (under_cr3 v1); apply (to_self _ _ _ T1); left).
  pose proof (hr_tables _ _ _ _ _ R) as T0.
  assert (Hs0 : self_mapped (k_vm k)) by (rewrite <- (under_cr3 (k_vm k)); apply (to_self _ _ _ T0); left).
  assert (Hold1 : exists e, pde_of v1 (pd_index va) = Some e /\ present e = false).
  { destruct Hold as (e & He & Pe). exists e. split; [|done]. rewrite <- He, <- (under_cr3 v1), C.
    rewrite <- (under_cr3 (k_vm k)) at 2. apply keeps_pde; [apply Kd; left|done]. }
  destruct (table_written v1 va t f Hs1 Hva ltac:(lia) Hold1 Ht) as (s1 & s2 & s3 & W1 & W2 & W3 & W4 & Tb).
  { intros E. destruct Ft as (_ & N & _). apply (N (cr3 v1)); [left|]. by left. }
  { apply Ft. }
  { done. }
  pose proof (keeps_apart D _ _ K A) as A1. assert (Hx' : 0 <= pd_index va < 768) by lia.
  exists j, s3. do 2 (split; [done|]). split; [|split].
  - unfold v2p_mapping. destruct Hold as (e & He & Pe).
    assert (Er : zoom vm_of (rd32 (pde_vaddr_get va)) k = Ok e k).
    { erewrite zoom_ok by (eapply (rd32_phys _ _ (frame (cr3 (k_vm k)) + 4 * pd_index va));
        [rewrite pde_vaddr_eq by done; lia..|intros o Ho; by apply translate_pde|exact He]).
      change (put_view vm_of (k_vm k) k) with (with_vm (k_vm k) k). by rewrite with_vm_id. }
    erewrite bind_ok by exact Er. rewrite land_1_present, Pe. erewrite bind_ok by exact E1. fold t.
    erewrite bind_ok by (apply zoom_ok; exact W1). erewrite bind_ok by (apply zoom_ok; exact W2).
    erewrite bind_ok by (apply zoom_ok; exact W3). erewrite bind_ok by reflexivity. by erewrite zoom_ok by exact W4.
  - destruct R1. constructor; try done; simpl in *.
    + eapply bitmap_rep_ext; [|exact hr_vbits0]. apply (tabled_valid v1 s3 _ t _ f Tb Hx' A1 Ft Ht Hf).
    + eapply bitmap_rep_ext; [|exact hr_pbits0]. apply (tabled_valid v1 s3 _ t _ f Tb Hx' A1 Ft Ht Hf).
    + by apply (tabled_tables v1 s3 _ t _ f Tb Hx' Ft).
    + intros i Hii. destruct hr_vbits0 as (Lv & _).
      apply (tabled_page_free v1 s3 _ t _ f Tb Hx' Ft Ht Hf); [done| |by apply hr_pages0]. apply lookup_lt_Some in Hii. lia.
    + intros i Hii. apply (tabled_frame_free v1 s3 _ t _ f Tb Hx' A1 Ft Ht Hf); [by apply hr_frames0|].
      assert (i <> j). { intros ->. by rewrite list_lookup_insert_eq in Hii. }
      unfold t, frame_at, PG_SIZE. lia.
  - eapply table_mapped_weaken; [eapply table_mapped_after; [exact M|by eapply tabled_mapped]|tauto].
Qed.

End Table.
End NewTable.
