(* ===== verification/UserPage.v ===== *)
(** Pages for a user process: [target_vaddr_malloc] of [kernel/memory.c] and
    [process_entry] of [user/process.c], specified.

    [user_frames_ok D H s up ub]: [up] is the pool of the users' frames, behind
    the kernel's, [ub] its bits; a clear bit promises a frame that is free and
    that no address below the kernel's gigabyte, in any space of [D], is
    translated to.  [running_process]: the thread that runs has an address space
    and a map [mb] of its own.  [target_vaddr_malloc_ok]: the page it asks for is
    mapped in its space, and nowhere else, to a frame nobody has. *)

From S2P Require Import Prelude Bytes CString Bitmap Interrupt LinkedList Paging PageTable PageMap Words Kernel.
From S2P Require Import ReadyQueues Sched Sync Memory Heap Thread ThreadSpec ThreadRun Process PageDir ProcessRun NewTable.

Module UserPage.
Import Bitmap Interrupt LinkedList Paging PageTable PageMap Words Kernel ReadyQueues Sched Sync Memory.
Import Heap Thread ThreadSpec ThreadRun Process PageDir ProcessRun NewTable.

Lemma user_addr_index a : user_addr a -> is_u32 a /\ 0 <= pd_index a < 768.
Proof. unfold user_addr, pd_index. intros. split; [lia|zdiv_lia]. Qed.

Definition user_frame (up : pool) (j : nat) : Z := addr_base up + PG_SIZE * Z.of_nat j.

Section Users.
Context (D : list Z).
Implicit Types (s v : vm) (k : kernel) (H : kheap) (vb pb ub mb : list bool) (up : pool).
Implicit Types (L : gmap Z (list Z)).

#[local] Instance data_mem : ByteMem vm := vm_mem D.

(** Only the process in CR3 can, at the page of [va]. *)
Definition only_here s (va f : Z) : Prop := forall d a p, d ∈ cr3 s :: D -> user_addr a ->
  translate (under s d) a = Some p -> frame p = f -> frame d = frame (cr3 s) /\ frame a = frame va.

Record user_frames_ok H s up ub : Prop := {
  uf_bits : bitmap_rep s (btmp up) ub;
  uf_num : bit_num (btmp up) < 2 ^ 31;
  uf_base : addr_base up mod PAGE = 0 /\ 0 < addr_base up /\ addr_base up + PG_SIZE * bit_num (btmp up) <= 2 ^ 32;
  uf_behind : addr_base (h_ppool H) + PG_SIZE * bit_num (btmp (h_ppool H)) <= addr_base up;
  uf_apart a : bitmap_byte (btmp up) a -> ~ bitmap_byte (btmp (h_vpool H)) a /\ ~ bitmap_byte (btmp (h_ppool H)) a;
  uf_free j : ub !! j = Some false -> spare D s (user_frame up j)
}.

Record running_process H k up (tc : tcb) mb : Prop := {
  rp_tcb : k_tcbs k !! running_thread (k_sched k) = Some tc;
  rp_dir : pg_dir tc <> NULL;
  rp_bits : bitmap_rep (k_vm k) (btmp (user_vaddr_pool tc)) mb;
  rp_num : bit_num (btmp (user_vaddr_pool tc)) < 2 ^ 31;
  rp_apart a : bitmap_byte (btmp (user_vaddr_pool tc)) a -> ~ bitmap_byte (btmp up) a
    /\ ~ bitmap_byte (btmp (h_vpool H)) a /\ ~ bitmap_byte (btmp (h_ppool H)) a
}.

(** The page of [va] in the process's map. *)
Definition map_index (tc : tcb) (va : Z) : nat := Z.to_nat ((va - addr_base (user_vaddr_pool tc)) / PG_SIZE).

(** A page of the process whose directory entry is absent. *)
Record page_wanted s (tc : tcb) (va : Z) mb : Prop := {
  pw_addr : user_addr va;
  pw_aligned : va mod PAGE = 0;
  pw_from : 0 <= addr_base (user_vaddr_pool tc) <= va;
  pw_in_map : (map_index tc va < length mb)%nat;
  pw_absent : exists e, pde_of s (pd_index va) = Some e /\ present e = false
}.

(** ** The users' frames and the rest of memory *)

Lemma user_frames_keeps H s v up ub ub' : user_frames_ok H s up ub -> vm_keeps D s v ->
  bitmap_rep v (btmp up) ub' -> (forall j, ub' !! j = Some false -> ub !! j = Some false) ->
  user_frames_ok H v up ub'.
Proof.
  intros [] K B Hu. constructor; try done. intros j Hj%Hu%uf_free0. by eapply keeps_spare.
Qed.

(** What a directory translates depends on its frame. *)
Lemma translate_frame s d a : frame d = frame (cr3 s) -> translate (under s d) a = translate s a.
Proof. intros E. unfold translate, pde_of. simpl. by rewrite E. Qed.

(** The new page, seen from all spaces. *)
Lemma mapped_from P s v va t f d a p : table_mapped D P s v va t f -> user_addr va -> va mod PAGE = 0 -> d ∈ cr3 s :: D ->
  user_addr a -> translate (under v d) a = Some p ->
  (frame d = frame (cr3 s) /\ frame a = va /\ p = f + a mod PAGE) \/ translate (under s d) a = Some p.
Proof.
  intros T Hva Hm Hd Ha E. destruct (user_addr_index a Ha) as [Ra Hi]. pose proof (tm_cr3 _ _ _ _ _ _ _ T) as C.
  assert (Hf : frame va = va) by (rewrite <- (Z.add_0_r va) at 1; by apply frame_aligned).
  destruct (decide (frame d = frame (cr3 s) /\ pd_index a = pd_index va)) as [[Ed Ei]|Hn].
  - left. rewrite translate_frame in E by by rewrite C.
    destruct (decide (frame a = va)) as [Ea|Hne].
    + split_and!; [done|done|]. pose proof (tm_page _ _ _ _ _ _ _ T (a mod PAGE) ltac:(by apply Z.mod_pos_bound)) as Tp.
      rewrite Hf, <- Ea in Tp. unfold frame in Tp. replace (a - a mod PAGE + a mod PAGE) with a in Tp by lia. congruence.
    + by rewrite (tm_table _ _ _ _ _ _ _ T) in E by (done || by rewrite Hf).
  - right. by rewrite (tm_other _ _ _ _ _ _ _ T) in E by (done || lia).
Qed.

Lemma mapped_only P s v va t f : table_mapped D P s v va t f -> user_addr va -> va mod PAGE = 0 ->
  nobody_has D s f -> only_here v va f.
Proof.
  intros T Hva Hm N d a p. rewrite (tm_cr3 _ _ _ _ _ _ _ T). intros Hd Ha E Ef.
  assert (Hf : frame va = va) by (rewrite <- (Z.add_0_r va) at 1; by apply frame_aligned).
  destruct (mapped_from _ _ _ _ _ _ _ _ _ T Hva Hm Hd Ha E) as [(E1 & E2 & _)|E']; [by rewrite Hf|].
  by destruct (N d a p Hd Ha E').
Qed.

Lemma mapped_nobody P s v va t f g : table_mapped D P s v va t f -> user_addr va -> va mod PAGE = 0 ->
  f mod PAGE = 0 -> nobody_has D s g -> g <> f -> nobody_has D v g.
Proof.
  intros T Hva Hm Hf N Hg d a p. rewrite (tm_cr3 _ _ _ _ _ _ _ T). intros Hd Ha E.
  destruct (mapped_from _ _ _ _ _ _ _ _ _ T Hva Hm Hd Ha E) as [(_ & _ & ->)|E']; [|by apply (N d a p)].
  rewrite frame_aligned; [done|done|by apply Z.mod_pos_bound].
Qed.

(** The users' frames after the mapping, when [f] was taken from them. *)
Lemma mapped_user_frames H k vb pb P v va j0 j up ub : heap_rep D H k vb pb ->
  table_mapped D P (k_vm k) v va (frame_at H (Z.of_nat j0)) (user_frame up j) ->
  (forall a, P a -> bitmap_byte (btmp (h_ppool H)) a) -> user_addr va -> va mod PAGE = 0 -> (j0 < length pb)%nat ->
  user_frames_ok H (k_vm k) up ub -> ub !! j = Some true -> user_frames_ok H v up ub.
Proof.
  intros R T HP Hva Hm Hj0 U Hj. destruct U. destruct (pool_sizes _ _ _ _ _ R) as (_ & _ & _ & Lp).
  constructor; try done.
  - eapply bitmap_rep_kept; [|exact uf_bits0]. intros a Ha Va. split; [by apply (tm_valid _ _ _ _ _ _ _ T)|].
    apply (tm_load _ _ _ _ _ _ _ T); [done|]. intros Hp%HP. by destruct (uf_apart0 a Ha).
  - intros x Hx. destruct (uf_free0 x Hx) as [F N]. pose proof (lookup_lt_Some _ _ _ Hx) as Hlx.
    assert (Hxj : x <> j) by congruence.
    split; [|eapply mapped_nobody; [exact T|done|done| |exact N|unfold user_frame, PG_SIZE; lia]].
    + apply (tm_free _ _ _ _ _ _ _ T); [exact F|]. unfold user_frame, frame_at, PG_SIZE in *. lia.
    + unfold user_frame, PG_SIZE, PAGE in *. zdiv_lia.
Qed.

(** ** [target_vaddr_malloc] *)

Definition user_mtx : Z := pool_mtx user_phy_pool.

(** What follows when the mutex is taken and the page marked in the map. *)
Definition target_rest (va : Z) : M kernel Z :=
  page_phy_addr ← paddr_get user_phy_pool;
  if page_phy_addr =? NULL then mret NULL else
  v2p_mapping va page_phy_addr;;
  mutex_unlock user_mtx;;
  mret va.

Lemma map_index_bit tc va : user_addr va -> 0 <= addr_base (user_vaddr_pool tc) <= va ->
  u32 (i32 (u32 (va - addr_base (user_vaddr_pool tc)) / PG_SIZE)) = Z.of_nat (map_index tc va).
Proof.
  intros Ha Hb. unfold map_index, user_addr, PG_SIZE in *.
  rewrite (u32_small (va - _)) by lia. unfold i32, u32. zdiv_lia.
Qed.

Lemma target_start H k L vb pb up ub tc mb va : heap_rep D H k vb pb -> mutex_free k L user_mtx ->
  user_frames_ok H (k_vm k) up ub -> running_process H k up tc mb -> page_wanted (k_vm k) tc va mb ->
  exists v, target_vaddr_malloc PF_USER va k = target_rest va (with_vm v (mutex_taken user_mtx k))
    /\ modifies (bitmap_byte (btmp (user_vaddr_pool tc))) (k_vm k) v
    /\ heap_rep D H (with_vm v (mutex_taken user_mtx k)) vb pb
    /\ user_frames_ok H v up ub
    /\ bitmap_rep v (btmp (user_vaddr_pool tc)) (<[map_index tc va := true]> mb).
Proof.
  intros R F U P W. destruct P as [Ht Hd Bm Hn Ap]. set (k0 := mutex_taken user_mtx k).
  assert (R0 : heap_rep D H k0 vb pb) by by apply (heap_rep_ext D H k).
  destruct (set_bit D k0 (btmp (user_vaddr_pool tc)) mb (map_index tc va) Bm (pw_in_map _ _ _ _ W)) as (v & E & B & M).
  exists v. split; [|split; [exact M|split; [|split; [|exact B]]]].
  - unfold target_vaddr_malloc. erewrite bind_ok by reflexivity. rewrite decide_False by done.
    erewrite bind_ok by (eapply (mutex_lock_free k L); exact F). fold k0.
    erewrite bind_ok by by apply get_tcb_ok. rewrite (proj2 (Z.eqb_neq _ _) Hd), bool_decide_eq_true_2 by done.
    cbn [negb andb]. erewrite bind_ok; [reflexivity|].
    rewrite (map_index_bit tc va); [exact E|apply W..].
  - eapply heap_rep_bit; [exact R0|exact M| | |done|done];
      (eapply bitmap_rep_modifies; [exact M| |apply R]); intros i Hi Hx; destruct (Ap _ Hx) as (_ & N1 & N2);
      [apply N1|apply N2]; unfold bitmap_byte; lia.
  - eapply user_frames_keeps; [exact U|exact (modifies_keeps _ _ _ M)| |done].
    eapply bitmap_rep_modifies; [exact M| |apply U]. intros i Hi Hx. destruct (Ap _ Hx) as (N & _).
    apply N. unfold bitmap_byte. lia.
Qed.

(** The bitmaps the call writes. *)
Definition page_bits H up (tc : tcb) (a : Z) : Prop :=
  bitmap_byte (btmp (user_vaddr_pool tc)) a \/ bitmap_byte (btmp up) a \/ bitmap_byte (btmp (h_ppool H)) a.

(** What the mapping of a page comes to. *)
Record page_given H (P : Z -> Prop) k up (tc : tcb) (va : Z) (j0 j : nat) v vb pb ub mb : Prop := {
  pg_heap : heap_rep D H (with_vm v k) vb (<[j0 := true]> pb);
  pg_users : user_frames_ok H v up (<[j := true]> ub);
  pg_map : bitmap_rep v (btmp (user_vaddr_pool tc)) (<[map_index tc va := true]> mb);
  pg_mapped : table_mapped D P (k_vm k) v va (frame_at H (Z.of_nat j0)) (user_frame up j);
  pg_only : only_here v va (user_frame up j)
}.

Lemma target_vaddr_malloc_ok H k L vb pb up ub tc mb va : heap_rep D H k vb pb -> lists_rep (k_links k) L ->
  mutex_free k L user_mtx -> k_pools k !! user_phy_pool = Some up -> user_frames_ok H (k_vm k) up ub ->
  running_process H k up tc mb -> entries_apart D (k_vm k) -> page_wanted (k_vm k) tc va mb ->
  clear_from 0 pb <> [] -> clear_from 0 ub <> [] ->
  exists (j0 j : nat) v, (pb !! j0 = Some false /\ forall x, (x < j0)%nat -> pb !! x <> Some false)
    /\ (ub !! j = Some false /\ forall x, (x < j)%nat -> ub !! x <> Some false)
    /\ target_vaddr_malloc PF_USER va k = Ok va (mutex_given_back user_mtx (with_vm v k))
    /\ page_given H (page_bits H up tc) k up tc va j0 j v vb pb ub mb.
Proof.
  intros R HL F Hup U P A W Hpb Hub. pose proof (pw_addr _ _ _ _ W) as Hva. pose proof (pw_aligned _ _ _ _ W) as Hal.
  destruct (user_addr_index va Hva) as [Rva Hpi]. pose proof (rp_apart _ _ _ _ _ P) as Ap.
  destruct (target_start H k L vb pb up ub tc mb va R F U P W) as (v1 & E1 & M1 & R1 & U1 & B1).
  set (k1 := with_vm v1 (mutex_taken user_mtx k)) in *.
  destruct (uf_base _ _ _ _ U) as (Hm & Hb & Hb').
  destruct (paddr_get_first D k1 user_phy_pool up ub Hup (uf_bits _ _ _ _ U1) (uf_num _ _ _ _ U) ltac:(lia) Hb')
    as [[_ Hno]|(j & v2 & Hj & Hlow & E2 & B2 & M2)]; [by destruct Hub; apply clear_from_none|].
  change (k_vm k1) with v1 in M2. set (k2 := with_vm v2 k1) in *. fold (user_frame up j) in E2. set (f := user_frame up j) in *.
  pose proof (lookup_lt_Some _ _ _ Hj) as Hlj.
  assert (Lu : length ub = Z.to_nat (bit_num (btmp up))) by apply U.
  assert (Hf : is_u32 f /\ f mod PAGE = 0).
  { unfold f, user_frame, PG_SIZE, PAGE in *. split; [lia|zdiv_lia]. }
  pose proof (modifies_then _ _ _ _ _ M1 M2) as M12.
  assert (K12 : vm_keeps D (k_vm k) v2) by exact (modifies_keeps _ _ _ M12).
  assert (R2 : heap_rep D H k2 vb pb).
  { eapply heap_rep_bit; [exact R1|exact M2| | |done|done];
      (eapply bitmap_rep_modifies; [exact M2| |apply R1]); intros i Hi Hx; destruct (uf_apart _ _ _ _ U _ Hx) as [N1 N2];
      [apply N1|apply N2]; unfold bitmap_byte; lia. }
  assert (U2 : user_frames_ok H v2 up (<[j := true]> ub)).
  { eapply user_frames_keeps; [exact U1|exact (modifies_keeps _ _ _ M2)|exact B2|]. intros x. apply insert_true_free. }
  assert (Hold : exists e, pde_of v2 (pd_index va) = Some e /\ present e = false).
  { destruct (pw_absent _ _ _ _ W) as (e & He & Pe). exists e. split; [|done]. rewrite <- He.
    destruct K12 as (C & K & _). rewrite <- (under_cr3 v2), <- (under_cr3 (k_vm k)), C.
    apply keeps_pde; [apply K; left|lia]. }
  destruct (v2p_mapping_table D H k2 vb pb va f R2 Hpb Rva ltac:(lia) (keeps_apart D _ _ K12 A) Hold Hf)
    as (j0 & v & Hj0 & Hlow0 & E3 & R3 & T).
  change (k_vm k2) with v2 in T. pose proof (lookup_lt_Some _ _ _ Hj0) as Hlj0.
  destruct (uf_free _ _ _ _ U j Hj) as [_ Nf].
  exists j0, j, v. do 2 (split; [done|]). split; [|constructor].
  - rewrite E1. unfold target_rest. erewrite bind_ok by exact E2.
    assert (Nz : (f =? NULL) = false) by (apply Z.eqb_neq; unfold f, user_frame, PG_SIZE, NULL in *; lia).
    rewrite Nz. erewrite bind_ok by exact E3.
    erewrite bind_ok by exact (mutex_unlock_taken (with_vm v k) L user_mtx HL (mf_waiters _ _ _ F)). done.
  - by apply (heap_rep_ext D H (with_vm v k2)).
  - eapply (mapped_user_frames H k2); [exact R2|exact T|done|done|done|exact Hlj0|exact U2|].
    by apply list_lookup_insert_eq.
  - eapply bitmap_rep_kept; [|exact B1]. intros a Ha Va. destruct (Ap a Ha) as (N1 & _ & N2).
    assert (Va2 : vm_valid D v2 a) by exact (modifies_valid _ _ _ _ M2 Va).
    split; [by apply (tm_valid _ _ _ _ _ _ _ T)|]. unfold load8. simpl.
    rewrite (tm_load _ _ _ _ _ _ _ T) by done. exact (modifies_load _ _ _ _ M2 Va N1).
  - eapply table_mapped_weaken; [eapply table_mapped_after; [exact M12|exact T]|].
    unfold page_bits. simpl. tauto.
  - eapply mapped_only; [exact T|done|done|]. by eapply keeps_nobody.
Qed.

(** With no frame left it gives up, and keeps the mutex. *)
Lemma target_vaddr_malloc_full H k L vb pb up ub tc mb va : heap_rep D H k vb pb ->
  mutex_free k L user_mtx -> k_pools k !! user_phy_pool = Some up -> user_frames_ok H (k_vm k) up ub ->
  running_process H k up tc mb -> page_wanted (k_vm k) tc va mb -> (forall j, ub !! j <> Some false) ->
  exists v, target_vaddr_malloc PF_USER va k = Ok NULL (with_vm v (mutex_taken user_mtx k))
    /\ modifies (bitmap_byte (btmp (user_vaddr_pool tc))) (k_vm k) v
    /\ bitmap_rep v (btmp (user_vaddr_pool tc)) (<[map_index tc va := true]> mb).
Proof.
  intros R F Hup U P W Hno.
  destruct (target_start H k L vb pb up ub tc mb va R F U P W) as (v1 & E1 & M1 & R1 & U1 & B1).
  exists v1. split; [|by split]. rewrite E1. unfold target_rest. destruct (uf_base _ _ _ _ U) as (Hm & Hb & Hb').
  destruct (paddr_get_first D (with_vm v1 (mutex_taken user_mtx k)) user_phy_pool up ub Hup (uf_bits _ _ _ _ U1)
    (uf_num _ _ _ _ U) ltac:(lia) Hb') as [[E _]|(j & v2 & Hj & _)]; [|by destruct (Hno j)].
  by erewrite bind_ok by exact E.
Qed.

(** Other data written before or afterwards. *)
Lemma page_given_ext H P k k' up tc va j0 j v vb pb ub mb Q : modifies Q (k_vm k) (k_vm k') ->
  k_pools k' = k_pools k -> page_given H P k' up tc va j0 j v vb pb ub mb ->
  page_given H (fun a => Q a \/ P a) k up tc va j0 j v vb pb ub mb.
Proof.
  intros M E []. constructor; try done.
  - by apply (heap_rep_ext D H (with_vm v k')).
  - by eapply table_mapped_after.
Qed.

Lemma keeps_only s v va f : vm_keeps D s v -> only_here s va f -> only_here v va f.
Proof.
  intros (C & K & _) O d a p. rewrite C. intros Hd Ha. destruct (user_addr_index a Ha) as [Ra _].
  rewrite (keeps_translate _ _ (K d Hd)) by done. by apply O.
Qed.

Lemma page_given_then H P k up tc va j0 j v v' vb pb ub mb Q : modifies Q v v' -> is_u32 va ->
  (forall a, Q a -> ~ page_bits H up tc a /\ ~ bitmap_byte (btmp (h_vpool H)) a) ->
  page_given H P k up tc va j0 j v vb pb ub mb ->
  page_given H (fun a => P a \/ Q a) k up tc va j0 j v' vb pb ub mb.
Proof.
  intros M Rva HQ []. assert (Km : vm_keeps D v v') by exact (modifies_keeps _ _ _ M).
  assert (Hb : forall b bits, bitmap_rep v b bits ->
    (forall a, bitmap_byte b a -> page_bits H up tc a \/ bitmap_byte (btmp (h_vpool H)) a) -> bitmap_rep v' b bits).
  { intros b bits B Hin. eapply bitmap_rep_modifies; [exact M| |exact B]. intros i Hi Hq.
    destruct (HQ _ Hq) as [N1 N2]. destruct (Hin (base_addr b + i)); unfold bitmap_byte; (lia || done). }
  unfold page_bits in *. constructor.
  - apply (heap_rep_bit D H (with_vm v k) vb (<[j0 := true]> pb) v' Q vb (<[j0 := true]> pb) pg_heap0 M); [| |done|done];
      (apply Hb; [apply pg_heap0|tauto]).
  - eapply user_frames_keeps; [exact pg_users0|exact Km|apply Hb; [apply pg_users0|tauto]|done].
  - apply Hb; [exact pg_map0|tauto].
  - by eapply table_mapped_before.
  - by eapply keeps_only.
Qed.

End Users.
End UserPage.
