(* ===== verification/ProcessEntry.v ===== *)
(** Entering user mode: [process_entry] of [user/process.c], specified.

    The function fills a frame for the return from an interrupt at the end of
    the process's own page, asks for a page for the user stack, and leaves the
    kernel through [hwi_ret].  [user_context filename esp] is what the processor
    continues with. *)

From S2P Require Import Prelude Bytes CString Bitmap Interrupt LinkedList Paging PageTable PageMap Words Kernel.
From S2P Require Import Descriptors ReadyQueues Sched Sync Memory Heap Thread ThreadSpec ThreadRun Process PageDir ProcessRun.
From S2P Require Import NewTable UserPage.

Module ProcessEntry.
Import Bitmap Interrupt LinkedList Paging PageTable PageMap Words Kernel Descriptors ReadyQueues Sched Sync Memory.
Import Heap Thread ThreadSpec ThreadRun Process PageDir ProcessRun NewTable UserPage.

(** IF set, IOPL 0. *)
Definition user_eflags : Z := 0x202.

(** Everything 0 but for the segments, the program, the flags and the stack. *)
Definition user_context (filename esp : Z) : full_context :=
  mkFull 0 0 0 0 0 0 0 0 SELECTOR_U_DATA SELECTOR_U_DATA SELECTOR_U_DATA
    filename SELECTOR_U_CODE user_eflags esp (Some SELECTOR_U_DATA).

(** The words written before the stack is there. *)
Definition entry_frame (filename : Z) : gmap Z Z :=
  <[IS_eflags := user_eflags]> (<[IS_cs := SELECTOR_U_CODE]> (<[IS_eip := filename]>
    (<[IS_fs := SELECTOR_U_DATA]> (<[IS_es := SELECTOR_U_DATA]> (<[IS_ds := SELECTOR_U_DATA]>
    (<[IS_gs := 0]> (<[IS_eax := 0]> (<[IS_ecx := 0]> (<[IS_edx := 0]> (<[IS_ebx := 0]>
    (<[IS_esp_dummy := 0]> (<[IS_ebp := 0]> (<[IS_esi := 0]> (<[IS_edi := 0]>
    {[IS_save_flag := ALL_SAVE_FLAG]})))))))))))))).

(** Where the frame is: behind the stack the thread started with. *)
Definition entry_stack_of (tc : tcb) : Z := u32 (stack_top tc + THREAD_STACK_SIZE).

Section Entry.
Context (D : list Z).
Implicit Types (s v : vm) (k : kernel) (H : kheap) (vb pb ub mb : list bool) (up : pool).
Implicit Types (L : gmap Z (list Z)).

#[local] Instance data_mem : ByteMem vm := vm_mem D.

Ltac frame_steps := repeat (first [apply wp_bind|idtac];
  eapply st32_frame; [eassumption|done|done|intros ? ?]).

(** ** Filling the frame *)

Definition entry_fill (sp filename : Z) : M kernel unit :=
  st32 (sp +! IS_save_flag) ALL_SAVE_FLAG;;
  st32 (sp +! IS_edi) 0;; st32 (sp +! IS_esi) 0;; st32 (sp +! IS_ebp) 0;; st32 (sp +! IS_esp_dummy) 0;;
  st32 (sp +! IS_ebx) 0;; st32 (sp +! IS_edx) 0;; st32 (sp +! IS_ecx) 0;; st32 (sp +! IS_eax) 0;;
  st32 (sp +! IS_gs) 0;; st32 (sp +! IS_ds) SELECTOR_U_DATA;; st32 (sp +! IS_es) SELECTOR_U_DATA;;
  st32 (sp +! IS_fs) SELECTOR_U_DATA;; st32 (sp +! IS_eip) filename;; st32 (sp +! IS_cs) SELECTOR_U_CODE;;
  st32 (sp +! IS_eflags) (Z.lor (Z.lor EFLAGS_IOPL_0 EFLAGS_MBS) EFLAGS_IF_1).

(** Giving it the stack, and leaving. *)
Definition entry_leave (sp user_stack : Z) : M kernel full_context :=
  st32 (sp +! IS_esp) (u32 (user_stack + PG_SIZE));;
  st32 (sp +! IS_ss) SELECTOR_U_DATA;;
  all_load (sp +! 4).

Lemma entry_fill_ok k sp filename : valid_block (k_vm k) sp INTR_STACK_SIZE -> is_u32 filename ->
  exists v, entry_fill sp filename k = Ok tt (with_vm v k)
    /\ framed (k_vm k) sp INTR_STACK_SIZE (entry_frame filename) v.
Proof.
  intros V Hf.
  enough (W : wp (entry_fill sp filename) k (fun _ k' => exists v, k' = with_vm v k
    /\ framed (k_vm k) sp INTR_STACK_SIZE (entry_frame filename) v)).
  { apply wp_inv in W as ([] & k' & E & v & -> & F). by exists v. }
  pose proof (frame_start _ _ _ V) as F. unfold entry_fill.
  frame_steps. eexists. split; [reflexivity|]. eassumption.
Qed.

Lemma entry_leave_ok k sp filename user_stack s0 :
  framed s0 sp INTR_STACK_SIZE (entry_frame filename) (k_vm k) ->
  exists v, entry_leave sp user_stack k = Ok (user_context filename (u32 (user_stack + PG_SIZE))) (with_vm v k)
    /\ modifies (in_block sp INTR_STACK_SIZE) (k_vm k) v.
Proof.
  intros F%framed_now. set (w := u32 (user_stack + PG_SIZE)). assert (Hw : is_u32 w) by apply u32_range.
  set (m := <[IS_ss := SELECTOR_U_DATA]> (<[IS_esp := w]> (entry_frame filename))).
  enough (W : wp (st32 (sp +! IS_esp) w;; st32 (sp +! IS_ss) SELECTOR_U_DATA) k (fun _ k' => exists v, k' = with_vm v k
    /\ framed (k_vm k) sp INTR_STACK_SIZE m v)).
  { apply wp_inv in W as ([] & k' & E & v & -> & F'). exists v. split; [|apply F'].
    unfold mbind, M_bind in E. destruct (st32 (sp +! IS_esp) w k) as [[] k1| | | |] eqn:E1; [|done..].
    unfold entry_leave. fold w. erewrite bind_ok by exact E1. erewrite bind_ok by exact E.
    assert (R : forall o x, m !! o = Some x -> ld32 (sp +! o) (with_vm v k) = Ok x (with_vm v k))
      by (intros; by eapply ld32_frame).
    unfold all_load.
    erewrite bind_ok by (apply (R IS_edi); reflexivity).
    do 6 (erewrite bind_ok by (rewrite frame_sum; apply R; reflexivity)).
    do 7 (erewrite bind_ok by (rewrite frame_sum; apply R; reflexivity)).
    change (SELECTOR_U_CODE mod 4 =? 3) with true. cbv iota.
    erewrite (bind_ok _ _ _ (w, Some SELECTOR_U_DATA)); [reflexivity|].
    do 2 (erewrite bind_ok by (rewrite frame_sum; apply R; reflexivity)). reflexivity. }
  frame_steps. eexists. split; [reflexivity|]. eassumption.
Qed.

(** ** The whole function *)

(** The control block while the process is in user mode. *)
Definition entered_tcb (tc : tcb) : tcb := tcb_stack_top (entry_stack_of tc) tc.

Lemma process_entry_eq filename k tc : k_tcbs k !! running_thread (k_sched k) = Some tc ->
  let sp := entry_stack_of tc in
  process_entry filename k = (entry_fill sp filename;;
    user_stack ← target_vaddr_malloc PF_USER USER_STACK3_VADDR; entry_leave sp user_stack)
    (with_tcbs (<[running_thread (k_sched k) := entered_tcb tc]> (k_tcbs k)) k).
Proof.
  intros Ht sp. unfold process_entry. erewrite bind_ok by reflexivity. erewrite bind_ok by by apply get_tcb_ok.
  erewrite bind_ok by by apply on_tcb_ok. erewrite bind_ok by apply get_tcb_ok, lookup_insert_eq.
  change (stack_top (tcb_stack_top _ tc)) with sp. change (tcb_stack_top (u32 _) tc) with (entered_tcb tc).
  generalize (with_tcbs (<[running_thread (k_sched k) := entered_tcb tc]> (k_tcbs k)) k) as k0.
  intros k0. unfold entry_fill, entry_leave, mbind, M_bind.
  repeat match goal with |- context [st32 ?a ?w k0] => is_var k0; destruct (st32 a w k0) as [[] k'| | | |]; [clear k0; rename k' into k0|done..] end.
  reflexivity.
Qed.

(** What the process has when [process_entry] begins: its own stack, apart from
    the bitmaps, and no table yet for the page of the user stack. *)
Record at_entry H k up (tc : tcb) mb : Prop := {
  ae_running : running_process D H k up tc mb;
  ae_apart : entries_apart D (k_vm k);
  ae_wanted : page_wanted (k_vm k) tc USER_STACK3_VADDR mb;
  ae_stack : valid_block (k_vm k) (entry_stack_of tc) INTR_STACK_SIZE;
  ae_free a : in_block (entry_stack_of tc) INTR_STACK_SIZE a ->
    ~ page_bits H up tc a /\ ~ bitmap_byte (btmp (h_vpool H)) a
}.

(** The state when the frame is filled. *)
Lemma at_entry_filled H k L up tc mb vb pb ub v m : heap_rep D H k vb pb -> user_frames_ok D H (k_vm k) up ub ->
  at_entry H k up tc mb -> framed (k_vm k) (entry_stack_of tc) INTR_STACK_SIZE m v ->
  let k1 := with_vm v (with_tcbs (<[running_thread (k_sched k) := entered_tcb tc]> (k_tcbs k)) k) in
  heap_rep D H k1 vb pb /\ user_frames_ok D H v up ub /\ running_process D H k1 up (entered_tcb tc) mb
  /\ entries_apart D v /\ page_wanted v (entered_tcb tc) USER_STACK3_VADDR mb /\ (mutex_free k L user_mtx -> mutex_free k1 L user_mtx).
Proof.
  intros R U [P A W Vs Fr] (_ & M & _) k1. assert (K : vm_keeps D (k_vm k) v) by exact (modifies_keeps _ _ _ M).
  assert (Hb : forall b bits, bitmap_rep (k_vm k) b bits ->
    (forall a, bitmap_byte b a -> page_bits H up tc a \/ bitmap_byte (btmp (h_vpool H)) a) -> bitmap_rep v b bits).
  { intros b bits B Hin. eapply bitmap_rep_modifies; [exact M| |exact B]. intros i Hi Hq.
    destruct (Fr _ Hq) as [N1 N2]. destruct (Hin (base_addr b + i)); unfold bitmap_byte; (lia || done). }
  unfold page_bits in *. split_and!.
  - apply (heap_rep_ext D H (with_vm v k)); [done..|].
    eapply heap_rep_bit; [exact R|exact M|apply Hb; [apply R|tauto]|apply Hb; [apply R|tauto]|done|done].
  - eapply user_frames_keeps; [exact U|exact K|apply Hb; [apply U|tauto]|done].
  - destruct P. constructor; try done; [apply lookup_insert_eq|]. apply Hb; [done|tauto].
  - by eapply keeps_apart.
  - destruct W. constructor; try done. destruct pw_absent0 as (e & He & Pe). exists e. split; [|done]. rewrite <- He.
    destruct K as (C & Kd & _). rewrite <- (under_cr3 v), <- (under_cr3 (k_vm k)), C.
    apply keeps_pde; [apply Kd; left|]. by vm_compute.
  - intros []. by constructor.
Qed.

(** The stack is mapped, and the processor goes on in the program. *)
Lemma process_entry_ok filename H k L vb pb up ub tc mb : heap_rep D H k vb pb -> lists_rep (k_links k) L ->
  mutex_free k L user_mtx -> k_pools k !! user_phy_pool = Some up -> user_frames_ok D H (k_vm k) up ub ->
  at_entry H k up tc mb -> is_u32 filename -> clear_from 0 pb <> [] -> clear_from 0 ub <> [] ->
  let va := USER_STACK3_VADDR in
  exists (j0 j : nat) v, (pb !! j0 = Some false /\ forall x, (x < j0)%nat -> pb !! x <> Some false)
    /\ (ub !! j = Some false /\ forall x, (x < j)%nat -> ub !! x <> Some false)
    /\ process_entry filename k = Ok (user_context filename (va + PG_SIZE))
         (mutex_given_back user_mtx (with_vm v (with_tcbs (<[running_thread (k_sched k) := entered_tcb tc]> (k_tcbs k)) k)))
    /\ page_given D H (fun a => in_block (entry_stack_of tc) INTR_STACK_SIZE a \/ page_bits H up tc a)
         k up tc va j0 j v vb pb ub mb.
Proof.
  intros R HL F Hup U E Hf Hpb Hub va. set (sp := entry_stack_of tc).
  set (k0 := with_tcbs (<[running_thread (k_sched k) := entered_tcb tc]> (k_tcbs k)) k).
  destruct (entry_fill_ok k0 sp filename (ae_stack _ _ _ _ _ E) Hf) as (v1 & E1 & F1).
  destruct (at_entry_filled H k L up tc mb vb pb ub v1 _ R U E F1) as (R1 & U1 & P1 & A1 & W1 & Fm).
  set (k1 := with_vm v1 k0) in *.
  destruct (target_vaddr_malloc_ok D H k1 L vb pb up ub (entered_tcb tc) mb va R1 HL (Fm F) Hup U1 P1 A1 W1 Hpb Hub)
    as (j0 & j & v2 & Hj0 & Hj & E2 & G).
  set (k2 := mutex_given_back user_mtx (with_vm v2 k1)) in *.
  assert (F2 : framed v2 sp INTR_STACK_SIZE (entry_frame filename) v2).
  { apply (framed_moved D D v1 v2 (k_vm k)); [|exact F1]. intros a Ha Va.
    pose proof (pg_mapped _ _ _ _ _ _ _ _ _ _ _ _ _ _ G) as T. split; [by apply (tm_valid _ _ _ _ _ _ _ T)|].
    apply (tm_load _ _ _ _ _ _ _ T); [exact Va|]. by apply (ae_free _ _ _ _ _ E). }
  destruct (entry_leave_ok k2 sp filename va v2 F2) as (v3 & E3 & M3).
  change (k_vm k2) with v2 in M3. exists j0, j, v3. do 2 (split; [done|]). split.
  - rewrite (process_entry_eq filename k tc) by apply (ae_running _ _ _ _ _ E). fold sp k0.
    erewrite bind_ok by exact E1. erewrite bind_ok by exact E2. exact E3.
  - destruct F1 as (_ & M1 & _). change (k_vm k0) with (k_vm k) in M1.
    pose proof (page_given_then D H _ k1 up (entered_tcb tc) va j0 j v2 v3 vb pb ub mb _ M3 ltac:(by vm_compute)
      (ae_free _ _ _ _ _ E) G) as G3.
    destruct (page_given_ext D H _ k k1 up _ va j0 j v3 vb pb ub mb _ M1 eq_refl G3).
    constructor; try done. eapply table_mapped_weaken; [exact pg_mapped0|]. unfold page_bits. simpl. fold sp. tauto.
Qed.

End Entry.
End ProcessEntry.
