(* ===== verification/FreshProcess.v ===== *)
(** A process from [process_run] to user mode: the parts of [user/process.c] and
    [thread/thread.c] composed.

    [proc] names the pages of a process and the program it is to run.
    [fresh_process D k p]: [process_run] has made [p] and it has not run: its
    map of addresses is clear, its stack holds the first frame, its directory has
    nothing below the kernel's gigabyte.  The lemmas [fresh_...] show that what
    else the kernel does keeps that; [process_user_mode]: when the scheduler
    picks [p], it enters user mode in its program, with a stack page that no
    other address space reaches. *)

From S2P Require Import Prelude Bytes CString Bitmap Interrupt LinkedList Paging PageTable PageMap Words Kernel.
From S2P Require Import ReadyQueues Sched Sync Memory Heap Thread ThreadSpec ThreadRun Process PageDir AddressSpace.
From S2P Require Import MemInit ProcessRun NewTable UserPage ProcessEntry.

Module FreshProcess.
Import Bitmap Interrupt LinkedList Paging PageTable PageMap Words Kernel ReadyQueues Sched Sync Memory.
Import Heap MemInit Thread ThreadSpec ThreadRun Process PageDir AddressSpace ProcessRun NewTable UserPage ProcessEntry.

#[local] Opaque rq_addrs.

(** ** Another address space of the list *)

Section Switch.
Context (D : list Z).
Implicit Types (s v : vm) (k : kernel) (H : kheap) (vb pb ub mb : list bool) (up : pool).
Implicit Types (L : gmap Z (list Z)) (qs : queues).

#[local] Instance data_mem : ByteMem vm := vm_mem D.

Lemma switch_bitmap s d b bits : d ∈ D -> bitmap_rep s b bits -> bitmap_rep (under s d) b bits.
Proof. intros Hd. apply bitmap_rep_ext. intros a Va. by apply vm_switch_valid. Qed.

Lemma switch_dirs s d c : d ∈ D -> c ∈ cr3 (under s d) :: D -> c ∈ cr3 s :: D.
Proof. simpl. set_solver. Qed.

Lemma switch_frame_free s d f : d ∈ D -> frame_free D s f -> frame_free D (under s d) f.
Proof.
  intros Hd (Um & N & Ex). split; [|split; [|exact Ex]].
  - intros c a p Hc. apply (Um c a p). by eapply switch_dirs.
  - intros c Hc. apply (N c). by eapply switch_dirs.
Qed.

Lemma switch_spare s d f : d ∈ D -> spare D s f -> spare D (under s d) f.
Proof.
  intros Hd [F N]. split; [by apply switch_frame_free|]. intros c a p Hc. apply (N c a p). by eapply switch_dirs.
Qed.

Lemma switch_tables H s d : d ∈ D -> tables_ok D H s -> tables_ok D H (under s d).
Proof.
  intros Hd []. constructor; try done.
  - intros c Hc. apply (to_self0 c). by eapply switch_dirs.
  - intros c a Hc. apply (to_pde0 c a). by eapply switch_dirs.
  - intros c a Hc. apply (to_dir0 c a). by eapply switch_dirs.
  - intros c a j e Hc. apply (to_alias0 c a j e). by eapply switch_dirs.
Qed.

Lemma switch_heap H k vb pb d : d ∈ D -> heap_rep D H k vb pb -> heap_rep D H (with_vm (under (k_vm k) d) k) vb pb.
Proof.
  intros Hd []. constructor; try done.
  - by apply switch_bitmap.
  - by apply switch_bitmap.
  - by apply switch_tables.
  - intros j Hj. by apply switch_frame_free; [|apply hr_frames0].
Qed.

Lemma switch_kernel H k qs L vb pb ts d : d ∈ D -> kernel_ok D H k qs L vb pb ts ->
  kernel_ok D H (with_vm (under (k_vm k) d) k) qs L vb pb ts.
Proof.
  intros Hd []. constructor; try done.
  - by apply rep_cr3.
  - by apply switch_heap.
  - by destruct ko_pid0.
Qed.

Lemma switch_users H s d up ub : d ∈ D -> user_frames_ok D H s up ub -> user_frames_ok D H (under s d) up ub.
Proof.
  intros Hd []. constructor; try done.
  - by apply switch_bitmap.
  - intros j Hj. by apply switch_spare; [|apply uf_free0].
Qed.

(** ** A page for a user, and the kernel *)

Lemma mapped_grows H k vb pb P v va t f : heap_rep D H (with_vm v k) vb pb -> user_addr va ->
  table_mapped D P (k_vm k) v va t f -> grows D (k_vm k) v.
Proof.
  intros R Hva T. pose proof (tm_cr3 _ _ _ _ _ _ _ T) as C. pose proof (hr_tables _ _ _ _ _ R) as T'. simpl in T'.
  destruct (user_addr_index va Hva) as [Rva Hx]. constructor; try apply T.
  - intros d b p Hd Kb E. rewrite (tm_other _ _ _ _ _ _ _ T); [done|done|by apply kernel_addr_u32| |].
    + unfold kernel_addr, pd_index in *. zdiv_lia.
    + intros [_ E']. unfold kernel_addr, pd_index in *. zdiv_lia.
  - intros d Hd _. apply (to_self _ _ _ T'). by rewrite C.
  - intros _. apply T'.
Qed.

Lemma page_given_kernel H k qs L vb pb ts P up tc va j0 j v ub mb : kernel_ok D H k qs L vb pb ts ->
  page_given D H P k up tc va j0 j v vb pb ub mb -> user_addr va -> (forall a, mask_byte k a -> ~ P a) ->
  kernel_ok D H (with_vm v k) qs L vb (<[j0 := true]> pb) ts.
Proof.
  intros K [Hh _ _ T _] Hva HP. eapply kernel_ok_vm; [exact K|exact Hh|by eapply mapped_grows| |done].
  intros a Ha Va. apply (tm_load _ _ _ _ _ _ _ T); [done|]. by apply HP.
Qed.

Lemma at_entry_ext H k k' up tc mb : k_vm k' = k_vm k -> k_tcbs k' = k_tcbs k -> k_sched k' = k_sched k ->
  at_entry D H k up tc mb -> at_entry D H k' up tc mb.
Proof. intros E1 E2 E3 [[] A W V F]. constructor; [constructor|..]; by rewrite ?E1, ?E2, ?E3. Qed.

(** A free page of the heap holds no bitmap. *)
Lemma bitmap_not_free H k vb pb b bits (i : nat) a : heap_rep D H k vb pb -> bitmap_rep (k_vm k) b bits ->
  vb !! i = Some false -> in_block (page_at H (Z.of_nat i)) PG_SIZE a -> ~ bitmap_byte b a.
Proof.
  intros R (_ & _ & _ & Vb & _) Hi Ha Hb. pose proof (hr_tables _ _ _ _ _ R) as T.
  destruct (pool_sizes _ _ _ _ _ R) as (_ & _ & Lv & _). pose proof (lookup_lt_Some _ _ _ Hi).
  destruct (vm_load_valid D (k_vm k) a) as (p & w & Tp & _).
  { replace a with (base_addr b + (a - base_addr b)) by lia. apply Vb. unfold bitmap_byte in Hb. lia. }
  pose proof (page_free_unmapped D H (k_vm k) (Z.of_nat i) (cr3 (k_vm k)) (a - page_at H (Z.of_nat i)) T ltac:(lia)
    (hr_pages _ _ _ _ _ R i Hi) ltac:(left) ltac:(unfold in_block, PG_SIZE, PAGE in *; lia)) as N.
  rewrite under_cr3 in N. replace (page_at H (Z.of_nat i) + (a - page_at H (Z.of_nat i))) with a in N by lia.
  congruence.
Qed.

End Switch.
(** ** A process that has not run yet *)

(** The control block, the map of addresses, the directory, its frame; where the
    first [context_load] continues, with which arguments. *)
Record proc := mkProc {
  pr_tcb : Z; pr_map : Z; pr_dir : Z; pr_frame : Z; pr_entry : Z; pr_func : Z; pr_file : Z
}.

(** What belongs to the process. *)
Definition proc_byte (p : proc) (a : Z) : Prop := in_block (pr_tcb p) PG_SIZE a \/ bitmap_byte (user_map (pr_map p)) a.

Record fresh_process (D : list Z) k (p : proc) : Prop := {
  fp_tcb : exists tc, k_tcbs k !! pr_tcb p = Some tc /\ stack_top tc = first_stack (pr_tcb p)
    /\ pg_dir tc = pr_dir p /\ btmp (user_vaddr_pool tc) = user_map (pr_map p)
    /\ addr_base (user_vaddr_pool tc) = USER_VADDR_START;
  fp_bits : bitmap_rep (ByteMem0 := vm_mem D) (k_vm k) (user_map (pr_map p)) (replicate (Z.to_nat user_map_bits) false);
  fp_page : valid_block (ByteMem0 := vm_mem D) (k_vm k) (pr_tcb p) PG_SIZE;
  fp_stack : framed (ByteMem0 := vm_mem D) (k_vm k) (first_stack (pr_tcb p)) THREAD_STACK_SIZE
    (first_frame (pr_entry p) (pr_func p) (pr_file p)) (k_vm k);
  fp_frame : pr_frame p ∈ D;
  fp_dir c : c ∈ cr3 (k_vm k) :: D -> translate (under (k_vm k) c) (pr_dir p) = Some (pr_frame p);
  fp_low : lower_half_clear (k_vm k) (pr_frame p);
  fp_apart : entries_apart D (under (k_vm k) (pr_frame p))
}.

(** Where it is: none of its bytes is the scheduler's or in a pool's bitmap. *)
Record proc_place H up (mask : Z -> Prop) (p : proc) : Prop := {
  pl_tcb : 0 < pr_tcb p < 2 ^ 32 - PG_SIZE;
  pl_dir : kernel_addr (pr_dir p);
  pl_bits a : proc_byte p a -> ~ mask a /\ ~ bitmap_byte (btmp (h_vpool H)) a
    /\ ~ bitmap_byte (btmp (h_ppool H)) a /\ ~ bitmap_byte (btmp up) a;
  pl_map a : in_block (pr_tcb p) PG_SIZE a -> ~ bitmap_byte (user_map (pr_map p)) a
}.

Definition proc_apart (p q : proc) : Prop :=
  frame (pr_frame p) <> frame (pr_frame q) /\ forall a, proc_byte p a -> ~ proc_byte q a.

Section Fresh.
Context (D : list Z).
Implicit Types (k : kernel) (H : kheap) (vb pb ub mb : list bool) (up : pool) (p q : proc).

Lemma stack_in_page t a : in_block (first_stack t) THREAD_STACK_SIZE a -> in_block t PG_SIZE a.
Proof. unfold in_block, first_stack, INTR_STACK_SIZE, THREAD_STACK_SIZE, PG_SIZE. lia. Qed.

(** Its bytes and its directory are still there. *)
Lemma fresh_moved D' k k' p : fresh_process D k p -> spaces_grow D (k_vm k) (k_vm k') ->
  moved D D' (k_vm k) (k_vm k') (proc_byte p) -> k_tcbs k' !! pr_tcb p = k_tcbs k !! pr_tcb p ->
  kernel_addr (pr_dir p) -> cr3 (k_vm k) ∈ D -> (forall c, c ∈ D -> c ∈ D') ->
  (forall c, c ∈ D' -> c ∈ D \/ (shares_kernel (k_vm k') c /\ lower_half_clear (k_vm k') c /\ 0 <= c < 2 ^ 32)) ->
  fresh_process D' k' p.
Proof.
  intros [T B V F Fr Di Lo A] [C M K] Mv Et Kd Hcr Hin Hnew.
  assert (Kp : forall x, 0 <= x < 1024 -> pde_of (under (k_vm k') (pr_frame p)) x = pde_of (under (k_vm k) (pr_frame p)) x)
    by (intros; apply K; [by right|done]).
  constructor.
  - by rewrite Et.
  - apply (bitmap_rep_moved D D' (k_vm k)); [|exact B]. intros a Ha. apply Mv. by right.
  - intros o Ho. apply Mv; [left; unfold in_block; lia|by apply V].
  - apply (framed_moved D D' (k_vm k) _ (k_vm k)); [|exact F]. intros a Ha. apply Mv. left. by apply stack_in_page.
  - by apply Hin.
  - assert (Hold : forall c, c ∈ D -> translate (under (k_vm k') c) (pr_dir p) = Some (pr_frame p)).
    { intros c Hc. apply M; [by right|done|]. apply Di. by right. }
    intros c Hc. apply elem_of_cons in Hc as [->|Hc]; [apply Hold; by rewrite C|].
    destruct (Hnew c Hc) as [Ho|(Sh & _ & Rc)]; [by apply Hold|].
    rewrite (new_translate (k_vm k') c Sh Rc) by done. rewrite <- (under_cr3 (k_vm k')), C. by apply Hold.
  - intros x Hx. rewrite Kp by lia. by apply Lo.
  - intros c x e Hc Hx. change (under (under (k_vm k') (pr_frame p)) c) with (under (k_vm k') c).
    change (cr3 (under (k_vm k') (pr_frame p))) with (pr_frame p) in *.
    assert (Hold : forall c, c ∈ D -> pde_of (under (k_vm k') c) x = Some e -> present e = true -> frame e <> frame (pr_frame p)).
    { intros d Hd. rewrite (K d x) by ((by right) || lia). apply (A d x e); [by right|done]. }
    assert (Hc' : c ∈ D') by (apply elem_of_cons in Hc as [->|Hc]; auto).
    destruct (Hnew c Hc') as [Ho|(Sh & Lc & _)]; [by apply Hold|]. intros He Pe.
    destruct (decide (x < 768)) as [Hl|Hl].
    { destruct (Lc x ltac:(lia)) as (e' & He' & Pe'). congruence. }
    rewrite (sk_pde _ _ Sh) in He by lia. apply (Hold (cr3 (k_vm k))); [done| |done].
    by rewrite <- C, under_cr3.
Qed.

(** Writes to other memory, and another control block. *)
Lemma fresh_write P k k' p : fresh_process D k p -> modifies (ByteMem0 := vm_mem D) P (k_vm k) (k_vm k') ->
  (forall a, proc_byte p a -> ~ P a) -> k_tcbs k' !! pr_tcb p = k_tcbs k !! pr_tcb p ->
  kernel_addr (pr_dir p) -> cr3 (k_vm k) ∈ D -> fresh_process D k' p.
Proof.
  intros Fp M HP Et Kd Hcr.
  apply (fresh_moved D k k' p Fp); [by eapply modifies_spaces|by eapply modifies_moved|done..|by left].
Qed.

(** The scheduler picks another thread. *)
Lemma fresh_dispatched k t tc d p : fresh_process D k p -> t <> pr_tcb p -> d ∈ D ->
  fresh_process D (dispatched k t tc d) p.
Proof.
  intros [T B V F Fr Di Lo A] Ht Hd.
  assert (Mv : forall P, moved D D (k_vm k) (under (k_vm k) d) P) by (intros P a _ Va; by apply vm_switch_valid).
  constructor.
  - change (k_tcbs (dispatched k t tc d)) with (<[t := tcb_status TASK_RUNNING tc]> (k_tcbs k)).
    by rewrite lookup_insert_ne.
  - by apply switch_bitmap.
  - intros o Ho. apply (Mv (fun _ => True)); [done|by apply V].
  - exact (framed_moved D D (k_vm k) _ (k_vm k) _ _ _ (Mv _) F).
  - exact Fr.
  - intros c Hc. apply Di. by eapply switch_dirs.
  - exact Lo.
  - exact A.
Qed.

(** Another process gets a page. *)
Lemma fresh_mapped P k k' va t f p : fresh_process D k p -> table_mapped D P (k_vm k) (k_vm k') va t f ->
  frame_free D (k_vm k) t -> is_u32 t /\ t mod PAGE = 0 -> user_addr va ->
  (forall a, proc_byte p a -> ~ P a) -> k_tcbs k' !! pr_tcb p = k_tcbs k !! pr_tcb p ->
  frame (pr_frame p) <> frame (cr3 (k_vm k)) -> kernel_addr (pr_dir p) -> fresh_process D k' p.
Proof.
  intros [T B V F Fr Di Lo A] Tm Ft Ht Hva HP Et HF Kd.
  assert (Mv : moved D D (k_vm k) (k_vm k') (proc_byte p)).
  { intros a Ha Va. split; [by apply (tm_valid _ _ _ _ _ _ _ Tm)|]. apply (tm_load _ _ _ _ _ _ _ Tm); [done|auto]. }
  assert (Hpi : 768 <= pd_index (pr_dir p) < 1023) by (unfold kernel_addr, pd_index in *; zdiv_lia).
  constructor.
  - rewrite Et. exact T.
  - apply (bitmap_rep_moved D D (k_vm k)); [|exact B]. intros a Ha. apply Mv. by right.
  - intros o Ho. apply Mv; [left; unfold in_block; lia|by apply V].
  - apply (framed_moved D D (k_vm k) _ (k_vm k)); [|exact F]. intros a Ha. apply Mv. left. by apply stack_in_page.
  - exact Fr.
  - intros c. rewrite (tm_cr3 _ _ _ _ _ _ _ Tm). intros Hc. rewrite (tm_other _ _ _ _ _ _ _ Tm); [by apply Di|done|..].
    + by apply kernel_addr_u32.
    + lia.
    + intros [_ E]. destruct (user_addr_index va Hva). lia.
  - intros x Hx. rewrite (tm_dirs _ _ _ _ _ _ _ Tm); [by apply Lo|by right|lia|]. by intros [E _].
  - eapply (mapped_spaces D); [exact Tm|exact Ft|apply Ht|apply Ht|apply (user_addr_index va Hva)|exact Fr|exact A].
Qed.

(** What [process_entry] needs is there once the scheduler has picked the
    process. *)
Lemma fresh_at_entry H k up mask p tc : fresh_process D k p -> proc_place H up mask p ->
  k_tcbs k !! pr_tcb p = Some tc ->
  let tc' := tcb_status TASK_RUNNING tc in
  at_entry D H (dispatched k (pr_tcb p) tc (pr_frame p)) up tc' (replicate (Z.to_nat user_map_bits) false)
  /\ stack_top tc' = first_stack (pr_tcb p)
  /\ (forall a, in_block (entry_stack_of tc') INTR_STACK_SIZE a -> in_block (pr_tcb p) PG_SIZE a).
Proof.
  intros [(tc0 & Htc0 & St & Ed & Em & Eb) B V F Fr Di Lo A] [Ht Kd Pb Pm] Htc tc'.
  rewrite Htc in Htc0. injection Htc0 as <-.
  assert (Es : entry_stack_of tc' = pr_tcb p + PG_SIZE - INTR_STACK_SIZE).
  { unfold entry_stack_of. change (stack_top tc') with (stack_top tc). rewrite St.
    unfold first_stack, INTR_STACK_SIZE, THREAD_STACK_SIZE, PG_SIZE in *. rewrite u32_small; lia. }
  assert (Hin : forall a, in_block (entry_stack_of tc') INTR_STACK_SIZE a -> in_block (pr_tcb p) PG_SIZE a).
  { intros a. rewrite Es. unfold in_block, INTR_STACK_SIZE, PG_SIZE. lia. }
  assert (Em' : btmp (user_vaddr_pool tc') = user_map (pr_map p)) by exact Em.
  split; [|split; [exact St|exact Hin]]. constructor.
  - constructor; [apply lookup_insert_eq| | | |].
    + change (pg_dir tc') with (pg_dir tc). rewrite Ed. unfold kernel_addr, NULL in *. lia.
    + rewrite Em'. by apply switch_bitmap.
    + rewrite Em'. by vm_compute.
    + intros a. rewrite Em'. intros Ha. destruct (Pb a (or_intror Ha)) as (_ & N1 & N2 & N3). by split_and!.
  - exact A.
  - constructor.
    + by vm_compute.
    + by vm_compute.
    + change (addr_base (user_vaddr_pool tc')) with (addr_base (user_vaddr_pool tc)). rewrite Eb. by vm_compute.
    + unfold map_index. change (addr_base (user_vaddr_pool tc')) with (addr_base (user_vaddr_pool tc)). rewrite Eb.
      change ((USER_STACK3_VADDR - USER_VADDR_START) / PG_SIZE) with 753591.
      rewrite length_replicate. apply Z2Nat.inj_lt; by vm_compute.
    + apply (Lo 767). lia.
  - intros i Hi. rewrite Es. apply vm_switch_valid; [exact Fr|].
    replace (pr_tcb p + PG_SIZE - INTR_STACK_SIZE + i) with (pr_tcb p + (PG_SIZE - INTR_STACK_SIZE + i)) by lia.
    apply V. unfold INTR_STACK_SIZE, PG_SIZE in *. lia.
  - intros a Ha%Hin. destruct (Pb a (or_introl Ha)) as (_ & N1 & N2 & N3). split; [|exact N1].
    unfold page_bits. rewrite Em'. intros [Hm|[Hu|Hp]]; [by apply (Pm a)|done..].
Qed.

(** The map of a process is in the pages behind its control block. *)
Lemma map_page H (n : nat) a : bitmap_byte (user_map (page_at H (Z.of_nat (n + 1)))) a ->
  exists x : nat, (x < 23)%nat /\ in_block (page_at H (Z.of_nat (n + 1 + x))) PG_SIZE a.
Proof.
  unfold bitmap_byte, in_block, page_at, PG_SIZE, user_map. simpl. intros Ha.
  exists (Z.to_nat ((a - (addr_base (h_vpool H) + 4096 * Z.of_nat (n + 1))) / 4096)). zdiv_lia.
Qed.

(** No bitmap the kernel had is in the pages of a new process. *)
Lemma process_pages_apart H k n N pb b bits : heap_rep D H k (first_used n N) pb ->
  bitmap_rep (ByteMem0 := vm_mem D) (k_vm k) b bits -> (n + process_pages <= N)%nat ->
  (forall a, in_block (page_at H (Z.of_nat n)) PG_SIZE a -> ~ bitmap_byte b a)
  /\ (forall a, bitmap_byte (user_map (page_at H (Z.of_nat (n + 1)))) a -> ~ bitmap_byte b a).
Proof.
  intros R B Hn. unfold process_pages in Hn. split; intros a.
  - apply (bitmap_not_free D H k _ pb b bits n a R B). apply first_used_free; lia.
  - intros (x & Hx & Ha)%map_page. eapply (bitmap_not_free D H k _ pb b bits (n + 1 + x) a R B); [|exact Ha].
    apply first_used_free; lia.
Qed.

End Fresh.

(** ** The scheduler picks the process *)

Lemma dispatched_kernel D H k qs L vb pb ts t tc d : kernel_ok D H k qs L vb pb ts -> k_tcbs k !! t = Some tc ->
  d ∈ D -> kernel_ok D H (dispatched k t tc d) qs L vb pb ts.
Proof.
  intros K Ht Hd.
  assert (K1 : kernel_ok D H (with_tcbs (<[t := tcb_status TASK_RUNNING tc]> (k_tcbs k)) k) qs L vb pb ts)
    by (eapply kernel_ok_tcb; [exact K|exact Ht|done|by left]).
  set (k1 := with_tcbs _ k) in K1. set (k2 := with_sched (sched_running t (k_sched k)) k1).
  assert (K2 : kernel_ok D H k2 qs L vb pb ts).
  { destruct K1. constructor; try done.
    - by apply (rep_ext D k1).
    - by apply (heap_rep_ext D H k1).
    - by destruct ko_pid0.
    - simpl. rewrite lookup_insert_eq. by eexists. }
  apply (kernel_ok_ext D H (with_vm (under (k_vm k2) d) k2)); [done..|]. by apply switch_kernel.
Qed.

(** ** [process_run] makes such a process *)

Definition new_proc (H : kheap) (n m : nat) (entry ptr filename : Z) : proc :=
  mkProc (page_at H (Z.of_nat n)) (page_at H (Z.of_nat (n + 1))) (page_at H (Z.of_nat (n + 24)))
    (frame_at H (Z.of_nat (m + 24))) entry ptr filename.

Section Run.
Context (D : list Z) (H : kheap) (k : kernel) (qs : queues) (L : gmap Z (list Z)) (n N m N' : nat) (ts : list Z).
Context (K : kernel_ok D H k qs L (first_used n N) (first_used m N') ts).
Context (Hn : (n + process_pages <= N)%nat) (Hm : (m + process_pages <= N')%nat).

Lemma new_pages : 0 < page_at H (Z.of_nat n) < 2 ^ 32 - PG_SIZE /\ kernel_addr (page_at H (Z.of_nat (n + 24)))
  /\ 0 <= frame_at H (Z.of_nat (m + 24)) < 2 ^ 32 /\ frame_at H (Z.of_nat (m + 24)) mod PAGE = 0.
Proof.
  pose proof (ko_heap _ _ _ _ _ _ _ _ K) as R. pose proof (hr_tables _ _ _ _ _ R) as T. unfold process_pages in *.
  destruct (pool_sizes _ _ _ _ _ R) as (_ & _ & Lv & Lp). rewrite first_used_length in Lv, Lp by lia.
  destruct (page_addr D H (k_vm k) (Z.of_nat n) T) as [_ Hr]; [lia|]. split; [lia|].
  destruct (hr_pbase _ _ _ _ _ R) as (Hb & Hb0 & Hb1). split.
  - rewrite <- (Z.add_0_r (page_at _ _)). eapply heap_addr_kernel; [exact T|]. eapply page_heap_addr; [exact T|lia|done].
  - unfold frame_at, PG_SIZE, PAGE in *. split; [lia|zdiv_lia].
Qed.

Lemma new_proc_place up ub entry ptr filename : bitmap_rep (ByteMem0 := vm_mem D) (k_vm k) (btmp up) ub ->
  proc_place H up (mask_byte k) (new_proc H n m entry ptr filename).
Proof.
  intros Bu. destruct new_pages as (Ht & Hd & _). pose proof (ko_heap _ _ _ _ _ _ _ _ K) as R. constructor.
  - exact Ht.
  - exact Hd.
  - assert (Hb : forall b bits a, bitmap_rep (ByteMem0 := vm_mem D) (k_vm k) b bits ->
      proc_byte (new_proc H n m entry ptr filename) a -> ~ bitmap_byte b a).
    { intros b bits a B. destruct (process_pages_apart D H k n N _ b bits R B Hn) as [P1 P2].
      intros [Ha|Ha]; [by apply P1|by apply P2]. }
    intros a Ha. split_and!; (eapply Hb; [|exact Ha]); [apply (ko_sched _ _ _ _ _ _ _ _ K)|apply R|apply R|exact Bu].
  - intros a Ha (x & Hx & Hp)%map_page. simpl in Ha. unfold in_block, page_at, PG_SIZE in *. lia.
Qed.

Lemma process_run_fresh entry ptr filename nm : spawnable H (k_vm k) (first_used m N') ->
  (length nm <= NAME_LEN)%nat -> is_u32 entry -> is_u32 ptr -> is_u32 filename ->
  let p := new_proc H n m entry ptr filename in let t := pr_tcb p in
  exists k' L', process_run entry ptr filename nm k = Ok tt k'
    /\ kernel_ok (pr_frame p :: D) H k' (enqueue 31 t qs) L' (first_used (n + process_pages) N)
         (first_used (m + process_pages) N') (ts ++ [t])
    /\ spawnable H (k_vm k') (first_used (m + process_pages) N')
    /\ k_tcbs k' = <[t := new_process t (pr_map p) (pr_dir p) nm k]> (k_tcbs k)
    /\ k_sched k' = sched_table (entered t (thread_table (k_sched k))) (k_sched k)
    /\ k_io k' = k_io k /\ k_pools k' = k_pools k
    /\ moved D (pr_frame p :: D) (k_vm k) (k_vm k') (elsewhere H k) /\ bystanders_free t k k' L L'
    /\ spares_kept D (pr_frame p :: D) H (k_vm k) (k_vm k')
    /\ fresh_process (pr_frame p :: D) k' p
    /\ forall q up, fresh_process D k q -> proc_place H up (mask_byte k) q -> fresh_process (pr_frame p :: D) k' q.
Proof.
  intros Sp Hnm He Hp Hf p t. destruct new_pages as (Ht & Hd & HF & _).
  destruct (process_run_ok D entry ptr filename nm H k qs L n N m N' ts K Sp Hn Hm Hnm He Hp Hf)
    as (k' & L' & E & K' & Sp' & Nt & Et & Es & _ & Ei & Epl & B & Fr & Mv & By & Os & Sk & V & Sg). cbv zeta in *.
  pose proof Os as [Sh Lo Td A]. pose proof (sr_cr3 _ _ _ _ (ko_sched _ _ _ _ _ _ _ _ K)) as Hcr.
  pose proof (sr_cr3 _ _ _ _ (ko_sched _ _ _ _ _ _ _ _ K')) as Hcr'.
  exists k', L'. do 10 (split; [done|]). split.
  - assert (Htc : k_tcbs k' !! t = Some (new_process t (pr_map p) (pr_dir p) nm k)) by (rewrite Et; apply lookup_insert_eq).
    constructor; [|exact B|exact V|exact Fr|left| |exact Lo|exact A].
    + eexists. split; [exact Htc|done].
    + destruct (sr_tcbs _ _ _ _ (ko_sched _ _ _ _ _ _ _ _ K') t _ Htc) as (_ & _ & _ & [Hz|(_ & x & _ & _ & Hx)]).
      { change (page_at H (Z.of_nat (n + 24)) = NULL) in Hz. rewrite Hz in Hd. unfold kernel_addr, NULL in Hd. lia. }
      change (pg_dir _) with (pr_dir p) in Hx. destruct (Hx _ Hcr') as (_ & Tx & _). rewrite under_cr3 in Tx.
      change (pr_dir p) with (page_at H (Z.of_nat (n + 24))) in *. rewrite Td in Tx. injection Tx as <-.
      intros c Hc. apply Hx. apply elem_of_cons in Hc as [->|Hc]; done.
  - intros q up Fq Pq. apply (fresh_moved D (pr_frame p :: D) k k' q Fq Sg); [| |apply Pq|exact Hcr|by right|].
    + intros a Ha. apply Mv. destruct (pl_bits _ _ _ _ Pq a Ha) as (N0 & N1 & N2 & _). by split.
    + rewrite Et. apply lookup_insert_ne. intros E'. destruct (fp_tcb _ _ _ Fq) as (x & Hx & _). unfold t in E'.
      change (pr_tcb p) with (page_at H (Z.of_nat n)) in E'. congruence.
    + intros c [->|Hc]%elem_of_cons; [right|by left]. split; [exact Sh|by split].
Qed.

End Run.

(** ** User mode *)

(** What a user process needs beyond the invariant of the kernel: frames for
    users, in a pool whose mutex is free. *)
Record users_ready (D : list Z) (H : kheap) (k : kernel) (L : gmap Z (list Z)) (up : pool) (ub : list bool) : Prop := {
  ur_pool : k_pools k !! user_phy_pool = Some up;
  ur_frames : user_frames_ok D H (k_vm k) up ub;
  ur_mutex : mutex_free k L user_mtx;
  ur_mask a : bitmap_byte (btmp up) a -> ~ mask_byte k a
}.

(** The stack of the process in [F] is in the frame [f], and nothing else below
    the kernel's gigabyte changes in any space. *)
Record stack_given (D : list Z) (s v : vm) (F f : Z) : Prop := {
  st_cr3 : cr3 v = F;
  st_page o : 0 <= o < PAGE -> translate v (USER_STACK3_VADDR + o) = Some (f + o);
  st_reach d a p : d ∈ D -> user_addr a -> translate (under v d) a = Some p ->
    (frame d = frame F /\ frame a = USER_STACK3_VADDR /\ frame p = f) \/ translate (under s d) a = Some p;
  st_other d a : d ∈ D -> user_addr a -> frame d <> frame F ->
    translate (under v d) a = translate (under s d) a
}.

Lemma mapped_stack D P s v t f F : table_mapped D P (under s F) v USER_STACK3_VADDR t f -> f mod PAGE = 0 ->
  stack_given D s v F f.
Proof.
  intros T Hf. assert (Hva : user_addr USER_STACK3_VADDR) by by vm_compute. constructor.
  - exact (tm_cr3 _ _ _ _ _ _ _ T).
  - exact (tm_page _ _ _ _ _ _ _ T).
  - intros d a p Hd Ha Tp.
    destruct (mapped_from D _ _ _ _ _ _ _ _ _ T Hva eq_refl ltac:(by right) Ha Tp) as [(E1 & E2 & ->)|E]; [left|by right].
    split_and!; [done|done|]. apply frame_aligned; [done|by apply Z.mod_pos_bound].
  - intros d a Hd Ha Hn. destruct (user_addr_index a Ha) as [Ra Hi].
    rewrite (tm_other _ _ _ _ _ _ _ T); [done|by right|done|lia|]. by intros [E _].
Qed.

(** The kernel once a process is in user mode. *)
Lemma entered_kernel D H k qs L vb pb ts up tc va j0 j v ub mb P : kernel_ok D H k qs L vb pb ts ->
  k_tcbs k !! running_thread (k_sched k) = Some tc -> page_given D H P k up tc va j0 j v vb pb ub mb -> user_addr va ->
  (forall a, mask_byte k a -> ~ P a) -> mutex_free k L user_mtx ->
  let k2 := mutex_given_back user_mtx (with_vm v (with_tcbs (<[running_thread (k_sched k) := entered_tcb tc]> (k_tcbs k)) k)) in
  kernel_ok D H k2 qs L vb (<[j0 := true]> pb) ts /\ mutex_free k2 L user_mtx.
Proof.
  intros K Ht G Hva Hmask [Ms Mh Mw] k2. pose proof (page_given_kernel D H k qs L vb pb ts P up tc va j0 j v ub mb K G Hva Hmask) as K1.
  assert (K2 : kernel_ok D H (with_tcbs (<[running_thread (k_sched k) := entered_tcb tc]> (k_tcbs k)) (with_vm v k))
    qs L vb (<[j0 := true]> pb) ts) by (eapply (kernel_ok_tcb D H (with_vm v k)); [exact K1|exact Ht|done|by left]).
  assert (N1 : mutex_sem user_mtx <> mutex_sem pid_mtx) by by vm_compute.
  assert (N2 : user_mtx <> pid_mtx) by by vm_compute.
  split.
  - eapply (kernel_ok_locks D H); [..|exact K2]; try done. destruct (ko_pid _ _ _ _ _ _ _ _ K) as [P1 P2 P3].
    split; [| |done]; cbn [k2 mutex_given_back k_sems k_holders with_sems with_holders with_vm with_tcbs];
      rewrite lookup_insert_ne; done.
  - split; [|by eexists; apply lookup_insert_eq|done]. apply lookup_insert_eq.
Qed.

(** From the scheduler to the program: the processor continues in
    [kernel_thread_entry] with [process_entry] and the program as arguments, and
    leaves the kernel with the program's first instruction next and the stack
    pointer at the end of the stack. *)
Definition enters_user_mode (p : proc) (k k' : kernel) : Prop := exists k1 esp,
  dispatch_to (pr_tcb p) k = Ok tt k1
  /\ context_load (pr_tcb p) k1 = Ok (inl (mkFast 0 0 0 0 (pr_entry p) esp)) k1
  /\ ld32 (esp +! 4) k1 = Ok (pr_func p) k1 /\ ld32 (esp +! 8) k1 = Ok (pr_file p) k1
  /\ kernel_thread_entry process_entry (pr_file p) k1 = Ok (user_context (pr_file p) 0xc0000000) k'.

Section Enter.
Context (D : list Z) (H : kheap) (k : kernel) (qs : queues) (L : gmap Z (list Z)) (vb pb : list bool) (ts : list Z).
Context (up : pool) (ub : list bool) (p : proc).

Lemma process_user_mode : kernel_ok D H k qs L vb pb ts -> fresh_process D k p -> proc_place H up (mask_byte k) p ->
  users_ready D H k L up ub -> clear_from 0 pb <> [] -> clear_from 0 ub <> [] -> is_u32 (pr_file p) ->
  exists (j0 j : nat) k2, enters_user_mode p k k2
    /\ (pb !! j0 = Some false /\ forall x, (x < j0)%nat -> pb !! x <> Some false)
    /\ (ub !! j = Some false /\ forall x, (x < j)%nat -> ub !! x <> Some false)
    /\ stack_given D (k_vm k) (k_vm k2) (pr_frame p) (user_frame up j)
    /\ kernel_ok D H k2 qs L vb (<[j0 := true]> pb) ts /\ users_ready D H k2 L up (<[j := true]> ub)
    /\ rq_mask (k_sched k2) = rq_mask (k_sched k)
    /\ forall q, fresh_process D k q -> proc_place H up (mask_byte k) q -> proc_apart p q -> fresh_process D k2 q.
Proof.
  intros K Fp Pl [Up U Mu Hmask] Hpb Hub Hf. pose proof (pl_tcb _ _ _ _ Pl) as Ht. pose proof (pl_dir _ _ _ _ Pl) as Kd.
  destruct (fp_tcb _ _ _ Fp) as (tc & Htc & St0 & Ed & Em & _).
  destruct (dispatch_to_ok D k qs L _ tc (ko_sched _ _ _ _ _ _ _ _ K) Htc) as (d & _ & Hd & E1 & _).
  unfold dir_for in Hd. rewrite Ed in Hd.
  rewrite (proj2 (Z.eqb_neq (pr_dir p) NULL)) in Hd by (unfold kernel_addr, NULL in *; lia).
  pose proof (fp_dir _ _ _ Fp (cr3 (k_vm k)) ltac:(left)) as Hd'. rewrite under_cr3, Hd in Hd'. injection Hd' as ->.
  set (t := pr_tcb p) in *. set (F := pr_frame p) in *. pose proof (fp_frame _ _ _ Fp : F ∈ D) as HF.
  set (k1 := dispatched k t tc F) in *. set (tc' := tcb_status TASK_RUNNING tc).
  destruct (fresh_at_entry D H k up (mask_byte k) p tc Fp Pl Htc) as (A1 & St & Hin). cbv zeta in A1. fold t F tc' k1 in A1, St, Hin.
  assert (K1 : kernel_ok D H k1 qs L vb pb ts) by by apply dispatched_kernel.
  assert (Ht1 : k_tcbs k1 !! t = Some tc') by apply lookup_insert_eq.
  assert (Fr1 : framed (ByteMem0 := vm_mem D) (k_vm k1) (first_stack t) THREAD_STACK_SIZE
    (first_frame (pr_entry p) (pr_func p) (pr_file p)) (k_vm k1)).
  { apply (framed_moved D D (k_vm k) _ (k_vm k)); [|exact (fp_stack _ _ _ Fp)].
    intros a _ Va. by apply vm_switch_valid. }
  destruct (context_load_first D (pr_entry p) (pr_func p) (pr_file p) t k1 _ tc' Ht1 St Ht Fr1) as (C1 & C2 & C3).
  set (ke := with_eflags (with_if true (k_eflags k1)) k1).
  assert (Ke : kernel_ok D H ke qs L vb pb ts) by by apply (kernel_ok_ext D H k1).
  assert (Me : mutex_free ke L user_mtx) by by destruct Mu.
  assert (Ae : at_entry D H ke up tc' (replicate (Z.to_nat user_map_bits) false)) by by apply (at_entry_ext D H k1).
  assert (Ue : user_frames_ok D H (k_vm ke) up ub) by by apply switch_users.
  destruct (process_entry_ok D (pr_file p) H ke L vb pb up ub tc' _ (ko_heap _ _ _ _ _ _ _ _ Ke)
    (sr_lists _ _ _ _ (ko_sched _ _ _ _ _ _ _ _ Ke)) Me Up Ue Ae Hf Hpb Hub) as (j0 & j & v & Hj0 & Hj & E2 & G).
  set (P := fun a => in_block (entry_stack_of tc') INTR_STACK_SIZE a \/ page_bits H up tc' a) in *.
  change (running_thread (k_sched ke)) with t in E2.
  assert (Hm : forall a, mask_byte ke a -> ~ P a).
  { intros a Ha. assert (Np : ~ proc_byte p a) by (intros Hb; by destruct (pl_bits _ _ _ _ Pl a Hb)).
    intros [Hs|[Hc|[Hu|Hpp]]].
    - apply Np. left. by apply Hin.
    - apply Np. right. by rewrite <- Em.
    - by apply (Hmask a).
    - by destruct (ko_apart _ _ _ _ _ _ _ _ K a Ha). }
  destruct (entered_kernel D H ke _ L vb _ _ up tc' USER_STACK3_VADDR _ j v ub _ P Ke Ht1 G
    ltac:(by vm_compute) Hm Me) as [K2 M2].
  change (running_thread (k_sched ke)) with t in K2, M2.
  pose proof (pg_mapped _ _ _ _ _ _ _ _ _ _ _ _ _ _ G) as T. pose proof (ko_heap _ _ _ _ _ _ _ _ Ke) as Re.
  pose proof (hr_frames _ _ _ _ _ Re j0 (proj1 Hj0)) as Ft.
  assert (Rt : is_u32 (frame_at H (Z.of_nat j0)) /\ frame_at H (Z.of_nat j0) mod PAGE = 0).
  { destruct (hr_pbase _ _ _ _ _ Re) as (Hb & Hb0 & Hb1). destruct (pool_sizes _ _ _ _ _ Re) as (_ & _ & _ & Lp).
    pose proof (lookup_lt_Some _ _ _ (proj1 Hj0)). unfold frame_at, PG_SIZE, PAGE in *. split; [lia|zdiv_lia]. }
  exists j0, j. eexists.
  split; [exists k1, (first_stack t + TS_unused_ret_addr); do 4 (split; [done|])|split; [exact Hj0|split; [exact Hj|split; [|split; [exact K2|split; [|split; [done|]]]]]]].
  - unfold kernel_thread_entry. erewrite bind_ok by (erewrite zoom_ok by apply intr_enable_ok; reflexivity). exact E2.
  - apply (mapped_stack D P _ _ _ _ _ T). destruct (uf_base _ _ _ _ _ U) as (Hb & _).
    unfold user_frame, PG_SIZE, PAGE in *. zdiv_lia.
  - constructor; [exact Up|apply G|exact M2|exact Hmask].
  - intros q Fq Pq [Nf Ap].
    assert (Hne : t <> pr_tcb q).
    { intros E. apply (Ap t); left; unfold in_block, PG_SIZE; fold t; rewrite <- ?E; lia. }
    eapply (fresh_mapped D P k1); [by apply fresh_dispatched|exact T|exact Ft|exact Rt|by vm_compute| | | |apply Pq].
    + intros a Ha Hs. destruct (pl_bits _ _ _ _ Pq a Ha) as (_ & N1 & N2 & N3).
      destruct Hs as [Hs%Hin|[Hc|[Hu|Hpp]]]; [by apply (Ap a); [left|]| |done|done].
      apply (Ap a); [right; by rewrite <- Em|exact Ha].
    + by apply lookup_insert_ne.
    + by apply not_eq_sym.
Qed.
End Enter.

End FreshProcess.
