(* ===== verification/Init.v ===== *)
(** [kernel/init.c] and [kernel/main.c]: starting the kernel, and the threads
    and processes it starts.

    What only the linker knows is in the record [image]: the addresses of
    functions, of the tables and of string constants.  A loop [while (1)] is
    modelled by any number of its iterations. *)

From S2P Require Import Prelude Bytes Interrupt LinkedList Paging Ports Print Descriptors Kernel.
From S2P Require Import Sched Sync Console Memory Timer Ioqueue Keyboard Idt Thread Process.

Module Init.
Import Interrupt LinkedList Descriptors Kernel Sched Sync Console Memory Timer Keyboard Idt Thread Process.

Record image := mkImage {
  im_intr_entry_table : Z -> Z;
  im_syscall_entry : Z;
  im_idt : Z;
  im_kernel_thread_entry : Z;
  im_process_entry : Z;
  im_arg1 : Z;
  im_arg2 : Z
}.

(** [build/kernel.map] *)
Definition thread1_ptr : Z := 0xc00015c5.
Definition thread2_ptr : Z := 0xc00015fe.
Definition process1_ptr : Z := 0xc0001637.
Definition process2_ptr : Z := 0xc000164c.

Section Code.
#[local] Existing Instance Paging.vm_ops.
Context (im : image).

(** [esp] is the stack pointer in [running_thread_get]. *)
Definition init_all (esp : Z) : M kernel unit :=
  say ("init_all" +:+ Print.nl);;
  idt_init (im_intr_entry_table im) (im_syscall_entry im) (im_idt im);;
  mem_init;;
  thread_all_init esp;;
  timer_init;;
  console_init;;
  keyboard_init;;
  tss_init;;
  syscall_init.

(** [n] iterations of [while (1) console_put_int(pid);] *)
Definition print_forever (n : nat) (pid : Z) : M kernel unit :=
  for_upto 0 n (fun _ => console_put_int pid).

Definition pid_of_running : M kernel Z :=
  r ← RUNNING_THREAD;
  t ← get_tcb r;
  mret (u32 (pid t)).

(** [main] from its first process on. *)
Definition main_processes (n : nat) : M kernel unit :=
  process_run (im_kernel_thread_entry im) (im_process_entry im) process1_ptr (Print.text_of "process1");;
  process_run (im_kernel_thread_entry im) (im_process_entry im) process2_ptr (Print.text_of "process2");;
  zoom eflags_of intr_enable;;
  pid ← pid_of_running;
  zoom eflags_of intr_disable;;
  console_put_int pid;;
  zoom eflags_of intr_enable;;
  print_forever n pid.

Definition main (esp : Z) (n : nat) : M kernel unit :=
  say ("I AM KERNEL" +:+ Print.nl);;
  init_all esp;;
  thread_run (im_kernel_thread_entry im) (Print.text_of "kthread1") 8 thread1_ptr (im_arg1 im);;
  thread_run (im_kernel_thread_entry im) (Print.text_of "kthread2") 8 thread2_ptr (im_arg2 im);;
  main_processes n.

(** The two threads have the same body. *)
Definition thread1 (n : nat) (arg : Z) : M kernel unit :=
  pid ← pid_of_running;
  zoom eflags_of intr_disable;;
  console_put_int pid;;
  zoom eflags_of intr_enable;;
  print_forever n pid.
Definition thread2 : nat -> Z -> M kernel unit := thread1.

(** The two processes have the same body, up to their empty loop. *)
Definition process1 : M kernel unit :=
  pid ← pid_get (im_syscall_entry im);
  zoom display_of (Print.put_int pid).
Definition process2 : M kernel unit := process1.

End Code.
End Init.
