(* ===== verification/Boot.v ===== *)
(** Starting the kernel: [init_all] of [kernel/init.c], specified as a whole.

    [boot_state] is what the loader and the linker leave: the page tables, an
    empty screen, the objects of the kernel's data segment.  From there
    [init_all] returns, and the invariant [kernel_ok] holds with the idle
    thread as the only thread. *)

From S2P Require Import Prelude Bytes Bitmap Interrupt LinkedList Paging PageTable PageMap Words Ports.
From S2P Require Import Print Descriptors Kernel ReadyQueues Sched Sync Console Idt Memory Heap MemInit.
From S2P Require Import Timer Ioqueue Keyboard Thread ThreadSpec ThreadRun SchedInit Process Init.

Module Boot.
Import Bitmap LinkedList Paging PageTable PageMap Words Ports Descriptors Kernel ReadyQueues Sched Sync.
Import Console Idt Memory Heap MemInit Timer Ioqueue Keyboard Thread ThreadSpec ThreadRun SchedInit.
Import Process Init.

#[local] Opaque rq_addrs.

(** ** The objects of the data segment *)

Definition pool_lists : list Z := [pool_waiters kernel_phy_pool; pool_waiters user_phy_pool].
Definition device_lists : list Z :=
  [sem_waiters (mutex_sem console_mutex)] ++ [sem_waiters (mutex_sem kbd_buf)].
Definition boot_lists : list Z := pool_lists ++ sched_lists ++ device_lists.
Definition boot_mutexes : list Z :=
  [pool_mtx kernel_phy_pool; pool_mtx user_phy_pool; pid_mtx; console_mutex; kbd_buf].

Lemma lists_room_after (h h' : gmap Z list_elem) L ls ls' : lists_room h L (ls ++ ls') ->
  dom h' = dom h -> lists_room h' (inited ls L) ls'.
Proof.
  unfold lists_room, sentinels. rewrite fmap_app, join_app. intros [N R] Hd.
  apply NoDup_app in N as (_ & N1 & N2). split; [done|]. intros a Ha.
  destruct (R a) as [E O]; [apply elem_of_app; by right|]. split.
  - apply elem_of_dom. rewrite Hd. by apply elem_of_dom.
  - intros [Hw|Hw%sentinel_of]%inited_owned; [done|]. by apply (N1 a).
Qed.

Lemma lists_room_one (h : gmap Z list_elem) L ls l : lists_room h L ls -> l ∈ ls -> lists_room h L [l].
Proof.
  intros [N R] Hl. split.
  - unfold sentinels. simpl. repeat constructor; [|set_solver].
    rewrite list_elem_of_singleton. unfold list_head, list_tail. lia.
  - intros a Ha. apply R. apply sentinel_of. exists l. split; [done|].
    apply sentinel_of in Ha as (x & ->%list_elem_of_singleton & Ha). done.
Qed.

(** Room for the next mutex. *)
Lemma next_mutex_room k L m : lists_room (k_links k) L [sem_waiters (mutex_sem m)] ->
  is_Some (k_sems k !! mutex_sem m) -> is_Some (k_holders k !! m) -> mutex_room k L m.
Proof.
  intros [N R] Hs Hh. constructor; [done|done| |].
  - apply not_owned_new, R. left.
  - intros a Ha. apply R. apply sentinel_of. exists (sem_waiters (mutex_sem m)). split; [left|done].
Qed.

Section Boot.
Context (D : list Z) (total : Z) (table : Z -> Z) (im : image) (esp : Z).
Implicit Types (k : kernel) (L : gmap Z (list Z)).

#[local] Instance data_mem : ByteMem vm := vm_mem D.

Definition idle_page : Z := running_thread_get esp.

Record boot_state k : Prop := {
  bt_screen : on_screen D k;
  bt_total : total_at D total (k_vm k);
  bt_maps : valid_block (k_vm k) MEM_BITMAP_BASE (maps_end total - MEM_BITMAP_BASE);
  bt_heap : heap_room D total table (k_vm k);
  bt_stack : valid_block (k_vm k) idle_page PG_SIZE;
  bt_dirs : cr3 (k_vm k) ∈ D /\ KERNEL_PAGE_DIR_BASE_ADDR ∈ D;
  bt_tcbs : k_tcbs k = ∅;
  bt_lists : lists_room (k_links k) ∅ boot_lists;
  bt_mutexes m : m ∈ boot_mutexes -> is_Some (k_sems k !! mutex_sem m) /\ is_Some (k_holders k !! m);
  bt_pools p : p ∈ [kernel_phy_pool; user_phy_pool; kernel_vir_pool] -> is_Some (k_pools k !! p);
  bt_kbd : exists i, k_ioqs k !! kbd_buf = Some i /\ length (buf i) = 64%nat
}.

(** The size of the memory: at least one page for the kernel, and the bitmaps
    end below the page of the stack. *)
Context (Hfits : memory_fits total) (Hone : 0 < kernel_pages total).
Context (Hstack : maps_end total <= idle_page /\ idle_page + PG_SIZE <= Print.video_base_addr).

Lemma boot_kept k v i t : boot_state k -> modifies Print.video_byte (k_vm k) v ->
  let k' := with_vm v (with_io i (with_tables t k)) in on_screen D k' -> boot_state k'.
Proof.
  intros [] M k' S. assert (K : vm_keeps D (k_vm k) v) by exact (modifies_keeps _ _ _ M).
  constructor; try done.
  - by eapply total_kept.
  - by eapply valid_block_modifies.
  - by eapply heap_room_kept.
  - by eapply valid_block_modifies.
  - destruct K as [E _]. simpl. by rewrite E.
Qed.

(** ** Memory *)

Definition kernel_memory : kheap := heap_of_total total table.

(** The pages in use are the first [n]. *)
Definition taken (n : nat) : list bool := first_used n (Z.to_nat (kernel_pages total)).

Lemma all_clear_taken : all_clear total = taken 0.
Proof. unfold taken, first_used, all_clear. by rewrite Nat.sub_0_r. Qed.

Lemma page_left n j : Z.of_nat n <= kernel_pages total -> taken n !! j = Some false <->
  Z.of_nat n <= Z.of_nat j < kernel_pages total.
Proof. intros Hn. unfold taken. rewrite first_used_free by lia. lia. Qed.

Lemma taken_more a b j : (a <= b)%nat -> taken b !! j = Some false -> taken a !! j = Some false.
Proof. apply first_used_more. Qed.

(** What booting keeps: memory grows, and the free frames are as they were. *)
Definition kept (pb : list bool) (v v' : vm) : Prop := evolves D kernel_memory (fun _ => True) v v' pb.

Lemma kept_trans pb pb' v1 v2 v3 : kept pb v1 v2 -> kept pb' v2 v3 ->
  (forall j, pb' !! j = Some false -> pb !! j = Some false) -> kept pb' v1 v3.
Proof. apply evolves_trans. Qed.

Lemma kept_same pb v1 v2 v3 : kept pb v1 v2 -> kept pb v2 v3 -> kept pb v1 v3.
Proof. intros K1 K2. by eapply kept_trans. Qed.

Lemma kept_modifies pb P v v' : (forall j : nat, pb !! j = Some false ->
  frame_free D v (frame_at kernel_memory (Z.of_nat j))) -> modifies P v v' -> kept pb v v'.
Proof.
  intros Hf M. assert (K : vm_keeps D v v') by exact (modifies_keeps _ _ _ M).
  constructor; [by eapply modifies_grows| |done|intros f _; by apply keeps_spare|by apply keeps_dirs].
  intros j o Hj Ho. apply (keeps_frame D); [exact K|].
  rewrite frame_aligned; [by apply Hf| |done]. unfold frame_at. change (addr_base (h_ppool kernel_memory)) with 0x200000.
  unfold PG_SIZE, PAGE. zdiv_lia.
Qed.

Lemma kept_write k vb pb P v : heap_rep D kernel_memory k vb pb -> modifies P (k_vm k) v -> kept pb (k_vm k) v.
Proof. intros R. apply kept_modifies. intros j. apply (hr_frames _ _ _ _ _ R). Qed.

Lemma kept_boot k P v : boot_state k -> modifies P (k_vm k) v -> kept (taken 0) (k_vm k) v.
Proof.
  intros B. apply kept_modifies. intros j Hj%page_left; [|lia].
  apply (hm_frames _ _ _ _ (bt_heap _ B)). lia.
Qed.

Lemma kept_printed k k' vb pb : heap_rep D kernel_memory k vb pb -> printed D k k' -> kept pb (k_vm k) (k_vm k').
Proof. intros R (v & i & -> & M & _). by eapply kept_write. Qed.

Lemma boot_pools k : boot_state k -> pools_room D total k ∅.
Proof.
  intros []. constructor; [done| |done]. intros p Hp.
  apply next_mutex_room; [|apply bt_mutexes0; set_solver..].
  eapply lists_room_one; [exact bt_lists0|]. unfold boot_lists. apply elem_of_app. left.
  apply elem_of_cons in Hp as [->|Hp]; [left|]. apply list_elem_of_singleton in Hp as ->. right; left.
Qed.

Lemma memory_up k : boot_state k ->
  exists h1 h2 k', mem_init k = Ok tt k' /\ dom h2 = dom (k_links k)
    /\ so_far D (map_byte total) k (pool_maps total) (pools_made total h1 h2 k) (inited pool_lists ∅) k'
    /\ heap_rep D kernel_memory k' (taken 0) (taken 0).
Proof.
  intros B. pose proof (boot_pools k B) as R. destruct B.
  destruct (mem_init_ok D total Hfits table k ∅ R bt_screen0) as (h1 & h2 & k' & E & Hd1 & Hd2 & F & Rh);
    [by split; intros *; rewrite lookup_empty|done|done|].
  rewrite all_clear_taken in Rh. exists h1, h2, k'. split; [exact E|]. split; [congruence|]. by split.
Qed.

(** ** The scheduler *)

Lemma pool_maps_bytes a : bitmap_byte (btmp (h_vpool kernel_memory)) a \/ bitmap_byte (btmp (h_ppool kernel_memory)) a ->
  MEM_BITMAP_BASE <= a < maps_end total.
Proof.
  destruct (maps_order total Hfits) as (O1 & O2 & O3 & O4).
  pose proof (byte_len_range (kernel_pages total) ltac:(lia)).
  pose proof (byte_len_range (user_pages total) ltac:(lia)).
  unfold bitmap_byte, kernel_memory, heap_of_total, kernel_heap, kernel_frames, pool_at.
  cbn [h_vpool h_ppool btmp base_addr byte_len]. unfold maps_end, heap_map, user_map in *. lia.
Qed.

(** The sentinels are below the bitmaps. *)
Lemma sentinels_low a : a ∈ sentinels boot_lists -> a < MEM_BITMAP_BASE.
Proof.
  assert (E : forallb (fun a => a <? MEM_BITMAP_BASE) (sentinels boot_lists) = true) by (vm_compute; reflexivity).
  rewrite forallb_forall in E. intros Ha%list_elem_of_In%E. by apply Z.ltb_lt.
Qed.

Lemma sentinels_app ls ls' : sentinels (ls ++ ls') = sentinels ls ++ sentinels ls'.
Proof. unfold sentinels. by rewrite fmap_app, join_app. Qed.

Lemma first_lists_owned a : owned (inited sched_lists (inited pool_lists ∅)) a ->
  a ∈ sentinels (pool_lists ++ sched_lists).
Proof.
  rewrite inited_app. intros [(l & xs & Hl & _)|Ha]%inited_owned; [by rewrite lookup_empty in Hl|].
  by apply sentinel_of.
Qed.

Lemma first_lists_low a : owned (inited sched_lists (inited pool_lists ∅)) a -> a < idle_page.
Proof.
  intros Ha%first_lists_owned. destruct (maps_order total Hfits) as (O1 & O2 & _).
  assert (a < MEM_BITMAP_BASE); [|lia]. apply sentinels_low. unfold boot_lists.
  rewrite app_assoc, sentinels_app. apply elem_of_app. by left.
Qed.

(** ** The users' frames *)

(** The bytes of the map of the users' frames, and the steps that keep them. *)
Definition user_byte (a : Z) : Prop := bitmap_byte (btmp (user_frames total)) a.
Definition kept_users (pb : list bool) (v v' : vm) : Prop := evolves D kernel_memory (fun a => ~ user_byte a) v v' pb.

Lemma kept_users_kept pb v v' : kept_users pb v v' -> kept pb v v'.
Proof. intros K. by eapply evolves_weaken. Qed.

Lemma kept_users_trans pb pb' v1 v2 v3 : kept_users pb v1 v2 -> kept_users pb' v2 v3 ->
  (forall j, pb' !! j = Some false -> pb !! j = Some false) -> kept_users pb' v1 v3.
Proof. apply evolves_trans. Qed.

Lemma kept_users_same pb v1 v2 v3 : kept_users pb v1 v2 -> kept_users pb v2 v3 -> kept_users pb v1 v3.
Proof. intros K1 K2. by eapply kept_users_trans. Qed.

Lemma users_written k vb pb P v : heap_rep D kernel_memory k vb pb -> modifies P (k_vm k) v ->
  (forall a, P a -> ~ user_byte a) -> kept_users pb (k_vm k) v.
Proof. intros R M HP. eapply evolves_weaken; [by eapply write_evolves|exact HP]. Qed.

Lemma user_byte_low a : user_byte a -> MEM_BITMAP_BASE <= a < maps_end total.
Proof.
  destruct (maps_order total Hfits) as (O1 & O2 & O3 & O4).
  pose proof (byte_len_range (kernel_pages total) ltac:(lia)).
  pose proof (byte_len_range (user_pages total) ltac:(lia)).
  unfold user_byte, bitmap_byte, user_frames, pool_at. cbn [btmp base_addr byte_len].
  unfold maps_end, heap_map, user_map in *. lia.
Qed.

Lemma user_byte_apart a : user_byte a ->
  ~ bitmap_byte (btmp (h_vpool kernel_memory)) a /\ ~ bitmap_byte (btmp (h_ppool kernel_memory)) a.
Proof.
  destruct (maps_order total Hfits) as (O1 & O2 & O3 & O4).
  pose proof (byte_len_range (kernel_pages total) ltac:(lia)).
  pose proof (byte_len_range (user_pages total) ltac:(lia)).
  unfold user_byte, bitmap_byte, user_frames, kernel_memory, heap_of_total, kernel_heap, kernel_frames, pool_at.
  cbn [h_vpool h_ppool btmp base_addr byte_len]. unfold heap_map, user_map in *. lia.
Qed.

Lemma video_not_user a : Print.video_byte a -> ~ user_byte a.
Proof. intros Ha Hu%user_byte_low. destruct Hfits as [_ He]. unfold Print.video_byte in Ha. lia. Qed.

Lemma kept_users_printed k k' vb pb : heap_rep D kernel_memory k vb pb -> printed D k k' ->
  kept_users pb (k_vm k) (k_vm k').
Proof. intros R (v & i & -> & M & _). eapply users_written; [exact R|exact M|exact video_not_user]. Qed.

(** Nobody has asked for a page yet. *)
Definition no_users : list bool := replicate (Z.to_nat (user_pages total)) false.
Record users_clear k L : Prop := {
  uc_pool : k_pools k !! user_phy_pool = Some (user_frames total);
  uc_bits : bitmap_rep (k_vm k) (btmp (user_frames total)) no_users;
  uc_mutex : mutex_free k L (pool_mtx user_phy_pool)
}.

Lemma users_clear_next k k' L L' pb : users_clear k L -> kept_users pb (k_vm k) (k_vm k') ->
  k_pools k' = k_pools k -> mutex_free k' L' (pool_mtx user_phy_pool) -> users_clear k' L'.
Proof.
  intros [P Bt _] K Ep Mu. constructor; [by rewrite Ep| |exact Mu].
  eapply bitmap_rep_kept; [|exact Bt]. intros a Ha Va. destruct (user_byte_apart a Ha) as [N1 N2].
  split; [by apply (gr_valid _ _ _ (ev_grows _ _ _ _ _ _ K))|].
  apply (ev_load _ _ _ _ _ _ K); [exact Va|by intros N|exact N1|exact N2].
Qed.

(** Threads are above the mutex of the users' pool. *)
Lemma user_bystander t : MEM_BITMAP_BASE <= t -> bystander t (pool_mtx user_phy_pool).
Proof.
  intros Ht. unfold MEM_BITMAP_BASE in Ht. assert (E : pool_mtx user_phy_pool = 0xc0007ed4) by done.
  split; [|by vm_compute| |]; rewrite ?E.
  - refine (bool_decide_unpack _ _). by vm_compute.
  - unfold mutex_sem, pid_mtx, scheduler, pool_mtx, pool_of, OFF_user_vaddr_pool. lia.
  - unfold pid_mtx, scheduler, pool_mtx, pool_of, OFF_user_vaddr_pool. lia.
Qed.

(** The kernel with the idle thread and no other. *)
Definition idle_alone k L vb pb : Prop :=
  kernel_ok D kernel_memory k (enqueue 31 idle_page no_queues) L vb pb [idle_page]
  /\ on_screen D k
  /\ k_tcbs k = {[idle_page := idle_tcb idle_page]}
  /\ exists page, k_sched k = mkSched idle_page false idle_page (idle_page :: replicate 127 NULL) (mask_at page)
     /\ page = K_HEAP_START.

(** Printing does not touch the heap. *)
Lemma heap_printed k k' vb pb : heap_rep D kernel_memory k vb pb -> printed D k k' ->
  heap_rep D kernel_memory k' vb pb.
Proof.
  intros R (v & i & -> & M & _). apply (heap_rep_ext D _ (with_vm v k)); [done|done|].
  eapply heap_write; [exact R|exact M|]. intros a Ha.
  assert (N : ~ (MEM_BITMAP_BASE <= a < maps_end total)).
  { destruct Hfits as [_ He]. unfold Print.video_byte in Ha. lia. }
  split; intros Hb; apply N, pool_maps_bytes; auto.
Qed.

Lemma maps_apart a : Print.video_byte a ->
  ~ bitmap_byte (btmp (h_vpool kernel_memory)) a /\ ~ bitmap_byte (btmp (h_ppool kernel_memory)) a.
Proof.
  intros Ha. assert (N : ~ (MEM_BITMAP_BASE <= a < maps_end total)).
  { destruct Hfits as [_ He]. unfold Print.video_byte in Ha. lia. }
  split; intros Hb; apply N, pool_maps_bytes; auto.
Qed.

(** The state [scheduler_init] leaves is one [idle_thread_make] can start
    from. *)
Lemma idle_room_boot k0 k i v h : boot_state k0 ->
  k_tcbs k = ∅ -> (forall a, valid (k_vm k0) a -> valid (k_vm k) a) -> cr3 (k_vm k) = cr3 (k_vm k0) ->
  let page := page_at kernel_memory (Z.of_nat i) in
  heap_rep D kernel_memory (with_vm v k) (taken 1) (taken 1) ->
  lists_rep h (inited sched_lists (inited pool_lists ∅)) ->
  bitmap_rep v (mask_at page) (replicate LEVELS false) -> grows D (k_vm k) v ->
  idle_room D kernel_memory (sched_made page h v k) (inited pool_lists ∅) (taken 1) (taken 1) page idle_page.
Proof.
  intros B Et Hv Hc page Rh HL Hm G. destruct B.
  assert (Hp : addr_base (h_vpool kernel_memory) <= page) by (unfold page, page_at, PG_SIZE; lia).
  clearbody page. constructor.
  - exact Et.
  - reflexivity.
  - exact Hm.
  - exact HL.
  - split; [apply lookup_insert_eq|exists NULL; apply lookup_insert_eq].
  - apply (heap_rep_ext D _ (with_vm v k)); [done|done|exact Rh].
  - intros a Ha%pool_maps_bytes. destruct Hstack as [H1 H2]. destruct Hfits as [_ He].
    unfold kernel_memory, heap_of_total, kernel_heap, pool_at, in_block. simpl addr_base.
    unfold K_HEAP_START, Print.video_base_addr in *. lia.
  - exact Hp.
  - destruct Hstack as [H1 H2]. destruct (maps_order total Hfits) as (O1 & O2 & _).
    unfold kernel_memory, heap_of_total, kernel_heap, pool_at. simpl addr_base.
    split; [|unfold K_HEAP_START, MEM_BITMAP_BASE, Print.video_base_addr in *; lia].
    unfold idle_page, running_thread_get. change 0xfffff000 with (Z.shiftl (Z.ones 20) 12).
    rewrite <- (Z.land_ones _ 12) by done. apply Z.bits_inj'. intros n Hn.
    rewrite !Z.land_spec, Z.bits_0, Z.shiftl_spec by done.
    destruct (Z.lt_ge_cases n 12); [rewrite (Z.testbit_neg_r _ (n - 12)) by lia; by rewrite andb_false_r|].
    by rewrite (Z.ones_spec_high 12), andb_false_r by lia.
  - intros j Hj. apply (gr_valid _ _ _ G). apply Hv. by apply bt_stack0.
  - apply first_lists_low.
  - change (cr3 v ∈ D /\ KERNEL_PAGE_DIR_BASE_ADDR ∈ D). by rewrite (gr_cr3 _ _ _ G), Hc.
Qed.

(** After [mem_init]. *)
Record memory_state k0 k : Prop := {
  ms_tcbs : k_tcbs k = ∅;
  ms_valid a : valid (k_vm k0) a -> valid (k_vm k) a;
  ms_cr3 : cr3 (k_vm k) = cr3 (k_vm k0);
  ms_screen : on_screen D k;
  ms_heap : heap_rep D kernel_memory k (taken 0) (taken 0);
  ms_lists : lists_rep (k_links k) (inited pool_lists ∅);
  ms_dom : dom (k_links k) = dom (k_links k0);
  ms_sems m : m ∈ boot_mutexes -> is_Some (k_sems k !! mutex_sem m) /\ is_Some (k_holders k !! m);
  ms_kbd : k_ioqs k = k_ioqs k0;
  ms_users : users_clear k (inited pool_lists ∅)
}.

Lemma with_vm_links v k : k_links (with_vm v k) = k_links k.
Proof. done. Qed.

Lemma memory_state_printed k0 k k' : memory_state k0 k -> on_screen D k' -> printed D k k' -> memory_state k0 k'.
Proof.
  intros [] S P. pose proof (heap_printed _ _ _ _ ms_heap0 P) as R.
  pose proof (kept_users_printed _ _ _ _ ms_heap0 P) as Ku.
  destruct P as (v & i & -> & M & _). constructor; try assumption.
  - intros a Ha. eapply modifies_valid; [exact M|by apply ms_valid0].
  - assert (K : vm_keeps D (k_vm k) v) by exact (modifies_keeps _ _ _ M). destruct K as [C _].
    change (cr3 v = cr3 (k_vm k0)). by rewrite C.
  - eapply users_clear_next; [exact ms_users0|exact Ku|done|]. by destruct (uc_mutex _ _ ms_users0).
Qed.

Lemma kernel_printed k k' qs L vb pb ts : kernel_ok D kernel_memory k qs L vb pb ts ->
  (forall a, mask_byte k a -> ~ Print.video_byte a) -> printed D k k' ->
  kernel_ok D kernel_memory k' qs L vb pb ts.
Proof.
  intros K Hm (v & i & -> & M & _). apply (kernel_ok_ext D _ (with_vm v k)); [done..|].
  eapply kernel_ok_write; [exact K|exact M|]. intros a Ha. split; [|by apply maps_apart].
  intros Hb. by apply (Hm a Hb).
Qed.

Lemma first_page : 1 <= kernel_pages total -> taken 0 !! 0%nat = Some false /\ clear_from 0 (taken 0) <> [].
Proof.
  intros H1. split; [apply page_left; lia|]. unfold taken. rewrite first_used_clear.
  destruct (Z.to_nat (kernel_pages total)) eqn:E; [lia|done].
Qed.

Lemma taken_next n i : Z.of_nat n < kernel_pages total -> taken n !! i = Some false ->
  (forall j, (j < i)%nat -> taken n !! j <> Some false) ->
  i = n /\ <[i := true]> (taken n) = taken (S n) /\ used (take 1 (clear_from 0 (taken n))) (taken n) = taken (S n).
Proof.
  intros Hn Hi Hl. unfold taken in *. apply first_used_lowest in Hi as ->; [|lia|done].
  split; [done|]. split; [by apply insert_first_used; lia|].
  rewrite used_first_used by lia. by rewrite Nat.add_1_r.
Qed.

Lemma scheduler_up k0 k : boot_state k0 -> memory_state k0 k ->
  exists v h, let page := page_at kernel_memory 0 in
    let k' := sched_made page h v k in
    scheduler_init k = Ok tt k' /\ on_screen D k' /\ dom h = dom (k_links k)
    /\ idle_room D kernel_memory k' (inited pool_lists ∅) (taken 1) (taken 1) page idle_page
    /\ kept_users (taken 1) (k_vm k) v /\ users_clear k' (inited sched_lists (inited pool_lists ∅)).
Proof.
  intros B []. destruct (first_page ltac:(lia)) as [H0 Hc].
  assert (Rs : sched_room k (inited pool_lists ∅)).
  { destruct (ms_sems0 pid_mtx) as [S1 S2]; [right; right; left|]. constructor; [|exact S1|exact S2].
    pose proof (lists_room_after _ (k_links k) ∅ pool_lists (sched_lists ++ device_lists)
      (bt_lists _ B) ms_dom0) as R. by eapply lists_room_init. }
  destruct (scheduler_init_ok D kernel_memory k _ _ _ 0%nat ms_heap0 H0 Hc ms_lists0 Rs)
    as (i & v & h & E & Hi & Hl & Rh & HL & Hd & Hm & Hnew & Ev).
  destruct (taken_next 0 i ltac:(lia) Hi Hl) as (-> & E1 & E2). rewrite E1, E2 in Rh. rewrite E2 in Ev.
  change (Z.of_nat 0) with 0 in *.
  assert (Ku : kept_users (taken 1) (k_vm k) v) by (eapply evolves_weaken; [exact Ev|done]).
  exists v, h. cbv zeta in *. split; [exact E|]. split; [|split; [exact Hd|split; [|split; [exact Ku|]]]].
  - apply (screen_kept D k); [|reflexivity|exact ms_screen0]. intros a Ha Va.
    destruct (maps_apart a Ha) as [N1 N2]. split; [by apply (gr_valid _ _ _ (ev_grows _ _ _ _ _ _ Ev))|].
    apply (ev_load _ _ _ _ _ _ Ev); [exact Va|by intros []|exact N1|exact N2].
  - apply (idle_room_boot k0 k 0%nat); try done. exact (ev_grows _ _ _ _ _ _ Ev).
  - eapply users_clear_next; [exact ms_users0|exact Ku|done|]. destruct (uc_mutex _ _ ms_users0) as [H1 [hd H2] _].
    split; [|exists hd|by vm_compute]; [|by rewrite <- H2; apply lookup_insert_ne].
    rewrite <- H1. by apply lookup_insert_ne.
Qed.

(** What the devices' initialisation needs. *)
Record devices_room k L : Prop := {
  dr_lists : lists_room (k_links k) L device_lists;
  dr_mutexes m : m ∈ [console_mutex; kbd_buf] -> is_Some (k_sems k !! mutex_sem m) /\ is_Some (k_holders k !! m);
  dr_kbd : exists i, k_ioqs k !! kbd_buf = Some i /\ length (buf i) = 64%nat
}.

Lemma devices_room_idle k0 k k' L' : boot_state k0 -> dom (k_links k) = dom (k_links k0) ->
  (forall a, is_Some (k_links k !! a) -> is_Some (k_links k' !! a)) ->
  (forall a, owned L' a -> owned (inited sched_lists (inited pool_lists ∅)) a
     \/ a = ready_tag idle_page \/ a = all_list_tag idle_page) ->
  lists_room (k_links k') L' device_lists.
Proof.
  intros B Hd Hk Ho. destruct (bt_lists _ B) as [N R]. unfold boot_lists in N, R.
  rewrite app_assoc, sentinels_app in N, R. apply NoDup_app in N as (_ & N1 & N2). split; [exact N2|].
  intros a Ha. split.
  - apply Hk. apply elem_of_dom. rewrite Hd. apply elem_of_dom. apply R, elem_of_app. by right.
  - assert (Hlow : a < MEM_BITMAP_BASE).
    { apply sentinels_low. unfold boot_lists. rewrite app_assoc, sentinels_app. apply elem_of_app. by right. }
    destruct (maps_order total Hfits) as (O1 & O2 & _).
    intros [Hw%first_lists_owned|[E|E]]%Ho; [by apply (N1 a)| |];
      unfold ready_tag, all_list_tag, OFF_ready_tag, OFF_all_list_tag in E; lia.
Qed.

Lemma insert_keeps_some (m : gmap Z Z) a b v : is_Some (m !! b) -> is_Some (<[a := v]> m !! b).
Proof. intros [w Hw]. apply lookup_insert_is_Some'. right. by exists w. Qed.

(** No mutex disappears. *)
Lemma born_keeps_mutex t tc k s m : is_Some (k_sems k !! s) /\ is_Some (k_holders k !! m) ->
  is_Some (k_sems (with_born t tc k) !! s) /\ is_Some (k_holders (with_born t tc k) !! m).
Proof.
  intros [H1 H2]. split; [change (k_sems (with_born t tc k)) with
    (<[mutex_sem pid_mtx := 1]> (<[mutex_sem (pool_mtx (pool_of t)) := 0]> (k_sems k)))
    |change (k_holders (with_born t tc k)) with
    (<[pid_mtx := NULL]> (<[pool_mtx (pool_of t) := NULL]> (k_holders k)))];
    by do 2 apply insert_keeps_some.
Qed.

Lemma sched_keeps_mutex page h v k s m : is_Some (k_sems k !! s) /\ is_Some (k_holders k !! m) ->
  is_Some (k_sems (sched_made page h v k) !! s) /\ is_Some (k_holders (sched_made page h v k) !! m).
Proof. intros [H1 H2]. split; by apply insert_keeps_some. Qed.

Lemma threads_up k0 k : boot_state k0 -> memory_state k0 k ->
  exists k' L, thread_all_init esp k = Ok tt k' /\ idle_alone k' L (taken 1) (taken 1) /\ devices_room k' L
    /\ kept_users (taken 1) (k_vm k) (k_vm k') /\ users_clear k' L
    /\ k_tables k' = k_tables k /\ other_writes (k_io k') = other_writes (k_io k).
Proof.
  intros B M. pose proof M as [].
  destruct (say_ok D ("thread_all_init begin" +:+ Print.nl) k ms_screen0) as (k1 & E1 & S1 & P1);
    [by vm_compute|].
  pose proof (memory_state_printed _ _ _ M S1 P1) as M1.
  destruct (scheduler_up k0 k1 B M1) as (v & h & E2 & S2 & Hd & R2 & Kp2 & U2). cbv zeta in *.
  pose proof (kept_users_printed _ _ _ _ ms_heap0 P1) as Kp1.
  assert (Kp : kept_users (taken 1) (k_vm k) v).
  { eapply kept_users_trans; [exact Kp1|exact Kp2|]. intros j. apply taken_more. lia. }
  set (page := page_at kernel_memory 0) in *. set (k2 := sched_made page h v k1) in *.
  destruct (idle_thread_make_ok D kernel_memory k2 _ _ _ page esp R2)
    as (k3 & L & E3 & K3 & Et & Es & M3 & Hk3 & Ho3 & Hl3 & v3 & h3 & Ek3).
  assert (Hp : page = K_HEAP_START) by (unfold page, page_at; simpl; unfold K_HEAP_START, PG_SIZE; lia).
  assert (S3 : on_screen D k3).
  { apply (screen_kept D k2); [|rewrite Ek3; reflexivity|exact S2]. intros a Ha Va.
    split; [by eapply modifies_valid|]. refine (modifies_load _ _ _ a M3 Va _).
    destruct Hstack as [_ Hs]. unfold Print.video_byte, in_block, TCB_SIZE, PG_SIZE, K_HEAP_START,
      Print.video_base_addr in *. fold idle_page. lia. }
  destruct (say_ok D ("thread_all_init done" +:+ Print.nl) k3 S3) as (k4 & E4 & S4 & P4); [by vm_compute|].
  assert (K4 : kernel_ok D kernel_memory k4 (enqueue 31 idle_page no_queues) L (taken 1) (taken 1) [idle_page]).
  { eapply kernel_printed; [exact K3| |exact P4]. intros a Ha. unfold mask_byte in Ha. rewrite Es in Ha.
    simpl in Ha. unfold Print.video_byte, K_HEAP_START, Print.video_base_addr in *. lia. }
  assert (W3 : kept_users (taken 1) (k_vm k2) (k_vm k3)).
  { eapply users_written; [exact (ir_heap _ _ _ _ _ _ _ _ R2)|exact M3|]. intros a Ha Hu%user_byte_low.
    destruct Hstack as [Hs1 Hs2]. unfold in_block, TCB_SIZE, PG_SIZE, K_HEAP_START, Print.video_base_addr in *.
    fold idle_page in Ha. lia. }
  assert (U3 : users_clear k3 L).
  { eapply users_clear_next; [exact U2|exact W3|by rewrite Ek3|]. destruct (uc_mutex _ _ U2) as [H1 H2 H3].
    assert (Hb : bystander idle_page (pool_mtx user_phy_pool)).
    { apply user_bystander. destruct (maps_order total Hfits) as (O1 & O2 & _). lia. }
    destruct (born_bystanders idle_page (idle_tcb idle_page) k2 _ _ Hb (uc_mutex _ _ U2)) as [B1 B2 _].
    rewrite Ek3. split; [exact B1|exact B2|]. rewrite Hl3; [exact H3|apply Hb..]. }
  pose proof (kept_users_printed _ _ _ _ (ko_heap _ _ _ _ _ _ _ _ K3) P4) as W4.
  assert (U4 : users_clear k4 L).
  { eapply users_clear_next; [exact U3|exact W4| |]; destruct P4 as (v4 & i4 & -> & _); [done|]. by destruct (uc_mutex _ _ U3). }
  pose proof (kept_users_same _ _ _ _ (kept_users_same _ _ _ _ Kp W3) W4) as Kp4.
  destruct P4 as (v4 & i4 & Ek4 & _ & C4). destruct P1 as (v1 & i1 & Ek1 & _ & C1).
  exists k4, L. split; [|split; [split; [exact K4|split; [exact S4|split]]|split; [|split; [exact Kp4|split; [exact U4|split]]]]].
  - unfold thread_all_init. erewrite bind_ok by exact E1. erewrite bind_ok by exact E2.
    erewrite bind_ok by exact E3. exact E4.
  - rewrite Ek4. exact Et.
  - exists page. split; [rewrite Ek4; exact Es|exact Hp].
  - constructor.
    + rewrite Ek4. eapply (devices_room_idle k0 k2); [exact B| |exact Hk3|exact Ho3].
      change (k_links k2) with h. rewrite Hd. apply M1.
    + intros m Hm. assert (Hm' : m ∈ boot_mutexes).
      { unfold boot_mutexes. right; right; right. exact Hm. }
      destruct (ms_sems _ _ M1 m Hm') as [X1 X2]. rewrite Ek4, Ek3.
      apply (born_keeps_mutex idle_page (idle_tcb idle_page) k2), sched_keeps_mutex. by split.
    + rewrite Ek4, Ek3. change (exists i, k_ioqs k1 !! kbd_buf = Some i /\ length (buf i) = 64%nat).
      rewrite (ms_kbd _ _ M1). apply B.
  - rewrite Ek4, Ek3. change (k_tables k1 = k_tables k). by rewrite Ek1.
  - rewrite Ek4. change (other_writes i4 = other_writes (k_io k)). destruct C4 as [_ ->].
    rewrite Ek3. change (other_writes (k_io k1) = other_writes (k_io k)). rewrite Ek1. apply C1.
Qed.

(** ** The devices *)

Lemma alone_ext k k' L vb pb : k_vm k' = k_vm k -> k_links k' = k_links k ->
  k_tcbs k' = k_tcbs k -> k_sched k' = k_sched k -> k_sems k' = k_sems k ->
  k_holders k' = k_holders k -> k_pools k' = k_pools k ->
  crt_regs (k_io k') = crt_regs (k_io k) -> idle_alone k L vb pb -> idle_alone k' L vb pb.
Proof.
  intros E1 E2 E3 E4 E5 E6 E7 E8 (K & S & Et & Es). split; [|split; [|split]].
  - by apply (kernel_ok_ext D _ k).
  - by apply (on_screen_ext D k).
  - by rewrite E3.
  - by rewrite E4.
Qed.

Lemma alone_printed k k' L vb pb : idle_alone k L vb pb -> on_screen D k' -> printed D k k' ->
  idle_alone k' L vb pb.
Proof.
  intros (K & S & Et & page & Es & Hp) S' P. pose proof P as (v & i & Ek & _). split; [|split; [done|split]].
  - eapply kernel_printed; [exact K| |exact P]. intros a Ha. unfold mask_byte in Ha. rewrite Es in Ha.
    simpl in Ha. unfold Print.video_byte, K_HEAP_START, Print.video_base_addr in *. lia.
  - by rewrite Ek.
  - exists page. by rewrite Ek.
Qed.

Lemma alone_say k L vb pb s : idle_alone k L vb pb -> printable_string s = true ->
  exists k', say s k = Ok tt k' /\ idle_alone k' L vb pb /\ printed D k k'.
Proof.
  intros A P. destruct (say_ok D s k (proj1 (proj2 A)) P) as (k' & E & S & Pr).
  exists k'. split; [done|]. split; [|done]. by eapply alone_printed.
Qed.

(** The mutexes of the devices. *)
Definition device_mutex (m : Z) : Prop := m ∈ [console_mutex; kbd_buf].

Lemma device_mutex_facts m : device_mutex m ->
  sem_waiters (mutex_sem m) ∉ rq_addrs /\ sem_waiters (mutex_sem m) <> all_list
  /\ sem_waiters (mutex_sem m) <> sem_waiters (mutex_sem pid_mtx)
  /\ mutex_sem m <> mutex_sem pid_mtx /\ m <> pid_mtx
  /\ sem_waiters (mutex_sem m) + 8 < MEM_BITMAP_BASE.
Proof.
  assert (E : Forall (fun m => sem_waiters (mutex_sem m) ∉ rq_addrs /\ sem_waiters (mutex_sem m) <> all_list
    /\ sem_waiters (mutex_sem m) <> sem_waiters (mutex_sem pid_mtx)
    /\ mutex_sem m <> mutex_sem pid_mtx /\ m <> pid_mtx
    /\ sem_waiters (mutex_sem m) + 8 < MEM_BITMAP_BASE) [console_mutex; kbd_buf]).
  { refine (bool_decide_unpack _ _). vm_compute. done. }
  rewrite Forall_forall in E. exact (E m).
Qed.

Lemma alone_mutex k L vb pb m : idle_alone k L vb pb -> device_mutex m -> mutex_room k L m ->
  exists h, mutex_init m k = Ok tt (with_mutex m h k) /\ dom h = dom (k_links k)
    /\ idle_alone (with_mutex m h k) (<[sem_waiters (mutex_sem m) := []]> L) vb pb.
Proof.
  intros (K & S & Et & Es) Hm R. destruct (device_mutex_facts m Hm) as (F1 & F2 & F3 & F4 & F5 & F6).
  pose proof (ko_sched _ _ _ _ _ _ _ _ K) as Rs.
  destruct (mutex_init_ok k L m (sr_lists _ _ _ _ Rs) R) as (h & E & HL & Hd).
  exists h. split; [exact E|]. split; [exact Hd|].
  destruct (maps_order total Hfits) as (O1 & O2 & _).
  assert (Hlow : forall a, a ∈ nodes (sem_waiters (mutex_sem m)) [] -> a < MEM_BITMAP_BASE).
  { unfold nodes, list_head, list_tail. intros a. simpl. rewrite !elem_of_cons, elem_of_nil. lia. }
  split; [|split; [|split; [exact Et|exact Es]]].
  2: { by apply (on_screen_ext D k). }
  pose proof K as []. constructor; try assumption.
  - apply (rep_ext D (with_links h k)); [reflexivity..|].
    apply rep_other_list; [exact Rs|exact F1|exact HL|exact Hd|].
    intros t Ht Hin%Hlow. rewrite Et in Ht. destruct Ht as [x [<- _]%lookup_singleton_Some].
    unfold ready_tag, OFF_ready_tag in Hin. lia.
  - by apply (heap_rep_ext D _ k).
  - destruct ko_pid0 as [P1 P2 P3]. split.
    + change (k_sems (with_mutex m h k)) with (<[mutex_sem m := 1]> (k_sems k)). by rewrite lookup_insert_ne.
    + change (k_holders (with_mutex m h k)) with (<[m := NULL]> (k_holders k)). by rewrite lookup_insert_ne.
    + by rewrite lookup_insert_ne.
  - by rewrite lookup_insert_ne.
  - intros i Hi. destruct (ko_free0 i Hi) as [Fi Ni]. split; [|exact Ni].
    intros a Ha (l & xs & Hl & Hx). destruct (decide (sem_waiters (mutex_sem m) = l)) as [<-|Hne].
    + rewrite lookup_insert_eq in Hl. injection Hl as <-. apply Hlow in Hx.
      assert (Hpg : K_HEAP_START <= page_at kernel_memory (Z.of_nat i)).
      { unfold page_at, kernel_memory, heap_of_total, kernel_heap, pool_at. simpl addr_base.
        unfold PG_SIZE. lia. }
      revert Ha. unfold tcb_nodes, ready_tag, pend_tag, all_list_tag, OFF_ready_tag, OFF_pend_tag,
        OFF_all_list_tag, list_head, list_tail, sem_waiters, mutex_sem, pool_mtx, pool_of, OFF_user_vaddr_pool.
      rewrite !elem_of_cons, elem_of_nil. unfold K_HEAP_START, MEM_BITMAP_BASE in *. lia.
    + rewrite lookup_insert_ne in Hl by done. apply (Fi a Ha). by exists l, xs.
Qed.

Lemma alone_set_up k k' L vb pb w t : idle_alone k L vb pb -> set_up D k w t k' -> idle_alone k' L vb pb.
Proof.
  intros A (v & i & -> & S & M & C & _).
  apply (alone_ext (with_vm v (with_io (mkIo (crt_index i) (crt_regs i) (kbd_data (k_io k)) (written (k_io k))) k)));
    [done..|].
  apply (alone_printed k); [done| |].
  - by apply (on_screen_ext D (with_vm v (with_io i (with_tables t k)))).
  - eexists v, _. split; [done|]. split; [done|]. by split.
Qed.

Lemma devices_set_up k k' L w t : devices_room k L -> set_up D k w t k' -> devices_room k' L.
Proof. intros [] (v & i & -> & _). by constructor. Qed.

(** The writes of [timer_init], the latest first: counter 0, rate generator,
    a period of 11931. *)
Definition pit_words : list (Z * Z) := rev [(0x43, 0x34); (0x40, 0x9b); (0x40, 0x2e)].

Definition handler_set (v : Z) (h : intr_handler) (t : Descriptors.tables) : Descriptors.tables :=
  with_handlers (<[v := h]> (idt_table t)) t.

Lemma timer_init_sets t : sets D t pit_words (handler_set INT_TIMER intr_timer_handler_ptr t) timer_init.
Proof.
  unfold timer_init. change pit_words with ((([] ++ []) ++ pit_words) ++ []).
  eapply sets_bind; [apply sets_say; vm_compute; reflexivity|].
  eapply sets_bind; [|eapply sets_bind; [by apply sets_tables|apply sets_say; vm_compute; reflexivity]].
  apply sets_io. intros i.
  exists (mkIo (crt_index i) (crt_regs i) (kbd_data i) (pit_words ++ written i)).
  split; [vm_compute; reflexivity|]. split; [reflexivity|]. split; [reflexivity|].
  exact (List.filter_app _ pit_words (written i)).
Qed.

(** [console_init] and [ioqueue_init]. *)
Lemma first_device k L : devices_room k L -> mutex_room k L console_mutex.
Proof.
  intros [R M _]. destruct (M console_mutex) as [H1 H2]; [left|].
  apply next_mutex_room; [by eapply lists_room_init|done|done].
Qed.

Lemma second_device k L h : devices_room k L -> dom h = dom (k_links k) ->
  mutex_room (with_mutex console_mutex h k) (<[sem_waiters (mutex_sem console_mutex) := []]> L) kbd_buf.
Proof.
  intros [R M _] Hd. destruct (M kbd_buf) as [H1 H2]; [right; left|].
  apply mutex_room_other; [|exact Hd|by vm_compute].
  apply next_mutex_room; [|done|done]. eapply lists_room_one; [exact R|right; left].
Qed.

Lemma ioqueue_init_ok k L vb pb i : idle_alone k L vb pb -> mutex_room k L kbd_buf ->
  k_ioqs k !! kbd_buf = Some i -> length (buf i) = 64%nat ->
  exists k' i', ioqueue_init kbd_buf k = Ok tt k'
    /\ idle_alone k' (<[sem_waiters (mutex_sem kbd_buf) := []]> L) vb pb
    /\ k_ioqs k' !! kbd_buf = Some i' /\ ioq_rep i' []
    /\ (exists h, k' = with_ioqs (k_ioqs k') (with_mutex kbd_buf h k)).
Proof.
  intros A R Hi Hb. destruct (alone_mutex k L vb pb kbd_buf A ltac:(right; left) R) as (h & E & Hd & A').
  set (k1 := with_mutex kbd_buf h k) in *.
  exists (with_ioqs (<[kbd_buf := mkIoq NULL NULL (buf i) 0 0]> (k_ioqs k)) k1), (mkIoq NULL NULL (buf i) 0 0).
  split; [|split; [by apply (alone_ext k1)|split; [apply lookup_insert_eq|split; [|by exists h]]]].
  - unfold ioqueue_init. erewrite bind_ok by exact E.
    erewrite bind_ok by by apply (on_ioq_ok k1 kbd_buf i).
    do 2 erewrite bind_ok by apply on_ioq_ok, lookup_insert_eq.
    erewrite on_ioq_ok by apply lookup_insert_eq. unfold with_ioqs. simpl. by rewrite !insert_insert_eq.
  - split; [exact Hb|]. simpl. split; [lia|]. split; [lia|]. split; [done|]. intros x c Hx. done.
Qed.

Definition devices_ready (t : Descriptors.tables) : Descriptors.tables :=
  syscall_ready (tss_ready (handler_set INT_KEYBOARD intr_keyboard_handler_ptr
    (handler_set INT_TIMER intr_timer_handler_ptr t))).

Lemma keyboard_register_sets t : sets D t [] (handler_set INT_KEYBOARD intr_keyboard_handler_ptr t)
  (zoom tables_of (intr_handler_register INT_KEYBOARD intr_keyboard_handler_ptr);;
   say ("keyboard init done" +:+ Print.nl)).
Proof.
  change [] with ([] ++ [] : list (Z * Z)).
  eapply sets_bind; [by apply sets_tables|apply sets_say; vm_compute; reflexivity].
Qed.

Lemma set_up_same k w t k' : set_up D k w t k' -> k_sems k' = k_sems k /\ k_holders k' = k_holders k
  /\ k_links k' = k_links k /\ k_ioqs k' = k_ioqs k /\ k_tables k' = t
  /\ other_writes (k_io k') = w ++ other_writes (k_io k).
Proof. by intros (v & i & -> & _ & _ & _ & W). Qed.

Lemma set_up_pools k w t k' : set_up D k w t k' -> k_pools k' = k_pools k.
Proof. by intros (v & i & -> & _). Qed.

Lemma set_up_writes k w t k' : set_up D k w t k' -> modifies Print.video_byte (k_vm k) (k_vm k').
Proof. by intros (v & i & -> & _ & M & _). Qed.

Definition device_lists_of L : gmap Z (list Z) :=
  <[sem_waiters (mutex_sem kbd_buf) := []]> (<[sem_waiters (mutex_sem console_mutex) := []]> L).

Lemma devices_up k L vb pb : idle_alone k L vb pb -> devices_room k L ->
  exists k', (timer_init;; console_init;; keyboard_init;; tss_init;; syscall_init) k = Ok tt k'
    /\ idle_alone k' (device_lists_of L) vb pb
    /\ mutex_free k' (device_lists_of L) console_mutex /\ mutex_free k' (device_lists_of L) kbd_buf
    /\ (exists i, k_ioqs k' !! kbd_buf = Some i /\ ioq_rep i [])
    /\ k_tables k' = devices_ready (k_tables k)
    /\ other_writes (k_io k') = pit_words ++ other_writes (k_io k)
    /\ modifies Print.video_byte (k_vm k) (k_vm k')
    /\ (users_clear k L -> users_clear k' (device_lists_of L)).
Proof.
  intros A R. destruct (timer_init_sets (k_tables k) k (proj1 (proj2 A)) eq_refl) as (k1 & E1 & U1).
  pose proof (alone_set_up _ _ _ _ _ _ _ A U1) as A1. pose proof (devices_set_up _ _ _ _ _ R U1) as R1.
  destruct (alone_mutex k1 L vb pb console_mutex A1 ltac:(left) (first_device k1 L R1)) as (h2 & E2 & Hd2 & A2).
  pose proof (second_device k1 L h2 R1 Hd2) as Q2. set (k2 := with_mutex console_mutex h2 k1) in *.
  destruct (sets_say D (k_tables k2) ("keyboard init start" +:+ Print.nl)
    ltac:(vm_compute; reflexivity) k2 (proj1 (proj2 A2)) eq_refl) as (k3 & E3 & U3).
  pose proof (alone_set_up _ _ _ _ _ _ _ A2 U3) as A3.
  destruct (set_up_same _ _ _ _ U3) as (X1 & X2 & X3 & X4 & X5 & X6).
  destruct (set_up_same _ _ _ _ U1) as (Y1 & Y2 & Y3 & Y4 & Y5 & Y6).
  destruct (dr_kbd _ _ R1) as (q & Hq & Hqb).
  destruct (ioqueue_init_ok k3 _ vb pb q A3 (mutex_room_ext _ _ _ _ X1 X2 X3 Q2)
    ltac:(by rewrite X4) Hqb) as (k4 & q' & E4 & A4 & Hq' & Rq & h4 & Ek4).
  assert (T4 : k_tables k4 = k_tables k3) by by rewrite Ek4.
  destruct (keyboard_register_sets (k_tables k4) k4 (proj1 (proj2 A4)) eq_refl) as (k5 & E5 & U5).
  pose proof (alone_set_up _ _ _ _ _ _ _ A4 U5) as A5. destruct (set_up_inv _ _ _ _ _ U5) as [S5 T5].
  destruct (tss_init_sets D (k_tables k5) k5 S5 eq_refl) as (k6 & E6 & U6).
  pose proof (alone_set_up _ _ _ _ _ _ _ A5 U6) as A6. destruct (set_up_inv _ _ _ _ _ U6) as [S6 T6].
  destruct (syscall_init_sets D (k_tables k6) k6 S6 eq_refl) as (k7 & E7 & U7).
  pose proof (alone_set_up _ _ _ _ _ _ _ A6 U7) as A7.
  destruct (set_up_same _ _ _ _ U5) as (V1 & V2 & V3 & V4 & V5 & V6).
  destruct (set_up_same _ _ _ _ U6) as (W1 & W2 & W3 & W4 & W5 & W6).
  destruct (set_up_same _ _ _ _ U7) as (Z1 & Z2 & Z3 & Z4 & Z5 & Z6).
  assert (Es : k_sems k7 = <[mutex_sem kbd_buf := 1]> (<[mutex_sem console_mutex := 1]> (k_sems k1))).
  { rewrite Z1, W1, V1, Ek4. change (k_sems (with_ioqs _ (with_mutex kbd_buf h4 k3)))
      with (<[mutex_sem kbd_buf := 1]> (k_sems k3)). by rewrite X1. }
  assert (Eh : k_holders k7 = <[kbd_buf := NULL]> (<[console_mutex := NULL]> (k_holders k1))).
  { rewrite Z2, W2, V2, Ek4. change (k_holders (with_ioqs _ (with_mutex kbd_buf h4 k3)))
      with (<[kbd_buf := NULL]> (k_holders k3)). by rewrite X2. }
  assert (Mv : modifies Print.video_byte (k_vm k) (k_vm k7)).
  { pose proof (set_up_writes _ _ _ _ U3) as N3. pose proof (set_up_writes _ _ _ _ U5) as N5.
    rewrite Ek4 in N5. etransitivity; [exact (set_up_writes _ _ _ _ U1)|]. etransitivity; [exact N3|].
    etransitivity; [exact N5|]. etransitivity; [exact (set_up_writes _ _ _ _ U6)|].
    exact (set_up_writes _ _ _ _ U7). }
  exists k7. split; [|split; [exact A7|split; [|split; [|split; [|split; [|split; [|split; [exact Mv|]]]]]]]].
  - erewrite bind_ok by exact E1. unfold console_init. erewrite bind_ok by exact E2.
    unfold keyboard_init. erewrite bind_ok.
    2: { erewrite bind_ok by exact E3. erewrite bind_ok by exact E4. exact E5. }
    erewrite bind_ok by exact E6. exact E7.
  - split; [rewrite Es, lookup_insert_ne by done; apply lookup_insert_eq
      |rewrite Eh, lookup_insert_ne by done; exists NULL; apply lookup_insert_eq|].
    unfold device_lists_of. rewrite lookup_insert_ne by done. apply lookup_insert_eq.
  - split; [rewrite Es; apply lookup_insert_eq|rewrite Eh; exists NULL; apply lookup_insert_eq|].
    apply lookup_insert_eq.
  - exists q'. by rewrite Z4, W4, V4.
  - rewrite Z5, W5, V5, T4, X5. change (k_tables k2) with (k_tables k1). by rewrite Y5.
  - rewrite Z6, W6, V6, Ek4. change (other_writes (k_io k3) = pit_words ++ other_writes (k_io k)).
    rewrite X6. exact Y6.
  - intros Uc. pose proof (uc_mutex _ _ Uc) as [H1 H2 H3].
    eapply users_clear_next; [exact Uc|eapply users_written; [apply A|exact Mv|exact video_not_user]| |split].
    + rewrite (set_up_pools _ _ _ _ U7), (set_up_pools _ _ _ _ U6), (set_up_pools _ _ _ _ U5), Ek4.
      transitivity (k_pools k3); [done|]. rewrite (set_up_pools _ _ _ _ U3). exact (set_up_pools _ _ _ _ U1).
    + rewrite Es, !lookup_insert_ne by done. by rewrite Y1.
    + rewrite Eh, !lookup_insert_ne by done. by rewrite Y2.
    + unfold device_lists_of. by rewrite !lookup_insert_ne by done.
Qed.

(** ** [init_all] *)

Lemma memory_state_ok k h1 h2 k' : boot_state k -> dom h2 = dom (k_links k) ->
  so_far D (map_byte total) k (pool_maps total) (pools_made total h1 h2 k) (inited pool_lists ∅) k' ->
  heap_rep D kernel_memory k' (taken 0) (taken 0) ->
  memory_state k k' /\ k_tables k' = k_tables k /\ other_writes (k_io k') = other_writes (k_io k).
Proof.
  intros B Hd [(v & i & ->) S M Bits HL [_ C]] R. split; [|by split]. constructor.
  - exact (bt_tcbs _ B).
  - intros a Va. exact (modifies_valid _ _ _ a M Va).
  - assert (K : vm_keeps D (k_vm k) v) by exact (modifies_keeps _ _ _ M). apply K.
  - exact S.
  - exact R.
  - exact HL.
  - exact Hd.
  - intros m Hm. destruct (bt_mutexes _ B m Hm) as [H1 H2]. split; do 2 apply insert_keeps_some; assumption.
  - done.
  - constructor.
    + unfold pools_made, with_mutex, with_pool. cbn [k_pools with_pools with_links with_sems with_holders with_vm with_io].
      rewrite lookup_insert_ne by done. apply lookup_insert_eq.
    + apply (Bits (btmp (user_frames total))). right; left.
    + split; [apply lookup_insert_eq|exists NULL; apply lookup_insert_eq|by vm_compute].
Qed.

Lemma init_all_ok k : boot_state k ->
  exists k' L, init_all im esp k = Ok tt k'
    /\ idle_alone k' (device_lists_of L) (taken 1) (taken 1) /\ kept (taken 1) (k_vm k) (k_vm k')
    /\ mutex_free k' (device_lists_of L) console_mutex /\ mutex_free k' (device_lists_of L) kbd_buf
    /\ (exists i, k_ioqs k' !! kbd_buf = Some i /\ ioq_rep i [])
    /\ k_tables k' = devices_ready (idt_ready (im_intr_entry_table im) (im_syscall_entry im) (im_idt im)
         (k_tables k))
    /\ other_writes (k_io k') = pit_words ++ pic_words ++ other_writes (k_io k)
    /\ users_clear k' (device_lists_of L).
Proof.
  intros B.
  destruct (sets_bind D _ [] _ _ _ (say ("init_all" +:+ Print.nl)) _
    (sets_say D (k_tables k) ("init_all" +:+ Print.nl) ltac:(vm_compute; reflexivity))
    (idt_init_sets D (im_intr_entry_table im) (im_syscall_entry im) (im_idt im) (k_tables k)) k
    (bt_screen _ B) eq_refl) as (k1 & E1 & U1).
  destruct (set_up_same _ _ _ _ U1) as (_ & _ & _ & _ & T1 & W1).
  assert (B1 : boot_state k1).
  { destruct U1 as (v & i & -> & S1 & M1 & _). by apply boot_kept. }
  destruct (memory_up k1 B1) as (h1 & h2 & k2 & E2 & Hd & F2 & R2).
  destruct (memory_state_ok k1 h1 h2 k2 B1 Hd F2 R2) as (M2 & T2 & W2).
  destruct (threads_up k1 k2 B1 M2) as (k3 & L & E3 & A3 & R3 & Kp3 & U3 & T3 & W3).
  destruct (devices_up k3 L _ _ A3 R3) as (k4 & E4 & A4 & C4 & Q4 & I4 & T4 & W4 & Mv & U4).
  assert (Kp : kept (taken 1) (k_vm k) (k_vm k4)).
  { eapply kept_same; [|exact (kept_write k3 _ _ _ _ (ko_heap _ _ _ _ _ _ _ _ (proj1 A3)) Mv)].
    apply (kept_trans (taken 0) _ _ (k_vm k2)); [|exact (kept_users_kept _ _ _ Kp3)|intros j; apply taken_more; lia].
    eapply kept_same; [exact (kept_boot k _ _ B (set_up_writes _ _ _ _ U1))|].
    exact (kept_boot k1 _ _ B1 (sf_mod _ _ _ _ _ _ _ F2)). }
  exists k4, L. split; [|split; [exact A4|split; [exact Kp|split; [exact C4|split; [exact Q4|split; [exact I4|split; [|split; [|exact (U4 U3)]]]]]]]].
  - unfold init_all. revert E1. unfold mbind at 1, M_bind at 1.
    destruct (say ("init_all" +:+ Print.nl) k) as [[] ka| | | |] eqn:Ea; [|done..]. intros E1.
    erewrite bind_ok by exact Ea. erewrite bind_ok by exact E1. erewrite bind_ok by exact E2.
    erewrite bind_ok by exact E3. exact E4.
  - by rewrite T4, T3, T2, T1.
  - by rewrite W4, W3, W2, W1, app_nil_r.
Qed.

End Boot.
End Boot.
