(* ===== verification/Main.v ===== *)
(** [main] of [kernel/main.c]: the kernel threads, the processes, and the loop
    that prints.

    No function gives a page back, so the pages in use are the first ones
    ([Boot.taken]), and where the control blocks are is known. *)

From S2P Require Import Prelude Bytes Bitmap Interrupt LinkedList Paging PageTable PageMap Words Ports.
From S2P Require Import Print Descriptors Kernel ReadyQueues Sched Sync Console Idt Memory Heap MemInit.
From S2P Require Import Timer Ioqueue Keyboard Thread ThreadSpec ThreadRun SchedInit Process PageDir.
From S2P Require Import AddressSpace ProcessRun UserPage FreshProcess Init Boot.

Module Main.
Import Bitmap Interrupt LinkedList Paging PageTable PageMap Words Ports Descriptors Kernel ReadyQueues Sched Sync.
Import Console Idt Memory Heap MemInit Timer Ioqueue Keyboard Thread ThreadSpec ThreadRun SchedInit.
Import Process PageDir AddressSpace ProcessRun UserPage FreshProcess Init Boot.

#[local] Opaque rq_addrs.

Lemma free_slot_after ts n : NULL ∉ ts -> free_slot (ts ++ replicate (S n) NULL) = Some (length ts).
Proof.
  intros Hn. unfold free_slot. rewrite (list_find_app_r _ ts); [done|].
  apply list_find_None, Forall_forall. intros x Hx ->. done.
Qed.

Lemma entered_after t ts n : NULL ∉ ts ->
  entered t (ts ++ replicate (S n) NULL) = (ts ++ [t]) ++ replicate n NULL.
Proof.
  intros Hn. unfold entered. rewrite free_slot_after by done.
  rewrite insert_app_r_alt, Nat.sub_diag by lia. by rewrite <- app_assoc.
Qed.

(** The page [n] of the kernel's heap. *)
Definition heap_page (n : Z) : Z := 0xc0100000 + PG_SIZE * n.

(** A kernel thread as [thread_run] leaves it. *)
Definition started (t pid : Z) (name : string) : tcb :=
  tcb_stack_top (first_stack t) (born TASK_READY pid 8 (u32 (t + PG_SIZE)) (Print.text_of name)).

Definition heap_frame (m : Z) : Z := 0x200000 + PG_SIZE * m.

Section Main.
Context (total : Z) (table : Z -> Z) (im : image) (esp : Z).
Context (Hfits : memory_fits total) (Hone : 0 < kernel_pages total).
Context (Hstack : maps_end total <= idle_page esp /\ idle_page esp + PG_SIZE <= Print.video_base_addr).
Implicit Types (D : list Z) (k : kernel) (L : gmap Z (list Z)) (qs : queues).

#[local] Notation memory := (kernel_memory total table).
#[local] Notation taken := (taken total).
#[local] Notation idle_page := (idle_page esp).

(** The kernel with [n] pages in use, the mask in one of them, that can print. *)
Record running_ok D k qs L (n : nat) ts : Prop := {
  rn_kernel : kernel_ok D memory k qs L (taken n) (taken n) ts;
  rn_screen : on_screen D k;
  rn_mask a : mask_byte k a -> K_HEAP_START <= a;
  rn_console : mutex_free k L console_mutex;
  rn_users : users_clear D total k L
}.

Lemma screen_elsewhere k a : (forall a, mask_byte k a -> K_HEAP_START <= a) -> Print.video_byte a ->
  elsewhere memory k a.
Proof.
  intros Hm Ha. destruct (maps_apart total table Hfits Hone a Ha) as [N1 N2]. split; [|by split].
  intros Hx%Hm. unfold Print.video_byte, K_HEAP_START, Print.video_base_addr in *. lia.
Qed.

Lemma mask_not_user k a : (forall a, mask_byte k a -> K_HEAP_START <= a) -> mask_byte k a -> ~ user_byte total a.
Proof.
  intros Hm Ha%Hm Hu. apply (user_byte_low total Hfits Hone) in Hu. destruct Hfits as [_ He].
  unfold K_HEAP_START, Print.video_base_addr in *. lia.
Qed.

Lemma user_byte_elsewhere k a : (forall a, mask_byte k a -> K_HEAP_START <= a) -> user_byte total a ->
  elsewhere memory k a.
Proof.
  intros Hm Ha. split; [|exact (user_byte_apart total table Hfits Hone a Ha)].
  intros Hk. by apply (mask_not_user k a Hm).
Qed.

(** ** What waits for the processes *)

(** The frames the loader leaves to users are spare. *)
Definition users_spare D (s : vm) : Prop := forall j : nat, Z.of_nat j < user_pages total ->
  spare D s (user_frame (user_frames total) j).

Lemma user_frame_outside (j : nat) : outside memory (user_frame (user_frames total) j).
Proof.
  intros x. unfold user_frame, frame_at. change (addr_base (h_ppool memory)) with USED_MEM.
  change (bit_num (btmp (h_ppool memory))) with (kernel_pages total).
  change (addr_base (user_frames total)) with (USED_MEM + PG_SIZE * kernel_pages total). unfold PG_SIZE. lia.
Qed.

Lemma users_spare_kept D v v' pb : kept D total table pb v v' -> users_spare D v -> users_spare D v'.
Proof. intros K Hs j Hj. apply (ev_spare _ _ _ _ _ _ K); [apply user_frame_outside|by apply Hs]. Qed.

(** A process of the heap that has not run. *)
Record waits D k (p : proc) : Prop := {
  wt_fresh : fresh_process D k p;
  wt_place : proc_place memory (user_frames total) (mask_byte k) p;
  wt_heap a : proc_byte p a -> K_HEAP_START <= a
}.

(** The memory that neither the kernel nor the screen changes. *)
Definition quiet k (a : Z) : Prop := elsewhere memory k a /\ ~ Print.video_byte a.

(** A step that keeps all that. *)
Record carries D D' k k' : Prop := {
  ca_waits p : waits D k p -> waits D' k' p;
  ca_spare : users_spare D (k_vm k) -> users_spare D' (k_vm k');
  ca_mask : rq_mask (k_sched k') = rq_mask (k_sched k);
  ca_quiet : moved D D' (k_vm k) (k_vm k') (quiet k)
}.

Lemma quiet_mask k k' a : rq_mask (k_sched k') = rq_mask (k_sched k) -> quiet k a -> quiet k' a.
Proof. unfold quiet, elsewhere, mask_byte. by intros ->. Qed.

Lemma carries_trans D1 D2 D3 k1 k2 k3 : carries D1 D2 k1 k2 -> carries D2 D3 k2 k3 -> carries D1 D3 k1 k3.
Proof.
  intros [W1 S1 M1 Q1] [W2 S2 M2 Q2]. constructor; [by auto|by auto|congruence|].
  eapply moved_trans; [exact Q1|]. intros a Ha. apply Q2. by apply (quiet_mask k1).
Qed.

Lemma carries_ext D k k' : k_vm k' = k_vm k -> k_tcbs k' = k_tcbs k -> k_sched k' = k_sched k -> carries D D k k'.
Proof.
  intros E1 E2 E3. constructor; [|by rewrite E1|by rewrite E3|rewrite E1; by intros a _ Va]. intros p [F P Hh]. split; [|by unfold mask_byte; rewrite E3|exact Hh].
  destruct F. constructor; by rewrite ?E1, ?E2.
Qed.

Lemma carries_printed D k k' : cr3 (k_vm k) ∈ D -> printed D k k' -> carries D D k k'.
Proof.
  intros Hcr (v & i & -> & M & _). constructor.
  - intros p [F P Hh]. split; [|exact P|exact Hh]. apply (fresh_write D Print.video_byte k); try done; [|apply P].
    intros a Ha%Hh Hv. unfold Print.video_byte, K_HEAP_START, Print.video_base_addr in *. lia.
  - intros Hs j Hj. eapply keeps_spare; [exact (modifies_keeps _ _ _ M)|by apply Hs].
  - done.
  - eapply modifies_moved; [exact M|]. by intros a [_ Hv].
Qed.

(** ** A thread that has not run *)

(** Its page, and the first frame on its stack. *)
Record stands D k (t func arg : Z) : Prop := {
  sd_page : valid_block (ByteMem0 := vm_mem D) (k_vm k) t PG_SIZE;
  sd_stack : framed (ByteMem0 := vm_mem D) (k_vm k) (first_stack t) THREAD_STACK_SIZE
    (first_frame (im_kernel_thread_entry im) func arg) (k_vm k)
}.

Lemma stands_moved D D' k k' t func arg : moved D D' (k_vm k) (k_vm k') (in_block t PG_SIZE) ->
  stands D k t func arg -> stands D' k' t func arg.
Proof.
  intros M [V F]. constructor.
  - intros i Hi. apply M; [unfold in_block; lia|by apply V].
  - apply (framed_moved D D' (k_vm k) _ (k_vm k)); [|exact F]. intros a Ha. apply M. by apply stack_in_page.
Qed.

Lemma quiet_outside k a : ~ mask_byte k a -> maps_end total <= a -> ~ Print.video_byte a -> quiet k a.
Proof.
  intros Hm Ha Hv. split; [|done]. split; [done|].
  split; intros Hb; [assert (H : MEM_BITMAP_BASE <= a < maps_end total) by (eapply pool_maps_bytes; eauto)
    |assert (H : MEM_BITMAP_BASE <= a < maps_end total) by (eapply pool_maps_bytes; eauto)]; lia.
Qed.

(** The page of the idle thread and those of the others, with the mask in the
    first page of the heap. *)
Definition first_mask k : Prop := rq_mask (k_sched k) = mask_at K_HEAP_START.

Lemma maps_below_screen : maps_end total <= Print.video_base_addr.
Proof. destruct Hstack as [H1 H2]. unfold PG_SIZE in *. lia. Qed.

Lemma first_mask_bytes k a : first_mask k -> mask_byte k a -> K_HEAP_START <= a < K_HEAP_START + 4.
Proof. unfold first_mask, mask_byte. by intros ->. Qed.

Lemma heap_page_quiet k n a : first_mask k -> 1 <= n -> in_block (heap_page n) PG_SIZE a -> quiet k a.
Proof.
  intros Hm Hn Ha. pose proof maps_below_screen as Hb. apply quiet_outside;
    [intros Hx%(first_mask_bytes k a Hm)| |intros Hv];
    unfold in_block, heap_page, K_HEAP_START, PG_SIZE, Print.video_byte, Print.video_base_addr in *; lia.
Qed.

Lemma idle_page_quiet k a : first_mask k -> in_block idle_page PG_SIZE a -> quiet k a.
Proof.
  intros Hm Ha. destruct Hstack as [H1 H2]. apply quiet_outside;
    [intros Hx%(first_mask_bytes k a Hm)| |intros Hv];
    unfold in_block, K_HEAP_START, PG_SIZE, Print.video_byte, Print.video_base_addr in *; lia.
Qed.

Lemma stands_carried D D' k k' n func arg : carries D D' k k' -> first_mask k -> 1 <= n ->
  stands D k (heap_page n) func arg -> stands D' k' (heap_page n) func arg.
Proof.
  intros C Hm Hn. apply stands_moved. intros a Ha. apply (ca_quiet _ _ _ _ C). by eapply heap_page_quiet.
Qed.

Lemma console_bystander n : 0 <= n -> bystander (heap_page n) console_mutex.
Proof.
  intros Hn. destruct (device_mutex_facts console_mutex) as (F1 & F2 & F3 & F4 & F5 & F6); [left|].
  constructor; [done|done|split; [done|]|split; [done|]];
    unfold mutex_sem, pool_mtx, pool_of, OFF_user_vaddr_pool, heap_page, PG_SIZE, MEM_BITMAP_BASE,
      sem_waiters in *; lia.
Qed.

Lemma page_left_clear n : Z.of_nat n < kernel_pages total -> clear_from 0 (taken n) <> [].
Proof. intros Hn. apply first_clear. lia. Qed.

Lemma thread_run_next D k qs L n ts rt nm prio func func_arg : running_ok D k qs L n ts ->
  Z.of_nat n < kernel_pages total -> k_tcbs k !! running_thread (k_sched k) = Some rt ->
  (length nm <= NAME_LEN)%nat -> 0 <= prio < PRIO_NUM ->
  is_u32 (im_kernel_thread_entry im) -> is_u32 func -> is_u32 func_arg ->
  let t := heap_page (Z.of_nat n) in
  exists k' L', k_tcbs k !! t = None
    /\ thread_run (im_kernel_thread_entry im) nm prio func func_arg k = Ok t k'
    /\ running_ok D k' (enqueue (Z.to_nat prio) t qs) L' (S n) (ts ++ [t])
    /\ k_tcbs k' = <[t := new_thread t prio nm k]> (k_tcbs k)
    /\ k_sched k' = sched_table (entered t (thread_table (k_sched k)))
         (if prio <? priority rt then sched_need true (k_sched k) else k_sched k)
    /\ kept D total table (taken (S n)) (k_vm k) (k_vm k')
    /\ moved D D (k_vm k) (k_vm k') (quiet k) /\ stands D k' t func func_arg.
Proof.
  intros [K S Hm Hc Hu] Hn Hrt Hnm Hp He Hf Ha t.
  destruct (thread_run_ok D (im_kernel_thread_entry im) memory k qs L _ _ ts n rt nm prio func func_arg K Hrt
    ltac:(by apply page_left; lia) (page_left_clear n Hn) Hnm Hp He Hf Ha)
    as (i & k' & L' & Hi & Hl & Ht & E & K' & Et & Es & Fr & _ & Ev & Eio & Epl & By & Vt).
  destruct (taken_next total Hone n i Hn Hi Hl) as (-> & E1 & E2). rewrite E1, E2 in K'. rewrite E2 in Ev.
  exists k', L'. split; [exact Ht|]. split; [exact E|].
  assert (Mv : moved D D (k_vm k) (k_vm k') (elsewhere memory k)) by (eapply evolves_moved; [exact Ev|done]).
  split; [|split; [exact Et|split; [exact Es|split; [by eapply evolves_weaken|split; [|by split]]]]].
  2: { intros a [Hq _]. by apply Mv. }
  constructor.
  - exact K'.
  - apply (screen_moved D D k k' S); [|exact Eio]. intros a Ha'. by apply Mv, screen_elsewhere.
  - intros a. unfold mask_byte. rewrite Es. simpl. destruct (_ <? _); apply Hm.
  - apply By; [|exact Hc]. apply console_bystander. lia.
  - eapply (users_clear_next D total table Hfits Hone); [exact Hu| |exact Epl|].
    + eapply evolves_weaken; [exact Ev|]. intros a Ha' Hu'. by apply (mask_not_user k a Hm).
    + apply By; [|apply Hu]. apply user_bystander.
      change (MEM_BITMAP_BASE <= heap_page (Z.of_nat n)). unfold heap_page, MEM_BITMAP_BASE, PG_SIZE. lia.
Qed.

(** ** The next process *)

(** The process whose control block is in page [n] of the heap. *)
Definition main_proc (n ptr filename : Z) : proc :=
  mkProc (heap_page n) (heap_page (n + 1)) (heap_page (n + 24)) (heap_frame (n + 24))
    (im_kernel_thread_entry im) ptr filename.

Lemma main_proc_new n ptr filename : new_proc memory n n (im_kernel_thread_entry im) ptr filename
  = main_proc (Z.of_nat n) ptr filename.
Proof. unfold new_proc, main_proc. by rewrite !Nat2Z.inj_add. Qed.

Lemma main_proc_heap n ptr filename a : 0 <= n -> proc_byte (main_proc n ptr filename) a ->
  heap_page n <= a < heap_page (n + 24).
Proof.
  unfold proc_byte, in_block, bitmap_byte. simpl. unfold heap_page, PG_SIZE. lia.
Qed.


Lemma process_run_next D k qs L n ts ptr nm filename : running_ok D k qs L n ts ->
  spawnable memory (k_vm k) (taken n) -> Z.of_nat n + 25 <= kernel_pages total ->
  (length nm <= NAME_LEN)%nat -> is_u32 (im_kernel_thread_entry im) -> is_u32 ptr -> is_u32 filename ->
  let p := main_proc (Z.of_nat n) ptr filename in let t := pr_tcb p in let F := pr_frame p in
  exists k' L', process_run (im_kernel_thread_entry im) ptr filename nm k = Ok tt k'
    /\ running_ok (F :: D) k' (enqueue 31 t qs) L' (n + 25) (ts ++ [t])
    /\ spawnable memory (k_vm k') (taken (n + 25))
    /\ k_tcbs k' = <[t := new_process t (pr_map p) (pr_dir p) nm k]> (k_tcbs k)
    /\ k_sched k' = sched_table (entered t (thread_table (k_sched k))) (k_sched k)
    /\ waits (F :: D) k' p /\ carries D (F :: D) k k'.
Proof.
  intros [K S Hm Hc [U1 U2 U3]] Sp Hn Hnm He Hp Hf p t F.
  destruct (process_run_fresh D memory k qs L n _ n _ ts K ltac:(unfold process_pages; lia)
    ltac:(unfold process_pages; lia) (im_kernel_thread_entry im) ptr filename nm Sp Hnm He Hp Hf)
    as (k' & L' & E & K' & Sp' & Et & Es & Ei & Epl & M & By & Sk & Fp & Fq). cbv zeta in *.
  pose proof (new_proc_place D memory k qs L n _ n _ ts K ltac:(unfold process_pages; lia)
    ltac:(unfold process_pages; lia) (user_frames total) (no_users total) (im_kernel_thread_entry im) ptr filename U2) as Pp.
  rewrite main_proc_new in *. fold p t F in K', Et, Es, M, By, Sk, Fp, Fq, Pp. change process_pages with 25%nat in *.
  exists k', L'. split; [exact E|]. split; [|split; [exact Sp'|split; [exact Et|split; [exact Es|]]]].
  2: { assert (Em : mask_byte k' = mask_byte k) by (unfold mask_byte; by rewrite Es).
       split; [split; [exact Fp|by rewrite Em|]|constructor].
       - intros a Ha%main_proc_heap; [|lia]. unfold heap_page, K_HEAP_START, PG_SIZE in *. lia.
       - intros q [Fr Pl Hh]. split; [by eapply Fq|by rewrite Em|exact Hh].
       - intros Hs j Hj. apply Sk; [apply user_frame_outside|by apply Hs].
       - by rewrite Es.
       - intros a [Hq _]. by apply M. }
  constructor.
  - exact K'.
  - apply (screen_moved D _ k k' S); [|exact Ei]. intros a Ha. apply M. by apply screen_elsewhere.
  - intros a. unfold mask_byte. rewrite Es. apply Hm.
  - apply By; [|exact Hc]. apply console_bystander. lia.
  - constructor; [by rewrite Epl| |].
    + apply (bitmap_rep_moved D (F :: D) (k_vm k)); [|exact U2]. intros a Ha. apply M. by apply user_byte_elsewhere.
    + apply By; [|exact U3]. apply user_bystander.
      change (MEM_BITMAP_BASE <= heap_page (Z.of_nat n)). unfold heap_page, MEM_BITMAP_BASE, PG_SIZE. lia.
Qed.

(** ** Printing *)

Lemma console_put_int_ok D k qs L n ts x : running_ok D k qs L n ts ->
  exists k', console_put_int x k = Ok tt k' /\ running_ok D k' qs L n ts
    /\ k_tcbs k' = k_tcbs k /\ k_sched k' = k_sched k /\ k_eflags k' = k_eflags k /\ carries D D k k'.
Proof.
  intros [K S Hm Hc Hu]. set (k1 := mutex_taken console_mutex k).
  destruct (say_int_ok D x k1) as (k2 & E2 & S2 & v & i & E & M & C); [by apply (on_screen_ext D k)|].
  set (k3 := with_vm v (with_io i k)).
  assert (K3 : kernel_ok D memory k3 qs L (taken n) (taken n) ts).
  { apply (kernel_printed D total table Hfits Hone k); [exact K| |by exists v, i].
    intros a Ha%Hm. unfold Print.video_byte, K_HEAP_START, Print.video_base_addr in *. lia. }
  exists (mutex_given_back console_mutex k3). split; [|split; [|do 3 (split; [done|])]].
  3: { apply (carries_trans D D D _ k3); [|by apply carries_ext].
       apply carries_printed; [apply (ko_sched _ _ _ _ _ _ _ _ K)|by exists v, i]. }
  - unfold console_put_int, console_acquire, console_release.
    erewrite bind_ok by exact (mutex_lock_free k L console_mutex Hc). fold k1. erewrite bind_ok by exact E2.
    rewrite E. apply (mutex_unlock_taken k3 L console_mutex); [apply (ko_sched _ _ _ _ _ _ _ _ K3)|apply Hc].
  - destruct (device_mutex_facts console_mutex) as (F1 & F2 & F3 & F4 & F5 & F6); [left|].
    destruct (ko_pid _ _ _ _ _ _ _ _ K) as [P1 P2 P3]. constructor.
    + apply (kernel_ok_locks D memory k3); try done. split; [|  |exact P3].
      * change (k_sems (mutex_given_back console_mutex k3)) with (<[mutex_sem console_mutex := 1]> (k_sems k)).
        by rewrite lookup_insert_ne.
      * change (k_holders (mutex_given_back console_mutex k3)) with (<[console_mutex := NULL]> (k_holders k)).
        by rewrite lookup_insert_ne.
    + rewrite E in S2. by apply (on_screen_ext D (with_vm v (with_io i k1))).
    + exact Hm.
    + split; [apply lookup_insert_eq|exists NULL; apply lookup_insert_eq|apply Hc].
    + destruct (uc_mutex _ _ _ _ Hu) as [H1 H2 H3].
      eapply (users_clear_next D total table Hfits Hone k _ L L (taken n)); [exact Hu| |done|].
      * apply (kept_users_printed D total table Hfits Hone k k3 (taken n)); [apply K|by exists v, i].
      * split; [| |exact H3].
        -- change (k_sems (mutex_given_back console_mutex k3)) with (<[mutex_sem console_mutex := 1]> (k_sems k)).
           by rewrite lookup_insert_ne.
        -- change (k_holders (mutex_given_back console_mutex k3)) with (<[console_mutex := NULL]> (k_holders k)).
           by rewrite lookup_insert_ne.
Qed.

Definition two_threads : queues :=
  enqueue 8 (heap_page 2) (enqueue 8 (heap_page 1) (enqueue 31 idle_page no_queues)).

Lemma heap_above n : 0 <= n -> heap_page n <> idle_page /\ heap_page n <> NULL.
Proof.
  intros Hn. destruct Hstack as [_ Hs]. unfold heap_page, PG_SIZE, NULL, Print.video_base_addr in *. lia.
Qed.

Lemma idle_not_null : idle_page <> NULL.
Proof. 
  destruct (maps_order total Hfits) as (O1 & O2 & _). destruct Hstack as [Hs _].
  unfold MEM_BITMAP_BASE, NULL in *. lia.
Qed.

(** [main] up to the threads, and from there. *)
Definition main_init : M kernel unit := say ("I AM KERNEL" +:+ Print.nl);; init_all im esp.
Definition main_rest (n : nat) : M kernel unit :=
  thread_run (im_kernel_thread_entry im) (Print.text_of "kthread1") 8 thread1_ptr (im_arg1 im);;
  thread_run (im_kernel_thread_entry im) (Print.text_of "kthread2") 8 thread2_ptr (im_arg2 im);;
  main_processes im n.

Lemma main_parts k k1 n : main_init k = Ok tt k1 -> main im esp n k = main_rest n k1.
Proof.
  unfold main_init, main. unfold mbind at 1 2, M_bind at 1 2.
  destruct (say _ k) as [[] k0| | | |]; [|done..]. intros E. by erewrite bind_ok by exact E.
Qed.

Lemma main_init_ok D k : boot_state D total table esp k ->
  exists k1 L, main_init k = Ok tt k1 /\ running_ok D k1 (enqueue 31 idle_page no_queues) L 1 [idle_page]
    /\ k_tcbs k1 = {[idle_page := idle_tcb idle_page]}
    /\ k_sched k1 = mkSched idle_page false idle_page ([idle_page] ++ replicate 127 NULL) (mask_at K_HEAP_START)
    /\ kept D total table (taken 1) (k_vm k) (k_vm k1)
    /\ valid_block (ByteMem0 := vm_mem D) (k_vm k1) idle_page PG_SIZE
    /\ idt_table (k_tables k1) !! INT_TIMER = Some intr_timer_handler_ptr.
Proof.
  intros B.
  destruct (say_ok D ("I AM KERNEL" +:+ Print.nl) k (bt_screen _ _ _ _ _ B)) as (k0 & E0 & S0 & P0);
    [by vm_compute|].
  assert (B0 : boot_state D total table esp k0 /\ kept D total table (taken 0) (k_vm k) (k_vm k0)).
  { destruct P0 as (v & i & -> & M & _). split; [|by eapply kept_boot; [lia|..]].
    apply (boot_kept D total table esp k v i (k_tables k)); [exact B|exact M|].
    by apply (on_screen_ext D (with_vm v (with_io i k))). }
  destruct B0 as [B0 Kp0].
  destruct (init_all_ok D total table im esp Hfits ltac:(lia) Hstack k0 B0)
    as (k1 & L & E1 & (K1 & S1 & Et1 & page & Es1 & ->) & Kp1 & C1 & _ & _ & Tb & _ & U1).
  assert (Kp : kept D total table (taken 1) (k_vm k) (k_vm k1)).
  { apply (kept_trans D total table (taken 0) _ _ (k_vm k0)); [exact Kp0|exact Kp1|intros j; apply taken_more; lia]. }
  exists k1, (device_lists_of L). split; [unfold main_init; erewrite bind_ok by exact E0; exact E1|].
  split; [constructor; [exact K1|exact S1| |exact C1|exact U1]|].
  { intros a. unfold mask_byte. rewrite Es1. simpl. lia. }
  split; [exact Et1|]. split; [exact Es1|]. split; [exact Kp|]. split.
  - intros i Hi. apply (gr_valid _ _ _ (ev_grows _ _ _ _ _ _ Kp)). by apply (bt_stack _ _ _ _ _ B).
  - rewrite Tb. unfold devices_ready, syscall_ready, tss_ready, handler_set, with_handlers. cbn [idt_table].
    rewrite lookup_insert_ne by done. apply lookup_insert_eq.
Qed.

Lemma main_threads_ok D k n : boot_state D total table esp k -> 3 <= kernel_pages total ->
  is_u32 (im_kernel_thread_entry im) -> is_u32 (im_arg1 im) -> is_u32 (im_arg2 im) ->
  let t1 := heap_page 1 in let t2 := heap_page 2 in
  exists k' L, main im esp n k = main_processes im n k'
    /\ running_ok D k' two_threads L 3 [idle_page; t1; t2]
    /\ k_tcbs k' = <[t2 := started t2 2 "kthread2"]> (<[t1 := started t1 1 "kthread1"]>
         {[idle_page := idle_tcb idle_page]})
    /\ running_thread (k_sched k') = idle_page /\ need_schedule (k_sched k') = true
    /\ thread_table (k_sched k') = [idle_page; t1; t2] ++ replicate 125 NULL
    /\ kept D total table (taken 3) (k_vm k) (k_vm k')
    /\ first_mask k' /\ valid_block (ByteMem0 := vm_mem D) (k_vm k') idle_page PG_SIZE
    /\ stands D k' t1 thread1_ptr (im_arg1 im) /\ stands D k' t2 thread2_ptr (im_arg2 im).
Proof.
  intros B H3 He Ha1 Ha2 t1 t2.
  destruct (main_init_ok D k B) as (k1 & L & E1 & R1 & Et1 & Es1 & Kp1 & V1 & _).
  destruct (heap_above 1 ltac:(lia)) as [N1 Z1]. destruct (heap_above 2 ltac:(lia)) as [N2 Z2].
  fold t1 in N1, Z1. fold t2 in N2, Z2. pose proof idle_not_null as Zi.
  destruct (thread_run_next D k1 _ _ 1 _ (idle_tcb idle_page) (Print.text_of "kthread1") 8 thread1_ptr (im_arg1 im)
    R1 ltac:(lia) ltac:(rewrite Et1, Es1; apply lookup_singleton_eq) ltac:(vm_compute; lia)
    ltac:(unfold PRIO_NUM; lia) He ltac:(unfold thread1_ptr; lia) Ha1)
    as (k2 & L2 & _ & E2 & R2 & Et2 & Es2 & Kp2 & Q2 & St1). change (heap_page (Z.of_nat 1)) with t1 in *.
  assert (Hr2 : running_thread (k_sched k2) = idle_page) by by rewrite Es2, Es1.
  destruct (thread_run_next D k2 _ _ 2 _ (idle_tcb idle_page) (Print.text_of "kthread2") 8 thread2_ptr (im_arg2 im)
    R2 ltac:(lia) ltac:(rewrite Hr2, Et2, Et1, lookup_insert_ne by done; apply lookup_singleton_eq)
    ltac:(vm_compute; lia) ltac:(unfold PRIO_NUM; lia) He ltac:(unfold thread2_ptr; lia) Ha2)
    as (k3 & L3 & _ & E3 & R3 & Et3 & Es3 & Kp3 & Q3 & St2). change (heap_page (Z.of_nat 2)) with t2 in *.
  assert (T1 : thread_table (k_sched k1) = [idle_page] ++ replicate 127 NULL) by by rewrite Es1.
  assert (T2 : thread_table (k_sched k2) = [idle_page; t1] ++ replicate 126 NULL).
  { rewrite Es2. change (thread_table (sched_table ?x _)) with x. rewrite T1.
    by apply entered_after; rewrite list_elem_of_singleton. }
  assert (M2 : NULL ∉ [idle_page; t1]).
  { rewrite elem_of_cons, list_elem_of_singleton. by intros [?|?]. }
  assert (F1 : first_mask k1) by (unfold first_mask; by rewrite Es1).
  assert (F2 : first_mask k2) by (unfold first_mask; by rewrite Es2, Es1).
  assert (F3 : first_mask k3) by (unfold first_mask; by rewrite Es3, Es2, Es1).
  exists k3, L3. split; [|split; [exact R3|split; [|split; [by rewrite Es3|split; [|split; [|split]]]]]].
  - rewrite (main_parts k k1 n E1). unfold main_rest. erewrite bind_ok by exact E2. by erewrite bind_ok by exact E3.
  - rewrite Et3, Et2, Et1. f_equal; [|f_equal].
    + unfold new_thread. rewrite T2. unfold pid_of_slot. by rewrite (free_slot_after _ 125).
    + unfold new_thread. rewrite T1. unfold pid_of_slot. rewrite (free_slot_after _ 126); [done|].
      by rewrite list_elem_of_singleton.
  - rewrite Es3. change (8 <? priority (idle_tcb idle_page)) with true. reflexivity.
  - rewrite Es3. change (thread_table (sched_table ?x _)) with x. rewrite T2.
    exact (entered_after t2 [idle_page; t1] 125 M2).
  - apply (kept_trans D total table (taken 1) _ _ (k_vm k1)); [exact Kp1| |intros j; apply taken_more; lia].
    apply (kept_trans D total table (taken 2) _ _ (k_vm k2)); [exact Kp2|exact Kp3|intros j; apply taken_more; lia].
  - split; [exact F3|]. split; [|split; [|exact St2]].
    + intros i Hi. apply Q3; [|apply Q2; [|by apply V1]];
        (apply idle_page_quiet; [done|unfold in_block; lia]).
    + apply (stands_moved D D k2); [|exact St1]. intros a Ha. apply Q3.
      by apply (heap_page_quiet k2 1); [|lia|].
Qed.

(** ** The processes *)

(** The pages and frames of the process whose control block is in page [n]. *)
Definition process (n : Z) (name : string) (table : list Z) : tcb :=
  tcb_pg_dir (heap_page (n + 24)) (with_user_map (heap_page (n + 1))
    (tcb_stack_top (first_stack (heap_page n))
      (born TASK_READY (pid_of_slot table) 31 (u32 (heap_page n + PG_SIZE)) (Print.text_of name)))).

Definition all_queued : queues := enqueue 31 (heap_page 28) (enqueue 31 (heap_page 3) two_threads).
Definition all_threads : list Z := [idle_page; heap_page 1; heap_page 2; heap_page 3; heap_page 28].
Definition all_tcbs : gmap Z tcb :=
  <[heap_page 28 := process 28 "process2" ([idle_page; heap_page 1; heap_page 2; heap_page 3] ++ replicate 124 NULL)]>
  (<[heap_page 3 := process 3 "process1" ([idle_page; heap_page 1; heap_page 2] ++ replicate 125 NULL)]>
  (<[heap_page 2 := started (heap_page 2) 2 "kthread2"]> (<[heap_page 1 := started (heap_page 1) 1 "kthread1"]>
    {[idle_page := idle_tcb idle_page]}))).

Lemma threads_not_null : NULL ∉ all_threads.
Proof.
  unfold all_threads. rewrite !elem_of_cons, elem_of_nil. pose proof idle_not_null as Hi.
  assert (Hn : forall n, 0 <= n -> NULL <> heap_page n) by (intros n Hn E; by apply (heap_above n Hn)).
  intros [E|[E|[E|[E|[E|[]]]]]]; [by apply Hi|by apply (Hn 1)|by apply (Hn 2)|by apply (Hn 3)|by apply (Hn 28)].
Qed.

Definition two_processes : M kernel unit :=
  process_run (im_kernel_thread_entry im) (im_process_entry im) process1_ptr (Print.text_of "process1");;
  process_run (im_kernel_thread_entry im) (im_process_entry im) process2_ptr (Print.text_of "process2").

Definition proc1 : proc := main_proc 3 (im_process_entry im) process1_ptr.
Definition proc2 : proc := main_proc 28 (im_process_entry im) process2_ptr.
Definition both_wait D k : Prop := waits D k proc1 /\ waits D k proc2.

Lemma two_processes_ok D k L : running_ok D k two_threads L 3 [idle_page; heap_page 1; heap_page 2] ->
  spawnable memory (k_vm k) (taken 3) -> 53 <= kernel_pages total ->
  is_u32 (im_kernel_thread_entry im) -> is_u32 (im_process_entry im) ->
  k_tcbs k = <[heap_page 2 := started (heap_page 2) 2 "kthread2"]>
    (<[heap_page 1 := started (heap_page 1) 1 "kthread1"]> {[idle_page := idle_tcb idle_page]}) ->
  thread_table (k_sched k) = [idle_page; heap_page 1; heap_page 2] ++ replicate 125 NULL ->
  exists k' L', two_processes k = Ok tt k'
    /\ running_ok (heap_frame 52 :: heap_frame 27 :: D) k' all_queued L' 53 all_threads
    /\ k_tcbs k' = all_tcbs
    /\ k_sched k' = sched_table (all_threads ++ replicate 123 NULL) (k_sched k)
    /\ both_wait (heap_frame 52 :: heap_frame 27 :: D) k'
    /\ carries D (heap_frame 52 :: heap_frame 27 :: D) k k'.
Proof.
  intros R Sp H53 He Hp Et Tb.
  destruct (process_run_next D k _ L 3 _ (im_process_entry im) (Print.text_of "process1") process1_ptr R Sp
    ltac:(lia) ltac:(vm_compute; lia) He Hp ltac:(unfold process1_ptr; lia))
    as (k1 & L1 & E1 & R1 & Sp1 & Et1 & Es1 & W1 & C1). cbv zeta in *. change (Z.of_nat 3) with 3 in *.
  fold proc1 in R1, Et1, Es1, W1, C1. change (3 + 25)%nat with 28%nat in *.
  change (pr_tcb proc1) with (heap_page 3) in *. change (pr_frame proc1) with (heap_frame 27) in *.
  assert (N4 : NULL ∉ [idle_page; heap_page 1; heap_page 2; heap_page 3]).
  { intros Hx. apply threads_not_null. unfold all_threads. rewrite !elem_of_cons in *. tauto. }
  assert (N3 : NULL ∉ [idle_page; heap_page 1; heap_page 2]).
  { intros Hx. apply N4. rewrite !elem_of_cons in *. tauto. }
  assert (T1 : thread_table (k_sched k1) = [idle_page; heap_page 1; heap_page 2; heap_page 3] ++ replicate 124 NULL).
  { rewrite Es1. change (thread_table (sched_table ?x _)) with x. rewrite Tb. by apply entered_after. }
  destruct (process_run_next _ k1 _ L1 28 _ (im_process_entry im) (Print.text_of "process2") process2_ptr R1 Sp1
    ltac:(lia) ltac:(vm_compute; lia) He Hp ltac:(unfold process2_ptr; lia))
    as (k2 & L2 & E2 & R2 & _ & Et2 & Es2 & W2 & C2). cbv zeta in *. change (Z.of_nat 28) with 28 in *.
  fold proc2 in R2, Et2, Es2, W2, C2. change (28 + 25)%nat with 53%nat in *.
  change (pr_tcb proc2) with (heap_page 28) in *. change (pr_frame proc2) with (heap_frame 52) in *.
  exists k2, L2. split; [|split; [exact R2|split; [|split; [|split; [split; [by apply C2|exact W2]|by eapply carries_trans]]]]].
  - unfold two_processes. by erewrite bind_ok by exact E1.
  - rewrite Et2, Et1, Et. unfold new_process, new_thread. rewrite T1, Tb. reflexivity.
  - rewrite Es2, T1, Es1. unfold all_threads. rewrite (entered_after (heap_page 28) _ 123 N4). reflexivity.
Qed.

(** ** The loop *)

(** [k'] is [k] but for the screen and the mutex of the console. *)
Definition printing D k qs L n ts k' : Prop :=
  running_ok D k' qs L n ts /\ k_tcbs k' = k_tcbs k /\ k_sched k' = k_sched k /\ carries D D k k'.

Lemma running_eflags D k qs L n ts e : running_ok D k qs L n ts -> running_ok D (with_eflags e k) qs L n ts.
Proof.
  intros [K S Hm [C1 C2 C3] [U1 U2 [V1 V2 V3]]].
  constructor; [by apply (kernel_ok_ext D memory k)|by apply (on_screen_ext D k)|exact Hm|by split|]. by constructor; [..|split].
Qed.

Lemma print_forever_ok D k qs L n ts pid i : running_ok D k qs L n ts ->
  wp (print_forever i pid) k (fun _ k' => printing D k qs L n ts k' /\ k_eflags k' = k_eflags k).
Proof.
  intros R. unfold print_forever.
  apply (wp_for_upto (fun _ k' => printing D k qs L n ts k' /\ k_eflags k' = k_eflags k)).
  - split; [|done]. do 3 (split; [done|]). by apply carries_ext.
  - intros j k1 _ [(R1 & Et & Es & C) Ee].
    destruct (console_put_int_ok D k1 qs L n ts pid R1) as (k2 & E & R2 & Et2 & Es2 & Ee2 & C2).
    eapply wp_ok; [exact E|]. split; [|congruence]. split; [exact R2|]. split; [congruence|]. split; [congruence|].
    by eapply carries_trans.
  - by auto.
Qed.

(** [main] after its processes; the second thread of [main] has the same body. *)
Definition main_loop (n : nat) : M kernel unit :=
  zoom eflags_of intr_enable;;
  pid ← pid_of_running;
  zoom eflags_of intr_disable;;
  console_put_int pid;;
  zoom eflags_of intr_enable;;
  print_forever n pid.

Lemma zoom_eflags_enable k : zoom eflags_of intr_enable k
  = Ok (status_of (if_flag (k_eflags k))) (with_eflags (with_if true (k_eflags k)) k).
Proof. by erewrite zoom_ok by apply intr_enable_ok. Qed.

Lemma main_loop_ok D k qs L n ts i : running_ok D k qs L n ts ->
  exists k', main_loop i k = Ok tt k' /\ printing D k qs L n ts k' /\ if_flag (k_eflags k') = true.
Proof.
  intros R. destruct (ko_running _ _ _ _ _ _ _ _ (rn_kernel _ _ _ _ _ _ R)) as [rt Hrt].
  set (k1 := with_eflags (with_if true (k_eflags k)) k).
  set (k2 := with_eflags (with_if false (k_eflags k1)) k1).
  destruct (console_put_int_ok D k2 qs L n ts (u32 (pid rt))) as (k3 & E3 & R3 & Et & Es & Ee & C3);
    [by do 2 apply running_eflags|].
  set (k4 := with_eflags (with_if true (k_eflags k3)) k3).
  assert (R4 : running_ok D k4 qs L n ts) by by apply running_eflags.
  destruct (wp_inv _ _ _ (print_forever_ok D k4 qs L n ts (u32 (pid rt)) i R4)) as ([] & k5 & E5 & (R5 & Et5 & Es5 & C5) & Ee5).
  exists k5. split; [|split].
  - unfold main_loop. erewrite bind_ok by apply zoom_eflags_enable. fold k1. erewrite bind_ok.
    2: { unfold pid_of_running. erewrite bind_ok by reflexivity. erewrite bind_ok by (apply get_tcb_ok; exact Hrt).
         reflexivity. }
    erewrite bind_ok by apply zoom_eflags_disable. fold k2. erewrite bind_ok by exact E3.
    erewrite bind_ok by apply zoom_eflags_enable. exact E5.
  - split; [exact R5|]. change (k_tcbs k4) with (k_tcbs k3) in Et5. change (k_sched k4) with (k_sched k3) in Es5.
    split; [by rewrite Et5, Et|]. split; [by rewrite Es5, Es|].
    apply (carries_trans D D D _ k2); [by apply carries_ext|]. apply (carries_trans D D D _ k3); [exact C3|].
    apply (carries_trans D D D _ k4); [by apply carries_ext|exact C5].
  - rewrite Ee5. apply with_if_flag.
Qed.

(** ** [main] *)

(** What a process needs is there from the start. *)
Lemma spawnable_kept D v v' n : spawnable memory v (taken 0) -> kept D total table (taken n) v v' ->
  spawnable memory v' (taken n).
Proof. intros Sp Kp. eapply (spawnable_evolves D); [exact Sp|exact Kp|]. intros j. apply taken_more. lia. Qed.

(** Which function each thread but the idle one is to start with. *)
Definition first_calls : list (Z * (Z * Z)) :=
  [(heap_page 1, (thread1_ptr, im_arg1 im)); (heap_page 2, (thread2_ptr, im_arg2 im));
   (heap_page 3, (im_process_entry im, process1_ptr)); (heap_page 28, (im_process_entry im, process2_ptr))].

Record all_stand D k : Prop := {
  al_mask : first_mask k;
  al_idle : valid_block (ByteMem0 := vm_mem D) (k_vm k) idle_page PG_SIZE;
  al_calls t f a : (t, (f, a)) ∈ first_calls -> stands D k t f a
}.

Lemma waits_stands D k n f a : waits D k (main_proc n f a) -> stands D k (heap_page n) f a.
Proof. intros [[_ _ V F _ _ _ _] _ _]. by constructor. Qed.

Lemma main_ok D k i : boot_state D total table esp k -> spawnable memory (k_vm k) (taken 0) ->
  53 <= kernel_pages total -> is_u32 (im_kernel_thread_entry im) -> is_u32 (im_process_entry im) ->
  is_u32 (im_arg1 im) -> is_u32 (im_arg2 im) ->
  exists k' L, main im esp i k = Ok tt k'
    /\ running_ok (heap_frame 52 :: heap_frame 27 :: D) k' all_queued L 53 all_threads
    /\ k_tcbs k' = all_tcbs /\ if_flag (k_eflags k') = true
    /\ running_thread (k_sched k') = idle_page /\ need_schedule (k_sched k') = true
    /\ thread_table (k_sched k') = all_threads ++ replicate 123 NULL
    /\ both_wait (heap_frame 52 :: heap_frame 27 :: D) k'
    /\ (users_spare D (k_vm k) -> users_spare (heap_frame 52 :: heap_frame 27 :: D) (k_vm k'))
    /\ all_stand (heap_frame 52 :: heap_frame 27 :: D) k'.
Proof.
  intros B Sp H53 He Hp Ha1 Ha2.
  destruct (main_threads_ok D k i B ltac:(lia) He Ha1 Ha2) as (k1 & L1 & E1 & R1 & Et1 & Er & En & Tb & Kp & F1 & V1 & St1 & St2).
  pose proof (spawnable_kept D _ _ 3 Sp Kp) as Sp1.
  destruct (two_processes_ok D k1 L1 R1 Sp1 H53 He Hp Et1 Tb) as (k2 & L2 & E2 & R2 & Et2 & Es2 & [W1 W2] & C2).
  destruct (main_loop_ok _ k2 _ L2 _ _ i R2) as (k3 & E3 & (R3 & Et3 & Es3 & C3) & Ef).
  exists k3, L2. split; [|split; [exact R3|split; [by rewrite Et3|split; [exact Ef|]]]].
  - rewrite E1. revert E2. unfold two_processes, main_processes. unfold mbind at 1, M_bind at 1.
    destruct (process_run _ _ process1_ptr _ k1) as [[] ka| | | |] eqn:Ea; [|done..]. intros E2.
    erewrite bind_ok by exact Ea. erewrite bind_ok by exact E2. exact E3.
  - assert (Hw : both_wait (heap_frame 52 :: heap_frame 27 :: D) k3) by (split; by apply C3).
    rewrite Es3, Es2. do 3 (split; [done|]). split; [exact Hw|].
    split; [intros Hs; by apply C3, C2, (users_spare_kept D _ _ _ Kp)|].
    pose proof (carries_trans _ _ _ _ _ _ C2 C3) as C. constructor.
    + unfold first_mask. by rewrite (ca_mask _ _ _ _ C).
    + intros j Hj. apply (ca_quiet _ _ _ _ C); [|by apply V1]. apply idle_page_quiet; [done|unfold in_block; lia].
    + destruct Hw as [Hw1 Hw2]. intros t f a. unfold first_calls. rewrite !elem_of_cons, elem_of_nil.
      intros [Eq|[Eq|[Eq|[Eq|[]]]]]; injection Eq as -> -> ->;
        [by eapply stands_carried; [exact C|exact F1|lia|]..|by apply waits_stands|by apply waits_stands].
Qed.

End Main.
End Main.
