(* ===== verification/UserMode.v ===== *)
(** Two processes in user mode, and the processes that [main] starts.

    [two_user_modes]: when the scheduler picks one fresh process and then
    another, both enter their programs, with stacks at the same address in
    different frames, and neither address space reaches the other's.
    [main_user_modes]: so do the two processes of [main]. *)

From S2P Require Import Prelude Bytes Bitmap Interrupt LinkedList Paging PageTable PageMap Words Kernel.
From S2P Require Import ReadyQueues Sched Sync Memory Heap Thread ThreadSpec ThreadRun Process PageDir AddressSpace.
From S2P Require Import MemInit ProcessRun NewTable UserPage ProcessEntry FreshProcess Init Boot Main.

Module UserMode.
Import Bitmap Interrupt LinkedList Paging PageTable PageMap Words Kernel ReadyQueues Sched Sync Memory.
Import Heap MemInit Thread ThreadSpec ThreadRun Process PageDir AddressSpace ProcessRun NewTable UserPage ProcessEntry.
Import FreshProcess Init Boot Main.

(** The stacks of [p] and [q] are in the frames [f] and [g], which are not the
    same; [f] is reached in the space of [p] and [g] in that of [q], and only
    there. *)
Record isolated (D : list Z) (v : vm) (p q : proc) (f g : Z) : Prop := {
  is_stack o : 0 <= o < PAGE -> translate (under v (pr_frame p)) (USER_STACK3_VADDR + o) = Some (f + o)
    /\ translate (under v (pr_frame q)) (USER_STACK3_VADDR + o) = Some (g + o);
  is_other : f <> g;
  is_only d a x : d ∈ D -> user_addr a -> translate (under v d) a = Some x ->
    (frame x = f -> frame d = frame (pr_frame p) /\ frame a = USER_STACK3_VADDR)
    /\ (frame x = g -> frame d = frame (pr_frame q) /\ frame a = USER_STACK3_VADDR)
}.

Lemma stacks_isolated D s s1 v p q f g : stack_given D s s1 (pr_frame p) f -> stack_given D s1 v (pr_frame q) g ->
  f <> g -> frame (pr_frame p) <> frame (pr_frame q) -> pr_frame p ∈ D -> pr_frame q ∈ D ->
  nobody_has D s f -> nobody_has D s g -> isolated D v p q f g.
Proof.
  intros S1 S2 Hfg Hpq Hp Hq Nf Ng. constructor; [|done|].
  - intros o Ho. assert (Hu : user_addr (USER_STACK3_VADDR + o)).
    { unfold user_addr, USER_STACK3_VADDR, PAGE, PG_SIZE in *. lia. }
    split.
    + rewrite (st_other _ _ _ _ _ S2) by done. rewrite <- (st_cr3 _ _ _ _ _ S1), under_cr3.
      by apply (st_page _ _ _ _ _ S1).
    + rewrite <- (st_cr3 _ _ _ _ _ S2), under_cr3. by apply (st_page _ _ _ _ _ S2).
  - intros d a x Hd Ha T.
    destruct (st_reach _ _ _ _ _ S2 d a x Hd Ha T) as [(E1 & E2 & E3)|T1]; [split; intros E; [congruence|done]|].
    destruct (st_reach _ _ _ _ _ S1 d a x Hd Ha T1) as [(E1 & E2 & E3)|T0]; [split; intros E; [done|congruence]|].
    split; intros E; [by destruct (Nf d a x (list_elem_of_further _ _ _ Hd) Ha T0)
      |by destruct (Ng d a x (list_elem_of_further _ _ _ Hd) Ha T0)].
Qed.

Section Two.
Context (D : list Z) (H : kheap) (k : kernel) (qs : queues) (L : gmap Z (list Z)) (vb : list bool) (m N' : nat).
Context (ts : list Z) (up : pool) (u U : nat) (p q : proc).

Lemma one_user_mode : kernel_ok D H k qs L vb (first_used m N') ts -> (m < N')%nat -> fresh_process D k p ->
  proc_place H up (mask_byte k) p -> users_ready D H k L up (first_used u U) -> (u < U)%nat -> is_u32 (pr_file p) ->
  exists k2, enters_user_mode p k k2 /\ stack_given D (k_vm k) (k_vm k2) (pr_frame p) (user_frame up u)
    /\ kernel_ok D H k2 qs L vb (first_used (S m) N') ts /\ users_ready D H k2 L up (first_used (S u) U)
    /\ mask_byte k2 = mask_byte k
    /\ (fresh_process D k q -> proc_place H up (mask_byte k) q -> proc_apart p q -> fresh_process D k2 q).
Proof.
  intros K Hm Fp Pp Ur Hu Hf.
  destruct (process_user_mode D H k qs L vb _ ts up _ p K Fp Pp Ur (first_clear _ _ Hm) (first_clear _ _ Hu) Hf)
    as (j0 & j & k2 & E & [Hj0 Hl0] & [Hj Hl] & Sg & K2 & U2 & Em & Fq).
  apply first_used_lowest in Hj0 as ->; [|lia|exact Hl0]. apply first_used_lowest in Hj as ->; [|lia|exact Hl].
  rewrite insert_first_used in K2 by lia. rewrite insert_first_used in U2 by lia.
  exists k2. split; [exact E|]. split; [exact Sg|]. split; [exact K2|]. split; [exact U2|].
  split; [unfold mask_byte; by rewrite Em|exact (Fq q)].
Qed.

End Two.

Lemma two_user_modes D H k qs L vb m N' ts up u U p q : kernel_ok D H k qs L vb (first_used m N') ts ->
  (m + 2 <= N')%nat -> fresh_process D k p -> fresh_process D k q -> proc_place H up (mask_byte k) p ->
  proc_place H up (mask_byte k) q -> proc_apart p q -> users_ready D H k L up (first_used u U) -> (u + 2 <= U)%nat ->
  is_u32 (pr_file p) -> is_u32 (pr_file q) ->
  exists k1 k2, enters_user_mode p k k1 /\ enters_user_mode q k1 k2
    /\ isolated D (k_vm k2) p q (user_frame up u) (user_frame up (S u))
    /\ kernel_ok D H k2 qs L vb (first_used (m + 2) N') ts /\ users_ready D H k2 L up (first_used (u + 2) U).
Proof.
  intros K Hm Fp Fq Pp Pq Ap Ur Hu Hfp Hfq.
  destruct (one_user_mode D H k qs L vb m N' ts up u U p q K ltac:(lia) Fp Pp Ur ltac:(lia) Hfp)
    as (k1 & E1 & S1 & K1 & U1 & Em & Fq1).
  destruct (one_user_mode D H k1 qs L vb (S m) N' ts up (S u) U q p K1 ltac:(lia) (Fq1 Fq Pq Ap)
    ltac:(by rewrite Em) U1 ltac:(lia) Hfq) as (k2 & E2 & S2 & K2 & U2 & _).
  replace (m + 2)%nat with (S (S m)) by lia. replace (u + 2)%nat with (S (S u)) by lia.
  exists k1, k2. split; [exact E1|]. split; [exact E2|]. split; [|split; [exact K2|exact U2]].
  assert (Nb : forall j : nat, (u <= j < U)%nat -> nobody_has D (k_vm k) (user_frame up j)).
  { intros j Hj. apply (uf_free _ _ _ _ _ (ur_frames _ _ _ _ _ _ Ur)), first_used_free; lia. }
  eapply stacks_isolated; [exact S1|exact S2| |apply Ap|apply Fp|apply Fq|apply Nb; lia|apply Nb; lia].
  unfold user_frame, PG_SIZE. lia.
Qed.

(** ** In the kernel that [main] runs *)

Section Started.
Context (total : Z) (table : Z -> Z) (im : image) (esp : Z).
Context (Hfits : memory_fits total) (Hone : 0 < kernel_pages total).
Implicit Types (D : list Z) (k : kernel) (L : gmap Z (list Z)) (qs : queues).

#[local] Notation memory := (kernel_memory total table).

Lemma running_users_ready D k qs L n ts : running_ok total table D k qs L n ts -> users_spare total D (k_vm k) ->
  users_ready D memory k L (user_frames total) (no_users total).
Proof.
  intros [_ _ Hm _ [U1 U2 U3]] Hs. destruct Hfits as [Ht He].
  destruct (pages_range total Ht) as (P1 & P2 & P3). destruct (maps_order total Hfits) as (_ & _ & _ & P4).
  constructor; [exact U1| |exact U3|].
  - constructor.
    + exact U2.
    + change (bit_num (btmp (user_frames total))) with (user_pages total). lia.
    + change (bit_num (btmp (user_frames total))) with (user_pages total).
      change (addr_base (user_frames total)) with (USED_MEM + PG_SIZE * kernel_pages total).
      unfold USED_MEM, PG_SIZE, PAGE in *. split; [zdiv_lia|lia].
    + done.
    + intros a. exact (user_byte_apart total table Hfits Hone a).
    + intros j [_ Hj]%lookup_replicate. apply Hs. lia.
  - intros a Ha Hk. by apply (mask_not_user total Hfits Hone k a Hm).
Qed.

Lemma procs_apart : proc_apart (proc1 im) (proc2 im).
Proof.
  split; [by vm_compute|]. intros a H1%main_proc_heap H2%main_proc_heap; [|lia..].
  unfold heap_page, PG_SIZE in *. lia.
Qed.

Lemma no_users_first : no_users total = first_used 0 (Z.to_nat (user_pages total)).
Proof. unfold no_users, first_used. by rewrite Nat.sub_0_r. Qed.

Lemma started_user_modes D k qs L n ts : running_ok total table D k qs L n ts -> both_wait total table im D k ->
  users_spare total D (k_vm k) -> Z.of_nat n + 2 <= kernel_pages total -> 
  exists k1 k2, enters_user_mode (proc1 im) k k1 /\ enters_user_mode (proc2 im) k1 k2
    /\ isolated D (k_vm k2) (proc1 im) (proc2 im) (user_frame (user_frames total) 0) (user_frame (user_frames total) 1)
    /\ kernel_ok D memory k2 qs L (taken total n) (taken total (n + 2)) ts.
Proof.
  intros R [[F1 P1 _] [F2 P2 _]] Hs Hn. destruct Hfits as [Ht _]. destruct (pages_range total Ht) as (Hu & _).
  pose proof (running_users_ready D k qs L n ts R Hs) as Ur. rewrite no_users_first in Ur.
  destruct (two_user_modes D memory k qs L _ n _ ts (user_frames total) 0 _ (proc1 im) (proc2 im)
    (rn_kernel _ _ _ _ _ _ _ _ R) ltac:(lia) F1 F2 P1 P2 procs_apart Ur ltac:(lia) ltac:(by vm_compute) ltac:(by vm_compute))
    as (k1 & k2 & E1 & E2 & I & K & _).
  by exists k1, k2.
Qed.

End Started.
End UserMode.
