(* ===== verification/Entry.v ===== *)
(** The ways into the kernel and out of it: [kernel/kernel.s] and
    [thread/switch.s].

    An interrupt and a system call push the whole context of the interrupted
    code ([struct intr_stack]) on the kernel's stack of the running thread;
    [task_trap], which a thread calls to give the processor away, pushes the
    registers a C function has to keep ([struct thread_stack]).  [resume] pops
    one or the other.

    A context is a value of the records of [Thread.v].  Of the stacks the
    model has the words the assembly code pushes; the frames of the C functions
    below them it leaves out. *)

From S2P Require Import Prelude Bytes Interrupt LinkedList Paging Ports Descriptors Kernel.
From S2P Require Import Console Idt Sched Timer Keyboard Sync Memory Thread.

Module Entry.
Import Interrupt LinkedList Paging Ports Descriptors Kernel Console Idt Sched Timer Keyboard Sync Memory Thread.

(** What the processor continues with. *)
Definition context : Set := fast_context + full_context.

(** ** Pushing *)

(** [push] for each word in turn; the result is the stack pointer. *)
Fixpoint pushes (esp : Z) (ws : list Z) : M kernel Z :=
  match ws with
  | [] => mret esp
  | w :: ws' => st32 (u32 (esp - 4)) w;; pushes (u32 (esp - 4)) ws'
  end.

(** [pushad] pushes the value esp had before it. *)
Definition pushad (esp : Z) (c : full_context) : M kernel Z :=
  pushes esp [c_eax c; c_ecx c; c_edx c; c_ebx c; esp; c_ebp c; c_esi c; c_edi c].

(** [push ds; push es; push fs; push gs; pushad; push ALL_SAVE_FLAG] *)
Definition save_context (esp : Z) (c : full_context) : M kernel Z :=
  esp ← pushes esp [c_ds c; c_es c; c_fs c; c_gs c];
  esp ← pushad esp c;
  pushes esp [ALL_SAVE_FLAG].

(** ** The processor

    An interrupt gate clears IF, TF, NT, RF and VM. *)
Definition EFLAGS_CLEARED : Z := 0x34300.

(** Entering through an interrupt gate: from user mode the processor loads the
    stack of [tss] and pushes ss and esp; it pushes eflags, cs and eip, and
    for some exceptions an error code. *)
Definition cpu_interrupt (err : option Z) (c : full_context) : M kernel Z :=
  eflags ← gets k_eflags;
  modify (with_eflags (Z.land eflags (Z.lnot EFLAGS_CLEARED)));;
  esp0 ← gets k_esp0;
  let '(esp, user) := match c_ss c with Some ss => (esp0, [ss; c_esp c]) | None => (c_esp c, []) end in
  pushes esp (user ++ [eflags; c_cs c; c_eip c] ++ match err with Some e => [e] | None => [] end).

(** [iret] loads EFLAGS, too. *)
Definition iret (c : full_context) : M kernel unit := modify (with_eflags (c_eflags c)).

(** ** [thread/switch.s] *)

(** [context_load] and the jump it ends with. *)
Definition resume (thread : Z) : M kernel context :=
  x ← context_load thread;
  match x with inl _ => mret tt | inr c => iret c end;;
  mret x.

(** [task_trap(thread)], called in the context [b]: [f_eip b] is where it
    returns to, and [f_esp b] the stack pointer it returns with, where the
    argument is. *)
Definition task_trap (b : fast_context) (thread : Z) : M kernel context :=
  esp ← pushes (f_esp b +! 4) [thread; f_eip b];
  esp ← pushes esp [f_esi b; f_edi b; f_ebx b; f_ebp b; FAST_SAVE_FLAG];
  eax ← ld32 (esp +! 24);
  on_tcb eax (tcb_stack_top esp);;
  next ← main_schedule;
  resume next.

(** [schedule] and [thread_block] with the context of the call of [task_trap]:
    the result is what the processor continues with, if it is not the code
    after the call. *)
Definition schedule_from (b : fast_context) : M kernel (option context) :=
  need ← gets (fun k => need_schedule (k_sched k));
  if negb (need : bool) then mret None
  else cur ← RUNNING_THREAD; x ← task_trap b cur; mret (Some x).

Definition thread_block_from (b : fast_context) (tsk_status : task_status) : M kernel (option context) :=
  ASSERT (may_block tsk_status)
    "tsk_status == TASK_BLOCKED || tsk_status == TASK_WAITING || tsk_status == TASK_HANGING";;
  int_save ← zoom eflags_of intr_disable;
  r ← RUNNING_THREAD;
  on_tcb r (tcb_status tsk_status);;
  r ← RUNNING_THREAD;
  scheduler_rq_leave r;;
  x ← schedule_from b;
  match x with
  | Some x => mret (Some x)
  | None => _ ← zoom eflags_of (intr_set_status int_save); mret None
  end.

(** ** [kernel/kernel.s] *)

Definition VECTOR_CNT : Z := 0x30.

(** The second argument of [VECTOR]: [ERROR_CODE] ([true]) where the processor
    has pushed an error code, [ZERO] elsewhere. *)
Definition vector_stub : list bool :=
  replicate 8 false ++ [true; false; true; true; true; true; true; false]
  ++ [false; true] ++ replicate 12 false ++ [true; false] ++ replicate 16 false.

Definition run_handler (fuel : nat) (cr2 : Z) (h : intr_handler) (vec : Z) : M kernel unit :=
  match h with
  | general_intr_handler_ptr => general_intr_handler fuel cr2 vec
  | intr_timer_handler_ptr => intr_timer_handler
  | intr_keyboard_handler_ptr => intr_keyboard_handler
  end.

(** The frame both entries build: a vector's stub pushes a zero in the place of
    a missing error code. *)
Definition push_frame (err : option Z) (push_zero : bool) (c : full_context) : M kernel Z :=
  esp ← cpu_interrupt err c;
  esp ← (if push_zero then pushes esp [0] else mret esp);
  save_context esp c.

(** The entry of vector [vec], in the context [c] of the interrupted code, which
    is that of the running thread. *)
Definition intr_entry (fuel : nat) (cr2 vec : Z) (err : option Z) (c : full_context) : M kernel context :=
  has_code ← deref (fun _ => vector_stub !! Z.to_nat vec);
  esp ← push_frame err (negb has_code) c;
  r ← RUNNING_THREAD;
  on_tcb r (tcb_stack_top esp);;
  zoom io_of (outb PIC_S_CTRL 0x20;; outb PIC_M_CTRL 0x20);;
  _ ← pushes esp [vec];
  h ← deref (fun k => idt_table (k_tables k) !! vec);
  run_handler fuel cr2 h vec;;
  next ← hwi_tail_handle;
  resume next.

(** [hwi_ret]: skips the save flag, pops the rest. *)
Definition hwi_ret (esp : Z) : M kernel full_context :=
  c ← all_load (esp +! 4);
  iret c;;
  mret c.

(** [syscall_entry]: the registers pushed last are the arguments; the result
    goes to the place of eax in the frame. *)
Definition syscall_entry (c : full_context) : M kernel full_context :=
  esp ← push_frame None true c;
  esp ← pushes esp [INT_SYSCALL; c_edx c; c_ecx c; c_ebx c];
  eax ← syscall_dispatch (c_eax c);
  let esp := esp +! 12 in
  st32 (esp +! (9 * 4)) eax;;
  hwi_ret (esp +! 4).

(** The entries number [VECTOR_CNT]; those with an error code are the
    exceptions for which the processor pushes one (#DF, #TS, #NP, #SS, #GP,
    #PF, #AC, and #SX of later processors), and 9, 15 are not among them. *)
Example vector_stubs : length vector_stub = Z.to_nat VECTOR_CNT
  /\ (fst <$> filter (fun p => p.2 = true) (imap pair vector_stub)) = [8; 10; 11; 12; 13; 14; 17; 30]%nat.
Proof. by vm_compute. Qed.

End Entry.
