(* ===== verification/EntrySpec.v ===== *)
(** Contexts on a stack: what the entries of [Entry.v] push, and what
    [context_load] pops.

    [context_words x d e] is the context [x] as the words of [struct
    intr_stack] or [struct thread_stack]; [saved k t x] says that they stand on
    the stack of thread [t] where [stack_top] points, so that loading the
    thread continues with [x] ([context_load_saved]). *)

From S2P Require Import Prelude Bytes Interrupt LinkedList Paging PageTable PageMap Words Ports Descriptors.
From S2P Require Import Kernel ReadyQueues Sched Sync Memory Thread ThreadSpec ProcessRun Idt Entry.

Module EntrySpec.
Import Interrupt LinkedList Paging PageTable PageMap Words Ports Descriptors Kernel ReadyQueues Sched.
Import Idt Sync Memory Thread ThreadSpec ProcessRun Entry.

(** ** Words in memory *)

Section Words.
Context (D : list Z).
Implicit Types (s v : vm) (k : kernel) (ws : list Z).

#[local] Instance data_mem : ByteMem vm := vm_mem D.

Definition words s (a : Z) ws : Prop := forall i w, ws !! i = Some w -> rd32 (a + 4 * Z.of_nat i) s = Ok w s.

(** The room [n] words take below [esp]. *)
Definition room_below s (esp n : Z) : Prop :=
  0 <= esp - 4 * n /\ esp < 2 ^ 32 /\ valid_block s (esp - 4 * n) (4 * n).

Lemma word_valid s a n (i : nat) : valid_block s a (4 * n) -> Z.of_nat i < n ->
  valid_block s (a + 4 * Z.of_nat i) 4.
Proof. intros V Hi. apply (block_word _ _ (4 * n)); [done|lia..]. Qed.

(** The words stay, also in another address space, where the bytes do. *)
Lemma words_moved s v a ws : moved D D s v (in_block a (4 * Z.of_nat (length ws))) ->
  valid_block s a (4 * Z.of_nat (length ws)) -> words s a ws -> words v a ws.
Proof.
  intros M V W i w Hi. pose proof (lookup_lt_Some _ _ _ Hi) as Hl.
  apply (rd32_moved D D s v); [|by eapply word_valid; [exact V|lia]|by apply W].
  intros x Hx. apply M. unfold in_block in *. lia.
Qed.

Lemma words_load k a ws i w : words (k_vm k) a ws -> ws !! i = Some w ->
  ld32 (a + 4 * Z.of_nat i) k = Ok w k.
Proof.
  intros W H%W. unfold ld32. erewrite zoom_ok by exact H. simpl. by rewrite with_vm_id.
Qed.

Lemma st32_ok k a w : valid_block (k_vm k) a 4 -> is_u32 w ->
  exists v, st32 a w k = Ok tt (with_vm v k) /\ modifies (in_block a 4) (k_vm k) v /\ rd32 a v = Ok w v.
Proof.
  intros V Hw. destruct (zoom_vm_ok (wr32 a w) k
    (fun _ v => modifies (in_block a 4) (k_vm k) v /\ rd32 a v = Ok w v)) as ([] & v & E & H).
  { wp_use (by apply wr32_ok). by intros [] v. }
  exists v. by split.
Qed.

Lemma room_less s esp n m : room_below s esp n -> 0 <= m <= n -> room_below s esp m.
Proof.
  intros (H1 & H2 & V) Hm. split; [lia|]. split; [done|]. intros i Hi.
  replace (esp - 4 * m + i) with (esp - 4 * n + (4 * (n - m) + i)) by lia. apply V. lia.
Qed.

Lemma room_after P s s' esp n m : modifies P s s' -> room_below s esp (n + m) -> 0 <= n -> 0 <= m ->
  room_below s' (esp - 4 * n) m.
Proof.
  intros M (H1 & H2 & V) Hn Hm. split; [lia|]. split; [lia|].
  eapply valid_block_modifies; [exact M|]. intros i Hi.
  replace (esp - 4 * n - 4 * m + i) with (esp - 4 * (n + m) + i) by lia. apply V. lia.
Qed.

Lemma pushes_ok ws k esp : room_below (k_vm k) esp (Z.of_nat (length ws)) ->
  Forall (fun w => is_u32 w) ws ->
  exists v, pushes esp ws k = Ok (esp - 4 * Z.of_nat (length ws)) (with_vm v k)
    /\ modifies (in_block (esp - 4 * Z.of_nat (length ws)) (4 * Z.of_nat (length ws))) (k_vm k) v
    /\ words v (esp - 4 * Z.of_nat (length ws)) (rev ws).
Proof.
  revert k esp. induction ws as [|w ws IH]; intros k esp R F.
  - exists (k_vm k). rewrite with_vm_id. cbn [pushes length Nat2Z.inj rev]. replace (esp - 4 * Z.of_nat 0) with esp by lia.
    split; [done|]. split; [done|]. intros i w Hi. by rewrite lookup_nil in Hi.
  - apply Forall_cons in F as [Hw F]. cbn [length] in *. set (n := Z.of_nat (length ws)) in *.
    replace (Z.of_nat (S (length ws))) with (1 + n) in * by lia.
    assert (R1 : room_below (k_vm k) esp 1) by (eapply room_less; [exact R|lia]).
    destruct R1 as (H1 & H2 & V1).
    destruct (st32_ok k (esp - 4) w) as (v1 & E1 & M1 & W1); [exact V1|done|].
    destruct (IH (with_vm v1 k) (esp - 4)) as (v & E & M & W).
    { replace (esp - 4) with (esp - 4 * 1) by lia. eapply room_after; [exact M1|exact R|lia..]. }
    { done. }
    fold n in E, M, W. replace (esp - 4 - 4 * n) with (esp - 4 * (1 + n)) in * by lia.
    exists v. split; [|split].
    + cbn [pushes]. rewrite u32_small by lia. erewrite bind_ok by exact E1. exact E.
    + etransitivity; eapply modifies_weaken; [exact M1| |exact M|]; unfold in_block; intros b; lia.
    + intros i x Hi. cbn [rev] in Hi. apply lookup_app_Some in Hi as [Hi|[Hl Hi]]; [by apply W|].
      rewrite length_rev in *. apply list_lookup_singleton_Some in Hi as [Hi <-].
      replace (esp - 4 * (1 + n) + 4 * Z.of_nat i) with (esp - 4) by lia.
      eapply rd32_modifies; [exact M|by eapply valid_block_modifies| |exact W1].
      unfold in_block. intros j Hj. lia.
Qed.

(** Pushes one after the other. *)
Lemma pushes_app esp ws1 ws2 k : pushes esp (ws1 ++ ws2) k = (esp ← pushes esp ws1; pushes esp ws2) k.
Proof.
  revert esp k. induction ws1 as [|w ws1 IH]; intros esp k; [done|]. cbn [app pushes].
  unfold mbind, M_bind in *. destruct (st32 _ _ k) as [[] k1| | | |]; [apply IH|done..].
Qed.

Lemma pushes_then ws1 ws2 esp k (f : Z -> M kernel Z) : let n := Z.of_nat (length ws1) in
  room_below (k_vm k) esp (n + Z.of_nat (length ws2)) -> Forall (fun w => is_u32 w) ws1 ->
  (forall v, room_below v (esp - 4 * n) (Z.of_nat (length ws2)) ->
     f (esp - 4 * n) (with_vm v k) = pushes (esp - 4 * n) ws2 (with_vm v k)) ->
  (esp ← pushes esp ws1; f esp) k = pushes esp (ws1 ++ ws2) k.
Proof.
  intros n R F Hf. destruct (pushes_ok ws1 k esp) as (v & E & M & _); [|done|].
  { eapply room_less; [exact R|]. unfold n. lia. }
  rewrite pushes_app. erewrite !bind_ok by exact E. apply Hf. eapply room_after; [exact M|exact R|unfold n; lia..].
Qed.

(** ** Contexts *)

Definition context_words (x : context) (d e : Z) : list Z :=
  match x with
  | inl b => [FAST_SAVE_FLAG; f_ebp b; f_ebx b; f_edi b; f_esi b; f_eip b]
  | inr c => [ALL_SAVE_FLAG; c_edi c; c_esi c; c_ebp c; d; c_ebx c; c_edx c; c_ecx c; c_eax c;
      c_gs c; c_fs c; c_es c; c_ds c; e; c_eip c; c_cs c; c_eflags c]
      ++ match c_ss c with Some ss => [c_esp c; ss] | None => [] end
  end.

Definition frame_size (x : context) : Z := 4 * Z.of_nat (length (context_words x 0 0)).

(** A context that stands at [top] on a stack. *)
Definition context_at (x : context) (top : Z) : Prop :=
  match x with
  | inl b => f_esp b = top + frame_size x
  | inr c => (c_cs c mod 4 = 3 <-> is_Some (c_ss c)) /\ (c_ss c = None -> c_esp c = top + frame_size x)
  end.

Lemma frame_size_words x d e : 4 * Z.of_nat (length (context_words x d e)) = frame_size x.
Proof. destruct x as [b|c]; [done|]. unfold frame_size, context_words. by destruct (c_ss c). Qed.

Lemma frame_size_range x : 24 <= frame_size x <= INTR_STACK_SIZE.
Proof.
  destruct x as [b|c]; [by vm_compute|]. unfold frame_size, context_words, INTR_STACK_SIZE.
  rewrite length_app. destruct (c_ss c); cbn [length]; lia.
Qed.

(** ** Loading *)

Ltac load_word W i := erewrite bind_ok by
  (match goal with |- ld32 ?x _ = _ => match type of W with words _ ?a _ =>
     replace x with (a + 4 * Z.of_nat i) by (rewrite ?frame_sum, u32_small; lia) end end;
   eapply words_load; [exact W|reflexivity]).

Lemma fast_load_words k a b d e : 0 <= a -> a + 24 < 2 ^ 32 ->
  words (k_vm k) a (context_words (inl b) d e) -> f_esp b = a + 24 -> fast_load (a +! 4) k = Ok b k.
Proof.
  intros H1 H2 W Hb. unfold context_words in W. unfold fast_load.
  load_word W 1%nat. load_word W 2%nat. load_word W 3%nat. load_word W 4%nat. load_word W 5%nat.
  replace (a +! 4 +! 20) with (f_esp b) by (rewrite frame_sum, u32_small; lia). by destruct b.
Qed.

Lemma all_load_words k a c d e : 0 <= a -> a + frame_size (inr c) < 2 ^ 32 ->
  words (k_vm k) a (context_words (inr c) d e) -> context_at (inr c) a -> all_load (a +! 4) k = Ok c k.
Proof.
  unfold frame_size. intros H1 H2 W [Hcs Hesp]. unfold context_words in *. rewrite length_app in H2.
  cbn [length] in H2. unfold all_load.
  load_word W 1%nat. load_word W 2%nat. load_word W 3%nat. load_word W 5%nat. load_word W 6%nat.
  load_word W 7%nat. load_word W 8%nat. load_word W 9%nat. load_word W 10%nat. load_word W 11%nat.
  load_word W 12%nat. load_word W 14%nat. load_word W 15%nat. load_word W 16%nat.
  destruct c as [edi esi ebp ebx edx ecx eax gs fs es ds eip cs eflags sp ss]; simpl in *.
  destruct ss as [ss|]; cbn [length] in H2.
  - rewrite (proj2 (Z.eqb_eq _ _)) by by apply Hcs; eexists.
    erewrite (bind_ok _ _ _ (sp, Some ss)); [done|]. load_word W 17%nat. by load_word W 18%nat.
  - rewrite (proj2 (Z.eqb_neq _ _)) by (intros [? ?]%Hcs; done).
    erewrite (bind_ok _ _ _ (a +! 4 +! 64, None)); [|done]. rewrite Hesp by done.
    unfold mret, M_ret. do 2 f_equal. change (frame_size _) with 68. rewrite frame_sum, u32_small; lia.
Qed.

(** The context of thread [t], on the thread's stack. *)
Definition on_stack s (t top : Z) (x : context) : Prop :=
  t + TCB_SIZE <= top /\ top + frame_size x <= t + PG_SIZE /\ context_at x top
  /\ exists d e, words s top (context_words x d e).

Definition saved k (t : Z) (x : context) : Prop :=
  exists tc, k_tcbs k !! t = Some tc /\ on_stack (k_vm k) t (stack_top tc) x.

Lemma context_load_saved k t x : 0 < t < 2 ^ 32 - PG_SIZE -> saved k t x -> context_load t k = Ok x k.
Proof.
  unfold PG_SIZE. intros Ht (tc & Htc & H1 & H2 & Hx & d & e & W). unfold TCB_SIZE, PG_SIZE in *.
  pose proof (frame_size_range x). unfold context_load. erewrite bind_ok by by apply get_tcb_ok. cbv zeta.
  assert (E : forall w, context_words x d e !! 0%nat = Some w -> ld32 (stack_top tc) k = Ok w k).
  { intros w Hw. replace (stack_top tc) with (stack_top tc + 4 * Z.of_nat 0) by lia. by eapply words_load. }
  destruct x as [b|c].
  - erewrite bind_ok by (apply E; reflexivity). change (FAST_SAVE_FLAG =? ALL_SAVE_FLAG) with false. cbv iota.
    erewrite bind_ok; [done|]. eapply fast_load_words; [lia|lia|exact W|exact Hx].
  - erewrite bind_ok by (apply E; reflexivity). rewrite Z.eqb_refl.
    erewrite bind_ok; [done|]. eapply all_load_words; [lia|lia|exact W|exact Hx].
Qed.

Definition resumed (x : context) k : kernel :=
  match x with inl _ => k | inr c => with_eflags (c_eflags c) k end.

Lemma resume_ok k t x : 0 < t < 2 ^ 32 - PG_SIZE -> saved k t x -> resume t k = Ok x (resumed x k).
Proof.
  intros Ht S. unfold resume. erewrite bind_ok by by apply context_load_saved. by destruct x.
Qed.

(** ** Saving *)

(** Where the processor starts to push. *)
Definition entry_top k (c : full_context) : Z :=
  match c_ss c with Some _ => k_esp0 k | None => c_esp c end.

Definition registers (c : full_context) : list Z :=
  [c_edi c; c_esi c; c_ebp c; c_ebx c; c_edx c; c_ecx c; c_eax c; c_gs c; c_fs c; c_es c; c_ds c;
   c_eip c; c_cs c; c_eflags c; c_esp c] ++ match c_ss c with Some ss => [ss] | None => [] end.

(** What an entry needs of the stack: the frame, and four words below it. *)
Definition ENTRY_ROOM : Z := INTR_STACK_SIZE + 16.

(** [c] is the context of the running thread [t], which has room on its
    stack. *)
Record live k (t : Z) (c : full_context) : Prop := {
  lv_regs : Forall (fun w => is_u32 w) (registers c);
  lv_flags : c_eflags c = k_eflags k;
  lv_mode : c_cs c mod 4 = 3 <-> is_Some (c_ss c);
  lv_room : t + TCB_SIZE + ENTRY_ROOM <= entry_top k c <= t + PG_SIZE
}.

Lemma bind_same {A B} (m m' : M kernel A) (f : A -> M kernel B) k k' :
  m k = m' k' -> (m ≫= f) k = (m' ≫= f) k'.
Proof. unfold mbind, M_bind. by intros ->. Qed.

Definition saved_words (c : full_context) (d : Z) : list Z :=
  [c_ds c; c_es c; c_fs c; c_gs c] ++ [c_eax c; c_ecx c; c_edx c; c_ebx c; d; c_ebp c; c_esi c; c_edi c]
  ++ [ALL_SAVE_FLAG].

Definition cpu_words k (err : option Z) (c : full_context) : list Z :=
  match c_ss c with Some ss => [ss; c_esp c] | None => [] end ++ [k_eflags k; c_cs c; c_eip c]
  ++ match err with Some e => [e] | None => [] end.

Definition interrupted k : kernel := with_eflags (Z.land (k_eflags k) (Z.lnot EFLAGS_CLEARED)) k.

Lemma cpu_interrupt_eq k err c :
  cpu_interrupt err c k = pushes (entry_top k c) (cpu_words k err c) (interrupted k).
Proof.
  unfold cpu_interrupt, entry_top, cpu_words. do 3 (erewrite bind_ok by reflexivity).
  by destruct (c_ss c).
Qed.

Lemma save_context_eq k esp c : Forall (fun w => is_u32 w) (registers c) -> room_below (k_vm k) esp 13 ->
  save_context esp c k = pushes esp (saved_words c (esp - 16)) k
  /\ Forall (fun w => is_u32 w) (saved_words c (esp - 16)).
Proof.
  intros F R. assert (Hd : is_u32 (esp - 16)) by (destruct R; lia).
  unfold registers in F. rewrite Forall_app, !Forall_cons in F. destruct F as (F & _).
  assert (F0 : is_u32 ALL_SAVE_FLAG) by (unfold ALL_SAVE_FLAG; lia).
  split; [|unfold saved_words; cbn [app]; rewrite !Forall_cons; tauto].
  unfold save_context, saved_words. apply (pushes_then _ _ _ _ _); [exact R|rewrite !Forall_cons; tauto|].
  intros v Rv. cbn [length Nat2Z.inj] in *. unfold pushad. apply (pushes_then _ _ _ _ _); [exact Rv| |done].
  rewrite !Forall_cons. tauto.
Qed.

(** The room below the top of the stack. *)
Lemma stack_room s t top n : valid_block s t PG_SIZE -> 0 < t < 2 ^ 32 - PG_SIZE ->
  t <= top - 4 * n -> top <= t + PG_SIZE -> 0 <= n -> room_below s top n.
Proof.
  intros V Ht H1 H2 Hn. split; [lia|]. split; [lia|]. intros i Hi.
  replace (top - 4 * n + i) with (t + (top - 4 * n - t + i)) by lia. apply V. lia.
Qed.

(** What the vector's stub or the processor pushes in the place of the error
    code. *)
Definition code_pushed (err : option Z) (z : bool) (e : Z) : Prop :=
  if z then err = None /\ e = 0 else err = Some e.

Lemma push_frame_eq k c err z e : Forall (fun w => is_u32 w) (registers c) -> is_u32 (k_eflags k) ->
  is_u32 e -> code_pushed err z e ->
  room_below (k_vm k) (entry_top k c) (Z.of_nat (length (context_words (inr c) 0 0))) ->
  exists d, let ws := cpu_words k None c ++ [e] ++ saved_words c d in
    push_frame err z c k = pushes (entry_top k c) ws (interrupted k)
    /\ Forall (fun w => is_u32 w) ws.
Proof.
  intros F Hf He Hc R. pose (n := length (cpu_words k None c)).
  assert (Hn : Z.of_nat (length (context_words (inr c) 0 0)) = Z.of_nat n + 14).
  { unfold n, context_words, cpu_words. by destruct (c_ss c). }
  rewrite Hn in R. set (esp := entry_top k c - 4 * Z.of_nat n - 4). exists (esp - 16). intros ws.
  assert (Fc : Forall (fun w => is_u32 w) (cpu_words k None c)).
  { unfold registers in F. unfold cpu_words. rewrite Forall_app, !Forall_cons in F. destruct F as (F & Fs).
    rewrite !Forall_app, !Forall_cons. destruct (c_ss c); rewrite ?Forall_cons in *; tauto. }
  assert (Fe : Forall (fun w => is_u32 w) [e]) by by apply Forall_singleton.
  destruct (save_context_eq k esp c) as [_ Fs]; [done| |].
  { replace esp with (entry_top k c - 4 * (Z.of_nat n + 1)) by (unfold esp; lia).
    eapply (room_after (fun _ => False)); [reflexivity| |lia|lia]. by replace (_ + 1 + 13) with (Z.of_nat n + 14) by lia. }
  split; [|unfold ws; by rewrite !Forall_app].
  assert (S : forall v, room_below v esp 13 ->
    save_context esp c (with_vm v (interrupted k)) = pushes esp (saved_words c (esp - 16)) (with_vm v (interrupted k)))
    by (intros v Rv; by apply save_context_eq).
  unfold push_frame. erewrite bind_same by apply cpu_interrupt_eq. unfold ws. destruct z.
  - destruct Hc as [-> ->]. apply (pushes_then _ _ _ _ (fun esp => esp' ← pushes esp [0]; save_context esp' c));
      [eapply room_less; [exact R|cbn [length app saved_words]; lia]|done|].
    intros v Rv. apply (pushes_then [0] _ _ _ (fun esp => save_context esp c)); [exact Rv|done|].
    intros v' Rv'. exact (S v' Rv').
  - cbn in Hc. subst err.
    replace (cpu_words k (Some e) c) with (cpu_words k None c ++ [e])
      by (unfold cpu_words; by rewrite <- !app_assoc).
    rewrite app_assoc. apply (pushes_then _ _ _ _ (fun esp => esp' ← mret esp; save_context esp' c)).
    + rewrite length_app. eapply room_less; [exact R|]. fold n. cbn [length app saved_words]. lia.
    + by rewrite Forall_app.
    + intros v Rv. rewrite length_app in *. cbn [length] in *. fold n in Rv |- *.
      replace (entry_top k c - 4 * Z.of_nat (n + 1)) with esp in * by (unfold esp; lia).
      erewrite bind_ok by reflexivity. exact (S v Rv).
Qed.

Lemma push_frame_ok k t c err z e : live k t c -> 0 < t < 2 ^ 32 - PG_SIZE ->
  valid_block (k_vm k) t PG_SIZE -> is_u32 e -> code_pushed err z e ->
  let top := entry_top k c - frame_size (inr c) in
  exists v, push_frame err z c k = Ok top (with_vm v (interrupted k))
    /\ modifies (in_block top (frame_size (inr c))) (k_vm k) v /\ on_stack v t top (inr c).
Proof.
  intros [F Hf Hm Hr] Ht V He Hc top. unfold ENTRY_ROOM in Hr.
  pose proof (frame_size_range (inr c)) as Hs. pose proof (frame_size_words (inr c) 0 0) as Hw.
  assert (Hf' : is_u32 (k_eflags k)).
  { rewrite <- Hf. unfold registers in F. rewrite Forall_app, !Forall_cons in F. tauto. }
  assert (R : room_below (k_vm k) (entry_top k c) (Z.of_nat (length (context_words (inr c) 0 0)))).
  { eapply stack_room; [exact V|done|..]; unfold TCB_SIZE in *; lia. }
  destruct (push_frame_eq k c err z e F Hf' He Hc R) as (d & E & Fw).
  set (ws := cpu_words k None c ++ [e] ++ saved_words c d) in *.
  assert (Hrev : rev ws = context_words (inr c) d e).
  { unfold ws, context_words, cpu_words. rewrite Hf. by destruct (c_ss c). }
  assert (Hlen : 4 * Z.of_nat (length ws) = frame_size (inr c)).
  { by rewrite <- (length_rev ws), Hrev, (frame_size_words _ d e). }
  destruct (pushes_ok ws (interrupted k) (entry_top k c)) as (v & Ep & M & W); [|done|].
  { eapply room_less; [exact R|lia]. }
  rewrite Hlen in *. fold top in Ep, M, W. exists v. rewrite E. split; [exact Ep|]. split; [exact M|].
  split; [unfold top, TCB_SIZE in *; lia|]. split; [unfold top; lia|]. split.
  - split; [done|]. intros Hn. unfold top, entry_top. rewrite Hn. lia.
  - exists d, e. by rewrite <- Hrev.
Qed.

(** A context stays on its stack while the frame does, or the page. *)
Lemma on_stack_frame s v t top x : moved D D s v (in_block top (frame_size x)) -> valid_block s t PG_SIZE ->
  on_stack s t top x -> on_stack v t top x.
Proof.
  intros M V (H1 & H2 & Hx & d & e & W). do 3 (split; [done|]). exists d, e.
  pose proof (frame_size_words x d e) as Hw. unfold TCB_SIZE in H1.
  apply (words_moved s); [| |exact W]; rewrite Hw; [exact M|].
  intros i Hi. replace (top + i) with (t + (top - t + i)) by lia. apply V. lia.
Qed.

Lemma on_stack_moved s v t top x : moved D D s v (in_block t PG_SIZE) -> valid_block s t PG_SIZE ->
  on_stack s t top x -> on_stack v t top x.
Proof.
  intros M V On. eapply on_stack_frame; [|exact V|exact On]. destruct On as (H1 & H2 & _).
  intros a Ha. apply M. unfold in_block, TCB_SIZE in *. lia.
Qed.

(** ** [task_trap] *)

(** The running thread [t] calls [task_trap] in the context [b]: there is room
    for the argument, the return address and the registers. *)
Record calling (t : Z) (b : fast_context) : Prop := {
  ca_regs : Forall (fun w => is_u32 w) [f_ebp b; f_ebx b; f_edi b; f_esi b; f_eip b];
  ca_room : t + TCB_SIZE + frame_size (inl b) <= f_esp b <= t + PG_SIZE - 4
}.

Lemma task_trap_ok k t tc b : calling t b -> 0 < t < 2 ^ 32 - PG_SIZE ->
  valid_block (k_vm k) t PG_SIZE -> k_tcbs k !! t = Some tc ->
  let top := f_esp b - frame_size (inl b) in
  exists v, task_trap b t k = (next ← main_schedule; resume next)
      (with_tcbs (<[t := tcb_stack_top top tc]> (k_tcbs k)) (with_vm v k))
    /\ modifies (in_block t PG_SIZE) (k_vm k) v /\ on_stack v t top (inl b).
Proof.
  intros [F Hr] Ht V Htc top. pose proof (eq_refl : frame_size (inl b) = 24) as Hs. rewrite Hs in *.
  set (ws := [t; f_eip b] ++ [f_esi b; f_edi b; f_ebx b; f_ebp b; FAST_SAVE_FLAG]).
  unfold TCB_SIZE, PG_SIZE in *. assert (Et : f_esp b +! 4 = f_esp b + 4) by (apply u32_small; lia).
  assert (Fw : Forall (fun w => is_u32 w) ws).
  { rewrite !Forall_cons in F. unfold ws. cbn [app]. rewrite !Forall_cons.
    assert (is_u32 t) by lia. assert (is_u32 FAST_SAVE_FLAG) by (unfold FAST_SAVE_FLAG; lia). tauto. }
  assert (R : room_below (k_vm k) (f_esp b + 4) 7) by (eapply stack_room; [exact V|unfold PG_SIZE; lia..]).
  destruct (pushes_ok ws k (f_esp b + 4) R Fw) as (v & E & M & W). 
  change (Z.of_nat (length ws)) with 7 in *. replace (f_esp b + 4 - 4 * 7) with top in * by (unfold top; lia).
  exists v. split; [|split].
  - unfold task_trap. rewrite Et. unfold ws in E. rewrite pushes_app in E.
    unfold mbind at 1, M_bind at 1 in E.
    destruct (pushes (f_esp b + 4) [t; f_eip b] k) as [esp k1| | | |] eqn:E1; [|done..].
    erewrite bind_ok by exact E1. erewrite bind_ok by exact E.
    erewrite (bind_ok _ _ _ t).
    2: { replace (top +! 24) with (top + 4 * Z.of_nat 6) by (unfold top; rewrite u32_small; lia).
         by eapply words_load; [exact W|]. }
    by erewrite bind_ok by (by apply on_tcb_ok).
  - eapply modifies_weaken; [exact M|]. unfold in_block, top. intros a. lia.
  - split; [unfold top, TCB_SIZE; lia|]. split; [unfold top, PG_SIZE; lia|].
    split; [unfold context_at; rewrite Hs; unfold top; lia|]. exists 0, 0. intros i w Hi.
    apply W. unfold context_words in Hi. cbn [rev ws app]. do 6 (destruct i as [|i]; [exact Hi|]). done.
Qed.

(** ** System calls *)

Definition with_eax (r : Z) (c : full_context) : full_context :=
  mkFull (c_edi c) (c_esi c) (c_ebp c) (c_ebx c) (c_edx c) (c_ecx c) r (c_gs c) (c_fs c) (c_es c)
    (c_ds c) (c_eip c) (c_cs c) (c_eflags c) (c_esp c) (c_ss c).

Lemma words_store k a ws (i : nat) w : valid_block (k_vm k) a (4 * Z.of_nat (length ws)) ->
  (i < length ws)%nat -> is_u32 w -> words (k_vm k) a ws ->
  exists v, st32 (a + 4 * Z.of_nat i) w k = Ok tt (with_vm v k)
    /\ modifies (in_block (a + 4 * Z.of_nat i) 4) (k_vm k) v /\ words v a (<[i := w]> ws).
Proof.
  intros V Hi Hw W. assert (V4 : valid_block (k_vm k) (a + 4 * Z.of_nat i) 4) by (eapply word_valid; [exact V|lia]).
  destruct (st32_ok k _ w V4 Hw) as (v & E & M & Wi). exists v. do 2 (split; [done|]).
  intros j x Hx. destruct (decide (i = j)) as [<-|N].
  - rewrite list_lookup_insert_eq in Hx by done. by injection Hx as <-.
  - rewrite list_lookup_insert_ne in Hx by done. pose proof (lookup_lt_Some _ _ _ Hx).
    eapply rd32_modifies; [exact M|eapply word_valid; [exact V|lia]| |by apply W].
    unfold in_block. intros y Hy. lia.
Qed.

(** The frame lies in the page. *)
Lemma frame_valid s t top x : valid_block s t PG_SIZE -> t + TCB_SIZE <= top ->
  top + frame_size x <= t + PG_SIZE -> valid_block s top (frame_size x).
Proof.
  unfold TCB_SIZE. intros V H1 H2 i Hi. replace (top + i) with (t + (top - t + i)) by lia. apply V. lia.
Qed.

Lemma syscall_entry_ok k t tc c : live k t c -> 0 < t < 2 ^ 32 - PG_SIZE ->
  valid_block (k_vm k) t PG_SIZE -> running_thread (k_sched k) = t -> k_tcbs k !! t = Some tc ->
  syscall_table (k_tables k) !! c_eax c = Some sys_pid_get_ptr ->
  exists v, syscall_entry c k = Ok (with_eax (u32 (pid tc)) c) (with_vm v k)
    /\ modifies (in_block t PG_SIZE) (k_vm k) v.
Proof.
  intros Lv Ht V Hr Htc Hs. pose proof Lv as [F Hf Hm Hroom]. unfold ENTRY_ROOM, TCB_SIZE in Hroom.
  destruct (push_frame_ok k t c None true 0 Lv Ht V) as (v1 & E1 & M1 & S1); [lia|done|].
  set (top := entry_top k c - frame_size (inr c)) in *. pose proof (frame_size_range (inr c)) as Hsz.
  destruct S1 as (S1 & S2 & Sx & d & e & W1). pose proof (frame_size_words (inr c) d e) as Hw.
  assert (V1 : valid_block v1 t PG_SIZE) by by eapply valid_block_modifies.
  unfold TCB_SIZE, PG_SIZE in *.
  assert (Fa : Forall (fun w => is_u32 w) [INT_SYSCALL; c_edx c; c_ecx c; c_ebx c]).
  { unfold registers in F. rewrite Forall_app, !Forall_cons in F. rewrite !Forall_cons.
    assert (is_u32 INT_SYSCALL) by (unfold INT_SYSCALL; lia). tauto. }
  destruct (pushes_ok [INT_SYSCALL; c_edx c; c_ecx c; c_ebx c] (with_vm v1 (interrupted k)) top)
    as (v2 & E2 & M2 & _); [eapply stack_room; [exact V1|unfold PG_SIZE; cbn [length]; lia..]|done|].
  change (4 * Z.of_nat (length [_; _; _; _])) with 16 in *.
  assert (V2 : valid_block v2 t 4096) by by eapply valid_block_modifies.
  assert (Vf : forall s, valid_block s t 4096 -> valid_block s top (4 * Z.of_nat (length (context_words (inr c) d e)))).
  { intros s Vs. rewrite Hw. apply (frame_valid s t); [exact Vs|unfold TCB_SIZE; lia|unfold PG_SIZE; lia]. }
  assert (W2 : words v2 top (context_words (inr c) d e)).
  { apply (words_moved v1); [|by apply Vf|exact W1]. eapply modifies_moved; [exact M2|]. unfold in_block. intros a. lia. }
  assert (H8 : (8 < length (context_words (inr c) d e))%nat).
  { unfold context_words. rewrite length_app. cbn [length]. lia. }
  destruct (words_store (with_vm v2 (interrupted k)) top _ 8 (u32 (pid tc)) (Vf _ V2) H8 (u32_range _) W2)
    as (v3 & E3 & M3 & W3).
  exists v3. split.
  - unfold syscall_entry. erewrite bind_ok by exact E1. erewrite bind_ok by exact E2.
    erewrite (bind_ok _ _ _ (u32 (pid tc))).
    2: { unfold syscall_dispatch. erewrite bind_ok by reflexivity. cbv beta.
         change (k_tables (with_vm _ _)) with (k_tables k). rewrite Hs. unfold sys_pid_get.
         erewrite bind_ok by reflexivity. change (k_sched (with_vm _ _)) with (k_sched k). rewrite Hr.
         by erewrite bind_ok by by apply get_tcb_ok. }
    cbv zeta. rewrite !frame_sum. replace (top - 16 +! (12 + 9 * 4)) with (top + 4 * Z.of_nat 8) by (rewrite u32_small; lia).
    erewrite bind_ok by exact E3. unfold hwi_ret. replace (top - 16 +! (12 + 4)) with top by (rewrite u32_small; lia).
    erewrite bind_ok.
    2: { apply (all_load_words _ top (with_eax (u32 (pid tc)) c) d e); [lia| |exact W3|exact Sx].
         change (frame_size (inr (with_eax (u32 (pid tc)) c))) with (frame_size (inr c)). lia. }
    erewrite bind_ok by reflexivity. unfold mret, M_ret. f_equal. simpl. rewrite Hf. by destruct k.
  - etransitivity; [etransitivity|]; (eapply modifies_weaken; [eassumption|]); unfold in_block; intros a; lia.
Qed.

End Words.
End EntrySpec.
