(* ===== verification/Switching.v ===== *)
(** Threads that give each other the processor, with their contexts.

    [step k e k']: from one moment in which the running thread has the
    processor to the next.  The thread works ([Work]: it may write its own
    page of control block and stack, and other memory that belongs to no
    thread); the clock interrupts it, or it blocks - [Switch t c n x]: [t] had
    the context [c], and [n] continues with [x]; or it wakes a thread.

    [sound] is what the kernel needs for this; [parked G k] says that every
    thread that does not run stands on its stack with the context that [G]
    names. *)

From S2P Require Import Prelude Bytes Bitmap Interrupt LinkedList Paging PageTable Words Ports Descriptors.
From S2P Require Import Kernel ReadyQueues Sched Timer Sync Memory Thread ThreadSpec ProcessRun Idt Entry EntrySpec.

Module Switching.
Import Bitmap Interrupt LinkedList Paging PageTable Words Ports Descriptors Kernel ReadyQueues Sched Timer.
Import Sync Memory Thread ThreadSpec ProcessRun Idt Entry EntrySpec.

Section Switching.
Context (D : list Z).
Implicit Types (s v : vm) (k : kernel) (qs : queues) (L : gmap Z (list Z)) (G : gmap Z context).

#[local] Instance data_mem : ByteMem vm := vm_mem D.

(** ** The steps *)

(** The memory the running thread [r] may write: no byte of another thread's
    page, nor of the mask of the ready queues. *)
Definition own_memory k (r a : Z) : Prop :=
  ~ mask_byte k a /\ forall t, is_Some (k_tcbs k !! t) -> t <> r -> ~ in_block t PG_SIZE a.

(** What the thread does by itself: registers, memory, ports, semaphores and
    buffers. *)
Record works k k' : Prop := {
  wo_memory : modifies (own_memory k (running_thread (k_sched k))) (k_vm k) (k_vm k');
  wo_links : k_links k' = k_links k;
  wo_tcbs : k_tcbs k' = k_tcbs k;
  wo_sched : k_sched k' = k_sched k;
  wo_tables : k_tables k' = k_tables k
}.

Inductive event : Set :=
| Work
| Wake (t : Z)
| Switch (t : Z) (c : context) (n : Z) (x : context).

Inductive step k : event -> kernel -> Prop :=
| step_work k' : works k k' -> step k Work k'
| step_wake t k' : t <> running_thread (k_sched k) -> thread_unblock t k = Ok tt k' -> step k (Wake t) k'
| step_clock fuel cr2 c x k' : if_flag (k_eflags k) = true ->
    live k (running_thread (k_sched k)) c ->
    intr_entry fuel cr2 INT_TIMER None c k = Ok x k' ->
    step k (Switch (running_thread (k_sched k)) (inr c) (running_thread (k_sched k')) x) k'
| step_block b st x k' : calling (running_thread (k_sched k)) b ->
    thread_block_from b st k = Ok (Some x) k' ->
    step k (Switch (running_thread (k_sched k)) (inl b) (running_thread (k_sched k')) x) k'.

Inductive steps k : list event -> kernel -> Prop :=
| steps_nil : steps k [] k
| steps_cons e k1 es k' : step k e k1 -> steps k1 es k' -> steps k (e :: es) k'.

(** Who gives the processor away is remembered with its context; who gets it
    must continue with what is remembered of it. *)
Definition remember (e : event) G : gmap Z context :=
  match e with Switch t c _ _ => <[t := c]> G | _ => G end.
Definition continues (e : event) G : Prop :=
  match e with Switch _ _ n x => remember e G !! n = Some x | _ => True end.
Fixpoint all_continue (es : list event) G : Prop :=
  match es with [] => True | e :: es' => continues e G /\ all_continue es' (remember e G) end.

(** What is remembered after a run. *)
Definition contexts (es : list event) G : gmap Z context := fold_left (fun G e => remember e G) es G.

(** ** The invariant *)

Record sound k qs L : Prop := {
  so_rep : sched_rep D k qs L;
  so_intact t tc : k_tcbs k !! t = Some tc -> stack_magic tc = STACK_MAGIC /\ 0 <= ticks tc <= MAX_TICKS;
  so_ready t tc : k_tcbs k !! t = Some tc -> queued t qs -> may_block (status tc) = false;
  so_pages t : is_Some (k_tcbs k !! t) -> valid_block (k_vm k) t PG_SIZE;
  so_apart t a : is_Some (k_tcbs k !! t) -> mask_byte k a -> ~ in_block t PG_SIZE a;
  so_clock : idt_table (k_tables k) !! INT_TIMER = Some intr_timer_handler_ptr;
  so_end : k_links k !! THIS_RQ 0xffffffff = None
}.

Definition parked k G (t : Z) : Prop := exists x, G !! t = Some x /\ saved k t x.

(** The stack the processor takes when [t] is in user mode. *)
Definition esp0_ready k (t : Z) : Prop :=
  forall tc, k_tcbs k !! t = Some tc -> pg_dir tc <> NULL -> k_esp0 k = u32 (t + PG_SIZE).

Record threads_ok k qs L G : Prop := {
  th_sound : sound k qs L;
  th_running : running k qs (running_thread (k_sched k));
  th_esp0 : esp0_ready k (running_thread (k_sched k));
  th_parked t : is_Some (k_tcbs k !! t) -> t <> running_thread (k_sched k) -> parked k G t
}.

(** A thread's page is not another's. *)
Lemma pages_apart k qs L t1 t2 a : sched_rep D k qs L -> is_Some (k_tcbs k !! t1) ->
  is_Some (k_tcbs k !! t2) -> t1 <> t2 -> in_block t1 PG_SIZE a -> ~ in_block t2 PG_SIZE a.
Proof.
  intros R H1%(sr_aligned _ _ _ _ R) H2%(sr_aligned _ _ _ _ R) N. unfold in_block, PG_SIZE in *. zdiv_lia.
Qed.

Lemma thread_range k qs L t : sched_rep D k qs L -> is_Some (k_tcbs k !! t) -> 0 < t < 2 ^ 32 - PG_SIZE.
Proof. intros R [tc Ht]. by apply (sr_tcbs _ _ _ _ R t tc Ht). Qed.

(** ** What keeps it *)

(** A control block that changed, but for what a switch needs. *)
Definition kin (tc tc' : tcb) : Prop :=
  stack_top tc' = stack_top tc /\ pg_dir tc' = pg_dir tc /\ stack_magic tc' = stack_magic tc
  /\ 0 <= ticks tc' <= MAX_TICKS.

Definition all_kin k k' : Prop := forall t,
  match k_tcbs k !! t, k_tcbs k' !! t with
  | Some tc, Some tc' => kin tc tc'
  | None, None => True
  | _, _ => False
  end.

Lemma all_kin_some k k' t : all_kin k k' -> is_Some (k_tcbs k' !! t) <-> is_Some (k_tcbs k !! t).
Proof. intros K. specialize (K t). destruct (k_tcbs k !! t), (k_tcbs k' !! t); by rewrite ?is_Some_alt. Qed.

Lemma sound_next k k' qs L qs' L' : sound k qs L -> sched_rep D k' qs' L' -> all_kin k k' ->
  (forall t tc, k_tcbs k' !! t = Some tc -> queued t qs' -> may_block (status tc) = false) ->
  (forall a, vm_valid D (k_vm k) a -> vm_valid D (k_vm k') a) ->
  rq_mask (k_sched k') = rq_mask (k_sched k) -> idt_table (k_tables k') = idt_table (k_tables k) ->
  dom (k_links k') = dom (k_links k) -> sound k' qs' L'.
Proof.
  intros [R I S P A C E] R' K S' V Em Et Ed. constructor; try done.
  - intros t tc' Ht. pose proof (K t) as Kt. rewrite Ht in Kt.
    destruct (k_tcbs k !! t) as [tc|] eqn:Ht0; [|done]. destruct Kt as (_ & _ & -> & ?).
    split; [|done]. by apply (I t tc).
  - intros t Ht%(all_kin_some _ _ _ K) i Hi. by apply V, P.
  - intros t a Ht%(all_kin_some _ _ _ K). unfold mask_byte. rewrite Em. by apply A.
  - by rewrite Et.
  - apply not_elem_of_dom. rewrite Ed. by apply not_elem_of_dom.
Qed.

Lemma parked_next k k' G t : parked k G t -> all_kin k k' ->
  moved D D (k_vm k) (k_vm k') (in_block t PG_SIZE) -> valid_block (k_vm k) t PG_SIZE -> parked k' G t.
Proof.
  intros (x & Hx & tc & Ht & On) K M V. exists x. split; [done|]. pose proof (K t) as Kt. rewrite Ht in Kt.
  destruct (k_tcbs k' !! t) as [tc'|] eqn:Ht'; [|done]. destruct Kt as (Et & _).
  exists tc'. split; [done|]. rewrite Et. by eapply on_stack_moved.
Qed.

(** The moment in the scheduler where every thread stands on its stack. *)
Record paused k qs L G (r : Z) : Prop := {
  pa_sound : sound k qs L;
  pa_running : running k qs r;
  pa_esp0 : esp0_ready k r;
  pa_parked t : is_Some (k_tcbs k !! t) -> parked k G t
}.

Lemma paused_ok k qs L G r : paused k qs L G r -> threads_ok k qs L G.
Proof.
  intros [S R E P]. pose proof (proj1 R) as Hr. constructor; rewrite ?Hr; [done..|].
  intros t Ht _. by apply P.
Qed.

Lemma kin_insert k k' qs L t tc tc' : sound k qs L -> k_tcbs k !! t = Some tc ->
  k_tcbs k' = <[t := tc']> (k_tcbs k) -> kin tc tc' -> all_kin k k'.
Proof.
  intros S Ht E K x. rewrite E, lookup_insert. case_decide as Ex; [subst x; by rewrite Ht|].
  destruct (k_tcbs k !! x) as [xc|] eqn:Hx; [|done]. do 3 (split; [done|]).
  by apply (so_intact _ _ _ S x xc).
Qed.

Lemma status_insert k k' qs L t tc' : sound k qs L -> k_tcbs k' = <[t := tc']> (k_tcbs k) ->
  (queued t qs -> may_block (status tc') = false) ->
  forall x xc, k_tcbs k' !! x = Some xc -> queued x qs -> may_block (status xc) = false.
Proof.
  intros S E Hs x xc. rewrite E, lookup_insert. case_decide as Ex; [subst x; by intros [= <-]|].
  apply (so_ready _ _ _ S).
Qed.

(** Other memory was written. *)
Lemma rep_write k qs L P v : sched_rep D k qs L -> modifies P (k_vm k) v ->
  (forall a, mask_byte k a -> ~ P a) -> sched_rep D (with_vm v k) qs L.
Proof.
  intros R M HP. assert (K : vm_keeps D (k_vm k) v) by exact (modifies_keeps _ _ _ M).
  pose proof (sr_cr3 _ _ _ _ R) as Hc. destruct R. constructor; try done; simpl.
  - eapply bitmap_rep_modifies; [exact M| |exact sr_mask0]. intros i Hi. apply HP. unfold mask_byte. lia.
  - intros t tc Ht. destruct (sr_tcbs0 t tc Ht) as (H1 & H2 & H3 & H4). do 3 (split; [done|]).
    destruct H4 as [H4|H4]; [by left|right]. by eapply dir_ok_keeps.
  - by rewrite (proj1 K).
Qed.

(** The context of a thread is saved. *)
Lemma park_sound k qs L G r tc v top x k' : sound k qs L -> k_tcbs k !! r = Some tc ->
  (forall t, is_Some (k_tcbs k !! t) -> t <> r -> parked k G t) ->
  modifies (in_block r PG_SIZE) (k_vm k) v -> on_stack v r top x ->
  k_vm k' = v -> k_tcbs k' = <[r := tcb_stack_top top tc]> (k_tcbs k) -> k_links k' = k_links k ->
  rq_mask (k_sched k') = rq_mask (k_sched k) -> k_tables k' = k_tables k ->
  sound k' qs L /\ forall t, is_Some (k_tcbs k' !! t) -> parked k' (<[r := x]> G) t.
Proof.
  intros S Ht Pk M On Ev Et El Es Eb. set (tc' := tcb_stack_top top tc) in *.
  pose proof (so_rep _ _ _ S) as R. assert (Hsome : is_Some (k_tcbs k !! r)) by by eexists.
  assert (Hdom : forall t, is_Some (k_tcbs k' !! t) -> is_Some (k_tcbs k !! t)).
  { intros t. rewrite Et, lookup_insert. case_decide as E; [by subst t|done]. }
  assert (R1 : sched_rep D k' qs L).
  { apply (rep_tcb_at D (with_vm v k) k' qs L r tc tc'); try done; [|by left].
    eapply rep_write; [exact R|exact M|]. intros a Ha. by apply (so_apart _ _ _ S). }
  assert (Mv : forall t, is_Some (k_tcbs k !! t) -> t <> r -> moved D D (k_vm k) v (in_block t PG_SIZE)).
  { intros t Hx N. eapply modifies_moved; [exact M|]. intros a Ha.
    exact (pages_apart k qs L t r a R Hx Hsome N Ha). }
  split.
  - destruct S as [_ I St P A C En]. constructor; [exact R1|..].
    + intros t xc. rewrite Et, lookup_insert. case_decide as E; [subst t; intros [= <-]; by apply (I r tc)|apply I].
    + intros t xc. rewrite Et, lookup_insert. case_decide as E; [subst t; intros [= <-]; by apply (St r tc)|apply St].
    + intros t Hx%Hdom. rewrite Ev. eapply valid_block_modifies; [exact M|by apply P].
    + intros t a Hx%Hdom. unfold mask_byte. rewrite Es. by apply A.
    + by rewrite Eb.
    + by rewrite El.
  - intros t Hx. destruct (decide (t = r)) as [->|N].
    + exists x. split; [apply lookup_insert_eq|]. exists tc'. rewrite Et, Ev. split; [apply lookup_insert_eq|done].
    + apply Hdom in Hx. destruct (Pk t Hx N) as (y & Hy & tc1 & Ht1 & On1).
      exists y. rewrite lookup_insert_ne by done. split; [done|]. exists tc1.
      rewrite Et, Ev, lookup_insert_ne by done. split; [done|].
      eapply on_stack_moved; [by apply Mv|by apply (so_pages _ _ _ S)|exact On1].
Qed.

Lemma park k qs L G r tc v top x k' : threads_ok k qs L G -> running_thread (k_sched k) = r ->
  k_tcbs k !! r = Some tc -> modifies (in_block r PG_SIZE) (k_vm k) v -> on_stack v r top x ->
  k_vm k' = v -> k_tcbs k' = <[r := tcb_stack_top top tc]> (k_tcbs k) -> k_links k' = k_links k ->
  k_sched k' = k_sched k -> k_tables k' = k_tables k ->
  paused k' qs L (<[r := x]> G) r.
Proof.
  intros [S Rn E0 Pk] Hr Ht M On Ev Et El Es Eb. rewrite Hr in *.
  destruct (park_sound k qs L G r tc v top x k' S Ht Pk M On Ev Et El) as [S' Pk']; [by rewrite Es|done|].
  constructor; [exact S'| | |exact Pk'].
  - destruct Rn as (Hr' & tc0 & q & Ht0 & Hst & Hq & Hin). rewrite Ht in Ht0. injection Ht0 as <-.
    split; [by rewrite Es|]. exists (tcb_stack_top top tc), q. rewrite Et. split; [apply lookup_insert_eq|done].
  - intros xc. rewrite Et, lookup_insert_eq. intros [= <-]. unfold k_esp0. rewrite Eb. exact (E0 tc Ht).
Qed.

(** ** Picking the next thread *)

Lemma dispatch_next k qs L G p next : sound k qs L -> (forall t, is_Some (k_tcbs k !! t) -> parked k G t) ->
  first_ready qs = Some (p, next) ->
  exists k', dispatch k = Ok next k' /\ paused k' qs L G next /\ k_sched k' = sched_running next (k_sched k).
Proof.
  intros S Pk Hf. destruct (dispatch_ok D k qs L p next (so_rep _ _ _ S) Hf) as (tn & d & Htn & Hd & Hdir & E & R').
  set (k' := dispatched k next tn d) in *. exists k'. split; [exact E|]. split; [|done].
  assert (Et : k_tcbs k' = <[next := tcb_status TASK_RUNNING tn]> (k_tcbs k)) by done.
  assert (K : all_kin k k').
  { eapply kin_insert; [exact S|exact Htn|exact Et|]. do 3 (split; [done|]). by apply (so_intact _ _ _ S _ _ Htn). }
  assert (Mv : forall P, moved D D (k_vm k) (k_vm k') P) by (intros P a _ Va; by apply (vm_switch_valid D)).
  constructor.
  - eapply sound_next; [exact S|exact R'|exact K| | |done..].
    + eapply status_insert; [exact S|exact Et|done].
    + intros a Va. by apply (Mv (fun _ => True)).
  - by eapply (dispatched_running D).
  - intros tc. rewrite Et, lookup_insert_eq. intros [= <-] Hn. simpl in Hn.
    change (k_esp0 k') with (esp0_for next tn (k_esp0 k)). unfold esp0_for. by rewrite (proj2 (Z.eqb_neq _ _) Hn).
  - intros t Hx%(all_kin_some _ _ _ K). eapply parked_next; [by apply Pk|exact K|apply Mv|by apply (so_pages _ _ _ S)].
Qed.

(** [main_schedule] at the end of an interrupt. *)
Lemma schedule_next k qs L G r : paused k qs L G r ->
  exists next k' qs' L', main_schedule k = Ok next k' /\ paused k' qs' L' G next
    /\ (need_schedule (k_sched k) = false -> next = r /\ k' = k /\ qs' = qs)
    /\ (need_schedule (k_sched k) = true -> need_schedule (k_sched k') = false
          /\ (exists p, first_ready qs' = Some (p, next))
          /\ forall tc, k_tcbs k !! r = Some tc -> qs' = demote (Z.to_nat (priority tc)) r qs).
Proof.
  intros Pa. pose proof Pa as [S Rn E0 Pk]. pose proof Rn as (Hr & tc & q & Ht & Hst & Hq & Hin).
  destruct (need_schedule (k_sched k)) eqn:Hneed.
  2: { exists r, k, qs, L. split; [by eapply main_schedule_same|]. split; [done|]. by split. }
  set (k0 := with_sched (sched_need false (k_sched k)) k).
  assert (R0 : sched_rep D k0 qs L) by (by apply (rep_ext D k); [..|apply S]).
  destruct (slice_over_ok D k0 _ _ _ _ _ R0 Ht Hst Hq Hin) as (h & v & L' & E & R1 & Hd & Hm & Ho).
  change (modifies (mask_byte k) (k_vm k) v) in Hm. change (k_tcbs k0) with (k_tcbs k) in *.
  set (k1 := with_tcbs (<[r := requeued tc]> (k_tcbs k)) (with_vm v (with_links h k0))) in *.
  destruct (demote_ready D _ _ _ _ _ _ (so_rep _ _ _ S) Hq Hin) as (p & next & Hf).
  assert (Et : k_tcbs k1 = <[r := requeued tc]> (k_tcbs k)) by done.
  destruct (sr_tcbs _ _ _ _ (so_rep _ _ _ S) _ _ Ht) as (Hprio & _).
  assert (K : all_kin k k1).
  { eapply kin_insert; [exact S|exact Ht|exact Et|]. do 3 (split; [done|]). simpl. apply ticks_get_range.
    by apply (next_priority_level tc). }
  assert (S1 : sound k1 (demote (Z.to_nat (priority tc)) r qs) L').
  { eapply sound_next; [exact S|exact R1|exact K| | |done|done|exact Hd].
    - intros t xc Hx Hqd. apply (demote_queued _ _ t _ _ (rep_wf D _ _ _ (so_rep _ _ _ S)) Hq Hin) in Hqd.
      revert Hqd. by eapply status_insert; [exact S|exact Et| |exact Hx].
    - intros a Va. exact (modifies_valid _ _ _ a Hm Va). }
  assert (P1 : forall t, is_Some (k_tcbs k1 !! t) -> parked k1 G t).
  { intros t Hx%(all_kin_some _ _ _ K). eapply parked_next; [by apply Pk|exact K| |by apply (so_pages _ _ _ S)].
    eapply modifies_moved; [exact Hm|]. intros a Ha Hma. by apply (so_apart _ _ _ S t a). }
  destruct (dispatch_next k1 _ _ G p next S1 P1 Hf) as (k' & E' & Pa' & Es).
  exists next, k', (demote (Z.to_nat (priority tc)) r qs), L'. split.
  { unfold main_schedule. erewrite bind_ok by done. rewrite Hr. erewrite bind_ok by by apply get_tcb_ok.
    erewrite bind_ok by done. rewrite Hneed. erewrite bind_ok by done. by erewrite bind_ok by exact E. }
  split; [exact Pa'|]. split; [done|]. intros _. split.
  - by rewrite Es.
  - split; [by exists p|]. intros tc'. rewrite Ht. by intros [= <-].
Qed.


(** ** The clock *)

Lemma paused_resumed k qs L G r x : paused k qs L G r -> paused (resumed x k) qs L G r.
Proof.
  destruct x as [b|c]; [done|]. intros [[R I St P A C En] Rn E0 Pk]. constructor; [|done..].
  constructor; try done. by apply (rep_ext D k).
Qed.

(** A tick, and whether the slice is over. *)
Lemma paused_tick k qs L G r tc : paused k qs L G r -> k_tcbs k !! r = Some tc ->
  exists k' tc', intr_timer_handler k = Ok tt k' /\ paused k' qs L G r /\ k_tcbs k' !! r = Some tc'
    /\ priority tc' = priority tc
    /\ (ticks tc = 0 /\ need_schedule (k_sched k') = true
        \/ ticks tc' = ticks tc - 1 /\ 0 < ticks tc /\ need_schedule (k_sched k') = need_schedule (k_sched k)).
Proof.
  intros [S Rn E0 Pk] Ht. pose proof Rn as (Hr & tc0 & q & Ht0 & Hst & Hq & Hin).
  rewrite Ht in Ht0. injection Ht0 as <-. destruct (so_intact _ _ _ S r tc Ht) as [Hm Hk].
  pose proof (handler_tick k r tc Hr Ht Hm) as E. cbv zeta in E.
  assert (W : forall k' tc', k_vm k' = k_vm k -> k_links k' = k_links k -> k_tables k' = k_tables k ->
    rq_mask (k_sched k') = rq_mask (k_sched k) -> running_thread (k_sched k') = r ->
    k_tcbs k' = <[r := tc']> (k_tcbs k) -> status tc' = status tc -> priority tc' = priority tc ->
    kin tc tc' -> paused k' qs L G r).
  { intros k' tc' Ev El Eb Em Er Et Es Ep Kn.
    assert (K : all_kin k k') by (eapply kin_insert; [exact S|exact Ht|exact Et|exact Kn]).
    constructor.
    - eapply sound_next; [exact S| |exact K| | |exact Em|by rewrite Eb|by rewrite El].
      + eapply (rep_tcb_at D k k'); [apply S|exact Ht|done..|by left|apply Kn].
      + eapply status_insert; [exact S|exact Et|]. rewrite Es. by apply (so_ready _ _ _ S).
      + intros a. by rewrite Ev.
    - split; [exact Er|]. exists tc', q. rewrite Et, Es, Ep. split; [apply lookup_insert_eq|done].
    - intros xc. rewrite Et, lookup_insert_eq. intros [= <-]. unfold k_esp0. rewrite Eb.
      destruct Kn as (_ & -> & _). exact (E0 tc Ht).
    - intros t Hx%(all_kin_some _ _ _ K). eapply parked_next; [by apply Pk|exact K| |by apply (so_pages _ _ _ S)].
      rewrite Ev. by intros a _ Va. }
  destruct (Z.eqb_spec (ticks tc) 0) as [Hz|Hz].
  - eexists _, _. split; [exact E|]. split; [|split; [apply lookup_insert_eq|]].
    + eapply W; [try reflexivity..|exact (conj eq_refl (conj eq_refl (conj eq_refl Hk)))]. exact Hr.
    + split; [done|]. by left.
  - eexists _, _. split; [exact E|]. split; [|split; [apply lookup_insert_eq|]].
    + eapply W; [try reflexivity..|split; [done|split; [done|split; [done|simpl]]]]; [exact Hr|].
      unfold MAX_TICKS in *. rewrite u32_small; lia.
    + split; [done|]. right. simpl. unfold MAX_TICKS in *. rewrite u32_small by lia. split; [done|]. split; [lia|done].
Qed.

(** The entry, up to the handler. *)
Lemma intr_entry_saves fuel cr2 c k qs L G r : threads_ok k qs L G -> running_thread (k_sched k) = r ->
  live k r c -> exists k' tc tc', k_tcbs k !! r = Some tc
    /\ intr_entry fuel cr2 INT_TIMER None c k = (intr_timer_handler;; next ← hwi_tail_handle; resume next) k'
    /\ paused k' qs L (<[r := inr c]> G) r /\ k_tcbs k' !! r = Some tc'
    /\ ticks tc' = ticks tc /\ priority tc' = priority tc /\ k_sched k' = k_sched k.
Proof.
  intros Th Hr Lv. pose proof Th as [S Rn _ _]. rewrite Hr in Rn. destruct Rn as (_ & tc & q & Ht & _).
  assert (Hsome : is_Some (k_tcbs k !! r)) by by eexists.
  pose proof (thread_range _ _ _ _ (so_rep _ _ _ S) Hsome) as Hrange.
  pose proof (so_pages _ _ _ S r Hsome) as V. pose proof (frame_size_range (inr c)) as Hs.
  pose proof (lv_room _ _ _ Lv) as Room. unfold ENTRY_ROOM, TCB_SIZE in Room.
  destruct (push_frame_ok D k r c None true 0 Lv Hrange V) as (v1 & E1 & M1 & On1); [lia|done|].
  set (top := entry_top k c - frame_size (inr c)) in *.
  set (k1 := with_tcbs (<[r := tcb_stack_top top tc]> (k_tcbs k)) (with_vm v1 (interrupted k))).
  destruct (zoom io_of (outb PIC_S_CTRL 0x20;; outb PIC_M_CTRL 0x20) k1) as [[] k2| | | |] eqn:E2; [|done..].
  assert (E2' : exists i, k2 = with_io i k1).
  { unfold zoom in E2. simpl in E2. injection E2 as <-. by eexists. }
  destruct E2' as [i ->].
  assert (V1 : valid_block v1 r PG_SIZE) by by eapply valid_block_modifies.
  destruct (pushes_ok D [INT_TIMER] (with_io i k1) top) as (v2 & E3 & M2 & _).
  { eapply stack_room; [exact V1|exact Hrange|cbn [length]; unfold PG_SIZE in *; lia..]. }
  { apply Forall_singleton. unfold INT_TIMER. lia. }
  exists (with_vm v2 (with_io i k1)), tc, (tcb_stack_top top tc).
  split; [done|]. split; [|split; [|split; [apply lookup_insert_eq|done]]].
  - unfold intr_entry. erewrite (bind_ok _ _ _ false) by reflexivity. erewrite bind_ok by exact E1.
    erewrite bind_ok by reflexivity. change (running_thread _) with (running_thread (k_sched k)). rewrite Hr.
    erewrite bind_ok by (by apply on_tcb_ok). erewrite bind_ok by exact E2. erewrite bind_ok by exact E3.
    erewrite (bind_ok _ _ _ intr_timer_handler_ptr); [reflexivity|]. unfold deref.
    change (idt_table (k_tables (with_vm v2 (with_io i k1)))) with (idt_table (k_tables k)).
    by rewrite (so_clock _ _ _ S).
  - eapply (park k qs L G r tc v2 top (inr c)); [exact Th|exact Hr|exact Ht| | |done..].
    + etransitivity; (eapply modifies_weaken; [eassumption|]); unfold in_block, PG_SIZE in *; cbn [length]; intros a; lia.
    + eapply on_stack_frame; [|exact V1|exact On1]. eapply modifies_moved; [exact M2|].
      unfold in_block. cbn [length]. intros a. lia.
Qed.

Lemma paused_range k qs L G r : paused k qs L G r -> 0 < r < 2 ^ 32 - PG_SIZE.
Proof.
  intros [S (_ & tc & q & Ht & _) _ _]. eapply thread_range; [apply S|by eexists].
Qed.

(** The thread that is picked continues with what is remembered of it. *)
Lemma resume_next k qs L G r : paused k qs L G r ->
  exists x, G !! r = Some x /\ resume r k = Ok x (resumed x k) /\ paused (resumed x k) qs L G r.
Proof.
  intros Pa. pose proof Pa as [S (_ & tc & q & Ht & _) _ Pk].
  destruct (Pk r) as (x & Hx & Sv); [by eexists|]. exists x. split; [done|].
  split; [by eapply resume_ok; [eapply paused_range|]|by apply paused_resumed].
Qed.

(** How far the running thread is in its time slice. *)
Definition slice_at k qs (r : Z) (p m : nat) : Prop :=
  need_schedule (k_sched k) = false /\ first_ready qs = Some (p, r)
  /\ exists tc, k_tcbs k !! r = Some tc /\ ticks tc = Z.of_nat m.

(** A clock interrupt. *)
Lemma clock_next fuel cr2 c k qs L G r : threads_ok k qs L G -> running_thread (k_sched k) = r ->
  live k r c -> exists x k' qs' L', intr_entry fuel cr2 INT_TIMER None c k = Ok x k'
    /\ threads_ok k' qs' L' (<[r := inr c]> G)
    /\ <[r := inr c]> G !! running_thread (k_sched k') = Some x
    /\ (forall p m, slice_at k qs r p (S m) -> qs' = qs /\ running_thread (k_sched k') = r /\ slice_at k' qs' r p m)
    /\ (forall p, slice_at k qs r p 0 -> qs' = slice qs
          /\ exists p' m, (m <= 11)%nat /\ slice_at k' qs' (running_thread (k_sched k')) p' m)
    /\ (forall tc, need_schedule (k_sched k) = true -> k_tcbs k !! r = Some tc ->
          qs' = demote (Z.to_nat (priority tc)) r qs
          /\ exists p' m, (m <= 11)%nat /\ slice_at k' qs' (running_thread (k_sched k')) p' m).
Proof.
  intros Th Hr Lv.
  destruct (intr_entry_saves fuel cr2 c k qs L G r Th Hr Lv) as (k1 & tc & tc1 & Ht & E & Pa1 & Ht1 & Etk & Epr & Es1).
  destruct (paused_tick k1 qs L _ r tc1 Pa1 Ht1) as (k2 & tc2 & E2 & Pa2 & Ht2 & Epr2 & Hcase).
  destruct (schedule_next k2 qs L _ r Pa2) as (next & k3 & qs' & L' & E3 & Pa3 & Hno & Hyes).
  destruct (resume_next k3 qs' L' _ next Pa3) as (x & Hx & E4 & Pa4).
  exists x, (resumed x k3), qs', L'. split.
  { rewrite E. erewrite bind_ok by exact E2. unfold hwi_tail_handle. by erewrite bind_ok by exact E3. }
  split; [by eapply paused_ok|]. pose proof (proj1 (pa_running _ _ _ _ _ Pa4)) as Hr4. rewrite Hr4.
  split; [done|]. assert (Eres : k_sched (resumed x k3) = k_sched k3 /\ k_tcbs (resumed x k3) = k_tcbs k3)
    by by destruct x. destruct Eres as [Es4 Et4].
  assert (Hdue : need_schedule (k_sched k2) = true -> qs' = demote (Z.to_nat (priority tc)) r qs
    /\ exists p' m, (m <= 11)%nat /\ slice_at (resumed x k3) qs' next p' m).
  { intros Hn2. destruct (Hyes Hn2) as (Hn3 & (p' & Hf') & Hq'). rewrite (Hq' _ Ht2), Epr2, Epr. split; [done|].
    pose proof (pa_running _ _ _ _ _ Pa4) as (_ & tn & qn & Htn & _).
    destruct (so_intact _ _ _ (pa_sound _ _ _ _ _ Pa4) next tn Htn) as [_ Hk]. unfold MAX_TICKS in Hk.
    exists p', (Z.to_nat (ticks tn)). split; [lia|]. split; [by rewrite Es4|]. rewrite (Hq' _ Ht2), Epr2, Epr in Hf'.
    split; [done|]. exists tn. split; [done|]. lia. }
  split; [|split].
  - intros p m (Hn & Hf & tc0 & Ht0 & Htk). rewrite Ht in Ht0. injection Ht0 as <-.
    destruct Hcase as [[Hz _]|(Ht2' & _ & Hn2)]; [lia|].
    rewrite Es1, Hn in Hn2. destruct (Hno Hn2) as (Enext & -> & ->). do 2 (split; [done|]).
    split; [by rewrite Es4|]. split; [done|]. exists tc2. rewrite Et4. split; [done|]. lia.
  - intros p (Hn & Hf & tc0 & Ht0 & Htk). rewrite Ht in Ht0. injection Ht0 as <-.
    destruct Hcase as [[_ Hn2]|(_ & ? & _)]; [|lia]. destruct (Hdue Hn2) as [-> Hs]. split; [|exact Hs].
    unfold slice. rewrite Hf. f_equal. pose proof Hf as (q & Hq & _)%first_ready_spec.
    destruct (sr_queued _ _ _ _ (so_rep _ _ _ (th_sound _ _ _ _ Th)) p _ r Hq) as (tc' & Ht' & Ep); [left|].
    rewrite Ht in Ht'. injection Ht' as <-. by rewrite Ep, Nat2Z.id.
  - intros tc0 Hn Ht0. rewrite Ht in Ht0. injection Ht0 as <-. apply Hdue.
    destruct Hcase as [[_ Hn2]|(_ & _ & Hn2)]; [done|]. by rewrite Hn2, Es1.
Qed.

(** ** The other steps *)

Lemma works_next k k' qs L G : threads_ok k qs L G -> works k k' -> threads_ok k' qs L G.
Proof.
  intros [S Rn E0 Pk] [M El Et Es Eb]. set (r := running_thread (k_sched k)) in *.
  assert (K : all_kin k k').
  { intros t. rewrite Et. destruct (k_tcbs k !! t) as [tc|] eqn:Ht; [|done]. do 3 (split; [done|]).
    by apply (so_intact _ _ _ S t tc). }
  assert (V : forall a, vm_valid D (k_vm k) a -> vm_valid D (k_vm k') a) by (intros a Va; exact (modifies_valid _ _ _ a M Va)).
  assert (R' : sched_rep D k' qs L).
  { apply (rep_ext D (with_vm (k_vm k') k)); [done|done|done|by rewrite Es|].
    eapply rep_write; [apply S|exact M|]. intros a Ha [Hn _]. by apply Hn. }
  constructor; rewrite ?Es.
  - eapply sound_next; [exact S|exact R'|exact K| |exact V|by rewrite Es|by rewrite Eb|by rewrite El].
    intros t tc. rewrite Et. apply (so_ready _ _ _ S).
  - destruct Rn as (_ & tc & q & Ht & H). split; [by rewrite Es|]. exists tc, q. by rewrite Et.
  - intros tc. rewrite Et. unfold k_esp0. rewrite Eb. apply E0.
  - intros t Ht N. rewrite Et in Ht. eapply parked_next; [by apply Pk|exact K| |by apply (so_pages _ _ _ S)].
    eapply modifies_moved; [exact M|]. intros a Ha [_ Hn]. by apply (Hn t).
Qed.

Lemma unblock_inv t k k' : thread_unblock t k = Ok tt k' ->
  exists tc, k_tcbs k !! t = Some tc /\ may_block (status tc) = true.
Proof.
  unfold thread_unblock, mbind, M_bind, get_tcb, deref. destruct (k_tcbs k !! t) as [tc|]; [|done].
  unfold ASSERT. intros H. exists tc. split; [done|]. by destruct (may_block (status tc)).
Qed.

Lemma wake_next t k k' qs L G : threads_ok k qs L G -> t <> running_thread (k_sched k) ->
  thread_unblock t k = Ok tt k' ->
  running_thread (k_sched k') = running_thread (k_sched k) /\ exists qs' L', threads_ok k' qs' L' G.
Proof.
  intros [S Rn E0 Pk] N E. set (r := running_thread (k_sched k)) in *.
  destruct (unblock_inv _ _ _ E) as (tc & Ht & Hst). pose proof (so_rep _ _ _ S) as R.
  assert (Hnq : ~ queued t qs).
  { intros Hq. by rewrite (so_ready _ _ _ S t tc Ht Hq) in Hst. }
  destruct (thread_unblock_ok D k qs L t tc R Ht Hst Hnq) as (h & v & L' & E' & R' & Hd & Hm & Ho).
  { destruct Rn as (_ & rc & _ & Hrc & _). by eexists. }
  rewrite E in E'. injection E' as ->. set (k' := woken k t tc h v) in *.
  set (qs' := enqueue_front (Z.to_nat (priority tc)) t qs) in *.
  assert (Et : k_tcbs k' = <[t := tcb_status TASK_READY tc]> (k_tcbs k)) by done.
  assert (Er : running_thread (k_sched k') = r) by apply (preempted_running k (priority tc)).
  assert (Em : rq_mask (k_sched k') = rq_mask (k_sched k)).
  { simpl. unfold preempted. destruct (k_tcbs k !! running_thread (k_sched k)); [|done]. by destruct (_ <? _). }
  assert (K : all_kin k k').
  { eapply kin_insert; [exact S|exact Ht|exact Et|]. do 3 (split; [done|]). by apply (so_intact _ _ _ S _ _ Ht). }
  split; [exact Er|]. exists qs', L'. constructor; rewrite ?Er.
  - eapply sound_next; [exact S|exact R'|exact K| | |exact Em|done|exact Hd].
    + intros x xc. rewrite Et, lookup_insert. case_decide as Ex; [subst x; by intros [= <-]|].
      intros Hx Hqd. apply (so_ready _ _ _ S x xc Hx). unfold qs' in Hqd.
      destruct (lookup_lt_is_Some_2 qs (Z.to_nat (priority tc))) as [q Hq].
      { rewrite (sr_levels _ _ _ _ R). destruct (sr_tcbs _ _ _ _ R _ _ Ht) as (Hp & _). unfold PRIO_NUM, LEVELS in *. lia. }
      rewrite (enqueue_front_queued _ _ _ _ _ Hq) in Hqd. by destruct Hqd as [->|].
    + intros a Va. exact (modifies_valid _ _ _ a Hm Va).
  - by eapply running_front.
  - intros xc. rewrite Et, lookup_insert_ne by done. apply E0.
  - intros x Hx%(all_kin_some _ _ _ K) Nx. eapply parked_next; [by apply Pk|exact K| |by apply (so_pages _ _ _ S)].
    eapply modifies_moved; [exact Hm|]. intros a Ha Hma. by apply (so_apart _ _ _ S x a).
Qed.

(** Blocking: the queues, then the stack, then the next thread. *)
Lemma block_leaves k qs L G r tc st : threads_ok k qs L G -> running_thread (k_sched k) = r ->
  k_tcbs k !! r = Some tc -> may_block st = true ->
  let k1 := with_tcbs (<[r := tcb_status st tc]> (k_tcbs k)) (with_eflags (with_if false (k_eflags k)) k) in
  exists k2 L2, scheduler_rq_leave r k1 = Ok tt k2 /\ sound k2 (leave (Z.to_nat (priority tc)) r qs) L2
    /\ (forall t, is_Some (k_tcbs k2 !! t) -> t <> r -> parked k2 G t)
    /\ k_tcbs k2 = k_tcbs k1 /\ need_schedule (k_sched k2) = true /\ running_thread (k_sched k2) = r.
Proof.
  intros [S Rn E0 Pk] Hr Ht Hst k1. rewrite Hr in *. pose proof (so_rep _ _ _ S) as R.
  destruct Rn as (_ & tc0 & q & Ht0 & Hs0 & Hq & Hin). rewrite Ht in Ht0. injection Ht0 as <-.
  assert (R1 : sched_rep D k1 qs L) by (apply (rep_tcb_at D k _ _ _ r tc (tcb_status st tc)); auto).
  destruct (rq_leave_only_ok D k1 qs L r (tcb_status st tc) q R1 (lookup_insert_eq _ _ _) Hq Hin)
    as (h & v & L2 & E & R2 & Hd & Hm & Ho).
  pose proof (rq_leave_ok _ _ _ E) as E'. change (running_thread _) with (running_thread (k_sched k)) in E'.
  rewrite Hr, Z.eqb_refl in E'. eexists _, L2. split; [exact E'|].
  set (k2 := with_sched _ _). assert (K : all_kin k k2).
  { eapply (kin_insert k k2); [exact S|exact Ht|done|]. do 3 (split; [done|]). by apply (so_intact _ _ _ S _ _ Ht). }
  split; [|split; [|done]].
  - eapply sound_next; [exact S| |exact K| | |done|done|exact Hd].
    + by apply (rep_ext D _ k2) in R2.
    + intros t xc Hx Hqd. destruct (decide (t = r)) as [->|N].
      { exfalso. revert Hqd. eapply leave_not_queued; [by eapply rep_wf|exact Hq|exact Hin]. }
      simpl in Hx. rewrite lookup_insert_ne in Hx by done. apply (so_ready _ _ _ S t xc Hx). by eapply leave_queued.
    + intros a Va. exact (modifies_valid _ _ _ a Hm Va).
  - intros x Hx%(all_kin_some _ _ _ K) Nx. eapply parked_next; [by apply Pk|exact K| |by apply (so_pages _ _ _ S)].
    eapply modifies_moved; [exact Hm|]. intros a Ha Hma. by apply (so_apart _ _ _ S x a).
Qed.

Lemma block_runs b st k qs L G r tc : threads_ok k qs L G -> running_thread (k_sched k) = r ->
  k_tcbs k !! r = Some tc -> calling r b -> may_block st = true ->
  exists k1 L1, let qs1 := leave (Z.to_nat (priority tc)) r qs in
    thread_block_from b st k = (next ← dispatch; x ← resume next; mret (Some x)) k1
    /\ sound k1 qs1 L1 /\ (forall t, is_Some (k_tcbs k1 !! t) -> parked k1 (<[r := inl b]> G) t).
Proof.
  intros Th Hr Ht Cb Hst. destruct (block_leaves k qs L G r tc st Th Hr Ht Hst) as (k2 & L2 & E2 & S2 & Pk2 & Et2 & Hn2 & Hr2).
  assert (Ht2 : k_tcbs k2 !! r = Some (tcb_status st tc)) by (rewrite Et2; apply lookup_insert_eq).
  assert (Hsome : is_Some (k_tcbs k2 !! r)) by by eexists.
  pose proof (thread_range _ _ _ _ (so_rep _ _ _ S2) Hsome) as Hrange.
  destruct (task_trap_ok D k2 r (tcb_status st tc) b Cb Hrange (so_pages _ _ _ S2 r Hsome) Ht2) as (v & E3 & M & On).
  set (top := f_esp b - frame_size (inl b)) in *.
  set (k3 := with_tcbs (<[r := tcb_stack_top top (tcb_status st tc)]> (k_tcbs k2)) (with_vm v k2)) in *.
  set (k4 := with_sched (sched_need false (k_sched k3)) k3).
  destruct (park_sound k2 _ L2 G r (tcb_status st tc) v top (inl b) k4 S2 Ht2 Pk2 M On) as [S4 Pk4]; [done..|].
  exists k4, L2. split; [|by split].
  unfold thread_block_from. rewrite Hst. erewrite bind_ok by done. erewrite bind_ok by apply zoom_eflags_disable.
  erewrite bind_ok by (unfold RUNNING_THREAD; reflexivity). change (running_thread _) with (running_thread (k_sched k)). rewrite Hr.
  erewrite bind_ok by by apply on_tcb_ok.
  erewrite bind_ok by (unfold RUNNING_THREAD; reflexivity). change (running_thread _) with (running_thread (k_sched k)). rewrite Hr.
  erewrite bind_ok by exact E2. unfold schedule_from.
  assert (Es : (need ← gets (fun k => need_schedule (k_sched k)); if negb (need : bool) then mret None
    else cur ← RUNNING_THREAD; x ← task_trap b cur; mret (Some x)) k2
    = (x ← task_trap b r; mret (Some x)) k2).
  { erewrite bind_ok by reflexivity. rewrite Hn2. cbn [negb]. by erewrite (bind_ok _ _ _ r k2) by (rewrite <- Hr2 at 1; reflexivity). }
  erewrite bind_same by exact Es. unfold mbind, M_bind. unfold mbind, M_bind in E3. rewrite E3.
  rewrite (main_schedule_leaves k3 r (tcb_stack_top top (tcb_status st tc)) Hr2 (lookup_insert_eq _ _ _) Hn2);
    [|by apply may_block_not_running].
  fold k4. destruct (dispatch k4) as [next k5| | | |]; [|done..]. by destruct (resume next k5).
Qed.

Lemma block_next b st x k k' qs L G r : threads_ok k qs L G -> running_thread (k_sched k) = r -> calling r b ->
  thread_block_from b st k = Ok (Some x) k' ->
  exists qs' L', threads_ok k' qs' L' (<[r := inl b]> G) /\ <[r := inl b]> G !! running_thread (k_sched k') = Some x.
Proof.
  intros Th Hr Cb E. assert (Hst : may_block st = true).
  { revert E. unfold thread_block_from, ASSERT. by destruct (may_block st). }
  pose proof (th_running _ _ _ _ Th) as (_ & tc & _ & Ht & _). rewrite Hr in Ht.
  destruct (block_runs b st k qs L G r tc Th Hr Ht Cb Hst) as (k1 & L1 & E1 & S1 & Pk1). rewrite E1 in E.
  destruct (first_ready (leave (Z.to_nat (priority tc)) r qs)) as [[p next]|] eqn:Hf.
  - destruct (dispatch_next k1 _ L1 _ p next S1 Pk1 Hf) as (k2 & E2 & Pa2 & _).
    destruct (resume_next k2 _ L1 _ next Pa2) as (y & Hy & E3 & Pa3).
    erewrite bind_ok in E by exact E2. erewrite bind_ok in E by exact E3. injection E as <- <-.
    exists (leave (Z.to_nat (priority tc)) r qs), L1. split; [by eapply paused_ok|].
    by rewrite (proj1 (pa_running _ _ _ _ _ Pa3)).
  - exfalso. revert E. unfold dispatch, mbind, M_bind.
    by rewrite (next_thread_pick_none D k1 _ L1 (so_rep _ _ _ S1) Hf (so_end _ _ _ S1)).
Qed.

(** ** Every run *)

Lemma step_next k e k' qs L G : threads_ok k qs L G -> step k e k' ->
  continues e G /\ exists qs' L', threads_ok k' qs' L' (remember e G).
Proof.
  intros Th [k1 W|t k1 N E|fuel cr2 c x k1 _ Lv E|b st x k1 Cb E].
  - split; [done|]. exists qs, L. by eapply works_next.
  - split; [done|]. by eapply (wake_next t k k1).
  - destruct (clock_next fuel cr2 c k qs L G _ Th eq_refl Lv) as (y & k2 & qs' & L' & E' & Th' & Hy & _).
    rewrite E in E'. injection E' as -> ->. split; [done|]. by exists qs', L'.
  - destruct (block_next b st x k k1 qs L G _ Th eq_refl Cb E) as (qs' & L' & Th' & Hy).
    split; [done|]. by exists qs', L'.
Qed.

Lemma steps_next k es k' qs L G : threads_ok k qs L G -> steps k es k' ->
  all_continue es G /\ exists qs' L', threads_ok k' qs' L' (contexts es G).
Proof.
  intros Th St. revert qs L G Th. induction St as [k|k e k1 es k' S St IH]; intros qs L G Th.
  - split; [done|]. by exists qs, L.
  - destruct (step_next _ _ _ _ _ _ Th S) as (Hc & qs1 & L1 & Th1).
    destruct (IH _ _ _ Th1) as (Ha & H). split; [by split|done].
Qed.

(** ** How long a thread waits

    While threads only work and the clock ticks, a slice is over after as many
    interrupts as the thread has ticks left, and one. *)
Definition ticking (e : event) : Prop :=
  match e with Work | Switch _ (inr _) _ _ => True | _ => False end.
Fixpoint clocks (es : list event) : nat :=
  match es with [] => 0 | Switch _ _ _ _ :: es' => S (clocks es') | _ :: es' => clocks es' end.

Definition in_slice k qs L G (p m : nat) : Prop :=
  threads_ok k qs L G /\ slice_at k qs (running_thread (k_sched k)) p m.

Lemma steps_app k es1 es2 k1 k2 : steps k es1 k1 -> steps k1 es2 k2 -> steps k (es1 ++ es2) k2.
Proof. induction 1 as [|k e k1 es k3 S St IH]; intros H2; [done|]. econstructor; [exact S|by apply IH]. Qed.

Lemma work_in_slice k k' qs L G p m : in_slice k qs L G p m -> works k k' -> in_slice k' qs L G p m.
Proof.
  intros [Th (Hn & Hf & tc & Ht & Hm)] W. split; [by eapply works_next|].
  destruct W as [_ _ Et Es _]. unfold slice_at. rewrite Es, Et. split; [done|]. split; [done|]. by exists tc.
Qed.

Lemma slice_completes es : forall k k' qs L G p m, in_slice k qs L G p m -> steps k es k' -> Forall ticking es ->
  (S m <= clocks es)%nat ->
  exists es1 es2 k1 L1 G1 p1 m1, es = es1 ++ es2 /\ steps k es1 k1 /\ steps k1 es2 k'
    /\ in_slice k1 (slice qs) L1 G1 p1 m1 /\ (m1 <= 11)%nat /\ clocks es2 = (clocks es - S m)%nat.
Proof.
  induction es as [|e es IH]; intros k k' qs L G p m I St F Hc; [simpl in Hc; lia|].
  inversion St as [|? k1 ? ? Hs St1]; subst. apply Forall_cons in F as [Fe F].
  inversion Hs as [? W|t ? N E|fuel cr2 c x ? Hif Lv E|b st x ? Cb E]; subst; [|done| |done].
  - destruct (IH k1 k' qs L G p m (work_in_slice _ _ _ _ _ _ _ I W) St1 F Hc)
      as (es1 & es2 & k2 & L1 & G1 & p1 & m1 & -> & St2 & St3 & I' & Hm & Hc2).
    exists (Work :: es1), es2, k2, L1, G1, p1, m1. split; [done|]. split; [by econstructor|done].
  - destruct I as [Th Sl]. set (r := running_thread (k_sched k)) in *.
    destruct (clock_next fuel cr2 c k qs L G r Th eq_refl Lv) as (y & k2 & qs' & L' & E' & Th' & _ & Hlt & Hz & _).
    rewrite E in E'. injection E' as <- <-. destruct m as [|m].
    + destruct (Hz p Sl) as (-> & p' & m' & Hm' & Sl').
      exists [Switch r (inr c) (running_thread (k_sched k1)) x], es, k1, L', (<[r := inr c]> G), p', m'.
      split; [done|]. split; [econstructor; [exact Hs|constructor]|]. split; [done|]. split; [by split|]. split; [done|].
      simpl. lia.
    + destruct (Hlt p m Sl) as (-> & Hr1 & Sl'). rewrite <- Hr1 in Sl' at 1.
      destruct (IH k1 k' qs L' _ p m (conj Th' Sl') St1 F) as (es1 & es2 & k2 & L1 & G1 & p1 & m1 & -> & St2 & St3 & I' & Hm & Hc2);
        [simpl in Hc; lia|].
      eexists (_ :: es1), es2, k2, L1, G1, p1, m1. split; [reflexivity|]. split; [by econstructor|].
      do 3 (split; [done|]). simpl. rewrite Hc2. lia.
Qed.

Lemma slices_complete n : forall es k k' qs L G p m, in_slice k qs L G p m -> (m <= 11)%nat -> steps k es k' ->
  Forall ticking es -> (12 * n <= clocks es)%nat ->
  exists es1 es2 k1 L1 G1 p1 m1, es = es1 ++ es2 /\ steps k es1 k1 /\ steps k1 es2 k'
    /\ in_slice k1 (Nat.iter n slice qs) L1 G1 p1 m1.
Proof.
  induction n as [|n IH]; intros es k k' qs L G p m I Hm St F Hc.
  - exists [], es, k, L, G, p, m. split; [done|]. split; [constructor|by split].
  - destruct (slice_completes es k k' qs L G p m I St F) as (es1 & es2 & k1 & L1 & G1 & p1 & m1 & -> & St1 & St2 & I1 & Hm1 & Hc2);
      [lia|].
    apply Forall_app in F as [_ F2].
    destruct (IH es2 k1 k' _ L1 G1 p1 m1 I1 Hm1 St2 F2) as (es3 & es4 & k2 & L2 & G2 & p2 & m2 & -> & St3 & St4 & I2);
      [lia|].
    exists (es1 ++ es3), es4, k2, L2, G2, p2, m2. split; [by rewrite app_assoc|].
    split; [by eapply steps_app|]. split; [done|]. by rewrite Nat.iter_succ_r.
Qed.

(** The running thread changes only by a switch. *)
Lemma step_running k e k' qs L G : threads_ok k qs L G -> step k e k' ->
  running_thread (k_sched k') = match e with Switch _ _ n _ => n | _ => running_thread (k_sched k) end
  /\ forall t, t <> running_thread (k_sched k) -> remember e G !! t = G !! t.
Proof.
  intros Th [k1 [_ _ _ Es _]|t k1 N E|fuel cr2 c x k1 _ Lv E|b st x k1 Cb E].
  - by rewrite Es.
  - split; [|done]. by eapply (wake_next t k k1).
  - split; [done|]. intros t N. by apply lookup_insert_ne.
  - split; [done|]. intros t N. by apply lookup_insert_ne.
Qed.

Lemma first_return es : forall k k' qs L G x0 y, threads_ok k qs L G -> steps k es k' ->
  running_thread (k_sched k) <> x0 -> running_thread (k_sched k') = x0 -> G !! x0 = Some y ->
  exists es1 t c es2, es = es1 ++ Switch t c x0 y :: es2.
Proof.
  induction es as [|e es IH]; intros k k' qs L G x0 y Th St N Hr Hy; [by inversion St; subst|].
  inversion St as [|? k1 ? ? Hs St1]; subst.
  destruct (step_next _ _ _ _ _ _ Th Hs) as (Hc & qs1 & L1 & Th1).
  destruct (step_running _ _ _ _ _ _ Th Hs) as [Hr1 Hrem].
  set (x0 := running_thread (k_sched k')) in *.
  destruct (decide (running_thread (k_sched k1) = x0)) as [E|N1].
  - destruct e as [|t|t c n x]; [congruence..|]. assert (n = x0) as -> by congruence.
    cbn [continues] in Hc. rewrite (Hrem x0) in Hc by done.
    assert (x = y) as -> by congruence. by exists [], t, c, es.
  - destruct (IH k1 k' qs1 L1 (remember e G) x0 y Th1 St1 N1 eq_refl) as (es1 & t & c & es2 & ->).
    + by rewrite Hrem.
    + by exists (e :: es1), t, c, es2.
Qed.

(** A thread in the queues that stands on its stack gets the processor, with
    its own context. *)
Lemma comes_back k es k' qs L G p m px q i x0 y : in_slice k qs L G p m -> steps k es k' -> Forall ticking es ->
  qs !! px = Some q -> q !! i = Some x0 -> x0 <> running_thread (k_sched k) -> G !! x0 = Some y ->
  (m <= 11)%nat -> (12 * slice_wait px i qs <= clocks es)%nat ->
  exists es1 t c es2, es = es1 ++ Switch t c x0 y :: es2.
Proof.
  intros I St F Hq Hx N Hy Hm Hc.
  destruct (slices_complete _ es k k' qs L G p m I Hm St F Hc) as (es1 & es2 & k1 & L1 & G1 & p1 & m1 & -> & St1 & St2 & I1).
  pose proof (rep_wf _ _ _ _ (so_rep _ _ _ (th_sound _ _ _ _ (proj1 I)))) as W.
  pose proof (slices_reach qs px i q x0 _ W Hq Hx eq_refl) as Hf.
  destruct I1 as [_ (_ & Hf1 & _)]. rewrite Hf in Hf1. injection Hf1 as _ Hr1.
  destruct (first_return es1 k k1 qs L G x0 y (proj1 I) St1 ltac:(congruence) (eq_sym Hr1) Hy) as (es3 & t & c & es4 & ->).
  exists es3, t, c, (es4 ++ es2). by rewrite <- app_assoc.
Qed.

(** The same from a moment where the scheduler is due: the next clock interrupt
    ends the slice. *)
Lemma due_comes_back es : forall k k' qs L G tc px q i x0 y, threads_ok k qs L G -> steps k es k' -> Forall ticking es ->
  need_schedule (k_sched k) = true -> k_tcbs k !! running_thread (k_sched k) = Some tc ->
  let qs1 := demote (Z.to_nat (priority tc)) (running_thread (k_sched k)) qs in
  qs1 !! px = Some q -> q !! i = Some x0 -> x0 <> running_thread (k_sched k) -> G !! x0 = Some y ->
  (S (12 * slice_wait px i qs1) <= clocks es)%nat ->
  exists es1 t c es2, es = es1 ++ Switch t c x0 y :: es2.
Proof.
  induction es as [|e es IH]; intros k k' qs L G tc px q i x0 y Th St F Hn Ht qs1 Hq Hx N Hy Hc; [simpl in Hc; lia|].
  inversion St as [|? k1 ? ? Hs St1]; subst. apply Forall_cons in F as [Fe F].
  inversion Hs as [? W|t ? ? E|fuel cr2 c x ? Hif Lv E|b st x ? Cb E]; subst; [|done| |done].
  - pose proof (works_next _ _ _ _ _ Th W) as Th1. destruct W as [_ _ Et Es _].
    destruct (IH k1 k' qs L G tc px q i x0 y Th1 St1 F) as (es1 & t & c & es2 & ->);
      rewrite ?Es, ?Et; [done..|]. by exists (Work :: es1), t, c, es2.
  - set (r := running_thread (k_sched k)) in *.
    destruct (clock_next fuel cr2 c k qs L G r Th eq_refl Lv) as (x1 & k2 & qs' & L' & E' & Th' & Hx1 & _ & _ & Hd).
    rewrite E in E'. injection E' as <- <-. destruct (Hd tc Hn Ht) as (-> & p & m & Hm & Sl). fold qs1 in Th', Sl.
    assert (Hy' : <[r := inr c]> G !! x0 = Some y) by (by rewrite lookup_insert_ne).
    destruct (decide (x0 = running_thread (k_sched k1))) as [Ex|Nx].
    + exists [], r, (inr c), es. rewrite <- Ex in *. by rewrite Hy' in Hx1; injection Hx1 as ->.
    + destruct (comes_back k1 es k' qs1 L' _ p m px q i x0 y (conj Th' Sl) St1 F Hq Hx Nx Hy' Hm) as (es1 & t & c' & es2 & ->);
        [simpl in Hc; lia|].
      by exists (Switch r (inr c) (running_thread (k_sched k1)) x :: es1), t, c', es2.
Qed.

(** The clock can tick any number of times: a thread that keeps interrupts on
    and its stack within its page. *)
Definition any_context (t eflags : Z) : full_context :=
  mkFull 0 0 0 0 0 0 0 0 0 0 0 0 SELECTOR_K_CODE eflags (t + PG_SIZE) None.

Lemma clocks_exist n : forall k qs L G, threads_ok k qs L G ->
  exists es k', steps k es k' /\ Forall ticking es /\ clocks es = n.
Proof.
  induction n as [|n IH]; intros k qs L G Th; [exists [], k; split; [constructor|done]|].
  set (k1 := with_eflags 0x202 k). assert (W : works k k1) by by constructor.
  pose proof (works_next _ _ _ _ _ Th W) as Th1. set (r := running_thread (k_sched k1)).
  pose proof (th_running _ _ _ _ Th1) as (_ & tc & q & Ht & _).
  pose proof (thread_range _ _ _ r (so_rep _ _ _ (th_sound _ _ _ _ Th1)) (mk_is_Some _ _ Ht)) as Hr.
  assert (Lv : live k1 r (any_context r 0x202)).
  { unfold PG_SIZE in Hr. constructor.
    - unfold registers, any_context, PG_SIZE. change SELECTOR_K_CODE with 8. cbn [app c_ss c_edi c_esi c_ebp c_ebx c_edx c_ecx c_eax
        c_gs c_fs c_es c_ds c_eip c_cs c_eflags c_esp]. rewrite !Forall_cons. repeat (split; [lia|]). apply Forall_nil_2.
    - done.
    - by split; [|intros [? ?]].
    - unfold entry_top, any_context, ENTRY_ROOM, INTR_STACK_SIZE, TCB_SIZE, PG_SIZE. cbn [c_ss c_esp]. lia. }
  destruct (clock_next 0 0 (any_context r 0x202) k1 qs L G r Th1 eq_refl Lv) as (x & k2 & qs2 & L2 & E & Th2 & _).
  destruct (IH k2 qs2 L2 _ Th2) as (es & k' & St & F & Hc).
  exists (Work :: Switch r (inr (any_context r 0x202)) (running_thread (k_sched k2)) x :: es), k'.
  split; [|split; [by repeat constructor|by simpl; rewrite Hc]].
  econstructor; [by apply step_work|]. econstructor; [|exact St]. by eapply step_clock; [|exact Lv|exact E].
Qed.

End Switching.
End Switching.
