(* ===== verification/Typing.v ===== *)
(** Types: the values a computation may meet and leave in the state.

    A C integer is a [Z] here, and the code of a function says where it wraps
    around.  [has_type P m Q]: from a state of type [P], [m] leaves a state of
    type [P] wherever it ends - also where the thread gives the processor away -
    and what it returns is of type [Q].  There is no condition on what the
    state means: a run may fault or panic, but it never makes a value that its
    C type does not have.

    This file has the rules of [has_type] and the types of the state of the
    library components; [KernelTyping] has those of the kernel. *)

From S2P Require Import Prelude Bytes CString Bitmap Interrupt LinkedList Paging PageTable Ports Print Descriptors.

Module Typing.
Import Bitmap Interrupt LinkedList Paging PageTable Ports Print Descriptors.

(** ** Types *)

Definition byte_t (z : Z) : Prop := is_u8 z.
Definition half_t (z : Z) : Prop := is_u16 z.
Definition word_t (z : Z) : Prop := is_u32 z.
Definition long_t (z : Z) : Prop := 0 <= z < 2 ^ 64.
Definition any {A} (a : A) : Prop := True.

(** The address of a member of an object at a 32-bit address. *)
Definition member_t (z : Z) : Prop := 0 <= z < 2 ^ 32 + PAGE.

(** The address of a page. *)
Definition page_t (z : Z) : Prop := is_u32 z /\ z mod PAGE = 0.

(** The address of a list node.  There is none at [scheduler + 520], the words
    in front of the ready queues, which a scheduler without a ready thread takes
    for one. *)
Definition front_of_queues : Z := 0xc0007c48.
Definition node_t (z : Z) : Prop := member_t z /\ z <> front_of_queues.

(** The type of a record or of a map: of each of its parts. *)
Class Typed (A : Type) := typed : A -> Prop.

#[export] Instance typed_bitmap : Typed bitmap := fun b =>
  word_t (base_addr b) /\ word_t (bit_num b) /\ word_t (byte_len b).
#[export] Instance typed_vm : Typed vm := fun s => all_u8 s /\ word_t (cr3 s).
#[export] Instance typed_elem : Typed list_elem := fun e => member_t (prev e) /\ member_t (next e).
#[export] Instance typed_lists : Typed lstate := fun s =>
  word_t (l_eflags s) /\ map_Forall (fun a e => node_t a /\ typed e) (l_links s).
#[export] Instance typed_io : Typed io := fun s =>
  byte_t (crt_index s) /\ map_Forall (fun _ => byte_t) (crt_regs s) /\ byte_t (kbd_data s)
  /\ Forall (fun w => byte_t w.2) (written s).
#[export] Instance typed_display : Typed (display vm) := fun d => typed (d_mem d) /\ typed (d_io d).
#[export] Instance typed_gate : Typed gate_desc := fun g =>
  half_t (func_offset_low_word g) /\ half_t (selector g) /\ byte_t (dcount g) /\ byte_t (attribute g)
  /\ half_t (func_offset_high_word g).
#[export] Instance typed_segment : Typed gdt_desc := fun d =>
  half_t (limit_low_word d) /\ half_t (base_low_word d) /\ byte_t (base_mid_byte d)
  /\ byte_t (attr_low_byte d) /\ byte_t (limit_high_attr_high d) /\ byte_t (base_high_byte d).
#[export] Instance typed_tss : Typed tss := fun t =>
  word_t (tss_esp0 t) /\ word_t (tss_ss0 t) /\ word_t (tss_io_base t).
#[export] Instance typed_tables : Typed tables := fun t =>
  map_Forall (fun i g => 0 <= i < IDT_DESC_CNT /\ typed g) (idt t)
  /\ map_Forall (fun i _ => 0 <= i < IDT_DESC_CNT) (idt_table t)
  /\ map_Forall (fun _ => typed) (gdt t)
  /\ typed (the_tss t) /\ map_Forall (fun i _ => 0 <= i < SYSCALL_NUM) (syscall_table t)
  /\ long_t (idtr t) /\ long_t (gdtr t) /\ half_t (task_register t).

(** Memory of typed bytes. *)
Class ByteTyped {S} `{!ByteOps S} (P : S -> Prop) := {
  load_typed s a v : P s -> load8 s a = Some v -> byte_t v;
  store_typed s a v s' : P s -> byte_t v -> store8 s a v = Some s' -> P s'
}.

#[export] Instance vm_byte_typed : ByteTyped (S := vm) typed.
Proof.
  split.
  - intros s a v [Hb _] Hl. cbn in Hl. unfold vm_load in Hl.
    destruct (translate s a) as [p|]; [|done]. by eapply Hb.
  - intros s a v s' [Hb Hc] Hv Hs. cbn in Hs. unfold vm_store in Hs.
    destruct (translate s a) as [p|]; [|done]. simpl in Hs.
    destruct (phys s !! p); [|done]. injection Hs as <-. split; [|done].
    by apply all_u8_insert; [|destruct s].
Qed.

Create HintDb typing discriminated.
#[export] Hint Constants Opaque : typing.
#[export] Hint Unfold any : typing.

Lemma page_word z : page_t z -> word_t z.
Proof. by intros [? _]. Qed.
#[export] Hint Resolve page_word : typing.

(** A type of integers, by unfolding. *)
Ltac by_range := unfold byte_t, half_t, word_t, member_t, PAGE in *; word_lia.
#[export] Hint Extern 3 (byte_t _) => first [by_range | done] : typing.
#[export] Hint Extern 3 (half_t _) => first [by_range | done] : typing.
#[export] Hint Extern 3 (word_t _) => first [by_range | done] : typing.
#[export] Hint Extern 3 (member_t _) => first [by_range | done] : typing.
#[export] Hint Extern 3 (_ <= _ < _) => unfold IDT_DESC_CNT, SYSCALL_NUM in *; lia : typing.

(** ** The rules *)

Section Rules.
Context {S : Type} (P : S -> Prop).

Definition has_type {A} (m : M S A) (Q : A -> Prop) : Prop := forall s, P s ->
  match m s with
  | Ok a s' => P s' /\ Q a
  | Switched s' => P s'
  | _ => True
  end.

Lemma ty_ret {A} (a : A) (Q : A -> Prop) : Q a -> has_type (mret a) Q.
Proof. by intros HQ s Hs. Qed.

Lemma ty_bind {A B} (m : M S A) (k : A -> M S B) (Q : A -> Prop) (R : B -> Prop) :
  has_type m Q -> (forall a, Q a -> has_type (k a) R) -> has_type (m ≫= k) R.
Proof.
  intros Hm Hk s Hs. specialize (Hm s Hs). unfold mbind, M_bind.
  destruct (m s) as [a s'|s'|c| |]; [|done..]. destruct Hm as [Hs' HQ]. by apply Hk.
Qed.

Lemma ty_mono {A} (m : M S A) (Q R : A -> Prop) : has_type m Q -> (forall a, Q a -> R a) -> has_type m R.
Proof. intros Hm HR s Hs. specialize (Hm s Hs). destruct (m s); naive_solver. Qed.

Lemma ty_any {A} (m : M S A) (Q : A -> Prop) : has_type m Q -> has_type m any.
Proof. intros Hm. by eapply ty_mono. Qed.

Lemma ty_gets {A} (f : S -> A) (Q : A -> Prop) : (forall s, P s -> Q (f s)) -> has_type (gets f) Q.
Proof. intros HQ s Hs. split; [done|by apply HQ]. Qed.

Lemma ty_modify f : (forall s, P s -> P (f s)) -> has_type (modify f) any.
Proof. intros Hf s Hs. split; [by apply Hf|done]. Qed.

Lemma ty_deref {A} (f : S -> option A) (Q : A -> Prop) :
  (forall s a, P s -> f s = Some a -> Q a) -> has_type (deref f) Q.
Proof. intros HQ s Hs. unfold deref. destruct (f s) eqn:E; [|done]. split; [done|by eapply HQ]. Qed.

Lemma ty_update f : (forall s s', P s -> f s = Some s' -> P s') -> has_type (update f) any.
Proof. intros Hf s Hs. unfold update. destruct (f s) eqn:E; [|done]. split; [by eapply Hf|done]. Qed.

Lemma ty_assert c t : has_type (ASSERT c t) any.
Proof. by destruct c; intros s Hs. Qed.

Lemma ty_panic {A} c (Q : A -> Prop) : has_type (panic c) Q.
Proof. by intros s Hs. Qed.
Lemma ty_fault {A} (Q : A -> Prop) : has_type fault Q.
Proof. by intros s Hs. Qed.
Lemma ty_fuel {A} (Q : A -> Prop) : has_type out_of_fuel Q.
Proof. by intros s Hs. Qed.
Lemma ty_switch {A} (Q : A -> Prop) : has_type switch_away Q.
Proof. by intros s Hs. Qed.

Lemma ty_for from n (body : Z -> M S unit) :
  (forall i, from <= i < from + Z.of_nat n -> has_type (body i) any) -> has_type (for_upto from n body) any.
Proof.
  revert from. induction n as [|n IH]; intros from Hbody; [by apply ty_ret|].
  eapply ty_bind; [apply Hbody; lia|]. intros _ _. apply IH. intros i Hi. apply Hbody. lia.
Qed.

Lemma ty_while {A} (I : A -> Prop) fuel cond (body : A -> M S A) x :
  I x -> (forall x, I x -> has_type (cond x) any) -> (forall x, I x -> has_type (body x) I) ->
  has_type (while fuel cond body x) I.
Proof.
  intros HI Hc Hb. revert x HI. induction fuel as [|fuel IH]; intros x HI; [apply ty_fuel|].
  eapply ty_bind; [by apply Hc|]. intros [|] _; [|by apply ty_ret].
  eapply ty_bind; [by apply Hb|]. apply IH.
Qed.

End Rules.

(** A part of the state that may be read and replaced. *)
Definition lens_typed {S T} (P : S -> Prop) (PT : T -> Prop) (L : lens S T) : Prop :=
  (forall s, P s -> PT (view L s)) /\ (forall t s, PT t -> P s -> P (put_view L t s)).

Lemma ty_zoom {S T A} (P : S -> Prop) (PT : T -> Prop) (L : lens S T) (m : M T A) Q :
  lens_typed P PT L -> has_type PT m Q -> has_type P (zoom L m) Q.
Proof.
  intros [Hview Hput] Hm s Hs. unfold zoom. specialize (Hm _ (Hview s Hs)).
  destruct (m (view L s)); naive_solver.
Qed.

Lemma ty_gets_any {S A} (P : S -> Prop) (f : S -> A) : has_type P (gets f) any.
Proof. by apply ty_gets. Qed.

Lemma ty_deref_any {S A} (P : S -> Prop) (f : S -> option A) : has_type P (deref f) any.
Proof. by apply ty_deref. Qed.

#[export] Hint Resolve ty_zoom ty_gets_any ty_deref_any ty_panic ty_fault ty_fuel ty_switch ty_assert : typing.

(** [ty]: the rules, with the lemmas of the functions called. *)
Ltac ty_call := solve [eauto 5 with typing].
Ltac ty_intro := let Ht := fresh "Ht" in intros Ht; try (match type of Ht with any _ => clear Ht end).
Ltac ty_step :=
  lazymatch goal with
  | |- has_type _ (mret _) _ => apply ty_ret
  | |- has_type _ (_ ≫= _) _ =>
      first [ eapply ty_bind; [first [ty_call | apply ty_any; ty_call]|intros ?; ty_intro]
            | refine (ty_bind _ _ _ (any : unit -> Prop) _ _ _); [|intros ? _] ]
  | |- has_type _ (zoom _ _) _ => eapply ty_zoom; [ty_call|]
  | |- has_type _ (if ?c then _ else _) _ => destruct c
  | |- has_type _ (let _ := _ in _) _ => cbv zeta
  | |- has_type _ (for_upto _ _ _) _ => apply ty_for; intros ? ?
  end.
Ltac ty := repeat first [ty_call | ty_step]; auto 2 with typing.

(** ** The library *)

Section Memory.
Context {Mem : Type} `{!ByteOps Mem} (P : Mem -> Prop) `{!ByteTyped P}.
Notation has_type := (has_type P).

Lemma ty_rd8 a : has_type (rd8 a) byte_t.
Proof. apply ty_deref. intros s v. apply load_typed. Qed.
Lemma ty_wr8 a v : has_type (wr8 a v) any.
Proof. apply ty_update. intros s s' Hs. by apply store_typed; [|apply u8_range]. Qed.
#[local] Hint Resolve ty_rd8 ty_wr8 : typing.

Lemma ty_memset dst v n : has_type (CString.memset dst v n) any.
Proof. unfold CString.memset. ty. Qed.
Lemma ty_memcpy dst src n : has_type (CString.memcpy dst src n) any.
Proof. unfold CString.memcpy. ty. Qed.

#[local] Hint Resolve ty_memset : typing.

Lemma ty_bitmap_init base n : word_t base -> word_t n -> has_type (bitmap_init base n) typed.
Proof.
  intros Hb Hn. unfold bitmap_init. ty.
  split; [done|]. split; [done|]. simpl. unfold bit_num_2_byte_len. destruct (truth _); by_range.
Qed.
Lemma ty_bitmap_get b i : has_type (bitmap_get b i) any.
Proof. unfold bitmap_get. ty. Qed.
Lemma ty_bitmap_set b i : has_type (bitmap_set b i) any.
Proof. unfold bitmap_set. ty. Qed.
Lemma ty_bitmap_clear b i : has_type (bitmap_clear b i) any.
Proof. unfold bitmap_clear. ty. Qed.
#[local] Hint Resolve ty_bitmap_get : typing.
Lemma ty_bitmap_scan b v n : has_type (bitmap_scan b v n) any.
Proof.
  unfold bitmap_scan. generalize (Datatypes.S (Z.to_nat (bit_num b))) as fuel. intros fuel.
  assert (H : forall l r, has_type (bitmap_scan_loop fuel b v n l r) any); [|by apply H].
  induction fuel as [|fuel IH]; intros l r; simpl; ty.
Qed.

Lemma ty_rd32 a : has_type (rd32 a) word_t.
Proof. unfold rd32. ty. unfold word_of. by_range. Qed.
Lemma ty_wr32 a v : has_type (wr32 a v) any.
Proof. unfold wr32. ty. Qed.

End Memory.

#[export] Hint Resolve ty_rd8 ty_wr8 ty_memset ty_memcpy ty_bitmap_init ty_bitmap_get ty_bitmap_set
  ty_bitmap_clear ty_bitmap_scan ty_rd32 ty_wr32 vm_byte_typed : typing.

Lemma ty_addr_v2p a : has_type typed (addr_v2p a) word_t.
Proof. unfold addr_v2p. ty. Qed.

(** ** The interrupt flag *)

Lemma ty_cli : has_type word_t cli any.
Proof. apply ty_modify. intros s Hs. by apply (land_range_l 32). Qed.
Lemma ty_sti : has_type word_t sti any.
Proof. apply ty_modify. intros s Hs. by apply (lor_range 32). Qed.
#[export] Hint Resolve ty_addr_v2p ty_cli ty_sti : typing.

Lemma ty_intr_get_status : has_type word_t intr_get_status any.
Proof. unfold intr_get_status. ty_step. ty. Qed.
#[export] Hint Resolve ty_intr_get_status : typing.
Lemma ty_intr_disable : has_type word_t intr_disable any.
Proof. unfold intr_disable. ty. Qed.
Lemma ty_intr_enable : has_type word_t intr_enable any.
Proof. unfold intr_enable. ty. Qed.
#[export] Hint Resolve ty_intr_disable ty_intr_enable : typing.
Lemma ty_intr_set_status st : has_type word_t (intr_set_status st) any.
Proof. unfold intr_set_status. ty. Qed.
#[export] Hint Resolve ty_intr_set_status : typing.

(** ** Lists *)

Lemma eflags_lens_typed : lens_typed typed word_t eflags_lens.
Proof. split; [by intros s []|]. intros t s Ht [_ Hl]. by split. Qed.
#[export] Hint Resolve eflags_lens_typed : typing.

Section Nodes.
Implicit Types (s : lstate) (e : list_elem).

Lemma elem_typed s a e : typed s -> l_links s !! a = Some e -> typed e.
Proof. intros [_ Hl]. apply Hl. Qed.
Lemma set_elem_typed s a e e' : typed s -> l_links s !! a = Some e -> typed e' ->
  typed (mkL (l_eflags s) (<[a := e']> (l_links s))).
Proof.
  intros [He Hl] Ha Ht. split; [done|]. apply map_Forall_insert_2; [|done]. split; [by apply (Hl a e)|done].
Qed.

Lemma ty_rd_prev a : has_type typed (rd_prev a) member_t.
Proof.
  apply ty_deref. intros s p Hs E. destruct (l_links s !! a) as [e|] eqn:Ea; [|done].
  injection E as <-. by apply (elem_typed s a e).
Qed.
Lemma ty_rd_next a : has_type typed (rd_next a) member_t.
Proof.
  apply ty_deref. intros s p Hs E. destruct (l_links s !! a) as [e|] eqn:Ea; [|done].
  injection E as <-. by apply (elem_typed s a e).
Qed.
Lemma ty_wr_prev a v : member_t v -> has_type typed (wr_prev a v) any.
Proof.
  intros Hv. apply ty_update. intros s s' Hs E. destruct (l_links s !! a) as [e|] eqn:Ea; [|done].
  injection E as <-. eapply set_elem_typed; [done..|]. by destruct (elem_typed s a e).
Qed.
Lemma ty_wr_next a v : member_t v -> has_type typed (wr_next a v) any.
Proof.
  intros Hv. apply ty_update. intros s s' Hs E. destruct (l_links s !! a) as [e|] eqn:Ea; [|done].
  injection E as <-. eapply set_elem_typed; [done..|]. by destruct (elem_typed s a e).
Qed.
End Nodes.
#[export] Hint Resolve ty_rd_prev ty_rd_next ty_wr_prev ty_wr_next : typing.

Lemma null_member : member_t NULL.
Proof. done. Qed.
#[export] Hint Resolve null_member : typing.

Lemma ty_list_init l : member_t l -> member_t (list_tail l) -> has_type typed (list_init l) any.
Proof. intros Hl Ht. unfold list_init. ty. Qed.
Lemma ty_list_insert_before a b : member_t a -> member_t b -> has_type typed (list_insert_before a b) any.
Proof. intros Ha Hb. unfold list_insert_before. ty. Qed.
#[export] Hint Resolve ty_list_init ty_list_insert_before : typing.
Lemma ty_list_push_front l e : member_t e -> has_type typed (list_push_front l e) any.
Proof. intros He. unfold list_push_front. ty. Qed.
Lemma ty_list_push_back l e : member_t (list_tail l) -> member_t e -> has_type typed (list_push_back l e) any.
Proof. intros Hl He. unfold list_push_back. ty. Qed.
Lemma ty_list_remove e : has_type typed (list_remove e) any.
Proof. unfold list_remove. ty. Qed.
#[export] Hint Resolve ty_list_push_front ty_list_push_back ty_list_remove : typing.
Lemma ty_list_pop_front l : has_type typed (list_pop_front l) member_t.
Proof. unfold list_pop_front. ty. Qed.
Lemma ty_list_first_elem l : has_type typed (list_first_elem l) member_t.
Proof. unfold list_first_elem. ty. Qed.
Lemma ty_list_empty l : has_type typed (list_empty l) any.
Proof. unfold list_empty. ty. Qed.
#[export] Hint Resolve ty_list_pop_front ty_list_first_elem ty_list_empty : typing.

Lemma ty_list_elem_find l e : has_type typed (list_elem_find l e) any.
Proof.
  unfold list_elem_find. ty_step. ty_step.
  assert (H : forall n x, has_type typed (list_elem_find_loop n l e x) any); [|by apply H].
  induction n as [|n IH]; intros x; simpl; ty.
Qed.
Lemma ty_list_len l : has_type typed (list_len l) word_t.
Proof.
  unfold list_len. ty_step. ty_step.
  assert (H : forall n x c, word_t c -> has_type typed (list_len_loop n l x c) word_t); [|by apply H].
  induction n as [|n IH]; intros x c Hc; simpl; ty.
Qed.
#[export] Hint Resolve ty_list_elem_find ty_list_len : typing.

(** ** Ports and screen *)

Lemma crt_reg_typed s : typed s -> byte_t (default 0 (crt_regs s !! crt_index s)).
Proof. intros (_ & Hr & _). destruct (crt_regs s !! _) eqn:E; [by eapply Hr|done]. Qed.

Lemma ty_outb p v : has_type typed (outb p v) any.
Proof.
  apply ty_modify. intros s (Hi & Hr & Hk & Hw). pose proof (u8_range v) as Hv.
  repeat case_match; split_and!; cbn; try done; try (by constructor).
  by apply map_Forall_insert_2.
Qed.
Lemma ty_inb p : has_type typed (inb p) byte_t.
Proof.
  apply ty_gets. intros s Hs. repeat case_match; [by apply crt_reg_typed|by apply u8_range|done].
Qed.
#[export] Hint Resolve ty_outb ty_inb : typing.

Lemma ty_set_cursor c : has_type typed (set_cursor c) any.
Proof. unfold set_cursor. ty. Qed.
Lemma ty_get_cursor : has_type typed get_cursor half_t.
Proof. unfold get_cursor. ty. Qed.
#[export] Hint Resolve ty_set_cursor ty_get_cursor : typing.

#[local] Existing Instance Paging.vm_ops.

Lemma mem_part_typed : lens_typed (S := display vm) typed typed mem_part.
Proof. split; [by intros s []|]. intros t s Ht [_ Hi]. by split. Qed.
Lemma io_part_typed : lens_typed (S := display vm) typed typed io_part.
Proof. split; [by intros s []|]. intros t s Ht [Hm _]. by split. Qed.
#[export] Hint Resolve mem_part_typed io_part_typed : typing.

Lemma ty_cell_write o c : has_type (S := vm) typed (cell_write o c) any.
Proof. unfold cell_write. ty. Qed.
#[export] Hint Resolve ty_cell_write : typing.
Lemma ty_CHECK_OUT_OF_SCREEN c : half_t c -> has_type (S := vm) typed (CHECK_OUT_OF_SCREEN c) half_t.
Proof. intros Hc. unfold CHECK_OUT_OF_SCREEN, ROLL_SCREEN, memcpy, clean_last_line, SCREEN_MAX, SCREEN_COL_MAX. ty. Qed.
#[export] Hint Resolve ty_CHECK_OUT_OF_SCREEN : typing.
Lemma ty_put_char c : has_type (S := display vm) typed (put_char c) any.
Proof. unfold put_char. ty_step. eapply (ty_bind _ _ _ half_t); [ty|intros next _; ty]. Qed.
#[export] Hint Resolve ty_put_char : typing.
Lemma ty_put_str fuel a : has_type (S := display vm) typed (put_str fuel a) any.
Proof. revert a. induction fuel as [|fuel IH]; intros a; simpl; ty. Qed.
Lemma ty_put_text l : has_type (S := display vm) typed (put_text l) any.
Proof. induction l as [|c l IH]; simpl; ty. Qed.
#[export] Hint Resolve ty_put_str ty_put_text : typing.
Lemma ty_put_literal s : has_type (S := display vm) typed (put_literal s) any.
Proof. apply ty_put_text. Qed.
Lemma ty_array_set {S} (P : S -> Prop) l o v : has_type P (array_set l o v) any.
Proof. unfold array_set. ty. Qed.
#[export] Hint Resolve ty_array_set : typing.
Lemma ty_put_int_digits {S} (P : S -> Prop) n : has_type P (put_int_digits n) any.
Proof.
  unfold put_int_digits. eapply (ty_bind _ _ _ any); [ty|intros x _].
  eapply (ty_bind _ _ _ any); [|intros [[l o] ?] _; ty].
  apply ty_while; [done|intros [[l o] ?] _; unfold digits_left; ty|].
  intros [[l o] d] _. unfold put_digit. ty.
Qed.
#[export] Hint Resolve ty_put_int_digits : typing.
Lemma ty_put_int n : has_type (S := display vm) typed (put_int n) any.
Proof. unfold put_int. ty_step. destruct a as [l o]. ty. Qed.
#[export] Hint Resolve ty_put_literal ty_put_int : typing.

(** ** Descriptor tables *)

Lemma idt_desc_make_typed a f : typed (idt_desc_make a f).
Proof. repeat split; try apply u16_range; try apply u8_range; done. Qed.
Lemma gdt_desc_make_typed a l lo hi : typed (gdt_desc_make a l lo hi).
Proof. repeat split; try apply u16_range; apply u8_range. Qed.
#[export] Hint Resolve idt_desc_make_typed gdt_desc_make_typed : typing.

Section Tables.
Implicit Types (t : tables).

(** A statement that replaces one of the parts of the tables. *)
Ltac replaces := intros; apply ty_modify; intros t (? & ? & ? & ? & ? & ? & ? & ?);
  split_and!; cbn; try done; try (apply map_Forall_insert_2; [|done]); try done.

Lemma ty_set_idt i g : 0 <= i < IDT_DESC_CNT -> typed g -> has_type typed (set_idt i g) any.
Proof. replaces. Qed.
Lemma ty_set_handler i h : 0 <= i < IDT_DESC_CNT -> has_type typed (set_handler i h) any.
Proof. replaces. Qed.
Lemma ty_set_gdt i d : typed d -> has_type typed (set_gdt i d) any.
Proof. replaces. Qed.
Lemma ty_set_tss s : typed s -> has_type typed (set_tss s) any.
Proof. replaces. Qed.
Lemma ty_set_syscall i c : 0 <= i < SYSCALL_NUM -> has_type typed (set_syscall i c) any.
Proof. replaces. Qed.
Lemma ty_lidt v : long_t v -> has_type typed (lidt v) any.
Proof. replaces. Qed.
Lemma ty_lgdt v : long_t v -> has_type typed (lgdt v) any.
Proof. replaces. Qed.
Lemma ty_ltr v : half_t v -> has_type typed (ltr v) any.
Proof. replaces. Qed.
Lemma ty_the_tss : has_type typed (gets the_tss) typed.
Proof. apply ty_gets. by intros t (? & ? & ? & ? & _). Qed.
End Tables.
#[export] Hint Resolve ty_set_idt ty_set_handler ty_set_gdt ty_set_tss ty_set_syscall ty_lidt ty_lgdt
  ty_ltr ty_the_tss : typing.

Lemma idt_operand_typed a : long_t (idt_operand a).
Proof.
  apply (lor_range 64); [done| |done]. rewrite Z.land_comm. by apply (land_range_l 64).
Qed.
#[export] Hint Resolve idt_operand_typed : typing.

End Typing.
Export (hints) Typing.
