(* ===== verification/KernelTyping.v ===== *)
(** Types of the kernel's state, and that the functions of the kernel keep
    them.

    [typed k] for a kernel [k]: every variable of it is a value of its C type -
    a byte, a 16-bit or a 32-bit number, an array of its length - and the
    positions of a ring buffer are inside the buffer.  There is a lemma [ty_f]
    for each function [f]; the arguments a function stores as they are have to
    be of their types, the others may be anything.  The lemmas also carry a
    property [T] of the table of interrupt handlers, which only the functions
    that register one can change. *)

From S2P Require Import Prelude Bytes CString Bitmap Interrupt LinkedList Paging PageTable Ports Print Descriptors.
From S2P Require Import Kernel Sched Sync Console Idt Memory Ioqueue Keyboard Timer Thread Process Init Typing.

Module KernelTyping.
Import Bitmap Interrupt LinkedList Paging PageTable Ports Descriptors Kernel Sched Sync Console Idt Memory.
Import Ioqueue Keyboard Timer Thread Process Init Typing.

(** ** Types *)

#[export] Instance typed_pool : Typed pool := fun p =>
  typed (btmp p) /\ page_t (addr_base p) /\ word_t (Kernel.pool_size p).
#[export] Instance typed_tcb : Typed tcb := fun t =>
  word_t (stack_top t) /\ half_t (pid t) /\ byte_t (priority t)
  /\ (length (name t) = NAME_LEN /\ Forall byte_t (name t))
  /\ word_t (ticks t) /\ word_t (elapsed_ticks t) /\ word_t (pg_dir t)
  /\ typed (user_vaddr_pool t) /\ word_t (stack_magic t).
#[export] Instance typed_sched : Typed sched := fun s =>
  word_t (running_thread s) /\ word_t (idle_thread s)
  /\ (length (thread_table s) = Z.to_nat MAX_THREAD_NUM /\ Forall word_t (thread_table s))
  /\ typed (rq_mask s).
#[export] Instance typed_ioqueue : Typed ioqueue := fun i =>
  word_t (producer i) /\ word_t (consumer i)
  /\ (length (buf i) = Z.to_nat BUF_SIZE /\ Forall byte_t (buf i))
  /\ 0 <= head i < BUF_SIZE /\ 0 <= tail i < BUF_SIZE.

Record kernel_typed (k : kernel) : Prop := {
  kt_eflags : word_t (k_eflags k);
  kt_vm : typed (k_vm k);
  kt_io : typed (k_io k);
  kt_tables : typed (k_tables k);
  kt_links : map_Forall (fun a e => node_t a /\ typed e) (k_links k);
  kt_tcbs : map_Forall (fun _ => typed) (k_tcbs k);
  kt_sched : typed (k_sched k);
  kt_sems : map_Forall (fun _ => byte_t) (k_sems k);
  kt_holders : map_Forall (fun _ => word_t) (k_holders k);
  kt_pools : map_Forall (fun _ => typed) (k_pools k);
  kt_ioqs : map_Forall (fun _ => typed) (k_ioqs k);
  kt_clock : word_t (k_clock k)
}.
(** ** The parts of the kernel *)

Section Handlers.
Context (T : gmap Z intr_handler -> Prop).

Definition typed_with (k : kernel) : Prop := kernel_typed k /\ T (idt_table (k_tables k)).

(** Registering a handler keeps [T]. *)
Definition registers : Prop := forall h i f, T h -> T (<[i := f]> h).

Definition tables_with (t : tables) : Prop := typed t /\ T (idt_table t).

Ltac parts := split; [intros k [[] HT]; cbn; try done
  |intros t k Ht [[] HT]; split; [constructor; cbn; try done|try done]].

Lemma eflags_of_typed : lens_typed typed_with word_t eflags_of.
Proof. parts. Qed.
Lemma vm_of_typed : lens_typed typed_with typed vm_of.
Proof. parts. Qed.
Lemma io_of_typed : lens_typed typed_with typed io_of.
Proof. parts. Qed.
Lemma tables_of_typed : lens_typed typed_with tables_with tables_of.
Proof. parts; apply Ht. Qed.
Lemma lists_of_typed : lens_typed typed_with typed lists_of.
Proof. parts; apply Ht. Qed.
Lemma display_of_typed : lens_typed typed_with typed display_of.
Proof. parts; apply Ht. Qed.
#[local] Hint Resolve eflags_of_typed vm_of_typed io_of_typed tables_of_typed lists_of_typed
  display_of_typed : typing.

Notation "m ∷ Q" := (has_type (S := kernel) typed_with m Q) (at level 70).

Lemma ty_say s : say s ∷ any.
Proof. unfold say. ty. Qed.
Lemma ty_say_int n : say_int n ∷ any.
Proof. unfold say_int. ty. Qed.
#[local] Hint Resolve ty_say ty_say_int : typing.

(** ** Accesses to the objects *)

Section Objects.
Implicit Types (k : kernel) (t : tcb) (s : sched).

(** A statement that replaces one part of the kernel. *)
Ltac replaced Hk := destruct Hk as [[] HT]; split; [constructor; cbn; try done|try done].

Lemma ty_get_tcb a : get_tcb a ∷ typed.
Proof. apply ty_deref. intros k t Hk. apply (kt_tcbs k (proj1 Hk)). Qed.
Lemma ty_set_tcb a t : typed t -> set_tcb a t ∷ any.
Proof.
  intros Ht. apply ty_update. intros k k' Hk E. destruct (k_tcbs k !! a); [|done].
  injection E as <-. replaced Hk. by apply map_Forall_insert_2.
Qed.
#[local] Hint Resolve ty_get_tcb ty_set_tcb : typing.
Lemma ty_on_tcb a f : (forall t, typed t -> typed (f t)) -> on_tcb a f ∷ any.
Proof. intros Hf. unfold on_tcb. ty. Qed.

Lemma ty_running : RUNNING_THREAD ∷ word_t.
Proof. apply ty_gets. intros k Hk. apply (kt_sched k (proj1 Hk)). Qed.
Lemma ty_on_sched f : (forall s, typed s -> typed (f s)) -> on_sched f ∷ any.
Proof. intros Hf. apply ty_modify. intros k Hk. replaced Hk. by apply Hf. Qed.
Lemma ty_mask : RQ_MASK_BITMAP ∷ typed.
Proof. apply ty_gets. intros k Hk. apply (kt_sched k (proj1 Hk)). Qed.
Lemma ty_idle : gets (fun k => idle_thread (k_sched k)) ∷ word_t.
Proof. apply ty_gets. intros k Hk. apply (kt_sched k (proj1 Hk)). Qed.

Lemma ty_get_sem a : get_sem a ∷ byte_t.
Proof. apply ty_deref. intros k v Hk. apply (kt_sems k (proj1 Hk)). Qed.
Lemma ty_set_sem a v : set_sem a v ∷ any.
Proof.
  apply ty_update. intros k k' Hk E. destruct (k_sems k !! a); [|done].
  injection E as <-. replaced Hk. apply map_Forall_insert_2; [apply u8_range|done].
Qed.
Lemma ty_set_holder a v : word_t v -> set_holder a v ∷ any.
Proof.
  intros Ht. apply ty_update. intros k k' Hk E. destruct (k_holders k !! a); [|done].
  injection E as <-. replaced Hk. by apply map_Forall_insert_2.
Qed.

Lemma ty_get_pool p : get_pool p ∷ typed.
Proof. apply ty_deref. intros k v Hk. apply (kt_pools k (proj1 Hk)). Qed.
Lemma ty_on_pool p f : (forall pl, typed pl -> typed (f pl)) -> on_pool p f ∷ any.
Proof.
  intros Hf. apply ty_update. intros k k' Hk E. destruct (k_pools k !! p) as [pl|] eqn:Ep; [|done].
  injection E as <-. replaced Hk. apply map_Forall_insert_2; [|done]. by apply Hf, (kt_pools0 p).
Qed.

Lemma ty_get_ioq q : get_ioq q ∷ typed.
Proof. apply ty_deref. intros k v Hk. apply (kt_ioqs k (proj1 Hk)). Qed.
Lemma ty_on_ioq q f : (forall i, typed i -> typed (f i)) -> on_ioq q f ∷ any.
Proof.
  intros Hf. apply ty_update. intros k k' Hk E. destruct (k_ioqs k !! q) as [i|] eqn:Ei; [|done].
  injection E as <-. replaced Hk. apply map_Forall_insert_2; [|done]. by apply Hf, (kt_ioqs0 q).
Qed.

Lemma ty_on_kbd f : on_kbd f ∷ any.
Proof. apply ty_modify. intros k Hk. replaced Hk. Qed.
Lemma ty_with_clock f : (forall k, word_t (f k)) -> modify (fun k => with_clock (f k) k) ∷ any.
Proof. intros Hf. apply ty_modify. intros k Hk. replaced Hk. Qed.
Lemma ty_with_eflags f : (forall k, typed_with k -> word_t (f k)) -> modify (fun k => with_eflags (f k) k) ∷ any.
Proof. intros Hf. apply ty_modify. intros k Hk. pose proof (Hf k Hk). replaced Hk. Qed.
Lemma ty_with_esp0 e : word_t e -> modify (with_esp0 e) ∷ any.
Proof.
  intros He. apply ty_modify. intros k Hk. replaced Hk.
  destruct kt_tables0 as (? & ? & ? & (? & ? & ?) & ?). by repeat (split; [done|]).
Qed.
End Objects.
#[local] Hint Resolve ty_get_tcb ty_set_tcb ty_running ty_mask ty_idle ty_get_sem ty_set_sem ty_set_holder
  ty_get_pool ty_get_ioq ty_on_kbd ty_with_esp0 : typing.
#[local] Hint Resolve ty_on_tcb ty_on_sched ty_on_pool ty_on_ioq : typing.

(** ** Updates of a field *)

Section Fields.
Implicit Types (t : tcb) (s : sched) (i : ioqueue).

(** The new value is of its type, the other fields are as they were. *)
Ltac field := intros; repeat match goal with H : typed _ |- _ => hnf in H end;
  hnf; destruct_and!; cbn; split_and!; done.

Lemma status_typed v t : typed t -> typed (tcb_status v t).
Proof. field. Qed.
Lemma priority_typed v t : byte_t v -> typed t -> typed (tcb_priority v t).
Proof. field. Qed.
Lemma ticks_typed v t : word_t v -> typed t -> typed (tcb_ticks v t).
Proof. field. Qed.
Lemma elapsed_typed v t : word_t v -> typed t -> typed (tcb_elapsed_ticks v t).
Proof. field. Qed.
Lemma stack_top_typed v t : word_t v -> typed t -> typed (tcb_stack_top v t).
Proof. field. Qed.
Lemma pid_typed v t : half_t v -> typed t -> typed (tcb_pid v t).
Proof. field. Qed.
Lemma name_typed v t : length v = NAME_LEN -> Forall byte_t v -> typed t -> typed (tcb_name v t).
Proof. field. Qed.
Lemma pg_dir_typed v t : word_t v -> typed t -> typed (tcb_pg_dir v t).
Proof. field. Qed.
Lemma pool_typed v t : typed v -> typed t -> typed (tcb_user_vaddr_pool v t).
Proof. field. Qed.
Lemma magic_typed v t : word_t v -> typed t -> typed (tcb_stack_magic v t).
Proof. field. Qed.

Lemma running_typed v s : word_t v -> typed s -> typed (sched_running v s).
Proof. field. Qed.
Lemma need_typed v s : typed s -> typed (sched_need v s).
Proof. field. Qed.
Lemma idle_typed v s : word_t v -> typed s -> typed (sched_idle v s).
Proof. field. Qed.
Lemma table_typed v s : length v = Z.to_nat MAX_THREAD_NUM -> Forall word_t v -> typed s ->
  typed (sched_table v s).
Proof. field. Qed.
Lemma mask_typed v s : typed v -> typed s -> typed (sched_mask v s).
Proof. field. Qed.

Lemma producer_typed v i : word_t v -> typed i -> typed (ioq_producer v i).
Proof. field. Qed.
Lemma consumer_typed v i : word_t v -> typed i -> typed (ioq_consumer v i).
Proof. field. Qed.
Lemma buf_typed v i : length v = Z.to_nat BUF_SIZE -> Forall byte_t v -> typed i -> typed (ioq_buf v i).
Proof. field. Qed.
Lemma head_typed v i : 0 <= v < BUF_SIZE -> typed i -> typed (ioq_head v i).
Proof. field. Qed.
Lemma tail_typed v i : 0 <= v < BUF_SIZE -> typed i -> typed (ioq_tail v i).
Proof. field. Qed.
End Fields.
#[local] Hint Resolve status_typed priority_typed ticks_typed elapsed_typed stack_top_typed pid_typed
  pg_dir_typed pool_typed magic_typed running_typed need_typed idle_typed mask_typed producer_typed
  consumer_typed head_typed tail_typed : typing.

(** The fields of a typed object. *)
Section Members.
Implicit Types (t : tcb) (i : ioqueue) (p : pool).

Lemma tcb_stack_top_t t : typed t -> word_t (stack_top t).
Proof. by intros (? & ? & ? & ? & ? & ? & ? & ? & ?). Qed.
Lemma tcb_priority_t t : typed t -> byte_t (priority t).
Proof. by intros (? & ? & ? & ? & ? & ? & ? & ? & ?). Qed.
Lemma tcb_pid_t t : typed t -> half_t (pid t).
Proof. by intros (? & ? & ? & ? & ? & ? & ? & ? & ?). Qed.
Lemma tcb_pool_t t : typed t -> typed (user_vaddr_pool t).
Proof. by intros (? & ? & ? & ? & ? & ? & ? & ? & ?). Qed.
Lemma pool_map_t p : typed p -> typed (btmp p).
Proof. by intros (? & ? & ?). Qed.
Lemma pool_base_t p : typed p -> page_t (addr_base p).
Proof. by intros (? & ? & ?). Qed.
Lemma pool_size_t p : typed p -> word_t (Kernel.pool_size p).
Proof. by intros (? & ? & ?). Qed.
Lemma waiter_t i w : typed i -> word_t (get_waiter w i).
Proof. by intros (? & ? & ?); destruct w. Qed.
End Members.
#[local] Hint Resolve tcb_stack_top_t tcb_priority_t tcb_pid_t tcb_pool_t pool_map_t pool_base_t
  pool_size_t waiter_t : typing.

(** ** Addresses of nodes *)

(** The address of a semaphore: of its own, or inside a mutex. *)
Definition sem_t (z : Z) : Prop := 0 <= z < 2 ^ 32 + 4.

Ltac member := intros; unfold sem_t, word_t, member_t, byte_t, PAGE, list_tail, sem_waiters, mutex_sem,
  all_list, scheduler, ready_tag, pend_tag, all_list_tag, OFF_ready_tag, OFF_pend_tag, OFF_all_list_tag,
  pool_mtx in *; lia.

Lemma ready_tag_t t : word_t t -> member_t (ready_tag t).
Proof. member. Qed.
Lemma pend_tag_t t : word_t t -> member_t (pend_tag t).
Proof. member. Qed.
Lemma all_list_tag_t t : word_t t -> member_t (all_list_tag t).
Proof. member. Qed.
Lemma rq_t p : byte_t p -> member_t (THIS_RQ p).
Proof. intros Hp. rewrite THIS_RQ_byte by done. member. Qed.
Lemma rq_tail_t p : byte_t p -> member_t (list_tail (THIS_RQ p)).
Proof. intros Hp. rewrite THIS_RQ_byte by done. member. Qed.
Lemma all_list_t : member_t all_list.
Proof. member. Qed.
Lemma all_list_tail_t : member_t (list_tail all_list).
Proof. member. Qed.
Lemma waiters_t s : sem_t s -> member_t (sem_waiters s).
Proof. member. Qed.
Lemma waiters_tail_t s : sem_t s -> member_t (list_tail (sem_waiters s)).
Proof. member. Qed.
Lemma word_sem_t s : word_t s -> sem_t s.
Proof. member. Qed.
Lemma mutex_sem_t m : word_t m -> sem_t (mutex_sem m).
Proof. member. Qed.
Lemma entry_t off e : word_t (ELEM2ENTRY off e).
Proof. apply u32_range. Qed.
Lemma ticks_get_t p : byte_t p -> word_t (ticks_get p).
Proof. unfold ticks_get. by_range. Qed.
#[local] Hint Resolve ready_tag_t pend_tag_t all_list_tag_t rq_t rq_tail_t all_list_t all_list_tail_t
  waiters_t waiters_tail_t word_sem_t mutex_sem_t entry_t ticks_get_t : typing.

(** ** [thread/thread.c]: the scheduler *)

Lemma ty_rq_join_only t : word_t t -> scheduler_rq_join_only t ∷ any.
Proof. intros Ht. unfold scheduler_rq_join_only. ty. Qed.
Lemma ty_rq_jump_only t : word_t t -> scheduler_rq_jump_only t ∷ any.
Proof. intros Ht. unfold scheduler_rq_jump_only. ty. Qed.
Lemma ty_preempt_check t : preempt_check t ∷ any.
Proof. unfold preempt_check. ty. Qed.
#[local] Hint Resolve ty_rq_join_only ty_rq_jump_only ty_preempt_check : typing.
Lemma ty_rq_join t : word_t t -> scheduler_rq_join t ∷ any.
Proof. intros Ht. unfold scheduler_rq_join. ty. Qed.
Lemma ty_rq_jump t : word_t t -> scheduler_rq_jump t ∷ any.
Proof. intros Ht. unfold scheduler_rq_jump. ty. Qed.
Lemma ty_rq_leave_only t : scheduler_rq_leave_only t ∷ any.
Proof. unfold scheduler_rq_leave_only. ty. Qed.
#[local] Hint Resolve ty_rq_join ty_rq_jump ty_rq_leave_only : typing.
Lemma ty_rq_leave t : scheduler_rq_leave t ∷ any.
Proof. unfold scheduler_rq_leave. ty. Qed.
Lemma ty_prio_change t : thread_prio_change t ∷ any.
Proof. unfold thread_prio_change. ty. Qed.
Lemma ty_highest_rq_get : highest_rq_get ∷ word_t.
Proof. unfold highest_rq_get. ty. Qed.
#[local] Hint Resolve ty_rq_leave ty_prio_change ty_highest_rq_get : typing.
Lemma ty_next_thread_pick : next_thread_pick ∷ word_t.
Proof. unfold next_thread_pick. ty. Qed.

Lemma ty_load_cr3 d : word_t d -> zoom vm_of (modify (fun v => under v d)) ∷ any.
Proof. intros Hd. eapply ty_zoom; [ty_call|]. apply ty_modify. by intros v []. Qed.
#[local] Hint Resolve ty_next_thread_pick ty_load_cr3 : typing.

Lemma ty_page_dir_activate t : page_dir_activate t ∷ any.
Proof. unfold page_dir_activate. ty_step. eapply (ty_bind _ _ _ word_t); ty. Qed.
Lemma ty_tss_esp0_update t : tss_esp0_update t ∷ any.
Proof. unfold tss_esp0_update. ty. Qed.
#[local] Hint Resolve ty_page_dir_activate ty_tss_esp0_update : typing.
Lemma ty_process_activate t : process_activate t ∷ any.
Proof. unfold process_activate. ty. Qed.
Lemma ty_slice_over t : word_t t -> slice_over t ∷ any.
Proof. intros Ht. unfold slice_over. ty. Qed.
#[local] Hint Resolve ty_process_activate ty_slice_over : typing.
Lemma ty_dispatch_to t : word_t t -> dispatch_to t ∷ any.
Proof. intros Ht. unfold dispatch_to. ty. Qed.
#[local] Hint Resolve ty_dispatch_to : typing.
Lemma ty_dispatch : dispatch ∷ word_t.
Proof. unfold dispatch. ty. Qed.
#[local] Hint Resolve ty_dispatch : typing.
Lemma ty_main_schedule : main_schedule ∷ word_t.
Proof. unfold main_schedule. ty. Qed.
#[local] Hint Resolve ty_main_schedule : typing.
Lemma ty_hwi_tail_handle : hwi_tail_handle ∷ word_t.
Proof. apply ty_main_schedule. Qed.
Lemma ty_schedule : schedule ∷ any.
Proof. unfold schedule. ty. Qed.
#[local] Hint Resolve ty_hwi_tail_handle ty_schedule : typing.
Lemma ty_thread_block st : thread_block st ∷ any.
Proof. unfold thread_block. ty. Qed.
Lemma ty_thread_unblock t : word_t t -> thread_unblock t ∷ any.
Proof. intros Ht. unfold thread_unblock. ty. Qed.
#[local] Hint Resolve ty_thread_block ty_thread_unblock : typing.

(** ** [thread/sync.c] *)

Lemma ty_sem_init s v : sem_t s -> sem_init s v ∷ any.
Proof. intros Hs. unfold sem_init. ty. Qed.
#[local] Hint Resolve ty_sem_init : typing.
Lemma ty_mutex_init m : word_t m -> mutex_init m ∷ any.
Proof. intros Hm. unfold mutex_init. ty. Qed.
Lemma ty_sem_wait s : sem_t s -> sem_wait s ∷ any.
Proof. intros Hs. unfold sem_wait. ty. Qed.
#[local] Hint Resolve ty_mutex_init ty_sem_wait : typing.
Lemma ty_sem_down_loop s st : sem_t s -> sem_down_loop s st ∷ any.
Proof.
  intros Hs. unfold sem_down_loop. ty_step; [|ty]. apply (ty_while _ any); [done|..]; intros _ _; ty.
Qed.
#[local] Hint Resolve ty_sem_down_loop : typing.
Lemma ty_sem_down s : sem_t s -> sem_down s ∷ any.
Proof. intros Hs. unfold sem_down. ty. Qed.
Lemma ty_sem_down_again s st : sem_t s -> sem_down_again s st ∷ any.
Proof. intros Hs. unfold sem_down_again. ty. Qed.
Lemma ty_sem_up s : sem_up s ∷ any.
Proof. unfold sem_up. ty. Qed.
#[local] Hint Resolve ty_sem_down ty_sem_down_again ty_sem_up : typing.
Lemma ty_mutex_lock m : word_t m -> mutex_lock m ∷ any.
Proof. intros Hm. unfold mutex_lock. simpl. ty. Qed.
Lemma ty_mutex_unlock m : mutex_unlock m ∷ any.
Proof. unfold mutex_unlock. simpl. ty. Qed.
#[local] Hint Resolve ty_mutex_lock ty_mutex_unlock : typing.

(** ** [device/console.c], [kernel/debug.c] *)

Lemma ty_console_init : console_init ∷ any.
Proof. unfold console_init. ty. Qed.
Lemma ty_console_put_str fuel a : console_put_str fuel a ∷ any.
Proof. unfold console_put_str, console_acquire, console_release. ty. Qed.
Lemma ty_console_put_char c : console_put_char c ∷ any.
Proof. unfold console_put_char, console_acquire, console_release. ty. Qed.
Lemma ty_console_put_int n : console_put_int n ∷ any.
Proof. unfold console_put_int, console_acquire, console_release. ty. Qed.
Lemma ty_panic_spin fuel f l g c : panic_spin fuel f l g c ∷ any.
Proof. unfold panic_spin, spin. ty. Qed.
#[local] Hint Resolve ty_console_init ty_console_put_str ty_console_put_char ty_console_put_int
  ty_panic_spin : typing.

(** ** [kernel/interrupt.c], [user/tss.c], [user/syscall_init.c] *)

(** The statements that touch the tables. *)
Lemma ty_tables {A} (m : M tables A) Q : has_type typed m Q ->
  (forall t, match m t with Ok _ t' | Switched t' => idt_table t' = idt_table t | _ => True end) ->
  has_type tables_with m Q.
Proof.
  intros Hm Hi t [Ht HT]. specialize (Hm t Ht). specialize (Hi t). unfold tables_with.
  destruct (m t); [|by rewrite Hi|done..]. destruct Hm. by rewrite Hi.
Qed.

Lemma tw_set_idt i g : 0 <= i < IDT_DESC_CNT -> typed g -> has_type tables_with (set_idt i g) any.
Proof. intros Hi Hg. by apply ty_tables; [apply ty_set_idt|]. Qed.
Lemma tw_set_gdt i d : typed d -> has_type tables_with (set_gdt i d) any.
Proof. intros Hd. by apply ty_tables; [apply ty_set_gdt|]. Qed.
Lemma tw_set_tss s : typed s -> has_type tables_with (set_tss s) any.
Proof. intros Hs. by apply ty_tables; [apply ty_set_tss|]. Qed.
Lemma tw_set_syscall i c : 0 <= i < SYSCALL_NUM -> has_type tables_with (set_syscall i c) any.
Proof. intros Hi. by apply ty_tables; [apply ty_set_syscall|]. Qed.
Lemma tw_lidt v : long_t v -> has_type tables_with (lidt v) any.
Proof. intros Hv. by apply ty_tables; [apply ty_lidt|]. Qed.
Lemma tw_lgdt v : long_t v -> has_type tables_with (lgdt v) any.
Proof. intros Hv. by apply ty_tables; [apply ty_lgdt|]. Qed.
Lemma tw_ltr v : half_t v -> has_type tables_with (ltr v) any.
Proof. intros Hv. by apply ty_tables; [apply ty_ltr|]. Qed.
Lemma tw_the_tss : has_type tables_with (gets the_tss) typed.
Proof. by apply ty_tables; [apply ty_the_tss|]. Qed.
#[local] Hint Resolve tw_set_idt tw_set_gdt tw_set_tss tw_set_syscall tw_lidt tw_lgdt tw_ltr tw_the_tss : typing.

Lemma tw_set_handler i h : registers -> 0 <= i < IDT_DESC_CNT -> has_type tables_with (set_handler i h) any.
Proof.
  intros HR Hi t [Ht HT]. pose proof (ty_set_handler i h Hi t Ht) as H. split; [split|done]; [apply H|by apply HR].
Qed.
#[local] Hint Resolve tw_set_handler : typing.
Lemma tw_intr_handler_register v h : registers -> has_type tables_with (intr_handler_register v h) any.
Proof.
  intros HR. unfold intr_handler_register. destruct (Z.ltb_spec (u8 v) IDT_DESC_CNT); [|ty].
  pose proof (u8_range v). ty.
Qed.
Lemma tw_exception_init : registers -> has_type tables_with exception_init any.
Proof. intros HR. unfold exception_init. ty. Qed.
#[local] Hint Resolve tw_intr_handler_register tw_exception_init : typing.

Section Interrupts.
Context (intr_entry_table : Z -> Z) (syscall_entry : Z).

Lemma ty_idt_desc_init : idt_desc_init intr_entry_table syscall_entry ∷ any.
Proof. unfold idt_desc_init, INT_SYSCALL. ty. Qed.
Lemma ty_pic_init : pic_init ∷ any.
Proof. unfold pic_init. ty. Qed.
Lemma ty_put_name fuel v : put_name fuel v ∷ any.
Proof. unfold put_name. destruct (intr_name !! Z.to_nat v) as [[s|]|]; ty. Qed.
Lemma ty_cursor_set c : cursor_set c ∷ any.
Proof. unfold cursor_set. ty. Qed.
#[local] Hint Resolve ty_idt_desc_init ty_pic_init ty_put_name ty_cursor_set : typing.
Lemma ty_general_intr_handler fuel cr2 v : general_intr_handler fuel cr2 v ∷ any.
Proof. unfold general_intr_handler, spin. ty. Qed.
Lemma ty_idt_init a : registers -> idt_init intr_entry_table syscall_entry a ∷ any.
Proof. intros HR. unfold idt_init. ty. Qed.

Lemma ty_tss_init : tss_init ∷ any.
Proof.
  assert (Hset : forall e s b, word_t e -> word_t s -> word_t b -> has_type tables_with (set_tss (mkTss e s b)) any)
    by (intros; by apply tw_set_tss).
  assert (Hmembers : forall t : tss, typed t -> word_t (tss_esp0 t) /\ word_t (tss_ss0 t) /\ word_t (tss_io_base t))
    by done.
  assert (Hgdt : long_t gdt_operand) by done.
  unfold tss_init. ty; apply Hset; try done; by apply Hmembers.
Qed.
Lemma ty_sys_pid_get : sys_pid_get ∷ word_t.
Proof. unfold sys_pid_get. ty. Qed.
Lemma ty_syscall_init : syscall_init ∷ any.
Proof. unfold syscall_init, PID_GET. ty. Qed.
#[local] Hint Resolve ty_sys_pid_get : typing.
Lemma ty_syscall_dispatch n : syscall_dispatch n ∷ word_t.
Proof. unfold syscall_dispatch. ty_step. destruct (syscall_table a !! n) as [[]|]; ty. Qed.
#[local] Hint Resolve ty_syscall_dispatch : typing.
Lemma ty_int_syscall n : int_syscall syscall_entry n ∷ word_t.
Proof. unfold int_syscall. ty_step. destruct (_ ≫= _) as [g|]; ty. Qed.
Lemma ty_pid_get : pid_get syscall_entry ∷ word_t.
Proof. apply ty_int_syscall. Qed.
End Interrupts.
#[local] Hint Resolve ty_general_intr_handler ty_idt_init ty_tss_init ty_syscall_init ty_syscall_dispatch
  ty_int_syscall ty_pid_get : typing.

(** ** [kernel/memory.c] *)

Lemma ty_pool_init p base addr n : word_t base -> page_t addr -> word_t n -> pool_init p base addr n ∷ any.
Proof.
  intros Hb Ha Hn. unfold pool_init. ty_step.
  ty; apply ty_on_pool; intros pl (? & ? & ?); split_and!; cbn; try done. apply u32_range.
Qed.
#[local] Hint Resolve ty_pool_init : typing.

Lemma word_div a b : word_t a -> 0 < b -> word_t (a / b).
Proof.
  intros Ha Hb. split; [apply Z.div_pos; [apply Ha|done]|].
  apply Z.le_lt_trans with a; [apply Z.div_le_upper_bound; [done|]; destruct Ha; nia|apply Ha].
Qed.
Lemma pages_t n : word_t (u32 n / PG_SIZE / 2).
Proof. apply word_div; [apply word_div; [apply u32_range|done]|done]. Qed.
#[local] Hint Resolve pages_t : typing.

(** A page some pages behind a page. *)
Lemma page_plus a b : page_t a -> b mod PAGE = 0 -> page_t (u32 (a + b)).
Proof. intros [Ha Hm] Hb. split; [apply u32_range|]. unfold u32, PAGE in *. zdiv_lia. Qed.
Lemma pages_mod n : (n * PG_SIZE) mod PAGE = 0.
Proof. apply Z_mod_mult. Qed.

Lemma ty_mem_pool_init total : mem_pool_init total ∷ any.
Proof.
  assert (Hk : page_t (u32 (u32 (PG_SIZE * (PAGE_DIR_CNT + PAGE_TAB_CNT)) + PAGE_DIR_START_ADDR))) by done.
  assert (Hu : forall n, page_t (u32 (u32 (u32 (PG_SIZE * (PAGE_DIR_CNT + PAGE_TAB_CNT)) + PAGE_DIR_START_ADDR)
    + u32 (n * PG_SIZE)))).
  { intros n. apply page_plus; [exact Hk|]. pose proof (pages_mod n). unfold u32, PAGE, PG_SIZE in *. zdiv_lia. }
  assert (Hh : page_t K_HEAP_START) by done.
  unfold mem_pool_init. ty.
Qed.
#[local] Hint Resolve ty_mem_pool_init : typing.
Lemma ty_mem_init : mem_init ∷ any.
Proof. unfold mem_init. ty. Qed.
Lemma ty_set_bits b i n : set_bits b i n ∷ any.
Proof. unfold set_bits. ty. Qed.
#[local] Hint Resolve ty_mem_init ty_set_bits : typing.
Lemma null_page : page_t NULL.
Proof. done. Qed.
#[local] Hint Resolve null_page : typing.
Lemma ty_vaddr_get pf n : vaddr_get pf n ∷ page_t.
Proof.
  unfold vaddr_get. ty; apply page_plus; try apply pages_mod; auto with typing.
Qed.
Lemma ty_paddr_get p : paddr_get p ∷ word_t.
Proof. unfold paddr_get. ty. Qed.
#[local] Hint Resolve ty_vaddr_get ty_paddr_get : typing.
Lemma ty_v2p_mapping v p : v2p_mapping v p ∷ any.
Proof. unfold v2p_mapping. ty. Qed.
#[local] Hint Resolve ty_v2p_mapping : typing.
Lemma ty_map_pages n p v : map_pages n p v ∷ any.
Proof. revert v. induction n as [|n IH]; intros v; simpl; ty. Qed.
#[local] Hint Resolve ty_map_pages : typing.
Lemma ty_malloc_page pf n : malloc_page pf n ∷ page_t.
Proof. unfold malloc_page. ty. by destruct (_ : bool). Qed.
#[local] Hint Resolve ty_malloc_page : typing.
Lemma ty_kernel_pages_malloc n : kernel_pages_malloc n ∷ page_t.
Proof. unfold kernel_pages_malloc. ty. Qed.
Lemma user_pool_t : word_t (pool_mtx user_phy_pool).
Proof. done. Qed.
#[local] Hint Resolve user_pool_t : typing.
Lemma ty_user_pages_malloc n : user_pages_malloc n ∷ page_t.
Proof. unfold user_pages_malloc. ty. Qed.
Lemma ty_target_vaddr_malloc pf v : word_t v -> target_vaddr_malloc pf v ∷ word_t.
Proof.
  intros Hv. assert (Hm : word_t (pool_mtx (if decide (pf = PF_KERNEL) then kernel_phy_pool else user_phy_pool)))
    by by destruct (decide _).
  unfold target_vaddr_malloc. ty.
Qed.
#[local] Hint Resolve ty_kernel_pages_malloc ty_user_pages_malloc ty_target_vaddr_malloc : typing.

(** ** [device/ioqueue.c], [device/keyboard.c], [device/timer.c] *)

Lemma next_pos_t p : 0 <= next_pos_get p < BUF_SIZE.
Proof. by apply Z.mod_pos_bound. Qed.
#[local] Hint Resolve next_pos_t : typing.

Lemma ty_ioqueue_init q : word_t q -> ioqueue_init q ∷ any.
Proof.
  intros Hq. unfold ioqueue_init.
  ty; apply ty_on_ioq; intros; [by apply head_typed|by apply tail_typed].
Qed.
Lemma ty_ioq_full q : ioq_full q ∷ any.
Proof. unfold ioq_full. ty. Qed.
Lemma ty_ioq_empty q : ioq_empty q ∷ any.
Proof. unfold ioq_empty. ty. Qed.
Lemma waiter_typed w v (i : ioqueue) : word_t v -> typed i -> typed (set_waiter w v i).
Proof. destruct w; [apply producer_typed|apply consumer_typed]. Qed.
#[local] Hint Resolve ty_ioqueue_init ty_ioq_full ty_ioq_empty waiter_typed : typing.
Lemma ty_ioq_wait q w : ioq_wait q w ∷ any.
Proof. unfold ioq_wait. ty. Qed.
Lemma ty_ioq_signal q w : ioq_signal q w ∷ any.
Proof. unfold ioq_signal. ty. Qed.
Lemma ty_buf_get (i : ioqueue) pos : typed i -> buf_get i pos ∷ byte_t.
Proof.
  intros (_ & _ & [_ Hb] & _) k Hk. unfold buf_get. destruct (buf i !! Z.to_nat pos) as [c|] eqn:E; [|done].
  split; [done|]. by eapply Forall_lookup_1.
Qed.
Lemma ty_buf_set q pos c : byte_t c -> buf_set q pos c ∷ any.
Proof.
  intros Hc. unfold buf_set. ty. destruct Ht as (_ & _ & [Hl Hb] & _).
  apply ty_on_ioq. intros i' Hi. apply buf_typed; [by rewrite length_insert|by apply Forall_insert|done].
Qed.
#[local] Hint Resolve ty_ioq_wait ty_ioq_signal ty_buf_get ty_buf_set : typing.
Lemma ty_wait_while q cond w : word_t q -> cond ∷ any -> wait_while q cond w ∷ any.
Proof. intros Hq Hc. apply (ty_while _ any); [done|done|]. intros _ _. ty. Qed.
#[local] Hint Resolve ty_wait_while : typing.
Lemma ty_getchar_rest q : getchar_rest q ∷ byte_t.
Proof. unfold getchar_rest. ty. Qed.
Lemma ty_putchar_rest q c : byte_t c -> putchar_rest q c ∷ any.
Proof. intros Hc. unfold putchar_rest. ty. Qed.
#[local] Hint Resolve ty_getchar_rest ty_putchar_rest : typing.
Lemma ty_ioq_getchar q : word_t q -> ioq_getchar q ∷ byte_t.
Proof. intros Hq. unfold ioq_getchar. ty. Qed.
Lemma ty_ioq_putchar q c : word_t q -> byte_t c -> ioq_putchar q c ∷ any.
Proof. intros Hq Hc. unfold ioq_putchar. ty. Qed.
#[local] Hint Resolve ty_ioq_getchar ty_ioq_putchar : typing.
Lemma ty_ioq_getchar_again q st : word_t q -> ioq_getchar_again q st ∷ byte_t.
Proof. intros Hq. unfold ioq_getchar_again. ty. Qed.
Lemma ty_ioq_putchar_again q st c : word_t q -> byte_t c -> ioq_putchar_again q st c ∷ any.
Proof. intros Hq Hc. unfold ioq_putchar_again. ty. Qed.

Lemma ty_scan_code_get : scan_code_get ∷ any.
Proof. unfold scan_code_get. ty. Qed.
Lemma ty_ctrl_key_proc c : ctrl_key_proc c ∷ any.
Proof. unfold ctrl_key_proc. destruct (break_code c); ty. Qed.

Lemma keymap_bytes : Forall (fun k => byte_t k.1 /\ byte_t k.2) keymap.
Proof. vm_compute. repeat constructor; discriminate. Qed.
Lemma ty_keymap_get i s : keymap_get i s ∷ byte_t.
Proof.
  intros k Hk. unfold keymap_get. destruct (keymap !! Z.to_nat i) as [[a b]|] eqn:E; [|done].
  split; [done|]. destruct (Forall_lookup_1 _ _ _ _ keymap_bytes E). by destruct s.
Qed.
Lemma kbd_buf_t : word_t kbd_buf.
Proof. done. Qed.
#[local] Hint Resolve ty_scan_code_get ty_ctrl_key_proc ty_keymap_get kbd_buf_t : typing.
Lemma ty_normal_key_proc c : normal_key_proc c ∷ any.
Proof. unfold normal_key_proc. ty. Qed.
#[local] Hint Resolve ty_normal_key_proc : typing.
Lemma ty_intr_keyboard_handler : intr_keyboard_handler ∷ any.
Proof. unfold intr_keyboard_handler. ty. Qed.
Lemma ty_keyboard_init : registers -> keyboard_init ∷ any.
Proof. intros HR. unfold keyboard_init. ty. Qed.
Lemma ty_key_arrives b : byte_t b -> modify (fun k => with_io (present_byte b (k_io k)) k) ∷ any.
Proof.
  intros Hb. apply ty_modify. intros k [[] HT]. split; [|done]. constructor; try done.
  destruct kt_io0 as (? & ? & ? & ?). by split_and!.
Qed.

Lemma ty_intr_timer_handler : intr_timer_handler ∷ any.
Proof.
  unfold intr_timer_handler. ty. apply ty_with_clock. intros k. apply u32_range.
Qed.
Lemma ty_timer_init : registers -> timer_init ∷ any.
Proof. intros HR. unfold timer_init, freq_set. ty. Qed.
#[local] Hint Resolve ty_intr_keyboard_handler ty_keyboard_init ty_key_arrives ty_intr_timer_handler
  ty_timer_init : typing.

(** ** [thread/thread.c]: threads; [user/process.c] *)

Lemma ty_st32 a v : st32 a v ∷ any.
Proof. unfold st32. ty. Qed.
Lemma ty_ld32 a : ld32 a ∷ word_t.
Proof. unfold ld32. ty. Qed.
#[local] Hint Resolve ty_st32 ty_ld32 : typing.

Lemma ty_scheduler_init : scheduler_init ∷ any.
Proof.
  assert (Htable : forall s : sched, typed s -> typed (sched_table (replicate (Z.to_nat MAX_THREAD_NUM) NULL) s)).
  { intros s Hs. apply table_typed; [done| |done]. by apply Forall_replicate. }
  assert (Hrq : forall i, 0 <= i < 0 + Z.of_nat (Z.to_nat PRIO_NUM) -> byte_t i).
  { change (Z.of_nat (Z.to_nat PRIO_NUM)) with 32. unfold byte_t. lia. }
  assert (Hn : word_t NULL) by done. assert (Hm : word_t pid_mtx) by done.
  assert (Hp : word_t PRIO_NUM) by done.
  unfold scheduler_init. ty. apply ty_list_init; [apply rq_t|apply rq_tail_t]; by apply Hrq.
Qed.

Lemma text_t s : Forall byte_t (Print.text_of s).
Proof.
  unfold Print.text_of. apply Forall_fmap, Forall_true. intros c. unfold compose, byte_t.
  pose proof (Ascii.nat_ascii_bounded c). lia.
Qed.
Lemma ty_name_copy t n : Forall byte_t n -> name_copy t n ∷ any.
Proof.
  intros Hn. unfold name_copy. destruct (Nat.leb_spec (length n) NAME_LEN); [|ty]. apply ty_on_tcb.
  intros tc Ht. pose proof Ht as (_ & _ & _ & [Hl Hb] & _). apply name_typed; [| |done].
  - rewrite length_app, length_drop. lia.
  - apply Forall_app_2; [done|]. by apply Forall_drop.
Qed.
Lemma no_tcb_t : typed no_tcb.
Proof. repeat split; try done. by apply Forall_replicate. Qed.
(** The nodes of a control block at the start of a page. *)
Lemma tcb_nodes_t t a : page_t t -> a ∈ tcb_nodes t -> node_t a.
Proof.
  intros [Ht Hm]. unfold tcb_nodes. rewrite !elem_of_cons, elem_of_nil. unfold node_t, front_of_queues, PAGE in *.
  intros [->|[->|[->|[->|[->|[]]]]]]; (split; [unfold pool_of, OFF_user_vaddr_pool, list_head; member|]);
    unfold ready_tag, pend_tag, all_list_tag, OFF_ready_tag, OFF_pend_tag, OFF_all_list_tag, list_tail, sem_waiters,
      mutex_sem, pool_mtx, pool_of, OFF_user_vaddr_pool, list_head; zdiv_lia.
Qed.
Lemma ty_tcb_clear t : page_t t -> tcb_clear t ∷ any.
Proof.
  intros Ht. unfold tcb_clear. ty. apply ty_modify. intros k [[] HT]. split; [|done]. constructor; try done.
  - assert (Hn : forall a, a ∈ tcb_nodes t -> node_t a) by (intros x; by apply tcb_nodes_t).
    unfold with_new_tcb. cbn [k_links with_tcbs with_links]. revert Hn. induction (tcb_nodes t) as [|b bs IH]; [done|].
    intros Hn. simpl. apply map_Forall_insert_2; [split; [apply Hn; left|done]|]. apply IH. intros c Hc. apply Hn. by right.
  - by apply map_Forall_insert_2; [apply no_tcb_t|].
  - by apply map_Forall_insert_2.
  - by apply map_Forall_insert_2.
Qed.
#[local] Hint Resolve ty_scheduler_init text_t ty_name_copy ty_tcb_clear : typing.

Lemma ty_thread_table_get i : thread_table_get i ∷ word_t.
Proof.
  apply ty_deref. intros k v Hk E. destruct (kt_sched k (proj1 Hk)) as (_ & _ & [_ Ht] & _).
  by eapply Forall_lookup_1.
Qed.
#[local] Hint Resolve ty_thread_table_get : typing.
Lemma ty_pid_search n i t : word_t t -> pid_search n i t ∷ any.
Proof.
  intros Ht. revert i. induction n as [|n IH]; intros i; simpl; ty.
  apply ty_on_sched. intros s Hs. pose proof Hs as (_ & _ & [Hl Hf] & _).
  apply table_typed; [by rewrite length_insert|by apply Forall_insert|done].
Qed.
#[local] Hint Resolve ty_pid_search : typing.
Lemma ty_pid_alloc t : word_t t -> pid_alloc t ∷ any.
Proof. intros Ht. assert (Hm : word_t pid_mtx) by done. unfold pid_alloc. ty. Qed.
#[local] Hint Resolve ty_pid_alloc : typing.
Lemma ty_thread_tcb_init t n p : page_t t -> Forall byte_t n -> thread_tcb_init t n p ∷ any.
Proof. intros Ht Hn. unfold thread_tcb_init. ty. Qed.
#[local] Hint Resolve ty_thread_tcb_init : typing.
Lemma ty_thread_stack_init e t f a : thread_stack_init e t f a ∷ any.
Proof. unfold thread_stack_init. ty. Qed.
#[local] Hint Resolve ty_thread_stack_init : typing.
Lemma ty_thread_init e t n p f a : page_t t -> Forall byte_t n -> thread_init e t n p f a ∷ any.
Proof. intros Ht Hn. unfold thread_init. ty. Qed.
#[local] Hint Resolve ty_thread_init : typing.
Lemma ty_thread_create e n p f a : Forall byte_t n -> thread_create e n p f a ∷ word_t.
Proof. intros Hn. unfold thread_create. ty. Qed.
#[local] Hint Resolve ty_thread_create : typing.
Lemma ty_thread_run e n p f a : Forall byte_t n -> thread_run e n p f a ∷ word_t.
Proof. intros Hn. unfold thread_run. ty. Qed.
#[local] Hint Resolve ty_thread_run : typing.

Lemma running_thread_get_t e : page_t (running_thread_get e).
Proof.
  unfold running_thread_get. split; [rewrite Z.land_comm; by apply (land_range_l 32)|].
  change PAGE with (2 ^ 12). rewrite <- Z.land_ones by done. rewrite <- Z.land_assoc. apply Z.land_0_r.
Qed.
#[local] Hint Resolve running_thread_get_t : typing.
Lemma ty_idle_thread_make e : idle_thread_make e ∷ any.
Proof.
  set (t := running_thread_get e). assert (Ht : page_t t) by apply running_thread_get_t.
  assert (H : (thread_tcb_init t (Print.text_of "idle") 31;; r ← RUNNING_THREAD; scheduler_rq_join r;;
    r ← RUNNING_THREAD; zoom lists_of (list_push_back all_list (all_list_tag r))) ∷ any) by ty.
  assert (Hr : on_sched (sched_running t) ∷ any) by ty.
  assert (Hi : on_sched (sched_idle t) ∷ any) by ty.
  intros k Hk. destruct (Hr k Hk) as [Hk1 _]. destruct (Hi _ Hk1) as [Hk2 _]. exact (H _ Hk2).
Qed.
#[local] Hint Resolve ty_idle_thread_make : typing.
Lemma ty_thread_all_init e : thread_all_init e ∷ any.
Proof. unfold thread_all_init. ty. Qed.

Lemma ty_page_dir_create : page_dir_create ∷ word_t.
Proof. unfold page_dir_create. ty. Qed.
Lemma ty_user_vaddr_bitmap_create t : user_vaddr_bitmap_create t ∷ any.
Proof.
  assert (Hn : word_t ((0xc0000000 - USER_VADDR_START) / PG_SIZE)) by done.
  assert (Hu : page_t USER_VADDR_START) by done.
  unfold user_vaddr_bitmap_create. ty.
  all: apply ty_on_tcb; intros tc Htc; apply pool_typed; [|done]; split_and!; cbn;
    auto with typing.
Qed.
#[local] Hint Resolve ty_thread_all_init ty_page_dir_create ty_user_vaddr_bitmap_create : typing.
Lemma ty_process_run e p f n : Forall byte_t n -> process_run e p f n ∷ any.
Proof. intros Hn. unfold process_run. ty. Qed.
#[local] Hint Resolve ty_process_run : typing.

(** ** [kernel/init.c], [kernel/main.c] *)

Section Images.
Context (im : image).

Lemma ty_init_all e : registers -> init_all im e ∷ any.
Proof. intros HR. unfold init_all. ty. Qed.
Lemma ty_print_forever n p : print_forever n p ∷ any.
Proof. unfold print_forever. ty. Qed.
Lemma ty_pid_of_running : pid_of_running ∷ word_t.
Proof. unfold pid_of_running. ty. Qed.
#[local] Hint Resolve ty_init_all ty_print_forever ty_pid_of_running : typing.
Lemma ty_main_processes n : main_processes im n ∷ any.
Proof. unfold main_processes. ty. Qed.
#[local] Hint Resolve ty_main_processes : typing.
Lemma ty_main e n : registers -> main im e n ∷ any.
Proof. intros HR. unfold main. ty. Qed.
Lemma ty_thread1 n a : thread1 n a ∷ any.
Proof. unfold thread1. ty. Qed.
Lemma ty_process1 : process1 im ∷ any.
Proof. unfold process1. ty. Qed.
End Images.

End Handlers.

End KernelTyping.
