(* ===== verification/MainTurns.v ===== *)
(** [main] of [kernel/main.c] and what comes after it: the threads take turns.

    When [main] has started its threads, each of them stands on its stack with
    its first context, the idle thread runs, and the scheduler is due
    ([main_turns]): the state is one the transition system of [Switching] can
    go on from. *)

From S2P Require Import Prelude Bytes Interrupt LinkedList Paging PageTable PageMap Words Ports Print Descriptors Kernel.
From S2P Require Import ReadyQueues Sched Timer Sync Memory Heap MemInit Thread ThreadSpec ThreadRun SchedInit.
From S2P Require Import Process ProcessRun FreshProcess Init Boot Main Entry EntrySpec Switching Typing KernelTyping.

Module MainTurns.
Import Interrupt LinkedList Paging PageTable PageMap Words Ports Descriptors Kernel ReadyQueues Sched Timer.
Import Sync Memory Heap MemInit Thread ThreadSpec ThreadRun SchedInit Process ProcessRun FreshProcess Init Boot Main.
Import Entry EntrySpec Switching Typing KernelTyping.

Section Turns.
Context (total : Z) (table : Z -> Z) (im : image) (esp : Z).
Context (Hfits : memory_fits total) (Hone : 0 < kernel_pages total).
Context (Hstack : maps_end total <= idle_page esp /\ idle_page esp + PG_SIZE <= Print.video_base_addr).
Implicit Types (D : list Z) (k : kernel) (t : Z).

(** ** The first contexts *)

Definition first_context t : context :=
  inl (mkFast 0 0 0 0 (im_kernel_thread_entry im) (first_stack t + TS_unused_ret_addr)).
Definition first_contexts : gmap Z context :=
  list_to_map ((fun c => (c.1, first_context c.1)) <$> first_calls im).

Lemma stands_on_stack D k t func arg : stands im D k t func arg ->
  on_stack (k_vm k) t (first_stack t) (first_context t).
Proof.
  intros [_ (_ & _ & F)].
  assert (Fs : frame_size (first_context t) = 24) by done.
  split; [unfold first_stack, TCB_SIZE, INTR_STACK_SIZE, THREAD_STACK_SIZE, PG_SIZE; lia|].
  split; [rewrite Fs; unfold first_stack, INTR_STACK_SIZE, THREAD_STACK_SIZE, PG_SIZE; lia|].
  split; [reflexivity|]. exists 0, 0. intros i w Hi.
  assert (Hw : first_frame (im_kernel_thread_entry im) func arg !! (4 * Z.of_nat i) = Some w).
  { do 6 (destruct i as [|i]; [injection Hi as <-; reflexivity|]). done. }
  by apply F in Hw as (_ & _ & _ & E).
Qed.

(** ** The types after [main] *)

Lemma ty_main_init (T : gmap Z intr_handler -> Prop) : registers T ->
  has_type (typed_with T) (main_init im esp) any.
Proof.
  intros HR. unfold main_init. eapply ty_bind; [apply ty_say|]. intros _ _. by apply ty_init_all.
Qed.

Lemma ty_main_rest (T : gmap Z intr_handler -> Prop) n : has_type (typed_with T) (main_rest im n) any.
Proof.
  unfold main_rest. eapply ty_bind; [apply ty_thread_run, text_t|]. intros _ _.
  eapply ty_bind; [apply ty_thread_run, text_t|]. intros _ _. apply ty_main_processes.
Qed.

(** The clock's handler stays registered. *)
Lemma main_typed D k n k' : boot_state D total table esp k -> kernel_typed k -> main im esp n k = Ok tt k' ->
  kernel_typed k' /\ idt_table (k_tables k') !! INT_TIMER = Some intr_timer_handler_ptr.
Proof.
  intros B Hk E.
  destruct (main_init_ok total table im esp Hfits Hone Hstack D k B) as (k1 & L & E1 & _ & _ & _ & _ & _ & Hc).
  rewrite (main_parts im esp k k1 n E1) in E.
  pose proof (ty_main_init (fun _ => True) (fun _ _ _ _ => I) k (conj Hk I)) as H1. rewrite E1 in H1.
  destruct H1 as [[Hk1 _] _].
  pose proof (ty_main_rest (fun h => h !! INT_TIMER = Some intr_timer_handler_ptr) n k1 (conj Hk1 Hc)) as H2.
  rewrite E in H2. by destruct H2.
Qed.

(** ** The threads after [main] *)

(** The threads [main] starts. *)
Definition started_threads : list Z := [heap_page 1; heap_page 2; heap_page 3; heap_page 28].

Lemma all_tcbs_cases t tc : all_tcbs esp !! t = Some tc -> t = idle_page esp \/ t ∈ started_threads.
Proof.
  unfold all_tcbs, started_threads. rewrite !elem_of_cons, elem_of_nil. intros H.
  repeat (apply lookup_insert_Some in H as [[<- _]|[_ H]]; [tauto|]).
  apply lookup_singleton_Some in H as [<- _]. by left.
Qed.

Lemma all_tcbs_idle : all_tcbs esp !! idle_page esp = Some (idle_tcb (idle_page esp)).
Proof.
  assert (N : forall n, 0 <= n -> heap_page n <> idle_page esp) by (intros m Hm; by eapply heap_above).
  unfold all_tcbs. rewrite !lookup_insert_ne by (apply N; lia). apply lookup_singleton_eq.
Qed.

(** What they have in common. *)
Lemma all_tcbs_sound t tc : all_tcbs esp !! t = Some tc ->
  stack_magic tc = STACK_MAGIC /\ 0 <= ticks tc <= MAX_TICKS /\ may_block (status tc) = false
  /\ (t <> idle_page esp -> stack_top tc = first_stack t).
Proof.
  assert (H8 : 0 <= ticks_get 8 <= MAX_TICKS) by by vm_compute.
  assert (H31 : 0 <= ticks_get 31 <= MAX_TICKS) by by vm_compute.
  unfold all_tcbs. intros H.
  repeat (apply lookup_insert_Some in H as [[<- <-]|[_ H]];
    [split; [reflexivity|split; [assumption|split; [reflexivity|intros _; reflexivity]]]|]).
  apply lookup_singleton_Some in H as [<- <-].
  split; [reflexivity|split; [assumption|split; [reflexivity|by intros []]]].
Qed.

Lemma started_stands D k t : all_stand im esp D k -> t ∈ started_threads ->
  exists func arg, stands im D k t func arg.
Proof.
  intros [_ _ C]. unfold started_threads. rewrite !elem_of_cons, elem_of_nil.
  intros [->|[->|[->|[->|[]]]]]; eexists _, _; apply C; unfold first_calls; [left| | |].
  - right; left.
  - right; right; left.
  - right; right; right; left.
Qed.

Lemma started_context t : t ∈ started_threads -> first_contexts !! t = Some (first_context t).
Proof.
  unfold started_threads. rewrite !elem_of_cons, elem_of_nil. intros [->|[->|[->|[->|[]]]]]; reflexivity.
Qed.

Lemma main_turns D k n : boot_state D total table esp k -> spawnable (kernel_memory total table) (k_vm k) (taken total 0) ->
  53 <= kernel_pages total -> is_u32 (im_kernel_thread_entry im) -> is_u32 (im_process_entry im) ->
  is_u32 (im_arg1 im) -> is_u32 (im_arg2 im) -> kernel_typed k ->
  let D' := heap_frame 52 :: heap_frame 27 :: D in
  exists k' L, main im esp n k = Ok tt k' /\ threads_ok D' k' (all_queued esp) L first_contexts
    /\ running_thread (k_sched k') = idle_page esp /\ need_schedule (k_sched k') = true
    /\ k_tcbs k' = all_tcbs esp /\ if_flag (k_eflags k') = true.
Proof.
  intros B Sp H53 He Hp Ha1 Ha2 Hk D'.
  destruct (main_ok total table im esp Hfits Hone Hstack D k n B Sp H53 He Hp Ha1 Ha2)
    as (k' & L & E & [K _ _ _ _] & Et & If & Er & En & _ & _ & _ & St).
  destruct (main_typed D k n k' B Hk E) as [Ty Hc]. pose proof (ko_sched _ _ _ _ _ _ _ _ K) as R.
  exists k', L. split; [exact E|]. split; [|done].
  assert (Hpage : forall t, is_Some (k_tcbs k' !! t) ->
    (t = idle_page esp \/ t ∈ started_threads) /\ valid_block (ByteMem0 := vm_mem D') (k_vm k') t PG_SIZE).
  { intros t [tc Ht]. rewrite Et in Ht. pose proof (all_tcbs_cases t tc Ht) as C. split; [done|].
    destruct C as [->|C]; [apply St|]. by destruct (started_stands D' k' t St C) as (f & a & [V _]). }
  constructor.
  - constructor; [exact R| | |by intros t Ht; apply Hpage| |exact Hc|].
    + intros t tc. rewrite Et. intros Ht. by destruct (all_tcbs_sound t tc Ht) as (? & ? & _).
    + intros t tc. rewrite Et. intros Ht _. by destruct (all_tcbs_sound t tc Ht) as (_ & _ & ? & _).
    + intros t a Ht Ha%(first_mask_bytes k' a (al_mask _ _ _ _ St)). destruct (Hpage t Ht) as [C _].
      destruct Hstack as [_ H2]. unfold K_HEAP_START, in_block, PG_SIZE, Print.video_base_addr in *.
      destruct C as [->|C]; [lia|]. revert C. unfold started_threads, heap_page, PG_SIZE.
      rewrite !elem_of_cons, elem_of_nil. lia.
    + apply eq_None_not_Some. intros [e He']. by destruct (kt_links _ Ty _ _ He') as [[_ Hm] _].
  - rewrite Er. split; [done|]. exists (idle_tcb (idle_page esp)), [idle_page esp; heap_page 3; heap_page 28].
    rewrite Et. split; [|split; [done|split; [reflexivity|left]]].
    apply all_tcbs_idle.
  - rewrite Er. intros tc. rewrite Et, all_tcbs_idle. by intros [= <-] [].
  - intros t Ht N. rewrite Er in N. destruct (Hpage t Ht) as [[->|C] _]; [done|]. exists (first_context t).
    split; [by apply started_context|]. destruct Ht as [tc Ht]. exists tc. split; [done|].
    rewrite Et in Ht. destruct (all_tcbs_sound t tc Ht) as (_ & _ & _ & ->); [|done].
    destruct (started_stands D' k' t St C) as (f & a & S'). by eapply stands_on_stack.
Qed.

(** ** The first turns

    The idle thread goes to the highest level when its slice is over.  The
    threads then come one after the other, each within the clock interrupts
    named here: those of the level 8 first, the processes of the level 31 when
    the three others have come down to them. *)
Definition first_turns : list (Z * nat) :=
  [(heap_page 1, 97%nat); (heap_page 2, 109%nat); (heap_page 3, 925%nat); (heap_page 28, 1309%nat)].

Lemma first_place t m : (t, m) ∈ first_turns -> exists px q i,
  let qs := demote 31 (idle_page esp) (all_queued esp) in
  qs !! px = Some q /\ q !! i = Some t /\ S (12 * slice_wait px i qs) = m /\ t <> idle_page esp /\ t ∈ started_threads.
Proof.
  intros Ht. set (qs := demote 31 (idle_page esp) (all_queued esp)).
  assert (N : forall j, 0 <= j -> heap_page j <> idle_page esp) by (intros j Hj; by eapply heap_above).
  assert (Eqs : qs = [[idle_page esp]] ++ replicate 7 [] ++ [[heap_page 1; heap_page 2]] ++ replicate 22 []
      ++ [[heap_page 3; heap_page 28]]).
  { unfold qs, demote, all_queued, two_threads, leave, enqueue, on_level, no_queues.
    simpl. rewrite filter_cons_False by tauto. by rewrite !filter_cons_True by (apply N; lia). }
  rewrite Eqs. unfold first_turns in Ht. rewrite !elem_of_cons, elem_of_nil in Ht.
  destruct Ht as [[= -> ->]|[[= -> ->]|[[= -> ->]|[[= -> ->]|[]]]]];
    [exists 8%nat, [heap_page 1; heap_page 2], 0%nat | exists 8%nat, [heap_page 1; heap_page 2], 1%nat
    |exists 31%nat, [heap_page 3; heap_page 28], 0%nat | exists 31%nat, [heap_page 3; heap_page 28], 1%nat];
    (do 3 (split; [reflexivity|]); split; [apply N; lia|unfold started_threads; set_solver]).
Qed.

End Turns.
End MainTurns.
