(* ===== verification/SchedTheorems.v ===== *)
(** The theorems about page tables, the scheduler and the clock, each with an
    instance on the machine of [Machine.v]. *)

From S2P Require Import Prelude Bytes Bitmap Interrupt LinkedList Paging PageTable Kernel.
From S2P Require Import ReadyQueues Sched Machine Timer.

Module SchedTheorems.
Import Bitmap Interrupt LinkedList Paging PageTable Kernel ReadyQueues Sched Machine Timer.

(** ** Page tables *)

(** with the last directory entry pointing at the directory itself, the
    addresses [pte_vaddr_get] and [pde_vaddr_get] compute for [va] are
    translated by the processor to exactly the bytes of the page-table entry
    and of the directory entry it uses to translate [va]. *)
Theorem page_table_window s va pde k :
  self_mapped s -> is_u32 va -> 0 <= k < 4 ->
  pde_of s (pd_index va) = Some pde -> present pde = true ->
  translate s (pte_vaddr_get va + k) = Some (frame pde + 4 * pt_index va + k)
  /\ translate s (pde_vaddr_get va + k) = Some (frame (cr3 s) + 4 * pd_index va + k).
Proof. intros. split; [by apply translate_pte|by apply translate_pde]. Qed.

(** C14: [addr_v2p] computes the processor's translation of every mapped
    address, by reading the page-table entry through the window, and changes
    nothing. *)
Theorem addr_v2p_translates s va p :
  self_mapped s -> is_u32 va -> translate s va = Some p -> 0 <= p ->
  (forall pde pte, pde_of s (pd_index va) = Some pde -> present pde = true ->
     pte_of s pde (pt_index va) = Some pte -> is_u32 pte) ->
  addr_v2p va s = Ok p s.
Proof. apply addr_v2p_ok. Qed.

Lemma machine_self_mapped : self_mapped (machine ∅).
Proof. exists (PD + 7). by vm_compute. Qed.

Lemma page_table_window_witness :
  translate (machine ∅) (pte_vaddr_get 0xc00b8004 + 0)
  = Some (frame (PT + 7) + 4 * pt_index 0xc00b8004 + 0).
Proof.
  destruct (page_table_window (machine ∅) 0xc00b8004 (PT + 7) 0) as [H _];
    [apply machine_self_mapped|lia|lia|by vm_compute|by vm_compute|exact H].
Defined.

Lemma addr_v2p_translates_witness : addr_v2p 0xc00b8004 (machine ∅) = Ok 0xb8004 (machine ∅).
Proof.
  apply (addr_v2p_translates (machine ∅) 0xc00b8004 0xb8004);
    [apply machine_self_mapped|lia|by vm_compute|lia|].
  intros pde pte E1 _ E2. vm_compute in E1. injection E1 as <-.
  vm_compute in E2. injection E2 as <-. lia.
Defined.

(** ** The scheduler *)

(** C8: when a schedule is due, [main_schedule] ends the running thread's time
    slice: the thread goes to the back of the next lower queue (from the
    lowest to the highest) with the time slice of its new priority, and the
    first thread of the highest non-empty queue runs: CR3 is the kernel's
    directory for a kernel thread, and for a process the frame the address in
    its control block translates to; the stack for its interrupts is a process's
    own.  The ready mask, the queues and the control blocks agree again, and no
    other list is touched. *)
Theorem time_slice_over D k qs L cur tc :
  sched_rep D k qs L -> running k qs cur -> k_tcbs k !! cur = Some tc ->
  need_schedule (k_sched k) = true ->
  let qs' := demote (Z.to_nat (priority tc)) cur qs in
  exists p next tn k' L', main_schedule k = Ok next k'
    /\ first_ready qs' = Some (p, next) /\ sched_rep D k' qs' L' /\ running k' qs' next
    /\ <[cur := requeued tc]> (k_tcbs k) !! next = Some tn
    /\ k_tcbs k' = <[next := tcb_status TASK_RUNNING tn]> (<[cur := requeued tc]> (k_tcbs k))
    /\ need_schedule (k_sched k') = false /\ cr3 (k_vm k') ∈ D /\ other_lists L L'
    /\ (pg_dir tn = NULL -> cr3 (k_vm k') = KERNEL_PAGE_DIR_BASE_ADDR /\ k_esp0 k' = k_esp0 k)
    /\ (pg_dir tn <> NULL -> translate (k_vm k) (pg_dir tn) = Some (cr3 (k_vm k'))
         /\ k_esp0 k' = u32 (next + PG_SIZE)).
Proof.
  intros R Hrun Ht Hneed. pose proof Hrun as (Hr & tc' & q & Ht' & Hs & Hq & Hin).
  rewrite Ht in Ht'. injection Ht' as <-.
  destruct (demote_ready D _ _ _ _ _ _ R Hq Hin) as (p & next & Hf).
  destruct (main_schedule_slice D _ _ _ _ _ _ _ _ R Hr Hneed Ht Hs Hq Hin Hf)
    as (h & v & L' & tn & d & Hn & HD & Hdir & E & R' & Hd & Hm & Ho).
  exists p, next, tn. eexists _, L'. split; [exact E|]. split; [done|]. split; [exact R'|].
  split; [by eapply (dispatched_running D)|]. split; [exact Hn|]. do 4 (split; [done|]).
  unfold dir_for in Hdir. unfold dispatched. simpl. unfold esp0_for.
  destruct (Z.eqb_spec (pg_dir tn) NULL); by split.
Qed.

(** no ready thread starves: while nothing but clock interrupts happens, a
    thread at place [i] of level [px] has the processor after at most twelve
    interrupts for each of the [slice_wait px i qs] slices the queues ahead of
    it take. *)
Theorem ready_thread_runs D k qs L px q i x :
  slicing D k qs L -> qs !! px = Some q -> q !! i = Some x ->
  exists m k', (m <= 12 * slice_wait px i qs)%nat /\ run_ticks m k = Ok tt k'
    /\ running_thread (k_sched k') = x.
Proof. apply slicing_reaches. Qed.

(** C12: [thread_block] takes the running thread off the ready queues with the
    given status, gives the processor to the first thread of the highest
    non-empty queue, and returns in that thread with interrupts off. *)
Theorem thread_block_gives_way D k qs L r tc st p next :
  sched_rep D k qs L -> running k qs r -> k_tcbs k !! r = Some tc -> may_block st = true ->
  let qs' := leave (Z.to_nat (priority tc)) r qs in
  first_ready qs' = Some (p, next) ->
  exists k' L', thread_block st k = Switched k' /\ sched_rep D k' qs' L' /\ next <> r
    /\ ~ queued r qs' /\ running k' qs' next /\ status <$> k_tcbs k' !! r = Some st
    /\ if_flag (k_eflags k') = false /\ other_lists L L'.
Proof.
  intros R Hrun Ht Hst qs' Hf. pose proof Hrun as (Hr & tc' & q & Ht' & Hs & Hq & Hin).
  rewrite Ht in Ht'. injection Ht' as <-.
  destruct (thread_block_ok D _ _ _ _ _ _ _ _ _ R Hr Ht Hst Hq Hin Hf)
    as (h & v & L' & tn & d & Hne & Hn & HD & Hdir & E & R' & Hd & Hm & Ho).
  eexists _, L'. split; [exact E|]. split; [exact R'|]. split; [done|].
  split; [by eapply leave_not_queued; [eapply (rep_wf D)|..]|].
  split; [by eapply (dispatched_running D)|]. simpl.
  rewrite lookup_insert_ne, lookup_insert_eq by done. split; [done|]. split; [|done].
  apply with_if_flag.
Qed.

(** C13: a blocked thread that is woken stands first in the queue of its
    priority, ready; a schedule is due exactly when one was due before or it
    has a higher priority than the running thread; the interrupt flag and
    every other thread are as before. *)
Theorem thread_unblock_makes_ready D k qs L r rt t tc :
  sched_rep D k qs L -> running k qs r -> k_tcbs k !! r = Some rt ->
  k_tcbs k !! t = Some tc -> may_block (status tc) = true -> ~ queued t qs ->
  let qs' := enqueue_front (Z.to_nat (priority tc)) t qs in
  exists k' L', thread_unblock t k = Ok tt k' /\ sched_rep D k' qs' L'
    /\ k_tcbs k' = <[t := tcb_status TASK_READY tc]> (k_tcbs k)
    /\ need_schedule (k_sched k') = need_schedule (k_sched k) || (priority tc <? priority rt)
    /\ running_thread (k_sched k') = r /\ k_eflags k' = k_eflags k /\ other_lists L L'.
Proof.
  intros R Hrun Hrt Ht Hst Hnq qs'. pose proof (proj1 Hrun) as Hr.
  destruct (thread_unblock_ok D _ _ _ _ _ R Ht Hst Hnq ltac:(rewrite Hr; eauto))
    as (h & v & L' & E & R' & Hd & Hm & Ho).
  eexists _, L'. split; [exact E|]. split; [exact R'|]. split; [done|]. simpl.
  unfold preempted. rewrite Hr, Hrt.
  destruct (priority tc <? priority rt); simpl; by rewrite ?orb_true_r, ?orb_false_r.
Qed.

(** C32: the scheduler has no answer when no thread is ready.  If the last ready
    thread blocks, [thread_block] comes to the choice of the next thread with all
    queues empty ([k1]); the scan of the mask finds nothing, and
    [highest_rq_get] returns 2^32-1.  The address of that queue wraps around to
    [scheduler + 520], where there is no list but the last entry of
    [thread_table] and the address of the mask: the thread is picked from these
    words.  What the program makes of them is outside the model, in which
    [thread_block] ends with a fault, as no list node is there. *)
Theorem last_thread_must_not_block D k qs L r tc st :
  sched_rep D k qs L -> running k qs r -> k_tcbs k !! r = Some tc -> may_block st = true ->
  first_ready (leave (Z.to_nat (priority tc)) r qs) = None ->
  exists k1 L1, thread_block st k = block_rest r (status_of (if_flag (k_eflags k))) k1
    /\ sched_rep D k1 (leave (Z.to_nat (priority tc)) r qs) L1
    /\ k_tcbs k1 = <[r := tcb_status st tc]> (k_tcbs k)
    /\ highest_rq_get k1 = Ok 0xffffffff k1
    /\ next_thread_pick k1 = pick_from (scheduler + 520) k1
    /\ (k_links k !! (scheduler + 520) = None -> thread_block st k = Fault).
Proof.
  intros R (Hr & tc' & q & Ht' & Hs & Hq & Hin) Ht Hst Hf. rewrite Ht in Ht'. injection Ht' as <-.
  destruct (thread_block_runs D _ _ _ _ _ _ _ R Hr Ht Hst Hq Hin) as (h & v & L1 & R1 & Hd & _ & _ & E).
  exists (slept k r tc st h v), L1. split; [exact E|]. split; [exact R1|]. split; [reflexivity|].
  split; [by eapply (highest_rq_get_none D)|]. split; [by eapply (next_thread_pick_wild D)|].
  intros Hno. by eapply (thread_block_last D).
Qed.

(** *** Instances *)

(** [demo], with a schedule due or not. *)
Definition demo_due : kernel := with_sched (sched_need true (k_sched demo)) demo.

Lemma demo_running : running demo demo_queues thread_a.
Proof.
  split; [done|]. exists (kthread 1 8 TASK_RUNNING), [thread_a; thread_b].
  split; [by vm_compute|]. split; [done|]. split; [done|left].
Qed.

Lemma demo_due_rep : sched_rep [PD] demo_due demo_queues (list_to_map (family demo_queues demo_others)).
Proof. by apply (rep_ext [PD] demo), demo_rep. Qed.

Lemma demo_slicing : slicing [PD] demo demo_queues (list_to_map (family demo_queues demo_others)).
Proof.
  split; [apply demo_rep|]. split; [done|]. split.
  - exists 8%nat, thread_a. split; [done|apply demo_running].
  - intros t tc H%elem_of_list_to_map_2. unfold demo_threads in H.
    repeat (apply elem_of_cons in H as [H|H]; [injection H as -> ->; by vm_compute|]).
    by apply not_elem_of_nil in H.
Qed.

Lemma time_slice_over_witness :
  exists next k', main_schedule demo_due = Ok next k' /\ next = thread_b.
Proof.
  destruct (time_slice_over [PD] demo_due demo_queues _ thread_a (kthread 1 8 TASK_RUNNING)
    demo_due_rep) as (p & next & tn & k' & L' & E & Hf & _); [apply demo_running|by vm_compute|done|].
  exists next, k'. split; [exact E|]. vm_compute in Hf. by injection Hf as _ <-.
Defined.

(** The idle thread, of the lowest priority, behind two threads of priority
    8: 23 levels for each of them to come down, and one slice each. *)
Lemma ready_thread_runs_witness :
  exists m k', (m <= 12 * 46)%nat /\ run_ticks m demo = Ok tt k'
    /\ running_thread (k_sched k') = idle.
Proof. apply (ready_thread_runs [PD] demo demo_queues _ 31 [idle] 0 idle demo_slicing); done. Defined.

Lemma thread_block_gives_way_witness :
  exists k', thread_block TASK_BLOCKED demo = Switched k' /\ running_thread (k_sched k') = thread_b.
Proof.
  destruct (thread_block_gives_way [PD] demo demo_queues _ thread_a (kthread 1 8 TASK_RUNNING)
    TASK_BLOCKED 8 thread_b demo_rep demo_running) as (k' & L' & E & _ & _ & _ & Hr & _);
    [by vm_compute..|].
  exists k'. split; [exact E|apply Hr].
Defined.

(** [thread_b] blocked. *)
Definition demo_blocked : kernel :=
  build [(idle, kthread 0 31 TASK_READY); (thread_a, kthread 1 9 TASK_RUNNING);
         (thread_b, kthread 2 8 TASK_BLOCKED)]
    (queues_of [(9%nat, [thread_a]); (31%nat, [idle])]) demo_others thread_a
    {[console_sem := 1]} {[console_mutex := 0]} ∅.

Lemma thread_unblock_makes_ready_witness :
  exists k', thread_unblock thread_b demo_blocked = Ok tt k' /\ need_schedule (k_sched k') = true.
Proof.
  destruct (thread_unblock_makes_ready [PD] demo_blocked
    (queues_of [(9%nat, [thread_a]); (31%nat, [idle])])
    (list_to_map (family (queues_of [(9%nat, [thread_a]); (31%nat, [idle])]) demo_others))
    thread_a (kthread 1 9 TASK_RUNNING) thread_b (kthread 2 8 TASK_BLOCKED))
    as (k' & L' & E & _ & _ & Hn & _).
  - apply build_rep; [by vm_compute|apply bytes_ok_empty].
  - split; [done|]. exists (kthread 1 9 TASK_RUNNING), [thread_a].
    split; [by vm_compute|]. split; [done|]. split; [done|left].
  - by vm_compute.
  - by vm_compute.
  - done.
  - intros (j & q & Hq & Hin). assert (Hj : In j (seq 0 LEVELS)).
    { apply in_seq. apply lookup_lt_Some in Hq. simpl in Hq. unfold LEVELS. lia. }
    revert q Hq Hin. unfold LEVELS in Hj. simpl in Hj.
    repeat (destruct Hj as [<-|Hj]; [intros q [= <-] Hin; revert Hin; by apply (bool_decide_unpack _)|]).
    done.
  - exists k'. split; [exact E|]. by rewrite Hn.
Defined.

(** The idle thread alone. *)
Definition demo_alone : kernel :=
  build [(idle, kthread 0 31 TASK_RUNNING)] (queues_of [(31%nat, [idle])]) demo_others idle
    {[console_sem := 1]} {[console_mutex := 0]} ∅.

Lemma last_thread_must_not_block_witness : thread_block TASK_BLOCKED demo_alone = Fault
  /\ exists k1, thread_block TASK_BLOCKED demo_alone = block_rest idle INTR_ON k1
       /\ highest_rq_get k1 = Ok 0xffffffff k1.
Proof.
  destruct (last_thread_must_not_block [PD] demo_alone (queues_of [(31%nat, [idle])])
    (list_to_map (family (queues_of [(31%nat, [idle])]) demo_others)) idle
    (kthread 0 31 TASK_RUNNING) TASK_BLOCKED) as (k1 & L1 & E & _ & _ & Hh & _ & Hno).
  - apply build_rep; [by vm_compute|apply bytes_ok_empty].
  - split; [done|]. exists (kthread 0 31 TASK_RUNNING), [idle].
    split; [by vm_compute|]. split; [done|]. split; [done|left].
  - by vm_compute.
  - done.
  - by vm_compute.
  - split; [apply Hno; by vm_compute|]. exists k1. split; [exact E|exact Hh].
Defined.

End SchedTheorems.
