(* ===== verification/EntryTheorems.v ===== *)
(** The theorems about the entries of the kernel and about threads that take
    turns, each with an instance on a machine whose threads have stacks. *)

From S2P Require Import Prelude Bytes Bitmap Interrupt LinkedList Paging PageTable Words Ports Descriptors.
From S2P Require Import Kernel ReadyQueues Sched Timer Sync Memory Thread ThreadSpec ProcessRun Idt Entry EntrySpec.
From S2P Require Import Switching Machine.

Module EntryTheorems.
Import Bitmap Interrupt LinkedList Paging PageTable Words Ports Descriptors Kernel ReadyQueues Sched Timer.
Import Sync Memory Thread ThreadSpec ProcessRun Idt Entry EntrySpec Switching Machine.

(** ** The claims *)

(** C5: every switch is invisible to the threads: in any run in which the
    running thread computes, is interrupted by the clock, blocks, or wakes
    another, whoever gets the processor continues with exactly the context -
    all registers, or those a C function keeps - with which it gave the
    processor away last.  The invariant holds at the end of the run, so that
    the run can go on: the next clock interrupt returns. *)
Theorem threads_keep_contexts D k es k' qs L G : threads_ok D k qs L G -> steps D k es k' ->
  all_continue es G
  /\ (exists qs' L', threads_ok D k' qs' L' (contexts es G))
  /\ forall fuel cr2 c, live k' (running_thread (k_sched k')) c ->
       exists x k2, intr_entry fuel cr2 INT_TIMER None c k' = Ok x k2.
Proof.
  intros Th St. destruct (steps_next D k es k' qs L G Th St) as (Ha & qs' & L' & Th').
  split; [done|]. split; [by exists qs', L'|]. intros fuel cr2 c Lv.
  destruct (clock_next D fuel cr2 c k' qs' L' _ _ Th' eq_refl Lv) as (x & k2 & _ & _ & E & _). by exists x, k2.
Qed.

(** C6: a thread that was interrupted gets the processor back: while the
    threads compute and the clock ticks, a thread at place [i] of level [px],
    standing with the context [y], continues with [y] within twelve interrupts
    for each of the [slice_wait px i qs] slices ahead of it. *)
Theorem interrupted_thread_returns D k es k' qs L G p m px q i x0 y :
  in_slice D k qs L G p m -> (m <= 11)%nat -> steps D k es k' -> Forall ticking es ->
  qs !! px = Some q -> q !! i = Some x0 -> x0 <> running_thread (k_sched k) -> G !! x0 = Some y ->
  (12 * slice_wait px i qs <= clocks es)%nat ->
  exists es1 t c es2, es = es1 ++ Switch t c x0 y :: es2.
Proof. intros I Hm St F Hq Hx N Hy Hc. by eapply (comes_back D k es k' qs L G p m px q i x0 y). Qed.

(** C7: a system call returns to its caller with the number of the running
    thread in eax, every other register, the flags and the stack as they were;
    in memory only the caller's kernel stack has changed. *)
Theorem syscall_returns D k t tc c : live k t c -> 0 < t < 2 ^ 32 - PG_SIZE ->
  valid_block (ByteMem0 := vm_mem D) (k_vm k) t PG_SIZE -> running_thread (k_sched k) = t ->
  k_tcbs k !! t = Some tc -> 0 <= pid tc < 2 ^ 16 ->
  syscall_table (k_tables k) !! c_eax c = Some sys_pid_get_ptr ->
  exists v, syscall_entry c k = Ok (with_eax (pid tc) c) (with_vm v k)
    /\ modifies (ByteMem0 := vm_mem D) (in_block t PG_SIZE) (k_vm k) v.
Proof.
  intros Lv Ht V Hr Htc Hp Hs. destruct (syscall_entry_ok D k t tc c Lv Ht V Hr Htc Hs) as (v & E & M).
  exists v. by rewrite u32_small in E by lia.
Qed.

(** A handler that puts the interrupted thread to sleep cannot be returned
    from: [stack_top] is that of [task_trap] then, and the end of the interrupt
    continues after the call of [task_trap] once more, not with the interrupted
    code. *)
Theorem sleep_in_handler_repeats D k qs L G r b : paused D k qs L G r -> G !! r = Some (inl b) ->
  need_schedule (k_sched k) = false ->
  (next ← hwi_tail_handle; resume next) k = Ok (inl b) k.
Proof.
  intros Pa Hg Hn. pose proof (pa_running _ _ _ _ _ _ Pa) as (Hr & tc & _ & Ht & _).
  destruct (resume_next D k qs L G r Pa) as (x & Hx & E & _). pose proof (eq_trans (eq_sym Hx) Hg) as H. injection H as ->.
  unfold hwi_tail_handle. erewrite bind_ok by by eapply main_schedule_same. exact E.
Qed.

(** ** Instances

    The threads of [Machine.demo], each with its page of memory: [thread_a]
    runs, the others stand in the kernel with all registers 0. *)
Definition stack_pages : list (Z * Z) :=
  [(0x9e, 0x9e000); (0x100, 0x200000); (0x101, 0x201000); (0x102, 0x202000)].
Definition zero_page (f : Z) : gmap Z Z := FlatMem.of_list f (replicate 4096 0).
Definition stack_data : gmap Z Z :=
  mask_data demo_queues ∪ (zero_page 0x9e000 ∪ (zero_page 0x201000 ∪ zero_page 0x202000)).
Definition stack_memory : vm := paged [768] stack_pages [] stack_data.

Definition zero_context (t : Z) : full_context := mkFull 0 0 0 0 0 0 0 0 0 0 0 0 0 0 (t + PG_SIZE) None.
Definition standing (t : Z) (tc : tcb) : tcb := tcb_stack_top (t + PG_SIZE - frame_size (inr (zero_context t))) tc.
Definition turn_threads : list (Z * tcb) :=
  [(idle, standing idle (kthread 0 31 TASK_READY)); (thread_a, kthread 1 8 TASK_RUNNING);
   (thread_b, standing thread_b (kthread 2 8 TASK_READY))].
Definition turn_tables : tables :=
  mkTables ∅ {[INT_TIMER := intr_timer_handler_ptr]} ∅ (mkTss (thread_a + PG_SIZE) SELECTOR_K_STACK 0)
    {[PID_GET := sys_pid_get_ptr]} 0 0 0.
Definition turn_lists : kernel :=
  with_tables turn_tables (build turn_threads demo_queues demo_others thread_a {[console_sem := 1]}
    {[console_mutex := 0]} ∅).
Definition turns : kernel := with_vm stack_memory turn_lists.
Definition turn_contexts : gmap Z context :=
  {[idle := inr (zero_context idle); thread_b := inr (zero_context thread_b)]}.

Lemma stack_layout : layout_ok [768] stack_pages [] = true.
Proof. by vm_compute. Qed.

Lemma zero_page_at f o : 0 <= o < 4096 -> zero_page f !! (f + o) = Some 0.
Proof.
  intros Ho. unfold zero_page, FlatMem.of_list. rewrite lookup_map_seqZ, option_guard_True by lia.
  replace (Z.to_nat (f + o - f)) with (Z.to_nat o) by lia. apply lookup_replicate. split; [done|lia].
Qed.

Lemma of_list_outside a l p : p < a \/ a + Z.of_nat (length l) <= p -> FlatMem.of_list a l !! p = None.
Proof.
  intros Hp. destruct (FlatMem.of_list a l !! p) as [v|] eqn:E; [|done].
  apply lookup_map_seqZ_Some in E as [H1 H2%lookup_lt_Some]. lia.
Qed.

Lemma stack_bytes_ok : bytes_ok stack_data.
Proof.
  assert (Z : forall f, f + 4096 <= PD \/ PT + 4096 <= f -> bytes_ok (zero_page f)).
  { intros f Hf. unfold zero_page. apply bytes_ok_block; [by apply Forall_replicate|rewrite length_replicate; lia]. }
  unfold stack_data. apply bytes_ok_union; [apply data_check_ok; by vm_compute|].
  apply bytes_ok_union; [apply Z; unfold PD; lia|]. apply bytes_ok_union; apply Z; unfold PT; lia.
Qed.

(** The page of a thread, with its frame. *)
Definition thread_frames : list (Z * Z * Z) :=
  [(idle, 0x9e, 0x9e000); (thread_a, 0x101, 0x201000); (thread_b, 0x102, 0x202000)].

Lemma stack_byte t i f o : (t, i, f) ∈ thread_frames -> 0 <= o < 4096 ->
  vm_valid [PD] stack_memory (t + o) /\ vm_load stack_memory (t + o) = Some 0.
Proof.
  intros Hin Ho.
  assert (H : t = page_va i /\ (i, f) ∈ stack_pages /\ stack_data !! (f + o) = Some 0).
  { assert (M : 0x200004 <= f + o \/ f + o < 0x200000 -> mask_data demo_queues !! (f + o) = None).
    { intros H. apply of_list_outside. change (Z.of_nat (length (mask_bytes demo_queues))) with 4. lia. }
    unfold stack_data. rewrite lookup_union_r.
    2: { apply M. unfold thread_frames in Hin. repeat (apply elem_of_cons in Hin as [Hin|Hin]; [injection Hin as -> -> ->; lia|]).
         by apply not_elem_of_nil in Hin. }
    assert (N : forall g, g + 4096 <= f \/ f + 4096 <= g -> zero_page g !! (f + o) = None).
    { intros g Hg. unfold zero_page. apply of_list_outside. rewrite length_replicate. lia. }
    unfold thread_frames in Hin. apply elem_of_cons in Hin as [Hin|Hin]; [injection Hin as -> -> ->|].
    { split; [done|]. split; [by left|]. apply lookup_union_Some_l. by apply zero_page_at. }
    rewrite lookup_union_r by (apply N; repeat (apply elem_of_cons in Hin as [Hin|Hin]; [injection Hin as -> -> ->; lia|]);
      by apply not_elem_of_nil in Hin).
    apply elem_of_cons in Hin as [Hin|Hin]; [injection Hin as -> -> ->|].
    { split; [done|]. split; [by right; right; left|]. apply lookup_union_Some_l. by apply zero_page_at. }
    apply list_elem_of_singleton in Hin. injection Hin as -> -> ->.
    split; [done|]. split; [by right; right; right; left|].
    rewrite lookup_union_r by (apply N; lia). by apply zero_page_at. }
  destruct H as (-> & Hp & Hd).
  by apply (paged_valid [768] stack_pages [] stack_layout stack_data stack_bytes_ok i f o 0).
Qed.

Notation turn_family := (list_to_map (family demo_queues demo_others)).

Lemma sched_check_vm v k qs fam : sched_check (with_vm v k) qs fam = sched_check k qs fam.
Proof. reflexivity. Qed.

Lemma turn_rep : sched_rep [PD] turns demo_queues turn_family.
Proof.
  apply sched_check_rep.
  - unfold turns. rewrite sched_check_vm. by vm_compute.
  - done.
  - apply (paged_bitmap [768] stack_pages [] stack_layout stack_data stack_bytes_ok (mask_data demo_queues)
      0x100 0x200000 0 32 (nonempty <$> demo_queues)); [apply map_union_subseteq_l|by vm_compute].
Qed.

Lemma turn_thread t tc : k_tcbs turns !! t = Some tc -> (t, tc) ∈ turn_threads.
Proof. apply elem_of_list_to_map_2. Qed.

Lemma turn_frame t : is_Some (k_tcbs turns !! t) -> exists i f, (t, i, f) ∈ thread_frames.
Proof.
  intros [tc H%turn_thread]. unfold turn_threads in H. unfold thread_frames.
  repeat (apply elem_of_cons in H as [H|H]; [injection H as -> ->|]); [| | |by apply not_elem_of_nil in H].
  - exists 0x9e, 0x9e000. by left.
  - exists 0x101, 0x201000. by right; left.
  - exists 0x102, 0x202000. by right; right; left.
Qed.

Lemma turn_page t : is_Some (k_tcbs turns !! t) ->
  valid_block (ByteMem0 := vm_mem [PD]) (k_vm turns) t PG_SIZE
  /\ forall o, 0 <= o < PG_SIZE -> vm_load (k_vm turns) (t + o) = Some 0.
Proof.
  intros (i & f & Hin)%turn_frame. split; intros o Ho; by apply (stack_byte t i f o Hin).
Qed.

Lemma turn_words t o ws : is_Some (k_tcbs turns !! t) -> 0 <= o -> o + 4 * Z.of_nat (length ws) <= PG_SIZE ->
  Forall (eq 0) ws -> words (k_vm turns) (t + o) ws.
Proof.
  intros Ht Ho Hl F j w Hj. pose proof (lookup_lt_Some _ _ _ Hj) as Hlt.
  rewrite Forall_forall in F. pose proof (F w (list_elem_of_lookup_2 _ _ _ Hj)) as <-.
  destruct (turn_page t Ht) as [V Z0].
  assert (L : forall x, 0 <= x < 4 -> vm_load (k_vm turns) (t + o + 4 * Z.of_nat j + x) = Some 0).
  { intros x Hx. replace (t + o + 4 * Z.of_nat j + x) with (t + (o + 4 * Z.of_nat j + x)) by lia. apply Z0. lia. }
  rewrite (rd32_bytes (ByteMem0 := vm_mem [PD]) _ _ 0 0 0 0); [done| | |by apply L..].
  - intros x Hx. replace (t + o + 4 * Z.of_nat j + x) with (t + (o + 4 * Z.of_nat j + x)) by lia. apply V. lia.
  - rewrite <- (L 0) by lia. rewrite Z.add_0_r. reflexivity.
Qed.

Lemma turn_parked t : t = idle \/ t = thread_b -> parked turns turn_contexts t.
Proof.
  intros Ht. assert (H : turn_contexts !! t = Some (inr (zero_context t))
    /\ exists tc, k_tcbs turns !! t = Some tc /\ stack_top tc = t + (PG_SIZE - frame_size (inr (zero_context t)))).
  { by destruct Ht as [-> | ->]; (split; [reflexivity|]); eexists; (split; [reflexivity|]). }
  destruct H as (Hg & tc & Htc & Etop). exists (inr (zero_context t)). split; [exact Hg|]. exists tc. split; [exact Htc|].
  assert (Fs : frame_size (inr (zero_context t)) = 68) by done. rewrite Etop, Fs.
  split; [unfold TCB_SIZE, PG_SIZE; lia|]. split; [rewrite Fs; unfold PG_SIZE; lia|]. split.
  - split; [by split; [|intros [? ?]]|]. intros _. rewrite Fs. simpl. lia.
  - exists 0, 0. apply turn_words; [by eexists|unfold PG_SIZE; lia|unfold PG_SIZE; simpl; lia|].
    by repeat constructor.
Qed.

Lemma turn_sound : sound [PD] turns demo_queues turn_family.
Proof.
  constructor; [apply turn_rep| | |by apply turn_page| |done|by vm_compute].
  - intros t tc H%turn_thread. unfold turn_threads in H.
    repeat (apply elem_of_cons in H as [H|H]; [injection H as -> ->; by vm_compute|]). by apply not_elem_of_nil in H.
  - intros t tc H%turn_thread _. unfold turn_threads in H.
    repeat (apply elem_of_cons in H as [H|H]; [injection H as -> ->; done|]). by apply not_elem_of_nil in H.
  - intros t a (i & f & Hin)%turn_frame. unfold mask_byte, in_block, PG_SIZE. simpl. unfold thread_frames in Hin.
    change (page_va 0x100) with 0xc0100000. intros Ha.
    repeat (apply elem_of_cons in Hin as [Hin|Hin]; [injection Hin as -> _ _; unfold idle, thread_a, thread_b; lia|]).
    by apply not_elem_of_nil in Hin.
Qed.

Lemma turn_ok : threads_ok [PD] turns demo_queues turn_family turn_contexts.
Proof.
  constructor; [apply turn_sound| | |].
  - split; [done|]. exists (kthread 1 8 TASK_RUNNING), [thread_a; thread_b].
    split; [reflexivity|]. split; [done|]. split; [done|left].
  - intros tc H. injection H as <-. by intros [].
  - intros t (i & f & Hin)%turn_frame N. apply turn_parked. unfold thread_frames in Hin.
    repeat (apply elem_of_cons in Hin as [Hin|Hin]; [injection Hin as -> _ _; auto|]); [by destruct N|].
    by apply not_elem_of_nil in Hin.
Qed.

Lemma turn_slice : in_slice [PD] turns demo_queues turn_family turn_contexts 8 3.
Proof.
  split; [apply turn_ok|]. split; [done|]. split; [done|]. exists (kthread 1 8 TASK_RUNNING). by split.
Qed.

(** The idle thread, behind 46 slices of the other two, comes back; the run has
    the ticks for it. *)
Lemma interrupted_thread_returns_witness : exists es k', steps [PD] turns es k'
  /\ exists es1 t c es2, es = es1 ++ Switch t c idle (inr (zero_context idle)) :: es2.
Proof.
  destruct (clocks_exist [PD] (12 * slice_wait 31 0 demo_queues) turns _ _ _ turn_ok) as (es & k' & St & F & Hc).
  exists es, k'. split; [exact St|].
  apply (interrupted_thread_returns [PD] turns es k' demo_queues turn_family turn_contexts 8 3 31 [idle] 0 idle
    (inr (zero_context idle)) turn_slice); [lia|exact St|exact F|reflexivity|reflexivity|done|reflexivity|].
  rewrite Hc. apply Nat.le_refl.
Defined.

Lemma threads_keep_contexts_witness : exists es k', steps [PD] turns es k' /\ clocks es = 1000%nat
  /\ all_continue es turn_contexts.
Proof.
  destruct (clocks_exist [PD] 1000 turns _ _ _ turn_ok) as (es & k' & St & F & Hc).
  exists es, k'. split; [exact St|]. split; [exact Hc|].
  by destruct (threads_keep_contexts [PD] turns es k' demo_queues turn_family turn_contexts turn_ok St) as [H _].
Defined.

(** A program at privilege level 3 asks for its number, in the middle of its
    work. *)
Definition calling_program : full_context :=
  mkFull 1 2 3 4 5 6 PID_GET SELECTOR_U_DATA SELECTOR_U_DATA SELECTOR_U_DATA SELECTOR_U_DATA
    0x8000 SELECTOR_U_CODE 0x202 0xbfffff00 (Some SELECTOR_U_DATA).

Lemma turn_range : 0 < thread_a < 2 ^ 32 - PG_SIZE.
Proof. by vm_compute. Qed.

Lemma calling_live : live turns thread_a calling_program.
Proof.
  constructor; [|done|by split; [eexists|]|by vm_compute].
  unfold registers, calling_program. cbn [app]. by repeat (apply Forall_cons; split; [by vm_compute|]).
Qed.

Lemma syscall_returns_witness : exists v,
  syscall_entry calling_program turns = Ok (with_eax 1 calling_program) (with_vm v turns).
Proof.
  destruct (syscall_returns [PD] turns thread_a (kthread 1 8 TASK_RUNNING) calling_program calling_live turn_range)
    as (v & E & _); [|done|reflexivity|by vm_compute|reflexivity|by exists v].
  by apply turn_page; eexists.
Defined.

End EntryTheorems.
