(* ===== verification/SyncTheorems.v ===== *)
(** The theorems about semaphores and mutexes, each with an instance on the
    machine of [Machine.v]. *)

From S2P Require Import Prelude Bytes Bitmap Interrupt LinkedList Paging Kernel ReadyQueues Sched.
From S2P Require Import Machine Sync Mutex.

Module SyncTheorems.
Import Bitmap Interrupt LinkedList Paging Kernel ReadyQueues Sched Machine Sync Mutex.

(** ** Semaphores *)

(** [sem_down] on a free semaphore takes it: the value drops by one and
    nothing else changes, the interrupt flag included; a thread that had been
    waiting does the same when it runs again, and gets its own flag back. *)
Theorem sem_down_free k sem v b :
  k_sems k !! sem = Some v -> 0 < v < 256 ->
  sem_down sem k = Ok tt (with_sems (<[sem := v - 1]> (k_sems k)) k)
  /\ sem_down_again sem (status_of b) k
     = Ok tt (with_eflags (with_if b (k_eflags k)) (with_sems (<[sem := v - 1]> (k_sems k)) k)).
Proof. intros. split; [by apply sem_down_takes|by apply sem_down_again_takes]. Qed.

(** C11: [sem_down] on a taken semaphore puts the running thread at the end of
    the waiters, blocked and off the ready queues, and the first ready thread
    of the highest priority runs; the value stays 0. *)
Theorem sem_down_taken D k qs L sem ws r tc p next :
  sem_rep D k qs L sem 0 ws -> running k qs r -> k_tcbs k !! r = Some tc -> r ∉ ws ->
  let qs' := leave (Z.to_nat (priority tc)) r qs in
  first_ready qs' = Some (p, next) ->
  exists k' L', sem_down sem k = Switched k' /\ sem_rep D k' qs' L' sem 0 (ws ++ [r])
    /\ running k' qs' next /\ ~ queued r qs' /\ k_sems k' = k_sems k.
Proof.
  intros S (Hr & tc' & q & Ht' & Hs & Hq & Hin) Ht Hws qs' Hf. rewrite Ht in Ht'.
  injection Ht' as <-.
  destruct (sem_down_blocks D _ _ _ _ _ _ _ _ _ _ S Hr Ht Hws Hq Hin Hf)
    as (h & m & L' & tn & d & E & _ & Hne & Htn & _ & _ & S' & Hd & _).
  eexists _, L'. split; [exact E|]. split; [exact S'|]. split.
  - eapply (dispatched_running D); [apply S'|exact Hf|]. simpl. by rewrite lookup_insert_ne.
  - split; [|done]. by eapply leave_not_queued; [eapply (rep_wf D), S|..].
Qed.

(** C10: [sem_up] sets the value of a taken semaphore to 1 and makes exactly the
    longest waiter ready, first in the queue of its priority; the other waiters
    keep their order.  Without waiters only the value changes.  A semaphore
    that is not taken is refused by the assertion. *)
Theorem sem_up_hands_over D k qs L sem ws r :
  sem_rep D k qs L sem 0 ws -> NoDup ws -> running k qs r ->
  match ws with
  | [] => sem_up sem k = Ok tt (with_sems (<[sem := 1]> (k_sems k)) k)
  | w :: ws' => exists tw k' L', k_tcbs k !! w = Some tw /\ sem_up sem k = Ok tt k'
      /\ sem_rep D k' (enqueue_front (Z.to_nat (priority tw)) w qs) L' sem 1 ws'
      /\ k_tcbs k' = <[w := tcb_status TASK_READY tw]> (k_tcbs k)
      /\ k_eflags k' = k_eflags k
  end
  /\ forall k0 v, k_sems k0 !! sem = Some v -> v <> 0 -> sem_up sem k0 = Panic "sem->val == 0".
Proof.
  intros S ND (Hr & tr & _ & Htr & _). split; [|intros; by eapply sem_up_not_taken].
  destruct ws as [|w ws]; [by eapply sem_up_no_waiter|].
  destruct (se_blocked _ _ _ _ _ _ _ S w ltac:(left)) as (tw & Htw & _).
  destruct (sem_up_wakes D _ _ _ _ _ _ _ S ND Htw ltac:(rewrite Hr; eauto))
    as (h & m & L' & E & S' & _).
  by eexists tw, _, L'.
Qed.

(** when no other thread is ready, [sem_down] on a taken semaphore is the
    undefined case of the scheduler, although the code counts on the idle
    thread, which itself takes the console's mutex. *)
Theorem sem_down_taken_alone D k qs L sem ws r tc b :
  sem_rep D k qs L sem 0 ws -> running k qs r -> k_tcbs k !! r = Some tc -> r ∉ ws ->
  first_ready (leave (Z.to_nat (priority tc)) r qs) = None ->
  k_links k !! THIS_RQ 0xffffffff = None ->
  sem_down sem k = Fault /\ sem_down_again sem (status_of b) k = Fault.
Proof.
  intros S (Hr & tc' & q & Ht' & Hs & Hq & Hin) Ht Hws Hf Hno. rewrite Ht in Ht'.
  injection Ht' as <-. by eapply (sem_down_last D).
Qed.

(** ** Mutexes under preemption *)

(** C4: mutual exclusion: in every state the threads and the clock can reach
    together, at most one thread is between the return of [sem_down] in
    [mutex_lock] and the call of [sem_up] in [mutex_unlock]; the semaphore's
    value is 0 exactly when there is one. *)
Theorem mutual_exclusion D mtx s s' t u :
  good D mtx s -> rtc (step mtx) s s' ->
  critical (phase_of s' t) -> critical (phase_of s' u) ->
  t = u /\ k_sems (kern s') !! mutex_sem mtx = Some 0.
Proof.
  intros H R Ht Hu. destruct (reachable_good D mtx s s' H R) as (qs & L & v & ws & S & _ & _ & _ & _
    & _ & [(_ & Hnone & _)|(-> & h & Hh & Huniq)]); [by destruct (Hnone t)|].
  split; [|apply S]. by rewrite (Huniq t), (Huniq u).
Qed.

(** C9: no wake-up is lost: in every reachable state, if a thread waits for the
    mutex then either some thread has it, whose [sem_up] will wake the first
    waiter, or a woken thread is on a ready queue and will try again. *)
Theorem no_lost_wakeup D mtx s s' w :
  good D mtx s -> rtc (step mtx) s s' -> phase_of s' w = Waiting ->
  (exists t, critical (phase_of s' t))
  \/ (exists t qs, phase_of s' t = Trying /\ queued t qs /\ exists L, sched_rep D (kern s') qs L).
Proof.
  intros H R Hw. destruct (reachable_good D mtx s s' H R) as (qs & L & v & ws & S & _ & Hws & _ & Ht
    & _ & [(_ & _ & [->|[t Htr]])|(_ & t & Hc & _)]).
  - apply Hws in Hw. by apply not_elem_of_nil in Hw.
  - right. exists t, qs. split; [done|]. split; [by apply Ht|]. exists L. apply S.
  - left. by exists t.
Qed.

(** every state the threads can reach is one in which the kernel's data
    agree: the ready mask, the queues, the control blocks and the waiters; in
    particular no step of the system is refused by an assertion, and [sem_up]
    by the thread that has the mutex returns. *)
Theorem unlock_never_fails D mtx s s' :
  good D mtx s -> rtc (step mtx) s s' -> my_phase s' = In ->
  exists k', sem_up (mutex_sem mtx) (kern s') = Ok tt k'
    /\ k_sems k' !! mutex_sem mtx = Some 1.
Proof.
  intros H R Hme. destruct (reachable_good D mtx s s' H R) as (qs & L & v & ws & S & ND & Hws & [r Hr]
    & Ht & _ & [(_ & Hnone & _)|(-> & t & Hc & _)]).
  { destruct (Hnone (me s')). by right. }
  destruct ws as [|w ws].
  - rewrite (sem_up_no_waiter D _ _ _ _ S). eexists. split; [done|]. apply lookup_insert_eq.
  - destruct (se_blocked _ _ _ _ _ _ _ S w ltac:(left)) as (tw & Htw & _).
    destruct Hr as (Er & tr & _ & Htr & _).
    destruct (sem_up_wakes D _ _ _ _ _ _ _ S ND Htw ltac:(rewrite Er; eauto))
      as (h & m & L' & E & S' & _).
    rewrite E. eexists. split; [done|]. apply S'.
Qed.

(** ** Instances *)

Definition sem_check (k : kernel) (fam : list (Z * list Z)) (sem v : Z) : bool :=
  bool_decide (k_sems k !! sem = Some v /\
    (list_to_map fam : gmap Z (list Z)) !! sem_waiters sem = Some [] /\ sem_waiters sem ∉ rq_addrs)
  && forallb (fun '(t, _) => bool_decide (pend_tag t ∉ family_nodes fam
       /\ is_Some (k_links k !! pend_tag t))) (map_to_list (k_tcbs k)).

Lemma sem_check_rep k qs fam sem v :
  sem_check k fam sem v = true -> sched_rep [PD] k qs (list_to_map fam) ->
  sem_rep [PD] k qs (list_to_map fam) sem v [].
Proof.
  unfold sem_check. rewrite andb_true_iff, bool_decide_eq_true, forallb_forall.
  intros [(Hv & Hw & Ha) Ht] R.
  assert (Htc : forall t, is_Some (k_tcbs k !! t) -> pend_tag t ∉ family_nodes fam
    /\ is_Some (k_links k !! pend_tag t)).
  { intros t [tc H]. specialize (Ht (t, tc) ltac:(by apply list_elem_of_In, elem_of_map_to_list)).
    by apply bool_decide_eq_true in Ht. }
  constructor; try done.
  - by intros t ?%not_elem_of_nil.
  - intros t H _ (l & xs & HL%elem_of_list_to_map_2 & Hin). apply (Htc t H).
    apply list_elem_of_join. exists (nodes l xs). split; [done|].
    apply list_elem_of_fmap. by exists (l, xs).
  - intros t H. by apply Htc.
Qed.

Lemma demo_sem_rep :
  sem_rep [PD] demo demo_queues (list_to_map (family demo_queues demo_others)) console_sem 1 [].
Proof. apply sem_check_rep; [by vm_compute|apply demo_rep]. Qed.

Lemma demo_a_running : running demo demo_queues thread_a.
Proof.
  split; [done|]. exists (kthread 1 8 TASK_RUNNING), [thread_a; thread_b].
  split; [by vm_compute|]. split; [done|]. split; [done|left].
Qed.

Definition demo_system : system := mkSystem demo (fun _ => Out).

Lemma demo_good : good [PD] console_mutex demo_system.
Proof.
  eexists demo_queues, _, 1, []. split; [apply demo_sem_rep|]. split; [constructor|].
  split; [by intros t; split; [intros ?%not_elem_of_nil|]|].
  split; [exists thread_a; apply demo_a_running|]. split; [done|].
  split; [by vm_compute|]. left. split; [done|]. split; [by intros t [|]|by left].
Qed.

(** The same with the semaphore taken. *)
Definition demo_taken : kernel :=
  build demo_threads demo_queues demo_others thread_a {[console_sem := 0]} {[console_mutex := 0]} ∅.

Lemma demo_taken_rep :
  sem_rep [PD] demo_taken demo_queues (list_to_map (family demo_queues demo_others)) console_sem 0 [].
Proof. apply sem_check_rep; [by vm_compute|]. apply build_rep; [by vm_compute|apply bytes_ok_empty]. Qed.

Lemma sem_down_free_witness :
  sem_down console_sem demo = Ok tt (with_sems (<[console_sem := 1 - 1]> (k_sems demo)) demo).
Proof.
  destruct (sem_down_free demo console_sem 1 true) as [H _]; [by vm_compute|lia|exact H].
Defined.

Lemma sem_down_taken_witness :
  exists k', sem_down console_sem demo_taken = Switched k' /\ running_thread (k_sched k') = thread_b.
Proof.
  destruct (sem_down_taken [PD] demo_taken demo_queues _ console_sem [] thread_a
    (kthread 1 8 TASK_RUNNING) 8 thread_b demo_taken_rep) as (k' & L' & E & _ & Hr & _).
  - split; [done|]. exists (kthread 1 8 TASK_RUNNING), [thread_a; thread_b].
    split; [by vm_compute|]. split; [done|]. split; [done|left].
  - by vm_compute.
  - by intros ?%not_elem_of_nil.
  - by vm_compute.
  - exists k'. split; [exact E|apply Hr].
Defined.

Lemma sem_up_hands_over_witness :
  sem_up console_sem demo_taken
  = Ok tt (with_sems (<[console_sem := 1]> (k_sems demo_taken)) demo_taken).
Proof.
  destruct (sem_up_hands_over [PD] demo_taken demo_queues _ console_sem [] thread_a demo_taken_rep)
    as [H _]; [constructor| |exact H].
  split; [done|]. exists (kthread 1 8 TASK_RUNNING), [thread_a; thread_b].
  split; [by vm_compute|]. split; [done|]. split; [done|left].
Defined.

(** The idle thread alone, the semaphore taken. *)
Definition demo_alone : kernel :=
  build [(idle, kthread 0 31 TASK_RUNNING)] (queues_of [(31%nat, [idle])]) demo_others idle
    {[console_sem := 0]} {[console_mutex := 0]} ∅.

Lemma sem_down_taken_alone_witness : sem_down console_sem demo_alone = Fault.
Proof.
  destruct (sem_down_taken_alone [PD] demo_alone (queues_of [(31%nat, [idle])])
    (list_to_map (family (queues_of [(31%nat, [idle])]) demo_others)) console_sem [] idle
    (kthread 0 31 TASK_RUNNING) true) as [H _].
  - apply sem_check_rep; [by vm_compute|]. apply build_rep; [by vm_compute|apply bytes_ok_empty].
  - split; [done|]. exists (kthread 0 31 TASK_RUNNING), [idle].
    split; [by vm_compute|]. split; [done|]. split; [done|left].
  - by vm_compute.
  - by intros ?%not_elem_of_nil.
  - by vm_compute.
  - by vm_compute.
  - exact H.
Defined.

(** The state after [l], when the actions are possible. *)
Definition after (l : list action) : system := default demo_system (acts console_mutex l demo_system).

Lemma after_reached l : is_Some (acts console_mutex l demo_system) ->
  rtc (step console_mutex) demo_system (after l).
Proof. intros [s E]. unfold after. rewrite E. by eapply acts_steps. Qed.

(** [thread_a] has the mutex, [thread_b] waits for it. *)
Definition contended : system := after [DoDown; DoHold; DoInterrupt; DoDown].

Lemma contended_reached : rtc (step console_mutex) demo_system contended.
Proof. apply after_reached. vm_compute. by eexists. Qed.

Lemma mutual_exclusion_witness :
  critical (phase_of contended thread_a) /\ k_sems (kern contended) !! console_sem = Some 0.
Proof.
  assert (H : critical (phase_of contended thread_a)) by (right; by vm_compute).
  split; [exact H|].
  apply (mutual_exclusion [PD] console_mutex demo_system contended thread_a thread_a demo_good
    contended_reached H H).
Defined.

Lemma no_lost_wakeup_witness :
  phase_of contended thread_b = Waiting
  /\ ((exists t, critical (phase_of contended t))
     \/ (exists t qs, phase_of contended t = Trying /\ queued t qs
          /\ exists L, sched_rep [PD] (kern contended) qs L)).
Proof.
  assert (H : phase_of contended thread_b = Waiting) by by vm_compute.
  split; [exact H|].
  apply (no_lost_wakeup [PD] console_mutex demo_system contended thread_b demo_good
    contended_reached H).
Defined.

Lemma unlock_never_fails_witness :
  exists k', sem_up console_sem (kern contended) = Ok tt k'
    /\ k_sems k' !! console_sem = Some 1.
Proof.
  apply (unlock_never_fails [PD] console_mutex demo_system contended demo_good contended_reached).
  by vm_compute.
Defined.


End SyncTheorems.
