(* ===== verification/MemoryTheorems.v ===== *)
(** The theorems about the kernel's memory: mapping and allocation of pages,
    each with an instance on the machine of [Machine.v]. *)

From S2P Require Import Prelude Bytes Bitmap LinkedList Paging PageTable PageMap Kernel ReadyQueues.
From S2P Require Import Sched Machine Sync Memory Heap HeapMachine.

Module MemoryTheorems.
Import Bitmap LinkedList Paging PageTable PageMap Kernel ReadyQueues Sched Machine Memory Heap HeapMachine.

(** C15: [v2p_mapping] of a page of the kernel's heap that is not mapped to a
    free frame: afterwards, under every page directory of the kernel, the
    page's addresses are translated to that frame; every other kernel address
    is translated as before, every byte of data is where it was with the value
    it had, and the bytes of the page are data. *)
Theorem v2p_mapping_maps_page D H k i f :
  tables_ok D H (k_vm k) -> 0 <= i < bit_num (btmp (h_vpool H)) ->
  page_free H (k_vm k) i -> frame_free D (k_vm k) f -> is_u32 f -> f mod PAGE = 0 ->
  exists v, v2p_mapping (page_at H i) f k = Ok tt (with_vm v k) /\ cr3 v = cr3 (k_vm k)
    /\ (forall d o, d ∈ cr3 v :: D -> 0 <= o < PAGE ->
          translate (under v d) (page_at H i + o) = Some (f + o)
          /\ vm_valid D v (page_at H i + o))
    /\ (forall d b, d ∈ cr3 v :: D -> kernel_addr b -> frame b <> page_at H i ->
          translate (under v d) b = translate (under (k_vm k) d) b)
    /\ (forall a, vm_valid D (k_vm k) a -> vm_valid D v a /\ vm_load v a = vm_load (k_vm k) a).
Proof.
  intros T Hi Fi Ff Rf Hf.
  destruct (v2p_mapping_heap D H k i f T Hi Fi Ff Rf Hf) as (v & E & [C P V O K _ _ _ _ _]).
  exists v. rewrite C. split_and!; auto.
Qed.

(** C16: [kernel_pages_malloc] with enough room: it returns the first run of
    [n] free pages of the virtual pool; each page is backed, under every
    directory, by a frame of its own that was free, the lowest ones in order;
    exactly these bits are set in the two bitmaps; and all data outside the
    bitmaps is as it was. *)
Theorem kernel_pages_malloc_maps D H k vb pb (n : nat) i0 :
  heap_rep D H k vb pb -> (0 < n)%nat -> Z.of_nat n < 3840 -> run vb false n i0 ->
  (n <= length (clear_from 0 pb))%nat ->
  exists (i : nat) v, run vb false n i /\ (forall i', (i' < i)%nat -> ~ run vb false n i')
    /\ kernel_pages_malloc (Z.of_nat n) k = Ok (page_at H (Z.of_nat i)) (with_vm v k)
    /\ heap_rep D H (with_vm v k) (mark i n vb) (used (take n (clear_from 0 pb)) pb)
    /\ NoDup (take n (clear_from 0 pb))
    /\ (forall (x : nat), (x < n)%nat -> exists j, take n (clear_from 0 pb) !! x = Some j
          /\ pb !! j = Some false /\ forall d o, d ∈ cr3 v :: D -> 0 <= o < PAGE ->
          translate (under v d) (page_at H (Z.of_nat i + Z.of_nat x) + o)
            = Some (frame_at H (Z.of_nat j) + o)
          /\ vm_valid D v (page_at H (Z.of_nat i + Z.of_nat x) + o))
    /\ (forall a, vm_valid D (k_vm k) a -> vm_valid D v a
          /\ (~ bitmap_byte (btmp (h_vpool H)) a -> ~ bitmap_byte (btmp (h_ppool H)) a ->
              vm_load v a = vm_load (k_vm k) a)).
Proof.
  intros R Hn Hn' Hrun Hlen.
  destruct (malloc_page_ok D H k vb pb n R Hn Hn') as [[_ Hno]|(i & v1 & v & Hi & Hlow & E & R' & M & B)];
    [by destruct (Hno i0)|].
  assert (C1 : cr3 v1 = cr3 (k_vm k)) by apply (modifies_keeps (ByteMem0 := vm_mem D) _ _ _ M).
  destruct B as [C2 P K _ _ _ _ _]. exists i, v.
  rewrite (proj2 (Nat.leb_le _ _) Hlen) in E. do 2 (split; [done|]).
  assert (Hnn : page_at H (Z.of_nat i) <> NULL).
  { pose proof (to_range D _ _ (hr_tables _ _ _ _ _ R)). unfold page_at, PG_SIZE, NULL in *. lia. }
  split; [|split; [done|split; [|split]]].
  - unfold kernel_pages_malloc. erewrite bind_ok by exact E. by rewrite (proj2 (Z.eqb_neq _ _) Hnn).
  - eapply sublist_NoDup; [apply clear_from_nodup|apply sublist_take].
  - intros x Hx.
    destruct (lookup_lt_is_Some_2 (take n (clear_from 0 pb)) x) as [j Hj];
      [rewrite length_take; lia|].
    exists j. split; [done|]. split.
    + pose proof (list_elem_of_lookup_2 _ _ _ Hj) as Hin.
      apply elem_of_take in Hin as (y & Hy & _).
      apply list_elem_of_lookup_2, clear_from_elem in Hy as (j' & -> & Hj'). done.
    + intros d o Hd Ho. eapply P; [done|by rewrite <- C2|done].
  - intros a Va. pose proof (modifies_valid _ _ _ _ M Va) as V1.
    destruct (K a V1) as [V2 L2]. split; [done|]. intros Na Nb. rewrite L2 by done.
    by apply (modifies_load _ _ _ _ M).
Qed.

(** C34: [kernel_pages_malloc] without enough room returns NULL.  If no run of
    [n] virtual pages is free, nothing changed.  If the run is there and the
    frames are not, [malloc_page] gives nothing back: the run stays reserved
    and every frame of the pool is taken. *)
Theorem kernel_pages_malloc_fails D H k vb pb (n : nat) :
  heap_rep D H k vb pb -> (0 < n)%nat -> Z.of_nat n < 3840 ->
  ((forall i, ~ run vb false n i) -> kernel_pages_malloc (Z.of_nat n) k = Ok NULL k)
  /\ forall i0, run vb false n i0 -> (length (clear_from 0 pb) < n)%nat ->
     exists i v, run vb false n i /\ kernel_pages_malloc (Z.of_nat n) k = Ok NULL (with_vm v k)
       /\ heap_rep D H (with_vm v k) (mark i n vb) (used (clear_from 0 pb) pb).
Proof.
  intros R Hn Hn'. unfold kernel_pages_malloc. split.
  - intros Hno. destruct (malloc_page_ok D H k vb pb n R Hn Hn') as [[E _]|(i & v1 & v & Hi & _)].
    + by erewrite bind_ok by exact E.
    + by destruct (Hno i).
  - intros i0 Hi0 Hlen.
    destruct (malloc_page_ok D H k vb pb n R Hn Hn') as [[_ Hno]|(i & v1 & v & Hi & _ & E & R' & _)];
      [by destruct (Hno i0)|].
    exists i, v. split; [done|]. rewrite (proj2 (Nat.leb_gt _ _) Hlen) in E.
    rewrite take_ge in R' by lia. split; [by erewrite bind_ok by exact E|done].
Qed.

(** ** Instances

    A heap of six pages, the first three in use, and a pool of three frames, the
    first in use; the bitmaps are where [mem_pool_init] puts them. *)

Definition demo_heap : kheap :=
  mkHeap (mkPool (mkBitmap (page_va 0x9a + 1) 6 1) 0xc0100000 (6 * 4096))
    (mkPool (mkBitmap (page_va 0x9a) 3 1) 0x300000 (3 * 4096)) one_table.
Definition demo_vbits : list bool := [true; true; true; false; false; false].
Definition demo_pbits : list bool := [true; false; false].

(** The bytes of the bitmaps, and the frames. *)
Definition heap_bits : gmap Z Z := {[0x9a000 := 1; 0x9a001 := 7]}.
Definition heap_data : gmap Z Z := heap_bits ∪ FlatMem.of_list 0x300000 (replicate (3 * 4096) 0).

Lemma heap_data_bytes : bytes_ok heap_data.
Proof.
  apply bytes_ok_union; [apply data_check_ok; by vm_compute|]. apply bytes_ok_block.
  - apply Forall_forall. intros x [-> _]%elem_of_replicate. lia.
  - right. unfold PT. lia.
Qed.

Section Demo.
Context (more : gmap Z Z) (Hmore : bytes_ok (more ∪ heap_data)).
Context (Hbits : heap_bits ⊆ more ∪ heap_data).

#[local] Lemma demo_in_table : heap_in_table (h_vpool demo_heap).
Proof. by vm_compute. Qed.

Lemma demo_page_free i : i ∈ [3; 4; 5] -> page_free demo_heap (machine (more ∪ heap_data)) i.
Proof.
  rewrite !elem_of_cons, elem_of_nil. intros Hi.
  apply (paged_page_free [768] pages absent demo_layout _ _ _ demo_in_table);
    destruct Hi as [->|[->|[->|[]]]]; try done; by apply (bool_decide_unpack _).
Qed.

Lemma demo_frame_free f : f ∈ [0x301000; 0x302000] -> frame_free [PD] (machine (more ∪ heap_data)) f.
Proof.
  rewrite !elem_of_cons, elem_of_nil. intros Hf.
  apply (paged_frame_free [768] pages absent demo_layout _ Hmore).
  - by destruct Hf as [->|[->|[]]].
  - apply room_union_r, room_union_r, room_block; rewrite ?length_replicate; lia.
Qed.

Lemma demo_heap_rep k : k_vm k = machine (more ∪ heap_data) ->
  k_pools k !! kernel_vir_pool = Some (h_vpool demo_heap) ->
  k_pools k !! kernel_phy_pool = Some (h_ppool demo_heap) ->
  heap_rep [PD] demo_heap k demo_vbits demo_pbits.
Proof.
  intros Ek Ev Ep. constructor; rewrite ?Ek; try done.
  - by apply (paged_bitmap [768] pages absent demo_layout _ Hmore heap_bits 0x9a 0x9a000 1 6 demo_vbits).
  - pose proof (paged_bitmap [768] pages absent demo_layout _ Hmore heap_bits 0x9a 0x9a000 0 3 demo_pbits Hbits) as B.
    rewrite Z.add_0_r in B. by apply B.
  - unfold demo_heap, page_va. cbn [h_vpool h_ppool btmp base_addr byte_len]. lia.
  - apply (paged_tables [768] pages absent demo_layout _ Hmore _ _ demo_in_table).
  - intros i Hi. apply demo_page_free.
    destruct i as [|[|[|[|[|[|i]]]]]]; cbv in Hi; try done; by repeat constructor.
  - intros j Hj. apply demo_frame_free.
    destruct j as [|[|[|j]]]; cbv in Hj; try done; by repeat constructor.
Qed.

End Demo.

Definition heap_kernel : kernel :=
  with_pools {[kernel_vir_pool := h_vpool demo_heap; kernel_phy_pool := h_ppool demo_heap]}
    (build demo_threads demo_queues demo_others thread_a {[console_sem := 1]}
      {[console_mutex := 0]} heap_data).

Lemma heap_bits_masked : heap_bits ⊆ mask_data demo_queues ∪ heap_data.
Proof.
  apply map_subseteq_spec. intros p v Hp.
  assert (Hn : mask_data demo_queues !! p = None).
  { unfold heap_bits in Hp. apply lookup_insert_Some in Hp as [[<- _]|[_ Hp]]; [by vm_compute|].
    apply lookup_singleton_Some in Hp as [<- _]. by vm_compute. }
  rewrite lookup_union_r by exact Hn. by apply lookup_union_Some_l.
Qed.

Lemma heap_kernel_rep : heap_rep [PD] demo_heap heap_kernel demo_vbits demo_pbits.
Proof.
  apply (demo_heap_rep (mask_data demo_queues)).
  - apply bytes_ok_union; [apply data_check_ok; by vm_compute|apply heap_data_bytes].
  - apply heap_bits_masked.
  - reflexivity.
  - reflexivity.
  - reflexivity.
Qed.

Lemma v2p_mapping_maps_page_witness :
  exists v, v2p_mapping 0xc0103000 0x301000 heap_kernel = Ok tt (with_vm v heap_kernel)
    /\ translate v 0xc0103004 = Some 0x301004.
Proof.
  pose proof heap_kernel_rep as [_ _ _ _ _ _ T Pg Fr].
  destruct (v2p_mapping_maps_page [PD] demo_heap heap_kernel 3 0x301000 T ltac:(by vm_compute)
    (Pg 3%nat eq_refl) (Fr 1%nat eq_refl) ltac:(by vm_compute) ltac:(by vm_compute))
    as (v & E & C & P & _).
  exists v. split; [exact E|]. destruct (P (cr3 v) 4 ltac:(left) ltac:(unfold PAGE; lia)) as [T' _].
  by rewrite under_cr3 in T'.
Defined.

Lemma demo_run_from n i : run demo_vbits false (S n) i -> (3 <= i)%nat /\ (i + n < 6)%nat.
Proof.
  intros Hi. split.
  - specialize (Hi O ltac:(lia)). rewrite Nat.add_0_r in Hi. destruct i as [|[|[|i]]]; [done..|lia].
  - specialize (Hi n ltac:(lia)). by apply lookup_lt_Some in Hi.
Qed.

Lemma demo_run_3 n : (n <= 3)%nat -> run demo_vbits false n 3.
Proof. intros Hn j Hj. destruct j as [|[|[|j]]]; [done..|lia]. Qed.

Lemma kernel_pages_malloc_maps_witness :
  exists v, kernel_pages_malloc 2 heap_kernel = Ok 0xc0103000 (with_vm v heap_kernel)
    /\ heap_rep [PD] demo_heap (with_vm v heap_kernel)
         [true; true; true; true; true; false] [true; true; true].
Proof.
  destruct (kernel_pages_malloc_maps [PD] demo_heap heap_kernel demo_vbits demo_pbits 2 3
    heap_kernel_rep ltac:(lia) ltac:(lia) (demo_run_3 2 ltac:(lia)) ltac:(by vm_compute; lia))
    as (i & v & Hi & Hlow & E & R & _).
  exists v. assert (Ei : i = 3%nat).
  { apply demo_run_from in Hi. destruct (decide (3 < i)%nat) as [Hl|]; [|lia].
    destruct (Hlow 3%nat Hl). apply demo_run_3. lia. }
  clear Hi Hlow. rewrite Ei in E, R. split; [exact E|exact R].
Defined.

Lemma kernel_pages_malloc_fails_witness :
  exists v, kernel_pages_malloc 3 heap_kernel = Ok NULL (with_vm v heap_kernel)
    /\ heap_rep [PD] demo_heap (with_vm v heap_kernel)
         [true; true; true; true; true; true] [true; true; true].
Proof.
  destruct (kernel_pages_malloc_fails [PD] demo_heap heap_kernel demo_vbits demo_pbits 3
    heap_kernel_rep ltac:(lia) ltac:(lia)) as [_ H].
  destruct (H 3%nat (demo_run_3 3 ltac:(lia)) ltac:(by vm_compute; lia)) as (i & v & Hi & E & R).
  exists v. assert (Ei : i = 3%nat) by (apply demo_run_from in Hi; lia).
  clear Hi. rewrite Ei in R. split; [exact E|exact R].
Defined.

End MemoryTheorems.
