(* ===== verification/DeviceTheorems.v ===== *)
(** The theorems about the devices: the ring buffer and the keyboard, each with
    an instance on the machine of [Machine.v]. *)

From S2P Require Import Prelude Bytes Bitmap Interrupt LinkedList Paging Print Kernel ReadyQueues Sched.
From S2P Require Import Machine Sync Ioqueue Console Keyboard SyncTheorems OutputTheorems.

Module DeviceTheorems.
Import Bitmap Interrupt LinkedList Paging Kernel ReadyQueues Sched Machine Sync Ioqueue.
Import Console Keyboard SyncTheorems OutputTheorems.

(** ** The ring buffer *)

Inductive ioq_op : Set := Put (c : Z) | Get.

(** The code, called for a sequence of operations; the characters taken out. *)
Fixpoint run_ops (q : Z) (ops : list ioq_op) : M kernel (list Z) :=
  match ops with
  | [] => mret []
  | Put c :: ops' => ioq_putchar q c;; run_ops q ops'
  | Get :: ops' => c ← ioq_getchar q; cs ← run_ops q ops'; mret (c :: cs)
  end.

(** A queue of at most 63 characters: what is taken out and what is left;
    [None] when a character is put into a full queue or taken from an empty
    one. *)
Fixpoint fifo (ops : list ioq_op) (l : list Z) : option (list Z * list Z) :=
  match ops, l with
  | [], _ => Some ([], l)
  | Put c :: ops', _ => if (length l <? CAPACITY)%nat then fifo ops' (l ++ [c]) else None
  | Get :: ops', c :: l' => '(out, l2) ← fifo ops' l'; Some (c :: out, l2)
  | Get :: _, [] => None
  end.

(** C29: the ring buffer is a first-in-first-out queue of 63 characters: any
    sequence of [ioq_putchar] and [ioq_getchar] that neither overfills nor
    overdraws it returns the characters in the order they were put in, and
    nothing but the buffer changes. *)
Theorem ioq_is_fifo k q i l ops out l' :
  k_ioqs k !! q = Some i -> ioq_rep i l -> producer i = NULL -> consumer i = NULL ->
  fifo ops l = Some (out, l') ->
  exists i', run_ops q ops k = Ok out (with_ioqs (<[q := i']> (k_ioqs k)) k)
    /\ ioq_rep i' l' /\ producer i' = NULL /\ consumer i' = NULL.
Proof.
  revert k i l out l'. induction ops as [|[c|] ops IH]; intros k i l out l' Hi R Hp Hc Hf; simpl in Hf.
  - injection Hf as <- <-. exists i. split; [|done]. simpl. rewrite insert_id by done. by destruct k.
  - destruct (Nat.ltb_spec (length l) CAPACITY) as [Hl|]; [|done]. simpl.
    destruct (IH (with_ioqs (<[q := put_in i c]> (k_ioqs k)) k) (put_in i c) (l ++ [c]) out l')
      as (i' & E & R' & Hp' & Hc'); [apply lookup_insert_eq|by apply rep_put|done|done|done|].
    exists i'. split; [|done]. erewrite bind_ok.
    2: { rewrite (putchar_put _ _ _ _ _ Hi R Hl). eapply signal_nobody; [apply lookup_insert_eq|done]. }
    rewrite E. simpl. by rewrite insert_insert_eq.
  - destruct l as [|c l]; [done|]. destruct (fifo ops l) as [[out1 l1]|] eqn:Ef; [|done].
    injection Hf as <- <-. simpl. destruct (rep_get _ _ _ R) as [_ R1].
    destruct (IH (with_ioqs (<[q := take_out i]> (k_ioqs k)) k) (take_out i) l out1 l1)
      as (i' & E & R' & Hp' & Hc'); [apply lookup_insert_eq|done|done|done|done|].
    exists i'. split; [|done]. erewrite bind_ok.
    2: { rewrite (getchar_take _ _ _ _ _ Hi R). erewrite bind_ok; [done|].
         eapply signal_nobody; [apply lookup_insert_eq|done]. }
    erewrite bind_ok by exact E. unfold mret, M_ret. simpl. by rewrite insert_insert_eq.
Qed.

(** C30: a reader that finds the buffer empty gives the processor away, off the
    ready queues and recorded as the consumer; the next character put in wakes
    it: it stands first in the queue of its priority, ready, the character is
    in the buffer, and nobody is recorded as waiting. *)
Theorem reader_waits_and_is_woken D k qs L q i r tc p next c :
  sched_rep D k qs L -> running k qs r -> k_tcbs k !! r = Some tc -> r <> NULL ->
  k_ioqs k !! q = Some i -> ioq_rep i [] ->
  k_sems k !! mutex_sem q = Some 1 -> is_Some (k_holders k !! q) ->
  let qs1 := leave (Z.to_nat (priority tc)) r qs in
  first_ready qs1 = Some (p, next) ->
  exists k1 k2 L1 L2, ioq_getchar q k = Switched k1
    /\ sched_rep D k1 qs1 L1 /\ running k1 qs1 next /\ ~ queued r qs1
    /\ consumer <$> k_ioqs k1 !! q = Some r
    /\ ioq_putchar q c k1 = Ok tt k2
    /\ sched_rep D k2 (enqueue_front (Z.to_nat (priority tc)) r qs1) L2
    /\ status <$> k_tcbs k2 !! r = Some TASK_READY
    /\ exists i2, k_ioqs k2 !! q = Some i2 /\ ioq_rep i2 [c] /\ consumer i2 = NULL.
Proof.
  intros R Hrun Ht Hnn Hi Ri Hsem Hh qs1 Hf.
  destruct (wait_while_blocks D k qs L q i Consumer (ioq_empty q) r tc p next
    ltac:(erewrite ioq_empty_ok by done; done) R Hrun Ht Hsem Hh Hi Hf)
    as (k1 & L1 & E & R1 & Run1 & _ & Eq & _ & _ & Et & _).
  pose proof Hrun as (_ & tc' & qu & Ht' & _ & Hq & Hin). rewrite Ht in Ht'. injection Ht' as <-.
  assert (Hnq : ~ queued r qs1) by (eapply leave_not_queued; [by eapply (rep_wf D)|done|done]).
  assert (Hi1 : k_ioqs k1 !! q = Some (ioq_consumer r i)) by (rewrite Eq; apply lookup_insert_eq).
  assert (Ri1 : ioq_rep (ioq_consumer r i) []) by done.
  set (k1' := with_ioqs (<[q := put_in (ioq_consumer r i) c]> (k_ioqs k1)) k1).
  destruct (signal_wakes D k1' qs1 L1 q (put_in (ioq_consumer r i) c) Consumer r
    (tcb_status TASK_BLOCKED tc)) as (k2 & L2 & E2 & R2 & Eq2 & Et2 & _);
    [apply lookup_insert_eq|done|done|by apply (rep_ext D k1)|done|done|done|..].
  { destruct Run1 as (En & tn & _ & Htn & _). simpl. rewrite En. by exists tn. }
  exists k1, k2, L1, L2. split.
  { unfold ioq_getchar. by apply bind_switched. }
  do 3 (split; [done|]). split; [by rewrite Hi1|]. split.
  { rewrite (putchar_put _ _ _ _ _ Hi1 Ri1); [exact E2|]. unfold CAPACITY. simpl. lia. }
  split; [exact R2|]. split; [by rewrite Et2, lookup_insert_eq|].
  eexists. rewrite Eq2. split; [apply lookup_insert_eq|]. split; [|done].
  apply (rep_waiter _ _ Consumer), (rep_put _ []); [done|]. unfold CAPACITY. simpl. lia.
Qed.

(** when the woken reader runs again it gives the buffer's mutex back,
    returns the first character, and leaves the rest; the interrupt flag is
    the one it called with. *)
Theorem woken_reader_gets_char D k qs L q i c l b :
  sem_rep D k qs L (mutex_sem q) 0 [] -> is_Some (k_holders k !! q) ->
  k_ioqs k !! q = Some i -> ioq_rep i (c :: l) -> producer i = NULL ->
  exists k', ioq_getchar_again q (status_of b) k = Ok c k'
    /\ (exists i', k_ioqs k' !! q = Some i' /\ ioq_rep i' l)
    /\ k_sems k' !! mutex_sem q = Some 1 /\ k_holders k' !! q = Some NULL
    /\ k_eflags k' = with_if b (k_eflags k) /\ k_tcbs k' = k_tcbs k /\ k_sched k' = k_sched k.
Proof.
  intros S [hd Hh] Hi R Hp.
  set (k0 := with_eflags (with_if b (k_eflags k)) k).
  set (k1 := with_holders (<[q := NULL]> (k_holders k)) (with_sems (<[mutex_sem q := 1]> (k_sems k)) k0)).
  assert (E1 : mutex_unlock q k0 = Ok tt k1).
  { unfold mutex_unlock. simpl. erewrite bind_ok by (eapply (sem_up_no_waiter D k0); by eapply (sem_rep_ext D k)).
    unfold set_holder, update. simpl. by rewrite Hh. }
  exists (with_ioqs (<[q := take_out i]> (k_ioqs k1)) k1). split.
  - unfold ioq_getchar_again. erewrite bind_ok by apply zoom_eflags_restore. fold k0.
    erewrite bind_ok by exact E1. rewrite (getchar_take k1 _ _ _ _ Hi R).
    erewrite bind_ok; [done|]. eapply signal_nobody; [apply lookup_insert_eq|done].
  - split; [exists (take_out i); split; [apply lookup_insert_eq|by apply (rep_get _ c)]|].
    split; [apply lookup_insert_eq|]. split; [apply lookup_insert_eq|]. done.
Qed.

(** ** The keyboard *)

(** C28: typing a text of printable characters, Esc, Backspace, Tab and Enter on a
    US keyboard, with no key held before, appends exactly that text to
    [kbd_buf], as long as the buffer has room for it and no reader waits: the
    bytes the keyboard sends in scan code set 1, shift keys and releases
    included, are taken one interrupt at a time.  What it sends is given by the
    table [us_keyboard], not by the kernel's [keymap]. *)
Theorem keyboard_types_text text k i l :
  Forall (fun c => typable c = true) text -> k_kbd k = no_keys ->
  k_ioqs k !! kbd_buf = Some i -> ioq_rep i l -> consumer i = NULL ->
  (length l + length text <= CAPACITY)%nat ->
  exists k' i', key_interrupts (mjoin (scan_codes <$> text)) k = Ok tt k'
    /\ k_ioqs k' = <[kbd_buf := i']> (k_ioqs k) /\ ioq_rep i' (l ++ text) /\ consumer i' = NULL
    /\ k_kbd k' = no_keys /\ k_vm k' = k_vm k /\ k_sched k' = k_sched k.
Proof.
  intros HF. revert k i l. induction HF as [|c text Hc HF IH]; intros k i l Hk Hi R Hcn Hlen.
  - exists k, i. rewrite app_nil_r, insert_id by done. done.
  - destruct (typable_key c Hc) as [Hf H0]. simpl in Hlen.
    destruct (type_char k i l c Hf H0 Hk Hi R ltac:(lia) Hcn) as [b E].
    set (k1 := with_ioqs _ _) in E.
    destruct (IH k1 (put_in i c) (l ++ [c])) as (k' & i' & E' & Ei & R' & Hc' & Hk' & Hv & Hs);
      [done|apply lookup_insert_eq|apply rep_put; [done|lia]|done|rewrite length_app; simpl; lia|].
    exists k', i'. rewrite <- app_assoc in R'. simpl in Ei. rewrite insert_insert_eq in Ei.
    split; [|done]. rewrite fmap_cons. simpl mjoin. by rewrite (key_interrupts_app _ _ _ _ E).
Qed.

(** C36: whatever bytes the keyboard sends, in whatever state of the shift,
    control and prefix flags, the handler returns, as long as the buffer has
    room for a character per byte and no reader waits on it: every index into
    the keymap is in range, at most one character per byte goes into the buffer,
    and the scheduler is not touched.  (With a full buffer the handler does not
    return, see [key_on_full_buffer_blocks].) *)
Theorem keyboard_any_bytes D bs k i l :
  on_screen D k -> Forall (fun b => is_u8 b) bs -> k_ioqs k !! kbd_buf = Some i -> ioq_rep i l ->
  consumer i = NULL -> (length l + length bs <= CAPACITY)%nat ->
  exists k' i' cs, key_interrupts bs k = Ok tt k' /\ on_screen D k'
    /\ k_ioqs k' = <[kbd_buf := i']> (k_ioqs k) /\ ioq_rep i' (l ++ cs)
    /\ (length cs <= length bs)%nat
    /\ k_sched k' = k_sched k /\ k_tcbs k' = k_tcbs k /\ k_links k' = k_links k.
Proof.
  intros Ho HF. revert k i l Ho. induction HF as [|b bs Hb HF IH]; intros k i l Ho Hi R Hcn Hlen.
  - exists k, i, []. rewrite app_nil_r, insert_id by done. done.
  - simpl in Hlen.
    destruct (key_interrupt_any D b k i l Ho Hb Hi R ltac:(lia) Hcn)
      as (k1 & i1 & c & E & Ho1 & Ei1 & R1 & Hl1 & Hcn1 & Es & Et & El).
    destruct (IH k1 i1 (l ++ c)) as (k' & i' & cs & E' & Ho' & Ei' & R' & Hl' & Es' & Et' & El');
      [done|by rewrite Ei1, lookup_insert_eq|done|done|rewrite length_app; lia|].
    exists k', i', (c ++ cs). rewrite Ei1, insert_insert_eq in Ei'. rewrite <- app_assoc in R'.
    split; [simpl; by erewrite bind_ok by exact E|].
    rewrite length_app, Es', Et', El'. simpl. split_and!; auto; lia.
Qed.

(** C37: a key pressed while [kbd_buf] is full puts the *running* thread to
    sleep inside the interrupt handler, whatever that thread was doing: it is
    blocked, off the ready queues, recorded as the buffer's producer, and holds
    the buffer's mutex. *)
Theorem key_on_full_buffer_blocks D k qs L i l r tc p next j a b :
  sched_rep D k qs L -> running k qs r -> k_tcbs k !! r = Some tc ->
  keymap !! j = Some (a, b) -> char_key (Z.of_nat j) = true -> ext_scan_code (k_kbd k) = false ->
  k_ioqs k !! kbd_buf = Some i -> ioq_rep i l -> length l = CAPACITY ->
  k_sems k !! mutex_sem kbd_buf = Some 1 -> is_Some (k_holders k !! kbd_buf) ->
  first_ready (leave (Z.to_nat (priority tc)) r qs) = Some (p, next) ->
  exists k' L', key_interrupt (Z.of_nat j) k = Switched k'
    /\ sched_rep D k' (leave (Z.to_nat (priority tc)) r qs) L'
    /\ running k' (leave (Z.to_nat (priority tc)) r qs) next
    /\ status <$> k_tcbs k' !! r = Some TASK_BLOCKED
    /\ producer <$> k_ioqs k' !! kbd_buf = Some r
    /\ k_sems k' !! mutex_sem kbd_buf = Some 0 /\ k_holders k' !! kbd_buf = Some r.
Proof.
  intros R Hrun Ht Hj Hck Hx Hi Ri Hl Hsem Hh Hf.
  set (k1 := arrived (Z.of_nat j) k).
  destruct (wait_while_blocks D k1 qs L kbd_buf i Producer (ioq_full kbd_buf) r tc p next)
    as (k' & L' & E & R' & Run & _ & Ei & Es & Ehd & Et & _);
    [by rewrite (ioq_full_ok k1 _ i l), Hl|by apply (rep_ext D k)|done..|].
  exists k', L'. split.
  - rewrite (press_eq _ _ _ _ Hj Hck Hx). do 2 apply bind_switched. unfold ioq_putchar. by apply bind_switched.
  - split; [done|]. split; [done|]. rewrite Et, Ei, Es, Ehd, !lookup_insert_eq. done.
Qed.

(** ** A machine with a keyboard buffer and a screen *)

(** [thread_a] runs, [thread_b] is ready; the buffer's mutex is at its start,
    free or, with [taken], held. *)
Definition kbd_sem : Z := mutex_sem kbd_buf.
Definition dev_others : list (Z * list Z) := [(sem_waiters kbd_sem, [])].
Definition dev_queues : queues := queues_of [(8%nat, [thread_a; thread_b]); (31%nat, [idle])].
Definition screen_data : gmap Z Z := FlatMem.of_list 0xb8000 (mjoin (replicate 2000 [32; 7])).
Definition dev_machine (taken : bool) (i : ioqueue) (more : gmap Z Z) : kernel :=
  with_ioqs {[kbd_buf := i]} (with_io (cursor_io 0)
    (build demo_threads dev_queues dev_others thread_a {[kbd_sem := if taken then 0 else 1]}
      {[kbd_buf := NULL]} more)).

Definition ring (l : list Z) (tail : Z) : ioqueue :=
  foldl put_in (mkIoq NULL NULL (replicate 64 0) tail tail) l.

Lemma ring_rep l t : 0 <= t < 64 -> (length l <= CAPACITY)%nat -> ioq_rep (ring l t) l.
Proof.
  intros Ht. unfold ring. induction l as [|c l IH] using rev_ind.
  - intros _. split; [done|]. split; [done|]. split; [done|]. split; [simpl; zdiv_lia|done].
  - rewrite length_app, foldl_snoc. simpl. intros Hl. apply rep_put; [apply IH; lia|lia].
Qed.

Lemma dev_rep taken i :
  sched_rep [PD] (dev_machine taken i ∅) dev_queues (list_to_map (family dev_queues dev_others)).
Proof.
  apply (rep_ext [PD] (build demo_threads dev_queues dev_others thread_a
    {[kbd_sem := if taken then 0 else 1]} {[kbd_buf := NULL]} ∅)); [done..|].
  apply build_rep; [destruct taken; by vm_compute|apply bytes_ok_empty].
Qed.

Lemma dev_running taken i : running (dev_machine taken i ∅) dev_queues thread_a.
Proof.
  split; [done|]. exists (kthread 1 8 TASK_RUNNING), [thread_a; thread_b].
  split; [destruct taken; by vm_compute|]. split; [done|]. split; [done|left].
Qed.

Lemma dev_sem_rep i :
  sem_rep [PD] (dev_machine true i ∅) dev_queues (list_to_map (family dev_queues dev_others)) kbd_sem 0 [].
Proof. apply sem_check_rep; [by vm_compute|apply dev_rep]. Qed.

(** A blank screen in the frame of page 0xb8. *)
Definition screen_at (data : gmap Z Z) : Prop := forall j, 0 <= j < 2000 ->
  data !! (0xb8000 + 2 * j) = Some 32 /\ data !! (0xb8000 + (2 * j + 1)) = Some 7.

Lemma paged_screen dirs ps ab data : layout_ok dirs ps ab = true -> (0xb8, 0xb8000) ∈ ps ->
  bytes_ok data -> screen_at data ->
  @Print.screen_cells _ vm_ops (vm_mem [PD]) (paged dirs ps ab data) blank_cells.
Proof.
  intros Hl Hp Hd Hs.
  assert (V : forall o v, 0 <= o < 4096 -> data !! (0xb8000 + o) = Some v ->
    vm_valid [PD] (paged dirs ps ab data) (Print.video_base_addr + o)
    /\ vm_load (paged dirs ps ab data) (Print.video_base_addr + o) = Some v).
  { intros o v Ho Hv. apply (paged_valid dirs ps ab Hl data Hd 0xb8 0xb8000); done. }
  split; [done|]. split.
  - intros i Hi. destruct (Hs (i / 2)) as [H1 H2]; [zdiv_lia|].
    destruct (decide (i mod 2 = 0)); [apply (V i 32)|apply (V i 7)]; [lia| |lia|];
      [rewrite <- H1|rewrite <- H2]; f_equal; zdiv_lia.
  - intros i c a Hi. apply lookup_replicate in Hi as [[= -> ->] Hi].
    destruct (Hs (Z.of_nat i)) as [H1 H2]; [lia|].
    rewrite <- Z.add_assoc. split; [apply (V _ 32)|apply (V _ 7)]; done || lia.
Qed.

Lemma pairs_lookup {A} (a b : A) n j : (j < n)%nat ->
  mjoin (replicate n [a; b]) !! (2 * j)%nat = Some a /\ mjoin (replicate n [a; b]) !! S (2 * j) = Some b.
Proof.
  revert j. induction n as [|n IH]; intros [|j] Hj; [lia..|done|].
  replace (2 * S j)%nat with (S (S (2 * j))) by lia. apply IH. lia.
Qed.

Lemma pairs_length {A} (a b : A) n : length (mjoin (replicate n [a; b])) = (2 * n)%nat.
Proof. induction n as [|n IH]; simpl in *; [done|]. rewrite IH. lia. Qed.

Lemma screen_data_bytes : bytes_ok screen_data.
Proof.
  apply bytes_ok_block; [|unfold PD, PT; rewrite pairs_length; lia].
  apply Forall_forall. intros x (l & Hx & Hl)%list_elem_of_join.
  apply elem_of_replicate in Hl as [-> _]. rewrite !elem_of_cons, elem_of_nil in Hx. lia.
Qed.

Lemma screen_data_screen : screen_at screen_data.
Proof.
  intros j Hj. destruct (pairs_lookup 32 7 2000 (Z.to_nat j) ltac:(lia)) as [H1 H2].
  split; apply lookup_map_seqZ_Some; (split; [lia|]); [rewrite <- H1|rewrite <- H2]; f_equal; lia.
Qed.

(** Other memory apart from it. *)
Lemma screen_at_union m data : (forall j, 0 <= j < 4000 -> m !! (0xb8000 + j) = None) ->
  screen_at data -> screen_at (m ∪ data).
Proof.
  intros Hm Hs j Hj. destruct (Hs j Hj) as [H1 H2].
  split; (rewrite lookup_union_r; [done|apply Hm; lia]).
Qed.

Lemma dev_on_screen taken i : on_screen [PD] (dev_machine taken i screen_data).
Proof.
  exists blank_cells, 0. split; [|unfold Print.SCREEN_MAX; lia]. split.
  - apply (paged_screen [768] pages absent); [exact demo_layout|right; left| |].
    + apply bytes_ok_union; [apply data_check_ok; by vm_compute|apply screen_data_bytes].
    + apply screen_at_union; [|apply screen_data_screen]. intros j Hj.
      apply eq_None_not_Some. intros [v Hv]. apply lookup_map_seqZ_Some in Hv. lia.
  - split; [done|]. simpl. by rewrite lookup_insert_eq, lookup_insert_ne, lookup_singleton_eq.
Qed.

(** "Hi! ~" and Enter, typed with one character in the buffer. *)
Definition typed : list Z := [72; 105; 33; 32; 126; 13].

Lemma ioq_is_fifo_witness : exists k',
  run_ops kbd_buf [Put 7; Get; Put 8; Put 9; Get] (dev_machine false (ring [] 62) ∅) = Ok [7; 8] k'.
Proof.
  destruct (ioq_is_fifo (dev_machine false (ring [] 62) ∅) kbd_buf (ring [] 62) []
    [Put 7; Get; Put 8; Put 9; Get] [7; 8] [9]) as (i' & E & _);
    [by vm_compute|apply ring_rep; simpl; lia|done|done|by vm_compute|].
  eexists. exact E.
Defined.

Lemma reader_waits_and_is_woken_witness : exists k1 k2,
  ioq_getchar kbd_buf (dev_machine false (ring [] 0) ∅) = Switched k1
  /\ ioq_putchar kbd_buf 65 k1 = Ok tt k2
  /\ status <$> k_tcbs k2 !! thread_a = Some TASK_READY.
Proof.
  destruct (reader_waits_and_is_woken [PD] (dev_machine false (ring [] 0) ∅) dev_queues
    (list_to_map (family dev_queues dev_others)) kbd_buf (ring [] 0) thread_a
    (kthread 1 8 TASK_RUNNING) 8 thread_b 65) as (k1 & k2 & L1 & L2 & E1 & _ & _ & _ & _ & E2 & _ & E3 & _);
    [apply dev_rep|apply dev_running|by vm_compute|done|by vm_compute|apply ring_rep; simpl; lia
    |by vm_compute|by exists 0|by vm_compute|].
  exists k1, k2. by split_and!.
Defined.

Lemma woken_reader_gets_char_witness : exists k',
  ioq_getchar_again kbd_buf (status_of true) (dev_machine true (ring [65; 66] 63) ∅) = Ok 65 k'.
Proof.
  destruct (woken_reader_gets_char [PD] (dev_machine true (ring [65; 66] 63) ∅) dev_queues
    (list_to_map (family dev_queues dev_others)) kbd_buf (ring [65; 66] 63) 65 [66] true) as (k' & E & _);
    [apply dev_sem_rep|by exists 0|by vm_compute|apply ring_rep; simpl; unfold CAPACITY; lia|done|].
  by exists k'.
Defined.

Definition typed_bytes : list Z := [0x2a; 0x23; 0xa3; 0xaa; 0x17; 0x97; 0x2a; 2; 0x82; 0xaa;
  0x39; 0xb9; 0x2a; 0x29; 0xa9; 0xaa; 0x1c; 0x9c].

Lemma keyboard_types_text_witness : exists k' i',
  key_interrupts typed_bytes (dev_machine false (ring [1] 60) ∅) = Ok tt k'
  /\ k_ioqs k' !! kbd_buf = Some i' /\ ioq_rep i' (1 :: typed).
Proof.
  destruct (keyboard_types_text typed (dev_machine false (ring [1] 60) ∅) (ring [1] 60) [1])
    as (k' & i' & E & Ei & R & _);
    [repeat constructor|done|by vm_compute|apply ring_rep; simpl; unfold CAPACITY; lia|done
    |simpl; unfold CAPACITY; lia|].
  assert (C : mjoin (scan_codes <$> typed) = typed_bytes) by (vm_compute; reflexivity).
  rewrite C in E. exists k', i'. split; [exact E|]. split; [by rewrite Ei, lookup_insert_eq|exact R].
Defined.

Lemma keyboard_any_bytes_witness : exists k',
  key_interrupts [0xe0; 0x53; 0x7f; 0xff; 0xe1; 0x1e] (dev_machine false (ring [] 0) screen_data) = Ok tt k'.
Proof.
  destruct (keyboard_any_bytes [PD] [0xe0; 0x53; 0x7f; 0xff; 0xe1; 0x1e]
    (dev_machine false (ring [] 0) screen_data) (ring [] 0) []) as (k' & i' & cs & E & _);
    [apply dev_on_screen|repeat constructor; lia|by vm_compute|apply ring_rep; simpl; lia|done
    |simpl; unfold CAPACITY; lia|].
  by exists k'.
Defined.

Definition full_text : list Z := replicate CAPACITY 97.

Lemma key_on_full_buffer_blocks_witness : exists k',
  key_interrupt 0x1e (dev_machine false (ring full_text 5) ∅) = Switched k'
  /\ status <$> k_tcbs k' !! thread_a = Some TASK_BLOCKED.
Proof.
  destruct (key_on_full_buffer_blocks [PD] (dev_machine false (ring full_text 5) ∅) dev_queues
    (list_to_map (family dev_queues dev_others)) (ring full_text 5) full_text thread_a
    (kthread 1 8 TASK_RUNNING) 8 thread_b 0x1e 97 65) as (k' & L' & E & _ & _ & Hs & _);
    [apply dev_rep|apply dev_running|by vm_compute|done|done|done|by vm_compute
    |apply ring_rep; [lia|done]|done|by vm_compute|by exists 0|by vm_compute|].
  change (Z.of_nat 0x1e) with 0x1e in E. exists k'. split; [exact E|exact Hs].
Defined.

End DeviceTheorems.
