(* ===== verification/ThreadTheorems.v ===== *)
(** The theorems about starting threads, each with an instance on the machine
    of [Machine.v] with the heap of [MemoryTheorems.v]. *)

From S2P Require Import Prelude Bytes Bitmap LinkedList Paging PageTable PageMap Words Kernel.
From S2P Require Import ReadyQueues Sched Machine Sync Memory Heap MemoryTheorems.
From S2P Require Import Thread ThreadSpec ThreadRun.

Module ThreadTheorems.
Import Bitmap LinkedList Paging PageTable PageMap Words Kernel ReadyQueues Sched Machine Sync.
Import Memory Heap MemoryTheorems Thread ThreadSpec ThreadRun.

(** C22: [thread_run] keeps the invariant of the kernel: the ready queues with
    their mask, the heap, the list of all threads, the process numbers, and that
    no free page of the heap holds a control block or a list node.  The thread
    is in a page that was free; it is READY, last in the queue of its priority
    and last in the list of all threads; its number is the first free slot of
    the thread table, where it is entered; preemption is requested exactly when
    its priority is higher than that of the running thread; and no other control
    block changes. *)
Theorem thread_run_keeps_kernel D entry H k qs L vb pb ts i0 rt nm prio func func_arg :
  kernel_ok D H k qs L vb pb ts -> k_tcbs k !! running_thread (k_sched k) = Some rt ->
  vb !! i0 = Some false -> clear_from 0 pb <> [] ->
  (length nm <= NAME_LEN)%nat -> 0 <= prio < PRIO_NUM ->
  is_u32 entry -> is_u32 func -> is_u32 func_arg ->
  exists (i : nat) k' L', let t := page_at H (Z.of_nat i) in
    vb !! i = Some false /\ k_tcbs k !! t = None
    /\ thread_run entry nm prio func func_arg k = Ok t k'
    /\ kernel_ok D H k' (enqueue (Z.to_nat prio) t qs) L' (<[i := true]> vb)
         (used (take 1 (clear_from 0 pb)) pb) (ts ++ [t])
    /\ k_tcbs k' = <[t := new_thread t prio nm k]> (k_tcbs k)
    /\ k_sched k' = sched_table (entered t (thread_table (k_sched k)))
         (if prio <? priority rt then sched_need true (k_sched k) else k_sched k).
Proof.
  intros K Hrt Hi Hpb Hnm Hp He Hf Ha.
  destruct (thread_run_ok D entry H k qs L vb pb ts i0 rt nm prio func func_arg K Hrt Hi Hpb Hnm Hp He Hf Ha)
    as (i & k' & L' & H1 & _ & H2 & H3 & H4 & H5 & H6 & _).
  exists i, k', L'. by split_and!.
Qed.

(** C23: a thread started with [thread_run] begins where it should: when
    [context_load] loads it for the first time, the processor continues at
    [kernel_thread_entry] with zeroed registers, and the stack holds, above the
    unused return address, the function to run and its argument. *)
Theorem new_thread_starts D entry H k qs L vb pb ts i0 rt nm prio func func_arg :
  kernel_ok D H k qs L vb pb ts -> k_tcbs k !! running_thread (k_sched k) = Some rt ->
  vb !! i0 = Some false -> clear_from 0 pb <> [] ->
  (length nm <= NAME_LEN)%nat -> 0 <= prio < PRIO_NUM ->
  is_u32 entry -> is_u32 func -> is_u32 func_arg ->
  exists t k' esp, thread_run entry nm prio func func_arg k = Ok t k'
    /\ context_load t k' = Ok (inl (mkFast 0 0 0 0 entry esp)) k'
    /\ ld32 (esp +! 4) k' = Ok func k' /\ ld32 (esp +! 8) k' = Ok func_arg k'
    /\ t <= esp /\ esp + 12 + INTR_STACK_SIZE <= t + PG_SIZE.
Proof.
  intros K Hrt Hi Hpb Hnm Hp He Hf Ha.
  destruct (thread_run_ok D entry H k qs L vb pb ts i0 rt nm prio func func_arg K Hrt Hi Hpb Hnm Hp He Hf Ha)
    as (i & k' & L' & _ & _ & _ & E & _ & Et & _ & F & Hr & _).
  destruct (context_load_first D entry func func_arg _ k' _ (new_thread (page_at H (Z.of_nat i)) prio nm k)
    ltac:(rewrite Et; apply lookup_insert_eq) eq_refl Hr F) as (E1 & E2 & E3).
  exists (page_at H (Z.of_nat i)), k', (first_stack (page_at H (Z.of_nat i)) + TS_unused_ret_addr).
  split_and!; [done..| |]; unfold first_stack, TS_unused_ret_addr, INTR_STACK_SIZE, THREAD_STACK_SIZE, PG_SIZE; lia.
Qed.

(** When there is no page left, [thread_create] does not notice: it makes the
    thread at address 0. *)
Theorem thread_create_at_null D entry H k vb pb nm prio func func_arg :
  heap_rep D H k vb pb -> (forall i, vb !! i <> Some false) ->
  thread_create entry nm prio func func_arg k
  = (thread_init entry NULL nm prio func func_arg;; mret NULL) k.
Proof.
  intros R Hno. unfold thread_create. destruct (kernel_pages_malloc_fails D H k vb pb 1 R) as [E _]; [lia..|].
  erewrite bind_ok; [reflexivity|]. apply E. intros i Hi. apply (Hno i).
  rewrite <- (Nat.add_0_r i). apply Hi. lia.
Qed.

(** ** Instances

    The machine with the heap of six pages; the running thread and the idle
    thread have numbers. *)

Definition kernel_others : list (Z * list Z) :=
  [(all_list, all_list_tag <$> [idle; thread_a; thread_b]); (sem_waiters (mutex_sem pid_mtx), [])].
Definition kernel_slots : list Z := [idle; thread_a; thread_b] ++ replicate 125 NULL.

Definition run_kernel : kernel :=
  let k := build demo_threads demo_queues kernel_others thread_a {[mutex_sem pid_mtx := 1]}
    {[pid_mtx := NULL]} heap_data in
  with_sched (sched_idle idle (sched_table kernel_slots (k_sched k)))
    (with_pools {[kernel_vir_pool := h_vpool demo_heap; kernel_phy_pool := h_ppool demo_heap]} k).

Definition run_lists : gmap Z (list Z) := list_to_map (family demo_queues kernel_others).

Lemma run_rep : sched_rep [PD] run_kernel demo_queues run_lists.
Proof.
  apply (rep_ext [PD] (build demo_threads demo_queues kernel_others thread_a {[mutex_sem pid_mtx := 1]}
    {[pid_mtx := NULL]} heap_data)); [done..|].
  apply build_rep; [by vm_compute|apply heap_data_bytes].
Qed.

Lemma run_heap : heap_rep [PD] demo_heap run_kernel demo_vbits demo_pbits.
Proof.
  apply (demo_heap_rep (mask_data demo_queues)); [|apply heap_bits_masked|reflexivity..].
  apply bytes_ok_union; [apply data_check_ok; by vm_compute|apply heap_data_bytes].
Qed.

Definition fresh_check (fam : list (Z * list Z)) (t : Z) : bool :=
  bool_decide (Forall (fun a => a ∉ family_nodes fam) (tcb_nodes t)).

Lemma fresh_check_ok fam t : fresh_check fam t = true -> fresh (list_to_map fam) t.
Proof.
  unfold fresh_check. rewrite bool_decide_eq_true, Forall_forall.
  intros F a Ha (l & xs & Hl & Hin). apply elem_of_list_to_map_2 in Hl. apply (F a Ha). apply list_elem_of_join.
  exists (nodes l xs). split; [done|]. apply list_elem_of_fmap. by exists (l, xs).
Qed.

Lemma run_tcbs t tc : k_tcbs run_kernel !! t = Some tc ->
  t ∈ [idle; thread_a; thread_b] /\ pg_dir tc = NULL.
Proof.
  intros Ht%elem_of_list_to_map_2.
  repeat (apply elem_of_cons in Ht as [[= -> ->]|Ht]; [split; [set_solver|done]|]).
  by apply not_elem_of_nil in Ht.
Qed.

Lemma run_kernel_ok :
  kernel_ok [PD] demo_heap run_kernel demo_queues run_lists demo_vbits demo_pbits [idle; thread_a; thread_b].
Proof.
  constructor.
  - exact run_rep.
  - exact run_heap.
  - unfold mask_byte, bitmap_byte. change (base_addr (rq_mask (k_sched run_kernel))) with (page_va 0x100).
    change (byte_len (rq_mask (k_sched run_kernel))) with 4. unfold demo_heap, page_va. simpl. lia.
  - split; [reflexivity|by exists NULL|by vm_compute].
  - by vm_compute.
  - intros t Ht. repeat (apply elem_of_cons in Ht as [->|Ht]; [eexists; reflexivity|]).
    by apply not_elem_of_nil in Ht.
  - reflexivity.
  - eexists; reflexivity.
  - eexists; reflexivity.
  - intros t tc [_ E]%run_tcbs N. by destruct N.
  - intros i Hi. assert (Hin : i ∈ [3; 4; 5]%nat).
    { destruct i as [|[|[|[|[|[|i]]]]]]; cbv in Hi; try done; set_solver. }
    split.
    + apply fresh_check_ok.
      repeat (apply elem_of_cons in Hin as [->|Hin]; [by vm_compute|]). by apply not_elem_of_nil in Hin.
    + apply eq_None_not_Some. intros [tc [Ht _]%run_tcbs].
      repeat (apply elem_of_cons in Hin as [->|Hin]; [|]); [..|by apply not_elem_of_nil in Hin];
        revert Ht; refine (bool_decide_unpack (_ ∉ _) _); by vm_compute.
Qed.

Lemma thread_run_keeps_kernel_witness : exists (i : nat) k' L',
  thread_run 0xc0001000 (Print.Print.text_of "thread1") 10 0xc0002000 7 run_kernel
    = Ok (page_at demo_heap (Z.of_nat i)) k'
  /\ kernel_ok [PD] demo_heap k' (enqueue 10 (page_at demo_heap (Z.of_nat i)) demo_queues) L'
       (<[i := true]> demo_vbits) [true; true; false]
       [idle; thread_a; thread_b; page_at demo_heap (Z.of_nat i)].
Proof.
  destruct (thread_run_keeps_kernel [PD] 0xc0001000 demo_heap run_kernel demo_queues run_lists
    demo_vbits demo_pbits [idle; thread_a; thread_b] 3 (kthread 1 8 TASK_RUNNING)
    (Print.Print.text_of "thread1") 10 0xc0002000 7 run_kernel_ok ltac:(reflexivity) ltac:(reflexivity)
    ltac:(by vm_compute) ltac:(by vm_compute; lia) ltac:(by vm_compute) ltac:(by vm_compute)
    ltac:(by vm_compute) ltac:(by vm_compute)) as (i & k' & L' & _ & _ & E & K & _).
  exists i, k', L'. split; [exact E|exact K].
Defined.

Lemma new_thread_starts_witness : exists t k' esp,
  thread_run 0xc0001000 (Print.Print.text_of "thread1") 10 0xc0002000 7 run_kernel = Ok t k'
  /\ context_load t k' = Ok (inl (mkFast 0 0 0 0 0xc0001000 esp)) k'
  /\ ld32 (esp +! 8) k' = Ok 7 k'.
Proof.
  destruct (new_thread_starts [PD] 0xc0001000 demo_heap run_kernel demo_queues run_lists
    demo_vbits demo_pbits [idle; thread_a; thread_b] 3 (kthread 1 8 TASK_RUNNING)
    (Print.Print.text_of "thread1") 10 0xc0002000 7 run_kernel_ok ltac:(reflexivity) ltac:(reflexivity)
    ltac:(by vm_compute) ltac:(by vm_compute; lia) ltac:(by vm_compute) ltac:(by vm_compute)
    ltac:(by vm_compute) ltac:(by vm_compute)) as (t & k' & esp & E & Ec & _ & Ea & _).
  exists t, k', esp. split; [exact E|]. split; [exact Ec|exact Ea].
Defined.

End ThreadTheorems.
