(* ===== verification/BootTheorems.v ===== *)
(** The theorems about setting up the processor: what the interrupts and system
    calls find after [idt_init], [tss_init] and [syscall_init], and what the
    default handler does. *)

From S2P Require Import Prelude Bytes Interrupt LinkedList Paging PageTable Ports Print Descriptors.
From S2P Require Import Kernel Sched Machine Console Idt Ioqueue Keyboard DeviceTheorems.

Module BootTheorems.
Import Machine Interrupt LinkedList Paging PageTable Ports Descriptors Kernel Sched Console Idt.
Import DeviceTheorems.

(** What the processor reads in the tables: a gate, a segment, the operand of
    [lidt] or [lgdt] (a base of 32 bits and a limit of 16). *)
Definition gate_at (t : tables) (v : Z) : option gate := idt t !! v ≫= fun g => decode_gate (gate_bytes g).
Definition segment_at (t : tables) (sel : Z) : option segment :=
  gdt t !! (sel / 8) ≫= fun d => decode_segment (segment_bytes d).
Definition base_limit (operand : Z) : Z * Z := (u32 (operand / 65536), operand mod 65536).

Lemma idt_operand_decodes a : is_u32 a -> base_limit (idt_operand a) = (a, 8 * IDT_DESC_CNT - 1).
Proof.
  intros Ha. unfold idt_operand, base_limit, u64. change (8 * IDT_DESC_CNT - 1) with 1031.
  rewrite (Z.mod_small (Z.shiftl a 16)) by (rewrite Z.shiftl_mul_pow2 by lia; lia).
  change 281474976645120 with (Z.shiftl (Z.ones 32) 16).
  rewrite <- Z.shiftl_land, Z.land_ones, Z.mod_small, lor_disjoint_add, Z.shiftl_mul_pow2 by lia.
  unfold u32. f_equal; zdiv_lia.
Qed.

Section Boot.
Context (D : list Z) (intr_entry_table : Z -> Z) (syscall_entry : Z).
Context (Hentry : forall i, is_u32 (intr_entry_table i)) (Hsyscall : is_u32 syscall_entry).
Implicit Types (k : kernel) (t : tables).

Lemma idt_of m t : idt (with_idt m t) = m.
Proof. done. Qed.

Lemma gate_made t v : 0 <= v < IDT_DESC_CNT -> v <> INT_SYSCALL ->
  gate_at (idt_made intr_entry_table syscall_entry t) v
  = Some (mkDecodedGate (intr_entry_table v) SELECTOR_K_CODE true 0 0xe).
Proof.
  intros Hv Hn. unfold gate_at, idt_made. rewrite idt_of, lookup_insert_ne, fill_lookup by congruence.
  rewrite decide_True by (unfold IDT_DESC_CNT in *; lia). cbn [mbind option_bind].
  by rewrite idt_desc_make_decodes.
Qed.

Lemma gate_syscall t : gate_at (idt_made intr_entry_table syscall_entry t) INT_SYSCALL
  = Some (mkDecodedGate syscall_entry SELECTOR_K_CODE true 3 0xe).
Proof.
  unfold gate_at, idt_made. rewrite idt_of, lookup_insert_eq. cbn [mbind option_bind].
  by rewrite idt_desc_make_decodes.
Qed.

Lemma gate_ready a t v :
  gate_at (idt_ready intr_entry_table syscall_entry a t) v = gate_at (idt_made intr_entry_table syscall_entry t) v.
Proof. reflexivity. Qed.

Lemma handlers_of_ready a t v : 0 <= v < IDT_DESC_CNT ->
  idt_table (idt_ready intr_entry_table syscall_entry a t) !! v = Some general_intr_handler_ptr.
Proof.
  intros Hv. unfold idt_ready. cbn [idt_table]. rewrite fill_lookup.
  by rewrite decide_True by (unfold IDT_DESC_CNT in *; lia).
Qed.

Lemma idtr_of_ready a t : idtr (idt_ready intr_entry_table syscall_entry a t) = idt_operand a.
Proof. reflexivity. Qed.

End Boot.

(** C27: [idt_init], from any state with the cursor on the screen, gives every
    vector below 0x80 a present kernel gate to its entry in
    [intr_entry_table], and vector 0x80 one to [syscall_entry] that user code
    may use; every vector's handler is the default one; the IDT register covers
    exactly the table; and the interrupt controllers, in whatever state they
    were, deliver the timer's and the keyboard's vector and nothing else.  *)
Theorem idt_init_sets_up D intr_entry_table syscall_entry idt_addr k :
  (forall i, is_u32 (intr_entry_table i)) -> is_u32 syscall_entry -> is_u32 idt_addr ->
  on_screen D k ->
  exists k', idt_init intr_entry_table syscall_entry idt_addr k = Ok tt k'
    /\ on_screen D k' /\ k_eflags k' = k_eflags k
    /\ (forall v, 0 <= v < INT_SYSCALL -> gate_at (k_tables k') v
          = Some (mkDecodedGate (intr_entry_table v) SELECTOR_K_CODE true 0 0xe))
    /\ gate_at (k_tables k') INT_SYSCALL = Some (mkDecodedGate syscall_entry SELECTOR_K_CODE true 3 0xe)
    /\ (forall v, 0 <= v < IDT_DESC_CNT -> idt_table (k_tables k') !! v = Some general_intr_handler_ptr)
    /\ base_limit (idtr (k_tables k')) = (idt_addr, 8 * IDT_DESC_CNT - 1)
    /\ forall p, let log := other_writes (k_io k') in
         pic_vectors (pic_after PIC_M_CTRL PIC_M_DATA log p) = [INT_TIMER; INT_KEYBOARD]
         /\ pic_vectors (pic_after PIC_S_CTRL PIC_S_DATA log p) = [].
Proof.
  intros He Hs Ha S.
  destruct (idt_init_sets D intr_entry_table syscall_entry idt_addr (k_tables k) k S eq_refl)
    as (k' & E & U). destruct (set_up_inv _ _ _ _ _ U) as [S' T'].
  destruct U as (v & i & Ek & _ & _ & _ & W).
  exists k'. split; [exact E|]. split; [exact S'|]. rewrite T'. split; [by rewrite Ek|].
  split; [|split; [|split; [|split]]].
  - intros x Hx. rewrite gate_ready.
    apply gate_made; [exact He|unfold IDT_DESC_CNT, INT_SYSCALL in *; lia..].
  - rewrite gate_ready. apply gate_syscall; exact Hs.
  - intros x. apply handlers_of_ready.
  - rewrite idtr_of_ready. by apply idt_operand_decodes.
  - intros p log. assert (El : log = pic_words ++ other_writes (k_io k)) by (unfold log; by rewrite Ek).
    rewrite El. by destruct (pic_words_do (other_writes (k_io k)) p) as (H1 & H2 & _).
Qed.

Lemma segments_ready t :
  segment_at (tss_ready t) SELECTOR_U_CODE = Some (mkDecodedSegment 0 0xfffff true true true 3 false 8)
  /\ segment_at (tss_ready t) SELECTOR_U_DATA = Some (mkDecodedSegment 0 0xfffff true true true 3 false 2)
  /\ segment_at (tss_ready t) SELECTOR_TSS
     = Some (mkDecodedSegment tss_addr (TSS_SIZE - 1) true false true 0 true 9).
Proof.
  unfold segment_at, tss_ready. cbn [gdt]. change (SELECTOR_U_CODE / 8) with 5.
  change (SELECTOR_U_DATA / 8) with 6. change (SELECTOR_TSS / 8) with 4. split; [|split].
  - rewrite lookup_insert_ne, lookup_insert_eq by done. by vm_compute.
  - rewrite lookup_insert_eq. by vm_compute.
  - rewrite !lookup_insert_ne, lookup_insert_eq by done. by vm_compute.
Qed.

(** [tss_init] gives user code its segments: the code and data segments of
    the selectors a process is started with span the whole address space, for
    privilege level 3; the task register holds the selector of a descriptor of
    the [tss], whose ring 0 stack is the kernel's; and the GDT register covers
    the seven descriptors.  The other descriptors and the tables of interrupts
    and system calls stay as they were. *)
Theorem tss_init_sets_up D k : on_screen D k ->
  exists k', tss_init k = Ok tt k' /\ on_screen D k'
    /\ segment_at (k_tables k') SELECTOR_U_CODE = Some (mkDecodedSegment 0 0xfffff true true true 3 false 8)
    /\ segment_at (k_tables k') SELECTOR_U_DATA = Some (mkDecodedSegment 0 0xfffff true true true 3 false 2)
    /\ (exists g, segment_at (k_tables k') (task_register (k_tables k'))
          = Some (mkDecodedSegment tss_addr (TSS_SIZE - 1) g false true 0 true 9))
    /\ tss_ss0 (the_tss (k_tables k')) = SELECTOR_K_STACK
    /\ base_limit (gdtr (k_tables k')) = (gdt_base_addr, 8 * 7 - 1)
    /\ (forall j, 0 <= j < 4 -> gdt (k_tables k') !! j = gdt (k_tables k) !! j)
    /\ idt (k_tables k') = idt (k_tables k) /\ syscall_table (k_tables k') = syscall_table (k_tables k).
Proof.
  intros S. destruct (tss_init_sets D (k_tables k) k S eq_refl) as (k' & E & U).
  destruct (set_up_inv _ _ _ _ _ U) as [S' T']. exists k'. rewrite T'.
  destruct (segments_ready (k_tables k)) as (H1 & H2 & H3).
  split; [exact E|]. split; [exact S'|]. split; [exact H1|]. split; [exact H2|].
  split; [eexists; exact H3|]. do 2 (split; [reflexivity|]). split; [|done].
  intros j Hj. unfold tss_ready. cbn [gdt]. by rewrite !lookup_insert_ne by lia.
Qed.

(** C26: after [idt_init], [tss_init] and [syscall_init], the library function
    [pid_get], called from user mode in any later state in which nobody changed
    the tables, returns the number of the running thread and changes nothing;
    the calls with arguments, which drop the number, change nothing either. *)
Theorem pid_get_returns_pid D intr_entry_table syscall_entry idt_addr k :
  is_u32 syscall_entry -> on_screen D k ->
  exists k', (idt_init intr_entry_table syscall_entry idt_addr;; tss_init;; syscall_init) k = Ok tt k'
    /\ on_screen D k'
    /\ forall k2 t, k_tables k2 = k_tables k' ->
         k_tcbs k2 !! running_thread (k_sched k2) = Some t -> 0 <= pid t < 2 ^ 16 ->
         pid_get syscall_entry k2 = Ok (pid t) k2
         /\ forall a b c, syscall1 syscall_entry PID_GET a k2 = Ok tt k2
              /\ syscall2 syscall_entry PID_GET a b k2 = Ok tt k2 /\ syscall3 syscall_entry PID_GET a b c k2 = Ok tt k2.
Proof.
  intros Hs S.
  destruct (idt_init_sets D intr_entry_table syscall_entry idt_addr (k_tables k) k S eq_refl)
    as (k1 & E1 & U1). destruct (set_up_inv _ _ _ _ _ U1) as [S1 T1].
  destruct (tss_init_sets D _ k1 S1 T1) as (k2 & E2 & U2). destruct (set_up_inv _ _ _ _ _ U2) as [S2 T2].
  destruct (syscall_init_sets D _ k2 S2 T2) as (k3 & E3 & U3). destruct (set_up_inv _ _ _ _ _ U3) as [S3 T3].
  exists k3. split; [by erewrite bind_ok, bind_ok by eassumption|]. split; [done|].
  intros k' t Ht Hr Hp. rewrite T3 in Ht.
  assert (G : gate_at (k_tables k') INT_SYSCALL = Some (mkDecodedGate syscall_entry SELECTOR_K_CODE true 3 0xe)).
  { rewrite Ht. apply (gate_syscall intr_entry_table); [exact Hs]. }
  assert (E : int_syscall syscall_entry PID_GET k' = Ok (pid t) k').
  2: { split; [exact E|]. intros a b c. unfold syscall1, syscall2, syscall3. by erewrite bind_ok by exact E. }
  unfold int_syscall. erewrite bind_ok by reflexivity.
  unfold gate_at in G. rewrite G. simpl. rewrite Z.eqb_refl. unfold syscall_dispatch.
  erewrite bind_ok by reflexivity. cbv beta. rewrite Ht. unfold syscall_ready. cbn [syscall_table].
  rewrite lookup_insert_eq. unfold sys_pid_get. erewrite bind_ok by reflexivity.
  erewrite bind_ok by by apply get_tcb_ok. rewrite u32_small by lia. done.
Qed.

(** the default handler of interrupts: the controllers' spurious vectors are
    ignored; for any other vector with a name, the message fits on the screen
    and the handler never returns, it stops in its endless loop. *)
Theorem unexpected_interrupt_stops D fuel cr2 vec k :
  on_screen D k -> 0 <= vec ->
  ((vec = 0x27 \/ vec = 0x2f) -> general_intr_handler fuel cr2 vec k = Ok tt k)
  /\ (vec <> 0x27 -> vec <> 0x2f -> (exists s, intr_name !! Z.to_nat vec = Some (Some s)) ->
      general_intr_handler fuel cr2 vec k = Panic "while (1)").
Proof.
  intros S Hv. unfold general_intr_handler. split.
  - by intros [-> | ->].
  - intros N1 N2 [s Hs]. rewrite (proj2 (Z.eqb_neq _ _) N1), (proj2 (Z.eqb_neq _ _) N2). change (false || false) with false. cbv iota.
    destruct (cursor_set_on_screen D 0 k S) as (k1 & E1 & S1); [unfold Print.SCREEN_MAX; lia|].
    erewrite bind_ok by exact E1.
    destruct (put_chars_on_screen D 32 320 0 k1 S1) as (k2 & E2 & S2); [lia|done|].
    erewrite bind_ok by exact E2.
    destruct (cursor_set_on_screen D 0 k2 S2) as (k3 & E3 & S3); [unfold Print.SCREEN_MAX; lia|].
    erewrite bind_ok by exact E3.
    destruct (say_ok D ("!!!!!!!  exception message begin !!!!!!!" +:+ Print.nl) k3 S3)
      as (k4 & E4 & S4 & _); [by vm_compute|]. erewrite bind_ok by exact E4.
    destruct (cursor_set_on_screen D 88 k4 S4) as (k5 & E5 & S5); [unfold Print.SCREEN_MAX; lia|].
    erewrite bind_ok by exact E5.
    destruct (put_name_on_screen D fuel vec s k5 S5 Hs) as (k6 & E6 & S6).
    erewrite bind_ok by exact E6.
    assert (H : exists k7, (if vec =? EXP_PAGE_FAULT then
       say (Print.nl +:+ "page fault vaddr is ");; say_int cr2 else mret tt) k6 = Ok tt k7 /\ on_screen D k7).
    { destruct (vec =? EXP_PAGE_FAULT); [|by exists k6].
      destruct (say_ok D (Print.nl +:+ "page fault vaddr is ") k6 S6) as (k7 & E7 & S7 & _); [by vm_compute|].
      destruct (say_int_ok D cr2 k7 S7) as (k8 & E8 & S8 & _). exists k8. by erewrite bind_ok by exact E7. }
    destruct H as (k7 & E7 & S7). erewrite bind_ok by exact E7.
    destruct (say_ok D (Print.nl +:+ "!!!!!!!  exception message end !!!!!!!" +:+ Print.nl) k7 S7)
      as (k8 & E8 & S8 & _); [by vm_compute|]. by erewrite bind_ok by exact E8.
Qed.

(** ** Instances *)

Definition boot_machine : kernel := dev_machine false (ring [] 0) screen_data.
Definition entry_of (v : Z) : Z := 0xc0001000 + 16 * (v mod 0x81).

Lemma entry_of_u32 v : is_u32 (entry_of v).
Proof. unfold entry_of. zdiv_lia. Qed.

Lemma idt_init_sets_up_witness : exists k',
  idt_init entry_of 0xc0001900 0xc0007000 boot_machine = Ok tt k'
  /\ gate_at (k_tables k') 0x21 = Some (mkDecodedGate 0xc0001210 8 true 0 0xe).
Proof.
  destruct (idt_init_sets_up [PD] entry_of 0xc0001900 0xc0007000 boot_machine) as (k' & E & _ & _ & G & _);
    [apply entry_of_u32|lia|lia|apply dev_on_screen|].
  exists k'. split; [exact E|]. apply (G 0x21). unfold INT_SYSCALL. lia.
Defined.

Lemma tss_init_sets_up_witness : exists k', tss_init boot_machine = Ok tt k'.
Proof.
  destruct (tss_init_sets_up [PD] boot_machine) as (k' & E & _); [apply dev_on_screen|].
  exists k'. exact E.
Defined.

Lemma pid_get_returns_pid_witness : exists k',
  (idt_init entry_of 0xc0001900 0xc0007000;; tss_init;; syscall_init) boot_machine = Ok tt k'
  /\ (k_tcbs k' = k_tcbs boot_machine -> k_sched k' = k_sched boot_machine ->
      pid_get 0xc0001900 k' = Ok 1 k').
Proof.
  destruct (pid_get_returns_pid [PD] entry_of 0xc0001900 0xc0007000 boot_machine) as (k' & E & _ & P);
    [lia|apply dev_on_screen|].
  exists k'. split; [exact E|]. intros Et Es.
  apply (P k' (kthread 1 8 TASK_RUNNING)); [reflexivity| |simpl; lia]. rewrite Et, Es. by vm_compute.
Defined.

Lemma unexpected_interrupt_stops_witness :
  general_intr_handler 0 0xdeadbeef 0x0e boot_machine = Panic "while (1)"
  /\ general_intr_handler 0 0 0x27 boot_machine = Ok tt boot_machine.
Proof.
  split.
  - apply (unexpected_interrupt_stops [PD] 0 0xdeadbeef 0x0e boot_machine);
      [apply dev_on_screen|done|done|done|by exists "PF"].
  - apply (unexpected_interrupt_stops [PD] 0 0 0x27 boot_machine); [apply dev_on_screen|done|by left].
Defined.

End BootTheorems.
