(* ===== verification/InitTheorems.v ===== *)
(** The theorems about starting the kernel: [mem_init], [init_all] and [main],
    from the state the loader leaves ([boot_state]), with an instance on a
    machine with 0x26e000 bytes of memory. *)

From S2P Require Import Prelude Bytes Bitmap LinkedList Paging PageTable Ports Print Descriptors Kernel.
From S2P Require Import OutputTheorems ReadyQueues Sched Machine Sync Console Idt Memory Heap HeapMachine MemInit.
From S2P Require Import Ioqueue Keyboard DeviceTheorems Thread ThreadSpec ThreadRun SchedInit.
From S2P Require Import Words Process Init Boot Main.

Module InitTheorems.
Import Bitmap LinkedList Paging PageTable Ports Descriptors Kernel ReadyQueues Sched Machine Sync Console Idt.
Import OutputTheorems Memory Heap HeapMachine MemInit Ioqueue Keyboard DeviceTheorems Thread ThreadSpec ThreadRun.
Import SchedInit Process Words Init Boot Main.

(** The frames of a pool, and where its bitmap is. *)
Definition pool_end (p : pool) : Z := addr_base p + PG_SIZE * bit_num (btmp p).
Definition map_end (p : pool) : Z := base_addr (btmp p) + byte_len (btmp p).

(** C25: [mem_init] divides the memory above 2 MB, if the memory is small enough
    for the bitmaps to end below the page of the caller's stack (for more, from
    about 341 MB on, the code clears the page it runs on, and the theorem says
    nothing): the kernel's frames, then the user's, at most one more than the
    kernel's and within the memory, with less than a page left over; as many
    heap pages as kernel frames; the three bitmaps one after the other at
    0xc009a000, up to the stack at most; all bits clear, and the heap invariant
    holds: every page can be allocated.  The stack is as it was. *)
Theorem mem_init_splits_memory D total table esp k :
  memory_fits total ->
  maps_end total <= idle_page esp /\ idle_page esp + PG_SIZE <= Print.video_base_addr ->
  valid_block (ByteMem0 := vm_mem D) (k_vm k) (idle_page esp) PG_SIZE -> pools_room D total k ∅ -> on_screen D k -> lists_rep (k_links k) ∅ ->
  total_at D total (k_vm k) -> heap_room D total table (k_vm k) ->
  exists k' kp up vp, mem_init k = Ok tt k' /\ on_screen D k'
    /\ k_pools k' = <[kernel_vir_pool := vp]> (<[user_phy_pool := up]> (<[kernel_phy_pool := kp]> (k_pools k)))
    /\ addr_base kp = 0x200000 /\ addr_base up = pool_end kp /\ addr_base vp = 0xc0100000
    /\ pool_end up <= total < pool_end up + PG_SIZE
    /\ bit_num (btmp kp) <= bit_num (btmp up) <= bit_num (btmp kp) + 1
    /\ bit_num (btmp vp) = bit_num (btmp kp)
    /\ base_addr (btmp kp) = 0xc009a000 /\ base_addr (btmp up) = map_end kp
    /\ base_addr (btmp vp) = map_end up /\ map_end vp <= idle_page esp
    /\ (forall a, in_block (idle_page esp) PG_SIZE a -> vm_load (k_vm k') a = vm_load (k_vm k) a)
    /\ (forall p, p ∈ [kp; up; vp] -> @bitmap_rep vm _ (vm_mem D) (k_vm k') (btmp p)
          (replicate (Z.to_nat (bit_num (btmp p))) false))
    /\ heap_rep D (mkHeap vp kp table) k' (all_clear total) (all_clear total).
Proof.
  intros F [Hs1 Hs2] Hs R S HL T Hr. destruct (mem_init_ok D total F table k ∅ R S HL T Hr)
    as (h1 & h2 & k' & E & _ & _ & [(v & i & ->) S' M Hb _ _] & Rh).
  pose proof F as [Ft Fe]. destruct (pages_range total Ft) as (P1 & P2 & P3).
  exists (with_vm v (with_io i (pools_made total h1 h2 k))), (kernel_frames total), (user_frames total), (kernel_heap total).
  split; [exact E|]. split; [exact S'|]. split; [reflexivity|].
  do 3 (split; [reflexivity|]). split; [|split; [|split; [reflexivity|split; [reflexivity|
    split; [reflexivity|split; [reflexivity|split; [exact Hs1|split; [|split; [|exact Rh]]]]]]]]].
  - unfold pool_end. simpl. unfold user_pages, kernel_pages, free_pages, USED_MEM, PG_SIZE in *. zdiv_lia.
  - simpl. lia.
  - intros a Ha. unfold in_block in Ha. apply (modifies_load _ _ _ _ M).
    + replace a with (idle_page esp + (a - idle_page esp)) by lia. apply Hs. lia.
    + unfold map_byte, Print.video_byte, PG_SIZE in *. lia.
  - intros p Hp. apply Hb. unfold pool_maps. revert Hp.
    rewrite !elem_of_cons, !elem_of_nil. intros [->|[->|[->|[]]]]; tauto.
Qed.

(** What [init_all] promises; the state [main] continues in. *)
Definition started_kernel D total table im esp k k' : Prop :=
  exists L,
    kernel_ok D (heap_of_total total table) k' (enqueue 31 (idle_page esp) no_queues) L
      (taken total 1) (taken total 1) [idle_page esp]
    /\ on_screen D k'
    /\ k_tcbs k' = {[idle_page esp := idle_tcb (idle_page esp)]}
    /\ mutex_free k' L console_mutex /\ mutex_free k' L kbd_buf
    /\ (exists i, k_ioqs k' !! kbd_buf = Some i /\ ioq_rep i [])
    /\ k_tables k' = devices_ready (idt_ready (im_intr_entry_table im) (im_syscall_entry im) (im_idt im)
         (k_tables k))
    /\ other_writes (k_io k') = pit_words ++ pic_words ++ other_writes (k_io k).

(** C24: [init_all] starts the kernel: from any state the loader can leave it
    returns, and the invariant of the kernel holds with the thread that called
    it as the only thread: number 0, lowest priority, running and in its ready
    queue.  Of the heap one page and one frame are in use, for the ready
    mask.  The mutexes of the console and of the keyboard's buffer are free, the
    buffer is empty, and the processor's and the kernel's tables and the ports
    have got exactly the contents the devices need. *)
Theorem init_all_makes_kernel D total table im esp k :
  memory_fits total -> 0 < kernel_pages total ->
  maps_end total <= idle_page esp /\ idle_page esp + PG_SIZE <= Print.video_base_addr ->
  boot_state D total table esp k ->
  exists k', init_all im esp k = Ok tt k' /\ started_kernel D total table im esp k k'.
Proof.
  intros F H1 Hs B.
  destruct (init_all_ok D total table im esp F H1 Hs k B)
    as (k' & L & E & (K & S & Et & _) & _ & C & Q & I & T & W & _).
  exists k'. split; [exact E|]. exists (device_lists_of L). by split_and!.
Qed.

(** ** Instances

    A machine with 0x26e000 bytes of memory: 55 frames for the kernel, as many for
    users, all zeros.  The loader's page table maps, at 0 and at 0xc0000000, the page with
    the size of the memory, the page of the bitmaps, the stack's and the
    screen's. *)

Definition boot_total : Z := 0x26e000.
Definition boot_esp : Z := 0xc009ef00.
Definition boot_dirs : list Z := [0; 768].
Definition boot_pages : list (Z * Z) := [(0, 0); (0x9a, 0x9a000); (0x9e, 0x9e000); (0xb8, 0xb8000)].
Definition boot_absent : list Z := seqZ 0x100 55.

Lemma boot_layout : layout_ok boot_dirs boot_pages boot_absent = true.
Proof. by vm_compute. Qed.

(** The size of the memory, garbage where the bitmaps will be and on the stack,
    the screen, and zeros in the frames. *)
Definition boot_words : gmap Z Z :=
  FlatMem.of_list 0xb00 [0; 0xe0; 0x26; 0] ∪ FlatMem.of_list 0x9a000 (replicate 21 0xaa).
Definition boot_data : gmap Z Z :=
  boot_words ∪ (screen_data ∪ (FlatMem.of_list 0x9e000 (replicate 4096 0xee)
    ∪ FlatMem.of_list 0x200000 (replicate (110 * 4096) 0))).

#[local] Notation machine := (paged boot_dirs boot_pages boot_absent boot_data).

Lemma boot_bytes : bytes_ok boot_data.
Proof.
  apply bytes_ok_union; [apply data_check_ok; by vm_compute|].
  apply bytes_ok_union; [apply screen_data_bytes|].
  apply bytes_ok_union; (apply bytes_ok_block;
    [apply Forall_forall; intros x [-> _]%elem_of_replicate; lia|rewrite length_replicate; unfold PD, PT; lia]).
Qed.

Lemma boot_screen : screen_at boot_data.
Proof.
  apply screen_at_union.
  - intros j Hj. apply eq_None_not_Some. intros [v Hv].
    apply lookup_union_Some_raw in Hv as [Hv|[_ Hv]];
      apply lookup_map_seqZ_Some in Hv as [H1 Hv]; apply lookup_lt_Some in Hv; simpl in Hv; lia.
  - intros j Hj. destruct (screen_data_screen j Hj) as [H1 H2].
    split; by apply lookup_union_Some_l.
Qed.

Lemma boot_frames j : 0 <= j < 110 -> room boot_data (0x200000 + 4096 * j) 4096.
Proof.
  intros Hj. do 3 apply room_union_r. apply room_block; rewrite ?length_replicate; lia.
Qed.

Lemma boot_spare j : 0 <= j < 110 -> spare [PD] machine (0x200000 + 4096 * j).
Proof.
  intros Hj. apply (paged_spare _ _ _ boot_layout boot_data boot_bytes); [|by apply boot_frames].
  assert (C : forallb (fun j => frame_spare boot_pages (0x200000 + 4096 * j)) (seqZ 0 110) = true) by by vm_compute.
  rewrite forallb_forall in C. apply (C j), list_elem_of_In, elem_of_seqZ. lia.
Qed.

Lemma boot_total_at : total_at [PD] boot_total machine.
Proof.
  assert (H : forall j, 0 <= j < 4 -> boot_data !! (0xb00 + j) = Some (Z.shiftr boot_total (8 * j) mod 256)).
  { intros j Hj. assert (Hd : j = 0 \/ j = 1 \/ j = 2 \/ j = 3) by lia.
    destruct Hd as [->|[->|[->| ->]]]; apply lookup_union_Some_l; by vm_compute. }
  assert (V : forall j, 0 <= j < 4 -> vm_valid [PD] machine (0xc0000b00 + j)
    /\ vm_load machine (0xc0000b00 + j) = Some (Z.shiftr boot_total (8 * j) mod 256)).
  { intros j Hj. replace (0xc0000b00 + j) with (page_va 0 + (0xb00 + j)) by (unfold page_va; lia).
    apply (paged_valid boot_dirs boot_pages boot_absent boot_layout boot_data boot_bytes 0 0); [left|lia|].
    by apply H. }
  constructor.
  - intros j Hj.
    pose proof (fun d (Hd : d ∈ boot_dirs) => paged_maps boot_dirs boot_pages boot_absent boot_layout boot_data d 0 0
      (0xb00 + j) Hd ltac:(left) ltac:(lia)) as T.
    generalize dependent machine. intros m _ T. transitivity (Some (0 + (0xb00 + j))).
    + rewrite <- (T 0 ltac:(left)). f_equal; lia.
    + rewrite <- (T 768 ltac:(right; left)). f_equal; lia.
  - intros j Hj. by apply V.
  - assert (R : forall j, 0 <= j < 4 ->
      rd8 (0xc0000b00 + j) machine = Ok (Z.shiftr boot_total (8 * j) mod 256) machine).
    { intros j Hj. unfold rd8, deref. cbn [load8 vm_ops]. by rewrite (proj2 (V j Hj)). }
    unfold rd32.
    erewrite bind_ok by exact (R 0 ltac:(lia)). erewrite bind_ok by exact (R 1 ltac:(lia)).
    erewrite bind_ok by exact (R 2 ltac:(lia)). erewrite bind_ok by exact (R 3 ltac:(lia)).
    reflexivity.
Qed.

Lemma boot_heap_room : heap_room [PD] boot_total one_table machine.
Proof.
  assert (E : kernel_pages boot_total = 55) by reflexivity.
  assert (Hv : heap_in_table (kernel_heap boot_total)) by by vm_compute.
  constructor.
  - by apply (paged_tables _ _ _ boot_layout boot_data boot_bytes).
  - intros i Hi. apply (paged_page_free _ _ _ boot_layout boot_data _ _ Hv); [|exact Hi].
    change (addr_base (kernel_heap boot_total) / PAGE mod 1024) with 0x100.
    apply elem_of_seqZ. rewrite E in Hi. lia.
  - intros j Hj. rewrite E in Hj. apply (boot_spare j). lia.
Qed.

Lemma boot_room : valid_block (ByteMem0 := vm_mem [PD]) machine MEM_BITMAP_BASE 21
  /\ valid_block (ByteMem0 := vm_mem [PD]) machine 0xc009e000 PG_SIZE.
Proof.
  split.
  - apply (paged_block boot_dirs boot_pages boot_absent boot_layout boot_data boot_bytes 0x9a 0x9a000 0 21);
      [right; left|lia|lia|]. apply room_union_l, room_union_r, room_block; simpl; lia.
  - apply (paged_block boot_dirs boot_pages boot_absent boot_layout boot_data boot_bytes 0x9e 0x9e000 0 4096);
      [right; right; left|lia|lia|].
    apply room_union_r, room_union_r, room_union_l, room_block; rewrite ?length_replicate; lia.
Qed.

(** The data segment, zeroed. *)
Definition boot_links : gmap Z list_elem := heap_of [] (sentinels boot_lists).

Definition boot_kernel : kernel :=
  mkKernel 0x2 machine (cursor_io 0) no_tables boot_links ∅
    (mkSched NULL false NULL (replicate 128 NULL) (mkBitmap 0 0 0))
    (list_to_map ((fun m => (mutex_sem m, 0)) <$> boot_mutexes))
    (list_to_map ((fun m => (m, NULL)) <$> boot_mutexes))
    (list_to_map ((fun p => (p, mkPool (mkBitmap 0 0 0) 0 0)) <$> [kernel_phy_pool; user_phy_pool; kernel_vir_pool]))
    {[kbd_buf := mkIoq NULL NULL (replicate 64 0) 0 0]} (mkKbd false false false false false) 0.

Lemma boot_lists_room : lists_room boot_links ∅ boot_lists.
Proof.
  split.
  - apply (bool_decide_unpack _). by vm_compute.
  - assert (C : forallb (fun a => bool_decide (is_Some (boot_links !! a))) (sentinels boot_lists) = true)
      by by vm_compute.
    rewrite forallb_forall in C. intros a Ha%list_elem_of_In%C. split; [by apply bool_decide_eq_true in Ha|].
    intros (l & xs & Hl & _). by rewrite lookup_empty in Hl.
Qed.

Lemma boot_on_screen : on_screen [PD] boot_kernel.
Proof.
  exists blank_cells, 0. split; [|unfold Print.SCREEN_MAX; lia]. split.
  - apply (paged_screen boot_dirs boot_pages boot_absent); [exact boot_layout| |exact boot_bytes|exact boot_screen].
    right; right; right; left.
  - split; [done|]. simpl. by rewrite lookup_insert_eq, lookup_insert_ne, lookup_singleton_eq.
Qed.

Lemma boot_kernel_state : boot_state [PD] boot_total one_table boot_esp boot_kernel.
Proof.
  destruct boot_room as [R1 R2]. constructor.
  - exact boot_on_screen.
  - exact boot_total_at.
  - exact R1.
  - exact boot_heap_room.
  - exact R2.
  - split; [left|]. change KERNEL_PAGE_DIR_BASE_ADDR with PD. left.
  - done.
  - exact boot_lists_room.
  - intros m Hm. unfold boot_mutexes in Hm. rewrite !elem_of_cons, elem_of_nil in Hm.
    destruct Hm as [->|[->|[->|[->|[->|[]]]]]]; split; eexists; reflexivity.
  - intros p Hp. rewrite !elem_of_cons, elem_of_nil in Hp.
    destruct Hp as [->|[->|[->|[]]]]; eexists; reflexivity.
  - eexists. split; [reflexivity|done].
Qed.

Lemma boot_fits : memory_fits boot_total.
Proof. split; by vm_compute. Qed.

Lemma boot_stack_fits : maps_end boot_total <= idle_page boot_esp
  /\ idle_page boot_esp + PG_SIZE <= Print.video_base_addr.
Proof. split; by vm_compute. Qed.

Definition boot_image : image :=
  mkImage (fun v => 0xc0001000 + 16 * v) 0xc0001900 0xc0007000 0xc0001050 0xc00011a0 0xc0003000 0xc0003006.

Lemma pools_of (m : gmap Z pool) kp up vp :
  let m' := <[kernel_vir_pool := vp]> (<[user_phy_pool := up]> (<[kernel_phy_pool := kp]> m)) in
  m' !! kernel_phy_pool = Some kp /\ m' !! user_phy_pool = Some up.
Proof.
  split; [rewrite !lookup_insert_ne by done; apply lookup_insert_eq|].
  rewrite lookup_insert_ne by done. apply lookup_insert_eq.
Qed.

Lemma mem_init_splits_memory_witness : exists k' kp up, mem_init boot_kernel = Ok tt k'
  /\ k_pools k' !! kernel_phy_pool = Some kp /\ k_pools k' !! user_phy_pool = Some up
  /\ addr_base up = pool_end kp /\ pool_end up <= boot_total < pool_end up + PG_SIZE.
Proof.
  pose proof (boot_kernel_state) as B.
  destruct (mem_init_splits_memory [PD] boot_total one_table boot_esp boot_kernel boot_fits boot_stack_fits
    (bt_stack _ _ _ _ _ B)
    (boot_pools [PD] boot_total one_table boot_esp boot_fits eq_refl boot_stack_fits _ B) (bt_screen _ _ _ _ _ B)
    ltac:(by split; intros *; rewrite lookup_empty) (bt_total _ _ _ _ _ B) (bt_heap _ _ _ _ _ B))
    as (k' & kp & up & vp & E & _ & Ep & _ & Hu & _ & He & _).
  exists k', kp, up. rewrite Ep. split; [exact E|].
  split; [apply pools_of|split; [apply pools_of|split; [exact Hu|exact He]]].
Defined.

Lemma init_all_makes_kernel_witness : exists k', init_all boot_image boot_esp boot_kernel = Ok tt k'
  /\ started_kernel [PD] boot_total one_table boot_image boot_esp boot_kernel k'.
Proof.
  apply (init_all_makes_kernel [PD] boot_total one_table boot_image boot_esp boot_kernel).
  - exact boot_fits.
  - by vm_compute.
  - exact boot_stack_fits.
  - exact (boot_kernel_state).
Defined.

End InitTheorems.
