(* ===== verification/ProcessTheorems.v ===== *)
(** The theorems about processes and about [main] as a whole, with instances on
    the machine of [InitTheorems.v]. *)

From S2P Require Import Prelude Bytes Bitmap Interrupt LinkedList Paging PageTable PageMap Words Ports Print.
From S2P Require Import Descriptors Kernel ReadyQueues Sched Machine Sync Console Idt Memory Heap HeapMachine MemInit.
From S2P Require Import MemoryTheorems Ioqueue Keyboard DeviceTheorems Thread ThreadSpec ThreadRun SchedInit Process.
From S2P Require Import PageDir AddressSpace ProcessRun Init Boot Main ThreadTheorems InitTheorems.

Module ProcessTheorems.
Import Bitmap Interrupt LinkedList Paging PageTable PageMap Words Ports Descriptors Kernel ReadyQueues Sched Machine.
Import Sync Console Idt Memory Heap HeapMachine MemInit MemoryTheorems Ioqueue Keyboard DeviceTheorems Thread ThreadSpec.
Import ThreadRun SchedInit Process PageDir AddressSpace ProcessRun Init Boot Main ThreadTheorems InitTheorems.

Lemma pool_frame_range D H k vb pb (j : nat) : heap_rep D H k vb pb -> pb !! j = Some false ->
  0 <= frame_at H (Z.of_nat j) < 2 ^ 32.
Proof.
  intros R Hj. destruct (hr_pbase _ _ _ _ _ R) as (_ & Hb0 & Hb1). destruct (pool_sizes _ _ _ _ _ R) as (_ & _ & _ & Lp).
  pose proof (lookup_lt_Some _ _ _ Hj). unfold frame_at, PG_SIZE in *. lia.
Qed.

(** C21: [page_dir_create] makes a directory that shares the kernel's half: the
    page it returns is backed, under every directory in use, by a frame that was
    free; with that frame in CR3 the processor translates every kernel address as
    before, and finds the new directory's own entries through the window; below
    the kernel's gigabyte the entries are what the frame held; no other data
    changes, but for the two bitmaps. *)
Theorem page_dir_create_shares D H k vb pb i0 :
  heap_rep D H k vb pb -> vb !! i0 = Some false -> clear_from 0 pb <> [] -> upper_half (k_vm k) ->
  exists (i j : nat) v, let d := page_at H (Z.of_nat i) in let F := frame_at H (Z.of_nat j) in
    vb !! i = Some false /\ pb !! j = Some false
    /\ page_dir_create k = Ok d (with_vm v k)
    /\ heap_rep D H (with_vm v k) (<[i := true]> vb) (<[j := true]> pb)
    /\ (forall c o, c ∈ cr3 v :: D -> 0 <= o < PAGE -> translate (under v c) (d + o) = Some (F + o))
    /\ (forall a, kernel_addr a -> translate (under v F) a = translate v a)
    /\ (forall o, 0 <= o < PAGE -> translate (under v F) (0xfffff000 + o) = Some (F + o))
    /\ (forall x, 0 <= x < 768 -> pde_of (under v F) x = ld32p (phys (k_vm k)) (F + 4 * x))
    /\ (forall a, vm_valid D (k_vm k) a -> ~ bitmap_byte (btmp (h_vpool H)) a ->
         ~ bitmap_byte (btmp (h_ppool H)) a -> vm_load v a = vm_load (k_vm k) a).
Proof.
  intros R Hi Hpb Hu.
  destruct (page_dir_create_ok D H k vb pb i0 R Hi Hpb Hu) as (i & j & v & Hvi & _ & Ej & E & R' & Dm).
  assert (Hpj : pb !! j = Some false) by (apply (taken_free 1 pb 0 j); by rewrite Ej).
  pose proof (dm_shares _ _ _ _ _ _ Dm) as Sh. set (F := frame_at H (Z.of_nat j)) in *.
  pose proof (pool_frame_range D H k vb pb j R Hpj : 0 <= F < 2 ^ 32) as HF.
  pose proof (frame_dir v F Sh) as HFr.
  exists i, j, v. cbv zeta. fold F. do 4 (split; [done|]). split; [|split; [|split; [|split]]].
  - intros c o. rewrite (gr_cr3 _ _ _ (dm_grows _ _ _ _ _ _ Dm)). apply (dm_map _ _ _ _ _ _ Dm).
  - intros a Ka. exact (new_translate v F Sh HF a Ka).
  - intros o Ho. rewrite (translate_dir (under v F)); [|by apply new_self_mapped|done].
    change (cr3 (under v F)) with F. by rewrite HFr.
  - intros x Hx. unfold pde_of. simpl. rewrite HFr. apply ld32p_move. intros n Hn. rewrite <- !Z.add_assoc.
    apply (dm_low _ _ _ _ _ _ Dm). lia.
  - apply (dm_load _ _ _ _ _ _ Dm).
Qed.

(** C19: [process_run] keeps the invariant of the kernel, for one more address
    space: with 25 pages and frames left, it returns; the process is the last of
    all threads and of the lowest queue, its control block in the first free
    page; the running thread, the interrupt flag and every other control block
    are as they were; what another process needs is still there. *)
Theorem process_run_keeps_kernel D entry ptr filename nm H k qs L n N m N' ts :
  kernel_ok D H k qs L (first_used n N) (first_used m N') ts ->
  spawnable H (k_vm k) (first_used m N') -> (n + process_pages <= N)%nat -> (m + process_pages <= N')%nat ->
  (length nm <= NAME_LEN)%nat -> is_u32 entry -> is_u32 ptr -> is_u32 filename ->
  let t := page_at H (Z.of_nat n) in
  exists k' L', process_run entry ptr filename nm k = Ok tt k'
    /\ kernel_ok (frame_at H (Z.of_nat (m + 24)) :: D) H k' (enqueue 31 t qs) L'
         (first_used (n + process_pages) N) (first_used (m + process_pages) N') (ts ++ [t])
    /\ spawnable H (k_vm k') (first_used (m + process_pages) N')
    /\ k_tcbs k !! t = None
    /\ k_tcbs k' = <[t := new_process t (page_at H (Z.of_nat (n + 1))) (page_at H (Z.of_nat (n + 24))) nm k]> (k_tcbs k)
    /\ k_sched k' = sched_table (entered t (thread_table (k_sched k))) (k_sched k)
    /\ k_eflags k' = k_eflags k.
Proof.
  intros K Sp Hn Hm Hnm He Hp Hf t.
  destruct (process_run_ok D entry ptr filename nm H k qs L n N m N' ts K Sp Hn Hm Hnm He Hp Hf)
    as (k' & L' & E & K' & Sp' & Nt & Et & Es & Ee & _).
  exists k', L'. by split_and!.
Qed.

(** The words and addresses under another directory of the list. *)
Lemma under_moved D s d P : d ∈ D -> moved D D s (under s d) P.
Proof. intros Hd a _ Va. by apply vm_switch_valid. Qed.

(** C20: a new process starts where it should, in a space of its own, if the
    free frames were clean: if none of them holds a present directory entry in
    its lower 3 KB ([spawnable]; the code leaves there whatever the frame held).
    When [process_activate] has made it current, CR3 holds its own directory and
    interrupts will use its own kernel stack; every kernel address is translated
    as before, and then no address below the kernel's gigabyte is mapped; all
    its pages are unused in its own map; and the first [context_load] continues
    in [kernel_thread_entry] with [process_entry] and the program as
    arguments. *)
Theorem new_process_starts D entry ptr filename nm H k qs L n N m N' ts :
  kernel_ok D H k qs L (first_used n N) (first_used m N') ts ->
  spawnable H (k_vm k) (first_used m N') -> (n + process_pages <= N)%nat -> (m + process_pages <= N')%nat ->
  (length nm <= NAME_LEN)%nat -> is_u32 entry -> is_u32 ptr -> is_u32 filename ->
  let t := page_at H (Z.of_nat n) in let F := frame_at H (Z.of_nat (m + 24)) in
  exists k' k'' esp, process_run entry ptr filename nm k = Ok tt k'
    /\ process_activate t k' = Ok tt k''
    /\ cr3 (k_vm k'') = F /\ k_esp0 k'' = t + PG_SIZE
    /\ (forall a, kernel_addr a -> translate (k_vm k'') a = translate (k_vm k') a)
    /\ (forall a, 0 <= a < 0xc0000000 -> translate (k_vm k'') a = None)
    /\ bitmap_rep (ByteMem0 := vm_mem (F :: D)) (k_vm k'') (user_map (page_at H (Z.of_nat (n + 1))))
         (replicate (Z.to_nat user_map_bits) false)
    /\ context_load t k'' = Ok (inl (mkFast 0 0 0 0 entry esp)) k''
    /\ ld32 (esp +! 4) k'' = Ok ptr k'' /\ ld32 (esp +! 8) k'' = Ok filename k''.
Proof.
  intros K Sp Hn Hm Hnm He Hp Hf t F.
  destruct (process_run_ok D entry ptr filename nm H k qs L n N m N' ts K Sp Hn Hm Hnm He Hp Hf)
    as (k' & L' & E & K' & _ & _ & Et & _ & _ & _ & _ & B & Fr & _ & _ & [Sh Lo Td _] & _). fold t F in K', Et, B, Fr, Sh, Lo, Td.
  assert (HF : 0 <= F < 2 ^ 32).
  { eapply (pool_frame_range D H k); [apply K|]. apply first_used_free; unfold process_pages in *; lia. }
  set (tc := new_process t _ _ nm k) in *.
  assert (Ht : k_tcbs k' !! t = Some tc) by (rewrite Et; apply lookup_insert_eq).
  pose proof (ko_sched _ _ _ _ _ _ _ _ K') as R.
  destruct (sr_tcbs _ _ _ _ R t tc Ht) as (_ & Hr & _).
  destruct (process_activate_ok (F :: D) k' _ L' t tc R Ht) as (d & _ & Hd & Ea).
  assert (Hnn : (pg_dir tc =? NULL) = false).
  { apply Z.eqb_neq. change (pg_dir tc) with (page_at H (Z.of_nat (n + 24))).
    pose proof (to_range _ _ _ (hr_tables _ _ _ _ _ (ko_heap _ _ _ _ _ _ _ _ K))).
    unfold page_at, PG_SIZE, NULL in *. lia. }
  unfold dir_for in Hd. unfold esp0_for in Ea. rewrite Hnn in Hd, Ea.
  change (pg_dir tc) with (page_at H (Z.of_nat (n + 24))) in Hd. rewrite Td in Hd. injection Hd as <-.
  set (k2 := with_esp0 (u32 (t + PG_SIZE)) (with_vm (under (k_vm k') F) k')) in *.
  destruct (context_load_first (F :: D) entry ptr filename t k2 (under (k_vm k') F) tc Ht eq_refl) as (C1 & C2 & C3).
  { exact Hr. }
  { apply (framed_moved (F :: D) (F :: D) (k_vm k') _ (k_vm k')); [|exact Fr]. apply under_moved. left. }
  exists k', k2, (first_stack t + TS_unused_ret_addr). do 2 (split; [done|]). split; [done|].
  split; [apply u32_small; unfold PG_SIZE in *; lia|].
  split; [exact (new_translate (k_vm k') F Sh HF)|]. split; [|split; [|by split]].
  - intros a Ha. change (k_vm k2) with (under (k_vm k') F). unfold translate.
    destruct (Lo (pd_index a)) as (e & He' & Pe); [unfold pd_index; zdiv_lia|]. rewrite He'. simpl.
    by rewrite Pe.
  - apply (bitmap_rep_moved (F :: D) (F :: D) (k_vm k')); [|exact B]. apply under_moved. left.
Qed.

(** C18: [main] comes to its loop.  From a state the loader can leave in which the
    free frames hold no present directory entry ([spawnable]), with 53 pages for
    the kernel and the bitmaps of the memory below the stack, it initializes the kernel and starts the two threads and the two
    processes, without a failed assertion, a fault or a wait, and turns
    interrupts on ([n] is 0); and as long as no interrupt comes, any number [n]
    of iterations of the loop ends too, with the same threads.  All five are
    ready, the control blocks are those of the two threads with numbers 1 and 2
    and of the two processes with numbers 3 and 4 and directories of their own,
    and the invariant of the kernel holds.  A schedule is due: what happens from
    the first clock interrupt on is not part of this theorem. *)
Theorem main_runs D total table im esp n k :
  memory_fits total -> 53 <= kernel_pages total ->
  maps_end total <= idle_page esp /\ idle_page esp + PG_SIZE <= Print.video_base_addr ->
  is_u32 (im_kernel_thread_entry im) -> is_u32 (im_process_entry im) -> is_u32 (im_arg1 im) -> is_u32 (im_arg2 im) ->
  boot_state D total table esp k -> spawnable (heap_of_total total table) (k_vm k) (taken total 0) ->
  exists k' L, main im esp n k = Ok tt k'
    /\ kernel_ok (0x234000 :: 0x21b000 :: D) (heap_of_total total table) k'
         (enqueue 31 0xc011c000 (enqueue 31 0xc0103000
           (enqueue 8 0xc0102000 (enqueue 8 0xc0101000 (enqueue 31 (idle_page esp) no_queues)))))
         L (taken total 53) (taken total 53) [idle_page esp; 0xc0101000; 0xc0102000; 0xc0103000; 0xc011c000]
    /\ on_screen (0x234000 :: 0x21b000 :: D) k'
    /\ k_tcbs k' = all_tcbs esp
    /\ thread_table (k_sched k') = [idle_page esp; 0xc0101000; 0xc0102000; 0xc0103000; 0xc011c000] ++ replicate 123 NULL
    /\ running_thread (k_sched k') = idle_page esp /\ need_schedule (k_sched k') = true
    /\ if_flag (k_eflags k') = true.
Proof.
  intros F H53 Hs He Hp H1 H2 B Sp.
  destruct (main_ok total table im esp F ltac:(lia) Hs D k n B Sp H53 He Hp H1 H2)
    as (k' & L & E & [K S _ _ _] & T & If & R & N & Tb & _).
  exists k', L. by split_and!.
Qed.

(** ** Instances *)

(** The directory of the machine, and its free frames. *)
Lemma paged_upper_half dirs ps ab data : layout_ok dirs ps ab = true -> upper_half (paged dirs ps ab data).
Proof. intros Hl o Ho. by apply (paged_upper dirs ps ab Hl data). Qed.

Lemma union_later (m1 m2 : gmap Z Z) p v : m1 !! p = None -> m2 !! p = Some v -> (m1 ∪ m2) !! p = Some v.
Proof. intros H1 H2. by rewrite lookup_union_r. Qed.

Lemma block_below a l p : a + Z.of_nat (length l) <= p -> FlatMem.of_list a l !! p = None.
Proof.
  intros Hl. apply eq_None_not_Some. intros [v [Hv Hl']%lookup_map_seqZ_Some]. apply lookup_lt_Some in Hl'. lia.
Qed.

Lemma zeros_at a n p : a <= p < a + Z.of_nat n -> FlatMem.of_list a (replicate n 0) !! p = Some 0.
Proof. intros Hp. apply lookup_map_seqZ_Some. split; [lia|]. apply lookup_replicate_2. lia. Qed.

Lemma boot_frame_byte p : 0x200000 <= p < 0x200000 + 4096 * 110 -> boot_data !! p = Some 0.
Proof.
  intros Hp. apply union_later; [|apply union_later; [|apply union_later]].
  - apply lookup_union_None_2; apply block_below; [simpl|rewrite length_replicate]; lia.
  - apply block_below. rewrite pairs_length. lia.
  - apply block_below. rewrite length_replicate. lia.
  - apply zeros_at. lia.
Qed.

Lemma zero_word m p : (forall o, 0 <= o < 4 -> m !! (p + o) = Some 0) -> ld32p m p = Some 0.
Proof.
  intros H. unfold ld32p. pose proof (H 0 ltac:(lia)) as H0. rewrite Z.add_0_r in H0.
  by rewrite H0, !H by lia.
Qed.

Lemma boot_spawnable : spawnable (heap_of_total boot_total one_table) (k_vm boot_kernel) (taken boot_total 0).
Proof.
  constructor; [by apply paged_upper_half, boot_layout|]. intros j x Hj Hx.
  apply first_used_free in Hj; [|lia]. change (Z.to_nat (kernel_pages boot_total)) with 55%nat in Hj.
  exists 0. split; [|done]. change (k_vm boot_kernel) with (paged boot_dirs boot_pages boot_absent boot_data).
  unfold frame_at. change (addr_base (h_ppool (heap_of_total boot_total one_table))) with 0x200000.
  apply zero_word. intros o Ho. apply (data_not_table _ _ _ boot_layout _ boot_bytes), boot_frame_byte.
  unfold PG_SIZE. lia.
Qed.

(** The kernel of [boot_kernel] when [main] has started its threads. *)
Definition boot_memory : kheap := heap_of_total boot_total one_table.

Lemma boot_threads : exists k L,
  kernel_ok [PD] boot_memory k (two_threads boot_esp) L (first_used 3 55) (first_used 3 55)
    [idle_page boot_esp; heap_page 1; heap_page 2]
  /\ spawnable boot_memory (k_vm k) (first_used 3 55).
Proof.
  destruct (main_threads_ok boot_total one_table boot_image boot_esp boot_fits eq_refl boot_stack_fits [PD] boot_kernel 0
    boot_kernel_state) as (k & L & _ & [K _ _ _ _] & _ & _ & _ & _ & Kp & _); try by vm_compute.
  exists k, L. split; [exact K|]. exact (spawnable_kept boot_total one_table [PD] _ _ 3 boot_spawnable Kp).
Qed.

Lemma page_dir_create_shares_witness : exists (i j : nat) v,
  page_dir_create run_kernel = Ok (page_at demo_heap (Z.of_nat i)) (with_vm v run_kernel)
  /\ heap_rep [PD] demo_heap (with_vm v run_kernel) (<[i := true]> demo_vbits) (<[j := true]> demo_pbits).
Proof.
  destruct (page_dir_create_shares [PD] demo_heap run_kernel demo_vbits demo_pbits 3 run_heap)
    as (i & j & v & _ & _ & E & R & _).
  - reflexivity.
  - by vm_compute.
  - exact (paged_upper_half _ _ _ _ demo_layout).
  - exists i, j, v. split; [exact E|exact R].
Defined.

Lemma process_run_keeps_kernel_witness : exists k k' L',
  process_run 0xc0001050 0xc00011a0 0xc0001637 (Print.text_of "process1") k = Ok tt k'
  /\ kernel_ok [0x21b000; PD] boot_memory k' (enqueue 31 0xc0103000 (two_threads boot_esp)) L'
       (first_used 28 55) (first_used 28 55) [idle_page boot_esp; heap_page 1; heap_page 2; 0xc0103000].
Proof.
  destruct boot_threads as (k & L & K & Sp).
  destruct (process_run_keeps_kernel [PD] 0xc0001050 0xc00011a0 0xc0001637 (Print.text_of "process1")
    boot_memory k _ L 3 55 3 55 _ K Sp) as (k' & L' & E & K' & _).
  - vm_compute. lia.
  - vm_compute. lia.
  - vm_compute. lia.
  - by vm_compute.
  - by vm_compute.
  - by vm_compute.
  - exists k, k', L'. split; [exact E|exact K'].
Defined.

Lemma new_process_starts_witness : exists k k' k'' esp,
  process_run 0xc0001050 0xc00011a0 0xc0001637 (Print.text_of "process1") k = Ok tt k'
  /\ process_activate 0xc0103000 k' = Ok tt k'' /\ cr3 (k_vm k'') = 0x21b000
  /\ context_load 0xc0103000 k'' = Ok (inl (mkFast 0 0 0 0 0xc0001050 esp)) k''
  /\ ld32 (esp +! 8) k'' = Ok 0xc0001637 k''.
Proof.
  destruct boot_threads as (k & L & K & Sp).
  destruct (new_process_starts [PD] 0xc0001050 0xc00011a0 0xc0001637 (Print.text_of "process1")
    boot_memory k _ L 3 55 3 55 _ K Sp) as (k' & k'' & esp & E & Ea & Ec & _ & _ & _ & _ & El & _ & Ef).
  - vm_compute. lia.
  - vm_compute. lia.
  - vm_compute. lia.
  - by vm_compute.
  - by vm_compute.
  - by vm_compute.
  - exists k, k', k'', esp. split; [exact E|]. split; [exact Ea|]. split; [exact Ec|]. split; [exact El|exact Ef].
Defined.

Lemma main_runs_witness : exists k' L, main boot_image boot_esp 1000 boot_kernel = Ok tt k'
  /\ kernel_ok [0x234000; 0x21b000; PD] boot_memory k' (all_queued boot_esp) L (first_used 53 55) (first_used 53 55)
       [0xc009e000; 0xc0101000; 0xc0102000; 0xc0103000; 0xc011c000]
  /\ need_schedule (k_sched k') = true.
Proof.
  destruct (main_runs [PD] boot_total one_table boot_image boot_esp 1000 boot_kernel)
    as (k' & L & E & K & _ & _ & _ & _ & N & _).
  - exact boot_fits.
  - by vm_compute.
  - exact boot_stack_fits.
  - by vm_compute.
  - by vm_compute.
  - by vm_compute.
  - by vm_compute.
  - exact boot_kernel_state.
  - exact boot_spawnable.
  - exists k', L. split; [exact E|]. split; [exact K|exact N].
Defined.

End ProcessTheorems.
