(* ===== verification/UserTheorems.v ===== *)
(** The theorems about user mode: the pages a process asks for, its entry into
    its program, and the two processes of [main]; with instances on the machine
    of [InitTheorems.v]. *)

From S2P Require Import Prelude Bytes Bitmap Interrupt LinkedList Paging PageTable PageMap Words Ports Print.
From S2P Require Import Descriptors Kernel ReadyQueues Sched Machine Sync Console Memory Heap HeapMachine MemInit.
From S2P Require Import Thread ThreadSpec ThreadRun SchedInit Process PageDir AddressSpace ProcessRun NewTable UserPage.
From S2P Require Import ProcessEntry FreshProcess Init Boot Main UserMode MemoryTheorems InitTheorems ProcessTheorems.

Module UserTheorems.
Import Bitmap Interrupt LinkedList Paging PageTable PageMap Words Ports Descriptors Kernel ReadyQueues Sched Machine.
Import Sync Console Memory Heap HeapMachine MemInit Thread ThreadSpec ThreadRun SchedInit Process PageDir AddressSpace.
Import ProcessRun NewTable UserPage ProcessEntry FreshProcess Init Boot Main UserMode MemoryTheorems InitTheorems.
Import ProcessTheorems.

(** C17: [target_vaddr_malloc] gives the running process the page it asks for, in
    a part of its space that has no page table yet: the page is backed by the
    first free user frame, which no other address below the kernel's gigabyte, in
    any space, reaches; its table is in the first free kernel frame; every other
    translation, in this space and in the others, is as before; the page and the
    frame are marked, no other data changes, and the mutex is free again. *)
Theorem target_vaddr_malloc_maps D H k L vb pb up ub tc mb va :
  heap_rep D H k vb pb -> lists_rep (k_links k) L -> mutex_free k L user_mtx ->
  k_pools k !! user_phy_pool = Some up -> user_frames_ok D H (k_vm k) up ub ->
  running_process D H k up tc mb -> entries_apart D (k_vm k) -> page_wanted (k_vm k) tc va mb ->
  clear_from 0 pb <> [] -> clear_from 0 ub <> [] ->
  exists (t j : nat) v, target_vaddr_malloc PF_USER va k = Ok va (mutex_given_back user_mtx (with_vm v k))
    /\ (ub !! j = Some false /\ forall x, (x < j)%nat -> ub !! x <> Some false)
    /\ (forall o, 0 <= o < PAGE -> translate v (va + o) = Some (user_frame up j + o))
    /\ only_here D v va (user_frame up j)
    /\ (forall d a, d ∈ cr3 (k_vm k) :: D -> is_u32 a -> 0 <= pd_index a < 1023 ->
          ~ (frame d = frame (cr3 (k_vm k)) /\ pd_index a = pd_index va) ->
          translate (under v d) a = translate (under (k_vm k) d) a)
    /\ (forall a, is_u32 a -> pd_index a = pd_index va -> frame a <> va -> translate v a = None)
    /\ (forall a, vm_valid D (k_vm k) a -> vm_valid D v a /\ (~ page_bits H up tc a -> vm_load v a = vm_load (k_vm k) a))
    /\ bitmap_rep (ByteMem0 := vm_mem D) v (btmp (user_vaddr_pool tc)) (<[map_index tc va := true]> mb)
    /\ user_frames_ok D H v up (<[j := true]> ub)
    /\ (pb !! t = Some false /\ forall x, (x < t)%nat -> pb !! x <> Some false)
    /\ heap_rep D H (with_vm v k) vb (<[t := true]> pb).
Proof.
  intros R HL F Hup U P A W Hpb Hub.
  destruct (target_vaddr_malloc_ok D H k L vb pb up ub tc mb va R HL F Hup U P A W Hpb Hub)
    as (t & j & v & Ht & Hj & E & [Gh Gu Gm T Go]).
  assert (Hf : frame va = va).
  { rewrite <- (Z.add_0_r va) at 1. apply frame_aligned; [apply W|done]. }
  exists t, j, v. split; [exact E|]. split; [exact Hj|]. split; [|split; [exact Go|split; [|split; [|split]]]].
  - intros o Ho. rewrite <- Hf at 1. by apply (tm_page _ _ _ _ _ _ _ T).
  - apply (tm_other _ _ _ _ _ _ _ T).
  - intros a Ra Ei Na. apply (tm_table _ _ _ _ _ _ _ T); [done|done|by rewrite Hf].
  - intros a Va. split; [by apply (tm_valid _ _ _ _ _ _ _ T)|by apply (tm_load _ _ _ _ _ _ _ T)].
  - split; [exact Gm|]. split; [exact Gu|]. split; [exact Ht|exact Gh].
Qed.

(** C35: [target_vaddr_malloc] in trouble.  When the users have no frame left it
    returns NULL to the process, with the page marked as used in its map and the
    pool's mutex still held, in the name of the process; and a kernel thread
    that asks for a user page stops the kernel. *)
Theorem target_vaddr_malloc_fails D H k L vb pb up ub tc mb va :
  heap_rep D H k vb pb -> mutex_free k L user_mtx ->
  (k_pools k !! user_phy_pool = Some up -> user_frames_ok D H (k_vm k) up ub ->
   running_process D H k up tc mb -> page_wanted (k_vm k) tc va mb -> (forall j, ub !! j <> Some false) ->
   exists v, let k' := with_vm v (mutex_taken user_mtx k) in target_vaddr_malloc PF_USER va k = Ok NULL k'
     /\ k_sems k' !! mutex_sem user_mtx = Some 0
     /\ k_holders k' !! user_mtx = Some (running_thread (k_sched k))
     /\ bitmap_rep (ByteMem0 := vm_mem D) v (btmp (user_vaddr_pool tc)) (<[map_index tc va := true]> mb))
  /\ (k_tcbs k !! running_thread (k_sched k) = Some tc -> pg_dir tc = NULL ->
      target_vaddr_malloc PF_USER va k = Panic "alloc type error!").
Proof.
  intros R F. split.
  - intros Hup U P W Hno.
    destruct (target_vaddr_malloc_full D H k L vb pb up ub tc mb va R F Hup U P W Hno) as (v & E & _ & B).
    exists v. split; [exact E|]. split; [apply lookup_insert_eq|]. split; [apply lookup_insert_eq|exact B].
  - intros Ht Hd. unfold target_vaddr_malloc. erewrite bind_ok by reflexivity. rewrite decide_False by done.
    erewrite bind_ok by (eapply (mutex_lock_free k L); exact F).
    erewrite bind_ok by by apply get_tcb_ok. by rewrite Hd.
Qed.

(** C3: a process enters user mode: when the scheduler picks a process that
    [process_run] has made, the processor continues in [kernel_thread_entry],
    from there in [process_entry], and leaves the kernel with the program's first
    instruction, the user segments, interrupts on and the stack pointer at
    0xc0000000; below it is a page in the first free user frame, which no other
    address below the kernel's gigabyte reaches, in any space; the other spaces
    are as before.  The invariant of the kernel holds, and every other process
    that waited still does. *)
Theorem process_enters_user_mode D H k qs L vb pb ts up ub p :
  kernel_ok D H k qs L vb pb ts -> fresh_process D k p -> proc_place H up (mask_byte k) p ->
  users_ready D H k L up ub -> clear_from 0 pb <> [] -> clear_from 0 ub <> [] -> is_u32 (pr_file p) ->
  exists k1 esp (t j : nat) k2, dispatch_to (pr_tcb p) k = Ok tt k1
    /\ context_load (pr_tcb p) k1 = Ok (inl (mkFast 0 0 0 0 (pr_entry p) esp)) k1
    /\ ld32 (esp +! 4) k1 = Ok (pr_func p) k1 /\ ld32 (esp +! 8) k1 = Ok (pr_file p) k1
    /\ kernel_thread_entry process_entry (pr_file p) k1 = Ok (user_context (pr_file p) 0xc0000000) k2
    /\ (ub !! j = Some false /\ forall x, (x < j)%nat -> ub !! x <> Some false)
    /\ stack_given D (k_vm k) (k_vm k2) (pr_frame p) (user_frame up j)
    /\ kernel_ok D H k2 qs L vb (<[t := true]> pb) ts /\ users_ready D H k2 L up (<[j := true]> ub)
    /\ forall q, fresh_process D k q -> proc_place H up (mask_byte k) q -> proc_apart p q -> fresh_process D k2 q.
Proof.
  intros K Fp Pl Ur Hpb Hub Hf.
  destruct (process_user_mode D H k qs L vb pb ts up ub p K Fp Pl Ur Hpb Hub Hf)
    as (t & j & k2 & (k1 & esp & E1 & E2 & E3 & E4 & E5) & _ & Hj & Sg & K2 & U2 & _ & Fq).
  exists k1, esp, t, j, k2. do 5 (split; [done|]). split; [exact Hj|]. split; [exact Sg|]. split; [exact K2|].
  split; [exact U2|exact Fq].
Qed.

(** C1: the two processes of [main] are kept apart, if memory is clean.  Let the
    loader leave a state in which the kernel's free frames hold no present
    directory entry ([spawnable]; the code does not clear a new directory) and
    the users' frames are in nobody's address space ([users_spare]), with 55
    pages for the kernel and the bitmaps of the memory below the stack.  After [main] and any number of iterations of its loop
    without an interrupt, let first one and then the other process be given the
    processor by [dispatch_to] (which of the ready threads the scheduler takes
    when is not part of this; others are ahead of them) and run
    [kernel_thread_entry] and [process_entry] without an interrupt.  Then both
    enter their programs; their stacks are at the same address in two frames,
    each of which is reached in the process's own space, at that page, and
    nowhere else below the kernel's gigabyte; and the invariant of the kernel
    holds. *)
Theorem main_processes_isolated D total table im esp n k :
  memory_fits total -> 55 <= kernel_pages total ->
  maps_end total <= idle_page esp /\ idle_page esp + PG_SIZE <= Print.video_base_addr ->
  is_u32 (im_kernel_thread_entry im) -> is_u32 (im_process_entry im) -> is_u32 (im_arg1 im) -> is_u32 (im_arg2 im) ->
  boot_state D total table esp k -> spawnable (heap_of_total total table) (k_vm k) (taken total 0) ->
  users_spare total D (k_vm k) ->
  let D' := 0x234000 :: 0x21b000 :: D in
  exists k0 k1 k2 L, main im esp n k = Ok tt k0
    /\ enters_user_mode (proc1 im) k0 k1 /\ enters_user_mode (proc2 im) k1 k2
    /\ isolated D' (k_vm k2) (proc1 im) (proc2 im) (pool_end (kernel_frames total))
         (pool_end (kernel_frames total) + PG_SIZE)
    /\ kernel_ok D' (heap_of_total total table) k2 (all_queued esp) L (taken total 53) (taken total 55) (all_threads esp).
Proof.
  intros F H55 Hs He Hp H1 H2 B Sp Us D'.
  destruct (main_ok total table im esp F ltac:(lia) Hs D k n B Sp ltac:(lia) He Hp H1 H2)
    as (k0 & L & E & R & _ & _ & _ & _ & _ & W & Us' & _).
  destruct (started_user_modes total table im F ltac:(lia) _ k0 _ L 53 _ R W (Us' Us) ltac:(lia))
    as (k1 & k2 & E1 & E2 & I & K).
  exists k0, k1, k2, L. do 3 (split; [done|]). split; [|exact K].
  assert (Eb : user_frame (user_frames total) 0 = pool_end (kernel_frames total)
    /\ user_frame (user_frames total) 1 = pool_end (kernel_frames total) + PG_SIZE).
  { unfold user_frame, pool_end. simpl. unfold PG_SIZE. lia. }
  destruct Eb as [<- <-]. exact I.
Qed.

(** ** Instances *)

Lemma boot_users_spare : users_spare boot_total [PD] (k_vm boot_kernel).
Proof.
  intros j Hj. assert (E : user_frame (user_frames boot_total) j = 0x200000 + 4096 * (55 + Z.of_nat j)).
  { unfold user_frame. change (addr_base (user_frames boot_total)) with (0x200000 + 4096 * 55). unfold PG_SIZE. lia. }
  rewrite E. apply boot_spare. change (user_pages boot_total) with 55 in Hj. lia.
Qed.

Definition boot_spaces : list Z := [0x234000; 0x21b000; PD].

(** The kernel of [boot_kernel] in the loop of [main]. *)
Lemma boot_started : exists k L,
  running_ok boot_total one_table boot_spaces k (all_queued boot_esp) L 53 (all_threads boot_esp)
  /\ both_wait boot_total one_table boot_image boot_spaces k /\ users_spare boot_total boot_spaces (k_vm k).
Proof.
  destruct (main_ok boot_total one_table boot_image boot_esp boot_fits eq_refl boot_stack_fits [PD] boot_kernel 10
    boot_kernel_state boot_spawnable) as (k & L & _ & R & _ & _ & _ & _ & _ & W & Us & _); [by vm_compute..|].
  exists k, L. split; [exact R|]. split; [exact W|]. exact (Us boot_users_spare).
Qed.

Definition boot_users : pool := user_frames boot_total.

Lemma process_enters_user_mode_witness : exists k k2 (j : nat),
  kernel_thread_entry process_entry process1_ptr k = Ok (user_context process1_ptr 0xc0000000) k2
  /\ cr3 (k_vm k2) = 0x21b000 /\ translate (k_vm k2) 0xbffff000 = Some (user_frame boot_users j).
Proof.
  destruct boot_started as (k & L & R & [[F1 P1 _] _] & Us).
  destruct (process_enters_user_mode boot_spaces boot_memory k _ L _ _ _ boot_users (no_users boot_total) (proc1 boot_image)
    (rn_kernel _ _ _ _ _ _ _ _ R) F1 P1 (running_users_ready boot_total one_table boot_fits eq_refl _ k _ L 53 _ R Us))
    as (k1 & esp & t & j & k2 & _ & _ & _ & _ & E & _ & Sg & _).
  - by vm_compute.
  - by vm_compute.
  - by vm_compute.
  - exists k1, k2, j. split; [exact E|]. split; [exact (st_cr3 _ _ _ _ _ Sg)|].
    pose proof (st_page _ _ _ _ _ Sg 0 ltac:(by vm_compute)) as T. by rewrite !Z.add_0_r in T.
Defined.

(** The first process, picked. *)
Lemma boot_process : exists k L tc mb vb pb, heap_rep boot_spaces boot_memory k vb pb /\ lists_rep (k_links k) L
  /\ mutex_free k L user_mtx /\ k_pools k !! user_phy_pool = Some boot_users
  /\ user_frames_ok boot_spaces boot_memory (k_vm k) boot_users (no_users boot_total)
  /\ at_entry boot_spaces boot_memory k boot_users tc mb /\ clear_from 0 pb <> [].
Proof.
  destruct boot_started as (k & L & R & [[F1 P1 _] _] & Us).
  destruct (running_users_ready boot_total one_table boot_fits eq_refl _ k _ L 53 _ R Us) as [Up U Mu _].
  destruct (fp_tcb _ _ _ F1) as (tc & Ht & _). pose proof (fp_frame _ _ _ F1) as HF.
  destruct (fresh_at_entry boot_spaces boot_memory k boot_users _ _ tc F1 P1 Ht) as (A & _).
  pose proof (dispatched_kernel boot_spaces boot_memory k _ L _ _ _ _ tc _ (rn_kernel _ _ _ _ _ _ _ _ R) Ht HF) as K.
  eexists (dispatched k _ tc _), L, _, _, _, _. split; [apply (ko_heap _ _ _ _ _ _ _ _ K)|].
  split; [apply (ko_sched _ _ _ _ _ _ _ _ K)|]. split; [by destruct Mu|]. split; [exact Up|].
  split; [by apply switch_users|]. split; [exact A|by vm_compute].
Qed.

Lemma target_vaddr_malloc_maps_witness : exists k k' (j : nat),
  target_vaddr_malloc PF_USER USER_STACK3_VADDR k = Ok USER_STACK3_VADDR k'
  /\ translate (k_vm k') USER_STACK3_VADDR = Some (user_frame boot_users j).
Proof.
  destruct boot_process as (k & L & tc & mb & vb & pb & R & HL & M & Up & U & [Ru Ap W _ _] & Hpb).
  destruct (target_vaddr_malloc_maps boot_spaces boot_memory k L vb pb boot_users (no_users boot_total) tc mb
    USER_STACK3_VADDR R HL M Up U Ru Ap W Hpb) as (t & j & v & E & _ & T & _).
  - by vm_compute.
  - eexists k, _, j. split; [exact E|]. pose proof (T 0 ltac:(by vm_compute)) as T0. by rewrite !Z.add_0_r in T0.
Defined.

(** All bits of a map set. *)
Lemma fill_bits D k b bits : bitmap_rep (ByteMem0 := vm_mem D) (k_vm k) b bits -> exists v,
  modifies (ByteMem0 := vm_mem D) (bitmap_byte b) (k_vm k) v
  /\ bitmap_rep (ByteMem0 := vm_mem D) v b (replicate (length bits) true).
Proof.
  intros B. enough (H : forall n, (n <= length bits)%nat -> exists v,
    modifies (ByteMem0 := vm_mem D) (bitmap_byte b) (k_vm k) v
    /\ bitmap_rep (ByteMem0 := vm_mem D) v b (replicate n true ++ drop n bits)).
  { destruct (H (length bits) ltac:(lia)) as (v & M & Bv). exists v. rewrite drop_ge, app_nil_r in Bv by lia. by split. }
  induction n as [|n IH]; intros Hn; [by exists (k_vm k)|]. destruct (IH ltac:(lia)) as (v & M & Bv).
  destruct (set_bit D (with_vm v k) b _ n Bv) as (v' & _ & Bv' & M').
  { rewrite length_app, length_replicate, length_drop. lia. }
  exists v'. split; [by etransitivity|]. destruct (lookup_lt_is_Some_2 bits n Hn) as [x Hx].
  rewrite (drop_S _ _ _ Hx), insert_app_r_alt, length_replicate, Nat.sub_diag in Bv' by (rewrite length_replicate; lia).
  rewrite replicate_S_end, <- app_assoc. exact Bv'.
Qed.

Lemma target_vaddr_malloc_fails_witness : exists k k',
  target_vaddr_malloc PF_USER USER_STACK3_VADDR k = Ok NULL k' /\ k_sems k' !! mutex_sem user_mtx = Some 0.
Proof.
  destruct boot_process as (k & L & tc & mb & vb & pb & R & HL & M & Up & U & [Ru Ap W _ _] & Hpb).
  destruct (fill_bits boot_spaces k (btmp boot_users) _ (uf_bits _ _ _ _ _ U)) as (v & Mv & Bv).
  assert (Kv : vm_keeps boot_spaces (k_vm k) v) by exact (modifies_keeps _ _ _ Mv).
  assert (Hb : forall b bits, bitmap_rep (ByteMem0 := vm_mem boot_spaces) (k_vm k) b bits ->
    (forall a, bitmap_byte (btmp boot_users) a -> ~ bitmap_byte b a) -> bitmap_rep (ByteMem0 := vm_mem boot_spaces) v b bits).
  { intros b bits B Ha. eapply bitmap_rep_modifies; [exact Mv| |exact B]. intros i Hi Hx. apply (Ha _ Hx). unfold bitmap_byte. lia. }
  assert (R' : heap_rep boot_spaces boot_memory (with_vm v k) vb pb).
  { eapply heap_rep_bit; [exact R|exact Mv|apply Hb; [apply R|]|apply Hb; [apply R|]|done|done];
      intros a Ha; destruct (uf_apart _ _ _ _ _ U a Ha); assumption. }
  assert (Hno : forall j, replicate (length (no_users boot_total)) true !! j <> Some false).
  { intros j [E _]%lookup_replicate. done. }
  destruct (target_vaddr_malloc_fails boot_spaces boot_memory (with_vm v k) L vb pb boot_users
    (replicate (length (no_users boot_total)) true) tc mb USER_STACK3_VADDR R')
    as [Full _]; [by destruct M|].
  destruct (Full Up) as (v' & E & S & _); [| | |exact Hno|].
  - apply (user_frames_keeps boot_spaces boot_memory (k_vm k) v boot_users (no_users boot_total) _ U Kv Bv).
    intros j Hj. destruct (Hno j Hj).
  - destruct Ru. constructor; [exact rp_tcb0|exact rp_dir0| |exact rp_num0|exact rp_apart0]. apply Hb; [exact rp_bits0|].
    intros a Ha Hm. destruct (rp_apart0 a Hm) as [N _]. exact (N Ha).
  - destruct W. constructor; [exact pw_addr0|exact pw_aligned0|exact pw_from0|exact pw_in_map0|]. destruct pw_absent0 as (e & He & Pe). exists e. split; [|done]. rewrite <- He.
    rewrite <- (under_cr3 v), <- (under_cr3 (k_vm k)), (proj1 Kv). apply (keeps_dirs boot_spaces _ _ Kv); [left|by vm_compute].
  - eexists _, _. split; [exact E|exact S].
Defined.

Lemma main_processes_isolated_witness : exists k0 k1 k2, main boot_image boot_esp 1000 boot_kernel = Ok tt k0
  /\ enters_user_mode (proc1 boot_image) k0 k1 /\ enters_user_mode (proc2 boot_image) k1 k2
  /\ isolated boot_spaces (k_vm k2) (proc1 boot_image) (proc2 boot_image) 0x237000 0x238000.
Proof.
  destruct (main_processes_isolated [PD] boot_total one_table boot_image boot_esp 1000 boot_kernel)
    as (k0 & k1 & k2 & L & E & E1 & E2 & I & _).
  - exact boot_fits.
  - by vm_compute.
  - exact boot_stack_fits.
  - by vm_compute.
  - by vm_compute.
  - by vm_compute.
  - by vm_compute.
  - exact boot_kernel_state.
  - exact boot_spawnable.
  - exact boot_users_spare.
  - exists k0, k1, k2. split; [exact E|]. split; [exact E1|]. split; [exact E2|exact I].
Defined.

End UserTheorems.
