(* ===== verification/SystemTheorems.v ===== *)
(** The theorem about the whole system, the turns of the threads that [main]
    starts, with an instance at the state the loader leaves. *)

From S2P Require Import Prelude Bytes Bitmap Interrupt LinkedList Paging Ports Print Descriptors Kernel Sched Sync Keyboard.
From S2P Require Import Memory Heap Thread Process Init Entry Boot Main Machine HeapMachine Typing KernelTyping.
From S2P Require Import ReadyQueues PageMap MemInit SchedInit ProcessRun Switching MainTurns.
From S2P Require Import InitTheorems ProcessTheorems.

Module SystemTheorems.
Import Bitmap Interrupt LinkedList Paging Ports Descriptors Kernel Sched Sync Keyboard Memory Heap Thread Process.
Import Init Entry Boot Main Machine HeapMachine Typing KernelTyping InitTheorems ProcessTheorems.
Import ReadyQueues PageMap MemInit SchedInit ProcessRun Switching MainTurns.

(** C2: the threads [main] starts take turns.  From a state the loader can leave,
    with 53 pages for the kernel, the bitmaps of the memory below the stack, all
    free frames clean ([spawnable]) and every variable in the range of its C
    type ([kernel_typed]), [main] starts its two threads and its two processes
    and comes to its loop, with interrupts on.  A run from there is a sequence of steps of [Switching]: the running thread computes,
    the clock interrupts it, it blocks by [thread_block], or it wakes another
    thread.  (Waiting for a semaphore is not a step: the runs are those in which
    no thread waits for the console.)  In every run whoever gets the processor
    continues with the context it had.  In a run in which the threads only
    compute and the clock ticks, without blocking and waking, each of the four
    threads gets the processor and begins, in [kernel_thread_entry], within 97,
    109, 925 and 1309 clock interrupts; such runs exist, with any number of clock
    interrupts. *)
Theorem main_threads_take_turns D total table im esp k :
  memory_fits total -> 53 <= kernel_pages total ->
  maps_end total <= idle_page esp /\ idle_page esp + PG_SIZE <= Print.video_base_addr ->
  is_u32 (im_kernel_thread_entry im) -> is_u32 (im_process_entry im) -> is_u32 (im_arg1 im) -> is_u32 (im_arg2 im) ->
  boot_state D total table esp k -> spawnable (heap_of_total total table) (k_vm k) (taken total 0) -> kernel_typed k ->
  let D' := 0x234000 :: 0x21b000 :: D in
  exists k', main im esp 0 k = Ok tt k' /\ if_flag (k_eflags k') = true
    /\ (forall m, exists es k'', steps D' k' es k'' /\ Forall ticking es /\ clocks es = m)
    /\ (forall es k'', steps D' k' es k'' -> all_continue es (first_contexts im))
    /\ (forall es k'' t m, steps D' k' es k'' -> Forall ticking es ->
         (t, m) ∈ [(0xc0101000, 97%nat); (0xc0102000, 109%nat); (0xc0103000, 925%nat); (0xc011c000, 1309%nat)] ->
         (m <= clocks es)%nat ->
         exists es1 r c es2, es = es1 ++ Switch r c t (first_context im t) :: es2).
Proof.
  intros F H53 Hs He Hp H1 H2 B Sp Ty D'.
  destruct (main_turns total table im esp F ltac:(lia) Hs D k 0 B Sp H53 He Hp H1 H2 Ty)
    as (k' & L & E & Th & Er & En & Et & If).
  exists k'. split; [exact E|]. split; [exact If|]. split; [|split].
  - intros m. exact (clocks_exist D' m k' _ _ _ Th).
  - intros es k'' St. exact (proj1 (steps_next D' k' es k'' _ _ _ Th St)).
  - intros es k'' t m St Ft Ht Hc.
    destruct (first_place total table esp F ltac:(lia) Hs t m Ht) as (px & q & i & Hq & Hx & Hm & Nt & Hin).
    apply (due_comes_back D' es k' k'' _ _ _ (idle_tcb (idle_page esp)) px q i t (first_context im t) Th St Ft En).
    + rewrite Er, Et. by apply all_tcbs_idle with total.
    + by rewrite Er.
    + done.
    + by rewrite Er.
    + by apply started_context.
    + rewrite Er. change (Z.to_nat (priority (idle_tcb (idle_page esp)))) with 31%nat. lia.
Qed.

(** ** An instance *)

Lemma boot_kernel_typed : kernel_typed boot_kernel.
Proof.
  assert (Hlinks : map_Forall (fun a e => prev e = 0 /\ next e = 0 /\ 0 <= a < 2 ^ 32 + PAGE /\ a <> front_of_queues) boot_links).
  { apply (bool_decide_unpack _). by vm_compute. }
  unfold boot_kernel. constructor; cbn [k_eflags k_vm k_io k_tables k_links k_tcbs k_sched k_sems k_holders k_pools
    k_ioqs k_clock].
  - done.
  - split; [|done]. apply (paged_u8 boot_dirs boot_pages boot_absent boot_data boot_bytes).
  - split; [done|]. split; [apply (bool_decide_unpack _); by vm_compute|]. by split; [|constructor].
  - repeat split; try done; apply map_Forall_empty.
  - intros a e He. destruct (Hlinks a e He) as (E1 & E2 & E3 & E4). split; [by split|]. split; [by rewrite E1|by rewrite E2].
  - apply map_Forall_empty.
  - split; [done|]. split; [done|]. split; [split; [done|by apply Forall_replicate]|done].
  - apply (bool_decide_unpack _). by vm_compute.
  - apply (bool_decide_unpack _). by vm_compute.
  - intros a p (q & [= _ ->] & _)%elem_of_list_to_map_2%list_elem_of_fmap. by repeat split.
  - apply map_Forall_singleton. split; [done|]. split; [done|]. split; [split; [done|by apply Forall_replicate]|done].
  - done.
Qed.

(** After [main] the machine runs, and each thread has its turn. *)
Lemma main_threads_take_turns_witness : exists k', main boot_image boot_esp 0 boot_kernel = Ok tt k'
  /\ (exists es k'', steps [0x234000; 0x21b000; PD] k' es k'' /\ clocks es = 1309%nat
       /\ exists es1 r c es2, es = es1 ++ Switch r c 0xc011c000 (first_context boot_image 0xc011c000) :: es2).
Proof.
  destruct (main_threads_take_turns [PD] boot_total one_table boot_image boot_esp boot_kernel boot_fits
    ltac:(by vm_compute) boot_stack_fits ltac:(by vm_compute) ltac:(by vm_compute) ltac:(by vm_compute)
    ltac:(by vm_compute) boot_kernel_state boot_spawnable boot_kernel_typed) as (k' & E & _ & X & _ & T).
  exists k'. split; [exact E|]. destruct (X 1309%nat) as (es & k'' & St & F & Hc). exists es, k''.
  split; [exact St|]. split; [exact Hc|].
  apply (T es k'' 0xc011c000 1309%nat St F); [do 3 right; left|by rewrite Hc].
Defined.

End SystemTheorems.
